(* ===== verification/_CoqProject ===== *)
-Q . S2P
Prelude.v
Messages.v
Peer.v
Dht.v
RecvWindow.v
Lru.v
Protobuf.v
Opcode.v
Address.v
Log.v
Component.v
Stream.v
Crypto.v
Package.v
Backoff.v
Keepalive.v
Discovery.v
Client.v
Network.v
Inbound.v
Incoming.v
Handlers.v
Udp.v
Query.v
Builder.v
Transport.v
Mapping.v
Topologies.v
Word.v
Prime.v
Modp.v
FieldRep.v
Fe.v
Amd64.v
FeAmd64.v
Field.v
Scalar.v
Const.v
ConstAmd64.v
Curve.v
Group.v
Decode.v
Table.v
TableAmd64.v
ConstGen.v
Recode.v
ScalarMult.v
Ed25519.v
Arch.v
