(* ===== verification/Prelude.v ===== *)
(** * A verification of cocher, a peer-to-peer networking library in Go

    ** The program

    A node ([network.Network]) has a key pair and an address.  It listens on the transport layers
    registered for the schemes of its addresses, keeps one client ([PeerClient]) and one
    connection per peer address, and exchanges protobuf messages with its peers: a message is
    tagged with an opcode, numbered, signed over its sender and payload, framed by a length and
    written to the stream (or sent as one UDP datagram).  Incoming messages are checked, put in
    order by a receive window, queued as jobs of the peer's client and dispatched: a reply goes
    to the request that waits for it, bytes to the client's byte stream, anything else to the
    components.  Components (discovery over a Kademlia routing table, reconnection with backoff,
    keepalive) are called back at startup, on a message, and on connections and disconnections.
    Signatures are ed25519, of which the repository has its own implementation.

    ** The files

    The program's file is named under [src/]; operations have its names.

    - [Prelude]: outcomes of Go code ([res]: a value, an [error], a panic), the state monad [ST]
      built on it with its notations, tactics, lemmas on lists and machine integers.
    - [Messages], [Protobuf]: [internal/protobuf/stream.pb.go], the message structs and the codec
      ([Size], [MarshalTo], [Unmarshal], [skipStream] of every message).
    - [Opcode]: [types/opcode/opcode.go], the two maps between opcodes and message types.
    - [Peer]: [peer/identity.go], identities and their XOR distance.
    - [Dht]: [dht/routes.go], the buckets of the routing table.
    - [RecvWindow]: [network/recv_window.go], the ring buffer that orders messages by nonce.
    - [Lru]: [types/lru/cache.go]; [Address]: [network/address.go], which uses it to resolve
      host names; with the standard library's [url.Parse], [net.SplitHostPort] and
      [strconv.ParseUint].
    - [Log]: [utils/log/log.go], the levels, the lines of the logger and its destinations.
    - [Component]: [network/component_list.go]; the callbacks are events of the node.
    - [Stream], [Package]: [network/stream.go] and [network/package.go], the two ways a message
      leaves: frames over a [bufio.Writer], datagrams.
    - [Crypto]: [crypto/keypair.go], [crypto/policy.go], [crypto/noop/], [crypto/blake2b/],
      [network/utils.go]: the policies as classes ([SignaturePolicy], [HashPolicy]) and the laws of a signature scheme
      ([SignatureLaws]), against which the node's theorems about signing are proved.
    - [Client]: the part of [network/client.go] that concerns one client.
    - [Network]: [network/network.go] and [network/client.go], the node's state and everything
      that sends, dials, listens and closes.
    - [Inbound]: the receiving half of [network/network.go]: what [Accept] does with its first
      message, the steps of the goroutines of [Accept], those of [AcceptUdp], the job queue,
      [dispatchMessage]; and the operations of a whole node ([op], [run_op]).  [Incoming] has the
      loop of [Accept] with its goroutines, [Udp] that of [AcceptUdp].
    - [Builder]: [network/builder.go]; [Transport]: [network/transport/], the TCP, KCP and UDP
      layers as the [Environment] of a node.
    - [Discovery], [Backoff], [Keepalive]: the components [network/discovery/],
      [network/backoff/] and [network/keepalive/], each as what it does with its own state.
      [Handlers]: [network/message.go] and [network/component.go], the context a component is
      called with, and the handlers run on the node.  [Query]: [queryPeerByID] of
      [network/discovery/rpc.go], on the node that asks and the node that is asked.
    - [Mapping]: the components [network/nat/] and [network/addressmap/], which replace the
      address of the node at startup.
    - [Topologies]: [examples/topologies/topologies.go], a program over [Builder] and [Network].
    - [Word], [Prime]: machine arithmetic with wrap-around; primality certificates.
    - The package [crypto/ed25519/internal/edwards25519/].  Its field elements have two
      representations, chosen by a build tag; [FieldRep] is what both promise: the class
      [FieldElements] of their operations, [Constants] of the constants in their limbs and
      [FieldLaws] of the operations' values and bounds.  [Fe] and [Const] implement it with the
      limbs of 25.5 bits of [fe.go] and [const.go]; [FeAmd64] and [ConstAmd64] with the limbs
      of 51 bits of [fe_amd64.go] and [const_amd64.go], whose products are in assembly:
      [Amd64] is the machine that runs [fe_mul_amd64.s] and [fe_square_amd64.s].
      [Field], [Group], [Decode], [ScalarMult] ([field.go], [group.go]) are over the classes,
      as the code is over the type; [Table] and [TableAmd64] check the tables of each
      representation, [Arch] compares the two, and [ConstGen] is the program
      [const_amd64_gen.go] that makes one table from the other.  [Scalar], [Recode]: the scalars and their
      recodings.  [Modp], [Curve] are the mathematics all are checked against.
    - [Ed25519]: [crypto/ed25519/], the scheme, with the instance [ed25519_laws] of
      [SignatureLaws], over any representation.

    ** State and operations

    The state of a component is a record with the fields of the Go struct.  An operation that may
    fail or panic has a result in [res]; one of a node is a computation of [ST Network], which
    keeps the state on an error and stops on a panic, as Go does.  Pointers to clients are
    indices of the node's list of clients, so that two holders of a pointer see the same client;
    what the goroutines of a connection or a lookup share is in the record of the run.  An
    operation that writes through a pointer argument returns the new value as well: the portable
    [FeToBytes] normalises the limbs of the element it is given, and so do the tests that call it.

    A method that holds a mutex to its end is one step.  Where the code starts goroutines or
    waits, the model splits at that point and a theorem about the whole takes any order of the
    parts: [Inbound.run_op] has the steps of a node, [Incoming.accept_step] those of a connection
    and its goroutines, [Udp.AcceptUdp_step] those of a UDP socket; in [Discovery], [find_step1]
    has those of [FindNode], its goroutines and their [WaitGroup], and the choices of a lookup are
    the orders of answers.  A channel that is only closed is a flag; a wait with a timeout is told
    whether the signal comes in time.  What an operation does to the outside (callbacks, closed
    connections, datagrams) is its trace of events.

    Integers are in [Z] with the width of the Go type: wire and window arithmetic wraps at 64
    (or 16) bits, the limbs of [Fe] and [Scalar] at 32 and 64.  Durations of the backoff are
    computed in binary64.

    ** What the theorems show

    - The node: [Incoming.stream_delivery] carries messages from one node's [Write] to the
      other's job queue, each once, through any interleaving of the receiver's goroutines in which
      none overtakes by the window, and in order when they submit one after the other;
      [interleaved_submits_reorder] and [overtaken_first_is_lost] are runs of the code outside
      these conditions.  [Inbound.node_history] is the invariant of all interleavings;
      [Inbound.signature_scope] reduces the signature check to the policy's answer, and says what
      passes without one and that a refused message changes nothing; [dispatchMessage_spec], [Client_cached], [PeerClient_Close_spec], [Build_spec] give
      the operations by cases; [prepared_message_dispatched] is the round trip between nodes, and
      [lookup_query_answered] that of a request and its reply through the handler of the other
      node's discovery component.  [datagram_delivery] is the delivery over UDP.
      [early_reply_is_lost], [failed_dial_reported_ready], [closed_client_is_cached],
      [unnormalised_sender_stays] and [malformed_datagram_ends_service] exhibit what the code does in races and error paths.
    - Around the node: [transports_fit] (the types the node asserts of listeners and connections
      hold, unless the port could not be opened), [client_addresses], [nat_Startup_spec],
      [topologies_never_connect] (the example connects nobody).
    - Wire: [Message_roundtrip], [Unmarshal_terminates], [stream_roundtrip],
      [SerializeMessage_injective], [registry_consistent].
    - Refinements: the receive window implements a reorder buffer
      ([RecvWindow_refines_reorder_buffer], with [RecvWindow_in_order] for what follows for its
      users), the routing table a bounded map ([routing_table_refines_map]), the cache an LRU list
      ([Gets_lru], for any initialisers; [failed_Get_evicts] is the one that fails on a full cache).
    - Routing and discovery: [reachable_table_wf] (on a reachable table no operation panics on an
      identity of the node's length, and [Update] on none; [empty_hash_panics] is one of another),
      [FindClosestPeers_spec], [XorID_metric], [performLookup_correct] (a lookup ends under every
      schedule), [FindNode_bounded] (of all schedules of [FindNode], those that let a goroutine end
      before it is counted panic, [early_done_panics]; the others end).
    - Addresses and small components: [ToUnifiedAddress_normal] (with a scheme and without a
      zone: [schemeless_not_normal], [zoned_not_normal]), [notifications_are_changes],
      [startBackoff_bounded]; of the logger [NameLevel_LevelName], [level_gates], [InitLog_spec].
    - Field and scalars: no limb overflows and every operation has its value modulo p or l
      ([FeMul_correct], [FeToBytes_canonical], [FeInvert_correct], [ScReduce_correct],
      [ScMulAdd_correct]); the assembly, run instruction by instruction, leaves the limbs of
      the product ([assembly_correct]).
    - Group: the operations compute the addition law of the curve, whose completeness is proved
      in [Curve] ([group_operations], [FromBytes_correct], [tables_correct],
      [scalar_multiplication]).  These hold for both representations, which therefore
      compute the same bytes ([architectures_agree]); the constants of one are those of the other
      converted, number by number ([generator_reproduces_constants]).
    - Signatures: [signature_verifies], [Verify_correct] (an equation on the curve decides), and
      [signature_malleable].

    ** Fuel and bounds

    A loop that is not structural carries fuel and returns the panic [PFuel] without it; a
    theorem shows that this does not happen.  A varint has at most ten bytes, and every other
    loop of [Unmarshal] consumes input, so the length of the input is enough
    ([Unmarshal_terminates]); a lookup asks a peer once, so the number of reachable peers is
    enough ([performLookup_correct]); the retries of the backoff are bounded by the number of
    attempts.  Loops over limbs, bits, digits and buckets have the constant bounds of the code.

    ** Parameters

    Code outside the repository is a parameter: the resolver ([net.LookupHost], [net.ParseIP]),
    the sockets of [net] and kcp ([Sockets]) and, for a node in general, its transport layers and
    connections ([Environment]), the UPnP gateway ([Gateway]), the file system and the caller's
    name of the logger, [blake2b] and SHA-512 (a function to byte strings of a fixed length),
    [math.Pow], [sort.Slice] (some sorted permutation), the
    application's messages ([UserMessages]) and components.  A theorem
    that needs a property of one has it as a hypothesis, met in its witness by a concrete
    function.  No hypothesis is made on unforgeability: nothing is said of what cannot be signed.

    ** Not modelled

    - The signal handler of [Network.Init] ([waitExit]), the tickers that call [flush_tick] and the
      keepalive round at their times, and the second's sleep before a cleanup: times are not
      modelled, only the order of what happens.
    - The generated printers of the messages ([String], [GoString]), the file descriptor and
      runtime hooks of the generated protobuf code.  In the lookups of [Discovery] the answers of
      the peers are the parameter [query], in any order; [Query] is one of them, on its own.
    - The text around the numbers [const_amd64_gen.go] prints.
    - [utils/script/gen_pb.go], which runs protoc; test doubles; the example programs other than
      [Topologies], which are command lines over the library (flags, terminal input, counters),
      and the mailboxes and timeouts of that one. *)

From Stdlib Require Export ZArith Lia Bool Sorted.
From Stdlib Require Export Strings.Byte Strings.String.
From stdpp Require Export base tactics list sorting countable gmap.


Declare Scope go_scope.
Delimit Scope go_scope with go.
#[export] Set Default Goal Selector "!".
#[local] Open Scope Z_scope.

(** ** Go outcomes: values, error returns and run-time panics *)

(** The run-time panics the modelled code can raise.  Two are not Go panics: [PFuel] is what a
    fuelled definition returns when its fuel runs out, and the termination theorems show it
    never does; [PBlocked] is a goroutine that waits for ever, for a mutex nobody will
    release (or for an event outside the run). *)
Inductive panic :=
| PNilDeref
| PIndex
| PSlice
| PDivZero
| PCloseClosed
| PTypeAssert
| PExplicit (msg : string)
| PFuel
| PBlocked.

Inductive res (A : Type) :=
| Ok (a : A)
| Err (e : string)
| Panic (p : panic).
Arguments Ok {A} a.
Arguments Err {A} e.
Arguments Panic {A} p.

#[export] Instance res_ret : MRet res := @Ok.
#[export] Instance res_bind : MBind res := fun A B k m =>
  match m with
  | Ok a => k a
  | Err e => Err e
  | Panic p => Panic p
  end.
#[export] Instance res_fmap : FMap res := fun A B f m =>
  match m with
  | Ok a => Ok (f a)
  | Err e => Err e
  | Panic p => Panic p
  end.

Definition is_ok {A} (r : res A) : bool :=
  match r with Ok _ => true | _ => false end.
Definition is_panic {A} (r : res A) : bool :=
  match r with Panic _ => true | _ => false end.

(** Code that reads and writes a state, and returns a value or an error: the state survives
    both.  A panic ends the run; its state is what the panic left. *)
Definition ST (S A : Type) : Type := S -> S * res A.

Section ST.
Context {S : Type}.
#[export] Instance ST_ret : MRet (ST S) := fun A a s => (s, Ok a).
#[export] Instance ST_bind : MBind (ST S) := fun A B k m s =>
  match m s with
  | (s, Ok a) => k a s
  | (s, Err e) => (s, Err e)
  | (s, Panic p) => (s, Panic p)
  end.
Definition lift {A} (r : res A) : ST S A := fun s => (s, r).
Definition get {A} (f : S -> A) : ST S A := fun s => (s, Ok (f s)).
Definition modify (f : S -> S) : ST S () := fun s => (f s, Ok ()).
Definition fail {A} (e : string) : ST S A := fun s => (s, Err e).
Definition crash {A} (p : panic) : ST S A := fun s => (s, Panic p).
(** [x, err := m]: the error as a value. *)
Definition attempt {A} (m : ST S A) : ST S (A + string) := fun s =>
  match m s with
  | (s, Ok a) => (s, Ok (inl a))
  | (s, Err e) => (s, Ok (inr e))
  | (s, Panic p) => (s, Panic p)
  end.
(** [defer f ()]: [f] runs after [m], however [m] returned. *)
Definition deferred {A} (f : ST S ()) (m : ST S A) : ST S A := fun s =>
  match m s with
  | (s, Panic p) => (s, Panic p)
  | (s, r) => match f s with
              | (s, Panic p) => (s, Panic p)
              | (s, _) => (s, r)
              end
  end.
(** [for x in l]. *)
Fixpoint forall_do {A} (f : A -> ST S ()) (l : list A) : ST S () :=
  match l with
  | [] => mret ()
  | x :: l => f x ≫= fun _ => forall_do f l
  end.
End ST.

(** ** Fixed-width integers *)

Definition u8 (z : Z) : Z := z mod 2 ^ 8.
Definition u16 (z : Z) : Z := z mod 2 ^ 16.
Definition u32 (z : Z) : Z := z mod 2 ^ 32.
Definition u64 (z : Z) : Z := z mod 2 ^ 64.
(** The signed reading of the low [w] bits. *)
Definition sint (w z : Z) : Z := (z + 2 ^ (w - 1)) mod 2 ^ w - 2 ^ (w - 1).
Definition i32 (z : Z) : Z := sint 32 z.
Definition i64 (z : Z) : Z := sint 64 z.

(** ** Bytes, strings and slices *)

Abbreviation byte := Byte.byte.
(** A Go string is a sequence of bytes. *)
Abbreviation bytes := (list byte).
(** A Go byte slice is [None] when nil. *)
Abbreviation slice := (option (list byte)).

Definition b2z (b : byte) : Z := Z.of_N (Byte.to_N b).
Definition z2b (z : Z) : byte :=
  match Byte.of_N (Z.to_N (z mod 256)) with Some b => b | None => x00 end.
(** The content of a slice: nil and empty have the same one. *)
Definition sbytes (s : slice) : bytes := default [] s.
Definition str (s : string) : bytes := list_byte_of_string s.

#[export] Instance byte_eq_dec : EqDecision byte := Byte.byte_eq_dec.
#[export] Program Instance byte_countable : Countable byte :=
  inj_countable Byte.to_N Byte.of_N _.
Next Obligation. intros b. apply Byte.of_to_N. Qed.

Definition bxor (a b : byte) : byte := z2b (Z.lxor (b2z a) (b2z b)).

(** [Zlength] as the Go [len]. *)
Definition zlen {A} (l : list A) : Z := Z.of_nat (length l).
(** Indexing as Go does it: a negative index or one past the end panics. *)
Definition index {A} (l : list A) (i : Z) : res A :=
  if i <? 0 then Panic PIndex
  else match l !! Z.to_nat i with Some x => Ok x | None => Panic PIndex end.
(** [l[a:b]] for a slice whose capacity is its length. *)
Definition subslice {A} (l : list A) (a b : Z) : res (list A) :=
  if (a <? 0) || (b <? a) || (zlen l <? b) then Panic PSlice
  else Ok (take (Z.to_nat (b - a)) (drop (Z.to_nat a) l)).

(** [bytes.Compare] of the standard library. *)
Fixpoint bytes_compare (a b : bytes) : comparison :=
  match a, b with
  | [], [] => Eq
  | [], _ :: _ => Lt
  | _ :: _, [] => Gt
  | x :: a', y :: b' =>
      match b2z x ?= b2z y with
      | Eq => bytes_compare a' b'
      | c => c
      end
  end.

(** Big-endian and little-endian fixed-size integers ([encoding/binary]). *)
Fixpoint le_bytes (n : nat) (v : Z) : bytes :=
  match n with
  | O => []
  | S n' => z2b v :: le_bytes n' (Z.shiftr v 8)
  end.
Fixpoint le_value (l : bytes) : Z :=
  match l with
  | [] => 0
  | b :: l' => b2z b + 256 * le_value l'
  end.
Definition be_bytes (n : nat) (v : Z) : bytes := reverse (le_bytes n v).
Definition be_value (l : bytes) : Z := le_value (reverse l).

(** ** Sorting with a Go comparator *)

(** Insertion before the first element that is not strictly less: a stable sort. *)
Fixpoint sinsert {A} (less : A -> A -> bool) (x : A) (l : list A) : list A :=
  match l with
  | [] => [x]
  | y :: l' => if less y x then y :: sinsert less x l' else x :: y :: l'
  end.
Definition isort {A} (less : A -> A -> bool) (l : list A) : list A :=
  foldr (sinsert less) [] l.

(** A comparator is usable for sorting when it is a strict weak order. *)
Class StrictWeak {A} (less : A -> A -> bool) : Prop := {
  sw_irrefl : forall x, less x x = false;
  sw_trans : forall x y z, less x y = true -> less y z = true -> less x z = true;
  sw_cotrans : forall x y z, less x z = true -> less x y = true \/ less y z = true;
}.

(** [not_after less x y]: nothing requires [y] to stand before [x]. *)
Definition not_after {A} (less : A -> A -> bool) (x y : A) : Prop := less y x = false.

(** ** Transition sequences *)

Section Star.
Context {S L : Type} (step : S -> L -> S -> Prop).
Inductive star : S -> list L -> S -> Prop :=
| star_refl s : star s [] s
| star_step s l s' ls s'' : step s l s' -> star s' ls s'' -> star s (l :: ls) s''.
End Star.

(** ** The equations of the state monad *)

Section STEquations.
Context {S A B : Type}.
Lemma bind_ret (a : A) (k : A -> ST S B) s : (mret a ≫= k) s = k a s.
Proof. done. Qed.
Lemma bind_get (f : S -> A) (k : A -> ST S B) s : (get f ≫= k) s = k (f s) s.
Proof. done. Qed.
Lemma bind_modify f (k : () -> ST S B) s : (modify f ≫= k) s = k () (f s).
Proof. done. Qed.
Lemma bind_lift (r : res A) (k : A -> ST S B) s :
  (lift r ≫= k) s = match r with Ok a => k a s | Err e => (s, Err e) | Panic p => (s, Panic p) end.
Proof. by destruct r. Qed.
Lemma bind_fail e (k : A -> ST S B) s : (fail e ≫= k) s = (s, Err e).
Proof. done. Qed.
(** A first part that is known to return. *)
Lemma bind_Ok (m : ST S A) (k : A -> ST S B) s s' a : m s = (s', Ok a) -> (m ≫= k) s = k a s'.
Proof. unfold mbind, ST_bind. by intros ->. Qed.
Lemma bind_Err (m : ST S A) (k : A -> ST S B) s s' e : m s = (s', Err e) -> (m ≫= k) s = (s', Err e).
Proof. unfold mbind, ST_bind. by intros ->. Qed.
Lemma bind_inv (m : ST S A) (k : A -> ST S B) s s' b :
  (m ≫= k) s = (s', Ok b) -> exists s1 a, m s = (s1, Ok a) /\ k a s1 = (s', Ok b).
Proof. unfold mbind, ST_bind. destruct (m s) as [s1 [a|e|p]]; [eauto|done..]. Qed.
Lemma deferred_inv (f : ST S ()) (m : ST S A) s s' a :
  deferred f m s = (s', Ok a) -> exists s1, m s = (s1, Ok a) /\ fst (f s1) = s' /\ is_panic (snd (f s1)) = false.
Proof.
  unfold deferred. destruct (m s) as [s1 [b|e|p]]; [|by destruct (f s1) as [? []]|done].
  destruct (f s1) as [s2 [?|?|?]] eqn:Ef; intros [= -> ->]; exists s1; by rewrite Ef.
Qed.
(** The result of a run from the value it returns. *)
Lemma run_eq (m : ST S A) s r : snd (m s) = r -> m s = (fst (m s), r).
Proof. intros <-. by destruct (m s). Qed.
Lemma attempt_eq (m : ST S A) s : attempt m s =
  match m s with (s', Ok a) => (s', Ok (inl a)) | (s', Err e) => (s', Ok (inr e)) | (s', Panic p) => (s', Panic p) end.
Proof. done. Qed.
End STEquations.

(** ** What a computation may do to its state

    [frames R m]: every run of [m] changes the state along [R], however it ends.  A preorder [R]
    makes this compositional, and the tactic [frame] goes through the code of [m]. *)

Create HintDb frames.
Section Frames.
Context {S : Type} (R : relation S) `{!PreOrder R}.
Definition frames {A} (m : ST S A) : Prop := forall s, R s (fst (m s)).

Lemma frames_ret {A} (a : A) : frames (mret a).
Proof. intros s. reflexivity. Qed.
Lemma frames_lift {A} (r : res A) : frames (lift r).
Proof. intros s. reflexivity. Qed.
Lemma frames_get {A} (f : S -> A) : frames (get f).
Proof. intros s. reflexivity. Qed.
Lemma frames_fail {A} e : frames (fail (A:=A) e).
Proof. intros s. reflexivity. Qed.
Lemma frames_crash {A} p : frames (crash (A:=A) p).
Proof. intros s. reflexivity. Qed.
Lemma frames_modify f : (forall s, R s (f s)) -> frames (modify f).
Proof. intros Hf s. apply Hf. Qed.

(** After [m] only what [m] may answer is considered. *)
Lemma frames_bind_at {A B} (m : ST S A) (k : A -> ST S B) s :
  R s (fst (m s)) -> (forall a, snd (m s) = Ok a -> R (fst (m s)) (fst (k a (fst (m s))))) ->
  R s (fst ((m ≫= k) s)).
Proof.
  intros Hm Hk. unfold mbind, ST_bind. destruct (m s) as [s1 [a|e|p]]; simpl in *; [|done..].
  etransitivity; [exact Hm|]. by apply Hk.
Qed.
Lemma frames_bind {A B} (m : ST S A) (k : A -> ST S B) :
  frames m -> (forall a, frames (k a)) -> frames (m ≫= k).
Proof. intros Hm Hk s. apply frames_bind_at; [apply Hm|]. intros a _. apply Hk. Qed.
Lemma frames_attempt {A} (m : ST S A) : frames m -> frames (attempt m).
Proof. intros Hm s. specialize (Hm s). unfold attempt. by destruct (m s) as [s1 []]. Qed.
Lemma frames_deferred {A} (f : ST S ()) (m : ST S A) : frames f -> frames m -> frames (deferred f m).
Proof.
  intros Hf Hm s. specialize (Hm s). unfold deferred.
  destruct (m s) as [s1 [a|e|p]]; simpl in *; [| |done]; pose proof (Hf s1) as Hf1;
    destruct (f s1) as [s2 [?|?|?]]; simpl in *; by etransitivity.
Qed.
Lemma frames_forall_do {A} (f : A -> ST S ()) l : (forall x, frames (f x)) -> frames (forall_do f l).
Proof. intros Hf. induction l as [|x l IH]; cbn; [apply frames_ret|apply frames_bind; auto]. Qed.
End Frames.
#[export] Hint Resolve frames_ret frames_lift frames_get frames_fail frames_crash : frames.

Ltac frame1 :=
  match goal with
  | |- PreOrder _ => exact _
  | |- forall _, frames _ _ => intro
  | |- frames _ (mbind _ _) => apply frames_bind
  | |- frames _ (attempt _) => apply frames_attempt
  | |- frames _ (deferred _ _) => apply frames_deferred
  | |- frames _ (forall_do _ _) => apply frames_forall_do
  | |- frames _ (let '(_, _) := ?x in _) => destruct x
  | |- frames _ (match ?x with _ => _ end) => destruct x
  | |- frames _ (if ?x then _ else _) => destruct x
  | |- frames _ _ => solve [eauto 2 with frames typeclass_instances]
  end.
Ltac frame := cbv zeta; repeat (frame1; cbv beta zeta).

(** ** Lemmas on integers *)

Create HintDb cocher.
Create Rewrite HintDb cocher.

Lemma u64_range z : 0 <= u64 z < 2 ^ 64.
Proof. apply Z.mod_pos_bound; lia. Qed.
Lemma u64_small z : 0 <= z < 2 ^ 64 -> u64 z = z.
Proof. intros; apply Z.mod_small; lia. Qed.
Lemma u32_range z : 0 <= u32 z < 2 ^ 32.
Proof. apply Z.mod_pos_bound; lia. Qed.
Lemma u32_small z : 0 <= z < 2 ^ 32 -> u32 z = z.
Proof. intros; apply Z.mod_small; lia. Qed.
Lemma u16_small z : 0 <= z < 2 ^ 16 -> u16 z = z.
Proof. intros; apply Z.mod_small; lia. Qed.
Lemma i64_small z : - 2 ^ 63 <= z < 2 ^ 63 -> i64 z = z.
Proof. intros; unfold i64, sint; rewrite Z.mod_small; lia. Qed.
Lemma i32_small z : - 2 ^ 31 <= z < 2 ^ 31 -> i32 z = z.
Proof. intros; unfold i32, sint; rewrite Z.mod_small; lia. Qed.
Lemma i64_range z : - 2 ^ 63 <= i64 z < 2 ^ 63.
Proof.
  unfold i64, sint. pose proof (Z.mod_pos_bound (z + 2 ^ (64 - 1)) (2 ^ 64)).
  change (64 - 1) with 63 in *. lia.
Qed.
#[export] Hint Resolve u64_range u32_range i64_range : cocher.

(** ** Lemmas on bytes *)

Lemma b2z_range b : 0 <= b2z b < 256.
Proof. destruct b; vm_compute; split; congruence. Qed.
#[export] Hint Resolve b2z_range : cocher.

Lemma b2z_z2b z : b2z (z2b z) = z mod 256.
Proof.
  unfold z2b, b2z. pose proof (Z.mod_pos_bound z 256 ltac:(lia)).
  destruct (Byte.of_N (Z.to_N (z mod 256))) eqn:E.
  - apply Byte.to_of_N in E. rewrite E. lia.
  - apply Byte.of_N_None_iff in E. lia.
Qed.

Lemma z2b_b2z b : z2b (b2z b) = b.
Proof. destruct b; vm_compute; reflexivity. Qed.

#[export] Instance b2z_inj : Inj (=) (=) b2z.
Proof. intros a b H. by rewrite <-(z2b_b2z a), H, z2b_b2z. Qed.

Lemma b2z_z2b_small z : 0 <= z < 256 -> b2z (z2b z) = z.
Proof. intros. by rewrite b2z_z2b, Z.mod_small. Qed.
#[export] Hint Rewrite b2z_z2b z2b_b2z : cocher.

Lemma testbit_high c k i : 0 <= k <= i -> 0 <= c < 2 ^ k -> Z.testbit c i = false.
Proof.
  intros [Hk Hi] Hc. by rewrite <-(Z.mod_small c (2 ^ k)), Z.mod_pow2_bits_high by lia.
Qed.

Lemma lxor_pow2_range k a b :
  0 <= k -> 0 <= a < 2 ^ k -> 0 <= b < 2 ^ k -> 0 <= Z.lxor a b < 2 ^ k.
Proof.
  intros Hk Ha Hb. replace (Z.lxor a b) with (Z.lxor a b mod 2 ^ k).
  { apply Z.mod_pos_bound. lia. }
  apply Z.bits_inj'; intros i Hi. destruct (decide (i < k)) as [Hlt|Hge].
  - by rewrite Z.mod_pow2_bits_low.
  - rewrite Z.mod_pow2_bits_high by lia. rewrite Z.lxor_spec.
    by rewrite !(testbit_high _ k) by (done || lia).
Qed.

(** Concatenating a [k]-bit number below another is a disjunction of bits. *)
Lemma concat_bits a b k :
  0 <= k -> 0 <= b < 2 ^ k -> a * 2 ^ k + b = Z.lor (Z.shiftl a k) b.
Proof.
  intros Hk Hb. rewrite <-Z.shiftl_mul_pow2 by done.
  assert (Hd : Z.land (Z.shiftl a k) b = 0).
  { apply Z.bits_inj'; intros i Hi. rewrite Z.land_spec, Z.bits_0, Z.shiftl_spec by done.
    destruct (decide (i < k)); [by rewrite Z.testbit_neg_r by lia|].
    rewrite (testbit_high b k) by (done || lia). apply andb_false_r. }
  by rewrite Z.add_nocarry_lxor, Z.lxor_lor.
Qed.

Lemma lxor_split x y u v k :
  0 <= k -> 0 <= u < 2 ^ k -> 0 <= v < 2 ^ k ->
  Z.lxor (x * 2 ^ k + u) (y * 2 ^ k + v) = Z.lxor x y * 2 ^ k + Z.lxor u v.
Proof.
  intros Hk Hu Hv. pose proof (lxor_pow2_range k u v Hk Hu Hv).
  rewrite !concat_bits by done. apply Z.bits_inj'; intros i Hi.
  rewrite Z.lxor_spec, !Z.lor_spec, !Z.shiftl_spec, !Z.lxor_spec by done.
  destruct (decide (i < k)) as [Hlt|Hge].
  - by rewrite !(Z.testbit_neg_r _ (i - k)) by lia.
  - rewrite (testbit_high u k), (testbit_high v k) by (done || lia).
    by rewrite !orb_false_r.
Qed.

Lemma lxor_le_add a b : 0 <= a -> 0 <= b -> Z.lxor a b <= a + b.
Proof.
  intros. rewrite <-Z.add_lxor_2land.
  assert (0 <= Z.land a b) by (apply Z.land_nonneg; lia). lia.
Qed.

Lemma b2z_bxor a b : b2z (bxor a b) = Z.lxor (b2z a) (b2z b).
Proof.
  apply b2z_z2b_small. change 256 with (2 ^ 8).
  apply lxor_pow2_range; [lia|apply b2z_range..].
Qed.

Lemma bxor_comm a b : bxor a b = bxor b a.
Proof. apply (inj b2z). by rewrite !b2z_bxor, Z.lxor_comm. Qed.
Lemma bxor_nilpotent a : bxor a a = x00.
Proof. apply (inj b2z). by rewrite b2z_bxor, Z.lxor_nilpotent. Qed.
Lemma bxor_assoc a b c : bxor (bxor a b) c = bxor a (bxor b c).
Proof. apply (inj b2z). by rewrite !b2z_bxor, Z.lxor_assoc. Qed.
Lemma bxor_zero_r a : bxor a x00 = a.
Proof. apply (inj b2z). by rewrite b2z_bxor, Z.lxor_0_r. Qed.
Lemma bxor_zero_iff a b : bxor a b = x00 <-> a = b.
Proof.
  split; [|intros ->; apply bxor_nilpotent].
  intros H. rewrite <-(bxor_zero_r a), <-(bxor_nilpotent b).
  by rewrite <-bxor_assoc, H, bxor_comm, bxor_zero_r.
Qed.

(** ** Lemmas on [encoding/binary] *)

Lemma length_le_bytes n v : length (le_bytes n v) = n.
Proof. revert v; induction n; intros; simpl; auto. Qed.
Lemma length_be_bytes n v : length (be_bytes n v) = n.
Proof. unfold be_bytes. by rewrite length_reverse, length_le_bytes. Qed.

Lemma le_value_bytes n v : le_value (le_bytes n v) = v mod 256 ^ Z.of_nat n.
Proof.
  revert v; induction n as [|n IH]; intros v; simpl le_value.
  - by rewrite Z.mod_1_r.
  - rewrite b2z_z2b, IH, Z.shiftr_div_pow2 by lia. change (2 ^ 8) with 256.
    rewrite Nat2Z.inj_succ, Z.pow_succ_r by lia.
    rewrite Z.rem_mul_r by lia. lia.
Qed.

Lemma le_value_range l : 0 <= le_value l < 256 ^ zlen l.
Proof.
  unfold zlen. induction l as [|b l IH]; simpl le_value; simpl length; [lia|].
  rewrite Nat2Z.inj_succ, Z.pow_succ_r by lia.
  pose proof (b2z_range b). nia.
Qed.

Lemma le_bytes_value l : le_bytes (length l) (le_value l) = l.
Proof.
  induction l as [|b l IH]; simpl; [done|].
  pose proof (b2z_range b). f_equal.
  - apply (inj b2z). rewrite b2z_z2b.
    rewrite Z.mul_comm, Z_mod_plus_full. by apply Z.mod_small.
  - rewrite Z.shiftr_div_pow2 by lia. change (2 ^ 8) with 256.
    rewrite Z.mul_comm, Z_div_plus_full by lia.
    rewrite (Z.div_small (b2z b)) by lia. by rewrite Z.add_0_l.
Qed.

Lemma le_bytes_inj n v w :
  0 <= v < 256 ^ Z.of_nat n -> 0 <= w < 256 ^ Z.of_nat n ->
  le_bytes n v = le_bytes n w -> v = w.
Proof.
  intros Hv Hw E. apply (f_equal le_value) in E. rewrite !le_value_bytes in E.
  by rewrite !Z.mod_small in E by done.
Qed.

Lemma be_value_bytes n v : be_value (be_bytes n v) = v mod 256 ^ Z.of_nat n.
Proof. unfold be_value, be_bytes. rewrite reverse_involutive. apply le_value_bytes. Qed.

Lemma be_value_range l : 0 <= be_value l < 256 ^ zlen l.
Proof.
  unfold be_value. pose proof (le_value_range (reverse l)) as H.
  unfold zlen in *. by rewrite length_reverse in H.
Qed.

Lemma le_value_snoc l b : le_value (l ++ [b]) = le_value l + 256 ^ zlen l * b2z b.
Proof.
  unfold zlen. induction l as [|c l IH]; cbn [le_value app length]; [lia|].
  rewrite IH, Nat2Z.inj_succ, Z.pow_succ_r by lia. ring.
Qed.

Lemma be_value_cons b l : be_value (b :: l) = b2z b * 256 ^ zlen l + be_value l.
Proof.
  unfold be_value. rewrite reverse_cons, le_value_snoc.
  unfold zlen. rewrite length_reverse. ring.
Qed.

(** ** Lemmas on lexicographic comparison *)

Lemma bytes_compare_refl a : bytes_compare a a = Eq.
Proof. induction a; simpl; [done|]. by rewrite Z.compare_refl. Qed.

Lemma bytes_compare_eq a b : bytes_compare a b = Eq <-> a = b.
Proof.
  split; [|intros ->; apply bytes_compare_refl].
  revert b; induction a as [|x a IH]; intros [|y b]; simpl; try done.
  destruct (b2z x ?= b2z y) eqn:E; try done. intros H.
  apply Z.compare_eq, (inj b2z) in E. subst. f_equal; auto.
Qed.

Lemma bytes_compare_antisym a b : bytes_compare b a = CompOpp (bytes_compare a b).
Proof.
  revert b; induction a as [|x a IH]; intros [|y b]; simpl; try done.
  rewrite Z.compare_antisym. destruct (b2z x ?= b2z y); simpl; auto.
Qed.

Lemma bytes_compare_trans a b c :
  bytes_compare a b = Lt -> bytes_compare b c = Lt -> bytes_compare a c = Lt.
Proof.
  revert b c; induction a as [|x a IH]; intros [|y b] [|z c]; simpl; try done.
  destruct (Z.compare_spec (b2z x) (b2z y)) as [E|E|E]; try done;
  destruct (Z.compare_spec (b2z y) (b2z z)) as [E'|E'|E']; try done; intros.
  - rewrite E, E', Z.compare_refl. eauto.
  - rewrite E. by apply Z.compare_lt_iff in E' as ->.
  - rewrite <-E'. by apply Z.compare_lt_iff in E as ->.
  - assert (b2z x < b2z z) as Hlt by lia. by apply Z.compare_lt_iff in Hlt as ->.
Qed.

(** On strings of one length the order is that of the big-endian values. *)
Lemma bytes_compare_be a b :
  length a = length b -> bytes_compare a b = (be_value a ?= be_value b).
Proof.
  revert b; induction a as [|x a IH]; intros [|y b]; try done.
  intros [= Hl]. cbn [bytes_compare]. rewrite !be_value_cons.
  pose proof (be_value_range a) as Ha. pose proof (be_value_range b) as Hb.
  unfold zlen in *. rewrite <-Hl in *.
  set (M := 256 ^ Z.of_nat (length a)) in *.
  destruct (Z.compare_spec (b2z x) (b2z y)) as [E|E|E].
  - rewrite E, IH by done. by rewrite Z.add_compare_mono_l.
  - symmetry. apply Z.compare_lt_iff. nia.
  - symmetry. apply Z.compare_gt_iff. nia.
Qed.

Lemma be_value_inj a b : length a = length b -> be_value a = be_value b -> a = b.
Proof.
  intros Hl E. apply bytes_compare_eq. rewrite bytes_compare_be by done.
  rewrite E. apply Z.compare_refl.
Qed.

(** ** Lemmas on lists, indexing and slicing *)

#[export] Instance zlen_proper {A} : Proper ((≡ₚ) ==> (=)) (@zlen A).
Proof. intros l k H. unfold zlen. by rewrite H. Qed.

Lemma zlen_nonneg {A} (l : list A) : 0 <= zlen l.
Proof. unfold zlen. lia. Qed.
Lemma zlen_app {A} (l k : list A) : zlen (l ++ k) = zlen l + zlen k.
Proof. unfold zlen. rewrite length_app. lia. Qed.
Lemma zlen_cons {A} (x : A) l : zlen (x :: l) = 1 + zlen l.
Proof. unfold zlen. simpl. lia. Qed.
Lemma zlen_nil {A} : zlen (@nil A) = 0.
Proof. done. Qed.
Lemma zlen_zero {A} (l : list A) : zlen l = 0 <-> l = [].
Proof. unfold zlen. split; [destruct l; simpl; [done|lia]|by intros ->]. Qed.
#[export] Hint Resolve zlen_nonneg : cocher.

Lemma index_app_cons {A} (pre : list A) x post i :
  i = zlen pre -> index (pre ++ x :: post) i = Ok x.
Proof.
  intros ->. unfold index. pose proof (zlen_nonneg pre).
  destruct (Z.ltb_spec (zlen pre) 0); [lia|].
  unfold zlen. rewrite Nat2Z.id.
  by rewrite list_lookup_middle.
Qed.

Lemma index_ok {A} (l : list A) i : 0 <= i < zlen l -> exists x, index l i = Ok x.
Proof.
  intros [H1 H2]. unfold index. destruct (Z.ltb_spec i 0); [lia|].
  destruct (lookup_lt_is_Some_2 l (Z.to_nat i)) as [x ->]; [unfold zlen in *; lia|eauto].
Qed.

Lemma subslice_app {A} (pre mid post : list A) a b :
  a = zlen pre -> b = zlen pre + zlen mid ->
  subslice (pre ++ mid ++ post) a b = Ok mid.
Proof.
  intros -> ->. unfold subslice. rewrite !zlen_app.
  pose proof (zlen_nonneg pre). pose proof (zlen_nonneg mid). pose proof (zlen_nonneg post).
  destruct (Z.ltb_spec (zlen pre) 0); [lia|].
  destruct (Z.ltb_spec (zlen pre + zlen mid) (zlen pre)); [lia|].
  destruct (Z.ltb_spec (zlen pre + (zlen mid + zlen post)) (zlen pre + zlen mid)); [lia|].
  simpl. f_equal. rewrite Z.add_simpl_l. unfold zlen. rewrite !Nat2Z.id.
  by rewrite drop_app_length, take_app_length.
Qed.

Lemma subslice_ok {A} (l : list A) a b :
  0 <= a <= b -> b <= zlen l ->
  subslice l a b = Ok (take (Z.to_nat (b - a)) (drop (Z.to_nat a) l)).
Proof.
  intros [??] ?. unfold subslice.
  destruct (Z.ltb_spec a 0); [lia|]. destruct (Z.ltb_spec b a); [lia|].
  destruct (Z.ltb_spec (zlen l) b); [lia|]. done.
Qed.

Lemma Forall_filter_id {A} (P : A -> Prop) `{!forall x, Decision (P x)} l :
  Forall P l -> filter P l = l.
Proof.
  induction 1 as [|x l Hx Hl IH]; [done|]. by rewrite filter_cons_True, IH.
Qed.

Lemma Forall_filter_none {A} (P : A -> Prop) `{!forall x, Decision (P x)} l :
  Forall (fun x => ~ P x) l -> filter P l = [].
Proof.
  induction 1 as [|x l Hx Hl IH]; [done|]. by rewrite filter_cons_False.
Qed.

(** Filtering by a disjunction of exclusive conditions. *)
Lemma filter_disjoint_or {A} (R P Q : A -> Prop)
    `{!forall x, Decision (R x), !forall x, Decision (P x), !forall x, Decision (Q x)} l :
  (forall x, x ∈ l -> R x <-> P x \/ Q x) -> (forall x, x ∈ l -> P x -> Q x -> False) ->
  filter R l ≡ₚ filter P l ++ filter Q l.
Proof.
  induction l as [|x l IH]; intros HR HD; [done|].
  assert (IH' : filter R l ≡ₚ filter P l ++ filter Q l).
  { apply IH; intros y Hy; [apply HR|apply HD]; by right. }
  pose proof (HR x (list_elem_of_here x l)) as Hx. pose proof (HD x (list_elem_of_here x l)) as Hd.
  rewrite !filter_cons. destruct (decide (R x)), (decide (P x)), (decide (Q x)); try tauto;
    rewrite IH'; simpl; try done. apply Permutation_middle.
Qed.

(** ** Lemmas on sorting *)

Lemma StronglySorted_weaken {A} (R1 R2 : A -> A -> Prop) l :
  (forall x y, x ∈ l -> y ∈ l -> R1 x y -> R2 x y) ->
  StronglySorted R1 l -> StronglySorted R2 l.
Proof.
  induction l as [|x l IH]; intros HR HS; [constructor|].
  apply StronglySorted_inv in HS as [HS Hx]. constructor.
  - apply IH; [|done]. intros y z Hy Hz. apply HR; by right.
  - rewrite Forall_forall in *. intros y Hy. apply HR; [left|by right|auto].
Qed.

Section Isort.
Context {A : Type} (less : A -> A -> bool).

Lemma sinsert_perm x l : sinsert less x l ≡ₚ x :: l.
Proof.
  induction l as [|y l IH]; simpl; [done|].
  destruct (less y x); [|done]. rewrite IH. constructor.
Qed.

Lemma isort_perm l : isort less l ≡ₚ l.
Proof. induction l as [|x l IH]; simpl; [done|]. by rewrite sinsert_perm, IH. Qed.

Context `{!StrictWeak less}.

#[export] Instance not_after_trans : Transitive (not_after less).
Proof.
  intros x y z Hxy Hyz. unfold not_after in *.
  destruct (less z x) eqn:E; [|done].
  destruct (sw_cotrans z y x E); congruence.
Qed.

Lemma sinsert_sorted x l : Sorted (not_after less) l -> Sorted (not_after less) (sinsert less x l).
Proof.
  induction l as [|y l IH]; simpl; [by repeat constructor|].
  intros H. inversion H as [|?? Hs Hd]; subst.
  destruct (less y x) eqn:E.
  - constructor; [by apply IH|].
    destruct l as [|z l]; simpl; [constructor; unfold not_after|].
    + destruct (less x y) eqn:E'; [|done].
      by rewrite <-(sw_irrefl (less:=less) x), (sw_trans _ _ _ E' E).
    + inversion Hd; subst. destruct (less z x); constructor; [done|].
      unfold not_after. destruct (less x y) eqn:E'; [|done].
      by rewrite <-(sw_irrefl (less:=less) x), (sw_trans _ _ _ E' E).
  - constructor; [done|]. constructor. done.
Qed.

Lemma isort_sorted l : Sorted (not_after less) (isort less l).
Proof. induction l; simpl; [constructor|]. by apply sinsert_sorted. Qed.

Lemma isort_strongly_sorted l : StronglySorted (not_after less) (isort less l).
Proof. apply Sorted_StronglySorted; [apply _|apply isort_sorted]. Qed.

(** Any sorting algorithm agrees with [isort] where ties cannot occur. *)
Lemma isort_unique l k :
  (forall x y, x ∈ l -> y ∈ l -> less x y = false -> less y x = false -> x = y) ->
  k ≡ₚ l -> Sorted (not_after less) k -> k = isort less l.
Proof.
  intros Htie Hp Hs. apply (Sorted_unique_strong (not_after less)); [|done|apply isort_sorted|].
  - intros x y Hx Hy H1 H2. rewrite Hp in Hx. rewrite isort_perm in Hy.
    by apply Htie.
  - by rewrite isort_perm.
Qed.

(** A list that is sorted already is left as it is. *)
Lemma isort_id l : Sorted (not_after less) l -> isort less l = l.
Proof.
  induction l as [|x l IH]; [done|]. intros H. inversion H as [|?? Hs Hd]; subst.
  simpl. rewrite IH by done. destruct l as [|y l]; [done|]. simpl.
  inversion Hd; subst. unfold not_after in *. by rewrite H1.
Qed.
End Isort.
