(* ===== verification/Messages.v ===== *)
(** * The wire messages of [internal/protobuf/stream.pb.go]

    The Go structs of the protocol, their getters and their [Equal] methods.  A byte slice is
    [None] when nil (Go's [bytes.Equal] does not see the difference, [receiveMessage] does); a
    pointer to a message is an [option]; [uint64], [uint32] fields are integers in range
    ([Message_wf]).  The elements of [LookupNodeResponse.Peers] are pointers the code never
    leaves nil ([Unmarshal] appends [&ID{}], the discovery component [&id]), so the list holds
    the messages themselves. *)

From S2P Require Import Prelude.
#[local] Open Scope Z_scope.

Record ID := mkID {
  ID_NetKey : slice;
  ID_Address : bytes;
  ID_Id : slice;
  ID_XXX_unrecognized : slice;
}.

Record Message := mkMessage {
  Message_Message : slice;
  Message_Sender : option ID;
  Message_Signature : slice;
  Message_RequestNonce : Z;
  Message_MessageNonce : Z;
  Message_ReplyFlag : bool;
  Message_Opcode : Z;
  Message_DialAddress : bytes;
  Message_XXX_unrecognized : slice;
}.

Record Ping := mkPing { Ping_XXX_unrecognized : slice }.
Record Pong := mkPong { Pong_XXX_unrecognized : slice }.
Record LookupNodeRequest := mkLookupNodeRequest {
  LookupNodeRequest_Target : option ID;
  LookupNodeRequest_XXX_unrecognized : slice;
}.
Record LookupNodeResponse := mkLookupNodeResponse {
  LookupNodeResponse_Peers : list ID;
  LookupNodeResponse_XXX_unrecognized : slice;
}.
Record Bytes := mkBytes {
  Bytes_Data : slice;
  Bytes_XXX_unrecognized : slice;
}.
Record Keepalive := mkKeepalive { Keepalive_XXX_unrecognized : slice }.
Record KeepaliveResponse := mkKeepaliveResponse { KeepaliveResponse_XXX_unrecognized : slice }.
Record Disconnect := mkDisconnect { Disconnect_XXX_unrecognized : slice }.

(** The zero values, what [Reset] stores. *)
Definition ID_zero : ID := mkID None [] None None.
Definition Message_zero : Message := mkMessage None None None 0 0 false 0 [] None.

#[export] Instance ID_eq_dec : EqDecision ID.
Proof. solve_decision. Defined.
#[export] Instance Message_eq_dec : EqDecision Message.
Proof. solve_decision. Defined.

(** ** Getters: a nil receiver has the zero value of every field *)

Definition ID_GetNetKey (m : option ID) : slice :=
  match m with Some m => ID_NetKey m | None => None end.
Definition ID_GetAddress (m : option ID) : bytes :=
  match m with Some m => ID_Address m | None => [] end.
Definition ID_GetId (m : option ID) : slice :=
  match m with Some m => ID_Id m | None => None end.

Definition Message_GetMessage (m : option Message) : slice :=
  match m with Some m => Message_Message m | None => None end.
Definition Message_GetSender (m : option Message) : option ID :=
  match m with Some m => Message_Sender m | None => None end.
Definition Message_GetSignature (m : option Message) : slice :=
  match m with Some m => Message_Signature m | None => None end.
Definition Message_GetRequestNonce (m : option Message) : Z :=
  match m with Some m => Message_RequestNonce m | None => 0 end.
Definition Message_GetMessageNonce (m : option Message) : Z :=
  match m with Some m => Message_MessageNonce m | None => 0 end.
Definition Message_GetReplyFlag (m : option Message) : bool :=
  match m with Some m => Message_ReplyFlag m | None => false end.
Definition Message_GetOpcode (m : option Message) : Z :=
  match m with Some m => Message_Opcode m | None => 0 end.
Definition Message_GetDialAddress (m : option Message) : bytes :=
  match m with Some m => Message_DialAddress m | None => [] end.
Definition LookupNodeRequest_GetTarget (m : option LookupNodeRequest) : option ID :=
  match m with Some m => LookupNodeRequest_Target m | None => None end.
Definition LookupNodeResponse_GetPeers (m : option LookupNodeResponse) : list ID :=
  match m with Some m => LookupNodeResponse_Peers m | None => [] end.
Definition Bytes_GetData (m : option Bytes) : slice :=
  match m with Some m => Bytes_Data m | None => None end.

(** ** [Equal]: pointers compared by content *)

(** [bytes.Equal]. *)
Definition bytes_Equal (a b : slice) : bool := bool_decide (sbytes a = sbytes b).

(** The nil tests every [Equal] opens with: [that] is a pointer of the receiver's type. *)
Definition ptr_Equal {A} (eq : A -> A -> bool) (this that : option A) : bool :=
  match that, this with
  | None, None => true
  | None, Some _ => false
  | Some _, None => false
  | Some that, Some this => eq this that
  end.

Definition ID_Equal : option ID -> option ID -> bool := ptr_Equal (fun this that1 =>
  if negb (bytes_Equal (ID_NetKey this) (ID_NetKey that1)) then false
  else if negb (bool_decide (ID_Address this = ID_Address that1)) then false
  else if negb (bytes_Equal (ID_Id this) (ID_Id that1)) then false
  else bytes_Equal (ID_XXX_unrecognized this) (ID_XXX_unrecognized that1)).

Definition Message_Equal : option Message -> option Message -> bool :=
  ptr_Equal (fun this that1 =>
  if negb (bytes_Equal (Message_Message this) (Message_Message that1)) then false
  else if negb (ID_Equal (Message_Sender this) (Message_Sender that1)) then false
  else if negb (bytes_Equal (Message_Signature this) (Message_Signature that1)) then false
  else if negb (Message_RequestNonce this =? Message_RequestNonce that1) then false
  else if negb (Message_MessageNonce this =? Message_MessageNonce that1) then false
  else if negb (Bool.eqb (Message_ReplyFlag this) (Message_ReplyFlag that1)) then false
  else if negb (Message_Opcode this =? Message_Opcode that1) then false
  else if negb (bool_decide (Message_DialAddress this = Message_DialAddress that1)) then false
  else bytes_Equal (Message_XXX_unrecognized this) (Message_XXX_unrecognized that1)).

Definition Ping_Equal : option Ping -> option Ping -> bool := ptr_Equal (fun this that1 =>
  bytes_Equal (Ping_XXX_unrecognized this) (Ping_XXX_unrecognized that1)).
Definition Pong_Equal : option Pong -> option Pong -> bool := ptr_Equal (fun this that1 =>
  bytes_Equal (Pong_XXX_unrecognized this) (Pong_XXX_unrecognized that1)).

Definition LookupNodeRequest_Equal :
    option LookupNodeRequest -> option LookupNodeRequest -> bool :=
  ptr_Equal (fun this that1 =>
  if negb (ID_Equal (LookupNodeRequest_Target this) (LookupNodeRequest_Target that1)) then false
  else bytes_Equal (LookupNodeRequest_XXX_unrecognized this)
                   (LookupNodeRequest_XXX_unrecognized that1)).

(** The element-wise loop over two lists the length test found equally long. *)
Fixpoint Peers_Equal (a b : list ID) : bool :=
  match a, b with
  | x :: a', y :: b' => if negb (ID_Equal (Some x) (Some y)) then false else Peers_Equal a' b'
  | _, _ => true
  end.
Definition LookupNodeResponse_Equal :
    option LookupNodeResponse -> option LookupNodeResponse -> bool :=
  ptr_Equal (fun this that1 =>
  if negb (zlen (LookupNodeResponse_Peers this) =? zlen (LookupNodeResponse_Peers that1))
  then false
  else if negb (Peers_Equal (LookupNodeResponse_Peers this) (LookupNodeResponse_Peers that1))
  then false
  else bytes_Equal (LookupNodeResponse_XXX_unrecognized this)
                   (LookupNodeResponse_XXX_unrecognized that1)).

Definition Bytes_Equal : option Bytes -> option Bytes -> bool := ptr_Equal (fun this that1 =>
  if negb (bytes_Equal (Bytes_Data this) (Bytes_Data that1)) then false
  else bytes_Equal (Bytes_XXX_unrecognized this) (Bytes_XXX_unrecognized that1)).
Definition Keepalive_Equal : option Keepalive -> option Keepalive -> bool :=
  ptr_Equal (fun this that1 =>
  bytes_Equal (Keepalive_XXX_unrecognized this) (Keepalive_XXX_unrecognized that1)).
Definition KeepaliveResponse_Equal :
    option KeepaliveResponse -> option KeepaliveResponse -> bool :=
  ptr_Equal (fun this that1 =>
  bytes_Equal (KeepaliveResponse_XXX_unrecognized this)
              (KeepaliveResponse_XXX_unrecognized that1)).
Definition Disconnect_Equal : option Disconnect -> option Disconnect -> bool :=
  ptr_Equal (fun this that1 =>
  bytes_Equal (Disconnect_XXX_unrecognized this) (Disconnect_XXX_unrecognized that1)).

(** ** The canonical form of a message

    [norm] forgets the difference between nil and empty slices, which the wire format cannot
    carry: it is what a decoder returns for an encoded message. *)

Definition norm_slice (s : slice) : slice :=
  match sbytes s with [] => None | b => Some b end.
Definition ID_norm (m : ID) : ID :=
  mkID (norm_slice (ID_NetKey m)) (ID_Address m) (norm_slice (ID_Id m))
       (norm_slice (ID_XXX_unrecognized m)).
Definition Message_norm (m : Message) : Message :=
  mkMessage (norm_slice (Message_Message m)) (ID_norm <$> Message_Sender m)
    (norm_slice (Message_Signature m)) (Message_RequestNonce m) (Message_MessageNonce m)
    (Message_ReplyFlag m) (Message_Opcode m) (Message_DialAddress m)
    (norm_slice (Message_XXX_unrecognized m)).

(** Integer fields in the range of their Go type. *)
Definition Message_wf (m : Message) : Prop :=
  0 <= Message_RequestNonce m < 2 ^ 64 /\ 0 <= Message_MessageNonce m < 2 ^ 64 /\
  0 <= Message_Opcode m < 2 ^ 32.

(** ** Lemmas *)

Lemma bytes_Equal_true a b : bytes_Equal a b = true <-> sbytes a = sbytes b.
Proof. apply bool_decide_eq_true. Qed.

Lemma sbytes_norm s : sbytes (norm_slice s) = sbytes s.
Proof. unfold norm_slice. destruct (sbytes s) eqn:E; [done|done]. Qed.

Lemma norm_slice_eq a b : norm_slice a = norm_slice b <-> sbytes a = sbytes b.
Proof.
  split; [|unfold norm_slice; by intros ->].
  intros H. by rewrite <-(sbytes_norm a), H, sbytes_norm.
Qed.

Lemma if_negb (a b : bool) : (if negb a then false else b) = a && b.
Proof. by destruct a. Qed.
Create Rewrite HintDb equal.
#[export] Hint Rewrite bytes_Equal_true @bool_decide_eq_true Z.eqb_eq Bool.eqb_true_iff
  andb_true_iff if_negb : equal.

(** [Equal] decides equality of the canonical forms: it is the equality of what the wire
    carries. *)
Lemma ID_Equal_norm a b : ID_Equal a b = true <-> ID_norm <$> a = ID_norm <$> b.
Proof.
  unfold ID_Equal, ptr_Equal. destruct a as [a|], b as [b|]; simpl; try (split; congruence).
  autorewrite with equal.
  rewrite <-!norm_slice_eq. unfold ID_norm.
  split; [intuition congruence|]. intros [= ? ? ? ?]. auto.
Qed.

Lemma Message_Equal_norm a b :
  Message_Equal a b = true <-> Message_norm <$> a = Message_norm <$> b.
Proof.
  unfold Message_Equal, ptr_Equal.
  destruct a as [a|], b as [b|]; simpl; try (split; congruence).
  autorewrite with equal.
  rewrite ID_Equal_norm, <-!norm_slice_eq. unfold Message_norm.
  split; [intuition congruence|]. intros [= ? ? ? ? ? ? ? ? ?]. tauto.
Qed.

Lemma norm_slice_idemp s : norm_slice (norm_slice s) = norm_slice s.
Proof. apply norm_slice_eq, sbytes_norm. Qed.
Lemma ID_norm_idemp m : ID_norm (ID_norm m) = ID_norm m.
Proof. unfold ID_norm; simpl. by rewrite !norm_slice_idemp. Qed.
Lemma Message_norm_idemp m : Message_norm (Message_norm m) = Message_norm m.
Proof.
  unfold Message_norm; simpl. rewrite !norm_slice_idemp.
  destruct (Message_Sender m); simpl; by rewrite ?ID_norm_idemp.
Qed.
