(* ===== verification/Peer.v ===== *)
(** * Peer identities: [peer/identity.go]

    A peer is identified by the hash of its public key; the distance between two peers is the
    XOR of their hashes read as a big-endian number ([dist]).  The lemmas relate the byte loops
    of the Go code to that number: [PrefixLen] is a logarithm, [Less] is the order of the
    numbers, and [XorID] gives a metric. *)

From S2P Require Import Prelude Messages.
#[local] Open Scope Z_scope.

(** ** [CreateID]: the hash is [blake2b.Sum256], which is not code of the repository *)

Section CreateID.
Context (HashBytes : bytes -> bytes).
Definition CreateID (address : bytes) (publicKey : slice) : ID :=
  mkID publicKey address (Some (HashBytes (sbytes publicKey))) None.
End CreateID.

(** [id.Equals(other)]: only the key hashes are compared. *)
Definition Equals (id other : ID) : bool := bytes_Equal (ID_Id id) (ID_Id other).

(** [id.Less(other)]: [other] is [None] when the interface value does not hold an [ID]. *)
Definition Less (id : ID) (other : option ID) : bool :=
  match other with
  | Some other =>
      match bytes_compare (sbytes (ID_Id id)) (sbytes (ID_Id other)) with
      | Lt => true
      | _ => false
      end
  | None => false
  end.

(** [hex.EncodeToString]. *)
Definition hextable (d : Z) : byte := z2b (if d <? 10 then 48 + d else 87 + d).
Fixpoint hex_EncodeToString (l : bytes) : bytes :=
  match l with
  | [] => []
  | b :: l' => hextable (Z.shiftr (b2z b) 4) :: hextable (Z.land (b2z b) 15) ::
               hex_EncodeToString l'
  end.
Definition PublicKeyHex (id : ID) : bytes := hex_EncodeToString (sbytes (ID_NetKey id)).

(** The loop of [Xor] and [XorID]: [make([]byte, len(a))], then the first
    [min(len(a), len(b))] bytes are set. *)
Fixpoint xor_bytes (a b : bytes) : bytes :=
  match a, b with
  | [], _ => []
  | _ :: a', [] => x00 :: xor_bytes a' []
  | x :: a', y :: b' => bxor x y :: xor_bytes a' b'
  end.
Definition Xor (id other : ID) : ID :=
  mkID (Some (xor_bytes (sbytes (ID_NetKey id)) (sbytes (ID_NetKey other))))
       (ID_Address id) None None.
Definition XorID (id other : ID) : ID :=
  mkID None (ID_Address id)
       (Some (xor_bytes (sbytes (ID_Id id)) (sbytes (ID_Id other)))) None.

(** [bits.LeadingZeros8]. *)
Definition LeadingZeros8 (x : Z) : Z := if x =? 0 then 8 else 7 - Z.log2 x.

(** [id.PrefixLen()]: the loop over the bytes, then the fall-through. *)
Fixpoint PrefixLen_loop (i : Z) (l : bytes) : option Z :=
  match l with
  | [] => None
  | b :: l' => if negb (b2z b =? 0) then Some (i * 8 + LeadingZeros8 (b2z b))
               else PrefixLen_loop (i + 1) l'
  end.
Definition PrefixLen (id : ID) : Z :=
  match PrefixLen_loop 0 (sbytes (ID_Id id)) with
  | Some n => n
  | None => zlen (sbytes (ID_Id id)) * 8 - 1
  end.

(** ** The specification: XOR distance as a number *)

Definition idlen (id : ID) : Z := zlen (sbytes (ID_Id id)).
Definition dist (a b : ID) : Z := be_value (sbytes (ID_Id (XorID a b))).

(** Bit [j] of a peer's hash, counted from the most significant. *)
Definition idbit (id : ID) (j : Z) : bool :=
  Z.testbit (be_value (sbytes (ID_Id id))) (8 * idlen id - 1 - j).

(** ** Lemmas on [xor_bytes] *)

Lemma length_xor_bytes a b : length (xor_bytes a b) = length a.
Proof. revert b; induction a as [|x a IH]; intros [|y b]; simpl; auto. Qed.

Lemma xor_bytes_comm a b : length a = length b -> xor_bytes a b = xor_bytes b a.
Proof.
  revert b; induction a as [|x a IH]; intros [|y b]; try done.
  intros [= ?]. simpl. rewrite bxor_comm. f_equal. auto.
Qed.

Lemma xor_bytes_self a : xor_bytes a a = replicate (length a) x00.
Proof. induction a; simpl; [done|]. rewrite bxor_nilpotent. by f_equal. Qed.

Lemma be_value_zeros n : be_value (replicate n x00) = 0.
Proof. induction n; cbn [replicate]; [done|]. by rewrite be_value_cons, IHn. Qed.

(** XOR of byte strings of one length is XOR of their big-endian values. *)
Lemma be_value_xor a b :
  length a = length b -> be_value (xor_bytes a b) = Z.lxor (be_value a) (be_value b).
Proof.
  revert b; induction a as [|x a IH]; intros [|y b]; try done.
  intros [= Hl]. cbn [xor_bytes]. rewrite !be_value_cons, b2z_bxor, IH by done.
  unfold zlen. rewrite length_xor_bytes, <-Hl.
  replace 256 with (2 ^ 8) by done. rewrite <-Z.pow_mul_r by lia.
  rewrite lxor_split; [done|lia|..].
  - pose proof (be_value_range a) as H. unfold zlen in H.
    replace 256 with (2 ^ 8) in H by done. by rewrite <-Z.pow_mul_r in H by lia.
  - pose proof (be_value_range b) as H. unfold zlen in H. rewrite <-Hl in H.
    replace 256 with (2 ^ 8) in H by done. by rewrite <-Z.pow_mul_r in H by lia.
Qed.

Lemma dist_lxor a b :
  idlen a = idlen b ->
  dist a b = Z.lxor (be_value (sbytes (ID_Id a))) (be_value (sbytes (ID_Id b))).
Proof. intros H. apply be_value_xor. unfold idlen, zlen in H. lia. Qed.

Lemma idlen_XorID a b : idlen (XorID a b) = idlen a.
Proof. unfold idlen, zlen. simpl. by rewrite length_xor_bytes. Qed.

Lemma dist_range a b : 0 <= dist a b < 2 ^ (8 * idlen a).
Proof.
  unfold dist. pose proof (be_value_range (sbytes (ID_Id (XorID a b)))) as H.
  change (zlen _) with (idlen (XorID a b)) in H. rewrite idlen_XorID in H.
  replace 256 with (2 ^ 8) in H by done.
  rewrite <-Z.pow_mul_r in H; [done|lia|apply zlen_nonneg].
Qed.

(** ** [Equals] and [Less] *)

Lemma Equals_spec a b : Equals a b = true <-> sbytes (ID_Id a) = sbytes (ID_Id b).
Proof. apply bytes_Equal_true. Qed.

#[export] Instance Equals_equiv : Equivalence (fun a b => Equals a b = true).
Proof.
  split.
  - intros a. by apply Equals_spec.
  - intros a b. rewrite !Equals_spec. congruence.
  - intros a b c. rewrite !Equals_spec. congruence.
Qed.

Lemma Less_spec a b :
  Less a (Some b) = true <-> bytes_compare (sbytes (ID_Id a)) (sbytes (ID_Id b)) = Lt.
Proof. unfold Less. destruct (bytes_compare _ _); split; congruence. Qed.

(** On hashes of one length [Less] is the order of the big-endian numbers. *)
Lemma Less_be a b :
  idlen a = idlen b ->
  Less a (Some b) = true <->
  be_value (sbytes (ID_Id a)) < be_value (sbytes (ID_Id b)).
Proof.
  intros H. unfold idlen, zlen in H. rewrite Less_spec, bytes_compare_be by lia.
  apply Z.compare_lt_iff.
Qed.

#[export] Instance Less_strict_weak : StrictWeak (fun a b => Less a (Some b)).
Proof.
  split.
  - intros x. unfold Less. by rewrite bytes_compare_refl.
  - intros x y z. rewrite !Less_spec. apply bytes_compare_trans.
  - intros x y z. rewrite !Less_spec. intros H.
    destruct (bytes_compare (sbytes (ID_Id x)) (sbytes (ID_Id y))) eqn:E; [|auto|].
    + apply bytes_compare_eq in E. rewrite <-E. auto.
    + right. apply bytes_compare_trans with (sbytes (ID_Id x)); [|done].
      by rewrite bytes_compare_antisym, E.
Qed.

(** ** [PrefixLen] *)

Lemma PrefixLen_loop_spec i l :
  match PrefixLen_loop i l with
  | Some n => be_value l <> 0 /\ n = (i + zlen l) * 8 - 1 - Z.log2 (be_value l)
  | None => be_value l = 0
  end.
Proof.
  revert i; induction l as [|b l IH]; intros i; cbn [PrefixLen_loop]; [done|].
  rewrite be_value_cons, zlen_cons. pose proof (b2z_range b) as Hb.
  pose proof (be_value_range l) as Hl. pose proof (zlen_nonneg l) as Hn.
  replace (256 ^ zlen l) with (2 ^ (8 * zlen l)) in *
    by (rewrite Z.pow_mul_r by lia; done).
  destruct (Z.eqb_spec (b2z b) 0) as [E|E]; simpl.
  - specialize (IH (i + 1)). rewrite E, Z.mul_0_l, Z.add_0_l.
    destruct (PrefixLen_loop _ _) as [n|]; [|done].
    destruct IH as [? ->]. split; [done|lia].
  - assert (0 < b2z b * 2 ^ (8 * zlen l)) by (apply Z.mul_pos_pos; lia).
    split; [lia|]. unfold LeadingZeros8. apply Z.eqb_neq in E as E'. rewrite E'.
    rewrite concat_bits, Z.log2_lor, Z.log2_shiftl by (try apply Z.shiftl_nonneg; lia).
    assert (be_value l = 0 \/ Z.log2 (be_value l) < 8 * zlen l) as [->|].
    { destruct (decide (be_value l = 0)); [by left|right]. apply Z.log2_lt_pow2; lia. }
    + rewrite (Z.log2_nonpos 0) by done. pose proof (Z.log2_nonneg (b2z b)). lia.
    + pose proof (Z.log2_nonneg (b2z b)). lia.
Qed.

(** [PrefixLen] is the position of the highest bit set, counted from the top; the value for
    an all-zero hash is that of the hash whose only bit set is the last. *)
Lemma PrefixLen_log2 id :
  PrefixLen id = 8 * idlen id - 1 - Z.log2 (be_value (sbytes (ID_Id id))).
Proof.
  unfold PrefixLen, idlen. pose proof (PrefixLen_loop_spec 0 (sbytes (ID_Id id))) as H.
  destruct (PrefixLen_loop _ _) as [n|].
  - destruct H as [_ ->]. lia.
  - rewrite H. change (Z.log2 0) with 0. lia.
Qed.

Lemma PrefixLen_range id : 0 < idlen id -> 0 <= PrefixLen id < 8 * idlen id.
Proof.
  intros Hl. rewrite PrefixLen_log2.
  pose proof (be_value_range (sbytes (ID_Id id))) as H. fold (idlen id) in H.
  replace (256 ^ idlen id) with (2 ^ (8 * idlen id)) in H by (rewrite Z.pow_mul_r by lia; done).
  pose proof (Z.log2_nonneg (be_value (sbytes (ID_Id id)))).
  destruct (decide (be_value (sbytes (ID_Id id)) = 0)) as [->|Hne].
  - change (Z.log2 0) with 0. lia.
  - assert (Z.log2 (be_value (sbytes (ID_Id id))) < 8 * idlen id) by (apply Z.log2_lt_pow2; lia).
    lia.
Qed.

(** ** Distance *)

Lemma Equals_be a b :
  idlen a = idlen b ->
  Equals a b = true <-> be_value (sbytes (ID_Id a)) = be_value (sbytes (ID_Id b)).
Proof.
  intros Hl. rewrite Equals_spec. split; [by intros ->|].
  apply be_value_inj. unfold idlen, zlen in Hl. lia.
Qed.

Lemma dist_zero a b : idlen a = idlen b -> dist a b = 0 <-> Equals a b = true.
Proof. intros Hl. by rewrite dist_lxor, Z.lxor_eq_0_iff, Equals_be. Qed.

Lemma dist_sym a b : idlen a = idlen b -> dist a b = dist b a.
Proof. intros Hl. rewrite !dist_lxor by done. apply Z.lxor_comm. Qed.

Lemma lxor_cancel x y z : Z.lxor (Z.lxor x y) (Z.lxor x z) = Z.lxor y z.
Proof.
  rewrite (Z.lxor_comm x y), Z.lxor_assoc, <-(Z.lxor_assoc x x).
  by rewrite Z.lxor_nilpotent, Z.lxor_0_l.
Qed.

Lemma dist_triangle a b c :
  idlen a = idlen b -> idlen b = idlen c -> dist a c <= dist a b + dist b c.
Proof.
  intros Hab Hbc. rewrite (dist_sym a b) by done. rewrite !dist_lxor by congruence.
  rewrite <-(lxor_cancel (be_value (sbytes (ID_Id b)))).
  apply lxor_le_add; apply Z.lxor_nonneg; split; intros _; apply be_value_range.
Qed.

Lemma dist_unidirectional a b c :
  idlen a = idlen b -> idlen b = idlen c -> dist a b = dist a c -> Equals b c = true.
Proof.
  intros Hab Hbc. rewrite !dist_lxor by congruence. intros E.
  apply Equals_be; [done|]. apply Z.lxor_eq_0_iff.
  by rewrite <-(lxor_cancel (be_value (sbytes (ID_Id a)))), E, Z.lxor_nilpotent.
Qed.

(** ** Properties *)

(** C21. XOR distance is a metric on the hashes of one length, and a distance from a given peer
    determines the hash (Kademlia's unidirectionality). *)
Theorem XorID_metric (a b c : ID) :
  idlen a = idlen b -> idlen b = idlen c ->
  (dist a b = 0 <-> Equals a b = true) /\
  dist a b = dist b a /\
  dist a c <= dist a b + dist b c /\
  (dist a b = dist a c -> Equals b c = true).
Proof.
  intros Hab Hbc. split; [by apply dist_zero|]. split; [by apply dist_sym|].
  split; [by apply dist_triangle|]. by apply dist_unidirectional.
Qed.

(** [PrefixLen] of a XOR is the number of leading bits two different hashes share. *)
Theorem PrefixLen_common_prefix (a b : ID) :
  idlen a = idlen b -> Equals a b = false ->
  let n := PrefixLen (XorID a b) in
  0 <= n < 8 * idlen a /\
  idbit a n <> idbit b n /\
  forall j, 0 <= j < n -> idbit a j = idbit b j.
Proof.
  intros Hl Hne n.
  assert (Hpos : dist a b <> 0).
  { rewrite dist_zero by done. congruence. }
  pose proof (dist_range a b) as Hr.
  assert (Hn : n = 8 * idlen a - 1 - Z.log2 (dist a b)).
  { unfold n. rewrite PrefixLen_log2, idlen_XorID. done. }
  assert (Hlog : 0 <= Z.log2 (dist a b) < 8 * idlen a).
  { split; [apply Z.log2_nonneg|]. apply Z.log2_lt_pow2; lia. }
  assert (Hbit : forall j, Z.testbit (dist a b) (8 * idlen a - 1 - j) =
                           xorb (idbit a j) (idbit b j)).
  { intros j. rewrite dist_lxor, Z.lxor_spec by done. unfold idbit. by rewrite Hl. }
  split; [lia|]. split.
  - specialize (Hbit n). replace (8 * idlen a - 1 - n) with (Z.log2 (dist a b)) in Hbit by lia.
    rewrite Z.bit_log2 in Hbit by lia. intros E. rewrite E, xorb_nilpotent in Hbit. done.
  - intros j Hj. specialize (Hbit j). rewrite Z.bits_above_log2 in Hbit by lia.
    symmetry in Hbit. by apply xorb_eq.
Qed.

(** Two peers with different keys have different hex names: [PublicKeyHex] is injective on
    key contents, so it can index the [visited] maps. *)
Lemma hextable_inj d e : 0 <= d < 16 -> 0 <= e < 16 -> hextable d = hextable e -> d = e.
Proof.
  intros Hd He H. apply (f_equal b2z) in H. unfold hextable in H.
  rewrite !b2z_z2b in H.
  destruct (Z.ltb_spec d 10), (Z.ltb_spec e 10); rewrite !Z.mod_small in H; lia.
Qed.

Lemma nibbles b : b2z b = 16 * Z.shiftr (b2z b) 4 + Z.land (b2z b) 15 /\
  0 <= Z.shiftr (b2z b) 4 < 16 /\ 0 <= Z.land (b2z b) 15 < 16.
Proof. destruct b; vm_compute; repeat split; congruence. Qed.

Lemma hex_EncodeToString_inj a b : hex_EncodeToString a = hex_EncodeToString b -> a = b.
Proof.
  revert b; induction a as [|x a IH]; intros [|y b]; try done.
  intros H. injection H as H1 H2 H3.
  destruct (nibbles x) as (Ex&?&?), (nibbles y) as (Ey&?&?).
  apply hextable_inj in H1; [|done..]. apply hextable_inj in H2; [|done..].
  f_equal; [|auto]. apply (inj b2z). congruence.
Qed.

Lemma PublicKeyHex_eq a b :
  PublicKeyHex a = PublicKeyHex b <-> sbytes (ID_NetKey a) = sbytes (ID_NetKey b).
Proof.
  split; [apply hex_EncodeToString_inj|]. unfold PublicKeyHex. by intros ->.
Qed.

(** ** Witnesses *)

Lemma XorID_metric_witness :
  dist (mkID None [] (Some [x0a]) None) (mkID None [] (Some [x0c]) None) = 6 /\
  dist (mkID None [] (Some [x0a]) None) (mkID None [] (Some [x0c]) None) =
  dist (mkID None [] (Some [x0c]) None) (mkID None [] (Some [x0a]) None).
Proof.
  split; [reflexivity|].
  apply (XorID_metric (mkID None [] (Some [x0a]) None) (mkID None [] (Some [x0c]) None)
           (mkID None [] (Some [x0c]) None)); reflexivity.
Defined.

Lemma PrefixLen_common_prefix_witness :
  PrefixLen (XorID (mkID None [] (Some [x0a]) None) (mkID None [] (Some [x0c]) None)) = 5 /\
  idbit (mkID None [] (Some [x0a]) None) 5 <> idbit (mkID None [] (Some [x0c]) None) 5.
Proof.
  split; [reflexivity|].
  apply (PrefixLen_common_prefix (mkID None [] (Some [x0a]) None)
           (mkID None [] (Some [x0c]) None)); reflexivity.
Defined.
