(* ===== verification/Dht.v ===== *)
(** * The routing table: [dht/routes.go]

    A table holds one bucket per bit of the node's hash; bucket [i] holds the peers whose XOR
    distance from the node has [i] leading zero bits.  A bucket is a [container/list], here the
    list of its values from [Front] to [Back]; the mutexes make each operation atomic on its
    bucket.  A nil bucket ([Bucket] out of range) is dereferenced by the code, which is a
    [Panic PNilDeref] here. *)

From S2P Require Import Prelude Messages Peer.
#[local] Open Scope Z_scope.

Definition BucketSize : Z := 16.

(** ** State *)

Abbreviation Bucket := (list ID).
Definition NewBucket : Bucket := [].

Record RoutingTable := mkTable {
  self : ID;
  buckets : list Bucket;
}.

(** [t.Bucket(id)]: nil out of range. *)
Definition RoutingTable_Bucket (t : RoutingTable) (id : Z) : option Bucket :=
  if (0 <=? id) && (id <? zlen (buckets t)) then buckets t !! Z.to_nat id else None.

(** A method call on the bucket pointer [t.Bucket(id)]. *)
Definition deref_bucket (t : RoutingTable) (id : Z) : res Bucket :=
  match RoutingTable_Bucket t id with Some b => Ok b | None => Panic PNilDeref end.
Definition set_bucket (t : RoutingTable) (id : Z) (b : Bucket) : RoutingTable :=
  mkTable (self t) (<[Z.to_nat id := b]> (buckets t)).

Definition Self (t : RoutingTable) : ID := self t.

(** [target.XorID(t.self).PrefixLen()]. *)
Definition bucketID (t : RoutingTable) (target : ID) : Z := PrefixLen (XorID target (self t)).

(** The loop from [Front] that stops at the first element equal to the target. *)
Definition find_element (target : ID) (b : Bucket) : option (nat * ID) :=
  list_find (fun e => Equals e target = true) b.
Definition MoveToFront (b : Bucket) (i : nat) (e : ID) : Bucket := e :: delete i b.

(** ** Operations *)

Definition Update (t : RoutingTable) (target : ID) : res RoutingTable :=
  if negb (idlen (self t) =? idlen target) then Ok t
  else
    let id := bucketID t target in
    bucket ← deref_bucket t id;
    match find_element target bucket with
    | None =>
        if zlen bucket <=? BucketSize then Ok (set_bucket t id (target :: bucket)) else Ok t
    | Some (i, e) => Ok (set_bucket t id (MoveToFront bucket i e))
    end.

Definition CreateRoutingTable (id : ID) : res RoutingTable :=
  Update (mkTable id (replicate (Z.to_nat (idlen id * 8)) NewBucket)) id.

(** The body of the two enumeration loops: what is appended is [f id]. *)
Definition visit {A} (f : ID -> A) (acc : gset bytes * list A) (id : ID) : gset bytes * list A :=
  let '(visited, peers) := acc in
  if bool_decide (PublicKeyHex id ∈ visited) then (visited, peers)
  else ({[PublicKeyHex id]} ∪ visited, peers ++ [f id]).
Definition visit_buckets {A} (f : ID -> A) (t : RoutingTable) : list A :=
  (foldl (foldl (visit f)) ({[PublicKeyHex (self t)]}, []) (buckets t)).2.
Definition GetPeers (t : RoutingTable) : list ID := visit_buckets (fun id => id) t.
Definition GetPeerAddresses (t : RoutingTable) : list bytes := visit_buckets ID_Address t.

Definition RemovePeer (t : RoutingTable) (target : ID) : res (RoutingTable * bool) :=
  let id := bucketID t target in
  bucket ← deref_bucket t id;
  match find_element target bucket with
  | Some (i, _) => Ok (set_bucket t id (delete i bucket), true)
  | None => Ok (t, false)
  end.

Definition PeerExists (t : RoutingTable) (target : ID) : res bool :=
  bucket ← deref_bucket t (bucketID t target);
  match find_element target bucket with
  | Some _ => Ok true
  | None => Ok false
  end.

(** The comparator of the final sort. *)
Definition closer (target x y : ID) : bool := Less (XorID x target) (Some (XorID y target)).

(** The widening loop of [FindClosestPeers], [i] from 1; [id] is the target's bucket. *)
Fixpoint widen (fuel : nat) (t : RoutingTable) (id count i : Z) (peers : list ID)
    : res (list ID) :=
  match fuel with
  | O => Panic PFuel
  | S fuel' =>
      if (zlen peers <? count) && ((0 <=? id - i) || (id + i <? idlen (self t) * 8)) then
        peers ← (if 0 <=? id - i
                 then (other ← deref_bucket t (id - i); Ok (peers ++ other)) else Ok peers);
        peers ← (if id + i <? idlen (self t) * 8
                 then (other ← deref_bucket t (id + i); Ok (peers ++ other)) else Ok peers);
        widen fuel' t id count (i + 1) peers
      else Ok peers
  end.

(** [sort.Slice] is the stable sort [isort]: the peers of a table have pairwise different
    hashes, so no tie is broken ([closer_ties]). *)
Definition FindClosestPeers (t : RoutingTable) (target : ID) (count : Z) : res (list ID) :=
  if negb (idlen (self t) =? idlen target) then Ok []
  else
    let id := bucketID t target in
    bucket ← deref_bucket t id;
    peers ← widen (S (length (buckets t))) t id count 1 bucket;
    let peers := isort (closer target) peers in
    if count <? zlen peers then subslice peers 0 count else Ok peers.

(** ** Histories of a table *)

Inductive table_op :=
| OpUpdate (target : ID)
| OpRemovePeer (target : ID).

Definition apply_op (t : RoutingTable) (o : table_op) : res RoutingTable :=
  match o with
  | OpUpdate x => Update t x
  | OpRemovePeer x => fst <$> RemovePeer t x
  end.
Fixpoint apply_ops (t : RoutingTable) (os : list table_op) : res RoutingTable :=
  match os with
  | [] => Ok t
  | o :: os' => t ← apply_op t o; apply_ops t os'
  end.

(** The calls the code makes with a hash of the node's length: [Update] checks it itself. *)
Definition op_ok (n : Z) (o : table_op) : Prop :=
  match o with OpUpdate _ => True | OpRemovePeer x => idlen x = n end.

(** ** The invariant *)

Definition key (e : ID) : bytes := sbytes (ID_Id e).

(** What is kept in bucket [i] of a table of [s]. *)
Record bucket_wf (s : ID) (i : Z) (b : Bucket) : Prop := {
  bw_size : zlen b <= BucketSize + 1;
  bw_nodup : NoDup (key <$> b);
  bw_place : Forall (fun e => idlen e = idlen s /\ PrefixLen (XorID e s) = i) b;
}.
Record table_wf (t : RoutingTable) : Prop := {
  tw_len : 0 < idlen (self t);
  tw_buckets : zlen (buckets t) = idlen (self t) * 8;
  tw_bucket : forall i b, buckets t !! i = Some b -> bucket_wf (self t) (Z.of_nat i) b;
}.

(** The peers of a table, in bucket order. *)
Definition entries (t : RoutingTable) : list ID := mjoin (buckets t).

(** The peers of the buckets at distance less than [r] from bucket [id]: what the widening
    loop has collected when its counter is [r]. *)
Definition within (t : RoutingTable) (id r : Z) : list ID :=
  filter (fun e => Z.abs (bucketID t e - id) < r) (entries t).

(** The abstract value of a table: a map from hashes to peers. *)
Definition abs (t : RoutingTable) : gmap bytes ID :=
  list_to_map ((fun e => (key e, e)) <$> entries t).

(** The bytes of a peer's public key, what [PublicKeyHex] prints. *)
Definition netkey (e : ID) : bytes := sbytes (ID_NetKey e).

(** A one-byte identity and tables of them, for concrete inputs. *)
Definition peer1 (k : Z) : ID := mkID (Some [z2b k]) [] (Some [z2b k]) None.
Definition table1 (ks : list Z) : res RoutingTable :=
  t ← CreateRoutingTable (peer1 0); apply_ops t (OpUpdate ∘ peer1 <$> ks).
Definition table_of (r : res RoutingTable) : RoutingTable :=
  match r with Ok t => t | _ => mkTable (peer1 0) [] end.

(** ** Lemmas on buckets *)

Lemma Equals_key a b : Equals a b = true <-> key a = key b.
Proof. apply Equals_spec. Qed.

Lemma bucketID_key t a b : key a = key b -> bucketID t a = bucketID t b.
Proof. unfold bucketID, key. intros E. rewrite !PrefixLen_log2. unfold XorID, idlen. simpl. by rewrite E. Qed.

Lemma find_element_Some x b i e :
  find_element x b = Some (i, e) -> exists pre post,
    b = pre ++ e :: post /\ length pre = i /\ key e = key x /\ delete i b = pre ++ post /\
    Forall (fun y => key y <> key x) pre.
Proof.
  unfold find_element. rewrite list_find_Some. intros (Hl & He & Hpre).
  exists (take i b), (drop (S i) b). pose proof (lookup_lt_Some _ _ _ Hl).
  split; [by rewrite take_drop_middle|]. split; [by rewrite length_take_le by lia|].
  split; [by apply Equals_key|]. split; [apply delete_take_drop|].
  apply Forall_forall. intros y Hy. apply list_elem_of_lookup in Hy as [j Hj].
  apply lookup_take_Some in Hj as [Hj ?].
  rewrite <-Equals_key. eapply Hpre; eauto.
Qed.

Lemma find_element_None x b :
  find_element x b = None <-> Forall (fun y => key y <> key x) b.
Proof.
  unfold find_element. rewrite list_find_None. apply Forall_iff.
  intros y. by rewrite Equals_key.
Qed.

Lemma bucket_wf_nil s i : bucket_wf s i [].
Proof. split; [done|constructor|constructor]. Qed.

Lemma bucket_wf_perm s i b b' : b ≡ₚ b' -> bucket_wf s i b -> bucket_wf s i b'.
Proof.
  intros Hp [H1 H2 H3]. split.
  - unfold zlen in *. by rewrite <-Hp.
  - by rewrite <-Hp.
  - by rewrite <-Hp.
Qed.

Lemma bucket_wf_cons s i x b :
  bucket_wf s i b -> Forall (fun y => key y <> key x) b -> zlen b <= BucketSize ->
  idlen x = idlen s -> PrefixLen (XorID x s) = i -> bucket_wf s i (x :: b).
Proof.
  intros [H1 H2 H3] Hn Hs ??. split.
  - rewrite zlen_cons. lia.
  - rewrite fmap_cons. constructor; [|done].
    rewrite list_elem_of_fmap. intros (y & E & Hy).
    rewrite Forall_forall in Hn. by apply (Hn y Hy).
  - by constructor.
Qed.

Lemma bucket_wf_sub s i pre e post :
  bucket_wf s i (pre ++ e :: post) -> bucket_wf s i (pre ++ post).
Proof.
  intros [H1 H2 H3]. split.
  - rewrite zlen_app, zlen_cons in H1. rewrite zlen_app. lia.
  - rewrite fmap_app, fmap_cons in H2. rewrite fmap_app.
    apply NoDup_app in H2 as (?&Hd&?).
    apply NoDup_app. split; [done|]. split; [|by eapply NoDup_cons].
    intros k Hk Hk'. apply (Hd k Hk). by right.
  - rewrite Forall_app, Forall_cons in H3. rewrite Forall_app. tauto.
Qed.

(** ** Lemmas on tables *)

Section Table.
Context (t : RoutingTable) (Hwf : table_wf t).

Lemma bucketID_range x : idlen x = idlen (self t) -> 0 <= bucketID t x < zlen (buckets t).
Proof.
  intros E. rewrite (tw_buckets _ Hwf). unfold bucketID.
  pose proof (PrefixLen_range (XorID x (self t))) as H. rewrite idlen_XorID, E in H.
  pose proof (tw_len _ Hwf). lia.
Qed.

Lemma deref_bucket_ok id :
  0 <= id < zlen (buckets t) ->
  exists b, deref_bucket t id = Ok b /\ buckets t !! Z.to_nat id = Some b /\
            bucket_wf (self t) id b.
Proof.
  intros H. destruct (lookup_lt_is_Some_2 (buckets t) (Z.to_nat id)) as [b Hb].
  { unfold zlen in H. lia. }
  exists b. unfold deref_bucket, RoutingTable_Bucket.
  destruct (Z.leb_spec 0 id); [|lia]. destruct (Z.ltb_spec id (zlen (buckets t))); [|lia].
  simpl. rewrite Hb. split; [done|]. split; [done|].
  pose proof (tw_bucket _ Hwf _ _ Hb) as Hbw. by rewrite Z2Nat.id in Hbw by lia.
Qed.

Lemma set_bucket_wf id b :
  0 <= id -> bucket_wf (self t) id b -> table_wf (set_bucket t id b).
Proof.
  intros Hid Hb. destruct Hwf as [H1 H2 H3]. split; simpl; [done|..].
  - unfold zlen in *. by rewrite length_insert.
  - intros i b' Hi. apply list_lookup_insert_Some in Hi as [(<- & -> & _)|[_ Hi]]; [|auto].
    by rewrite Z2Nat.id.
Qed.

Lemma elem_of_entries e :
  e ∈ entries t <-> exists i b, buckets t !! i = Some b /\ e ∈ b.
Proof.
  unfold entries. rewrite list_elem_of_join. split.
  - intros (b & He & Hb). apply list_elem_of_lookup in Hb as [i Hi]. eauto.
  - intros (i & b & Hi & He). exists b. split; [done|]. eapply list_elem_of_lookup_2; eauto.
Qed.

(** Every peer is in the bucket of its distance, and has the node's hash length. *)
Lemma entries_place i b e :
  buckets t !! i = Some b -> e ∈ b ->
  idlen e = idlen (self t) /\ bucketID t e = Z.of_nat i.
Proof.
  intros Hi He. pose proof (bw_place _ _ _ (tw_bucket _ Hwf _ _ Hi)) as H.
  rewrite Forall_forall in H. by apply H.
Qed.

Lemma entries_idlen e : e ∈ entries t -> idlen e = idlen (self t).
Proof.
  rewrite elem_of_entries. intros (i & b & Hi & He). by eapply entries_place.
Qed.

Lemma entries_in_bucket x b e :
  idlen x = idlen (self t) ->
  buckets t !! Z.to_nat (bucketID t x) = Some b -> e ∈ entries t -> key e = key x -> e ∈ b.
Proof.
  intros Hx Hb He Hk. apply elem_of_entries in He as (i & b' & Hi & He).
  destruct (entries_place _ _ _ Hi He) as [_ Hp].
  rewrite (bucketID_key t e x Hk) in Hp. rewrite Hp, Nat2Z.id in Hb. congruence.
Qed.

(** Replacing one bucket replaces a segment of [entries]. *)
Lemma entries_set_bucket id b :
  buckets t !! Z.to_nat id = Some b -> exists pre post,
    entries t = pre ++ b ++ post /\
    (forall b', entries (set_bucket t id b') = pre ++ b' ++ post) /\
    (forall e, e ∈ pre ++ post ->
       exists j b2, j <> Z.to_nat id /\ buckets t !! j = Some b2 /\ e ∈ b2).
Proof.
  intros Hb. set (n := Z.to_nat id) in *.
  exists (mjoin (take n (buckets t))), (mjoin (drop (S n) (buckets t))).
  pose proof (lookup_lt_Some _ _ _ Hb). unfold entries. split; [|split].
  - rewrite <-(take_drop_middle _ _ _ Hb) at 1. by rewrite join_app.
  - intros b'. simpl. fold n. rewrite insert_take_drop by done. by rewrite join_app.
  - intros e He. apply elem_of_app in He as [He|He];
      apply list_elem_of_join in He as (b2 & He & Hj); apply list_elem_of_lookup in Hj as [j Hj].
    + apply lookup_take_Some in Hj as [Hj ?]. exists j, b2. split; [lia|done].
    + rewrite lookup_drop in Hj. exists (S n + j)%nat, b2. split; [lia|done].
Qed.
End Table.

(** The peers outside the target's bucket have other keys. *)
Lemma other_buckets_key t x j b e :
  table_wf t -> idlen x = idlen (self t) -> j <> Z.to_nat (bucketID t x) ->
  buckets t !! j = Some b -> e ∈ b -> key e <> key x.
Proof.
  intros Hwf Hx Hj Hb He Hk. destruct (entries_place _ Hwf _ _ _ Hb He) as [_ Hp].
  rewrite (bucketID_key t e x Hk) in Hp. lia.
Qed.

Lemma entries_nodup t : table_wf t -> NoDup (key <$> entries t).
Proof.
  intros Hwf. unfold entries.
  assert (H : forall bs n, (forall i b, bs !! i = Some b -> buckets t !! (n + i)%nat = Some b) ->
            NoDup (key <$> mjoin bs)).
  { induction bs as [|b bs IH]; intros n Hbs; simpl; [constructor|].
    pose proof (Hbs 0%nat b eq_refl) as Hb. rewrite Nat.add_0_r in Hb.
    rewrite fmap_app. apply NoDup_app.
    split; [apply (bw_nodup _ _ _ (tw_bucket _ Hwf _ _ Hb))|]. split.
    - intros k Hk Hk'. apply list_elem_of_fmap in Hk as (e & -> & He).
      apply list_elem_of_fmap in Hk' as (e' & E & He').
      apply list_elem_of_join in He' as (b' & He' & Hj).
      apply list_elem_of_lookup in Hj as [j Hj]. specialize (Hbs (S j) _ Hj).
      destruct (entries_place _ Hwf _ _ _ Hb He) as [_ P1].
      destruct (entries_place _ Hwf _ _ _ Hbs He') as [_ P2].
      rewrite (bucketID_key t e e' E) in P1. lia.
    - apply (IH (S n)). intros i c Hi. rewrite Nat.add_succ_comm. by apply Hbs. }
  by apply (H (buckets t) 0%nat).
Qed.

(** ** [Update], [RemovePeer] and [PeerExists] *)

(** What [Update] does on every branch: a target whose hash has another length is ignored; a
    known target moves to the front of its bucket, which keeps the value stored first (a new
    address is not recorded); an unknown one is put in front when the bucket holds at most
    [BucketSize] peers, and dropped otherwise.  No other bucket changes. *)
Theorem Update_spec (t : RoutingTable) (x : ID) :
  table_wf t ->
  (idlen x <> idlen (self t) -> Update t x = Ok t) /\
  (idlen x = idlen (self t) ->
   let n := Z.to_nat (bucketID t x) in
   exists b t', buckets t !! n = Some b /\ Update t x = Ok t' /\ self t' = self t /\
     (forall m, m <> n -> buckets t' !! m = buckets t !! m) /\
     ((exists pre e post, b = pre ++ e :: post /\ key e = key x /\
                          buckets t' !! n = Some (e :: pre ++ post)) \/
      (key x ∉ key <$> b /\ zlen b <= BucketSize /\ buckets t' !! n = Some (x :: b)) \/
      (key x ∉ key <$> b /\ BucketSize < zlen b /\ t' = t))).
Proof.
  intros Hwf. split.
  { intros Hne. unfold Update. destruct (Z.eqb_spec (idlen (self t)) (idlen x)); [lia|done]. }
  intros Hx n. pose proof (bucketID_range t Hwf x Hx) as Hr.
  destruct (deref_bucket_ok t Hwf _ Hr) as (b & Hd & Hb & Hbw). fold n in Hb.
  assert (Hset : forall b', buckets (set_bucket t (bucketID t x) b') !! n = Some b' /\
            forall m, m <> n -> buckets (set_bucket t (bucketID t x) b') !! m = buckets t !! m).
  { intros b'. split.
    - apply list_lookup_insert_eq. by eapply lookup_lt_Some.
    - intros m Hm. apply list_lookup_insert_ne. by apply not_eq_sym. }
  unfold Update. rewrite Hx, Z.eqb_refl. simpl. rewrite Hd. simpl.
  destruct (find_element x b) as [[i e]|] eqn:E.
  - apply find_element_Some in E as (pre & post & Hbe & Hi & He & Hdel & _).
    eexists b, _. split; [done|]. split; [done|]. split; [done|].
    split; [apply Hset|]. left. exists pre, e, post. split; [done|]. split; [done|].
    unfold MoveToFront. rewrite Hdel. apply Hset.
  - apply find_element_None in E. assert (Hnk : key x ∉ key <$> b).
    { rewrite list_elem_of_fmap. intros (y & Ey & Hy). rewrite Forall_forall in E.
      by apply (E y Hy). }
    destruct (Z.leb_spec (zlen b) BucketSize).
    + eexists b, _. split; [done|]. split; [done|]. split; [done|]. split; [apply Hset|].
      right; left. split; [done|]. split; [done|]. apply Hset.
    + exists b, t. do 4 (split; [done|]). right; right. done.
Qed.

Lemma Update_wf t x : table_wf t -> exists t', Update t x = Ok t' /\ table_wf t' /\ self t' = self t.
Proof.
  intros Hwf. destruct (decide (idlen x = idlen (self t))) as [Hx|Hx].
  2:{ exists t. split; [by apply Update_spec|done]. }
  pose proof (bucketID_range t Hwf x Hx) as Hr.
  destruct (deref_bucket_ok t Hwf _ Hr) as (b & Hd & Hb & Hbw).
  unfold Update. rewrite Hx, Z.eqb_refl. simpl. rewrite Hd. simpl.
  destruct (find_element x b) as [[i e]|] eqn:E.
  - apply find_element_Some in E as (pre & post & -> & Hi & He & Hdel & _).
    eexists. split; [done|]. split; [|done]. apply set_bucket_wf; [done|lia|].
    unfold MoveToFront. rewrite Hdel. eapply bucket_wf_perm; [|done]. by rewrite Permutation_middle.
  - apply find_element_None in E. destruct (Z.leb_spec (zlen b) BucketSize); [|eauto].
    eexists. split; [done|]. split; [|done]. apply set_bucket_wf; [done|lia|].
    by apply bucket_wf_cons.
Qed.

(** [RemovePeer] deletes exactly the entry with the target's hash, and answers whether there
    was one. *)
Lemma RemovePeer_spec (t : RoutingTable) (x : ID) :
  table_wf t -> idlen x = idlen (self t) ->
  exists t', RemovePeer t x = Ok (t', bool_decide (key x ∈ key <$> entries t)) /\
    table_wf t' /\ self t' = self t /\
    entries t' = filter (fun e => key e <> key x) (entries t).
Proof.
  intros Hwf Hx. pose proof (bucketID_range t Hwf x Hx) as Hr.
  destruct (deref_bucket_ok t Hwf _ Hr) as (b & Hd & Hb & Hbw).
  destruct (entries_set_bucket t _ _ Hb) as (P & Q & HE & HE' & HPQ).
  assert (HPQk : Forall (fun e => key e <> key x) (P ++ Q)).
  { apply Forall_forall. intros e (j & b2 & Hj & Hb2 & He)%HPQ.
    by eapply other_buckets_key. }
  apply Forall_app in HPQk as [HP HQ].
  unfold RemovePeer. rewrite Hd. simpl. destruct (find_element x b) as [[i e]|] eqn:E.
  - apply find_element_Some in E as (pre & post & -> & Hi & He & Hdel & Hpre).
    exists (set_bucket t (bucketID t x) (delete i (pre ++ e :: post))).
    rewrite bool_decide_eq_true_2.
    2:{ rewrite HE, <-He. rewrite !fmap_app, fmap_cons. set_solver. }
    split; [done|]. rewrite Hdel. split; [apply set_bucket_wf; [done|lia|by eapply bucket_wf_sub]|].
    split; [done|]. rewrite HE', HE, !filter_app, filter_cons_False by (intros H; by apply H).
    rewrite !Forall_filter_id; [done|done| |done|done].
    apply Forall_forall. intros y Hy Ey. pose proof (bw_nodup _ _ _ Hbw) as Hnd.
    rewrite fmap_app, fmap_cons in Hnd. apply NoDup_app in Hnd as (_ & _ & Hnd).
    apply NoDup_cons in Hnd as [Hnd _]. apply Hnd. rewrite He, <-Ey. by apply list_elem_of_fmap_2.
  - apply find_element_None in E. exists t.
    assert (Hall : Forall (fun e => key e <> key x) (entries t)).
    { rewrite HE, !Forall_app. auto. }
    rewrite bool_decide_eq_false_2.
    2:{ rewrite list_elem_of_fmap. intros (y & Ey & Hy). rewrite Forall_forall in Hall.
        by apply (Hall y Hy). }
    split; [done|]. split; [done|]. split; [done|].
    symmetry. by apply Forall_filter_id.
Qed.

(** [PeerExists] decides membership by hash. *)
Lemma PeerExists_spec (t : RoutingTable) (x : ID) :
  table_wf t -> idlen x = idlen (self t) ->
  PeerExists t x = Ok (bool_decide (key x ∈ key <$> entries t)).
Proof.
  intros Hwf Hx. destruct (RemovePeer_spec t x Hwf Hx) as (t' & Hrm & _).
  unfold RemovePeer in Hrm. unfold PeerExists.
  destruct (deref_bucket t (bucketID t x)) as [b| |]; try done. simpl in *.
  destruct (find_element x b) as [[]|]; congruence.
Qed.

(** After [Update] a peer is in the table exactly when it was there or its bucket had room;
    every other peer stays, and nothing else is added. *)
Lemma Update_entries (t : RoutingTable) (x : ID) :
  table_wf t -> idlen x = idlen (self t) ->
  exists b t', buckets t !! Z.to_nat (bucketID t x) = Some b /\ Update t x = Ok t' /\
    entries t' ≡ₚ
      (if bool_decide (key x ∈ key <$> entries t) then entries t
       else if zlen b <=? BucketSize then x :: entries t else entries t).
Proof.
  intros Hwf Hx. pose proof (bucketID_range t Hwf x Hx) as Hr.
  destruct (deref_bucket_ok t Hwf _ Hr) as (b & Hd & Hb & Hbw).
  destruct (entries_set_bucket t _ _ Hb) as (P & Q & HE & HE' & HPQ).
  pose proof (PeerExists_spec t x Hwf Hx) as Hex. unfold PeerExists in Hex.
  exists b. unfold Update. rewrite Hx, Z.eqb_refl. simpl.
  rewrite Hd in *. simpl in *. destruct (find_element x b) as [[i e]|] eqn:E.
  - injection Hex as Hex. symmetry in Hex. apply bool_decide_eq_true in Hex.
    eexists. split; [done|]. split; [done|]. rewrite bool_decide_eq_true_2 by done.
    apply find_element_Some in E as (pre & post & -> & Hi & He & Hdel & _).
    unfold MoveToFront. rewrite Hdel, HE', HE. by rewrite <-Permutation_middle.
  - injection Hex as Hex. symmetry in Hex. apply bool_decide_eq_false in Hex.
    destruct (zlen b <=? BucketSize); eexists; (split; [done|]); (split; [done|]);
      rewrite bool_decide_eq_false_2 by done; [|done].
    rewrite HE', HE. simpl. by rewrite <-Permutation_middle.
Qed.

Lemma CreateRoutingTable_wf id :
  0 < idlen id -> exists t, CreateRoutingTable id = Ok t /\ table_wf t /\ self t = id.
Proof.
  intros Hid. apply (Update_wf (mkTable id (replicate (Z.to_nat (idlen id * 8)) NewBucket))).
  split; simpl; [done|..].
  - unfold zlen. rewrite length_replicate. lia.
  - intros i b Hi. apply lookup_replicate in Hi as [-> _]. apply bucket_wf_nil.
Qed.

Lemma apply_ops_wf os t :
  table_wf t -> Forall (op_ok (idlen (self t))) os ->
  exists t', apply_ops t os = Ok t' /\ table_wf t' /\ self t' = self t.
Proof.
  intros Hwf Hos. revert t Hwf Hos. induction os as [|o os IH]; intros t Hwf Hos; simpl; [eauto|].
  apply Forall_cons in Hos as [Ho Hos].
  assert (Hstep : exists t1, apply_op t o = Ok t1 /\ table_wf t1 /\ self t1 = self t).
  { destruct o as [x|x]; simpl in *; [by apply Update_wf|].
    destruct (RemovePeer_spec t x Hwf Ho) as (t1 & -> & ? & ? & _). simpl. eauto. }
  destruct Hstep as (t1 & -> & Hwf1 & Hs1). simpl.
  destruct (IH t1 Hwf1) as (t' & ? & ? & ?); [by rewrite Hs1|].
  exists t'. split; [done|]. split; [done|congruence].
Qed.

(** ** Refinement: a table is a bounded map from hashes to peers *)

Lemma abs_lookup t k e :
  table_wf t -> abs t !! k = Some e <-> e ∈ entries t /\ key e = k.
Proof.
  intros Hwf. unfold abs. rewrite <-elem_of_list_to_map.
  - rewrite list_elem_of_fmap. naive_solver.
  - rewrite <-list_fmap_compose. apply (entries_nodup _ Hwf).
Qed.

Lemma abs_is_Some t k : table_wf t -> is_Some (abs t !! k) <-> k ∈ key <$> entries t.
Proof.
  intros Hwf. unfold is_Some. setoid_rewrite abs_lookup; [|done].
  rewrite list_elem_of_fmap. naive_solver.
Qed.

Lemma abs_perm t t' l :
  table_wf t -> l ≡ₚ entries t' -> l ≡ₚ entries t -> abs t' = abs t.
Proof.
  intros Hwf H1 H2. unfold abs. symmetry. apply list_to_map_proper.
  - rewrite <-list_fmap_compose. apply (entries_nodup _ Hwf).
  - by rewrite <-H1, <-H2.
Qed.

(** C4. A well-formed table is a map from key hashes to peers ([abs]): [PeerExists] is its
    membership test, [RemovePeer] its deletion (and says whether there was anything to
    delete), [Update] its insertion of an absent key while the bucket has room; a key that is
    present keeps the peer stored first. *)
Theorem routing_table_refines_map (t : RoutingTable) (x : ID) :
  table_wf t -> idlen x = idlen (self t) ->
  let known := bool_decide (is_Some (abs t !! key x)) in
  PeerExists t x = Ok known /\
  (exists t', RemovePeer t x = Ok (t', known) /\ abs t' = delete (key x) (abs t)) /\
  (exists b t', buckets t !! Z.to_nat (bucketID t x) = Some b /\ Update t x = Ok t' /\
     abs t' = if known then abs t
              else if zlen b <=? BucketSize then <[key x := x]> (abs t) else abs t).
Proof.
  intros Hwf Hx known.
  assert (Hk : known = bool_decide (key x ∈ key <$> entries t)).
  { unfold known. apply bool_decide_ext. by apply abs_is_Some. }
  split; [|split].
  - rewrite Hk. by apply PeerExists_spec.
  - destruct (RemovePeer_spec t x Hwf Hx) as (t' & Hr & Hwf' & _ & HE).
    exists t'. rewrite Hk. split; [done|]. apply map_eq. intros k. apply option_eq. intros e.
    rewrite abs_lookup, HE, list_elem_of_filter, lookup_delete_Some, abs_lookup by done.
    naive_solver.
  - destruct (Update_entries t x Hwf Hx) as (b & t' & Hb & Hu & HE).
    exists b, t'. split; [done|]. split; [done|].
    destruct (Update_wf t x Hwf) as (t1 & Hu1 & Hwf' & _).
    rewrite Hu in Hu1. injection Hu1 as <-. rewrite Hk.
    case_bool_decide as Hin.
    + by eapply abs_perm.
    + destruct (zlen b <=? BucketSize); [|by eapply abs_perm].
      apply map_eq. intros k. apply option_eq. intros e.
      rewrite abs_lookup, HE, elem_of_cons, lookup_insert_Some, abs_lookup by done.
      split; [|naive_solver]. intros [[->|He] <-]; [by left|right].
      split; [|done]. intros E. apply Hin. rewrite E. by apply list_elem_of_fmap_2.
Qed.

(** ** Enumeration of the peers *)

Lemma foldl_join {A B} (f : B -> A -> B) acc (ls : list (list A)) :
  foldl (foldl f) acc ls = foldl f acc (mjoin ls).
Proof.
  revert acc; induction ls as [|l ls IH]; intros acc; simpl; [done|].
  by rewrite IH, foldl_app.
Qed.

Lemma visit_fmap {A} (f : ID -> A) l v ps :
  (foldl (visit f) (v, f <$> ps) l).2 = f <$> (foldl (visit (fun id => id)) (v, ps) l).2.
Proof.
  revert v ps; induction l as [|e l IH]; intros v ps; simpl; [done|].
  case_bool_decide; [apply IH|]. rewrite <-IH, fmap_app. done.
Qed.

Lemma visit_spec l v ps :
  exists new, (foldl (visit (fun id => id)) (v, ps) l).2 = ps ++ new /\
    new `sublist_of` l /\ NoDup (PublicKeyHex <$> new) /\
    (forall e, e ∈ new -> PublicKeyHex e ∉ v) /\
    (forall e, e ∈ l -> PublicKeyHex e ∉ v -> PublicKeyHex e ∈ PublicKeyHex <$> new).
Proof.
  revert v ps; induction l as [|e l IH]; intros v ps; simpl.
  { exists []. rewrite app_nil_r. split; [done|]. split; [constructor|].
    split; [constructor|]. split; intros ? H; by apply elem_of_nil in H. }
  case_bool_decide as Hv.
  - destruct (IH v ps) as (new & -> & ? & ? & ? & Hc). exists new. split; [done|].
    split; [by constructor|]. split; [done|]. split; [done|].
    intros e' [->|He]%elem_of_cons; [done|]. by apply Hc.
  - destruct (IH ({[PublicKeyHex e]} ∪ v) (ps ++ [e])) as (new & -> & ? & ? & Hn & Hc).
    exists (e :: new). rewrite <-app_assoc. split; [done|]. split; [by constructor|].
    split; [|split].
    + rewrite fmap_cons. constructor; [|done]. intros (y & E & Hy)%list_elem_of_fmap.
      apply (Hn y Hy). set_solver.
    + intros e' [->|He]%elem_of_cons; [done|]. specialize (Hn _ He). set_solver.
    + intros e' [->|He]%elem_of_cons Hne; rewrite fmap_cons; [by left|].
      destruct (decide (PublicKeyHex e' = PublicKeyHex e)) as [->|]; [by left|].
      right. apply Hc; [done|]. set_solver.
Qed.

(** [GetPeers] lists peers of the table, in bucket order, each public key once and never the
    node's own; no other key of the table is missed.  [GetPeerAddresses] lists the addresses
    of the same peers. *)
Theorem GetPeers_spec (t : RoutingTable) :
  GetPeers t `sublist_of` entries t /\
  NoDup (netkey <$> GetPeers t) /\
  (forall e, e ∈ GetPeers t -> netkey e <> netkey (self t)) /\
  (forall e, e ∈ entries t -> netkey e <> netkey (self t) -> netkey e ∈ netkey <$> GetPeers t) /\
  GetPeerAddresses t = ID_Address <$> GetPeers t.
Proof.
  unfold GetPeers, GetPeerAddresses, visit_buckets. rewrite !foldl_join.
  fold (entries t). rewrite (visit_fmap ID_Address (entries t) _ []).
  destruct (visit_spec (entries t) {[PublicKeyHex (self t)]} []) as (new & -> & Hs & Hn & Hv & Hc).
  simpl. split; [done|]. split; [|split; [|split; [|done]]].
  - assert (Hf : PublicKeyHex <$> new = hex_EncodeToString <$> (netkey <$> new)).
    { by rewrite <-list_fmap_compose. }
    rewrite Hf in Hn. by apply NoDup_fmap_1 in Hn.
  - intros e He E. apply (Hv e He). apply elem_of_singleton. by apply PublicKeyHex_eq.
  - intros e He Hne. assert (Hi : PublicKeyHex e ∈ PublicKeyHex <$> new).
    { apply Hc; [done|]. rewrite elem_of_singleton. by rewrite PublicKeyHex_eq. }
    apply list_elem_of_fmap in Hi as (y & E & Hy). apply PublicKeyHex_eq in E.
    apply list_elem_of_fmap. by exists y.
Qed.

(** ** [FindClosestPeers] *)

Lemma closer_dist target x y :
  idlen x = idlen target -> idlen y = idlen target ->
  closer target x y = true <-> dist x target < dist y target.
Proof.
  intros Hx Hy. unfold closer. rewrite Less_be; [done|]. rewrite !idlen_XorID. congruence.
Qed.

#[export] Instance closer_strict_weak target : StrictWeak (closer target).
Proof.
  split; unfold closer.
  - intros x. apply (sw_irrefl (less := fun a b => Less a (Some b))).
  - intros x y z. apply (sw_trans (less := fun a b => Less a (Some b))).
  - intros x y z. apply (sw_cotrans (less := fun a b => Less a (Some b))).
Qed.

(** Two peers of a table at the same distance from a target are the same peer, so every
    correct sorting algorithm puts the peers in the order of [isort]. *)
Lemma closer_ties t target x y :
  table_wf t -> idlen target = idlen (self t) -> x ∈ entries t -> y ∈ entries t ->
  closer target x y = false -> closer target y x = false -> x = y.
Proof.
  intros Hwf Ht Hx Hy H1 H2.
  pose proof (entries_idlen _ Hwf _ Hx) as Lx. pose proof (entries_idlen _ Hwf _ Hy) as Ly.
  assert (~ dist x target < dist y target) by (rewrite <-closer_dist; congruence).
  assert (~ dist y target < dist x target) by (rewrite <-closer_dist; congruence).
  assert (E : key x = key y).
  { apply Equals_key, (dist_unidirectional target); [congruence..|].
    rewrite (dist_sym target x), (dist_sym target y) by congruence. lia. }
  pose proof (entries_nodup _ Hwf) as Hn.
  apply list_elem_of_lookup in Hx as [i Hi], Hy as [j Hj].
  assert (i = j) as ->; [|congruence].
  eapply NoDup_lookup; [done|..]; rewrite list_lookup_fmap; [rewrite Hi|rewrite Hj]; simpl.
  - by rewrite E.
  - done.
Qed.

Lemma FindClosestPeers_sort_unique t target l k :
  table_wf t -> idlen target = idlen (self t) -> l ⊆ entries t ->
  k ≡ₚ l -> Sorted (not_after (closer target)) k -> k = isort (closer target) l.
Proof.
  intros Hwf Ht Hl Hp Hs. apply isort_unique; [apply _| |done|done].
  intros x y Hx Hy. apply (closer_ties t); auto.
Qed.

(** A bucket is the part of the table at one prefix length. *)
Lemma bucket_filter t j b :
  table_wf t -> 0 <= j -> buckets t !! Z.to_nat j = Some b ->
  b = filter (fun e => bucketID t e = j) (entries t).
Proof.
  intros Hwf Hj Hb. destruct (entries_set_bucket t j b Hb) as (P & Q & HE & _ & HPQ).
  assert (HPQ' : Forall (fun e => ~ bucketID t e = j) (P ++ Q)).
  { apply Forall_forall. intros e (i & b2 & Hi & Hb2 & He)%HPQ.
    destruct (entries_place _ Hwf _ _ _ Hb2 He) as [_ ->]. lia. }
  apply Forall_app in HPQ' as [HP HQ].
  rewrite HE, !filter_app, (Forall_filter_none _ P), (Forall_filter_none _ Q) by done.
  rewrite app_nil_r, Forall_filter_id; [done|].
  apply Forall_forall. intros e He. destruct (entries_place _ Hwf _ _ _ Hb He) as [_ ->]. lia.
Qed.

Lemma bucket_filter_out t j :
  table_wf t -> ~ 0 <= j < zlen (buckets t) ->
  filter (fun e => bucketID t e = j) (entries t) = [].
Proof.
  intros Hwf Hj. apply Forall_filter_none, Forall_forall. intros e He E.
  pose proof (bucketID_range t Hwf e (entries_idlen _ Hwf _ He)). lia.
Qed.

(** One conditional append of the widening loop. *)
Lemma widen_append t (c : bool) j peers :
  table_wf t -> (c = true <-> 0 <= j < zlen (buckets t)) ->
  (if c then (other ← deref_bucket t j; Ok (peers ++ other)) else Ok peers) =
  Ok (peers ++ filter (fun e => bucketID t e = j) (entries t)).
Proof.
  intros Hwf Hc. destruct c.
  - assert (Hj : 0 <= j < zlen (buckets t)) by (by apply Hc).
    destruct (deref_bucket_ok t Hwf j Hj) as (b & -> & Hb & _). simpl.
    by rewrite <-(bucket_filter t j b) by (done || lia).
  - rewrite bucket_filter_out; [by rewrite app_nil_r|done|]. intros Hj. by apply Hc in Hj.
Qed.

Lemma within_succ t id r :
  1 <= r -> within t id (r + 1) ≡ₚ
  within t id r ++ filter (fun e => bucketID t e = id - r) (entries t)
                ++ filter (fun e => bucketID t e = id + r) (entries t).
Proof.
  intros Hr. unfold within.
  rewrite (filter_disjoint_or _ (fun e => Z.abs (bucketID t e - id) < r)
             (fun e => Z.abs (bucketID t e - id) = r)) by (intros; lia).
  f_equiv. apply filter_disjoint_or; intros; lia.
Qed.

Lemma within_all t id r :
  table_wf t -> id - r < 0 -> zlen (buckets t) <= id + r -> within t id r = entries t.
Proof.
  intros Hwf H1 H2. apply Forall_filter_id, Forall_forall. intros e He.
  pose proof (bucketID_range t Hwf e (entries_idlen _ Hwf _ He)). lia.
Qed.

(** The loop ends with the peers within some radius, and either there are enough of them or
    they are all the peers. *)
Lemma widen_spec fuel t id count i peers :
  table_wf t -> 0 <= id < zlen (buckets t) -> 1 <= i ->
  (0 < fuel)%nat -> zlen (buckets t) < Z.of_nat fuel + i ->
  peers ≡ₚ within t id i ->
  exists peers' r, widen fuel t id count i peers = Ok peers' /\ peers' ≡ₚ within t id r /\
    1 <= r /\ (count <= zlen (within t id r) \/ within t id r = entries t).
Proof.
  intros Hwf Hid. pose proof (tw_buckets _ Hwf) as HN. rewrite HN in *. revert i peers.
  induction fuel as [|fuel IH]; intros i peers Hi H0 Hf Hp; [lia|]. cbn [widen].
  assert (Hz : zlen peers = zlen (within t id i)) by (unfold zlen; by rewrite Hp).
  destruct (Z.ltb_spec (zlen peers) count) as [Hc|Hc]; simpl.
  2:{ exists peers, i. split; [done|]. split; [done|]. split; [done|]. left. lia. }
  destruct ((0 <=? id - i) || (id + i <? idlen (self t) * 8)) eqn:Ho.
  - rewrite (widen_append t (0 <=? id - i) (id - i)) by (done || rewrite Z.leb_le; lia). simpl.
    rewrite (widen_append t (id + i <? idlen (self t) * 8) (id + i))
      by (done || rewrite Z.ltb_lt; lia). simpl.
    apply orb_true_iff in Ho. rewrite Z.leb_le, Z.ltb_lt in Ho.
    apply IH; [lia..|]. by rewrite within_succ, Hp, app_assoc by done.
  - apply orb_false_iff in Ho. rewrite Z.leb_gt, Z.ltb_ge in Ho.
    exists peers, i. split; [done|]. split; [done|]. split; [done|]. right.
    apply within_all; [done|lia|lia].
Qed.

(** What [FindClosestPeers] computes: the first [count] of the peers of the buckets within some
    radius, sorted. *)
Lemma FindClosestPeers_take (t : RoutingTable) (target : ID) (count : Z) :
  table_wf t -> idlen target = idlen (self t) -> 0 <= count ->
  exists sorted r, FindClosestPeers t target count = Ok (take (Z.to_nat count) sorted) /\
    1 <= r /\ sorted ≡ₚ within t (bucketID t target) r /\
    StronglySorted (fun x y => dist x target <= dist y target) sorted /\
    (count <= zlen (within t (bucketID t target) r) \/ within t (bucketID t target) r = entries t).
Proof.
  intros Hwf Ht Hcount. pose proof (bucketID_range t Hwf _ Ht) as Hid.
  unfold FindClosestPeers. rewrite Ht, Z.eqb_refl. cbn [negb].
  set (id := bucketID t target) in *.
  destruct (deref_bucket_ok t Hwf id Hid) as (b & -> & Hb & _). cbn [mbind res_bind].
  assert (Hb1 : b ≡ₚ within t id 1).
  { rewrite (bucket_filter t id b) by (done || lia). unfold within.
    rewrite (list_filter_iff _ (fun e => Z.abs (bucketID t e - id) < 1)); [done|].
    intros e. lia. }
  destruct (widen_spec (S (length (buckets t))) t id count 1 b) as (ps & r & -> & Hp & Hr & Hall);
    [done|done|lia|lia|unfold zlen; lia|done|]. cbn [mbind res_bind].
  set (sorted := isort (closer target) ps).
  assert (HP : sorted ≡ₚ within t id r) by (unfold sorted; by rewrite isort_perm).
  exists sorted, r. split; [|split; [done|split; [done|split; [|done]]]].
  - destruct (Z.ltb_spec count (zlen sorted)).
    + rewrite subslice_ok by lia. by rewrite Z.sub_0_r.
    + rewrite take_ge by (unfold zlen in *; lia). done.
  - eapply StronglySorted_weaken; [|apply (isort_strongly_sorted (closer target))].
    intros x y Hx Hy Hna. unfold not_after in Hna.
    assert (L : forall z, z ∈ sorted -> idlen z = idlen target).
    { intros z Hz. rewrite HP in Hz. apply list_elem_of_filter in Hz as [_ Hz].
      by rewrite (entries_idlen _ Hwf _ Hz). }
    assert (~ dist y target < dist x target) by (rewrite <-closer_dist by auto; congruence).
    lia.
Qed.

(** On any target: at most [count] peers, all of the table. *)
Lemma FindClosestPeers_sub (t : RoutingTable) (target : ID) (count : Z) :
  table_wf t -> 0 <= count ->
  exists peers, FindClosestPeers t target count = Ok peers /\ zlen peers <= count /\
    peers ⊆+ entries t.
Proof.
  intros Hwf Hc. destruct (decide (idlen target = idlen (self t))) as [Ht|Ht].
  - destruct (FindClosestPeers_take t target count Hwf Ht Hc) as (s & r & -> & _ & HP & _).
    eexists. split; [done|]. split; [unfold zlen; rewrite length_take; lia|].
    transitivity s; [rewrite <-(take_drop (Z.to_nat count) s) at 2; by apply submseteq_inserts_r|].
    rewrite HP. unfold within. apply sublist_submseteq, sublist_filter.
  - exists []. unfold FindClosestPeers. destruct (Z.eqb_spec (idlen (self t)) (idlen target)); [congruence|].
    split; [done|]. split; [rewrite zlen_nil; lia|]. apply submseteq_nil_l.
Qed.

(** C20. [FindClosestPeers] on a well-formed table never panics.  It returns peers of the table,
    sorted by XOR distance from the target, as many as asked for or as many as there are.
    They are the closest ones among the peers of the buckets within some radius of the
    target's bucket: a peer that is left out is farther than every peer returned, or lies
    outside that radius. *)
Theorem FindClosestPeers_spec (t : RoutingTable) (target : ID) (count : Z) :
  table_wf t -> idlen target = idlen (self t) -> 0 <= count ->
  exists peers r, FindClosestPeers t target count = Ok peers /\
    1 <= r /\
    StronglySorted (fun x y => dist x target <= dist y target) peers /\
    zlen peers = Z.min count (zlen (entries t)) /\
    peers ⊆+ within t (bucketID t target) r /\
    (forall x p, x ∈ within t (bucketID t target) r -> x ∉ peers -> p ∈ peers ->
       dist p target <= dist x target).
Proof.
  intros Hwf Ht Hcount.
  destruct (FindClosestPeers_take t target count Hwf Ht Hcount) as (sorted & r & -> & Hr & HP & HS & Hall).
  set (id := bucketID t target) in *. set (out := take (Z.to_nat count) sorted).
  assert (Hcut : sorted = out ++ drop (Z.to_nat count) sorted) by (symmetry; apply take_drop).
  rewrite Hcut in HS. apply StronglySorted_app in HS as (Hcross & HS & _).
  exists out, r. split; [done|]. split; [done|]. split; [done|]. split; [|split].
  - assert (Hsz : zlen sorted = zlen (within t id r)) by (unfold zlen; by rewrite HP).
    assert (Hlen : zlen out = Z.min count (zlen sorted)).
    { unfold out, zlen. rewrite length_take. lia. }
    assert (Hle : zlen (within t id r) <= zlen (entries t)).
    { unfold zlen, within. pose proof (length_filter (fun e => Z.abs (bucketID t e - id) < r)
        (entries t)). lia. }
    destruct Hall as [?|E]; [lia|]. rewrite <-E. lia.
  - rewrite <-HP. rewrite Hcut. apply submseteq_inserts_r. done.
  - intros x p Hx Hnx Hpo. rewrite <-HP, Hcut in Hx. apply elem_of_app in Hx as [Hx|Hx]; [done|].
    by apply Hcross.
Qed.

(** C3. Every table the code can build is well formed, and the operations on it do not panic with
    hashes of the node's length: a table is created for a non-empty hash and then changed by
    [Update] with any peer and by [RemovePeer] with a peer whose hash has the node's length.  On
    the table that is left, [Update] of any peer and [RemovePeer] of a peer of that length give
    well-formed tables again, [PeerExists] of a peer of that length answers, and
    [FindClosestPeers] of any target and a non-negative count returns at most that many peers.
    (The condition on the length is needed: [empty_hash_panics].) *)
Theorem reachable_table_wf (id : ID) (os : list table_op) :
  0 < idlen id -> Forall (op_ok (idlen id)) os ->
  exists t0 t, CreateRoutingTable id = Ok t0 /\ apply_ops t0 os = Ok t /\
    table_wf t /\ self t = id /\
    (forall x, exists t', Update t x = Ok t' /\ table_wf t' /\ self t' = id) /\
    (forall x, idlen x = idlen id ->
       (exists known, PeerExists t x = Ok known) /\
       exists t' known, RemovePeer t x = Ok (t', known) /\ table_wf t' /\ self t' = id) /\
    (forall x count, 0 <= count ->
       exists peers, FindClosestPeers t x count = Ok peers /\ zlen peers <= count).
Proof.
  intros Hid Hos. destruct (CreateRoutingTable_wf id Hid) as (t0 & Hc & Hwf & Hs).
  destruct (apply_ops_wf os t0 Hwf) as (t & Ha & Ht & Hst); [by rewrite Hs|].
  rewrite Hs in Hst. exists t0, t. split; [done|]. split; [done|]. split; [done|]. split; [done|].
  split; [|split].
  - intros x. destruct (Update_wf t x Ht) as (t' & ? & ? & ?). exists t'. by rewrite <-Hst.
  - intros x Hx. rewrite <-Hst in Hx. split; [eexists; by apply PeerExists_spec|].
    destruct (RemovePeer_spec t x Ht Hx) as (t' & ? & ? & ? & _). eexists t', _. by rewrite <-Hst.
  - intros x count Hn. destruct (FindClosestPeers_sub t x count Ht Hn) as (peers & ? & ? & _). eauto.
Qed.

Lemma bucketID_empty t x : idlen x = 0 -> bucketID t x = -1.
Proof.
  intros Hx. unfold bucketID. rewrite PrefixLen_log2, idlen_XorID, Hx. simpl.
  apply zlen_zero in Hx. by rewrite Hx.
Qed.

(** The result is not always the closest peers the table knows: the loop widens to both sides
    at once, although every peer of a higher bucket is closer to the target than every peer of
    a lower one.  Here a node with hash [00] that knows [40], [10] and [08] is asked for the
    two peers closest to [20]: it answers [10] and [40] and leaves out [08], which is closer
    than both. *)
Theorem FindClosestPeers_not_closest :
  exists t target x peers,
    table1 [64; 16; 8] = Ok t /\ x ∈ entries t /\
    FindClosestPeers t target 2 = Ok peers /\ x ∉ peers /\ zlen peers = 2 /\
    Forall (fun p => dist x target < dist p target) peers.
Proof.
  eexists _, (peer1 32), (peer1 8), _. split; [vm_compute; reflexivity|].
  split; [by apply (bool_decide_unpack _); vm_compute|].
  split; [vm_compute; reflexivity|].
  split; [by apply (bool_decide_unpack _); vm_compute|]. split; [done|].
  repeat constructor; vm_compute; done.
Qed.

(** A bucket can hold [BucketSize + 1] peers: [Update] tests [Len() <= BucketSize]. *)
Theorem Update_overfills_bucket :
  exists t b, table1 (Z.of_nat <$> seq 128 20) = Ok t /\ buckets t !! 0%nat = Some b /\
    zlen b = BucketSize + 1.
Proof.
  eexists _, _. split; [vm_compute; reflexivity|]. split; [vm_compute; reflexivity|].
  vm_compute. reflexivity.
Qed.

(** [PeerExists], [RemovePeer] have no length test: a peer with an empty hash selects bucket
    -1, and the nil bucket is dereferenced. *)
Theorem empty_hash_panics (t : RoutingTable) (x : ID) :
  idlen x = 0 -> PeerExists t x = Panic PNilDeref /\ RemovePeer t x = Panic PNilDeref.
Proof. intros Hx. unfold PeerExists, RemovePeer. by rewrite bucketID_empty. Qed.

(** ** Witnesses *)

Lemma table1_wf ks : table_wf (table_of (table1 ks)).
Proof.
  unfold table1. destruct (CreateRoutingTable_wf (peer1 0)) as (t & -> & Hwf & _); [done|]. simpl.
  destruct (apply_ops_wf (OpUpdate ∘ peer1 <$> ks) t Hwf) as (t' & -> & ? & _); [|done].
  apply Forall_fmap, Forall_forall. done.
Qed.

Lemma reachable_table_wf_witness :
  exists t0 t, CreateRoutingTable (peer1 0) = Ok t0 /\
    apply_ops t0 [OpUpdate (peer1 64); OpRemovePeer (peer1 64); OpUpdate (peer1 3)] = Ok t /\
    table_wf t /\ self t = peer1 0 /\ exists known, PeerExists t (peer1 9) = Ok known.
Proof.
  destruct (reachable_table_wf (peer1 0) [OpUpdate (peer1 64); OpRemovePeer (peer1 64); OpUpdate (peer1 3)])
    as (t0 & t & Hc & Ha & Hwf & Hs & _ & Hp & _); [vm_compute; reflexivity | repeat constructor|].
  exists t0, t. split; [exact Hc|]. split; [exact Ha|]. split; [exact Hwf|]. split; [exact Hs|].
  exact (proj1 (Hp (peer1 9) eq_refl)).
Defined.

Lemma Update_spec_witness :
  exists b t', buckets (table_of (table1 [64; 65])) !! 1%nat = Some b /\
    Update (table_of (table1 [64; 65])) (peer1 64) = Ok t' /\ t' <> table_of (table1 [64; 65]).
Proof.
  destruct (proj2 (Update_spec (table_of (table1 [64; 65])) (peer1 64) (table1_wf _)) eq_refl)
    as (b & t' & Hb & Hu & _).
  exists b, t'. split; [exact Hb|]. split; [exact Hu|].
  vm_compute in Hu. injection Hu as <-. vm_compute. intros [=].
Defined.

Lemma routing_table_refines_map_witness :
  exists t', RemovePeer (table_of (table1 [64; 16])) (peer1 16) = Ok (t', true) /\
    abs t' = delete (key (peer1 16)) (abs (table_of (table1 [64; 16]))).
Proof.
  destruct (routing_table_refines_map (table_of (table1 [64; 16])) (peer1 16)
              (table1_wf _) eq_refl) as (_ & (t' & Hr & Ha) & _).
  exists t'. split; [|exact Ha]. exact Hr.
Defined.

Lemma FindClosestPeers_spec_witness :
  exists peers, FindClosestPeers (table_of (table1 [64; 16; 8])) (peer1 17) 2 = Ok peers /\
    zlen peers = 2.
Proof.
  destruct (FindClosestPeers_spec (table_of (table1 [64; 16; 8])) (peer1 17) 2
              (table1_wf _) eq_refl) as (peers & r & Hf & _ & _ & Hl & _); [lia|].
  exists peers. split; [exact Hf|exact Hl].
Defined.

Lemma empty_hash_panics_witness :
  PeerExists (table_of (table1 [64])) ID_zero = Panic PNilDeref /\
  RemovePeer (table_of (table1 [64])) ID_zero = Panic PNilDeref.
Proof. apply empty_hash_panics. reflexivity. Defined.
