(* ===== verification/RecvWindow.v ===== *)
(** * The receive window: [network/recv_window.go]

    A ring buffer of [size] slots that reorders messages by nonce.  Every method holds the
    window's mutex, so it is one atomic step on the record below.  The abstract counterpart is
    a reorder buffer ([spec]): the next nonce to deliver and the messages that arrived early.
    The refinement holds while each pushed nonce lies within [size] of the next one
    ([in_window]); [overtaken_window_stalls] shows what happens otherwise. *)

From S2P Require Import Prelude.
#[local] Open Scope Z_scope.

Section RecvWindow.
Context {V : Type}.

(** ** State and operations *)

(** [buf] holds [interface{}] values: [None] is nil.  [once] is whether [once.Do] has run. *)
Record RecvWindow := mkWindow {
  lastNonce : Z;
  size : Z;
  buf : list (option V);
  once : bool;
}.

(** [make] panics on a negative size. *)
Definition NewRecvWindow (size : Z) : res RecvWindow :=
  if size <? 0 then Panic PSlice
  else Ok (mkWindow 0 size (replicate (Z.to_nat size) None) false).

Definition SetLocalNonce (w : RecvWindow) (nonce : Z) : RecvWindow :=
  mkWindow nonce (size w) (buf w) (once w).
Definition LocalNonce (w : RecvWindow) : Z := lastNonce w.

(** [id % uint64(w.size)]. *)
Definition idx (w : RecvWindow) (id : Z) : res Z :=
  if u64 (size w) =? 0 then Panic PDivZero else Ok (id mod u64 (size w)).

(** [w.buf[i] = value]. *)
Definition set_buf (w : RecvWindow) (i : Z) (value : option V) : res RecvWindow :=
  _ ← index (buf w) i;
  Ok (mkWindow (lastNonce w) (size w) (<[Z.to_nat i := value]> (buf w)) (once w)).

Definition Push (w : RecvWindow) (nonce : Z) (value : option V) : res RecvWindow :=
  let w := if once w then w else mkWindow nonce (size w) (buf w) true in
  i ← idx w nonce;
  set_buf w i value.

(** The loop of [Range]: [n] iterations are left. *)
Fixpoint Range_loop (n : nat) (fn : Z -> option V -> bool) (w : RecvWindow) (id : Z)
    (out : list (option V)) : res (RecvWindow * list (option V)) :=
  match n with
  | O => Ok (w, out)
  | S n' =>
      i ← idx w id;
      val ← index (buf w) i;
      if negb (fn id val) then Ok (mkWindow i (size w) (buf w) (once w), out)
      else
        w ← set_buf w i None;
        Range_loop n' fn w (u64 (id + 1)) (out ++ [val])
  end.
Definition Range (fn : Z -> option V -> bool) (w : RecvWindow)
    : res (RecvWindow * list (option V)) :=
  Range_loop (Z.to_nat (size w)) fn w (lastNonce w) [].

Definition is_set (v : option V) : bool := match v with Some _ => true | None => false end.
Definition Pop (w : RecvWindow) : res (RecvWindow * list (option V)) :=
  Range (fun _ v => is_set v) w.

(** What a goroutine of [Accept] does with its message, for messages that do not interleave: push
    it, then pop what is ready.  [Incoming] has the interleavings. *)
Fixpoint deliver (w : RecvWindow) (msgs : list (Z * V)) : res (RecvWindow * list (option V)) :=
  match msgs with
  | [] => Ok (w, [])
  | (nonce, v) :: msgs' =>
      w ← Push w nonce (Some v);
      '(w, ready) ← Pop w;
      '(w, rest) ← deliver w msgs';
      Ok (w, ready ++ rest)
  end.

(** ** The abstract reorder buffer *)

Record spec := mkSpec {
  next : Z;                  (* the nonce to deliver next *)
  pending : gmap Z V;        (* the messages that arrived, from [next] on *)
}.

Definition spec_push (s : spec) (nonce : Z) (v : V) : spec :=
  mkSpec (next s) (<[nonce := v]> (pending s)).

(** Delivery of the run of consecutive nonces that starts at [next], at most [n] of them. *)
Fixpoint spec_pop (n : nat) (s : spec) : spec * list V :=
  match n with
  | O => (s, [])
  | S n' =>
      match pending s !! next s with
      | None => (s, [])
      | Some v =>
          let '(s', out) := spec_pop n' (mkSpec (next s + 1) (delete (next s) (pending s))) in
          (s', v :: out)
      end
  end.

Definition in_window (w : RecvWindow) (s : spec) (nonce : Z) : Prop :=
  next s <= nonce < next s + size w.

(** The ring slot of nonce [next + k] holds what is pending for it. *)
Record ring (w : RecvWindow) (s : spec) : Prop := {
  rf_size : size w = zlen (buf w) /\ 0 < size w < 2 ^ 63;
  rf_slot : forall k, 0 <= k < size w ->
    buf w !! Z.to_nat ((next s + k) mod size w) = Some (pending s !! (next s + k));
  rf_pending : forall n, is_Some (pending s !! n) -> in_window w s n;
}.

(** The window also knows where its next nonce is, up to the size of the ring. *)
Record refines (w : RecvWindow) (s : spec) : Prop := {
  rf_ring : ring w s;
  rf_once : once w = true;
  rf_next : lastNonce w mod size w = next s mod size w;
  rf_last : 0 <= lastNonce w /\ lastNonce w + size w < 2 ^ 64;
}.

(** Arrivals the window can sort out: the nonces from [n0] on, each once, the first one first,
    and no nonce overtakes another by the size of the window or more. *)
Record sortable (sz n0 : Z) (arrivals : list Z) : Prop := {
  so_perm : arrivals ≡ₚ seqZ n0 (zlen arrivals);
  so_head : head arrivals = Some n0;
  so_near : forall pre k post, arrivals = pre ++ k :: post ->
    forall j, n0 <= j -> j + sz <= k -> j ∈ pre;
}.

(** ** Lemmas *)

Lemma mod_window_inj a b m n : 0 < m -> n <= a < n + m -> n <= b < n + m ->
  a mod m = b mod m -> a = b.
Proof.
  intros Hm Ha Hb E.
  rewrite (Z.div_mod a m), (Z.div_mod b m), E by lia.
  assert (Hq : a / m - b / m = 0).
  { assert (a - b = m * (a / m - b / m)).
    { rewrite (Z.div_mod a m), (Z.div_mod b m), E at 1 by lia. ring. }
    assert (- m < m * (a / m - b / m) < m) by lia. nia. }
  replace (a / m) with (b / m) by lia. done.
Qed.

Lemma idx_ok w id : 0 < size w < 2 ^ 63 -> idx w id = Ok (id mod size w).
Proof.
  intros H. unfold idx. rewrite u64_small by lia.
  destruct (Z.eqb_spec (size w) 0); [lia|done].
Qed.

Lemma index_lookup {A} (l : list A) i x : 0 <= i -> l !! Z.to_nat i = Some x -> index l i = Ok x.
Proof. intros Hi H. unfold index. destruct (Z.ltb_spec i 0); [lia|]. by rewrite H. Qed.

Lemma set_buf_ok w i v : 0 <= i < zlen (buf w) ->
  set_buf w i v = Ok (mkWindow (lastNonce w) (size w) (<[Z.to_nat i := v]> (buf w)) (once w)).
Proof.
  intros Hi. unfold set_buf. destruct (index_ok (buf w) i Hi) as [x ->]. done.
Qed.

Section Ring.
Context (w : RecvWindow) (s : spec) (Hring : ring w s).

Lemma slot_range n : 0 <= n mod size w < zlen (buf w).
Proof. destruct (rf_size _ _ Hring) as [<- ?]. apply Z.mod_pos_bound. lia. Qed.

Lemma slot_lookup n : in_window w s n -> buf w !! Z.to_nat (n mod size w) = Some (pending s !! n).
Proof.
  intros Hn. pose proof (rf_slot _ _ Hring (n - next s)) as Hs.
  replace (next s + (n - next s)) with n in Hs by lia. apply Hs. unfold in_window in Hn. lia.
Qed.

(** Writing the slot of a nonce in the window. *)
Lemma slot_update n (v : option V) m :
  in_window w s n -> in_window w s m ->
  <[Z.to_nat (n mod size w) := v]> (buf w) !! Z.to_nat (m mod size w) =
  Some (if decide (n = m) then v else pending s !! m).
Proof.
  intros Hn Hm. pose proof (slot_range n) as Rn. pose proof (slot_range m) as Rm.
  destruct (decide (n = m)) as [<-|Hne].
  - apply list_lookup_insert_eq. unfold zlen in Rn. lia.
  - rewrite list_lookup_insert_ne; [by apply slot_lookup|].
    intros E. apply Z2Nat.inj in E; [|lia..]. apply Hne.
    by eapply (mod_window_inj n m (size w) (next s)); [apply (rf_size _ _ Hring)|..].
Qed.

Lemma ring_push last o n v :
  in_window w s n ->
  ring (mkWindow last (size w) (<[Z.to_nat (n mod size w) := Some v]> (buf w)) o) (spec_push s n v).
Proof.
  intros Hn. destruct (rf_size _ _ Hring) as [Hsz Hpos]. split; simpl.
  - unfold zlen in *. by rewrite length_insert.
  - intros k Hk. rewrite slot_update by (unfold in_window in *; lia).
    f_equal. rewrite lookup_insert. by destruct (decide (n = next s + k)).
  - intros m. rewrite lookup_insert_is_Some. intros [<-|[_ Hi]]; [done|].
    by apply (rf_pending _ _ Hring).
Qed.

Lemma ring_pop last o :
  ring (mkWindow last (size w) (<[Z.to_nat (next s mod size w) := None]> (buf w)) o)
       (mkSpec (next s + 1) (delete (next s) (pending s))).
Proof.
  destruct (rf_size _ _ Hring) as [Hsz Hpos].
  assert (H0 : in_window w s (next s)) by (unfold in_window; lia). split; simpl.
  - unfold zlen in *. by rewrite length_insert.
  - intros k Hk. rewrite lookup_delete. destruct (decide (k = size w - 1)) as [->|Hlt].
    + replace (next s + 1 + (size w - 1)) with (next s + 1 * size w) by lia.
      rewrite Z.mod_add by lia. rewrite slot_update by done.
      rewrite decide_True by done. rewrite decide_False by lia.
      destruct (pending s !! (next s + 1 * size w)) eqn:E; [|done].
      destruct (rf_pending _ _ Hring (next s + 1 * size w)); [by rewrite E|lia].
    + rewrite slot_update by (unfold in_window in *; lia).
      by replace (next s + 1 + k) with (next s + (k + 1)) by lia.
  - intros m. rewrite lookup_delete. destruct (decide (next s = m)); [by intros []|].
    intros Hi. pose proof (rf_pending _ _ Hring m Hi). unfold in_window in *. simpl. lia.
Qed.
End Ring.

(** The popping loop against [spec_pop]. *)
Lemma Range_loop_refines n w s id out :
  ring w s -> 0 <= id -> id mod size w = next s mod size w -> id + Z.of_nat n < 2 ^ 64 ->
  exists w' s' ready,
    Range_loop n (fun _ v => is_set v) w id out = Ok (w', out ++ (Some <$> ready)) /\
    spec_pop n s = (s', ready) /\ ring w' s' /\ size w' = size w /\ once w' = once w /\
    (lastNonce w' = lastNonce w /\ next s' = next s + Z.of_nat n \/
     lastNonce w' = next s' mod size w).
Proof.
  revert w s id out. induction n as [|n IH]; intros w s id out Hr Hid Hmod Hb; simpl.
  { exists w, s, []. rewrite app_nil_r. split; [done|]. split; [done|]. split; [done|].
    split; [done|]. split; [done|]. left. split; [done|lia]. }
  destruct (rf_size _ _ Hr) as [Hsz Hpos]. rewrite idx_ok by done. simpl.
  rewrite Hmod. pose proof (slot_range w s Hr (next s)) as Hrange.
  assert (H0 : in_window w s (next s)) by (unfold in_window; lia).
  rewrite (index_lookup _ _ _ (proj1 Hrange) (slot_lookup w s Hr _ H0)). simpl.
  destruct (pending s !! next s) as [v|] eqn:E; simpl.
  - rewrite set_buf_ok by done. simpl.
    pose proof (ring_pop w s Hr (lastNonce w) (once w)) as Hr'.
    set (w1 := mkWindow _ _ _ _) in *. set (s1 := mkSpec _ _) in *.
    destruct (IH w1 s1 (u64 (id + 1)) (out ++ [Some v])) as (w' & s' & ready & H1 & H2 & H3 & H4 & H5 & H6).
    { done. }
    { apply u64_range. }
    { unfold w1, s1; simpl. rewrite u64_small by lia.
      by rewrite <-(Z.add_mod_idemp_l id), Hmod, Z.add_mod_idemp_l by lia. }
    { rewrite u64_small by lia. lia. }
    exists w', s', (v :: ready). rewrite H2. split; [|split; [done|]].
    + rewrite H1. by rewrite <-app_assoc.
    + split; [done|]. split; [done|]. split; [done|].
      destruct H6 as [[??]|?]; [left|by right]. unfold s1, w1 in *; simpl in *. split; [done|lia].
  - exists (mkWindow (next s mod size w) (size w) (buf w) (once w)), s, [].
    rewrite app_nil_r. split; [done|]. split; [done|].
    split; [by destruct Hr; split|]. split; [done|]. split; [done|]. by right.
Qed.

Lemma Pop_refines w s :
  refines w s ->
  exists w' s' ready, Pop w = Ok (w', Some <$> ready) /\
    spec_pop (Z.to_nat (size w)) s = (s', ready) /\ refines w' s' /\ size w' = size w.
Proof.
  intros [Hr Ho Hn [Hl1 Hl2]]. destruct (rf_size _ _ Hr) as [Hsz Hpos].
  destruct (Range_loop_refines (Z.to_nat (size w)) w s (lastNonce w) [])
    as (w' & s' & ready & H1 & H2 & H3 & H4 & H5 & H6); [done|lia|done|lia|].
  exists w', s', ready. split; [done|]. split; [done|]. split; [|done].
  assert (Hm : 0 <= next s' mod size w < size w) by (apply Z.mod_pos_bound; lia).
  split; [done|congruence| |]; rewrite H4; destruct H6 as [[-> Hnext]| ->]; try lia.
  - rewrite Hn, Hnext, Z2Nat.id by lia. replace (next s + size w) with (next s + 1 * size w) by lia.
    by rewrite Z.mod_add by lia.
  - by rewrite Z.mod_mod by lia.
Qed.

Lemma Push_refines w s nonce v :
  refines w s -> in_window w s nonce ->
  exists w', Push w nonce (Some v) = Ok w' /\ refines w' (spec_push s nonce v) /\
    size w' = size w.
Proof.
  intros [Hr Ho Hn Hl] Hnonce. destruct (rf_size _ _ Hr) as [Hsz Hpos].
  unfold Push. rewrite Ho, idx_ok by done. simpl. rewrite set_buf_ok by (by eapply slot_range).
  eexists. split; [done|]. split; [|done]. split; [by apply ring_push|done..].
Qed.

(** The first push into a new window makes its nonce the next one. *)
Lemma Push_first sz nonce v :
  0 < sz < 2 ^ 63 -> 0 <= nonce -> nonce + sz < 2 ^ 64 ->
  exists w w', NewRecvWindow sz = Ok w /\ Push w nonce (Some v) = Ok w' /\
    refines w' (mkSpec nonce {[nonce := v]}) /\ size w' = sz.
Proof.
  intros Hsz Hn Hb. unfold NewRecvWindow. destruct (Z.ltb_spec sz 0); [lia|].
  eexists _. set (w := mkWindow nonce sz (replicate (Z.to_nat sz) None) true).
  assert (Hr : ring w (mkSpec nonce ∅)).
  { split; simpl.
    - unfold zlen. rewrite length_replicate. lia.
    - intros k Hk. rewrite lookup_empty. apply lookup_replicate. split; [done|].
      pose proof (Z.mod_pos_bound (nonce + k) sz). lia.
    - intros m. rewrite lookup_empty. by intros []. }
  destruct (Push_refines w (mkSpec nonce ∅) nonce v) as (w' & Hp & Hw' & Hs').
  { split; simpl; [done|done|done|lia]. }
  { unfold in_window; simpl. lia. }
  exists w'. split; [done|]. split; [exact Hp|done].
Qed.

(** ** The window implements the reorder buffer *)

(** C7. [Push] of a nonce in the window and [Pop] are the two operations of the abstract reorder
    buffer: nothing is lost, duplicated or reordered.  The slice [Pop] returns never holds
    nil, and neither operation panics. *)
Theorem RecvWindow_refines_reorder_buffer (w : RecvWindow) (s : spec) :
  refines w s ->
  (forall nonce v, in_window w s nonce ->
     exists w', Push w nonce (Some v) = Ok w' /\ refines w' (spec_push s nonce v)) /\
  (exists w' s' ready, Pop w = Ok (w', Some <$> ready) /\
     spec_pop (Z.to_nat (size w)) s = (s', ready) /\ refines w' s').
Proof.
  intros H. split.
  - intros nonce v Hn. destruct (Push_refines w s nonce v H Hn) as (w' & ? & ? & _). eauto.
  - destruct (Pop_refines w s H) as (w' & s' & ready & ? & ? & ? & _). eauto 6.
Qed.

(** ** In-order delivery *)

Section InOrder.
Context (n0 : Z) (f : Z -> V).

(** The buffer after the arrival of the nonces [pre]; [arrived_popped] once it was popped. *)
Record arrived (pre : list Z) (s : spec) : Prop := {
  ar_next : n0 <= next s;
  ar_done : forall j, n0 <= j < next s -> j ∈ pre;
  ar_pending : forall k v, pending s !! k = Some v <-> k ∈ pre /\ next s <= k /\ v = f k;
}.

Lemma arrived_push pre s k :
  arrived pre s -> next s <= k -> arrived (pre ++ [k]) (spec_push s k (f k)).
Proof.
  intros [H1 H2 H3] Hk. split; simpl; [done| |].
  - intros j Hj. apply elem_of_app. left. by apply H2.
  - intros j v. rewrite lookup_insert_Some, elem_of_app, list_elem_of_singleton, H3.
    destruct (decide (k = j)) as [->|]; naive_solver.
Qed.

Lemma seqZ_cons_next a b : a < b -> seqZ a (b - a) = a :: seqZ (a + 1) (b - (a + 1)).
Proof. intros H. rewrite seqZ_cons by lia. f_equal. f_equal; lia. Qed.

Lemma spec_pop_arrived n pre s s' out :
  arrived pre s -> (forall k, k ∈ pre -> k < next s + Z.of_nat n) ->
  spec_pop n s = (s', out) ->
  arrived pre s' /\ next s' ∉ pre /\ next s <= next s' /\
  out = f <$> seqZ (next s) (next s' - next s).
Proof.
  revert s s' out; induction n as [|n IH]; intros s s' out Ha Hb; simpl.
  - intros [= <- <-]. split; [done|]. split; [intros Hin; specialize (Hb _ Hin); lia|].
    by rewrite Z.sub_diag.
  - destruct (pending s !! next s) as [v|] eqn:E.
    + apply (ar_pending _ _ Ha) in E as (Hin & _ & ->).
      destruct (spec_pop n _) as [s1 out1] eqn:E1. intros [= -> <-].
      apply IH in E1 as (H1 & H2 & H3 & ->); simpl in *.
      * split; [done|]. split; [done|]. split; [lia|].
        rewrite (seqZ_cons_next (next s)) by lia. done.
      * destruct Ha as [A1 A2 A3]. split; simpl; [lia| |].
        -- intros j Hj. destruct (decide (j = next s)) as [->|]; [done|]. apply A2. lia.
        -- intros k w. rewrite lookup_delete_Some, A3. intuition lia.
      * intros k Hk. specialize (Hb k Hk). lia.
    + intros [= <- <-]. split; [done|]. rewrite Z.sub_diag. split; [|done].
      intros Hin. assert (Hs : pending s !! next s = Some (f (next s))).
      { by apply (ar_pending _ _ Ha). }
      congruence.
Qed.

(** One arrival: pushed, then what is ready is popped. *)
Lemma pop_arrived w s pre :
  refines w s -> arrived pre s ->
  exists w' s', Pop w = Ok (w', Some <$> (f <$> seqZ (next s) (next s' - next s))) /\
    refines w' s' /\ size w' = size w /\ arrived pre s' /\ next s' ∉ pre /\ next s <= next s'.
Proof.
  intros Hw Ha. destruct (Pop_refines w s Hw) as (w' & s' & ready & H1 & H2 & H3 & H4).
  pose proof (rf_size _ _ (rf_ring _ _ Hw)) as [_ Hpos].
  apply (spec_pop_arrived _ pre) in H2 as (? & ? & ? & ->); [|done|].
  - exists w', s'. by split_and!.
  - intros k Hk. destruct (decide (next s <= k)) as [Hle|]; [|lia].
    assert (Hs : is_Some (pending s !! k)).
    { exists (f k). by apply (ar_pending _ _ Ha). }
    apply (rf_pending _ _ (rf_ring _ _ Hw)) in Hs. unfold in_window in Hs. lia.
Qed.

Lemma sortable_elem sz arr j :
  sortable sz n0 arr -> j ∈ arr <-> n0 <= j < n0 + zlen arr.
Proof.
  intros Hso. rewrite <-elem_of_seqZ. split; intros Hj.
  - by rewrite <-(so_perm _ _ _ Hso).
  - by rewrite (so_perm _ _ _ Hso).
Qed.

Lemma deliver_arrived post w s pre :
  sortable (size w) n0 (pre ++ post) -> refines w s -> arrived pre s -> next s ∉ pre ->
  exists w' s', deliver w ((fun k => (k, f k)) <$> post) =
      Ok (w', Some <$> (f <$> seqZ (next s) (next s' - next s))) /\
    arrived (pre ++ post) s' /\ next s' ∉ pre ++ post /\ next s <= next s'.
Proof.
  revert w s pre; induction post as [|k post IH]; intros w s pre Hso Hw Ha Hn.
  { exists w, s. rewrite app_nil_r, Z.sub_diag. done. }
  assert (Hk : n0 <= k /\ k ∉ pre).
  { pose proof (so_perm _ _ _ Hso) as Hp. split.
    - eapply sortable_elem; [done|]. apply elem_of_app. right. left.
    - assert (Hnd : NoDup (pre ++ k :: post)) by (rewrite Hp; apply NoDup_seqZ).
      apply NoDup_app in Hnd as (_ & Hd & _). intros Hin. apply (Hd k Hin). left. }
  assert (Hwin : in_window w s k).
  { split.
    - destruct (decide (next s <= k)); [done|]. exfalso. apply Hk, (ar_done _ _ Ha). lia.
    - destruct (decide (k < next s + size w)); [done|]. exfalso. apply Hn.
      eapply (so_near _ _ _ Hso pre k post eq_refl); [apply (ar_next _ _ Ha)|lia]. }
  destruct (Push_refines w s k (f k) Hw Hwin) as (w1 & Hp & Hw1 & Hs1).
  assert (Ha1 : arrived (pre ++ [k]) (spec_push s k (f k))).
  { apply arrived_push; [done|]. apply Hwin. }
  destruct (pop_arrived w1 _ _ Hw1 Ha1) as (w2 & s2 & Hpop & Hw2 & Hs2 & Ha2 & Hn2 & Hle).
  destruct (IH w2 s2 (pre ++ [k])) as (w3 & s3 & Hd & Ha3 & Hn3 & Hle3); [|done..|].
  { rewrite <-app_assoc, Hs2, Hs1. done. }
  exists w3, s3. rewrite <-app_assoc in Ha3, Hn3. split; [|simpl in *; split; [done|split; [done|lia]]].
  rewrite fmap_cons. cbn [deliver]. rewrite Hp. cbn [mbind res_bind]. rewrite Hpop.
  cbn [mbind res_bind]. rewrite Hd. simpl in *.
  rewrite <-!fmap_app. do 4 f_equal.
  replace (next s3 - next s) with ((next s2 - next s) + (next s3 - next s2)) by lia.
  rewrite seqZ_app by lia. do 2 f_equal. lia.
Qed.
End InOrder.

Lemma deliver_sortable (sz n0 : Z) (f : Z -> V) (arrivals : list Z) :
  0 < sz < 2 ^ 63 -> 0 <= n0 -> n0 + sz < 2 ^ 64 -> sortable sz n0 arrivals ->
  exists w w', NewRecvWindow sz = Ok w /\
    deliver w ((fun k => (k, f k)) <$> arrivals) =
      Ok (w', Some <$> (f <$> seqZ n0 (zlen arrivals))).
Proof.
  intros Hsz Hn0 Hb Hso. destruct (Push_first sz n0 (f n0)) as (w & w1 & Hnew & Hp & Hw1 & Hs1);
    [done..|].
  destruct arrivals as [|k post]; [by destruct Hso|].
  assert (k = n0) as -> by (by destruct Hso as [_ [= ->] _]).
  assert (Ha : arrived n0 f [n0] (mkSpec n0 {[n0 := f n0]})).
  { split; simpl; [lia|lia|]. intros k v. rewrite lookup_singleton_Some, list_elem_of_singleton.
    naive_solver lia. }
  destruct (pop_arrived n0 f w1 _ _ Hw1 Ha) as (w2 & s2 & Hpop & Hw2 & Hs2 & Ha2 & Hn2 & Hle).
  destruct (deliver_arrived n0 f post w2 s2 [n0]) as (w3 & s3 & Hd & Ha3 & Hn3 & Hle3);
    [by rewrite Hs2, Hs1|done..|].
  exists w, w3. split; [done|]. rewrite fmap_cons. cbn [deliver]. rewrite Hp. cbn [mbind res_bind].
  rewrite Hpop. cbn [mbind res_bind]. rewrite Hd. simpl in *.
  rewrite <-!fmap_app. do 4 f_equal.
  pose proof (fun j => sortable_elem n0 sz _ j Hso) as Hmem.
  assert (Hend : next s3 = n0 + zlen (n0 :: post)).
  { change ([n0] ++ post) with (n0 :: post) in *.
    assert (~ next s3 < n0 + zlen (n0 :: post)).
    { intros Hlt. apply Hn3, Hmem. lia. }
    destruct (decide (n0 + zlen (n0 :: post) < next s3)) as [Hlt|]; [|lia].
    assert (Hin : n0 + zlen (n0 :: post) ∈ n0 :: post).
    { apply (ar_done _ _ _ _ Ha3). pose proof (zlen_nonneg (n0 :: post)). lia. }
    apply Hmem in Hin. lia. }
  replace (zlen (n0 :: post)) with ((next s2 - n0) + (next s3 - next s2)) by lia.
  rewrite seqZ_app by lia. do 2 f_equal. lia.
Qed.

(** C8. Messages whose nonces are consecutive, each pushed and followed by a pop, are delivered in
    the order of their nonces, each once and none kept back, whatever the order of arrival, as
    long as the first one comes first and no message overtakes another by the size of the window
    ([sortable]; [overtaken_window_stalls] has the first one overtaken). *)
Theorem RecvWindow_in_order (sz n0 : Z) (f : Z -> V) (arrivals : list Z) :
  0 < sz < 2 ^ 63 -> 0 <= n0 -> n0 + sz < 2 ^ 64 -> sortable sz n0 arrivals ->
  exists w w', NewRecvWindow sz = Ok w /\
    deliver w ((fun k => (k, f k)) <$> arrivals) =
      Ok (w', Some <$> (f <$> seqZ n0 (zlen arrivals))).
Proof. apply deliver_sortable. Qed.

(** [SetLocalNonce] has no effect on a window that has not been pushed to: the first [Push]
    overwrites the expected nonce with its own. *)
Lemma SetLocalNonce_overwritten sz w w1 n k v :
  NewRecvWindow sz = Ok w -> Push (SetLocalNonce w n) k v = Ok w1 -> LocalNonce w1 = k.
Proof.
  unfold NewRecvWindow. destruct (sz <? 0); [done|]. intros [= <-]. unfold Push. simpl.
  destruct (idx _ k); simpl; [|done..]. unfold set_buf. destruct (index _ _); simpl; [|done..].
  by intros [= <-].
Qed.

(** A message overtaken by the first one to be pushed is not delivered in its place: its slot
    is that of a nonce one turn ahead.  Here message 1 is pushed after message 2 into a window
    of 4 slots: it comes out after message 4, and from then on the window is one nonce ahead
    of the sender and delivers nothing more until the sender has gone round the ring. *)
Theorem overtaken_window_stalls (f : Z -> V) :
  exists w w',
    NewRecvWindow 4 = Ok w /\
    deliver w ((fun k => (k, f k)) <$> [2; 1; 3; 4; 5]) =
      Ok (w', Some <$> [f 2; f 3; f 4; f 1]) /\
    exists w'', deliver w' [(7, f 7)] = Ok (w'', []).
Proof.
  eexists _, _. split; [reflexivity|]. split; [vm_compute; reflexivity|].
  eexists. vm_compute. reflexivity.
Qed.
End RecvWindow.

(** ** Witnesses *)

Lemma RecvWindow_refines_reorder_buffer_witness :
  exists w' : RecvWindow, Push (mkWindow 3 4 [None; None; None; None] true) 5 (Some 50) = Ok w' /\
    refines w' (spec_push (mkSpec 3 ∅) 5 50).
Proof.
  assert (H : refines (V:=Z) (mkWindow 3 4 [None; None; None; None] true) (mkSpec 3 ∅)).
  { split; simpl; [split; simpl|done|done|lia].
    - split; [done|lia].
    - intros k Hk. rewrite lookup_empty. pose proof (Z.mod_pos_bound (3 + k) 4 ltac:(lia)).
      assert (Hn : (Z.to_nat ((3 + k) mod 4) < 4)%nat) by lia.
      destruct (Z.to_nat ((3 + k) mod 4)) as [|[|[|[|]]]]; [done..|lia].
    - intros n. rewrite lookup_empty. by intros []. }
  destruct (RecvWindow_refines_reorder_buffer _ _ H) as [Hpush _].
  apply Hpush. unfold in_window. simpl. lia.
Defined.

Lemma sortable_example : sortable 4 1 [1; 3; 2; 5; 4].
Proof.
  split; [by apply (bool_decide_unpack _); vm_compute|done|].
  intros pre k post E j Hj Hk.
  assert (Hlk : [1; 3; 2; 5; 4] !! length pre = Some k) by (rewrite E; by apply list_lookup_middle).
  assert (Hpre : pre = take (length pre) [1; 3; 2; 5; 4]) by (rewrite E; by rewrite take_app_length).
  rewrite Hpre. clear Hpre E. revert Hlk.
  destruct (length pre) as [|[|[|[|[|n]]]]]; simpl; intros [= <-]; try lia.
  replace j with 1 by lia. left.
Qed.

Lemma RecvWindow_in_order_witness :
  exists w w', NewRecvWindow 4 = Ok w /\
    deliver w ((fun k => (k, 10 * k)) <$> [1; 3; 2; 5; 4]) =
      Ok (w', Some <$> ((fun k => 10 * k) <$> seqZ 1 5)).
Proof.
  apply (RecvWindow_in_order 4 1 (fun k => 10 * k)); [lia..|]. exact sortable_example.
Defined.


