(* ===== verification/Lru.v ===== *)
(** * The LRU cache: [types/lru/cache.go]

    [order] is the list of cached items from most to least recently used, named by their keys
    (a key is in the list once, so the list element an item points to is determined by it);
    [items] maps a key to the cached value.  [Get] runs under the cache's mutex, the
    initializer included, and is one atomic step. *)

From S2P Require Import Prelude.
#[local] Open Scope Z_scope.

Section Lru.
Context {V : Type}.

Record Cache := mkCache {
  order : list bytes;
  items : gmap bytes V;
  limit : Z;
}.

Definition NewCache (limit : Z) : Cache := mkCache [] ∅ limit.

(** [c.order.MoveToFront(item.element)]. *)
Definition MoveToFront (key : bytes) (l : list bytes) : list bytes :=
  key :: filter (fun k => k <> key) l.

(** [Remove(Back())] and the [delete] after it; [Back] of an empty list is nil, which
    [Remove] dereferences. *)
Definition evict (c : Cache) : res Cache :=
  match last (order c) with
  | None => Panic PNilDeref
  | Some k => Ok (mkCache (removelast (order c)) (delete k (items c)) (limit c))
  end.

(** The result of the call is a value or the initializer's error; the cache changes in both
    cases. *)
Definition Get (c : Cache) (key : bytes) (init : V + string) : res (Cache * (V + string)) :=
  match items c !! key with
  | Some v => Ok (mkCache (MoveToFront key (order c)) (items c) (limit c), inl v)
  | None =>
      c ← (if limit c <=? zlen (order c) then evict c else Ok c);
      match init with
      | inr err => Ok (c, inr err)
      | inl value => Ok (mkCache (key :: order c) (<[key := value]> (items c)) (limit c), inl value)
      end
  end.

(** A sequence of calls, each with what its initializer would return, and their results. *)
Fixpoint Gets (c : Cache) (calls : list (bytes * (V + string))) : res (Cache * list (V + string)) :=
  match calls with
  | [] => Ok (c, [])
  | (k, init) :: calls' =>
      '(c, r) ← Get c k init;
      '(c, rs) ← Gets c calls';
      Ok (c, r :: rs)
  end.

(** ** Specification *)

Record cache_wf (c : Cache) : Prop := {
  cw_nodup : NoDup (order c);
  cw_items : forall k, is_Some (items c !! k) <-> k ∈ order c;
  cw_limit : 0 < limit c;
  cw_size : zlen (order c) <= limit c;
}.

(** The distinct keys of a history (last call last), most recently used first. *)
Fixpoint recency (ks : list bytes) (acc : list bytes) : list bytes :=
  match ks with
  | [] => acc
  | k :: ks' => recency ks' (k :: filter (fun j => j <> k) acc)
  end.

(** The keys of the calls that returned a value, and the number of those that returned an error. *)
Definition used (calls : list (bytes * (V + string))) (rs : list (V + string)) : list bytes :=
  omap (fun '((k, _), r) => match r with inl _ => Some k | inr _ => None end) (zip calls rs).
Definition is_error (r : V + string) : bool := match r with inl _ => false | inr _ => true end.
Definition errors (rs : list (V + string)) : Z := zlen (filter is_error rs).

(** ** Lemmas *)

Lemma NewCache_wf l : 0 < l -> cache_wf (NewCache l).
Proof.
  intros Hl. split; simpl; [constructor| |done|unfold zlen; simpl; lia].
  intros k. rewrite lookup_empty, elem_of_nil. split; [by intros []|done].
Qed.

Lemma evict_ok c : cache_wf c -> limit c <= zlen (order c) ->
  exists k rest, order c = rest ++ [k] /\
    evict c = Ok (mkCache rest (delete k (items c)) (limit c)).
Proof.
  intros Hwf Hfull. unfold evict.
  destruct (order c) as [|a l _] using rev_ind.
  { pose proof (cw_limit _ Hwf). unfold zlen in Hfull. simpl in Hfull. lia. }
  exists a, l. rewrite last_snoc, removelast_last. done.
Qed.

Lemma evict_wf c c' : cache_wf c -> limit c <= zlen (order c) -> evict c = Ok c' ->
  cache_wf c' /\ zlen (order c') < limit c' /\ limit c' = limit c.
Proof.
  intros Hwf Hfull. destruct (evict_ok c Hwf Hfull) as (k & rest & E & ->). intros [= <-].
  pose proof (cw_size _ Hwf) as Hs. rewrite E, zlen_app in Hs. unfold zlen at 2 in Hs. simpl in Hs.
  split; [|simpl; split; [lia|done]]. split; simpl; [| |apply (cw_limit _ Hwf)|lia].
  - pose proof (cw_nodup _ Hwf) as Hn. rewrite E in Hn. apply NoDup_app in Hn as (? & _). done.
  - intros j. rewrite lookup_delete_is_Some, (cw_items _ Hwf), E, elem_of_app, list_elem_of_singleton.
    pose proof (cw_nodup _ Hwf) as Hn. rewrite E in Hn. apply NoDup_app in Hn as (_ & Hd & _).
    split; [naive_solver|]. intros Hj. split; [|by left]. intros <-. apply (Hd _ Hj). left.
Qed.

Lemma MoveToFront_wf c k :
  cache_wf c -> is_Some (items c !! k) ->
  cache_wf (mkCache (MoveToFront k (order c)) (items c) (limit c)).
Proof.
  intros Hwf Hk. pose proof Hwf as [H1 H2 H3 H4]. apply H2 in Hk as Hin.
  assert (HP : MoveToFront k (order c) ≡ₚ order c).
  { apply list_elem_of_split in Hin as (l1 & l2 & E). rewrite E in *.
    unfold MoveToFront. rewrite filter_app, filter_cons_False by naive_solver.
    apply NoDup_app in H1 as (Hn1 & Hd & Hn2). apply NoDup_cons in Hn2 as [Hk2 _].
    rewrite !Forall_filter_id; [by rewrite Permutation_middle| |]; apply Forall_forall.
    - intros j Hj ->. done.
    - intros j Hj ->. apply (Hd _ Hj). left. }
  split; simpl; [by rewrite HP|intros j; by rewrite HP, H2|done|by rewrite HP].
Qed.

Lemma insert_wf c k v :
  cache_wf c -> items c !! k = None -> zlen (order c) < limit c ->
  cache_wf (mkCache (k :: order c) (<[k := v]> (items c)) (limit c)).
Proof.
  intros [H1 H2 H3 H4] Hk Hlt. split; simpl; [| |done|rewrite zlen_cons; lia].
  - constructor; [|done]. rewrite <-H2, Hk. by intros [].
  - intros j. rewrite lookup_insert_is_Some', H2, elem_of_cons. naive_solver.
Qed.

(** The cache after eviction when it is full, as the miss path leaves it. *)
Lemma miss_evict c :
  cache_wf c -> exists c', (if limit c <=? zlen (order c) then evict c else Ok c) = Ok c' /\
    cache_wf c' /\ zlen (order c') < limit c' /\ limit c' = limit c /\
    order c' = take (Z.to_nat (limit c - 1)) (order c) /\
    (forall k, items c !! k = None -> items c' !! k = None).
Proof.
  intros Hwf. pose proof (cw_size _ Hwf) as Hs. pose proof (cw_limit _ Hwf) as Hl.
  destruct (Z.leb_spec (limit c) (zlen (order c))) as [Hfull|Hlt].
  - destruct (evict_ok c Hwf Hfull) as (k & rest & E & Hev). rewrite Hev.
    eexists. split; [done|]. destruct (evict_wf _ _ Hwf Hfull Hev) as (? & ? & ?).
    split; [done|]. split; [done|]. split; [done|]. simpl. split.
    + rewrite E. rewrite E, zlen_app in Hs, Hfull. unfold zlen in Hs, Hfull. simpl in Hs, Hfull.
      rewrite take_app_le by lia. rewrite take_ge by lia. done.
    + intros j Hj. rewrite lookup_delete. by case_decide.
  - exists c. split; [done|]. split; [done|]. split; [done|]. split; [done|]. split; [|done].
    rewrite take_ge; [done|]. unfold zlen in Hlt. lia.
Qed.

(** [Get] on a well formed cache: the answer is the cached value or the initializer's. *)
Lemma Get_wf c key init :
  cache_wf c -> exists c' r, Get c key init = Ok (c', r) /\ cache_wf c' /\
    r = match items c !! key with Some v => inl v | None => init end.
Proof.
  intros Hwf. unfold Get. destruct (items c !! key) as [v|] eqn:E.
  - eexists _, _. split; [done|]. by split; [apply MoveToFront_wf; [|rewrite E]|].
  - destruct (miss_evict c Hwf) as (c1 & -> & Hwf1 & Hlt & Hlim & Ho & Hi). cbn [mbind res_bind].
    destruct init as [v|err]; eexists _, _; (split; [done|]); [|done].
    by split; [apply insert_wf; auto|].
Qed.

(** ** Properties *)

(** [Get] keeps the cache well formed (no key twice, list and map agree, at most [limit]
    entries) and never panics.  A cached key answers its cached value, without the
    initializer, and moves to the front; a failing initializer's error is returned and nothing
    is cached; otherwise the initializer's value is returned and cached in front, after the
    least recently used entry was dropped if the cache was full. *)
Theorem Get_spec (c : Cache) (key : bytes) (init : V + string) :
  cache_wf c ->
  exists c' r, Get c key init = Ok (c', r) /\ cache_wf c' /\ limit c' = limit c /\
    match items c !! key, init with
    | Some v, _ =>
        r = inl v /\ items c' = items c /\
        order c' = key :: filter (fun k => k <> key) (order c)
    | None, inr err =>
        r = inr err /\ items c' !! key = None /\
        order c' = take (Z.to_nat (limit c - 1)) (order c)
    | None, inl v =>
        r = inl v /\ items c' !! key = Some v /\
        order c' = key :: take (Z.to_nat (limit c - 1)) (order c)
    end.
Proof.
  intros Hwf. unfold Get. destruct (items c !! key) as [v|] eqn:E.
  - eexists _, _. split; [done|]. split; [by apply MoveToFront_wf; [|rewrite E]|]. done.
  - destruct (miss_evict c Hwf) as (c1 & -> & Hwf1 & Hlt & Hlim & Ho & Hi). simpl.
    destruct init as [v|err]; eexists _, _; (split; [done|]); simpl.
    + split; [by apply insert_wf; auto|]. split; [done|]. split; [done|].
      split; [apply lookup_insert_eq|by rewrite Ho].
    + split; [done|]. split; [done|]. auto.
Qed.

(** Taking a key out of a recency list, when it is not among the first ones and when it is. *)
Lemma take_filter_out (k : bytes) n R :
  k ∉ take n R -> take n (filter (fun j => j <> k) R) = take n R.
Proof.
  intros Hk. rewrite <-(take_drop n R) at 1. rewrite filter_app, Forall_filter_id.
  2:{ apply Forall_forall. naive_solver. }
  destruct (decide (n <= length R)%nat).
  - rewrite take_app_length' by (rewrite length_take; lia). done.
  - rewrite drop_ge, app_nil_r, take_take, Nat.min_id by lia. done.
Qed.

Lemma take_filter_front (k : bytes) n R :
  NoDup R -> k ∈ take n R ->
  k :: filter (fun j => j <> k) (take n R) = take n (k :: filter (fun j => j <> k) R).
Proof.
  intros HR Hin. apply list_elem_of_split in Hin as (l1 & l2 & E1).
  assert (E2 : R = l1 ++ k :: (l2 ++ drop n R)).
  { rewrite <-(take_drop n R) at 1. rewrite E1. by rewrite <-app_assoc. }
  assert (Hk : k ∉ l1 /\ k ∉ l2 ++ drop n R).
  { rewrite E2 in HR. apply NoDup_app in HR as (_ & Hd & H2). apply NoDup_cons in H2 as [H2 _].
    split; [intros H1; apply (Hd _ H1); left | done]. }
  destruct Hk as [Hk1 Hk2]. rewrite E2 at 2. rewrite E1, !(filter_app _ l1), !filter_cons_False by naive_solver.
  rewrite not_elem_of_app in Hk2. rewrite filter_app, !Forall_filter_id by (apply Forall_forall; naive_solver).
  apply (f_equal length) in E1. rewrite length_take, length_app in E1. cbn [length] in E1.
  destruct n as [|n]; [lia|]. rewrite firstn_cons. f_equal. rewrite app_assoc.
  destruct (decide (S n <= length R)%nat).
  - rewrite take_app_length' by (rewrite length_app; lia). done.
  - rewrite (drop_ge R), app_nil_r, take_ge by (rewrite ?length_app; lia). done.
Qed.

(** One call against the recency list [R], of which the cache holds the first [n]. *)
Lemma Get_recency c k init R n :
  cache_wf c -> NoDup R -> order c = take n R -> Z.of_nat n <= limit c ->
  exists c' r n', Get c k init = Ok (c', r) /\ cache_wf c' /\ limit c' = limit c /\
    Z.of_nat n' <= limit c /\
    match r with
    | inl _ => (n <= n')%nat /\ order c' = take n' (k :: filter (fun j => j <> k) R)
    | inr _ => (n <= S n')%nat /\ order c' = take n' R
    end.
Proof.
  intros Hwf HR HO Hn. pose proof (cw_limit _ Hwf) as Hl.
  destruct (Get_spec c k init Hwf) as (c' & r & Hg & Hwf' & Hlim & Hr).
  exists c', r. pose proof (cw_items _ Hwf k) as Hk. rewrite HO in Hk, Hr.
  destruct (items c !! k) as [w|].
  - destruct Hr as (-> & _ & Ho). exists n. split_and!; try done.
    rewrite Ho. apply take_filter_front; [done|]. by apply Hk.
  - assert (Hnin : k ∉ take n R) by (intros H; by apply Hk in H as []).
    rewrite take_take in Hr. set (m := (Z.to_nat (limit c - 1) `min` n)%nat) in *.
    destruct init as [v|err]; destruct Hr as (-> & _ & Ho); [exists (S m) | exists m];
      (split; [done|]; split; [done|]; split; [done|]; split; [lia|]; split; [lia|]); [|done].
    rewrite Ho, firstn_cons, take_filter_out; [done|]. intros H. apply Hnin.
    apply list_elem_of_lookup in H as [i Hi]. apply lookup_take_Some in Hi as [Hi ?].
    apply list_elem_of_lookup. exists i. apply lookup_take_Some. split; [done|lia].
Qed.

Lemma Gets_recency c calls R n :
  cache_wf c -> NoDup R -> order c = take n R -> Z.of_nat n <= limit c ->
  exists c' rs n', Gets c calls = Ok (c', rs) /\ length rs = length calls /\ cache_wf c' /\
    order c' = take n' (recency (used calls rs) R) /\
    Z.of_nat n - errors rs <= Z.of_nat n' <= limit c.
Proof.
  revert c R n. induction calls as [|[k init] calls IH]; intros c R n Hwf HR HO Hn; cbn [Gets].
  { exists c, [], n. unfold errors, zlen. simpl. split_and!; done || lia. }
  destruct (Get_recency c k init R n Hwf HR HO Hn) as (c1 & r & n1 & -> & Hwf1 & Hl1 & Hn1 & Hr).
  cbn [mbind res_bind]. rewrite <-Hl1 in Hn1 |- *. destruct r as [v|err].
  - destruct Hr as [Hle Ho]. assert (HR' : NoDup (k :: filter (fun j => j <> k) R)).
    { constructor; [|by apply NoDup_filter]. rewrite list_elem_of_filter. naive_solver. }
    destruct (IH c1 _ n1 Hwf1 HR' Ho Hn1) as (c2 & rs & n2 & Hg & Hrs & ? & ? & ?). rewrite Hg.
    eexists _, (inl v :: rs), n2. split; [done|]. split; [simpl; lia|]. split; [done|].
    split; [done|]. unfold errors in *. rewrite filter_cons_False by (by intros []). lia.
  - destruct Hr as [Hle Ho]. destruct (IH c1 R n1 Hwf1 HR Ho Hn1) as (c2 & rs & n2 & -> & Hrs & ? & ? & ?).
    eexists _, (inr err :: rs), n2. split; [done|]. split; [simpl; lia|]. split; [done|].
    split; [done|]. unfold errors in *. rewrite filter_cons_True, zlen_cons by done. lia.
Qed.

(** C32. After any sequence of calls on a new cache of positive limit, whether their initializers
    succeed or fail, the cache holds the most recently used of the keys that were answered with a
    value, most recent first: exactly the [limit] most recent ones when no call failed, and at
    most one fewer for every call that failed (a call that fails on a full cache evicts the
    oldest key and puts none in its place). *)
Theorem Gets_lru (l : Z) (calls : list (bytes * (V + string))) :
  0 < l ->
  exists c rs n, Gets (NewCache l) calls = Ok (c, rs) /\ length rs = length calls /\ cache_wf c /\
    order c = take n (recency (used calls rs) []) /\ l - errors rs <= Z.of_nat n <= l.
Proof.
  intros Hl. destruct (Gets_recency (NewCache l) calls [] (Z.to_nat l)) as (c & rs & n & ? & ? & ? & ? & ?);
    [by apply NewCache_wf | constructor | by rewrite take_nil | simpl; lia |].
  exists c, rs, n. split_and!; done || (simpl in *; lia).
Qed.

(** A failing initializer costs the cache an entry: [Get] evicts before it knows whether there is
    something to insert. *)
Theorem failed_Get_evicts (c : Cache) (key : bytes) (err : string) :
  cache_wf c -> zlen (order c) = limit c -> items c !! key = None ->
  exists c', Get c key (inr err) = Ok (c', inr err) /\ zlen (order c') = limit c - 1.
Proof.
  intros Hwf Hfull Hk. destruct (Get_spec c key (inr err) Hwf) as (c' & r & Hg & _ & _ & Hr).
  rewrite Hk in Hr. destruct Hr as (-> & _ & Ho). exists c'. split; [done|].
  pose proof (cw_limit _ Hwf). rewrite Ho. unfold zlen in *. rewrite length_take. lia.
Qed.

(** A cache whose limit is not positive panics on its first miss. *)
Theorem Get_no_limit_panics (l : Z) (key : bytes) (init : V + string) :
  l <= 0 -> Get (NewCache l) key init = Panic PNilDeref.
Proof.
  intros Hl. unfold Get. simpl. rewrite lookup_empty.
  destruct (Z.leb_spec l (zlen (@nil bytes))); [done|]. unfold zlen in *. simpl in *. lia.
Qed.
End Lru.

(** ** Witnesses *)

Lemma Get_spec_witness :
  exists c' r, Get (V:=Z) (NewCache 2) [x61] (inl 7) = Ok (c', r) /\ r = inl 7 /\ order c' = [[x61]].
Proof.
  destruct (Get_spec (V:=Z) (NewCache 2) [x61] (inl 7) (NewCache_wf 2 eq_refl))
    as (c' & r & Hg & _ & _ & Hr & _ & Ho).
  exists c', r. split; [exact Hg|]. split; [exact Hr|exact Ho].
Defined.

Definition four_calls : list (bytes * (Z + string)) :=
  [([x61], inl 1); ([x62], inl 2); ([x61], inr "no such host"%string); ([x63], inr "no such host"%string)].
Lemma Gets_lru_witness :
  exists c rs n, Gets (NewCache 2) four_calls = Ok (c, rs) /\ errors rs = 1 /\
    order c = take n (recency (used four_calls rs) []) /\ 1 <= Z.of_nat n <= 2 /\ order c = [[x61]].
Proof.
  destruct (Gets_lru 2 four_calls eq_refl) as (c & rs & n & Hg & _ & _ & Ho & Hn).
  assert (E : match Gets (NewCache 2) four_calls with
              | Ok (c, rs) => errors rs = 1 /\ order c = [[x61]]
              | _ => False
              end) by (vm_compute; split; reflexivity).
  rewrite Hg in E. destruct E as [He Hc]. rewrite He in Hn.
  exists c, rs, n. split; [exact Hg|]. split; [exact He|]. split; [exact Ho|]. split; [exact Hn | exact Hc].
Defined.

Lemma Get_no_limit_panics_witness : Get (V:=Z) (NewCache 0) [x61] (inl 1) = Panic PNilDeref.
Proof. apply Get_no_limit_panics. discriminate. Defined.
