(* ===== verification/Protobuf.v ===== *)
(** * The wire codec of [internal/protobuf/stream.pb.go]

    [MarshalTo] writes into a buffer of the size [Size] computed, at an index it advances: the
    model keeps the buffer and the index ([writer]), an index or a slice outside the buffer
    panics as in Go, and [copy] truncates.  [Unmarshal] reads by index, with Go's [int]
    (64-bit, wrapping) arithmetic on the lengths the input announces.

    The generated functions are instances of one template per field kind; the templates are
    [put_bytes], [put_message], [put_uint] for writing, [varint], [len_bytes], [len_string] and
    [unmarshal_loop] for reading.  The loops that are not structural carry fuel: a varint has
    at most ten bytes before [ErrIntOverflowStream], the other loops consume a byte of the
    input per round ([Unmarshal_terminates]). *)

From stdpp Require Import pretty.
From S2P Require Import Prelude Messages.
#[local] Open Scope Z_scope.

Definition ErrInvalidLengthStream : string := "proto: negative length found during unmarshaling".
Definition ErrIntOverflowStream : string := "proto: integer overflow".
Definition ErrUnexpectedEOF : string := "unexpected EOF".

(** ** Writing *)

(** The buffer and the index. *)
Abbreviation writer := (bytes * Z -> res (bytes * Z)).

(** [dAtA[i] = v; i++]. *)
Definition put_byte (v : Z) : writer := fun '(dAtA, i) =>
  if (i <? 0) || (zlen dAtA <=? i) then Panic PIndex
  else Ok (<[Z.to_nat i := z2b v]> dAtA, i + 1).

(** [i += copy(dAtA[i:], src)]. *)
Definition put_copy (src : bytes) : writer := fun '(dAtA, i) =>
  if (i <? 0) || (zlen dAtA <? i) then Panic PSlice
  else
    let n := Z.min (zlen dAtA - i) (zlen src) in
    Ok (take (Z.to_nat i) dAtA ++ take (Z.to_nat n) src ++ drop (Z.to_nat (i + n)) dAtA, i + n).

(** A [uint64] takes at most ten rounds. *)
Fixpoint encodeVarint_loop (fuel : nat) (v : Z) : writer := fun s =>
  match fuel with
  | O => Panic PFuel
  | S fuel =>
      if 2 ^ 7 <=? v then
        s ← put_byte (Z.lor (Z.land v 0x7f) 0x80) s;
        encodeVarint_loop fuel (Z.shiftr v 7) s
      else put_byte v s
  end.
Definition encodeVarintStream (v : Z) : writer := encodeVarint_loop 10 v.

(** The fields of [bytes] and [string] type: omitted when empty. *)
Definition put_bytes (tag : Z) (x : bytes) : writer := fun s =>
  if 0 <? zlen x then
    s ← put_byte tag s;
    s ← encodeVarintStream (u64 (zlen x)) s;
    put_copy x s
  else Ok s.

(** The integer fields: omitted when zero. *)
Definition put_uint (tag v : Z) : writer := fun s =>
  if negb (v =? 0) then
    s ← put_byte tag s;
    encodeVarintStream v s
  else Ok s.

(** A message field; [MarshalTo(dAtA[i:])] writes through to the buffer. *)
Definition put_message (tag size : Z) (MarshalTo : bytes -> res (bytes * Z)) : writer := fun s =>
  s ← put_byte tag s;
  '(dAtA, i) ← encodeVarintStream (u64 size) s;
  sub ← subslice dAtA i (zlen dAtA);
  '(sub, n) ← MarshalTo sub;
  Ok (take (Z.to_nat i) dAtA ++ sub, i + n).

Definition put_unrecognized (x : slice) : writer := fun s =>
  match x with
  | Some x => put_copy x s
  | None => Ok s
  end.

(** [Marshal]: allocate, write, cut. *)
Definition marshal_with (size : Z) (MarshalTo : bytes -> res (bytes * Z)) : res bytes :=
  '(dAtA, n) ← MarshalTo (replicate (Z.to_nat size) x00);
  subslice dAtA 0 n.

(** *** Sizes *)

Fixpoint sov_loop (fuel : nat) (x n : Z) : Z :=
  match fuel with
  | O => n
  | S fuel =>
      let n := n + 1 in
      let x := Z.shiftr x 7 in
      if x =? 0 then n else sov_loop fuel x n
  end.
Definition sovStream (x : Z) : Z := sov_loop 10 x 0.

Definition bytes_size (x : bytes) : Z :=
  let l := zlen x in if 0 <? l then 1 + l + sovStream (u64 l) else 0.
Definition message_size (l : Z) : Z := 1 + l + sovStream (u64 l).
Definition uint_size (v : Z) : Z := if negb (v =? 0) then 1 + sovStream v else 0.
Definition unrecognized_size (x : slice) : Z :=
  match x with Some x => zlen x | None => 0 end.

(** *** The messages *)

Definition ID_Size (m : ID) : Z :=
  bytes_size (sbytes (ID_NetKey m)) + bytes_size (ID_Address m) + bytes_size (sbytes (ID_Id m))
  + unrecognized_size (ID_XXX_unrecognized m).
Definition ID_MarshalTo (m : ID) (dAtA : bytes) : res (bytes * Z) :=
  s ← put_bytes 0xa (sbytes (ID_NetKey m)) (dAtA, 0);
  s ← put_bytes 0x12 (ID_Address m) s;
  s ← put_bytes 0x1a (sbytes (ID_Id m)) s;
  put_unrecognized (ID_XXX_unrecognized m) s.
Definition ID_Marshal (m : ID) : res bytes := marshal_with (ID_Size m) (ID_MarshalTo m).

Definition Message_Size (m : Message) : Z :=
  bytes_size (sbytes (Message_Message m))
  + match Message_Sender m with Some s => message_size (ID_Size s) | None => 0 end
  + bytes_size (sbytes (Message_Signature m))
  + uint_size (Message_RequestNonce m)
  + uint_size (Message_MessageNonce m)
  + (if Message_ReplyFlag m then 2 else 0)
  + uint_size (Message_Opcode m)
  + bytes_size (Message_DialAddress m)
  + unrecognized_size (Message_XXX_unrecognized m).
Definition Message_MarshalTo (m : Message) (dAtA : bytes) : res (bytes * Z) :=
  s ← put_bytes 0xa (sbytes (Message_Message m)) (dAtA, 0);
  s ← match Message_Sender m with
      | Some id => put_message 0x12 (ID_Size id) (ID_MarshalTo id) s
      | None => Ok s
      end;
  s ← put_bytes 0x1a (sbytes (Message_Signature m)) s;
  s ← put_uint 0x20 (Message_RequestNonce m) s;
  s ← put_uint 0x28 (Message_MessageNonce m) s;
  s ← (if Message_ReplyFlag m then
         s ← put_byte 0x30 s; put_byte (if Message_ReplyFlag m then 1 else 0) s
       else Ok s);
  s ← put_uint 0x38 (Message_Opcode m) s;
  s ← put_bytes 0x42 (Message_DialAddress m) s;
  put_unrecognized (Message_XXX_unrecognized m) s.
Definition Message_Marshal (m : Message) : res bytes :=
  marshal_with (Message_Size m) (Message_MarshalTo m).

(** The messages without fields: [Ping], [Pong], [Keepalive], [KeepaliveResponse] and
    [Disconnect], given by their unrecognized bytes. *)
Definition empty_Size (x : slice) : Z := unrecognized_size x.
Definition empty_MarshalTo (x : slice) (dAtA : bytes) : res (bytes * Z) :=
  put_unrecognized x (dAtA, 0).
Definition empty_Marshal (x : slice) : res bytes := marshal_with (empty_Size x) (empty_MarshalTo x).

Definition Ping_Marshal (m : Ping) : res bytes := empty_Marshal (Ping_XXX_unrecognized m).
Definition Pong_Marshal (m : Pong) : res bytes := empty_Marshal (Pong_XXX_unrecognized m).
Definition Keepalive_Marshal (m : Keepalive) : res bytes :=
  empty_Marshal (Keepalive_XXX_unrecognized m).
Definition KeepaliveResponse_Marshal (m : KeepaliveResponse) : res bytes :=
  empty_Marshal (KeepaliveResponse_XXX_unrecognized m).
Definition Disconnect_Marshal (m : Disconnect) : res bytes :=
  empty_Marshal (Disconnect_XXX_unrecognized m).

Definition LookupNodeRequest_Size (m : LookupNodeRequest) : Z :=
  match LookupNodeRequest_Target m with Some t => message_size (ID_Size t) | None => 0 end
  + unrecognized_size (LookupNodeRequest_XXX_unrecognized m).
Definition LookupNodeRequest_MarshalTo (m : LookupNodeRequest) (dAtA : bytes) : res (bytes * Z) :=
  s ← match LookupNodeRequest_Target m with
      | Some t => put_message 0xa (ID_Size t) (ID_MarshalTo t) (dAtA, 0)
      | None => Ok (dAtA, 0)
      end;
  put_unrecognized (LookupNodeRequest_XXX_unrecognized m) s.
Definition LookupNodeRequest_Marshal (m : LookupNodeRequest) : res bytes :=
  marshal_with (LookupNodeRequest_Size m) (LookupNodeRequest_MarshalTo m).

Definition peers_size (peers : list ID) : Z :=
  foldr (fun e n => message_size (ID_Size e) + n) 0 peers.
Fixpoint put_peers (peers : list ID) : writer := fun s =>
  match peers with
  | [] => Ok s
  | msg :: peers => s ← put_message 0xa (ID_Size msg) (ID_MarshalTo msg) s; put_peers peers s
  end.
Definition LookupNodeResponse_Size (m : LookupNodeResponse) : Z :=
  peers_size (LookupNodeResponse_Peers m)
  + unrecognized_size (LookupNodeResponse_XXX_unrecognized m).
Definition LookupNodeResponse_MarshalTo (m : LookupNodeResponse) (dAtA : bytes) :
    res (bytes * Z) :=
  s ← put_peers (LookupNodeResponse_Peers m) (dAtA, 0);
  put_unrecognized (LookupNodeResponse_XXX_unrecognized m) s.
Definition LookupNodeResponse_Marshal (m : LookupNodeResponse) : res bytes :=
  marshal_with (LookupNodeResponse_Size m) (LookupNodeResponse_MarshalTo m).

Definition Bytes_Size (m : Bytes) : Z :=
  bytes_size (sbytes (Bytes_Data m)) + unrecognized_size (Bytes_XXX_unrecognized m).
Definition Bytes_MarshalTo (m : Bytes) (dAtA : bytes) : res (bytes * Z) :=
  s ← put_bytes 0xa (sbytes (Bytes_Data m)) (dAtA, 0);
  put_unrecognized (Bytes_XXX_unrecognized m) s.
Definition Bytes_Marshal (m : Bytes) : res bytes := marshal_with (Bytes_Size m) (Bytes_MarshalTo m).

(** ** Reading *)

(** The varint loop, for an accumulator of the integer type [w] truncates to ([u64], [i64] or
    [u32]): the value and the new index. *)
Fixpoint varint_loop (fuel : nat) (w : Z -> Z) (dAtA : bytes) (iNdEx shift v : Z) : res (Z * Z) :=
  match fuel with
  | O => Panic PFuel
  | S fuel =>
      if 64 <=? shift then Err ErrIntOverflowStream
      else if zlen dAtA <=? iNdEx then Err ErrUnexpectedEOF
      else
        b ← index dAtA iNdEx;
        let iNdEx := iNdEx + 1 in
        let v := Z.lor v (w (Z.shiftl (Z.land (b2z b) 0x7f) shift)) in
        if b2z b <? 0x80 then Ok (v, iNdEx)
        else varint_loop fuel w dAtA iNdEx (shift + 7) v
  end.
Definition varint (w : Z -> Z) (dAtA : bytes) (iNdEx : Z) : res (Z * Z) :=
  varint_loop 11 w dAtA iNdEx 0 0.

(** A [bytes] or message field: its bytes and the index after it. *)
Definition len_bytes (dAtA : bytes) (iNdEx : Z) : res (bytes * Z) :=
  '(byteLen, iNdEx) ← varint i64 dAtA iNdEx;
  if byteLen <? 0 then Err ErrInvalidLengthStream
  else
    let postIndex := i64 (iNdEx + byteLen) in
    if zlen dAtA <? postIndex then Err ErrUnexpectedEOF
    else
      x ← subslice dAtA iNdEx postIndex;
      Ok (x, postIndex).
Definition len_string (dAtA : bytes) (iNdEx : Z) : res (bytes * Z) :=
  '(stringLen, iNdEx) ← varint u64 dAtA iNdEx;
  let intStringLen := i64 stringLen in
  if intStringLen <? 0 then Err ErrInvalidLengthStream
  else
    let postIndex := i64 (iNdEx + intStringLen) in
    if zlen dAtA <? postIndex then Err ErrUnexpectedEOF
    else
      x ← subslice dAtA iNdEx postIndex;
      Ok (x, postIndex).

(** The loop over the fields of a group, [skip] being the recursive call. *)
Fixpoint skip_group (skip : bytes -> res Z) (fuel : nat) (dAtA : bytes) (iNdEx : Z) : res Z :=
  match fuel with
  | O => Panic PFuel
  | S fuel =>
      let start := iNdEx in
      '(innerWire, iNdEx) ← varint u64 dAtA iNdEx;
      let innerWireType := Z.land innerWire 0x7 in
      if innerWireType =? 4 then Ok iNdEx
      else
        rest ← subslice dAtA start (zlen dAtA);
        next ← skip rest;
        skip_group skip fuel dAtA (i64 (start + next))
  end.
(** The outer [for] returns in its first round; it is skipped for an empty input only. *)
Fixpoint skipStream_fuel (fuel : nat) (dAtA : bytes) : res Z :=
  match fuel with
  | O => Panic PFuel
  | S fuel =>
      let l := zlen dAtA in
      let iNdEx := 0 in
      if iNdEx <? l then
        '(wire, iNdEx) ← varint u64 dAtA iNdEx;
        let wireType := Z.land wire 0x7 in
        match wireType with
        | 0 => '(_, iNdEx) ← varint u64 dAtA iNdEx; Ok iNdEx
        | 1 => Ok (iNdEx + 8)
        | 2 =>
            '(length, iNdEx) ← varint i64 dAtA iNdEx;
            let iNdEx := i64 (iNdEx + length) in
            if length <? 0 then Err ErrInvalidLengthStream else Ok iNdEx
        | 3 => skip_group (skipStream_fuel fuel) (S (length dAtA)) dAtA iNdEx
        | 4 => Ok iNdEx
        | 5 => Ok (iNdEx + 4)
        | _ => Err ("proto: illegal wireType " ++ pretty wireType)
        end
      else Panic (PExplicit "unreachable")
  end.
Definition skipStream (dAtA : bytes) : res Z := skipStream_fuel (S (length dAtA)) dAtA.

Definition wrong_wireType (wireType : Z) (name : string) : string :=
  "proto: wrong wireType = " ++ pretty wireType ++ " for field " ++ name.

(** The loop of every [Unmarshal].  [field num wireType m iNdEx] decodes a known field, and is
    [None] for the others, which go to [XXX_unrecognized]. *)
Section Unmarshal.
Context {M : Type} (name : string) (dAtA : bytes).
Context (field : Z -> Z -> M -> Z -> option (res (M * Z))).
Context (unknown : M -> bytes -> M).

Fixpoint unmarshal_loop (fuel : nat) (m : M) (iNdEx : Z) : res M :=
  let l := zlen dAtA in
  if iNdEx <? l then
    match fuel with
    | O => Panic PFuel
    | S fuel =>
        let preIndex := iNdEx in
        '(wire, iNdEx) ← varint u64 dAtA iNdEx;
        let fieldNum := i32 (Z.shiftr wire 3) in
        let wireType := Z.land wire 0x7 in
        if wireType =? 4 then Err ("proto: " ++ name ++ ": wiretype end group for non-group")
        else if fieldNum <=? 0 then
          Err ("proto: " ++ name ++ ": illegal tag " ++ pretty fieldNum ++ " (wire type "
               ++ pretty wire ++ ")")
        else
          match field fieldNum wireType m iNdEx with
          | Some r => '(m, iNdEx) ← r; unmarshal_loop fuel m iNdEx
          | None =>
              let iNdEx := preIndex in
              rest ← subslice dAtA iNdEx l;
              skippy ← skipStream rest;
              if skippy <? 0 then Err ErrInvalidLengthStream
              else
                let postIndex := i64 (iNdEx + skippy) in
                if l <? postIndex then Err ErrUnexpectedEOF
                else
                  x ← subslice dAtA iNdEx postIndex;
                  unmarshal_loop fuel (unknown m x) postIndex
          end
    end
  else if l <? iNdEx then Err ErrUnexpectedEOF
  else Ok m.
Definition unmarshal (m : M) : res M := unmarshal_loop (length dAtA) m 0.
End Unmarshal.

(** [append(m.XXX_unrecognized, x...)]: appending nothing to nil leaves nil. *)
Definition append_unrecognized (s : slice) (x : bytes) : slice :=
  match s, x with
  | None, [] => None
  | _, _ => Some (sbytes s ++ x)
  end.

Definition bytes_field {M} (dAtA : bytes) (name : string) (set : bytes -> M) (wireType iNdEx : Z) :
    res (M * Z) :=
  if negb (wireType =? 2) then Err (wrong_wireType wireType name)
  else '(x, iNdEx) ← len_bytes dAtA iNdEx; Ok (set x, iNdEx).
Definition string_field {M} (dAtA : bytes) (name : string) (set : bytes -> M) (wireType iNdEx : Z) :
    res (M * Z) :=
  if negb (wireType =? 2) then Err (wrong_wireType wireType name)
  else '(x, iNdEx) ← len_string dAtA iNdEx; Ok (set x, iNdEx).
Definition varint_field {M} (w : Z -> Z) (dAtA : bytes) (name : string) (set : Z -> M)
    (wireType iNdEx : Z) : res (M * Z) :=
  if negb (wireType =? 0) then Err (wrong_wireType wireType name)
  else '(v, iNdEx) ← varint w dAtA iNdEx; Ok (set v, iNdEx).
Definition message_field {M N} (dAtA : bytes) (name : string) (Unmarshal : bytes -> res N)
    (set : N -> M) (wireType iNdEx : Z) : res (M * Z) :=
  if negb (wireType =? 2) then Err (wrong_wireType wireType name)
  else
    '(x, iNdEx) ← len_bytes dAtA iNdEx;
    n ← Unmarshal x;
    Ok (set n, iNdEx).

(** *** The messages *)

Definition ID_field (dAtA : bytes) (num wireType : Z) (m : ID) (iNdEx : Z) :
    option (res (ID * Z)) :=
  let 'mkID netKey address id x := m in
  match num with
  | 1 => Some (bytes_field dAtA "NetKey" (fun v => mkID (Some v) address id x) wireType iNdEx)
  | 2 => Some (string_field dAtA "Address" (fun v => mkID netKey v id x) wireType iNdEx)
  | 3 => Some (bytes_field dAtA "Id" (fun v => mkID netKey address (Some v) x) wireType iNdEx)
  | _ => None
  end.
Definition ID_unknown (m : ID) (v : bytes) : ID :=
  let 'mkID netKey address id x := m in mkID netKey address id (append_unrecognized x v).
Definition ID_Unmarshal (m : ID) (dAtA : bytes) : res ID :=
  unmarshal "ID" dAtA (ID_field dAtA) ID_unknown m.

Definition Message_field (dAtA : bytes) (num wireType : Z) (m : Message) (iNdEx : Z) :
    option (res (Message * Z)) :=
  let 'mkMessage msg sender sig rn mn rf op da x := m in
  match num with
  | 1 => Some (bytes_field dAtA "Message"
           (fun v => mkMessage (Some v) sender sig rn mn rf op da x) wireType iNdEx)
  | 2 => Some (message_field dAtA "Sender" (ID_Unmarshal (default ID_zero sender))
           (fun v => mkMessage msg (Some v) sig rn mn rf op da x) wireType iNdEx)
  | 3 => Some (bytes_field dAtA "Signature"
           (fun v => mkMessage msg sender (Some v) rn mn rf op da x) wireType iNdEx)
  | 4 => Some (varint_field u64 dAtA "RequestNonce"
           (fun v => mkMessage msg sender sig v mn rf op da x) wireType iNdEx)
  | 5 => Some (varint_field u64 dAtA "MessageNonce"
           (fun v => mkMessage msg sender sig rn v rf op da x) wireType iNdEx)
  | 6 => Some (varint_field i64 dAtA "ReplyFlag"
           (fun v => mkMessage msg sender sig rn mn (negb (v =? 0)) op da x) wireType iNdEx)
  | 7 => Some (varint_field u32 dAtA "Opcode"
           (fun v => mkMessage msg sender sig rn mn rf v da x) wireType iNdEx)
  | 8 => Some (string_field dAtA "DialAddress"
           (fun v => mkMessage msg sender sig rn mn rf op v x) wireType iNdEx)
  | _ => None
  end.
Definition Message_unknown (m : Message) (v : bytes) : Message :=
  let 'mkMessage msg sender sig rn mn rf op da x := m in
  mkMessage msg sender sig rn mn rf op da (append_unrecognized x v).
Definition Message_Unmarshal (m : Message) (dAtA : bytes) : res Message :=
  unmarshal "Message" dAtA (Message_field dAtA) Message_unknown m.

Definition empty_Unmarshal (name : string) (x : slice) (dAtA : bytes) : res slice :=
  unmarshal name dAtA (fun _ _ _ _ => None) append_unrecognized x.
Definition Ping_Unmarshal (m : Ping) (dAtA : bytes) : res Ping :=
  mkPing <$> empty_Unmarshal "Ping" (Ping_XXX_unrecognized m) dAtA.
Definition Pong_Unmarshal (m : Pong) (dAtA : bytes) : res Pong :=
  mkPong <$> empty_Unmarshal "Pong" (Pong_XXX_unrecognized m) dAtA.
Definition Keepalive_Unmarshal (m : Keepalive) (dAtA : bytes) : res Keepalive :=
  mkKeepalive <$> empty_Unmarshal "Keepalive" (Keepalive_XXX_unrecognized m) dAtA.
Definition KeepaliveResponse_Unmarshal (m : KeepaliveResponse) (dAtA : bytes) :
    res KeepaliveResponse :=
  mkKeepaliveResponse <$>
    empty_Unmarshal "KeepaliveResponse" (KeepaliveResponse_XXX_unrecognized m) dAtA.
Definition Disconnect_Unmarshal (m : Disconnect) (dAtA : bytes) : res Disconnect :=
  mkDisconnect <$> empty_Unmarshal "Disconnect" (Disconnect_XXX_unrecognized m) dAtA.

Definition LookupNodeRequest_field (dAtA : bytes) (num wireType : Z) (m : LookupNodeRequest)
    (iNdEx : Z) : option (res (LookupNodeRequest * Z)) :=
  let 'mkLookupNodeRequest target x := m in
  match num with
  | 1 => Some (message_field dAtA "Target" (ID_Unmarshal (default ID_zero target))
           (fun v => mkLookupNodeRequest (Some v) x) wireType iNdEx)
  | _ => None
  end.
Definition LookupNodeRequest_unknown (m : LookupNodeRequest) (v : bytes) : LookupNodeRequest :=
  let 'mkLookupNodeRequest target x := m in mkLookupNodeRequest target (append_unrecognized x v).
Definition LookupNodeRequest_Unmarshal (m : LookupNodeRequest) (dAtA : bytes) :
    res LookupNodeRequest :=
  unmarshal "LookupNodeRequest" dAtA (LookupNodeRequest_field dAtA) LookupNodeRequest_unknown m.

Definition LookupNodeResponse_field (dAtA : bytes) (num wireType : Z) (m : LookupNodeResponse)
    (iNdEx : Z) : option (res (LookupNodeResponse * Z)) :=
  let 'mkLookupNodeResponse peers x := m in
  match num with
  | 1 => Some (message_field dAtA "Peers" (ID_Unmarshal ID_zero)
           (fun v => mkLookupNodeResponse (peers ++ [v]) x) wireType iNdEx)
  | _ => None
  end.
Definition LookupNodeResponse_unknown (m : LookupNodeResponse) (v : bytes) : LookupNodeResponse :=
  let 'mkLookupNodeResponse peers x := m in mkLookupNodeResponse peers (append_unrecognized x v).
Definition LookupNodeResponse_Unmarshal (m : LookupNodeResponse) (dAtA : bytes) :
    res LookupNodeResponse :=
  unmarshal "LookupNodeResponse" dAtA (LookupNodeResponse_field dAtA) LookupNodeResponse_unknown m.

Definition Bytes_field (dAtA : bytes) (num wireType : Z) (m : Bytes) (iNdEx : Z) :
    option (res (Bytes * Z)) :=
  let 'mkBytes data x := m in
  match num with
  | 1 => Some (bytes_field dAtA "Data" (fun v => mkBytes (Some v) x) wireType iNdEx)
  | _ => None
  end.
Definition Bytes_unknown (m : Bytes) (v : bytes) : Bytes :=
  let 'mkBytes data x := m in mkBytes data (append_unrecognized x v).
Definition Bytes_Unmarshal (m : Bytes) (dAtA : bytes) : res Bytes :=
  unmarshal "Bytes" dAtA (Bytes_field dAtA) Bytes_unknown m.

(** ** Specification: the wire format *)

(** A varint: seven bits a byte, least significant first, the top bit set on all but the last
    byte. *)
Fixpoint uvarint_fuel (fuel : nat) (v : Z) : bytes :=
  match fuel with
  | O => []
  | S fuel => if v <? 128 then [z2b v] else z2b (v mod 128 + 128) :: uvarint_fuel fuel (v / 128)
  end.
Definition uvarint (v : Z) : bytes := uvarint_fuel 10 v.

Definition enc_bytes (tag : Z) (x : bytes) : bytes :=
  match x with [] => [] | _ => z2b tag :: uvarint (zlen x) ++ x end.
Definition enc_message (tag : Z) (x : bytes) : bytes := z2b tag :: uvarint (zlen x) ++ x.
Definition enc_uint (tag v : Z) : bytes := if v =? 0 then [] else z2b tag :: uvarint v.

Definition ID_encoding (m : ID) : bytes :=
  enc_bytes 10 (sbytes (ID_NetKey m)) ++ enc_bytes 18 (ID_Address m)
  ++ enc_bytes 26 (sbytes (ID_Id m)) ++ sbytes (ID_XXX_unrecognized m).
Definition Message_encoding (m : Message) : bytes :=
  enc_bytes 10 (sbytes (Message_Message m))
  ++ match Message_Sender m with Some s => enc_message 18 (ID_encoding s) | None => [] end
  ++ enc_bytes 26 (sbytes (Message_Signature m))
  ++ enc_uint 32 (Message_RequestNonce m)
  ++ enc_uint 40 (Message_MessageNonce m)
  ++ (if Message_ReplyFlag m then [z2b 48; z2b 1] else [])
  ++ enc_uint 56 (Message_Opcode m)
  ++ enc_bytes 66 (Message_DialAddress m)
  ++ sbytes (Message_XXX_unrecognized m).
Definition LookupNodeRequest_encoding (m : LookupNodeRequest) : bytes :=
  match LookupNodeRequest_Target m with Some t => enc_message 10 (ID_encoding t) | None => [] end
  ++ sbytes (LookupNodeRequest_XXX_unrecognized m).
Definition peers_encoding (peers : list ID) : bytes :=
  mjoin ((fun p => enc_message 10 (ID_encoding p)) <$> peers).
Definition LookupNodeResponse_encoding (m : LookupNodeResponse) : bytes :=
  peers_encoding (LookupNodeResponse_Peers m) ++ sbytes (LookupNodeResponse_XXX_unrecognized m).
Definition Bytes_encoding (m : Bytes) : bytes :=
  enc_bytes 10 (sbytes (Bytes_Data m)) ++ sbytes (Bytes_XXX_unrecognized m).

(** [writes w enc]: where there is room, [w] writes [enc] at the index and moves past it. *)
Definition writes (w : writer) (enc : bytes) : Prop :=
  forall pre rest, (length enc <= length rest)%nat ->
    w (pre ++ rest, zlen pre) = Ok (pre ++ enc ++ drop (length enc) rest, zlen (pre ++ enc)).

(** ** Lemmas on writers *)

Lemma writes_nil (w : writer) : (forall s, w s = Ok s) -> writes w [].
Proof. intros H pre rest _. rewrite H. by rewrite app_nil_r, drop_0. Qed.

Lemma writes_app (w1 w2 : writer) e1 e2 :
  writes w1 e1 -> writes w2 e2 -> writes (fun s => s ← w1 s; w2 s) (e1 ++ e2).
Proof.
  intros H1 H2 pre rest Hl. rewrite length_app in Hl. cbn beta.
  rewrite H1 by lia. cbn [mbind res_bind].
  rewrite (assoc_L (++)), H2 by (rewrite length_drop; lia).
  by rewrite drop_drop, length_app, <-!(assoc_L (++)).
Qed.

Lemma put_byte_writes v : writes (put_byte v) [z2b v].
Proof.
  intros pre [|x rest] Hl; simpl in Hl; [lia|]. unfold put_byte.
  rewrite zlen_app, zlen_cons. pose proof (zlen_nonneg pre). pose proof (zlen_nonneg rest).
  destruct (Z.ltb_spec (zlen pre) 0); [lia|].
  destruct (Z.leb_spec (zlen pre + (1 + zlen rest)) (zlen pre)); [lia|]. simpl.
  f_equal. f_equal; [|by rewrite zlen_app].
  unfold zlen. rewrite Nat2Z.id. rewrite insert_app_r_alt by lia. by rewrite Nat.sub_diag, drop_0.
Qed.

Lemma put_copy_writes x : writes (put_copy x) x.
Proof.
  intros pre rest Hl. unfold put_copy. rewrite !zlen_app.
  pose proof (zlen_nonneg pre). pose proof (zlen_nonneg rest).
  assert (zlen x <= zlen rest) by (unfold zlen; lia).
  destruct (Z.ltb_spec (zlen pre) 0); [lia|].
  destruct (Z.ltb_spec (zlen pre + zlen rest) (zlen pre)); [lia|]. simpl.
  rewrite Z.add_simpl_l, Z.min_r by lia. f_equal. f_equal.
  unfold zlen. rewrite <-Nat2Z.inj_add, !Nat2Z.id, take_app_length.
  by rewrite (take_ge x), <-drop_drop, drop_app_length by done.
Qed.

Lemma put_unrecognized_writes x : writes (put_unrecognized x) (sbytes x).
Proof. destruct x; [apply put_copy_writes|by apply writes_nil]. Qed.

Lemma land_127 v : Z.land v 0x7f = v mod 128.
Proof. change 0x7f with (Z.ones 7). by rewrite Z.land_ones. Qed.

Lemma lor_128 v : 0 <= v < 128 -> Z.lor v 0x80 = v + 128.
Proof.
  intros Hv. rewrite Z.lor_comm, Z.add_comm. change 0x80 with (Z.shiftl 1 7).
  rewrite <-concat_bits by lia. done.
Qed.

Lemma encodeVarint_loop_writes n v :
  0 <= v < 128 ^ Z.of_nat n -> (0 < n)%nat -> writes (encodeVarint_loop n v) (uvarint_fuel n v).
Proof.
  revert v. induction n as [|n IH]; intros v Hv Hn; [lia|].
  cbn [encodeVarint_loop uvarint_fuel]. change (2 ^ 7) with 128.
  destruct (Z.leb_spec 128 v); destruct (Z.ltb_spec v 128); try lia.
  - apply (writes_app _ _ [_] (uvarint_fuel n (v / 128))).
    + rewrite land_127, lor_128 by (apply Z.mod_pos_bound; lia). apply put_byte_writes.
    + rewrite Z.shiftr_div_pow2 by lia. change (2 ^ 7) with 128.
      rewrite Nat2Z.inj_succ, Z.pow_succ_r in Hv by lia.
      destruct n as [|n]; [change (128 ^ Z.of_nat 0) with 1 in Hv; lia|]. apply IH; [|lia].
      split; [apply Z.div_pos; lia|]. apply Z.div_lt_upper_bound; lia.
  - apply put_byte_writes.
Qed.

Lemma encodeVarint_writes v : 0 <= v < 2 ^ 64 -> writes (encodeVarintStream v) (uvarint v).
Proof.
  intros. apply encodeVarint_loop_writes; [|lia]. change (128 ^ Z.of_nat 10) with (2 ^ 70). lia.
Qed.

(** In-memory objects are smaller than the address space. *)
Definition small (x : bytes) : Prop := zlen x < 2 ^ 62.

Lemma put_bytes_writes tag x : small x -> writes (put_bytes tag x) (enc_bytes tag x).
Proof.
  unfold small. intros Hx. unfold put_bytes, enc_bytes. destruct x as [|b x].
  { by apply writes_nil. }
  set (y := b :: x) in *. pose proof (zlen_nonneg x).
  assert (zlen y = 1 + zlen x) by apply zlen_cons.
  destruct (Z.ltb_spec 0 (zlen y)); [|lia].
  apply (writes_app _ _ [_]); [apply put_byte_writes|]. rewrite u64_small by lia.
  apply writes_app; [apply encodeVarint_writes; lia|]. apply put_copy_writes.
Qed.

Lemma put_uint_writes tag v : 0 <= v < 2 ^ 64 -> writes (put_uint tag v) (enc_uint tag v).
Proof.
  intros Hv. unfold put_uint, enc_uint. destruct (v =? 0); simpl; [by apply writes_nil|].
  apply (writes_app _ _ [_]); [apply put_byte_writes|]. by apply encodeVarint_writes.
Qed.

(** A [MarshalTo] method is a writer started at index 0. *)
Lemma writes_start w enc d : writes w enc -> (length enc <= length d)%nat ->
  w (d, 0) = Ok (enc ++ drop (length enc) d, zlen enc).
Proof. intros Hw. apply (Hw []). Qed.

Lemma put_message_writes tag (w : writer) enc :
  small enc -> writes w enc ->
  writes (put_message tag (zlen enc) (fun d => w (d, 0))) (enc_message tag enc).
Proof.
  unfold small. intros Hs Hw. unfold put_message, enc_message.
  apply (writes_app _ _ [_]); [apply put_byte_writes|].
  rewrite u64_small by (pose proof (zlen_nonneg enc); lia).
  intros pre rest Hl. rewrite length_app in Hl.
  rewrite encodeVarint_writes by (pose proof (zlen_nonneg enc); lia).
  cbn [mbind res_bind]. set (u := uvarint (zlen enc)) in *. rewrite (assoc_L (++)).
  rewrite <-(app_nil_r (drop _ _)), (subslice_app (pre ++ u)); [|done|by rewrite app_nil_r, !zlen_app].
  cbn [mbind res_bind]. rewrite app_nil_r, (writes_start w enc) by (rewrite ?length_drop; done || lia).
  cbn [mbind res_bind]. rewrite !zlen_app. f_equal. f_equal; [|lia].
  unfold zlen. rewrite <-Nat2Z.inj_add, Nat2Z.id, <-length_app, take_app_length.
  by rewrite drop_drop, length_app, <-!(assoc_L (++)).
Qed.

Lemma marshal_with_writes w enc :
  writes w enc -> marshal_with (zlen enc) (fun d => w (d, 0)) = Ok enc.
Proof.
  intros Hw. unfold marshal_with.
  assert (Hn : Z.to_nat (zlen enc) = length enc) by (unfold zlen; lia).
  rewrite (writes_start w enc) by (rewrite ?length_replicate; done || lia).
  cbn [mbind res_bind]. rewrite drop_ge by (rewrite length_replicate; lia).
  by apply (subslice_app [] enc []).
Qed.

(** ** Lemmas on sizes *)

Lemma sov_loop_uvarint n v k : 0 <= v < 128 ^ Z.of_nat n -> (0 < n)%nat ->
  sov_loop n v k = k + zlen (uvarint_fuel n v).
Proof.
  revert v k. induction n as [|n IH]; intros v k Hv Hn; [lia|].
  cbn [sov_loop uvarint_fuel]. rewrite Z.shiftr_div_pow2 by lia. change (2 ^ 7) with 128.
  rewrite Nat2Z.inj_succ, Z.pow_succ_r in Hv by lia.
  destruct (Z.ltb_spec v 128).
  - rewrite Z.div_small by lia. simpl. unfold zlen. simpl. lia.
  - assert (1 <= v / 128) by (apply Z.div_le_lower_bound; lia).
    assert (v / 128 < 128 ^ Z.of_nat n) by (apply Z.div_lt_upper_bound; lia).
    destruct (Z.eqb_spec (v / 128) 0); [lia|]. destruct n as [|n]; [change (128 ^ Z.of_nat 0) with 1 in *; lia|].
    rewrite IH by lia. rewrite zlen_cons. lia.
Qed.

Lemma sovStream_uvarint v : 0 <= v < 2 ^ 64 -> sovStream v = zlen (uvarint v).
Proof.
  intros. unfold sovStream. rewrite sov_loop_uvarint; [done| |lia].
  change (128 ^ Z.of_nat 10) with (2 ^ 70). lia.
Qed.

Lemma bytes_size_enc tag x : small x -> bytes_size x = zlen (enc_bytes tag x).
Proof.
  unfold small, bytes_size, enc_bytes. destruct x as [|b x]; [done|]. intros Hx.
  set (y := b :: x) in *. pose proof (zlen_nonneg x).
  assert (zlen y = 1 + zlen x) by apply zlen_cons.
  destruct (Z.ltb_spec 0 (zlen y)); [|lia].
  rewrite zlen_cons, zlen_app, u64_small, sovStream_uvarint by lia. lia.
Qed.
Lemma message_size_enc tag x : small x -> message_size (zlen x) = zlen (enc_message tag x).
Proof.
  unfold small, message_size, enc_message. intros. pose proof (zlen_nonneg x).
  rewrite zlen_cons, zlen_app, u64_small, sovStream_uvarint by lia. lia.
Qed.
Lemma uint_size_enc tag v : 0 <= v < 2 ^ 64 -> uint_size v = zlen (enc_uint tag v).
Proof.
  intros. unfold uint_size, enc_uint. destruct (v =? 0); simpl; [done|].
  by rewrite zlen_cons, sovStream_uvarint.
Qed.
Lemma unrecognized_size_enc x : unrecognized_size x = zlen (sbytes x).
Proof. by destruct x. Qed.

(** ** [Marshal] writes the wire format *)

Lemma small_app x y : small (x ++ y) -> small x /\ small y.
Proof.
  unfold small. rewrite zlen_app. pose proof (zlen_nonneg x). pose proof (zlen_nonneg y). lia.
Qed.
Lemma small_cons b x : small (b :: x) -> small x.
Proof. unfold small. rewrite zlen_cons. lia. Qed.
Lemma small_enc_bytes tag x : small (enc_bytes tag x) -> small x.
Proof.
  unfold enc_bytes. destruct x as [|b x]; [done|]. intros H. apply small_cons, small_app in H.
  apply H.
Qed.
Lemma small_enc_message tag x : small (enc_message tag x) -> small x.
Proof. intros H. by apply small_cons, small_app in H as [_ ?]. Qed.

(** Splits the smallness of an encoding into that of its parts. *)
Ltac small_parts :=
  repeat match goal with
  | H : small (_ ++ _) |- _ => apply small_app in H as [? ?]
  | H : small (enc_bytes _ _) |- _ => apply small_enc_bytes in H
  | H : small (enc_message _ _) |- _ => apply small_enc_message in H
  end.

Create HintDb wire.
#[export] Hint Resolve put_bytes_writes put_uint_writes put_unrecognized_writes
  put_byte_writes put_message_writes encodeVarint_writes : wire.

Lemma ID_Size_encoding m : small (ID_encoding m) -> ID_Size m = zlen (ID_encoding m).
Proof.
  unfold ID_encoding, ID_Size. intros H. rewrite !zlen_app. small_parts.
  rewrite (bytes_size_enc 10), (bytes_size_enc 18 (ID_Address m)), (bytes_size_enc 26),
    unrecognized_size_enc by done. lia.
Qed.

Lemma ID_MarshalTo_writes m :
  small (ID_encoding m) -> exists w, ID_MarshalTo m = (fun d => w (d, 0)) /\ writes w (ID_encoding m).
Proof.
  intros H. unfold ID_encoding in *. small_parts.
  eexists (fun s => s ← put_bytes 0xa (sbytes (ID_NetKey m)) s;
                    s ← put_bytes 0x12 (ID_Address m) s;
                    s ← put_bytes 0x1a (sbytes (ID_Id m)) s;
                    put_unrecognized (ID_XXX_unrecognized m) s).
  split; [done|]. repeat apply writes_app; auto with wire.
Qed.

Lemma put_ID_writes tag id :
  small (ID_encoding id) ->
  writes (put_message tag (ID_Size id) (ID_MarshalTo id)) (enc_message tag (ID_encoding id)).
Proof.
  intros H. rewrite ID_Size_encoding by done.
  destruct (ID_MarshalTo_writes id H) as (w & -> & Hw). by apply put_message_writes.
Qed.
#[export] Hint Resolve put_ID_writes : wire.

Lemma Message_Size_encoding m :
  Message_wf m -> small (Message_encoding m) -> Message_Size m = zlen (Message_encoding m).
Proof.
  unfold Message_encoding, Message_Size. intros (Hrn & Hmn & Hop) H. rewrite !zlen_app. small_parts.
  rewrite (bytes_size_enc 10), (bytes_size_enc 26 (sbytes (Message_Signature m))) by done.
  rewrite (bytes_size_enc 66), (uint_size_enc 32), (uint_size_enc 40 (Message_MessageNonce m)),
    (uint_size_enc 56 (Message_Opcode m)), unrecognized_size_enc by (done || lia).
  assert (E : match Message_Sender m with Some s => message_size (ID_Size s) | None => 0 end =
    zlen match Message_Sender m with Some s => enc_message 18 (ID_encoding s) | None => [] end).
  { destruct (Message_Sender m); [|done]. small_parts.
    rewrite ID_Size_encoding by done. by apply message_size_enc. }
  rewrite E. destruct (Message_ReplyFlag m); unfold zlen; simpl; lia.
Qed.

Lemma Message_MarshalTo_writes m :
  Message_wf m -> small (Message_encoding m) ->
  exists w, Message_MarshalTo m = (fun d => w (d, 0)) /\ writes w (Message_encoding m).
Proof.
  intros (Hrn & Hmn & Hop) H. unfold Message_encoding in *. small_parts.
  eexists (fun s =>
    s ← put_bytes 0xa (sbytes (Message_Message m)) s;
    s ← match Message_Sender m with
        | Some id => put_message 0x12 (ID_Size id) (ID_MarshalTo id) s
        | None => Ok s
        end;
    s ← put_bytes 0x1a (sbytes (Message_Signature m)) s;
    s ← put_uint 0x20 (Message_RequestNonce m) s;
    s ← put_uint 0x28 (Message_MessageNonce m) s;
    s ← (if Message_ReplyFlag m then
           s ← put_byte 0x30 s; put_byte (if Message_ReplyFlag m then 1 else 0) s
         else Ok s);
    s ← put_uint 0x38 (Message_Opcode m) s;
    s ← put_bytes 0x42 (Message_DialAddress m) s;
    put_unrecognized (Message_XXX_unrecognized m) s).
  split; [done|]. apply writes_app; [auto with wire|]. apply writes_app.
  { destruct (Message_Sender m); [small_parts; auto with wire|by apply writes_nil]. }
  do 3 (apply writes_app; [auto with wire|]). apply writes_app.
  { destruct (Message_ReplyFlag m); [|by apply writes_nil].
    apply (writes_app _ _ [_] [_]); apply put_byte_writes. }
  repeat apply writes_app; auto with wire. apply put_uint_writes. lia.
Qed.

Lemma peers_encoding_cons p ps :
  peers_encoding (p :: ps) = enc_message 10 (ID_encoding p) ++ peers_encoding ps.
Proof. done. Qed.

Lemma peers_size_encoding ps : small (peers_encoding ps) -> peers_size ps = zlen (peers_encoding ps).
Proof.
  induction ps as [|p ps IH]; [done|]. rewrite peers_encoding_cons. intros H. small_parts.
  cbn [peers_size foldr]. fold (peers_size ps).
  rewrite zlen_app, <-IH by done. rewrite ID_Size_encoding by done.
  by rewrite (message_size_enc 10).
Qed.

Lemma put_peers_writes ps : small (peers_encoding ps) -> writes (put_peers ps) (peers_encoding ps).
Proof.
  induction ps as [|p ps IH]; intros H; [by apply writes_nil|].
  rewrite peers_encoding_cons in *. small_parts.
  apply writes_app; [by apply put_ID_writes|by apply IH].
Qed.
#[export] Hint Resolve put_peers_writes : wire.

Lemma empty_Marshal_ok x : small (sbytes x) -> empty_Marshal x = Ok (sbytes x).
Proof.
  intros H. unfold empty_Marshal, empty_Size. rewrite unrecognized_size_enc.
  apply (marshal_with_writes (put_unrecognized x)). auto with wire.
Qed.

Lemma ID_Marshal_ok m : small (ID_encoding m) -> ID_Marshal m = Ok (ID_encoding m).
Proof.
  intros H. unfold ID_Marshal. rewrite ID_Size_encoding by done.
  destruct (ID_MarshalTo_writes m H) as (w & -> & Hw). by apply marshal_with_writes.
Qed.

Lemma Message_Marshal_ok m :
  Message_wf m -> small (Message_encoding m) -> Message_Marshal m = Ok (Message_encoding m).
Proof.
  intros Hwf H. unfold Message_Marshal. rewrite Message_Size_encoding by done.
  destruct (Message_MarshalTo_writes m Hwf H) as (w & -> & Hw). by apply marshal_with_writes.
Qed.

Lemma LookupNodeRequest_Marshal_ok m :
  small (LookupNodeRequest_encoding m) ->
  LookupNodeRequest_Marshal m = Ok (LookupNodeRequest_encoding m).
Proof.
  intros H. unfold LookupNodeRequest_Marshal.
  assert (ES : LookupNodeRequest_Size m = zlen (LookupNodeRequest_encoding m)).
  { unfold LookupNodeRequest_Size, LookupNodeRequest_encoding in *. rewrite zlen_app.
    small_parts. rewrite unrecognized_size_enc. destruct (LookupNodeRequest_Target m); [|done].
    small_parts. rewrite ID_Size_encoding by done. by rewrite (message_size_enc 10). }
  rewrite ES. apply (marshal_with_writes (fun s =>
    s ← match LookupNodeRequest_Target m with
        | Some t => put_message 0xa (ID_Size t) (ID_MarshalTo t) s
        | None => Ok s
        end;
    put_unrecognized (LookupNodeRequest_XXX_unrecognized m) s)).
  unfold LookupNodeRequest_encoding in *. small_parts. apply writes_app; [|auto with wire].
  destruct (LookupNodeRequest_Target m); [small_parts; auto with wire|by apply writes_nil].
Qed.

Lemma LookupNodeResponse_Marshal_ok m :
  small (LookupNodeResponse_encoding m) ->
  LookupNodeResponse_Marshal m = Ok (LookupNodeResponse_encoding m).
Proof.
  intros H. unfold LookupNodeResponse_Marshal.
  assert (ES : LookupNodeResponse_Size m = zlen (LookupNodeResponse_encoding m)).
  { unfold LookupNodeResponse_Size, LookupNodeResponse_encoding in *. rewrite zlen_app.
    small_parts. by rewrite unrecognized_size_enc, peers_size_encoding. }
  rewrite ES. apply (marshal_with_writes (fun s =>
    s ← put_peers (LookupNodeResponse_Peers m) s;
    put_unrecognized (LookupNodeResponse_XXX_unrecognized m) s)).
  unfold LookupNodeResponse_encoding in *. small_parts. apply writes_app; auto with wire.
Qed.

Lemma Bytes_Marshal_ok m : small (Bytes_encoding m) -> Bytes_Marshal m = Ok (Bytes_encoding m).
Proof.
  intros H. unfold Bytes_Marshal.
  assert (ES : Bytes_Size m = zlen (Bytes_encoding m)).
  { unfold Bytes_Size, Bytes_encoding in *. rewrite zlen_app. small_parts.
    by rewrite unrecognized_size_enc, (bytes_size_enc 10). }
  rewrite ES. apply (marshal_with_writes (fun s =>
    s ← put_bytes 0xa (sbytes (Bytes_Data m)) s;
    put_unrecognized (Bytes_XXX_unrecognized m) s)).
  unfold Bytes_encoding in *. small_parts. apply writes_app; auto with wire.
Qed.

(** ** Lemmas on reading *)

(** [w] keeps the [k]-bit numbers as they are. *)
Definition keeps (w : Z -> Z) (k : Z) : Prop := 0 <= k <= 64 /\ forall x, 0 <= x < 2 ^ k -> w x = x.

Lemma keeps_u64 : keeps u64 64.
Proof. split; [lia|]. apply u64_small. Qed.
Lemma keeps_i64 : keeps i64 63.
Proof. split; [lia|]. intros. apply i64_small. lia. Qed.
Lemma keeps_u32 : keeps u32 32.
Proof. split; [lia|]. apply u32_small. Qed.
#[export] Hint Resolve keeps_u64 keeps_i64 keeps_u32 : wire.

(** One accumulation of the varint loop. *)
Lemma varint_acc w k x acc shift :
  keeps w k -> 0 <= shift -> 0 <= acc < 2 ^ shift -> 0 <= x < 2 ^ (k - shift) ->
  Z.lor acc (w (Z.shiftl x shift)) = x * 2 ^ shift + acc.
Proof.
  intros [Hk Hw] Hs Ha Hx. assert (0 <= k - shift).
  { destruct (decide (0 <= k - shift)); [done|]. rewrite Z.pow_neg_r in Hx by lia. lia. }
  rewrite Hw; [by rewrite Z.lor_comm, <-concat_bits|].
  rewrite Z.shiftl_mul_pow2 by done. replace k with (k - shift + shift) by lia.
  rewrite Z.pow_add_r by lia. nia.
Qed.

Lemma varint_loop_uvarint w k n fuel pre post v shift acc :
  keeps w k -> 0 <= shift < 64 -> 0 <= acc < 2 ^ shift -> 0 <= v < 2 ^ (k - shift) ->
  v < 128 ^ Z.of_nat n -> (0 < n <= fuel)%nat ->
  varint_loop fuel w (pre ++ uvarint_fuel n v ++ post) (zlen pre) shift acc
  = Ok (v * 2 ^ shift + acc, zlen pre + zlen (uvarint_fuel n v)).
Proof.
  intros Hw. revert fuel pre v shift acc.
  induction n as [|n IH]; intros fuel pre v shift acc Hs Ha Hv Hn Hf; [lia|].
  destruct fuel as [|fuel]; [lia|]. cbn [varint_loop].
  destruct (Z.leb_spec 64 shift); [lia|]. rewrite !zlen_app.
  pose proof (zlen_nonneg pre). pose proof (zlen_nonneg post).
  cbn [uvarint_fuel]. rewrite Nat2Z.inj_succ, Z.pow_succ_r in Hn by lia.
  destruct (Z.ltb_spec v 128) as [Hlt|Hge].
  - cbn [app]. rewrite zlen_cons, zlen_nil.
    destruct (Z.leb_spec (zlen pre + (1 + 0 + zlen post)) (zlen pre)); [lia|].
    rewrite index_app_cons by done. cbn [mbind res_bind]. rewrite b2z_z2b_small by lia.
    destruct (Z.ltb_spec v 0x80); [|lia]. rewrite land_127, Z.mod_small by lia.
    rewrite (varint_acc w k) by (done || lia). f_equal.
  - assert (Hm : 0 <= v mod 128 < 128) by (apply Z.mod_pos_bound; lia).
    assert (Hk : 7 < k - shift).
    { destruct (decide (7 < k - shift)); [done|].
      pose proof (Z.pow_le_mono_r 2 (k - shift) 7). change (2 ^ 7) with 128 in *. lia. }
    assert (Hp : 2 ^ (k - shift) = 128 * 2 ^ (k - (shift + 7))).
    { replace (k - shift) with (7 + (k - (shift + 7))) by lia. by rewrite Z.pow_add_r by lia. }
    cbn [app]. rewrite zlen_cons. pose proof (zlen_nonneg (uvarint_fuel n (v / 128))).
    destruct (Z.leb_spec (zlen pre + (1 + zlen (uvarint_fuel n (v / 128)) + zlen post)) (zlen pre)); [lia|].
    rewrite index_app_cons by done. cbn [mbind res_bind]. rewrite b2z_z2b_small by lia.
    destruct (Z.ltb_spec (v mod 128 + 128) 0x80); [lia|].
    rewrite land_127. replace (v mod 128 + 128) with (v mod 128 + 1 * 128) at 2 by lia.
    rewrite Z_mod_plus_full, Zmod_mod.
    pose proof (proj1 Hw).
    rewrite (varint_acc w k) by (done || (pose proof (Z.mod_le v 128); lia)).
    replace (pre ++ z2b (v mod 128 + 128) :: uvarint_fuel n (v / 128) ++ post)
      with ((pre ++ [z2b (v mod 128 + 128)]) ++ uvarint_fuel n (v / 128) ++ post)
      by (by rewrite <-(assoc_L (++))).
    replace (zlen pre + 1) with (zlen (pre ++ [z2b (v mod 128 + 128)])) by (by rewrite zlen_app).
    assert (Hq : v / 128 < 2 ^ (k - (shift + 7))) by (apply Z.div_lt_upper_bound; lia).
    assert (1 <= v / 128) by (apply Z.div_le_lower_bound; lia).
    assert (Hs7 : 2 ^ (shift + 7) = 128 * 2 ^ shift).
    { rewrite Z.pow_add_r by lia. change (2 ^ 7) with 128. lia. }
    rewrite IH; [| |nia|lia| |].
    + f_equal. rewrite zlen_app, Hs7. f_equal; [|unfold zlen; simpl; lia].
      rewrite (Z.div_mod v 128) at 3 by lia. ring.
    + lia.
    + apply Z.div_lt_upper_bound; lia.
    + destruct n; [|lia]. change (128 ^ Z.of_nat 0) with 1 in Hn. lia.
Qed.

Lemma varint_uvarint w k pre post v :
  keeps w k -> 0 <= v < 2 ^ k ->
  varint w (pre ++ uvarint v ++ post) (zlen pre) = Ok (v, zlen (pre ++ uvarint v)).
Proof.
  intros Hw Hv. pose proof Hw as [Hk _]. unfold varint, uvarint.
  assert (2 ^ k <= 2 ^ 64) by (apply Z.pow_le_mono_r; lia).
  rewrite (varint_loop_uvarint w k); [|done|lia|lia|by rewrite Z.sub_0_r| |lia].
  - rewrite zlen_app. do 2 f_equal. lia.
  - change (128 ^ Z.of_nat 10) with (2 ^ 70). lia.
Qed.

Lemma len_bytes_ok pre x post :
  small (pre ++ (uvarint (zlen x) ++ x) ++ post) ->
  len_bytes (pre ++ (uvarint (zlen x) ++ x) ++ post) (zlen pre)
  = Ok (x, zlen (pre ++ uvarint (zlen x) ++ x)).
Proof.
  intros Hs. pose proof Hs as Hs'. unfold small in Hs'. rewrite !zlen_app in Hs'.
  pose proof (zlen_nonneg pre). pose proof (zlen_nonneg post). pose proof (zlen_nonneg x).
  pose proof (zlen_nonneg (uvarint (zlen x))).
  unfold len_bytes. rewrite <-(assoc_L (++)).
  rewrite (varint_uvarint i64 63) by (auto with wire || lia). cbn [mbind res_bind].
  destruct (Z.ltb_spec (zlen x) 0); [lia|]. rewrite i64_small by (rewrite zlen_app; lia).
  rewrite !zlen_app.
  destruct (Z.ltb_spec (zlen pre + (zlen (uvarint (zlen x)) + (zlen x + zlen post)))
              (zlen pre + zlen (uvarint (zlen x)) + zlen x)); [lia|].
  rewrite (assoc_L (++) pre), (subslice_app (pre ++ _) x post) by (by rewrite !zlen_app).
  cbn [mbind res_bind]. do 2 f_equal. lia.
Qed.

Lemma len_string_bytes dAtA i :
  len_string dAtA i = '(v, j) ← varint u64 dAtA i;
    if i64 v <? 0 then Err ErrInvalidLengthStream
    else if zlen dAtA <? i64 (j + i64 v) then Err ErrUnexpectedEOF
    else x ← subslice dAtA j (i64 (j + i64 v)); Ok (x, i64 (j + i64 v)).
Proof. done. Qed.

Lemma len_string_ok pre x post :
  small (pre ++ (uvarint (zlen x) ++ x) ++ post) ->
  len_string (pre ++ (uvarint (zlen x) ++ x) ++ post) (zlen pre)
  = Ok (x, zlen (pre ++ uvarint (zlen x) ++ x)).
Proof.
  intros Hs. pose proof (len_bytes_ok pre x post Hs) as HB.
  unfold small in Hs. rewrite !zlen_app in Hs.
  pose proof (zlen_nonneg pre). pose proof (zlen_nonneg post). pose proof (zlen_nonneg x).
  pose proof (zlen_nonneg (uvarint (zlen x))).
  unfold len_bytes in HB. unfold len_string. rewrite <-(assoc_L (++)) in *.
  rewrite (varint_uvarint u64 64) by (auto with wire || lia).
  rewrite (varint_uvarint i64 63) in HB by (auto with wire || lia).
  cbn [mbind res_bind] in *. by rewrite (i64_small (zlen x)) by lia.
Qed.

Section Parses.
Context {M : Type} (name : string).
Context (field : bytes -> Z -> Z -> M -> Z -> option (res (M * Z))).
Context (unknown : M -> bytes -> M).

(** [parses m enc m']: the loop, at the beginning of [enc] with [m], gets past it with [m']. *)
Definition parses (m : M) (enc : bytes) (m' : M) : Prop :=
  forall pre post fuel, let D := pre ++ enc ++ post in
    small D -> (length enc <= fuel)%nat ->
    exists fuel', (fuel - length enc <= fuel')%nat /\
      unmarshal_loop name D (field D) unknown fuel m (zlen pre)
      = unmarshal_loop name D (field D) unknown fuel' m' (zlen (pre ++ enc)).

Lemma parses_nil m : parses m [] m.
Proof.
  intros pre post fuel D HD Hf. exists fuel. rewrite app_nil_r. split; [simpl; lia|done].
Qed.

Lemma parses_app m1 m2 m3 e1 e2 : parses m1 e1 m2 -> parses m2 e2 m3 -> parses m1 (e1 ++ e2) m3.
Proof.
  intros H1 H2 pre post fuel D HD Hf. rewrite length_app in Hf.
  unfold D in *. rewrite <-(assoc_L (++)) in HD |- *.
  destruct (H1 pre (e2 ++ post) fuel HD) as (f1 & Hf1 & ->); [lia|].
  rewrite (assoc_L (++)) in HD |- *.
  destruct (H2 (pre ++ e1) post f1 HD) as (f2 & Hf2 & ->); [lia|].
  exists f2. rewrite length_app. split; [lia|]. by rewrite <-(assoc_L (++) pre e1 e2).
Qed.

Lemma parses_unmarshal m enc m' :
  parses m enc m' -> small enc -> unmarshal name enc (field enc) unknown m = Ok m'.
Proof.
  intros HP Hs. unfold unmarshal.
  destruct (HP [] [] (length enc)) as (f & _ & E); [by rewrite app_nil_r|done|].
  cbn [app] in E. rewrite app_nil_r in E. change (zlen (@nil byte)) with 0 in E. rewrite E.
  destruct f; cbn [unmarshal_loop]; by rewrite Z.ltb_irrefl.
Qed.

(** One round of the loop on a known field. *)
Lemma parses_field m num wt body m' :
  1 <= num < 16 -> 0 <= wt < 8 -> wt <> 4 ->
  (forall pre post, small (pre ++ body ++ post) ->
    field (pre ++ body ++ post) num wt m (zlen pre) = Some (Ok (m', zlen (pre ++ body)))) ->
  parses m (z2b (num * 8 + wt) :: body) m'.
Proof.
  intros Hnum Hwt Hne Hfield pre post fuel D HD Hf. destruct fuel as [|fuel]; [simpl in Hf; lia|].
  exists fuel. split; [simpl; lia|]. cbn [unmarshal_loop].
  assert (HDl : (zlen pre <? zlen D) = true).
  { apply Z.ltb_lt. unfold D. rewrite zlen_app. cbn [app]. rewrite zlen_cons.
    pose proof (zlen_nonneg (body ++ post)). lia. }
  rewrite HDl.
  assert (Hu : uvarint (num * 8 + wt) = [z2b (num * 8 + wt)]).
  { unfold uvarint. cbn [uvarint_fuel]. destruct (Z.ltb_spec (num * 8 + wt) 128); [done|lia]. }
  assert (ED : D = pre ++ uvarint (num * 8 + wt) ++ (body ++ post)) by (by rewrite Hu).
  rewrite ED at 1. rewrite (varint_uvarint u64 64) by (auto with wire || lia).
  cbn [mbind res_bind].
  assert (HL : Z.land (num * 8 + wt) 7 = wt).
  { change 7 with (Z.ones 3). rewrite Z.land_ones by lia. change (2 ^ 3) with 8.
    rewrite Z.add_comm, Z_mod_plus_full. apply Z.mod_small. lia. }
  assert (HS : i32 (Z.shiftr (num * 8 + wt) 3) = num).
  { rewrite Z.shiftr_div_pow2 by lia. change (2 ^ 3) with 8.
    rewrite Z.div_add_l, (Z.div_small wt), Z.add_0_r by lia. apply i32_small. lia. }
  rewrite HL, HS. destruct (Z.eqb_spec wt 4); [done|]. destruct (Z.leb_spec num 0); [lia|].
  rewrite Hu. unfold D in *. clear D ED.
  change (pre ++ (z2b (num * 8 + wt) :: body) ++ post)
    with (pre ++ [z2b (num * 8 + wt)] ++ (body ++ post)) in *. rewrite (assoc_L (++)) in *.
  rewrite Hfield by done. cbn [mbind res_bind]. by rewrite <-(assoc_L (++) pre _ body).
Qed.

Lemma parses_bytes m num fname set x m' :
  1 <= num < 16 ->
  (forall D i, field D num 2 m i = Some (bytes_field D fname set 2 i)) ->
  (x = [] -> m' = m) -> (x <> [] -> m' = set x) -> parses m (enc_bytes (num * 8 + 2) x) m'.
Proof.
  intros Hnum Hf H0 H1. unfold enc_bytes. destruct x as [|b x]; [rewrite H0 by done; apply parses_nil|].
  apply parses_field; [done|lia|lia|]. intros pre post Hs.
  rewrite Hf. unfold bytes_field. rewrite len_bytes_ok by done. cbn. by rewrite H1.
Qed.

Lemma parses_string m num fname set x m' :
  1 <= num < 16 ->
  (forall D i, field D num 2 m i = Some (string_field D fname set 2 i)) ->
  (x = [] -> m' = m) -> (x <> [] -> m' = set x) -> parses m (enc_bytes (num * 8 + 2) x) m'.
Proof.
  intros Hnum Hf H0 H1. unfold enc_bytes. destruct x as [|b x]; [rewrite H0 by done; apply parses_nil|].
  apply parses_field; [done|lia|lia|]. intros pre post Hs.
  rewrite Hf. unfold string_field. rewrite len_string_ok by done. cbn. by rewrite H1.
Qed.

Lemma parses_uint m num fname w k set v m' :
  1 <= num < 16 -> keeps w k -> 0 <= v < 2 ^ k ->
  (forall D i, field D num 0 m i = Some (varint_field w D fname set 0 i)) ->
  (v = 0 -> m' = m) -> (v <> 0 -> m' = set v) -> parses m (enc_uint (num * 8 + 0) v) m'.
Proof.
  intros Hnum Hw Hv Hf H0 H1. unfold enc_uint. destruct (Z.eqb_spec v 0); [rewrite H0 by done; apply parses_nil|].
  apply parses_field; [done|lia|lia|]. intros pre post Hs.
  rewrite Hf. unfold varint_field. rewrite (varint_uvarint w k) by done. cbn. by rewrite H1.
Qed.

Lemma parses_message {N} m num fname (Unmarshal : bytes -> res N) set x n :
  1 <= num < 16 -> Unmarshal x = Ok n ->
  (forall D i, field D num 2 m i = Some (message_field D fname Unmarshal set 2 i)) ->
  parses m (enc_message (num * 8 + 2) x) (set n).
Proof.
  intros Hnum Hx Hf. unfold enc_message.
  apply parses_field; [done|lia|lia|]. intros pre post Hs.
  rewrite Hf. unfold message_field. rewrite len_bytes_ok by done. cbn. by rewrite Hx.
Qed.
End Parses.

(** ** Decoding an encoded message *)

(** No bytes of unknown fields are attached: [Unmarshal] leaves them so for what [Marshal]
    wrote. *)
Definition ID_plain (m : ID) : Prop := ID_XXX_unrecognized m = None.
Definition Message_plain (m : Message) : Prop :=
  Message_XXX_unrecognized m = None /\
  match Message_Sender m with Some s => ID_plain s | None => True end.

Lemma norm_nil s : sbytes s = [] -> norm_slice s = None.
Proof. unfold norm_slice. by intros ->. Qed.
Lemma norm_cons s : sbytes s <> [] -> norm_slice s = Some (sbytes s).
Proof. unfold norm_slice. by destruct (sbytes s). Qed.

Lemma ID_parses m :
  ID_plain m -> parses "ID" ID_field ID_unknown ID_zero (ID_encoding m) (ID_norm m).
Proof.
  destruct m as [nk ad id x]. unfold ID_plain. simpl. intros ->. unfold ID_encoding, ID_norm. simpl.
  rewrite app_nil_r. apply (parses_app _ _ _ _ (mkID (norm_slice nk) [] None None)).
  { apply (parses_bytes _ _ _ _ 1 "NetKey" (fun v => mkID (Some v) [] None None)); [lia|done| |];
      intros; by rewrite ?norm_nil, ?norm_cons by done. }
  apply (parses_app _ _ _ _ (mkID (norm_slice nk) ad None None)).
  { apply (parses_string _ _ _ _ 2 "Address" (fun v => mkID (norm_slice nk) v None None));
      [lia|done| |done]. by intros ->. }
  apply (parses_bytes _ _ _ _ 3 "Id" (fun v => mkID (norm_slice nk) ad (Some v) None));
    [lia|done| |]; intros; by rewrite ?(norm_nil id), ?(norm_cons id) by done.
Qed.

Lemma ID_Unmarshal_encoding m :
  ID_plain m -> small (ID_encoding m) -> ID_Unmarshal ID_zero (ID_encoding m) = Ok (ID_norm m).
Proof. intros. apply parses_unmarshal; [by apply ID_parses|done]. Qed.

Lemma Message_Unmarshal_encoding m :
  Message_wf m -> Message_plain m -> small (Message_encoding m) ->
  Message_Unmarshal Message_zero (Message_encoding m) = Ok (Message_norm m).
Proof.
  intros (Hrn & Hmn & Hop) (Hx & Hs) Hsm. apply parses_unmarshal; [|done].
  destruct m as [msg sender sig rn mn rf op da x]. simpl in *. subst x.
  unfold Message_encoding, Message_norm in *. simpl in *.
  set (msg' := norm_slice msg). set (sig' := norm_slice sig). small_parts.
  apply (parses_app _ _ _ _ (mkMessage msg' None None 0 0 false 0 [] None)).
  { apply (parses_bytes _ _ _ _ 1 "Message" (fun v => mkMessage (Some v) None None 0 0 false 0 [] None));
      [lia|done| |]; intros; unfold msg'; by rewrite ?norm_nil, ?norm_cons by done. }
  apply (parses_app _ _ _ _ (mkMessage msg' (ID_norm <$> sender) None 0 0 false 0 [] None)).
  { destruct sender as [s|]; [|apply parses_nil]. small_parts.
    apply (parses_message _ _ _ _ 2 "Sender" (ID_Unmarshal ID_zero)
             (fun v => mkMessage msg' (Some v) None 0 0 false 0 [] None)); [lia| |done].
    by apply ID_Unmarshal_encoding. }
  set (sender' := ID_norm <$> sender).
  apply (parses_app _ _ _ _ (mkMessage msg' sender' sig' 0 0 false 0 [] None)).
  { apply (parses_bytes _ _ _ _ 3 "Signature"
             (fun v => mkMessage msg' sender' (Some v) 0 0 false 0 [] None));
      [lia|done| |]; intros; unfold sig'; by rewrite ?(norm_nil sig), ?(norm_cons sig) by done. }
  apply (parses_app _ _ _ _ (mkMessage msg' sender' sig' rn 0 false 0 [] None)).
  { apply (parses_uint _ _ _ _ 4 "RequestNonce" u64 64
             (fun v => mkMessage msg' sender' sig' v 0 false 0 [] None));
      [lia|auto with wire|lia|done| |done]. by intros ->. }
  apply (parses_app _ _ _ _ (mkMessage msg' sender' sig' rn mn false 0 [] None)).
  { apply (parses_uint _ _ _ _ 5 "MessageNonce" u64 64
             (fun v => mkMessage msg' sender' sig' rn v false 0 [] None));
      [lia|auto with wire|lia|done| |done]. by intros ->. }
  apply (parses_app _ _ _ _ (mkMessage msg' sender' sig' rn mn rf 0 [] None)).
  { destruct rf; [|apply parses_nil].
    apply (parses_uint _ _ _ _ 6 "ReplyFlag" i64 63
             (fun v => mkMessage msg' sender' sig' rn mn (negb (v =? 0)) 0 [] None) 1);
      [lia|auto with wire|lia|done|done|done]. }
  apply (parses_app _ _ _ _ (mkMessage msg' sender' sig' rn mn rf op [] None)).
  { apply (parses_uint _ _ _ _ 7 "Opcode" u32 32
             (fun v => mkMessage msg' sender' sig' rn mn rf v [] None));
      [lia|auto with wire|lia|done| |done]. by intros ->. }
  rewrite app_nil_r.
  apply (parses_string _ _ _ _ 8 "DialAddress"
           (fun v => mkMessage msg' sender' sig' rn mn rf op v None)); [lia|done| |done].
  by intros ->.
Qed.

Lemma LookupNodeRequest_Unmarshal_encoding t :
  ID_plain t -> small (LookupNodeRequest_encoding (mkLookupNodeRequest (Some t) None)) ->
  LookupNodeRequest_Unmarshal (mkLookupNodeRequest None None)
    (LookupNodeRequest_encoding (mkLookupNodeRequest (Some t) None))
  = Ok (mkLookupNodeRequest (Some (ID_norm t)) None).
Proof.
  intros Ht Hs. apply parses_unmarshal; [|done].
  assert (E : LookupNodeRequest_encoding (mkLookupNodeRequest (Some t) None)
              = enc_message 10 (ID_encoding t)) by apply app_nil_r.
  rewrite E in *. small_parts.
  apply (parses_message _ _ _ _ 1 "Target" (ID_Unmarshal ID_zero)
           (fun v => mkLookupNodeRequest (Some v) None)); [lia| |done].
  by apply ID_Unmarshal_encoding.
Qed.

Lemma peers_parses ps acc :
  Forall ID_plain ps -> small (peers_encoding ps) ->
  parses "LookupNodeResponse" LookupNodeResponse_field LookupNodeResponse_unknown
    (mkLookupNodeResponse acc None) (peers_encoding ps)
    (mkLookupNodeResponse (acc ++ (ID_norm <$> ps)) None).
Proof.
  intros HF. revert acc. induction HF as [|p ps Hp HF IH]; intros acc Hs.
  { rewrite app_nil_r. apply parses_nil. }
  rewrite peers_encoding_cons in *. small_parts.
  apply (parses_app _ _ _ _ (mkLookupNodeResponse (acc ++ [ID_norm p]) None)).
  - apply (parses_message _ _ _ _ 1 "Peers" (ID_Unmarshal ID_zero)
             (fun v => mkLookupNodeResponse (acc ++ [v]) None)); [lia| |done].
    by apply ID_Unmarshal_encoding.
  - replace (acc ++ (ID_norm <$> p :: ps)) with ((acc ++ [ID_norm p]) ++ (ID_norm <$> ps))
      by (by rewrite <-(assoc_L (++))).
    by apply IH.
Qed.

Lemma LookupNodeResponse_Unmarshal_encoding ps :
  Forall ID_plain ps -> small (LookupNodeResponse_encoding (mkLookupNodeResponse ps None)) ->
  LookupNodeResponse_Unmarshal (mkLookupNodeResponse [] None)
    (LookupNodeResponse_encoding (mkLookupNodeResponse ps None))
  = Ok (mkLookupNodeResponse (ID_norm <$> ps) None).
Proof.
  intros HF Hs. apply parses_unmarshal; [|done].
  assert (E : LookupNodeResponse_encoding (mkLookupNodeResponse ps None)
              = peers_encoding ps) by apply app_nil_r.
  rewrite E in *. by apply (peers_parses ps []).
Qed.

Lemma Bytes_Unmarshal_encoding data :
  small (Bytes_encoding (mkBytes data None)) ->
  Bytes_Unmarshal (mkBytes None None) (Bytes_encoding (mkBytes data None))
  = Ok (mkBytes (norm_slice data) None).
Proof.
  intros Hs. apply parses_unmarshal; [|done].
  assert (E : Bytes_encoding (mkBytes data None) = enc_bytes 10 (sbytes data)) by apply app_nil_r.
  rewrite E in *.
  apply (parses_bytes _ _ _ _ 1 "Data" (fun v => mkBytes (Some v) None)); [lia|done| |];
    intros; by rewrite ?norm_nil, ?norm_cons by done.
Qed.

(** ** Lemmas on termination *)

(** A decoder's result: a value, an error, or the panic of a slice or an index outside the
    input; never the end of the fuel. *)
Definition decodes_safely {A} (r : res A) : Prop :=
  match r with Panic p => p = PSlice \/ p = PIndex | _ => True end.
(** The same for a reader, which moves forward within the input when it succeeds. *)
Definition advances {A} (dAtA : bytes) (i : Z) (r : res (A * Z)) : Prop :=
  match r with Ok (_, j) => i < j <= zlen dAtA | _ => decodes_safely r end.

Lemma subslice_safe {A} (l : list A) a b :
  match subslice l a b with
  | Ok x => 0 <= a <= b /\ b <= zlen l /\ zlen x = b - a
  | Err _ => False
  | Panic p => p = PSlice
  end.
Proof.
  unfold subslice. destruct (Z.ltb_spec a 0), (Z.ltb_spec b a), (Z.ltb_spec (zlen l) b); simpl; try done.
  unfold zlen in *. rewrite length_take, length_drop. lia.
Qed.

Lemma varint_loop_advances fuel w d i shift v :
  64 <= shift + 7 * (Z.of_nat fuel - 1) -> (0 < fuel)%nat -> 0 <= i ->
  advances d i (varint_loop fuel w d i shift v).
Proof.
  revert i shift v. induction fuel as [|fuel IH]; intros i shift v Hf Hp Hi; cbn [varint_loop].
  - lia.
  - destruct (Z.leb_spec 64 shift); [done|]. destruct (Z.leb_spec (zlen d) i); [done|].
    destruct (index_ok d i) as [b ->]; [lia|]. cbn [mbind res_bind].
    destruct (b2z b <? 0x80); [simpl; lia|].
    specialize (IH (i + 1) (shift + 7) (Z.lor v (w (Z.shiftl (Z.land (b2z b) 0x7f) shift)))).
    revert IH. destruct varint_loop as [[x j]|e|p]; simpl; intros IH; try apply IH; lia.
Qed.

Lemma varint_advances w d i : 0 <= i -> advances d i (varint w d i).
Proof. apply varint_loop_advances; simpl; lia. Qed.

Lemma varint_neg w d i : i < 0 -> varint w d i = Panic PIndex.
Proof.
  intros Hi. unfold varint. cbn [varint_loop]. destruct (Z.leb_spec 64 0); [lia|].
  pose proof (zlen_nonneg d). destruct (Z.leb_spec (zlen d) i); [lia|].
  unfold index. by destruct (Z.ltb_spec i 0); [|lia].
Qed.

Lemma lor_i64_range a b :
  - 2 ^ 63 <= a < 2 ^ 63 -> - 2 ^ 63 <= b < 2 ^ 63 -> - 2 ^ 63 <= Z.lor a b < 2 ^ 63.
Proof.
  assert (Hiff : forall x, - 2 ^ 63 <= x < 2 ^ 63 <-> Z.shiftr x 63 = 0 \/ Z.shiftr x 63 = -1).
  { intros x. rewrite Z.shiftr_div_pow2 by lia. pose proof (Z.div_mod x (2 ^ 63)).
    pose proof (Z.mod_pos_bound x (2 ^ 63)). split; [|lia].
    intros. assert (-1 <= x / 2 ^ 63) by (apply Z.div_le_lower_bound; lia).
    assert (x / 2 ^ 63 < 1) by (apply Z.div_lt_upper_bound; lia). lia. }
  rewrite !Hiff, Z.shiftr_lor. intros [-> | ->] [-> | ->]; auto.
Qed.

Lemma varint_i64_range fuel d i shift v :
  - 2 ^ 63 <= v < 2 ^ 63 ->
  match varint_loop fuel i64 d i shift v with Ok (x, _) => - 2 ^ 63 <= x < 2 ^ 63 | _ => True end.
Proof.
  revert i shift v. induction fuel as [|fuel IH]; intros i shift v Hv; cbn [varint_loop]; [done|].
  destruct (64 <=? shift); [done|]. destruct (zlen d <=? i); [done|].
  destruct (index d i) as [b| |]; cbn [mbind res_bind]; [|done..].
  assert (Hl : - 2 ^ 63 <= Z.lor v (i64 (Z.shiftl (Z.land (b2z b) 0x7f) shift)) < 2 ^ 63).
  { apply lor_i64_range; [done|apply i64_range]. }
  destruct (b2z b <? 0x80); [done|]. by apply IH.
Qed.

Lemma i64_cases z : 0 <= z < 2 ^ 63 + 2 ^ 62 -> i64 z = z \/ i64 z < - 2 ^ 62.
Proof.
  intros Hz. destruct (decide (z < 2 ^ 63)) as [Hlt|Hge]; [left; apply i64_small; lia|right].
  unfold i64, sint. change (64 - 1) with 63.
  replace (z + 2 ^ 63) with (z - 2 ^ 63 + 1 * 2 ^ 64) by lia.
  rewrite Z_mod_plus_full, Z.mod_small by lia. lia.
Qed.

(** What [skipStream] returns: a positive distance, or an overflowed one. *)
Definition skips (r : res Z) : Prop :=
  match r with Ok n => 1 <= n < 2 ^ 63 \/ - 2 ^ 63 <= n < - 2 ^ 62 | _ => decodes_safely r end.

Lemma skip_group_safe skip fuel d i :
  (forall x, x <> [] -> (length x < length d)%nat -> small x -> skips (skip x)) ->
  small d -> i < 0 \/ (0 < i /\ zlen d - i < Z.of_nat fuel) -> (0 < fuel)%nat ->
  skips (skip_group skip fuel d i).
Proof.
  intros Hskip Hs. revert i. induction fuel as [|fuel IH]; intros i Hi Hf; [lia|].
  cbn [skip_group]. destruct Hi as [Hi|[Hi Hl]]; [rewrite varint_neg by done; by right|].
  pose proof (varint_advances u64 d i ltac:(lia)) as Hv.
  destruct (varint u64 d i) as [[wire j]|e|p]; cbn [mbind res_bind]; [|done..]. simpl in Hv.
  unfold small in Hs. destruct (Z.land wire 7 =? 4); [simpl; lia|].
  pose proof (subslice_safe d i (zlen d)) as Hsub.
  destruct (subslice d i (zlen d)) as [rest|e|p]; cbn [mbind res_bind]; [|done|by left].
  destruct Hsub as (_ & _ & Hrest).
  assert (Hk : skips (skip rest)).
  { apply Hskip; [|unfold zlen in *; lia|unfold small; lia].
    intros ->. unfold zlen in *. simpl in *. lia. }
  destruct (skip rest) as [next|e|p]; cbn [mbind res_bind]; [|done..]. simpl in Hk.
  assert (Hi64 : i64 (i + next) = i + next \/ i64 (i + next) < 0).
  { destruct Hk as [Hk|Hk]; [destruct (i64_cases (i + next)); lia|].
    rewrite i64_small by lia. by left. }
  assert (Hf' : (0 < fuel)%nat) by lia. apply IH; lia.
Qed.

Lemma skipStream_fuel_safe fuel d :
  d <> [] -> (length d < fuel)%nat -> small d -> skips (skipStream_fuel fuel d).
Proof.
  revert d. induction fuel as [|fuel IH]; intros d Hne Hf Hs; [lia|]. cbn [skipStream_fuel].
  destruct (Z.ltb_spec 0 (zlen d)) as [_|Hl]; [|destruct d; unfold zlen in Hl; simpl in Hl; [done|lia]].
  pose proof (varint_advances u64 d 0 ltac:(lia)) as Hv.
  destruct (varint u64 d 0) as [[wire j]|e|p]; cbn [mbind res_bind]; [|done..]. simpl in Hv.
  unfold small in Hs.
  assert (Hw : 0 <= Z.land wire 7 < 8).
  { change 7 with (Z.ones 3). rewrite Z.land_ones by lia. by apply Z.mod_pos_bound. }
  assert (Hc : Z.land wire 7 = 0 \/ Z.land wire 7 = 1 \/ Z.land wire 7 = 2 \/ Z.land wire 7 = 3 \/
    Z.land wire 7 = 4 \/ Z.land wire 7 = 5 \/ Z.land wire 7 = 6 \/ Z.land wire 7 = 7) by lia.
  destruct Hc as [->|[->|[->|[->|[->|[->|[->| ->]]]]]]]; try done; try (simpl; lia).
  - pose proof (varint_advances u64 d j ltac:(lia)) as Hv'.
    destruct (varint u64 d j) as [[? j']|e|p]; cbn [mbind res_bind]; [simpl in *; lia|done..].
  - pose proof (varint_advances i64 d j ltac:(lia)) as Hv'.
    pose proof (varint_i64_range 11 d j 0 0 ltac:(lia)) as Hr.
    unfold varint in *.
    destruct (varint_loop 11 i64 d j 0 0) as [[len j']|e|p]; cbn [mbind res_bind]; [|done..].
    simpl in Hv'. destruct (Z.ltb_spec len 0); [done|]. cbn [skips].
    pose proof (i64_range (j' + len)). destruct (i64_cases (j' + len)); lia.
  - apply skip_group_safe; [|done|right; split; [lia|]|lia].
    + intros x Hx Hlx Hsx. apply IH; [done|lia|done].
    + unfold zlen. lia.
Qed.

Lemma skipStream_safe d : d <> [] -> small d -> skips (skipStream d).
Proof. intros. apply skipStream_fuel_safe; [done|lia|done]. Qed.

Lemma len_bytes_safe d i : 0 <= i ->
  match len_bytes d i with
  | Ok (x, j) => i < j <= zlen d /\ zlen x <= zlen d
  | r => decodes_safely r
  end.
Proof.
  intros Hi. unfold len_bytes. pose proof (varint_advances i64 d i Hi) as Hv.
  destruct (varint i64 d i) as [[n j]|e|p]; cbn [mbind res_bind]; [|done..]. simpl in Hv.
  destruct (n <? 0); [done|]. destruct (Z.ltb_spec (zlen d) (i64 (j + n))); [done|].
  pose proof (subslice_safe d j (i64 (j + n))) as Hsub.
  destruct (subslice d j (i64 (j + n))); cbn [mbind res_bind]; [lia|done|by left].
Qed.

Lemma len_string_safe d i : 0 <= i -> advances d i (len_string d i).
Proof.
  intros Hi. unfold len_string. pose proof (varint_advances u64 d i Hi) as Hv.
  destruct (varint u64 d i) as [[n j]|e|p]; cbn [mbind res_bind]; [|done..]. simpl in Hv.
  destruct (i64 n <? 0); [done|]. destruct (Z.ltb_spec (zlen d) (i64 (j + i64 n))); [done|].
  pose proof (subslice_safe d j (i64 (j + i64 n))) as Hsub.
  destruct (subslice d j (i64 (j + i64 n))); cbn [mbind res_bind]; [simpl; lia|done|by left].
Qed.

Lemma bytes_field_safe {M} d name (set : bytes -> M) wt i :
  0 <= i -> advances d i (bytes_field d name set wt i).
Proof.
  intros Hi. unfold bytes_field. destruct (negb (wt =? 2)); [done|].
  pose proof (len_bytes_safe d i Hi) as Hl.
  destruct (len_bytes d i) as [[x j]|e|p]; cbn [mbind res_bind]; [simpl; lia|done..].
Qed.

Lemma string_field_safe {M} d name (set : bytes -> M) wt i :
  0 <= i -> advances d i (string_field d name set wt i).
Proof.
  intros Hi. unfold string_field. destruct (negb (wt =? 2)); [done|].
  pose proof (len_string_safe d i Hi) as Hl.
  by destruct (len_string d i) as [[x j]|e|p]; cbn [mbind res_bind].
Qed.

Lemma varint_field_safe {M} w d name (set : Z -> M) wt i :
  0 <= i -> advances d i (varint_field w d name set wt i).
Proof.
  intros Hi. unfold varint_field. destruct (negb (wt =? 0)); [done|].
  pose proof (varint_advances w d i Hi) as Hl.
  by destruct (varint w d i) as [[x j]|e|p]; cbn [mbind res_bind].
Qed.

Lemma message_field_safe {M N} d name Unmarshal (set : N -> M) wt i :
  (forall x, small x -> decodes_safely (Unmarshal x)) -> small d -> 0 <= i ->
  advances d i (message_field d name Unmarshal set wt i).
Proof.
  intros HU Hs Hi. unfold message_field. destruct (negb (wt =? 2)); [done|].
  pose proof (len_bytes_safe d i Hi) as Hl.
  destruct (len_bytes d i) as [[x j]|e|p]; cbn [mbind res_bind]; [|done..].
  assert (Hx : decodes_safely (Unmarshal x)) by (apply HU; unfold small in *; lia).
  destruct (Unmarshal x); cbn [mbind res_bind]; [simpl; lia|done..].
Qed.

Lemma unmarshal_safe {M} name d field unknown (m : M) :
  small d ->
  (forall num wt m i, 0 <= i -> match field num wt m i with Some r => advances d i r | None => True end) ->
  decodes_safely (unmarshal name d field unknown m).
Proof.
  intros Hs Hfield. unfold unmarshal.
  assert (Hgen : forall fuel m i, 0 <= i <= zlen d -> zlen d - i <= Z.of_nat fuel ->
            decodes_safely (unmarshal_loop name d field unknown fuel m i)).
  { induction fuel as [|fuel IH]; intros m' i Hi Hf; cbn [unmarshal_loop];
      destruct (Z.ltb_spec i (zlen d)); try lia; try by destruct (zlen d <? i).
    pose proof (varint_advances u64 d i ltac:(lia)) as Hv.
    destruct (varint u64 d i) as [[wire j]|e|p]; cbn [mbind res_bind]; [|done..]. simpl in Hv.
    destruct (Z.land wire 7 =? 4); [done|]. destruct (i32 (Z.shiftr wire 3) <=? 0); [done|].
    specialize (Hfield (i32 (Z.shiftr wire 3)) (Z.land wire 7) m' j ltac:(lia)).
    destruct (field (i32 (Z.shiftr wire 3)) (Z.land wire 7) m' j) as [[[m2 k]|e|p]|].
    - simpl in Hfield. apply IH; lia.
    - done.
    - done.
    - pose proof (subslice_safe d i (zlen d)) as Hsub.
      destruct (subslice d i (zlen d)) as [rest|e|p]; cbn [mbind res_bind]; [|done|by left].
      unfold small in Hs.
      assert (Hk : skips (skipStream rest)).
      { apply skipStream_safe; [|unfold small; lia].
        intros ->. destruct Hsub as (_ & _ & Hsub). unfold zlen at 1 in Hsub. simpl in Hsub. lia. }
      destruct (skipStream rest) as [n|e|p]; cbn [mbind res_bind]; [|done..]. simpl in Hk.
      destruct (Z.ltb_spec n 0); [done|].
      destruct (Z.ltb_spec (zlen d) (i64 (i + n))); [done|].
      pose proof (subslice_safe d i (i64 (i + n))) as Hsub'.
      destruct (subslice d i (i64 (i + n))) as [x|e|p]; cbn [mbind res_bind]; [|done|by left].
      destruct (i64_cases (i + n)); [lia|apply IH; lia|lia]. }
  apply Hgen; [pose proof (zlen_nonneg d); lia|unfold zlen; lia].
Qed.

(** A goal [match match num with ... end with Some r => advances d i r | None => True end]. *)
Ltac field_cases num :=
  destruct num as [|num|num]; try exact I;
  repeat (destruct num as [num|num|]; try exact I).

Lemma ID_Unmarshal_safe m d : small d -> decodes_safely (ID_Unmarshal m d).
Proof.
  intros Hs. apply unmarshal_safe; [done|]. intros num wt [nk ad id x] i Hi. unfold ID_field.
  field_cases num; auto using bytes_field_safe, string_field_safe.
Qed.

Lemma Message_Unmarshal_safe m d : small d -> decodes_safely (Message_Unmarshal m d).
Proof.
  intros Hs. apply unmarshal_safe; [done|]. intros num wt [] i Hi. unfold Message_field.
  field_cases num;
    auto using bytes_field_safe, string_field_safe, varint_field_safe, message_field_safe,
      ID_Unmarshal_safe.
Qed.

Lemma LookupNodeRequest_Unmarshal_safe m d :
  small d -> decodes_safely (LookupNodeRequest_Unmarshal m d).
Proof.
  intros Hs. apply unmarshal_safe; [done|]. intros num wt [] i Hi. unfold LookupNodeRequest_field.
  field_cases num; auto using message_field_safe, ID_Unmarshal_safe.
Qed.

Lemma LookupNodeResponse_Unmarshal_safe m d :
  small d -> decodes_safely (LookupNodeResponse_Unmarshal m d).
Proof.
  intros Hs. apply unmarshal_safe; [done|]. intros num wt [] i Hi. unfold LookupNodeResponse_field.
  field_cases num; auto using message_field_safe, ID_Unmarshal_safe.
Qed.

Lemma Bytes_Unmarshal_safe m d : small d -> decodes_safely (Bytes_Unmarshal m d).
Proof.
  intros Hs. apply unmarshal_safe; [done|]. intros num wt [] i Hi. unfold Bytes_field.
  field_cases num; auto using bytes_field_safe.
Qed.

Lemma empty_Unmarshal_safe name x d : small d -> decodes_safely (empty_Unmarshal name x d).
Proof. intros Hs. by apply unmarshal_safe. Qed.

(** ** Properties *)

(** [Marshal] of a message in range that fits in memory never panics, fills exactly the buffer
    [Size] announced, and what it writes is the wire encoding of the message. *)
Theorem Marshal_writes_encoding (m : Message) :
  Message_wf m -> small (Message_encoding m) ->
  Message_Size m = zlen (Message_encoding m) /\ Message_Marshal m = Ok (Message_encoding m).
Proof. intros. split; [by apply Message_Size_encoding|by apply Message_Marshal_ok]. Qed.

(** C5. What [Marshal] writes for a message without unknown fields, [Unmarshal] reads back: the
    same message, up to nil and empty slices. *)
Theorem Message_roundtrip (m : Message) :
  Message_wf m -> Message_plain m -> small (Message_encoding m) ->
  exists b, Message_Marshal m = Ok b /\ Message_Unmarshal Message_zero b = Ok (Message_norm m).
Proof.
  intros. exists (Message_encoding m).
  split; [by apply Message_Marshal_ok|by apply Message_Unmarshal_encoding].
Qed.

(** The same for the payloads: a lookup request, a lookup response with any number of peers
    (their order kept), and a [Bytes] message. *)
Theorem payload_roundtrip (t : ID) (ps : list ID) (data : slice) :
  Forall ID_plain (t :: ps) ->
  small (LookupNodeRequest_encoding (mkLookupNodeRequest (Some t) None)) ->
  small (LookupNodeResponse_encoding (mkLookupNodeResponse ps None)) ->
  small (Bytes_encoding (mkBytes data None)) ->
  (exists b, LookupNodeRequest_Marshal (mkLookupNodeRequest (Some t) None) = Ok b /\
    LookupNodeRequest_Unmarshal (mkLookupNodeRequest None None) b
    = Ok (mkLookupNodeRequest (Some (ID_norm t)) None)) /\
  (exists b, LookupNodeResponse_Marshal (mkLookupNodeResponse ps None) = Ok b /\
    LookupNodeResponse_Unmarshal (mkLookupNodeResponse [] None) b
    = Ok (mkLookupNodeResponse (ID_norm <$> ps) None)) /\
  (exists b, Bytes_Marshal (mkBytes data None) = Ok b /\
    Bytes_Unmarshal (mkBytes None None) b = Ok (mkBytes (norm_slice data) None)).
Proof.
  intros HF H1 H2 H3. apply Forall_cons in HF as [Ht Hps].
  split; [|split]; eexists.
  - split; [by apply LookupNodeRequest_Marshal_ok|by apply LookupNodeRequest_Unmarshal_encoding].
  - split; [by apply LookupNodeResponse_Marshal_ok|by apply LookupNodeResponse_Unmarshal_encoding].
  - split; [by apply Bytes_Marshal_ok|by apply Bytes_Unmarshal_encoding].
Qed.

(** C6. Decoding any input, valid or not, ends: every [Unmarshal] returns a message or an error,
    or panics on a slice or an index outside the input; in particular the loops of
    [skipStream] over nested groups terminate and its final [panic] is not reached. *)
Theorem Unmarshal_terminates (d : bytes) :
  small d ->
  (forall m, decodes_safely (ID_Unmarshal m d)) /\
  (forall m, decodes_safely (Message_Unmarshal m d)) /\
  (forall m, decodes_safely (LookupNodeRequest_Unmarshal m d)) /\
  (forall m, decodes_safely (LookupNodeResponse_Unmarshal m d)) /\
  (forall m, decodes_safely (Bytes_Unmarshal m d)) /\
  (forall name x, decodes_safely (empty_Unmarshal name x d)) /\
  (d <> [] -> skips (skipStream d)).
Proof.
  intros Hs. repeat split; intros;
    auto using ID_Unmarshal_safe, Message_Unmarshal_safe, LookupNodeRequest_Unmarshal_safe,
      LookupNodeResponse_Unmarshal_safe, Bytes_Unmarshal_safe, empty_Unmarshal_safe,
      skipStream_safe.
Qed.

(** The panic does occur: a [bytes] field that announces 2^63-1 bytes overflows
    [postIndex := iNdEx + byteLen], which then passes the bound test, and the slice expression
    panics.  Any sender can make [Unmarshal] panic with ten bytes. *)
Theorem Unmarshal_overflow_panics (m : Message) (rest : bytes) :
  small ([x0a; xff; xff; xff; xff; xff; xff; xff; xff; x7f] ++ rest) ->
  Message_Unmarshal m ([x0a; xff; xff; xff; xff; xff; xff; xff; xff; x7f] ++ rest) = Panic PSlice.
Proof.
  intros Hs. set (D := [x0a; xff; xff; xff; xff; xff; xff; xff; xff; x7f] ++ rest) in *.
  assert (E1 : D = [] ++ uvarint 10 ++ (uvarint (2 ^ 63 - 1) ++ rest)) by (by vm_compute).
  assert (E2 : D = [x0a] ++ uvarint (2 ^ 63 - 1) ++ rest) by (by vm_compute).
  unfold Message_Unmarshal, unmarshal.
  assert (HD : length D = S (9 + length rest)) by done. rewrite HD. cbn [unmarshal_loop].
  assert (Hl : zlen D = 10 + zlen rest) by (unfold zlen; rewrite HD; lia).
  pose proof (zlen_nonneg rest). unfold small in Hs. clearbody D.
  destruct (Z.ltb_spec 0 (zlen D)); [|lia].
  rewrite E1 at 1. rewrite (varint_uvarint u64 64) by (auto with wire || lia).
  cbn [mbind res_bind]. change (zlen ([] ++ uvarint 10)) with 1.
  change (Z.land 10 7) with 2. change (i32 (Z.shiftr 10 3)) with 1. cbn [Z.eqb Z.leb Z.compare].
  destruct m. cbn [Message_field]. unfold bytes_field, len_bytes. cbn [Z.eqb Pos.eqb negb].
  rewrite E2 at 1. rewrite (varint_uvarint i64 63 [x0a]) by (auto with wire || lia).
  cbn [mbind res_bind]. change (zlen ([x0a] ++ uvarint (2 ^ 63 - 1))) with 10.
  change (2 ^ 63 - 1 <? 0) with false. change (i64 (10 + (2 ^ 63 - 1))) with (- 2 ^ 63 + 9).
  cbn [mbind res_bind]. destruct (Z.ltb_spec (zlen D) (- 2 ^ 63 + 9)); [lia|].
  unfold subslice. destruct (Z.ltb_spec (- 2 ^ 63 + 9) 10); [|lia].
  by rewrite orb_true_r.
Qed.

(** ** Witnesses *)

Definition a_message : Message :=
  mkMessage (Some [x01; x02]) (Some (mkID (Some [x09]) (str "tcp://a:1") (Some [x07]) None))
    (Some []) 300 0 true 12 [] None.

Lemma Marshal_writes_encoding_witness :
  Message_wf a_message /\ Message_Marshal a_message = Ok (Message_encoding a_message).
Proof.
  split; [vm_compute; intuition congruence|].
  apply (Marshal_writes_encoding a_message); vm_compute; intuition congruence.
Defined.

Lemma Message_roundtrip_witness :
  exists b, Message_Marshal a_message = Ok b /\
    Message_Unmarshal Message_zero b = Ok (Message_norm a_message).
Proof. apply (Message_roundtrip a_message); vm_compute; intuition congruence. Defined.

Lemma payload_roundtrip_witness :
  exists b, LookupNodeResponse_Marshal (mkLookupNodeResponse [ID_zero; ID_zero] None) = Ok b /\
    LookupNodeResponse_Unmarshal (mkLookupNodeResponse [] None) b
    = Ok (mkLookupNodeResponse [ID_zero; ID_zero] None).
Proof.
  destruct (payload_roundtrip ID_zero [ID_zero; ID_zero] None) as (_ & Hr & _);
    [by repeat constructor|done|done|done|exact Hr].
Defined.

Lemma Unmarshal_terminates_witness : decodes_safely (Message_Unmarshal Message_zero [xff; x03]).
Proof.
  destruct (Unmarshal_terminates [xff; x03] eq_refl) as (_ & Hm & _). apply Hm.
Defined.

Lemma Unmarshal_overflow_panics_witness :
  Message_Unmarshal Message_zero [x0a; xff; xff; xff; xff; xff; xff; xff; xff; x7f] = Panic PSlice.
Proof. apply (Unmarshal_overflow_panics Message_zero []). done. Defined.
