(* ===== verification/Opcode.v ===== *)
(** * The opcode registry: [types/opcode/opcode.go]

    The two package-level [sync.Map]s as finite maps, threaded through the operations.  A
    message is one of the protocol's or one of the application's; of the latter the registry
    uses the dynamic type and [proto.Marshal] only ([UserMessages]).  [proto.Clone] is the
    identity on message values.  Registrations happen one after the other (applications
    register in their [init] functions). *)

From S2P Require Import Prelude Messages Protobuf.
#[local] Open Scope Z_scope.

(** The messages of the application, with what [gogo/protobuf] does with them. *)
Class UserMessages (UM UT : Type) := {
  UT_eq_dec :: EqDecision UT;
  UT_countable :: Countable UT;
  user_type : UM -> UT;
  user_Marshal : UM -> res bytes;
  user_Unmarshal : UM -> bytes -> res UM;
}.

Inductive reflect_Type (UT : Type) :=
| TBytes | TPing | TPong | TLookupNodeRequest | TLookupNodeResponse
| TKeepalive | TKeepaliveResponse | TDisconnect
| TUser (t : UT).
Arguments TBytes {UT}. Arguments TPing {UT}. Arguments TPong {UT}.
Arguments TLookupNodeRequest {UT}. Arguments TLookupNodeResponse {UT}.
Arguments TKeepalive {UT}. Arguments TKeepaliveResponse {UT}. Arguments TDisconnect {UT}.
Arguments TUser {UT} t.

#[export] Instance reflect_Type_eq_dec `{EqDecision UT} : EqDecision (reflect_Type UT).
Proof. solve_decision. Defined.
#[export] Instance reflect_Type_countable `{Countable UT} : Countable (reflect_Type UT).
Proof.
  refine (inj_countable'
    (fun t => match t with
      | TUser t => inr t | TBytes => inl 0%nat | TPing => inl 1%nat | TPong => inl 2%nat
      | TLookupNodeRequest => inl 3%nat | TLookupNodeResponse => inl 4%nat
      | TKeepalive => inl 5%nat | TKeepaliveResponse => inl 6%nat | TDisconnect => inl 7%nat end)
    (fun c => match c with
      | inr t => TUser t | inl 0%nat => TBytes | inl 1%nat => TPing | inl 2%nat => TPong
      | inl 3%nat => TLookupNodeRequest | inl 4%nat => TLookupNodeResponse
      | inl 5%nat => TKeepalive | inl 6%nat => TKeepaliveResponse | inl _ => TDisconnect end) _).
  by intros [].
Defined.

Inductive proto_Message (UM : Type) :=
| PBytes (m : Bytes) | PPing (m : Ping) | PPong (m : Pong)
| PLookupNodeRequest (m : LookupNodeRequest) | PLookupNodeResponse (m : LookupNodeResponse)
| PKeepalive (m : Keepalive) | PKeepaliveResponse (m : KeepaliveResponse)
| PDisconnect (m : Disconnect)
| PUser (m : UM).
Arguments PBytes {UM} m. Arguments PPing {UM} m. Arguments PPong {UM} m.
Arguments PLookupNodeRequest {UM} m. Arguments PLookupNodeResponse {UM} m.
Arguments PKeepalive {UM} m. Arguments PKeepaliveResponse {UM} m. Arguments PDisconnect {UM} m.
Arguments PUser {UM} m.

Section Opcode.
Context `{!UserMessages UM UT}.

Definition TypeOf (m : proto_Message UM) : reflect_Type UT :=
  match m with
  | PBytes _ => TBytes | PPing _ => TPing | PPong _ => TPong
  | PLookupNodeRequest _ => TLookupNodeRequest | PLookupNodeResponse _ => TLookupNodeResponse
  | PKeepalive _ => TKeepalive | PKeepaliveResponse _ => TKeepaliveResponse
  | PDisconnect _ => TDisconnect
  | PUser m => TUser (user_type m)
  end.

(** [proto.Marshal], which calls the generated method. *)
Definition proto_Marshal (m : proto_Message UM) : res bytes :=
  match m with
  | PBytes m => Bytes_Marshal m | PPing m => Ping_Marshal m | PPong m => Pong_Marshal m
  | PLookupNodeRequest m => LookupNodeRequest_Marshal m
  | PLookupNodeResponse m => LookupNodeResponse_Marshal m
  | PKeepalive m => Keepalive_Marshal m | PKeepaliveResponse m => KeepaliveResponse_Marshal m
  | PDisconnect m => Disconnect_Marshal m
  | PUser m => user_Marshal m
  end.

(** [proto.Unmarshal] into an empty message: the generated method again. *)
Definition proto_Unmarshal (m : proto_Message UM) (dAtA : bytes) : res (proto_Message UM) :=
  match m with
  | PBytes m => PBytes <$> Bytes_Unmarshal m dAtA
  | PPing m => PPing <$> Ping_Unmarshal m dAtA
  | PPong m => PPong <$> Pong_Unmarshal m dAtA
  | PLookupNodeRequest m => PLookupNodeRequest <$> LookupNodeRequest_Unmarshal m dAtA
  | PLookupNodeResponse m => PLookupNodeResponse <$> LookupNodeResponse_Unmarshal m dAtA
  | PKeepalive m => PKeepalive <$> Keepalive_Unmarshal m dAtA
  | PKeepaliveResponse m => PKeepaliveResponse <$> KeepaliveResponse_Unmarshal m dAtA
  | PDisconnect m => PDisconnect <$> Disconnect_Unmarshal m dAtA
  | PUser m => PUser <$> user_Unmarshal m dAtA
  end.

Definition UnregisteredCode : Z := 0x00000.
Definition BytesCode : Z := 0x00001.
Definition PingCode : Z := 0x0000a.
Definition PongCode : Z := 0x0000b.
Definition LookupNodeRequestCode : Z := 0x0000c.
Definition LookupNodeResponseCode : Z := 0x0000d.
Definition DisconnectCode : Z := 0x0000e.
Definition KeepaliveCode : Z := 0x00002.
Definition KeepaliveResponseCode : Z := 0x00003.

Record tables := mkTables {
  opcodeTbl : gmap Z (proto_Message UM);
  msgTbl : gmap (reflect_Type UT) Z;
}.

Definition msgOpcodePairs : list (proto_Message UM * Z) :=
  [ (PBytes (mkBytes None None), BytesCode);
    (PPing (mkPing None), PingCode);
    (PPong (mkPong None), PongCode);
    (PLookupNodeRequest (mkLookupNodeRequest None None), LookupNodeRequestCode);
    (PLookupNodeResponse (mkLookupNodeResponse [] None), LookupNodeResponseCode);
    (PKeepalive (mkKeepalive None), KeepaliveCode);
    (PKeepaliveResponse (mkKeepaliveResponse None), KeepaliveResponseCode);
    (PDisconnect (mkDisconnect None), DisconnectCode) ].

(** The two stores of an [init] round, and of a registration. *)
Definition store (t : tables) (pair : proto_Message UM * Z) : tables :=
  let '(msg, opcode) := pair in
  mkTables (<[opcode := msg]> (opcodeTbl t)) (<[TypeOf msg := opcode]> (msgTbl t)).
Definition init : tables := foldl store (mkTables ∅ ∅) msgOpcodePairs.

(** Returns the new tables; an error leaves the tables as they are. *)
Definition RegisterMessageType (t : tables) (opcode : Z) (msg : proto_Message UM) : res tables :=
  if opcode <? 1000 then Err "types: opcode must be 1000 or greater"
  else
    raw ← proto_Marshal msg;
    if negb (zlen raw =? 0) then Err "types: must provide an empty protobuf message"
    else
      match opcodeTbl t !! opcode with
      | Some _ => Err "types: opcode already exists, choose a different opcode"
      | None => Ok (store t (msg, opcode))
      end.

Definition GetMessageType (t : tables) (code : Z) : res (proto_Message UM) :=
  match opcodeTbl t !! code with
  | Some i => Ok i
  | None => Err "types: opcode not found, did you register it?"
  end.

Definition GetOpcode (t : tables) (msg : proto_Message UM) : res Z :=
  match msgTbl t !! TypeOf msg with
  | Some i => Ok i
  | None => Err "types: message type not found, did you register it?"
  end.

(** A program's registrations, those that fail included. *)
Fixpoint registrations (t : tables) (rs : list (Z * proto_Message UM)) : tables :=
  match rs with
  | [] => t
  | (opcode, msg) :: rs =>
      registrations (match RegisterMessageType t opcode msg with Ok t' => t' | _ => t end) rs
  end.

(** ** Specification *)

(** The codes 0 to 999 are the protocol's, every stored message is an empty one, and the type
    table points into the code table. *)
Record tables_wf (t : tables) : Prop := {
  tw_reserved : forall c, c < 1000 -> opcodeTbl t !! c = opcodeTbl init !! c;
  tw_empty : forall c m, opcodeTbl t !! c = Some m -> proto_Marshal m = Ok [];
  tw_types : forall ty c, msgTbl t !! ty = Some c ->
               exists m, opcodeTbl t !! c = Some m /\ TypeOf m = ty;
  tw_known : forall c m, opcodeTbl t !! c = Some m -> is_Some (msgTbl t !! TypeOf m);
}.

(** ** Lemmas *)

Lemma init_codes c m : opcodeTbl init !! c = Some m -> (m, c) ∈ msgOpcodePairs.
Proof.
  unfold init. cbn [foldl msgOpcodePairs store opcodeTbl].
  rewrite !lookup_insert_Some, lookup_empty. unfold msgOpcodePairs.
  rewrite !elem_of_cons. intuition congruence.
Qed.

Lemma init_types ty c : msgTbl init !! ty = Some c ->
  exists m, (m, c) ∈ msgOpcodePairs /\ TypeOf m = ty.
Proof.
  unfold init. cbn [foldl msgOpcodePairs store msgTbl TypeOf].
  rewrite !lookup_insert_Some, lookup_empty. unfold msgOpcodePairs. intros Hc.
  repeat match goal with E : (_ \/ _) |- _ => destruct E as [[? ?]|[? E]] end; try done; subst;
    (eexists; split; [rewrite !elem_of_cons; eauto 20|reflexivity]).
Qed.

Lemma init_stored m c : (m, c) ∈ msgOpcodePairs ->
  opcodeTbl init !! c = Some m /\ msgTbl init !! TypeOf m = Some c /\ proto_Marshal m = Ok [].
Proof.
  unfold msgOpcodePairs. rewrite !elem_of_cons, elem_of_nil. intros Hm.
  destruct_or?; simplify_eq; repeat split.
Qed.

Lemma init_wf : tables_wf init.
Proof.
  split; [done| | |].
  - intros c m Hc. by apply init_codes, init_stored in Hc as (_ & _ & ?).
  - intros ty c (m & Hm & Hty)%init_types. exists m. by apply init_stored in Hm as (? & _).
  - intros c m Hc. apply init_codes, init_stored in Hc as (_ & -> & _). eauto.
Qed.

Lemma RegisterMessageType_Ok t opcode msg t' :
  RegisterMessageType t opcode msg = Ok t' <->
  1000 <= opcode /\ proto_Marshal msg = Ok [] /\ opcodeTbl t !! opcode = None /\
  t' = store t (msg, opcode).
Proof.
  unfold RegisterMessageType. destruct (Z.ltb_spec opcode 1000); [split; [done|lia]|].
  destruct (proto_Marshal msg) as [raw|e|p]; cbn [mbind res_bind]; [|naive_solver..].
  destruct (Z.eqb_spec (zlen raw) 0) as [E|E]; simpl.
  - apply zlen_zero in E as ->. destruct (opcodeTbl t !! opcode) eqn:E; naive_solver.
  - split; [done|]. intros (_ & [= ->] & _). by rewrite zlen_nil in E.
Qed.

Lemma store_wf t opcode msg :
  tables_wf t -> 1000 <= opcode -> proto_Marshal msg = Ok [] -> opcodeTbl t !! opcode = None ->
  tables_wf (store t (msg, opcode)).
Proof.
  intros [H1 H2 H3 H4] Hop Hm Hn. split; simpl.
  - intros c Hc. rewrite lookup_insert_ne by lia. auto.
  - intros c m. rewrite lookup_insert_Some. naive_solver.
  - intros ty c. rewrite lookup_insert_Some. intros [[<- <-]|[Hne Hty]].
    + exists msg. by rewrite lookup_insert_eq.
    + destruct (H3 ty c Hty) as (m & Hc & <-). exists m.
      rewrite lookup_insert_ne; [done|]. intros ->. congruence.
  - intros c m. rewrite lookup_insert_Some. intros [[<- <-]|[Hne Hc]].
    + rewrite lookup_insert_eq. eauto.
    + apply lookup_insert_is_Some'. right. by eapply H4.
Qed.

Lemma registrations_wf t rs : tables_wf t -> tables_wf (registrations t rs).
Proof.
  revert t. induction rs as [|[opcode msg] rs IH]; intros t Ht; simpl; [done|]. apply IH.
  destruct (RegisterMessageType t opcode msg) as [t'| |] eqn:E; [|done..].
  apply RegisterMessageType_Ok in E as (? & ? & ? & ->). by apply store_wf.
Qed.

Lemma registrations_keep t rs c m :
  opcodeTbl t !! c = Some m -> opcodeTbl (registrations t rs) !! c = Some m.
Proof.
  revert t. induction rs as [|[opcode msg] rs IH]; intros t Ht; simpl; [done|]. apply IH.
  destruct (RegisterMessageType t opcode msg) as [t'| |] eqn:E; [|done..].
  apply RegisterMessageType_Ok in E as (? & ? & ? & ->). simpl.
  rewrite lookup_insert_ne; [done|]. intros ->. congruence.
Qed.

(** ** Properties *)

(** C22. Whatever the application registers: the tables stay well formed (the protocol's codes keep
    their messages, every stored message is empty, each known type points at a message of its
    own), and the opcode of a message leads [GetMessageType] back to an empty message of the
    same type, which is what a receiver unmarshals into. *)
Theorem registry_consistent (rs : list (Z * proto_Message UM)) (msg : proto_Message UM) (c : Z) :
  GetOpcode (registrations init rs) msg = Ok c ->
  tables_wf (registrations init rs) /\
  exists m', GetMessageType (registrations init rs) c = Ok m' /\
    TypeOf m' = TypeOf msg /\ proto_Marshal m' = Ok [].
Proof.
  intros Hc. pose proof (registrations_wf init rs init_wf) as Hwf. split; [done|].
  unfold GetOpcode in Hc. destruct (msgTbl _ !! TypeOf msg) eqn:E; [|done]. injection Hc as ->.
  destruct (tw_types _ Hwf _ _ E) as (m & Hm & Hty). exists m.
  unfold GetMessageType. rewrite Hm. split; [done|]. split; [done|].
  by apply (tw_empty _ Hwf _ _ Hm).
Qed.

(** A code keeps its message for ever: later registrations, whatever they are, do not change
    what [GetMessageType] answers for it. *)
Theorem opcode_stable (rs rs' : list (Z * proto_Message UM)) (c : Z) (m : proto_Message UM) :
  GetMessageType (registrations init rs) c = Ok m ->
  GetMessageType (registrations init (rs ++ rs')) c = Ok m.
Proof.
  unfold GetMessageType. intros Hc. destruct (opcodeTbl _ !! c) as [m'|] eqn:E; [|done].
  injection Hc as ->.
  assert (Happ : forall t, registrations t (rs ++ rs') = registrations (registrations t rs) rs').
  { clear. induction rs as [|[o m'] rs IH]; intros t; simpl; [done|]. apply IH. }
  by rewrite Happ, (registrations_keep _ _ _ _ E).
Qed.

(** [RegisterMessageType], branch by branch: a reserved code, a message that does not marshal,
    a message that is not empty, a code in use; otherwise the code and the type are bound to
    each other, also when the type had another code before, even a protocol's own. *)
Theorem RegisterMessageType_spec (t : tables) (opcode : Z) (msg : proto_Message UM) :
  RegisterMessageType t opcode msg =
    (if opcode <? 1000 then Err "types: opcode must be 1000 or greater"
    else match proto_Marshal msg with
      | Err e => Err e
      | Panic p => Panic p
      | Ok (_ :: _) => Err "types: must provide an empty protobuf message"
      | Ok [] =>
          match opcodeTbl t !! opcode with
          | Some _ => Err "types: opcode already exists, choose a different opcode"
          | None => Ok (store t (msg, opcode))
          end
      end) /\
  (forall t', RegisterMessageType t opcode msg = Ok t' ->
    GetOpcode t' msg = Ok opcode /\ GetMessageType t' opcode = Ok msg /\
    (forall m, TypeOf m <> TypeOf msg -> GetOpcode t' m = GetOpcode t m) /\
    (forall c, c <> opcode -> GetMessageType t' c = GetMessageType t c)).
Proof.
  split.
  - unfold RegisterMessageType. destruct (opcode <? 1000); [done|].
    destruct (proto_Marshal msg) as [[|b raw]|e|p]; cbn [mbind res_bind]; try done.
  - intros t' (_ & _ & _ & ->)%RegisterMessageType_Ok. unfold GetOpcode, GetMessageType. simpl.
    rewrite !lookup_insert_eq. split; [done|]. split; [done|].
    split; intros; by rewrite lookup_insert_ne.
Qed.
End Opcode.

(** ** Witnesses *)

(** An application with messages of one type, a byte string each. *)
#[export] Instance chat_messages : UserMessages bytes unit := {
  user_type _ := ();
  user_Marshal m := Ok m;
  user_Unmarshal _ b := Ok b;
}.

Lemma registry_consistent_witness :
  exists m', GetMessageType (registrations init [(1000, PUser [])]) 1000 = Ok m' /\
    TypeOf m' = TUser ().
Proof.
  destruct (registry_consistent [(1000, PUser [])] (PUser (str "hello")) 1000)
    as (_ & m' & Hg & Ht & _); [reflexivity|]. exists m'. split; [exact Hg|exact Ht].
Defined.

Lemma opcode_stable_witness :
  GetMessageType (registrations init ([] ++ [(PingCode, PUser []); (1000, PUser [])])) PingCode
  = Ok (PPing (mkPing None)).
Proof. apply opcode_stable. reflexivity. Defined.

Lemma RegisterMessageType_spec_witness :
  GetOpcode (store init (PPing (mkPing None), 1000)) (PPing (mkPing None)) = Ok 1000.
Proof.
  destruct (RegisterMessageType_spec init 1000 (PPing (mkPing None))) as (_ & Hr).
  apply Hr. reflexivity.
Defined.
