(* ===== verification/Address.v ===== *)
(** * Addresses: [network/address.go]

    [ParseAddress] goes through [url.Parse], [net.SplitHostPort] and [strconv.ParseUint],
    which are modelled here as the standard library has them ([Url], [SplitHostPort],
    [ParseUint]), as far as [Scheme] and [Host] depend on them.  Their errors keep the inner
    message.  The system resolver ([net.LookupHost]) and the test for IP literals
    ([net.ParseIP]) are parameters.  [domainLookupCache] is a package variable, threaded
    through the operations. *)

From S2P Require Import Prelude Lru.
#[local] Open Scope Z_scope.

(** ** [strings] and [strconv] *)

Definition eqb (b c : byte) : bool := bool_decide (b = c).

(** [strings.Cut] at the first [c]; [None] when there is none. *)
Fixpoint cut (c : byte) (s : bytes) : option (bytes * bytes) :=
  match s with
  | [] => None
  | b :: s =>
      if eqb b c then Some ([], s)
      else match cut c s with Some (x, y) => Some (b :: x, y) | None => None end
  end.
(** The same at the last [c]. *)
Definition cut_last (c : byte) (s : bytes) : option (bytes * bytes) :=
  match cut c (reverse s) with Some (x, y) => Some (reverse y, reverse x) | None => None end.
Definition contains (c : byte) (s : bytes) : bool := existsb (fun b => eqb b c) s.
Definition HasPrefix (s prefix : bytes) : bool := bool_decide (take (length prefix) s = prefix).

Definition in_range (lo hi : Z) (b : byte) : bool := (lo <=? b2z b) && (b2z b <=? hi).
Definition is_lower : byte -> bool := in_range 97 122.
Definition is_upper : byte -> bool := in_range 65 90.
Definition is_digit : byte -> bool := in_range 48 57.
Definition is_alnum (b : byte) : bool := is_lower b || is_upper b || is_digit b.
Definition one_of (s : bytes) (b : byte) : bool := contains b s.
Definition ToLower (s : bytes) : bytes :=
  (fun b => if is_upper b then z2b (b2z b + 32) else b) <$> s.

(** The UTF-8 encodings of the characters of [unicode.IsSpace]. *)
Definition spaces : list bytes :=
  [[x09]; [x0a]; [x0b]; [x0c]; [x0d]; [x20]; [xc2; x85]; [xc2; xa0]; [xe1; x9a; x80];
   [xe2; x80; x80]; [xe2; x80; x81]; [xe2; x80; x82]; [xe2; x80; x83]; [xe2; x80; x84];
   [xe2; x80; x85]; [xe2; x80; x86]; [xe2; x80; x87]; [xe2; x80; x88]; [xe2; x80; x89];
   [xe2; x80; x8a]; [xe2; x80; xa8]; [xe2; x80; xa9]; [xe2; x80; xaf]; [xe2; x81; x9f];
   [xe3; x80; x80]].
Fixpoint trim_prefixes (fuel : nat) (ps : list bytes) (s : bytes) : bytes :=
  match fuel with
  | O => s
  | S fuel =>
      match List.find (HasPrefix s) ps with
      | Some p => trim_prefixes fuel ps (drop (length p) s)
      | None => s
      end
  end.
Definition TrimSpace (s : bytes) : bytes :=
  let s := trim_prefixes (length s) spaces s in
  reverse (trim_prefixes (length s) (reverse <$> spaces) (reverse s)).

Fixpoint itoa_loop (fuel : nat) (n : Z) (acc : bytes) : bytes :=
  let acc := z2b (48 + n mod 10) :: acc in
  match fuel with
  | O => acc
  | S fuel => if n <? 10 then acc else itoa_loop fuel (n / 10) acc
  end.
(** [strconv.Itoa] for the numbers of a [uint16]. *)
Definition Itoa (n : Z) : bytes := itoa_loop 4 n [].

(** [strconv.ParseUint(s, 10, 16)]. *)
Fixpoint ParseUint_loop (s : bytes) (n : Z) : res Z :=
  match s with
  | [] => Ok n
  | b :: s =>
      if is_digit b then
        let n1 := n * 10 + (b2z b - 48) in
        if 65535 <? n1 then Err "value out of range" else ParseUint_loop s n1
      else Err "invalid syntax"
  end.
Definition ParseUint (s : bytes) : res Z :=
  match s with [] => Err "invalid syntax" | _ => ParseUint_loop s 0 end.

(** ** [net.JoinHostPort] and [net.SplitHostPort] *)

Definition JoinHostPort (host port : bytes) : bytes :=
  if contains x3a host then [x5b] ++ host ++ [x5d; x3a] ++ port
  else host ++ [x3a] ++ port.

Definition SplitHostPort (hostport : bytes) : res (bytes * bytes) :=
  match cut_last x3a hostport with
  | None => Err "missing port in address"
  | Some (before, port) =>
      match hostport with
      | x5b :: rest =>
          match cut x5d rest with
          | None => Err "missing ']' in address"
          | Some (host, after) =>
              match after with
              | [] => Err "missing port in address"
              | c :: after' =>
                  if bool_decide (after = x3a :: port) then
                    if contains x5b rest then Err "unexpected '[' in address"
                    else if contains x5d after then Err "unexpected ']' in address"
                    else Ok (host, port)
                  else if eqb c x3a then Err "too many colons in address"
                  else Err "missing port in address"
              end
          end
      | _ =>
          if contains x3a before then Err "too many colons in address"
          else if contains x5b hostport then Err "unexpected '[' in address"
          else if contains x5d hostport then Err "unexpected ']' in address"
          else Ok (before, port)
      end
  end.

(** ** [url.Parse] *)

Module Url.

Definition hex_value (b : byte) : option Z :=
  if is_digit b then Some (b2z b - 48)
  else if in_range 97 102 b then Some (b2z b - 87)
  else if in_range 65 70 b then Some (b2z b - 55)
  else None.

(** [shouldEscape] for hosts and zones. *)
Definition shouldEscape (c : byte) : bool :=
  negb (is_alnum c || one_of (str "!$&'()*+,;=:[]<>") c || eqb c x22 || one_of (str "-_.~") c).

Inductive mode := encodeHost | encodeZone | encodeOther.

(** What [unescape] checks of an escape and of a plain byte before decoding. *)
Definition escape_ok (m : mode) (hi lo : byte) (v : Z) : bool :=
  let is25 := eqb hi x32 && eqb lo x35 in
  match m with
  | encodeHost => (128 <=? v) || is25
  | encodeZone => is25 || (v =? 32) || negb (shouldEscape (z2b v))
  | encodeOther => true
  end.
Definition plain_ok (m : mode) (b : byte) : bool :=
  match m with
  | encodeOther => true
  | _ => (128 <=? b2z b) || negb (shouldEscape b)
  end.
Fixpoint unescape (m : mode) (s : bytes) : res bytes :=
  match s with
  | [] => Ok []
  | x25 :: s1 =>
      match s1 with
      | hi :: lo :: s2 =>
          match hex_value hi, hex_value lo with
          | Some h, Some l =>
              let v := h * 16 + l in
              if escape_ok m hi lo v then r ← unescape m s2; Ok (z2b v :: r)
              else Err "invalid URL escape"
          | _, _ => Err "invalid URL escape"
          end
      | _ => Err "invalid URL escape"
      end
  | b :: s1 =>
      if plain_ok m b then r ← unescape m s1; Ok (b :: r)
      else Err "invalid character in host name"
  end.

Fixpoint getScheme_loop (first : bool) (acc rawURL s : bytes) : res (bytes * bytes) :=
  match s with
  | [] => Ok ([], rawURL)
  | c :: s' =>
      if is_lower c || is_upper c then getScheme_loop false (acc ++ [c]) rawURL s'
      else if is_digit c || one_of (str "+-.") c then
        if first then Ok ([], rawURL) else getScheme_loop false (acc ++ [c]) rawURL s'
      else if eqb c x3a then
        if first then Err "missing protocol scheme" else Ok (acc, s')
      else Ok ([], rawURL)
  end.
Definition getScheme (rawURL : bytes) : res (bytes * bytes) := getScheme_loop true [] rawURL rawURL.

Definition validOptionalPort (port : bytes) : bool :=
  match port with
  | [] => true
  | c :: port => eqb c x3a && forallb is_digit port
  end.

(** The position of the zone identifier's escape in [s]. *)
Fixpoint find_zone (s : bytes) : option (bytes * bytes) :=
  match s with
  | [] => None
  | b :: s' =>
      if HasPrefix s (str "%25") then Some ([], s)
      else match find_zone s' with Some (x, y) => Some (b :: x, y) | None => None end
  end.

Definition parseHost (host : bytes) : res bytes :=
  match host with
  | x5b :: _ =>
      match cut_last x5d host with
      | None => Err "missing ']' in host"
      | Some (before, colonPort) =>
          if negb (validOptionalPort colonPort) then Err "invalid port after host"
          else
            match find_zone before with
            | Some (h, zone) =>
                host1 ← unescape encodeHost h;
                host2 ← unescape encodeZone zone;
                host3 ← unescape encodeHost (x5d :: colonPort);
                Ok (host1 ++ host2 ++ host3)
            | None => unescape encodeHost host
            end
      end
  | _ =>
      match cut_last x3a host with
      | Some (_, port) =>
          if negb (validOptionalPort (x3a :: port)) then Err "invalid port after host"
          else unescape encodeHost host
      | None => unescape encodeHost host
      end
  end.

Definition validUserinfo (s : bytes) : bool :=
  forallb (fun b => is_alnum b || one_of (str "-._:~!$&'()*+,;=%@") b) s.
Definition parseAuthority (authority : bytes) : res bytes :=
  match cut_last x40 authority with
  | None => parseHost authority
  | Some (userinfo, h) =>
      host ← parseHost h;
      if negb (validUserinfo userinfo) then Err "net/url: invalid userinfo"
      else
        match cut x3a userinfo with
        | None => _ ← unescape encodeOther userinfo; Ok host
        | Some (user, pass) =>
            _ ← unescape encodeOther user;
            _ ← unescape encodeOther pass;
            Ok host
        end
  end.

(** The scheme and the host of [url.Parse]. *)
Definition parse (rawURL : bytes) : res (bytes * bytes) :=
  if existsb (fun b => (b2z b <? 32) || (b2z b =? 127)) rawURL then
    Err "net/url: invalid control character in URL"
  else if bool_decide (rawURL = [x2a]) then Ok ([], [])
  else
    '(scheme, rest) ← getScheme rawURL;
    let scheme := ToLower scheme in
    let rest := match cut x3f rest with Some (r, _) => r | None => rest end in
    let rooted := HasPrefix rest [x2f] in
    if negb rooted && negb (bool_decide (scheme = [])) then Ok (scheme, [])
    else
      let segment := match cut x2f rest with Some (x, _) => x | None => rest end in
      if negb rooted && contains x3a segment then
        Err "first path segment in URL cannot contain colon"
      else if (negb (bool_decide (scheme = [])) || negb (HasPrefix rest [x2f; x2f; x2f]))
              && HasPrefix rest [x2f; x2f] then
        let authority := drop 2 rest in
        let '(authority, path) :=
          match cut x2f authority with Some (x, y) => (x, x2f :: y) | None => (authority, []) end in
        host ← parseAuthority authority;
        _ ← unescape encodeOther path;
        Ok (scheme, host)
      else
        _ ← unescape encodeOther rest;
        Ok (scheme, []).
Definition Parse (rawURL : bytes) : res (bytes * bytes) :=
  match cut x23 rawURL with
  | None => parse rawURL
  | Some (u, frag) =>
      url ← parse u;
      _ ← unescape encodeOther frag;
      Ok url
  end.
End Url.

(** ** [network/address.go] *)

Record AddressInfo := mkAddressInfo {
  Protocol : bytes;
  Host : bytes;
  Port : Z;
}.

Definition networkClientName : bytes := str "dasein-client".
Definition ErrStrAddressEmpty : string := "address: cannot dial, address was empty".
Definition ErrStrNoAvailableAddresses : string := "address: no available addresses".

Definition NewAddressInfo (protocol host : bytes) (port : Z) : AddressInfo :=
  mkAddressInfo protocol host port.
Definition AddressInfo_Network (info : AddressInfo) : bytes := networkClientName.

Definition AddressInfo_HostPort (info : AddressInfo) : bytes :=
  JoinHostPort (Host info) (Itoa (Port info)).
Definition AddressInfo_String (info : AddressInfo) : bytes :=
  let address := JoinHostPort (Host info) (Itoa (Port info)) in
  if 0 <? zlen (Protocol info) then Protocol info ++ str "://" ++ address else address.
Definition FormatAddress (protocol host : bytes) (port : Z) : bytes :=
  AddressInfo_String (NewAddressInfo protocol host port).

Definition ParseAddress (address : bytes) : res AddressInfo :=
  '(scheme, urlHost) ← Url.Parse address;
  '(host, rawPort) ← SplitHostPort urlHost;
  port ← ParseUint rawPort;
  Ok (mkAddressInfo scheme host (u16 port)).

Section Resolve.
(** [net.ParseIP(host) != nil], and [net.LookupHost], [None] being its error. *)
Context (ParseIP : bytes -> bool) (LookupHost : bytes -> option (list bytes)).

(** The initializer given to the cache. *)
Definition resolve (host : bytes) : bytes + string :=
  if negb (ParseIP host) then
    match LookupHost host with
    | None => inr ErrStrNoAvailableAddresses
    | Some [] => inr ErrStrNoAvailableAddresses
    | Some (host :: _) =>
        inl (if bool_decide (host = str "::1") then str "127.0.0.1" else host)
    end
  else inl host.

(** The new [domainLookupCache] and the result. *)
Definition ToUnifiedHost (c : Cache (V:=bytes)) (host : bytes) :
    res (Cache (V:=bytes) * (bytes + string)) :=
  '(c, r) ← Get c host (resolve host);
  match r with
  | inl unifiedHost => Ok (c, inl unifiedHost)
  | inr err => Ok (c, inr ErrStrNoAvailableAddresses)
  end.

Definition ToUnifiedAddress (c : Cache (V:=bytes)) (address : bytes) :
    res (Cache (V:=bytes) * (bytes + string)) :=
  let address := TrimSpace address in
  if zlen address =? 0 then Ok (c, inr ErrStrAddressEmpty)
  else
    match ParseAddress address with
    | Panic p => Panic p
    | Err e => Ok (c, inr e)
    | Ok info =>
        '(c, r) ← ToUnifiedHost c (Host info);
        match r with
        | inr err => Ok (c, inr err)
        | inl host => Ok (c, inl (AddressInfo_String (mkAddressInfo (Protocol info) host (Port info))))
        end
    end.
End Resolve.

(** ** Specification *)

Definition scheme_char (b : byte) : bool := is_lower b || is_digit b || one_of (str "+-.") b.
(** A scheme as [url.Parse] accepts and keeps it: lower case, a letter first. *)
Definition scheme_ok (p : bytes) : bool :=
  match p with b :: p => is_lower b && forallb scheme_char p | [] => false end.
(** Host names and IP literals. *)
Definition host_char (b : byte) : bool := is_alnum b || one_of (str "-._:") b.
Definition host_ok (h : bytes) : bool := forallb host_char h.

(** ** Lemmas *)

Lemma eqb_eq b c : eqb b c = true <-> b = c.
Proof. apply bool_decide_eq_true. Qed.
Lemma eqb_neq b c : b <> c -> eqb b c = false.
Proof. apply bool_decide_eq_false_2. Qed.

Lemma contains_true c s : contains c s = true <-> c ∈ s.
Proof.
  unfold contains. rewrite existsb_exists. setoid_rewrite eqb_eq.
  setoid_rewrite <-list_elem_of_In. naive_solver.
Qed.
Lemma contains_false c s : c ∉ s -> contains c s = false.
Proof. intros H. destruct (contains c s) eqn:E; [|done]. by apply contains_true in E. Qed.

Lemma cut_none c s : c ∉ s -> cut c s = None.
Proof.
  induction s as [|b s IH]; intros H; [done|]. apply not_elem_of_cons in H as [H1 H2]. simpl.
  by rewrite eqb_neq, IH.
Qed.
Lemma cut_app c x y : c ∉ x -> cut c (x ++ c :: y) = Some (x, y).
Proof.
  induction x as [|b x IH]; intros H; simpl.
  - by rewrite (proj2 (eqb_eq c c) eq_refl).
  - apply not_elem_of_cons in H as [H1 H2]. by rewrite eqb_neq, IH.
Qed.
Lemma cut_last_none c s : c ∉ s -> cut_last c s = None.
Proof. intros H. unfold cut_last. rewrite cut_none; [done|]. by rewrite elem_of_reverse. Qed.
Lemma cut_last_app c x y : c ∉ y -> cut_last c (x ++ c :: y) = Some (x, y).
Proof.
  intros H. unfold cut_last. rewrite reverse_app, reverse_cons, <-(assoc_L (++)). cbn [app].
  rewrite cut_app by (by rewrite elem_of_reverse). by rewrite !reverse_involutive.
Qed.

(** A byte outside a class does not occur in a string of the class. *)
Lemma class_not_in (f : byte -> bool) c s : forallb f s = true -> f c = false -> c ∉ s.
Proof.
  intros Hs Hc Hin. rewrite forallb_forall in Hs.
  apply list_elem_of_In, Hs in Hin. congruence.
Qed.
Lemma class_sub (f g : byte -> bool) s :
  (forall b, f b = true -> g b = true) -> forallb f s = true -> forallb g s = true.
Proof. rewrite !forallb_forall. auto. Qed.

(** Facts about all bytes are checked byte by byte. *)
Ltac every_byte := intros []; vm_compute; congruence.

Lemma itoa_digits fuel n acc :
  forallb is_digit acc = true -> 0 <= n -> forallb is_digit (itoa_loop fuel n acc) = true.
Proof.
  revert n acc. induction fuel as [|fuel IH]; intros n acc Ha Hn; cbn [itoa_loop].
  all: assert (Hd : forallb is_digit (z2b (48 + n mod 10) :: acc) = true)
    by (cbn [forallb]; rewrite Ha, andb_true_r; unfold is_digit, in_range;
        pose proof (Z.mod_pos_bound n 10 ltac:(lia)); rewrite b2z_z2b_small by lia;
        apply andb_true_intro; split; apply Z.leb_le; lia).
  - done.
  - destruct (n <? 10); [done|]. apply IH; [done|]. apply Z.div_pos; lia.
Qed.

(** The value [acc] stands for when read after [n]. *)
Lemma itoa_parse fuel n acc m :
  0 <= n < 10 ^ Z.of_nat (S fuel) -> n <= 65535 ->
  ParseUint_loop (itoa_loop fuel n acc) 0 = m <-> ParseUint_loop acc n = m.
Proof.
  revert n acc. induction fuel as [|fuel IH]; intros n acc Hn Hmax; cbn [itoa_loop];
    pose proof (Z.mod_pos_bound n 10 ltac:(lia)) as Hm.
  all: assert (Hdig : is_digit (z2b (48 + n mod 10)) = true)
    by (unfold is_digit, in_range; rewrite b2z_z2b_small by lia;
        apply andb_true_intro; split; apply Z.leb_le; lia).
  - change (10 ^ Z.of_nat 1) with 10 in Hn. cbn [ParseUint_loop]. rewrite Hdig.
    rewrite b2z_z2b_small, Z.mod_small by (rewrite ?Z.mod_small; lia).
    replace (0 * 10 + (48 + n - 48)) with n by lia.
    by destruct (Z.ltb_spec 65535 n); [lia|].
  - destruct (Z.ltb_spec n 10).
    + cbn [ParseUint_loop]. rewrite Hdig.
      rewrite b2z_z2b_small, Z.mod_small by (rewrite ?Z.mod_small; lia).
      replace (0 * 10 + (48 + n - 48)) with n by lia.
      by destruct (Z.ltb_spec 65535 n); [lia|].
    + rewrite Nat2Z.inj_succ, Z.pow_succ_r in Hn by lia.
      rewrite IH; [| |apply Z.div_le_upper_bound; lia].
      * cbn [ParseUint_loop]. rewrite Hdig, b2z_z2b_small by lia.
        replace (n / 10 * 10 + (48 + n mod 10 - 48)) with n
          by (pose proof (Z.div_mod n 10 ltac:(lia)); lia).
        by destruct (Z.ltb_spec 65535 n); [lia|].
      * split; [apply Z.div_pos; lia|]. apply Z.div_lt_upper_bound; lia.
Qed.

Lemma Itoa_digits n : 0 <= n -> forallb is_digit (Itoa n) = true.
Proof. intros. by apply itoa_digits. Qed.

Lemma itoa_nonempty fuel n acc : itoa_loop fuel n acc <> [].
Proof.
  revert n acc. induction fuel as [|fuel IH]; intros; cbn [itoa_loop]; [done|].
  destruct (n <? 10); [done|apply IH].
Qed.

Lemma ParseUint_Itoa n : 0 <= n < 65536 -> ParseUint (Itoa n) = Ok n.
Proof.
  intros Hn. pose proof (itoa_nonempty 4 n []) as Hne. unfold ParseUint, Itoa in *.
  destruct (itoa_loop 4 n []) as [|b s] eqn:E; [done|]. rewrite <-E.
  rewrite itoa_parse; [done| |lia]. change (10 ^ Z.of_nat 5) with 100000. lia.
Qed.

(** The bytes of a host and port. *)
Definition addr_char (b : byte) : bool := host_char b || eqb b x5b || eqb b x5d.

Lemma host_addr_char b : host_char b = true -> addr_char b = true.
Proof. unfold addr_char. by intros ->. Qed.
Lemma digit_host_char b : is_digit b = true -> host_char b = true.
Proof. unfold host_char, is_alnum. intros ->. by rewrite orb_true_r. Qed.
Lemma addr_char_plain b :
  addr_char b = true -> b <> x25 /\ Url.plain_ok Url.encodeHost b = true.
Proof. revert b. intros []; vm_compute; split; congruence. Qed.
Lemma addr_char_no_ctl b :
  addr_char b = true -> (b2z b <? 32) || (b2z b =? 127) = false.
Proof. revert b. every_byte. Qed.

Lemma unescape_host s : forallb addr_char s = true -> Url.unescape Url.encodeHost s = Ok s.
Proof.
  induction s as [|b s IH]; [done|]. cbn [forallb]. intros [Hb Hs]%andb_prop.
  apply addr_char_plain in Hb as [Hne Hp].
  assert (E : Url.unescape Url.encodeHost (b :: s) =
    if Url.plain_ok Url.encodeHost b then r ← Url.unescape Url.encodeHost s; Ok (b :: r)
    else Err "invalid character in host name").
  { cbn [Url.unescape]. destruct b; try reflexivity. done. }
  by rewrite E, Hp, IH.
Qed.

Section HostPort.
Context (h : bytes) (n : Z) (Hh : host_ok h = true) (Hn : 0 <= n < 65536).
#[local] Abbreviation port := (Itoa n).

Lemma port_digits : forallb is_digit port = true.
Proof. apply Itoa_digits. lia. Qed.
Lemma port_host_chars : forallb host_char port = true.
Proof. eapply class_sub; [apply digit_host_char|apply port_digits]. Qed.
Lemma host_addr_chars : forallb addr_char h = true.
Proof. eapply class_sub; [apply host_addr_char|done]. Qed.

Lemma JoinHostPort_chars : forallb addr_char (JoinHostPort h port) = true.
Proof.
  pose proof port_host_chars as Hp. apply (class_sub _ addr_char _ host_addr_char) in Hp.
  pose proof host_addr_chars as Hha. unfold JoinHostPort.
  destruct (contains x3a h); rewrite !forallb_app, Hp, Hha; done.
Qed.

Lemma SplitHostPort_JoinHostPort : SplitHostPort (JoinHostPort h port) = Ok (h, port).
Proof.
  assert (Hpc : x3a ∉ port) by (eapply class_not_in; [apply port_digits|done]).
  assert (Hpb : x5b ∉ port) by (eapply class_not_in; [apply port_digits|done]).
  assert (Hpe : x5d ∉ port) by (eapply class_not_in; [apply port_digits|done]).
  assert (Hhb : x5b ∉ h) by (eapply class_not_in; [apply Hh|done]).
  assert (Hhe : x5d ∉ h) by (eapply class_not_in; [apply Hh|done]).
  unfold JoinHostPort, SplitHostPort. destruct (contains x3a h) eqn:Ec.
  - replace ([x5b] ++ h ++ [x5d; x3a] ++ port) with ((x5b :: h ++ [x5d]) ++ x3a :: port)
      by (by simpl; rewrite <-(assoc_L (++))).
    rewrite cut_last_app by done. cbn [app]. rewrite <-(assoc_L (++)). cbn [app].
    rewrite cut_app by done. rewrite bool_decide_eq_true_2 by done.
    rewrite !contains_false; [done| |].
    + set_solver.
    + set_solver.
  - cbn [app]. rewrite cut_last_app by done.
    assert (Hb : contains x5b (h ++ x3a :: port) = false) by (apply contains_false; set_solver).
    assert (He : contains x5d (h ++ x3a :: port) = false) by (apply contains_false; set_solver).
    rewrite Ec, Hb, He. destruct h as [|b h']; [done|].
    destruct b; try reflexivity. exfalso. apply Hhb. left.
Qed.

Lemma parseHost_JoinHostPort : Url.parseHost (JoinHostPort h port) = Ok (JoinHostPort h port).
Proof.
  pose proof JoinHostPort_chars as Hc. pose proof port_digits as Hd.
  assert (Hpc : x3a ∉ port) by (eapply class_not_in; [done|done]).
  assert (Hpe : x5d ∉ port) by (eapply class_not_in; [done|done]).
  assert (Hvalid : Url.validOptionalPort (x3a :: port) = true) by done.
  assert (Hzone : forall s, forallb addr_char s = true -> Url.find_zone s = None).
  { induction s as [|b s IH]; [done|]. cbn [forallb]. intros [Hb Hs]%andb_prop.
    cbn [Url.find_zone]. rewrite (IH Hs). unfold HasPrefix. rewrite bool_decide_eq_false_2; [done|].
    intros E. apply (f_equal (forallb addr_char)) in E.
    rewrite (class_sub addr_char addr_char) in E; [done|done|].
    apply forallb_forall. intros x Hx. rewrite forallb_forall in Hs.
    apply list_elem_of_In in Hx. apply elem_of_take in Hx as (i & Hi & _).
    apply list_elem_of_lookup_2 in Hi. apply list_elem_of_In in Hi. destruct Hi as [<-|Hi]; auto. }
  unfold Url.parseHost. unfold JoinHostPort in *. destruct (contains x3a h) eqn:Ec.
  - cbn [app]. replace (x5b :: h ++ x5d :: x3a :: port) with ((x5b :: h) ++ x5d :: (x3a :: port)) by done.
    rewrite cut_last_app by set_solver. rewrite Hvalid. cbn [negb].
    rewrite Hzone; [by apply unescape_host|]. cbn [forallb]. by rewrite host_addr_chars.
  - cbn [app] in *. rewrite cut_last_app by done. rewrite Hvalid. cbn [negb].
    destruct h as [|b h'] eqn:Eh; [by apply unescape_host|].
    destruct b; try by apply unescape_host. done.
Qed.
End HostPort.

Lemma scheme_char_cases b : scheme_char b = true ->
  (is_lower b || is_upper b = true \/
   is_lower b || is_upper b = false /\ is_digit b || one_of (str "+-.") b = true) /\
  is_upper b = false /\ b <> x23 /\ b <> x3f /\ (b2z b <? 32) || (b2z b =? 127) = false.
Proof. revert b. intros []; vm_compute; intros ?; try discriminate; intuition congruence. Qed.
Lemma lower_scheme_char b : is_lower b = true -> scheme_char b = true.
Proof. unfold scheme_char. by intros ->. Qed.

Lemma getScheme_loop_scheme first acc raw p rest :
  forallb scheme_char p = true -> (first = true -> match p with b :: _ => is_lower b = true | [] => False end) ->
  Url.getScheme_loop first acc raw (p ++ x3a :: rest) = Ok (acc ++ p, rest).
Proof.
  revert first acc. induction p as [|b p IH]; intros first acc Hp Hf.
  - destruct first; [by destruct Hf|]. cbn. by rewrite app_nil_r.
  - cbn [forallb] in Hp. apply andb_prop in Hp as [Hb Hp].
    cbn [app Url.getScheme_loop]. destruct (scheme_char_cases b Hb) as ([E|[E1 E2]] & _).
    + rewrite E, IH by done. by rewrite <-(assoc_L (++)).
    + rewrite E1, E2. destruct first; [|rewrite IH by done; by rewrite <-(assoc_L (++))].
      specialize (Hf eq_refl). by rewrite Hf in E1.
Qed.

Lemma Parse_FormatAddress p h n :
  scheme_ok p = true -> host_ok h = true -> 0 <= n < 65536 ->
  Url.Parse (FormatAddress p h n) = Ok (p, JoinHostPort h (Itoa n)).
Proof.
  intros Hp Hh Hn. set (A := JoinHostPort h (Itoa n)).
  assert (HA : forallb addr_char A = true) by by apply JoinHostPort_chars.
  assert (Hpc : forallb scheme_char p = true).
  { destruct p as [|b p]; [done|]. cbn [scheme_ok forallb] in *. apply andb_prop in Hp as [Hb Hp].
    by rewrite (lower_scheme_char b Hb), Hp. }
  assert (Hpne : p <> []) by (by intros ->).
  assert (EF : FormatAddress p h n = p ++ x3a :: x2f :: x2f :: A).
  { unfold FormatAddress, AddressInfo_String. cbn [NewAddressInfo Protocol Host Port]. fold A.
    destruct p; [done|]. rewrite zlen_cons. pose proof (zlen_nonneg p).
    by destruct (Z.ltb_spec 0 (1 + zlen p)); [|lia]. }
  rewrite EF. unfold Url.Parse.
  assert (Hn23 : x23 ∉ p ++ x3a :: x2f :: x2f :: A).
  { pose proof (class_not_in _ x23 _ Hpc eq_refl). pose proof (class_not_in _ x23 _ HA eq_refl). set_solver. }
  rewrite cut_none by done. unfold Url.parse.
  assert (Hctl : existsb (fun b => (b2z b <? 32) || (b2z b =? 127)) (p ++ x3a :: x2f :: x2f :: A) = false).
  { apply not_true_iff_false. rewrite existsb_exists. intros (b & Hb & Hbad).
    apply in_app_iff in Hb as [Hb|[<-|[<-|[<-|Hb]]]]; try done.
    - rewrite forallb_forall in Hpc. apply Hpc, scheme_char_cases in Hb. destruct Hb as (_ & _ & _ & _ & Hb). congruence.
    - rewrite forallb_forall in HA. apply HA, addr_char_no_ctl in Hb. congruence. }
  rewrite Hctl. rewrite bool_decide_eq_false_2.
  2:{ destruct p as [|? [|? ?]]; done. }
  unfold Url.getScheme. rewrite getScheme_loop_scheme; [|done|].
  2:{ intros _. destruct p; [done|]. cbn [scheme_ok] in Hp. by apply andb_prop in Hp as [? _]. }
  cbn [mbind res_bind app].
  assert (HL : ToLower p = p).
  { unfold ToLower. clear -Hpc. induction p as [|b p IH]; [done|]. cbn [forallb] in Hpc.
    apply andb_prop in Hpc as [Hb Hp]. rewrite fmap_cons, IH by done.
    destruct (scheme_char_cases b Hb) as (_ & -> & _). done. }
  rewrite HL. assert (Hn3f : x3f ∉ x2f :: x2f :: A).
  { pose proof (class_not_in _ x3f _ HA eq_refl). set_solver. }
  rewrite (cut_none x3f) by done.
  assert (Hr1 : HasPrefix (x2f :: x2f :: A) [x2f] = true) by done.
  assert (Hr2 : HasPrefix (x2f :: x2f :: A) [x2f; x2f] = true) by done.
  rewrite Hr1, Hr2, (bool_decide_eq_false_2 (p = [])) by done. cbn [negb andb orb].
  cbn [drop]. rewrite ?drop_0, (cut_none x2f) by (eapply class_not_in; [apply HA|done]).
  unfold Url.parseAuthority. rewrite cut_last_none by (eapply class_not_in; [apply HA|done]).
  unfold A. by rewrite parseHost_JoinHostPort.
Qed.

Lemma ParseAddress_FormatAddress_ok p h n :
  scheme_ok p = true -> host_ok h = true -> 0 <= n < 65536 ->
  ParseAddress (FormatAddress p h n) = Ok (mkAddressInfo p h n).
Proof.
  intros Hp Hh Hn. unfold ParseAddress. rewrite Parse_FormatAddress by done.
  cbn [mbind res_bind]. rewrite SplitHostPort_JoinHostPort by done. cbn [mbind res_bind].
  rewrite ParseUint_Itoa by done. cbn [mbind res_bind]. by rewrite u16_small by lia.
Qed.

(** *** The scheme of any address that parses *)

(** What [getScheme] reads, in either case. *)
Definition raw_scheme (p : bytes) : bool :=
  match p with
  | b :: p => (is_lower b || is_upper b) &&
      forallb (fun b => (is_lower b || is_upper b) || (is_digit b || one_of (str "+-.") b)) p
  | [] => false
  end.

Lemma raw_scheme_snoc p c :
  raw_scheme p = true -> (is_lower c || is_upper c) || (is_digit c || one_of (str "+-.") c) = true ->
  raw_scheme (p ++ [c]) = true.
Proof.
  destruct p as [|b p]; [done|]. cbn [raw_scheme app]. rewrite forallb_app. intros [-> ->]%andb_prop Hc.
  cbn [forallb]. by rewrite Hc.
Qed.

Lemma getScheme_loop_raw raw s first acc sc rest :
  Url.getScheme_loop first acc raw s = Ok (sc, rest) ->
  (if first then acc = [] else raw_scheme acc = true) -> sc = [] \/ raw_scheme sc = true.
Proof.
  revert first acc. induction s as [|c s IH]; intros first acc; cbn [Url.getScheme_loop].
  { intros [= <- _]. by left. }
  destruct (is_lower c || is_upper c) eqn:El.
  { intros H Ha. apply (IH _ _ H). destruct first; [|apply raw_scheme_snoc; [done | by rewrite El]].
    subst acc. cbn [app raw_scheme forallb]. by rewrite El. }
  destruct (is_digit c || one_of (str "+-.") c) eqn:Ed.
  { destruct first; [intros [= <- _]; by left|]. intros H Ha. apply (IH _ _ H), raw_scheme_snoc; [done|].
    by rewrite Ed, orb_true_r. }
  destruct (eqb c x3a); [|intros [= <- _]; by left].
  destruct first; [done|]. intros [= <- _] Ha. by right.
Qed.

Lemma raw_scheme_lower p : raw_scheme p = true -> scheme_ok (ToLower p) = true.
Proof.
  destruct p as [|b p]; [done|]. cbn [raw_scheme]. intros [Hb Hp]%andb_prop.
  unfold ToLower. rewrite fmap_cons. cbn [scheme_ok]. apply andb_true_intro. split.
  - revert b Hb. every_byte.
  - apply forallb_forall. intros c (x & <- & Hx)%in_map_iff. rewrite forallb_forall in Hp.
    specialize (Hp x Hx). clear -Hp. revert x Hp. every_byte.
Qed.

Lemma Parse_scheme s sc host : Url.Parse s = Ok (sc, host) -> sc = [] \/ scheme_ok sc = true.
Proof.
  assert (HP : forall u sc host, Url.parse u = Ok (sc, host) -> sc = [] \/ scheme_ok sc = true).
  { clear. intros u sc host. unfold Url.parse. destruct (existsb _ u); [done|].
    case_bool_decide; [intros [= <- _]; by left|].
    destruct (Url.getScheme u) as [[scheme rest]| |] eqn:Es; cbn [mbind res_bind]; [|done..].
    assert (Hsc : ToLower scheme = [] \/ scheme_ok (ToLower scheme) = true).
    { destruct (getScheme_loop_raw _ _ _ _ _ _ Es eq_refl) as [-> | Hr]; [by left|].
      right. by apply raw_scheme_lower. }
    set (r := match cut x3f rest with Some (r, _) => r | None => rest end).
    destruct (_ && _); [intros [= <- _]; done|]. destruct (_ && _); [done|]. destruct (_ && _).
    - destruct (match cut x2f (drop 2 r) with Some (x, y) => (x, x2f :: y) | None => (drop 2 r, []) end) as [a path].
      destruct (Url.parseAuthority a); cbn [mbind res_bind]; [|done..].
      destruct (Url.unescape _ path); cbn [mbind res_bind]; [|done..]. intros [= <- _]. done.
    - destruct (Url.unescape _ r); cbn [mbind res_bind]; [|done..]. intros [= <- _]. done. }
  unfold Url.Parse. destruct (cut x23 s) as [[u frag]|]; [|apply HP].
  destruct (Url.parse u) as [url| |] eqn:Eu; cbn [mbind res_bind]; [|done..].
  destruct (Url.unescape _ frag); cbn [mbind res_bind]; [|done..]. intros [= ->]. by eapply HP.
Qed.

Lemma ParseAddress_ok address info :
  ParseAddress address = Ok info ->
  (Protocol info = [] \/ scheme_ok (Protocol info) = true) /\ 0 <= Port info < 65536.
Proof.
  unfold ParseAddress. destruct (Url.Parse address) as [[sc host]| |] eqn:Ep; cbn [mbind res_bind]; [|done..].
  destruct (SplitHostPort host) as [[h rawPort]| |]; cbn [mbind res_bind]; [|done..].
  destruct (ParseUint rawPort) as [n| |]; cbn [mbind res_bind]; [|done..]. intros [= <-]. cbn [Protocol Port].
  split; [by eapply Parse_scheme|]. apply Z.mod_pos_bound. done.
Qed.

(** Binding results that do not panic. *)
Lemma bind_no_panic {A B} (r : res A) (k : A -> res B) :
  is_panic r = false -> (forall a, r = Ok a -> is_panic (k a) = false) -> is_panic (r ≫= k) = false.
Proof. destruct r; cbn [mbind res_bind]; auto. Qed.

Lemma unescape_no_panic m s : is_panic (Url.unescape m s) = false.
Proof.
  assert (H : forall k s, (length s <= k)%nat -> is_panic (Url.unescape m s) = false).
  { clear s. induction k as [|k IH]; intros [|b s] Hk; try done; simpl in Hk; [lia|].
    assert (Hs : forall v, is_panic (r ← Url.unescape m s; Ok (v :: r)) = false)
      by (intros; apply bind_no_panic; [apply IH; lia|done]).
    destruct b; cbn [Url.unescape];
      try (match goal with |- context [if ?c then _ else _] => destruct c; [apply Hs|done] end).
    destruct s as [|hi [|lo s]]; [done..|].
    destruct (Url.hex_value hi), (Url.hex_value lo); try done.
    destruct Url.escape_ok; [|done]. apply bind_no_panic; [apply IH; simpl in *; lia|done]. }
  by apply (H (length s)).
Qed.

Create HintDb nopanic.
#[export] Hint Resolve bind_no_panic unescape_no_panic : nopanic.

Lemma getScheme_no_panic first acc raw s : is_panic (Url.getScheme_loop first acc raw s) = false.
Proof.
  revert first acc. induction s as [|b s IH]; intros first acc; [done|]. cbn [Url.getScheme_loop].
  destruct (is_lower b || is_upper b), (is_digit b || one_of (str "+-.") b), (eqb b x3a), first;
    done || apply IH.
Qed.

Lemma parseHost_no_panic h : is_panic (Url.parseHost h) = false.
Proof.
  assert (H1 : is_panic (match cut_last x3a h with
    | Some (_, port) => if negb (Url.validOptionalPort (x3a :: port)) then Err "invalid port after host"
                        else Url.unescape Url.encodeHost h
    | None => Url.unescape Url.encodeHost h end) = false).
  { destruct (cut_last x3a h) as [[? port]|]; [|apply unescape_no_panic].
    destruct (negb _); [done|apply unescape_no_panic]. }
  unfold Url.parseHost. destruct h as [|[] h]; try exact H1.
  destruct (cut_last x5d _) as [[before port]|]; [|done].
  destruct (negb _); [done|]. destruct (Url.find_zone before) as [[x y]|]; auto 10 with nopanic.
Qed.

Lemma Parse_no_panic s : is_panic (Url.Parse s) = false.
Proof.
  assert (HA : forall a, is_panic (Url.parseAuthority a) = false).
  { intros a. unfold Url.parseAuthority.
    destruct (cut_last x40 a) as [[u h]|]; [|apply parseHost_no_panic].
    apply bind_no_panic; [apply parseHost_no_panic|intros host _].
    destruct (negb _); [done|]. destruct (cut x3a u) as [[x y]|]; auto 10 with nopanic. }
  assert (HP : forall u, is_panic (Url.parse u) = false).
  { intros u. unfold Url.parse. destruct (existsb _ u); [done|]. case_bool_decide; [done|].
    apply bind_no_panic; [apply getScheme_no_panic|]. intros [scheme rest] _.
    set (r := match cut x3f rest with Some (r, _) => r | None => rest end).
    destruct (_ && _); [done|]. destruct (_ && _); [done|]. destruct (_ && _).
    - destruct (cut x2f (drop 2 r)) as [[x y]|];
        (apply bind_no_panic; [apply HA|intros; apply bind_no_panic; auto with nopanic]).
    - auto with nopanic. }
  unfold Url.Parse. destruct (cut x23 s) as [[u f]|]; [|apply HP].
  apply bind_no_panic; [apply HP|auto with nopanic].
Qed.

Lemma SplitHostPort_no_panic s : is_panic (SplitHostPort s) = false.
Proof.
  unfold SplitHostPort. destruct (cut_last x3a s) as [[before port]|]; [|done].
  assert (H : is_panic (if contains x3a before then Err "too many colons in address"
    else if contains x5b s then Err "unexpected '[' in address"
    else if contains x5d s then Err "unexpected ']' in address" else Ok (before, port)) = false)
    by (destruct (contains x3a before), (contains x5b s), (contains x5d s); done).
  destruct s as [|[] s]; try exact H.
  destruct (cut x5d s) as [[host [|c after]]|]; [done| |done]. case_bool_decide.
  - destruct (contains x5b s), (contains x5d (c :: after)); done.
  - destruct (eqb c x3a); done.
Qed.

Lemma ParseUint_no_panic s : is_panic (ParseUint s) = false.
Proof.
  assert (H : forall n, is_panic (ParseUint_loop s n) = false).
  { induction s as [|b s IH]; intros n; [done|]. cbn [ParseUint_loop].
    destruct (is_digit b); [|done]. destruct (65535 <? _); [done|apply IH]. }
  unfold ParseUint. destruct s; [done|apply H].
Qed.

Lemma ParseAddress_no_panic a : is_panic (ParseAddress a) = false.
Proof.
  unfold ParseAddress. apply bind_no_panic; [apply Parse_no_panic|intros [scheme host] _].
  apply bind_no_panic; [apply SplitHostPort_no_panic|intros [h rawPort] _].
  by apply bind_no_panic; [apply ParseUint_no_panic|].
Qed.

(** *** Trimming *)

Lemma trim_prefixes_id ps b s fuel :
  forallb (fun p => match p with c :: _ => negb (eqb c b) | [] => false end) ps = true ->
  trim_prefixes fuel ps (b :: s) = b :: s.
Proof.
  intros Hps. destruct fuel; cbn [trim_prefixes]; [done|].
  assert (E : List.find (HasPrefix (b :: s)) ps = None).
  { induction ps as [|[|c p] ps IH]; cbn [forallb List.find] in *; [done|done|].
    apply andb_prop in Hps as [Hc Hps]. unfold HasPrefix at 1. cbn [length take].
    rewrite bool_decide_eq_false_2; [by apply IH|]. intros [= -> _].
    by rewrite (proj2 (eqb_eq c c) eq_refl) in Hc. }
  by rewrite E.
Qed.

Lemma Itoa_snoc n : 0 <= n -> exists s d, Itoa n = s ++ [d] /\ is_digit d = true.
Proof.
  intros Hn. pose proof (Itoa_digits n Hn) as Hd. pose proof (itoa_nonempty 4 n []) as Hne.
  unfold Itoa in *. destruct (itoa_loop 4 n []) as [|d s _] using rev_ind; [done|].
  exists s, d. split; [done|]. rewrite forallb_app in Hd. cbn [forallb] in Hd.
  apply andb_prop in Hd as [_ Hd]. by apply andb_prop in Hd as [? _].
Qed.

Lemma TrimSpace_FormatAddress p h n :
  scheme_ok p = true -> 0 <= n -> TrimSpace (FormatAddress p h n) = FormatAddress p h n.
Proof.
  intros Hp Hn. unfold TrimSpace.
  destruct p as [|b p]; [done|]. cbn [scheme_ok] in Hp. apply andb_prop in Hp as [Hb _].
  assert (Hhead : exists s, FormatAddress (b :: p) h n = b :: s).
  { unfold FormatAddress, AddressInfo_String. cbn [NewAddressInfo Protocol Host Port].
    rewrite zlen_cons. pose proof (zlen_nonneg p).
    destruct (Z.ltb_spec 0 (1 + zlen p)); [|lia]. by eexists. }
  assert (Hlast : exists s d, FormatAddress (b :: p) h n = s ++ [d] /\ is_digit d = true).
  { destruct (Itoa_snoc n Hn) as (s & d & E & Hd).
    unfold FormatAddress, AddressInfo_String, JoinHostPort. cbn [NewAddressInfo Protocol Host Port].
    rewrite E. exists ((if 0 <? zlen (b :: p) then (b :: p) ++ str "://" else []) ++
      (if contains x3a h then [x5b] ++ h ++ [x5d; x3a] ++ s else h ++ [x3a] ++ s)), d.
    split; [|done]. destruct (0 <? zlen (b :: p)), (contains x3a h);
      repeat (cbn [app]; rewrite <-?(assoc_L (++)); cbn [app]); try done;
      repeat rewrite <-(assoc_L (++)); done. }
  destruct Hhead as [s Es]. rewrite Es at 1.
  rewrite Es, trim_prefixes_id by (clear -Hb; revert b Hb; every_byte).
  rewrite <-Es. destruct Hlast as (s' & d & -> & Hd). rewrite reverse_snoc.
  rewrite trim_prefixes_id by (clear -Hd; revert d Hd; every_byte).
  by rewrite reverse_cons, reverse_involutive.
Qed.

(** ** Resolution *)

Section ResolveSpec.
Context (ParseIP : bytes -> bool) (LookupHost : bytes -> option (list bytes)).

(** What the operating system is relied on for: IP literals are made of host characters, the
    resolver answers IP literals, and the loopback address is one. *)
Record resolver_ok : Prop := {
  ro_literal : forall a, ParseIP a = true -> host_ok a = true;
  ro_lookup : forall h a l, LookupHost h = Some (a :: l) -> ParseIP a = true;
  ro_loopback : ParseIP (str "127.0.0.1") = true;
}.

(** The cached answer of an IP literal is itself. *)
Definition literal_fixed (c : Cache (V:=bytes)) : Prop :=
  forall h a, items c !! h = Some a -> ParseIP h = true -> a = h.

(** Every cached answer is an IP literal, that of a literal itself. *)
Record cache_ok (c : Cache (V:=bytes)) : Prop := {
  co_wf : cache_wf c;
  co_literal : forall h a, items c !! h = Some a -> ParseIP a = true;
  co_fixed : literal_fixed c;
}.

Lemma resolve_literal h a : resolver_ok -> resolve ParseIP LookupHost h = inl a -> ParseIP a = true.
Proof.
  intros Hro. unfold resolve. destruct (ParseIP h) eqn:E; cbn [negb]; [by intros [= <-]|].
  destruct (LookupHost h) as [[|x l]|] eqn:EL; [done| |done].
  case_bool_decide; intros [= <-]; [apply ro_loopback|eapply ro_lookup]; done.
Qed.

Lemma resolve_fixed h : ParseIP h = true -> resolve ParseIP LookupHost h = inl h.
Proof. unfold resolve. by intros ->. Qed.

Lemma evict_items (c c' : Cache (V:=bytes)) k v :
  evict c = Ok c' -> items c' !! k = Some v -> items c !! k = Some v.
Proof.
  unfold evict. destruct (last (order c)); [|done]. intros [= <-]. simpl.
  by rewrite lookup_delete_Some; intros [_ ?].
Qed.

(** Nothing but the answer is new in the cache. *)
Lemma Get_items (c c' : Cache (V:=bytes)) h init r k v :
  Get c h init = Ok (c', r) -> items c' !! k = Some v -> items c !! k = Some v \/ (k = h /\ init = inl v).
Proof.
  unfold Get. destruct (items c !! h) eqn:Eh; [intros [= <- _]; by left|].
  destruct (if limit c <=? zlen (order c) then evict c else Ok c) as [c1| |] eqn:Ee;
    cbn [mbind res_bind]; [|done..].
  assert (H1 : forall k v, items c1 !! k = Some v -> items c !! k = Some v).
  { destruct (limit c <=? zlen (order c)); [intros; by eapply evict_items|by injection Ee as <-]. }
  destruct init as [a|e]; intros [= <- _]; simpl.
  - rewrite lookup_insert_Some. intros [[<- <-]|[_ Hk]]; [by right|left; auto].
  - left. auto.
Qed.

(** What [Get] answers, whatever the resolver does: what is cached, or what it resolves; a literal
    as it is. *)
Lemma Get_fixed c h :
  cache_wf c -> literal_fixed c ->
  exists c' r, Get c h (resolve ParseIP LookupHost h) = Ok (c', r) /\ cache_wf c' /\ literal_fixed c' /\
    r = match items c !! h with Some a => inl a | None => resolve ParseIP LookupHost h end /\
    (ParseIP h = true -> r = inl h).
Proof.
  intros Hwf Hf. destruct (Get_wf c h (resolve ParseIP LookupHost h) Hwf) as (c' & r & Hg & Hwf' & Hr).
  exists c', r. split; [done|]. split; [done|]. split; [|split; [done|]].
  - intros k a Hk Hp. destruct (Get_items _ _ _ _ _ _ _ Hg Hk) as [Hk'|[-> Hk']]; [by eapply Hf|].
    rewrite resolve_fixed in Hk' by done. congruence.
  - intros Hp. rewrite Hr. destruct (items c !! h) eqn:Eh; [f_equal; by eapply Hf|by apply resolve_fixed].
Qed.

(** With a resolver that answers literals, the answers are. *)
Lemma Get_cache_ok c h :
  resolver_ok -> cache_ok c ->
  exists c' r, Get c h (resolve ParseIP LookupHost h) = Ok (c', r) /\ cache_ok c' /\
    (forall a, r = inl a -> ParseIP a = true) /\ (ParseIP h = true -> r = inl h).
Proof.
  intros Hro [Hwf Hl Hf]. destruct (Get_fixed c h Hwf Hf) as (c' & r & Hg & Hwf' & Hf' & Hr & Hfix).
  exists c', r. split; [done|]. split; [split; [done| |done]|split; [|done]].
  - intros k a Hk. destruct (Get_items _ _ _ _ _ _ _ Hg Hk) as [Hk'|[-> Hk']];
      [by eapply Hl|by eapply resolve_literal].
  - intros a ->. destruct (items c !! h) eqn:Eh; [simplify_eq; by eapply Hl|by eapply resolve_literal].
Qed.

(** [ToUnifiedAddress] of an address that parses. *)
Lemma ToUnifiedAddress_parsed c s info :
  cache_wf c -> literal_fixed c -> ParseAddress (TrimSpace s) = Ok info ->
  exists c' r, ToUnifiedAddress ParseIP LookupHost c s = Ok (c', r) /\ cache_wf c' /\ literal_fixed c' /\
    (forall u, r = inl u -> exists a, u = FormatAddress (Protocol info) a (Port info) /\
       match items c !! Host info with
       | Some b => a = b
       | None => resolve ParseIP LookupHost (Host info) = inl a
       end) /\
    (ParseIP (Host info) = true -> r = inl (FormatAddress (Protocol info) (Host info) (Port info))).
Proof.
  intros Hwf Hf Hp. unfold ToUnifiedAddress.
  destruct (Z.eqb_spec (zlen (TrimSpace s)) 0) as [E|_]; [apply zlen_zero in E; by rewrite E in Hp|].
  rewrite Hp. unfold ToUnifiedHost.
  destruct (Get_fixed c (Host info) Hwf Hf) as (c' & r & -> & Hwf' & Hf' & Hr & Hfix).
  cbn [mbind res_bind]. destruct r as [a|e]; cbn [mbind res_bind]; eexists _, _;
    (split; [done|]; split; [done|]; split; [done|]; split).
  - intros u [= <-]. exists a. split; [done|]. destruct (items c !! Host info); congruence.
  - intros Hip. by injection (Hfix Hip) as ->.
  - done.
  - intros Hip. by specialize (Hfix Hip).
Qed.
End ResolveSpec.

Lemma ToUnifiedAddress_wf (ParseIP : bytes -> bool) (LookupHost : bytes -> option (list bytes))
    (c : Cache (V:=bytes)) (address : bytes) :
  cache_wf c ->
  exists c' r, ToUnifiedAddress ParseIP LookupHost c address = Ok (c', r) /\ cache_wf c'.
Proof.
  intros Hwf. unfold ToUnifiedAddress. destruct (zlen (TrimSpace address) =? 0); [eauto|].
  pose proof (ParseAddress_no_panic (TrimSpace address)) as Hp.
  destruct (ParseAddress (TrimSpace address)) as [info|e|p]; [|by eauto|done].
  unfold ToUnifiedHost.
  destruct (Get_wf c (Host info) (resolve ParseIP LookupHost (Host info)) Hwf) as (c' & r & -> & Hwf' & _).
  cbn [mbind res_bind]. destruct r; cbn [mbind res_bind]; eauto.
Qed.

(** ** Properties *)

(** [FormatAddress] then [ParseAddress] is the identity, for every scheme [url.Parse] keeps,
    every host name and IP literal (IPv6 literals are bracketed and unbracketed again) and
    every port. *)
Theorem ParseAddress_FormatAddress (p h : bytes) (n : Z) :
  scheme_ok p = true -> host_ok h = true -> 0 <= n < 65536 ->
  ParseAddress (FormatAddress p h n) = Ok (mkAddressInfo p h n).
Proof. apply ParseAddress_FormatAddress_ok. Qed.

(** [ToUnifiedAddress] answers any input whatever with an address or an error, never a panic,
    and leaves the host cache well formed. *)
Theorem ToUnifiedAddress_total (ParseIP : bytes -> bool) (LookupHost : bytes -> option (list bytes))
    (c : Cache (V:=bytes)) (address : bytes) :
  cache_wf c ->
  exists c' r, ToUnifiedAddress ParseIP LookupHost c address = Ok (c', r) /\ cache_wf c'.
Proof. apply ToUnifiedAddress_wf. Qed.

(** The unified form of a well-formed address: its scheme and port, and a literal for host; a
    literal is kept. *)
Lemma ToUnifiedAddress_format (ParseIP : bytes -> bool) (LookupHost : bytes -> option (list bytes))
    (c : Cache (V:=bytes)) (p h : bytes) (n : Z) :
  resolver_ok ParseIP LookupHost -> cache_ok ParseIP c ->
  scheme_ok p = true -> host_ok h = true -> 0 <= n < 65536 ->
  exists c' r, ToUnifiedAddress ParseIP LookupHost c (FormatAddress p h n) = Ok (c', r) /\
    cache_ok ParseIP c' /\ (ParseIP h = true -> r = inl (FormatAddress p h n)) /\
    (forall u, r = inl u -> exists a, ParseIP a = true /\ u = FormatAddress p a n).
Proof.
  intros Hro Hc Hp Hh Hn. unfold ToUnifiedAddress.
  rewrite TrimSpace_FormatAddress by (done || lia).
  destruct (Z.eqb_spec (zlen (FormatAddress p h n)) 0) as [E|E].
  { apply zlen_zero in E. pose proof (ParseAddress_FormatAddress_ok p h n Hp Hh Hn) as HP.
    by rewrite E in HP. }
  rewrite ParseAddress_FormatAddress_ok by done. unfold ToUnifiedHost. cbn [Host Protocol Port].
  destruct (Get_cache_ok ParseIP LookupHost c h Hro Hc) as (c' & r & -> & Hc' & Ha & Hf).
  cbn [mbind res_bind]. destruct r as [a|e]; cbn [mbind res_bind].
  - eexists _, _. split; [done|]. split; [done|]. split; [|intros u [= <-]; eauto].
    intros Hip. by injection (Hf Hip) as ->.
  - eexists _, _. split; [done|]. split; [done|]. split; [|done]. intros Hip. by specialize (Hf Hip).
Qed.


(** ** Witnesses *)

Lemma ParseAddress_FormatAddress_witness :
  ParseAddress (FormatAddress (str "tcp") (str "::1") 8588)
  = Ok (mkAddressInfo (str "tcp") (str "::1") 8588).
Proof. apply ParseAddress_FormatAddress; [reflexivity|reflexivity|lia]. Defined.

(** A host that resolves one name, to its loopback address. *)
Definition a_ParseIP (h : bytes) : bool := bool_decide (h = str "127.0.0.1").
Definition a_LookupHost (h : bytes) : option (list bytes) :=
  if bool_decide (h = str "localhost") then Some [str "127.0.0.1"] else None.

Lemma ToUnifiedAddress_total_witness :
  exists c' r, ToUnifiedAddress a_ParseIP a_LookupHost (NewCache 1000) [xff; x25] = Ok (c', r) /\
    cache_wf c'.
Proof. apply ToUnifiedAddress_total. apply NewCache_wf. reflexivity. Defined.

Lemma a_resolver_ok : resolver_ok a_ParseIP a_LookupHost.
Proof.
  split.
  - intros a Ha. apply bool_decide_eq_true in Ha as ->. reflexivity.
  - intros h a l. unfold a_LookupHost. case_bool_decide; [|done]. by intros [= <- _].
  - reflexivity.
Qed.
Lemma a_cache_ok : cache_ok a_ParseIP (NewCache 1000).
Proof.
  split; [by apply NewCache_wf| |]; [|unfold literal_fixed]; simpl; intros h a; by rewrite lookup_empty.
Qed.

(** An address without a scheme is unified to one that does not parse. *)
Theorem schemeless_not_normal :
  exists c, ToUnifiedAddress a_ParseIP a_LookupHost (NewCache 1000) (str "//127.0.0.1:80") =
      Ok (c, inl (str "127.0.0.1:80")) /\
    ParseAddress (str "127.0.0.1:80") = Err "first path segment in URL cannot contain colon".
Proof. eexists. split; vm_compute; reflexivity. Qed.

(** [net.LookupHost] answers a link-local address with its zone, which [net.ParseIP] does not take
    for a literal and [url.Parse] for a bad escape. *)
Theorem zoned_not_normal :
  exists c, ToUnifiedAddress a_ParseIP (fun _ => Some [str "fe80::1%eth0"]) (NewCache 1000) (str "tcp://printer:80") =
      Ok (c, inl (str "tcp://[fe80::1%eth0]:80")) /\
    ParseAddress (str "tcp://[fe80::1%eth0]:80") = Err "invalid URL escape".
Proof. eexists. split; vm_compute; reflexivity. Qed.

