(* ===== verification/Log.v ===== *)
(** * Logging: [utils/log/log.go]

    The levels and their names, the logger, whose lines are what its writer is given, and the
    set-up of its destinations.  What a line holds besides its level and arguments is a
    parameter: the time stamp of the standard library's logger, what [runtime] says of the
    goroutine and of the caller; arguments are given as [fmt] prints them.  [Fatal] logs at its level
    and returns.  The file system is a parameter as well. *)

From S2P Require Import Prelude Messages Address.
#[local] Open Scope Z_scope.

(** ** Numbers in names: [strconv.Itoa] and [strconv.Atoi] of an [int] *)

Definition Itoa64 (n : Z) : bytes :=
  if n <? 0 then x2d :: itoa_loop 18 (- n) [] else itoa_loop 18 n [].

Inductive parsed := Value (n : Z) | Syntax | Range.
(** [strconv.ParseUint(s, 10, 64)], which stops at the first digit that overflows. *)
Fixpoint ParseUint64 (s : bytes) (n : Z) : parsed :=
  match s with
  | [] => Value n
  | b :: s =>
      if is_digit b then
        if 1844674407370955162 <=? n then Range
        else
          let n1 := n * 10 + (b2z b - 48) in
          if 2 ^ 64 - 1 <? n1 then Range else ParseUint64 s n1
      else Syntax
  end.
(** The value, and whether there was an error: out of range the value is the closest one. *)
Definition Atoi (s : bytes) : Z * bool :=
  let '(neg, digits) := match s with
                        | x2d :: s => (true, s)
                        | x2b :: s => (false, s)
                        | _ => (false, s)
                        end in
  match digits with
  | [] => (0, true)
  | _ =>
      match ParseUint64 digits 0 with
      | Syntax => (0, true)
      | Range => (if (neg : bool) then - 2 ^ 63 else 2 ^ 63 - 1, true)
      | Value n =>
          if neg then (if 2 ^ 63 <? n then (- 2 ^ 63, true) else (- n, false))
          else (if 2 ^ 63 <=? n then (2 ^ 63 - 1, true) else (n, false))
      end
  end.

(** ** Names: [strings.TrimPrefix], [filepath.Ext] and [filepath.Base] on Unix *)

Definition TrimPrefix (s prefix : bytes) : bytes := if HasPrefix s prefix then drop (length prefix) s else s.
(** From the end: the suffix after the last dot of the last element. *)
Fixpoint Ext_loop (rev_path acc : bytes) : bytes :=
  match rev_path with
  | [] => []
  | x2f :: _ => []
  | x2e :: _ => x2e :: acc
  | b :: rev_path => Ext_loop rev_path (b :: acc)
  end.
Definition Ext (path : bytes) : bytes := Ext_loop (rev path) [].
Fixpoint skip_slashes (rev_path : bytes) : bytes :=
  match rev_path with
  | x2f :: rev_path => skip_slashes rev_path
  | _ => rev_path
  end.
Fixpoint last_element (rev_path acc : bytes) : bytes :=
  match rev_path with
  | [] => acc
  | x2f :: _ => acc
  | b :: rev_path => last_element rev_path (b :: acc)
  end.
Definition Base (path : bytes) : bytes :=
  match path with
  | [] => str "."
  | _ => match last_element (skip_slashes (rev path)) [] with
         | [] => str "/"
         | element => element
         end
  end.

(** [stack] is what [runtime.Stack] writes into 64 bytes; a number that does not parse is 0 or
    the largest. *)
Fixpoint IndexByte (s : bytes) (b : byte) : option nat :=
  match s with
  | [] => None
  | x :: s => if bool_decide (x = b) then Some 0%nat else S <$> IndexByte s b
  end.
Definition GetGID (stack : bytes) : res Z :=
  let b := TrimPrefix stack (str "goroutine ") in
  match IndexByte b x20 with
  | None => Panic PSlice
  | Some i =>
      match take i b with
      | [] => Ok 0
      | digits => match ParseUint64 digits 0 with
                  | Value n => Ok n
                  | Syntax => Ok 0
                  | Range => Ok (2 ^ 64 - 1)
                  end
      end
  end.

(** [ID.String] of [peer/identity.go]: how a peer is printed in a log; [%v] of a byte slice is
    its numbers in brackets. *)
Definition Sprint_slice (b : bytes) : bytes :=
  str "[" ++ foldr (fun x l => Itoa64 (b2z x) ++ match l with [] => [] | _ => str " " ++ l end) [] b ++ str "]".
Definition ID_String (id : ID) : bytes :=
  str "ID{Address: " ++ ID_Address id ++ str ", Id: " ++ Sprint_slice (sbytes (ID_Id id)) ++ str "}".

(** ** Levels *)

Definition Blue : bytes := str "0;34".
Definition Red : bytes := str "0;31".
Definition Green : bytes := str "0;32".
Definition Yellow : bytes := str "0;33".
Definition Cyan : bytes := str "0;36".
Definition Pink : bytes := str "1;35".
Definition Color (code msg : bytes) : bytes :=
  [x1b] ++ str "[" ++ code ++ str "m" ++ msg ++ [x1b] ++ str "[m".

Definition TraceLog : Z := 0.
Definition DebugLog : Z := 1.
Definition InfoLog : Z := 2.
Definition WarnLog : Z := 3.
Definition ErrorLog : Z := 4.
Definition FatalLog : Z := 5.
Definition MaxLevelLog : Z := 6.

Definition levels : gmap Z bytes :=
  list_to_map [(DebugLog, Color Green (str "[DEBUG]")); (InfoLog, Color Cyan (str "[INFO ]"));
               (WarnLog, Color Yellow (str "[WARN ]")); (ErrorLog, Color Red (str "[ERROR]"));
               (FatalLog, Color Red (str "[FATAL]")); (TraceLog, Color Pink (str "[TRACE]"))].
Definition NAME_PREFIX : bytes := str "LEVEL".

Definition LevelName (level : Z) : bytes :=
  match levels !! level with
  | Some name => name
  | None => NAME_PREFIX ++ Itoa64 level
  end.
(** [range] is the order in which the map is visited. *)
Definition NameLevel (range : list (Z * bytes)) (name : bytes) : Z :=
  match List.find (fun kv => bool_decide (snd kv = name)) range with
  | Some (k, _) => k
  | None => if HasPrefix name NAME_PREFIX then fst (Atoi (drop (length NAME_PREFIX) name)) else 0
  end.

(** ** The logger *)

(** Destinations and files are numbered by the file system. *)
Record Logger := mkLogger {
  level : Z;
  writers : list nat;
  logFile : option nat;
}.
Definition set_level (l : Logger) (v : Z) : Logger := mkLogger v (writers l) (logFile l).

Definition SetDebugLevel (l : Logger) (v : Z) : Logger * option string :=
  if (MaxLevelLog <? v) || (v <? 0) then (l, Some "Invalid Debug Level"%string)
  else (set_level l v, None).

(** [fmt.Sprintln] of strings. *)
Fixpoint Sprintln (a : list bytes) : bytes :=
  match a with
  | [] => [x0a]
  | [s] => s ++ [x0a]
  | s :: a => s ++ str " " ++ Sprintln a
  end.

Section Output.
(** The time stamp of the line, and the goroutine ([GetGID]). *)
Context (stamp : bytes) (gid : Z).

(** What is written to every destination. *)
Definition Output (l : Logger) (lv : Z) (a : list bytes) : option bytes :=
  if level l <=? lv
  then Some (stamp ++ Sprintln ([LevelName lv; str "GID"; Itoa64 gid ++ str ","] ++ a))
  else None.
(** [text] is what the caller's format makes of its arguments. *)
Definition Outputf (l : Logger) (lv : Z) (text : bytes) : option bytes :=
  if level l <=? lv
  then Some (stamp ++ LevelName lv ++ str " GID " ++ Itoa64 gid ++ str ", " ++ text ++ [x0a])
  else None.

Definition Logger_Trace (l : Logger) (a : list bytes) := Output l TraceLog a.
Definition Logger_Tracef (l : Logger) (text : bytes) := Outputf l TraceLog text.
Definition Logger_Debug (l : Logger) (a : list bytes) := Output l DebugLog a.
Definition Logger_Debugf (l : Logger) (text : bytes) := Outputf l DebugLog text.
Definition Logger_Info (l : Logger) (a : list bytes) := Output l InfoLog a.
Definition Logger_Infof (l : Logger) (text : bytes) := Outputf l InfoLog text.
Definition Logger_Warn (l : Logger) (a : list bytes) := Output l WarnLog a.
Definition Logger_Warnf (l : Logger) (text : bytes) := Outputf l WarnLog text.
Definition Logger_Error (l : Logger) (a : list bytes) := Output l ErrorLog a.
Definition Logger_Errorf (l : Logger) (text : bytes) := Outputf l ErrorLog text.
Definition Logger_Fatal (l : Logger) (a : list bytes) := Output l FatalLog a.
Definition Logger_Fatalf (l : Logger) (text : bytes) := Outputf l FatalLog text.

(** The functions of the package, on the global logger [Log].  The first four name their
    caller, as [runtime.Callers] finds it: a function, a file and a line. *)
Definition Trace (Log : Logger) (nameFull file : bytes) (line : Z) (a : list bytes) : option bytes :=
  if TraceLog <? level Log then None
  else Logger_Trace Log ([TrimPrefix (Ext nameFull) (str ".") ++ str "()"; Base file ++ str ":" ++ Itoa64 line] ++ a).
Definition Tracef (Log : Logger) (nameFull file : bytes) (line : Z) (text : bytes) : option bytes :=
  if TraceLog <? level Log then None
  else Logger_Tracef Log (TrimPrefix (Ext nameFull) (str ".") ++ str "() " ++ Base file ++ str ":" ++ Itoa64 line ++ str " " ++ text).
Definition Debug (Log : Logger) (name file : bytes) (line : Z) (a : list bytes) : option bytes :=
  if DebugLog <? level Log then None
  else Logger_Debug Log ([name; Base file ++ str ":" ++ Itoa64 line] ++ a).
Definition Debugf (Log : Logger) (name file : bytes) (line : Z) (text : bytes) : option bytes :=
  if DebugLog <? level Log then None
  else Logger_Debugf Log (name ++ str " " ++ Base file ++ str ":" ++ Itoa64 line ++ str " " ++ text).
Definition Info := Logger_Info.
Definition Warn := Logger_Warn.
Definition Error := Logger_Error.
Definition Fatal := Logger_Fatal.
Definition Infof := Logger_Infof.
Definition Warnf := Logger_Warnf.
Definition Errorf := Logger_Errorf.
Definition Fatalf := Logger_Fatalf.
End Output.

(** ** Destinations *)

Inductive stat := SDir | SFile | SNotExist | SErr (e : string).
Inductive destination := DPath (path : bytes) | DFile (f : nat) | DOther.

Section Files.
Context (Stat : bytes -> stat) (MkdirAll : bytes -> option string) (OpenFile : bytes -> res nat).
(** The time, in the format of the file's name. *)
Context (now : bytes).

Definition FileOpen (path : bytes) : res nat :=
  let open := OpenFile (path ++ now ++ str "_LOG.log") in
  match Stat path with
  | SDir => open
  | SFile => Err "not a directory"
  | SNotExist => match MkdirAll path with Some e => Err e | None => open end
  | SErr e => Err e
  end.

(** [os.Exit(1)] ends the program, with a message printed before. *)
Fixpoint open_all (a : list destination) (writers : list nat) (logFile : option nat) :
    list nat * option nat + string :=
  match a with
  | [] => inl (writers, logFile)
  | DPath path :: a =>
      match FileOpen path with
      | Ok f => open_all a (writers ++ [f]) (Some f)
      | _ => inr "error: open log file failed"%string
      end
  | DFile f :: a => open_all a (writers ++ [f]) logFile
  | DOther :: _ => inr "error: invalid log location"%string
  end.
(** The new global logger; without a destination it discards. *)
Definition InitLog (logLevel : Z) (a : list destination) : Logger + string :=
  match open_all a [] None with
  | inl (writers, logFile) => inl (mkLogger logLevel writers logFile)
  | inr e => inr e
  end.
Definition Init (a : list destination) : Logger + string := InitLog InfoLog a.
End Files.

Definition DEFAULT_MAX_LOG_SIZE : Z := 20.
Definition BYTE_TO_MB : Z := 1024 * 1024.
Definition GetMaxLogChangeInterval (maxLogSize : Z) : Z :=
  if negb (maxLogSize =? 0) then i64 (maxLogSize * BYTE_TO_MB)
  else DEFAULT_MAX_LOG_SIZE * BYTE_TO_MB.
(** [size] is the answer of [Stat] on the file; a nil file has none. *)
Definition GetLogFileSize (Log : Logger) (size : nat -> res Z) : res Z :=
  match logFile Log with
  | None => Err "invalid argument"
  | Some f => size f
  end.
Definition CheckIfNeedNewFile (Log : Logger) (size : nat -> res Z) : bool :=
  match GetLogFileSize Log size with
  | Ok logFileSize => GetMaxLogChangeInterval 0 <? logFileSize
  | _ => false
  end.
(** The file closed, if any. *)
Definition ClosePrintLog (Log : Logger) : option nat := logFile Log.

(** ** Specification *)

(** An order of visit of the map. *)
Definition visits (range : list (Z * bytes)) : Prop := range ≡ₚ map_to_list levels.

(** ** Lemmas *)

Lemma levels_distinct k1 k2 v : levels !! k1 = Some v -> levels !! k2 = Some v -> k1 = k2.
Proof.
  intros H1%elem_of_list_to_map_2 H2%elem_of_list_to_map_2.
  rewrite !elem_of_cons, elem_of_nil in H1, H2.
  destruct_or?; simplify_eq; try done; exfalso;
    match goal with H : ?a = ?b |- _ => revert H; vm_compute; discriminate end.
Qed.

Lemma itoa64_digits n : 0 <= n -> forallb is_digit (itoa_loop 18 n []) = true.
Proof. intros. by apply itoa_digits. Qed.

(** The value [acc] stands for when read after [n]. *)
Lemma itoa64_parse fuel n acc m :
  0 <= n < 10 ^ Z.of_nat (S fuel) -> n <= 2 ^ 63 ->
  ParseUint64 (itoa_loop fuel n acc) 0 = m <-> ParseUint64 acc n = m.
Proof.
  assert (Hone : forall n acc b, 0 <= n <= 2 ^ 63 -> is_digit (z2b (48 + n mod 10)) = true ->
    b = n / 10 -> ParseUint64 (z2b (48 + n mod 10) :: acc) b = ParseUint64 acc n).
  { intros k a b Hk Hd ->. cbn [ParseUint64]. rewrite Hd.
    pose proof (Z.mod_pos_bound k 10 ltac:(lia)). rewrite b2z_z2b_small by lia.
    assert (k / 10 < 1844674407370955162) by (apply Z.div_lt_upper_bound; lia).
    destruct (Z.leb_spec 1844674407370955162 (k / 10)); [lia|].
    replace (k / 10 * 10 + (48 + k mod 10 - 48)) with k by (pose proof (Z.div_mod k 10 ltac:(lia)); lia).
    by destruct (Z.ltb_spec (2 ^ 64 - 1) k); [lia|]. }
  revert n acc. induction fuel as [|fuel IH]; intros n acc Hn Hmax; cbn [itoa_loop];
    pose proof (Z.mod_pos_bound n 10 ltac:(lia)) as Hm.
  all: assert (Hdig : is_digit (z2b (48 + n mod 10)) = true)
    by (unfold is_digit, in_range; rewrite b2z_z2b_small by lia;
        apply andb_true_intro; split; apply Z.leb_le; lia).
  - rewrite Hone; [done|lia|done|]. change (10 ^ Z.of_nat 1) with 10 in Hn. by rewrite Z.div_small by lia.
  - destruct (Z.ltb_spec n 10).
    + rewrite Hone; [done|lia|done|]. by rewrite Z.div_small by lia.
    + rewrite Nat2Z.inj_succ, Z.pow_succ_r in Hn by lia.
      rewrite IH; [by rewrite Hone by (done || lia)| |apply Z.div_le_upper_bound; lia].
      split; [apply Z.div_pos; lia|]. apply Z.div_lt_upper_bound; lia.
Qed.

(** A number read back. *)
Lemma Atoi_Itoa64 n : - 2 ^ 63 <= n < 2 ^ 63 -> Atoi (Itoa64 n) = (n, false).
Proof.
  intros Hn. assert (Hp : forall k, 0 <= k <= 2 ^ 63 -> ParseUint64 (itoa_loop 18 k []) 0 = Value k).
  { intros k Hk. apply (itoa64_parse 18 k []); [|lia|done]. change (10 ^ Z.of_nat 19) with 10000000000000000000. lia. }
  unfold Itoa64. destruct (Z.ltb_spec n 0).
  - unfold Atoi. destruct (itoa_loop 18 (- n) []) as [|b s] eqn:E; [by apply itoa_nonempty in E|].
    rewrite <-E, Hp by lia. destruct (Z.ltb_spec (2 ^ 63) (- n)); [lia|]. f_equal. lia.
  - pose proof (itoa64_digits n ltac:(lia)) as Hd.
    assert (E : Atoi (itoa_loop 18 n []) = match ParseUint64 (itoa_loop 18 n []) 0 with
              | Value n => if 2 ^ 63 <=? n then (2 ^ 63 - 1, true) else (n, false)
              | Syntax => (0, true) | Range => (2 ^ 63 - 1, true) end).
    { destruct (itoa_loop 18 n []) as [|b s] eqn:E; [by apply itoa_nonempty in E|].
      cbn [forallb] in Hd. apply andb_true_iff in Hd as [Hb _]. unfold Atoi. by destruct b. }
    rewrite E, Hp by lia. by destruct (Z.leb_spec (2 ^ 63) n); [lia|].
Qed.

(** The number in the first line of a stack. *)
Lemma GetGID_ok n rest :
  0 <= n < 2 ^ 63 -> GetGID (str "goroutine " ++ itoa_loop 18 n [] ++ x20 :: rest) = Ok n.
Proof.
  intros Hn. unfold GetGID, TrimPrefix.
  change (HasPrefix (str "goroutine " ++ itoa_loop 18 n [] ++ x20 :: rest) (str "goroutine ")) with true. cbn iota.
  rewrite drop_app_length. set (s := itoa_loop 18 n []).
  assert (Hi : IndexByte (s ++ x20 :: rest) x20 = Some (length s)).
  { pose proof (itoa64_digits n ltac:(lia)) as Hd. fold s in Hd. clearbody s. induction s as [|b s IH]; [done|].
    cbn [forallb] in Hd. apply andb_true_iff in Hd as [Hb Hd]. cbn [app IndexByte].
    rewrite bool_decide_eq_false_2 by (by intros ->). by rewrite IH. }
  rewrite Hi, take_app_length.
  destruct s as [|b s'] eqn:Es; [by apply itoa_nonempty in Es|]. rewrite <-Es. unfold s.
  assert (Hp : ParseUint64 (itoa_loop 18 n []) 0 = Value n).
  { apply (itoa64_parse 18 n []); [|lia|done]. change (10 ^ Z.of_nat 19) with 10000000000000000000. lia. }
  by rewrite Hp.
Qed.

Lemma find_visited range k v :
  visits range -> levels !! k = Some v -> List.find (fun kv => bool_decide (snd kv = v)) range = Some (k, v).
Proof.
  intros Hv Hk. red in Hv. destruct (List.find _ range) as [[k' v']|] eqn:E.
  - apply find_some in E as [Hin Heq%bool_decide_eq_true]. cbn in Heq. subst v'.
    apply list_elem_of_In in Hin. rewrite Hv, elem_of_map_to_list in Hin.
    by rewrite (levels_distinct k' k v Hin Hk).
  - exfalso. assert (Hin : (k, v) ∈ range) by by rewrite Hv, elem_of_map_to_list.
    apply list_elem_of_In in Hin. apply (find_none _ _ E) in Hin. by apply bool_decide_eq_false in Hin.
Qed.
Lemma find_unnamed range s :
  visits range -> List.find (fun kv => bool_decide (snd kv = NAME_PREFIX ++ s)) range = None.
Proof.
  intros Hv. red in Hv. destruct (List.find _ range) as [[k v]|] eqn:E; [|done]. exfalso.
  apply find_some in E as [Hin Heq%bool_decide_eq_true]. cbn in Heq. subst v.
  apply list_elem_of_In in Hin. rewrite Hv, elem_of_map_to_list in Hin.
  apply elem_of_list_to_map_2 in Hin. rewrite !elem_of_cons, elem_of_nil in Hin.
  destruct_or?; simplify_eq.
Qed.

(** ** Theorems *)

(** [NameLevel] inverts [LevelName], for any [int] and in whatever order the map is visited: the
    six levels by their coloured names, any other number through its decimal form. *)
Theorem NameLevel_LevelName (range : list (Z * bytes)) (l : Z) :
  visits range -> - 2 ^ 63 <= l < 2 ^ 63 -> NameLevel range (LevelName l) = l.
Proof.
  intros Hv Hl. unfold NameLevel, LevelName. destruct (levels !! l) as [name|] eqn:E.
  - by rewrite (find_visited range l name Hv E).
  - rewrite (find_unnamed range _ Hv). change (HasPrefix (NAME_PREFIX ++ Itoa64 l) NAME_PREFIX) with true.
    cbn iota. rewrite drop_app_length. by rewrite Atoi_Itoa64.
Qed.

(** A line is written when its level is at least the logger's, by the methods and by the
    functions that name their caller alike; the level is settable from 0 to [MaxLevelLog],
    where nothing is written any more, not even by [Fatal]. *)
Theorem level_gates (stamp : bytes) (gid : Z) (l : Logger) (lv v : Z) (a : list bytes) (text : bytes)
    (name file : bytes) (line : Z) :
  (is_Some (Output stamp gid l lv a) <-> level l <= lv) /\
  (is_Some (Outputf stamp gid l lv text) <-> level l <= lv) /\
  (is_Some (Trace stamp gid l name file line a) <-> level l <= TraceLog) /\
  (is_Some (Debug stamp gid l name file line a) <-> level l <= DebugLog) /\
  (SetDebugLevel l v = (set_level l v, None) <-> 0 <= v <= MaxLevelLog) /\
  (snd (SetDebugLevel l v) <> None -> fst (SetDebugLevel l v) = l) /\
  Fatal stamp gid (set_level l MaxLevelLog) a = None.
Proof.
  unfold Trace, Debug, Logger_Trace, Logger_Debug, Output, Outputf, SetDebugLevel, TraceLog, DebugLog, MaxLevelLog.
  assert (Hg : forall x (s : bytes), is_Some (if level l <=? x then Some s else None) <-> level l <= x).
  { intros x s. destruct (Z.leb_spec (level l) x); split; intros H'; try done; try lia; by destruct H'. }
  split; [apply Hg|]. split; [apply Hg|].
  split; [destruct (Z.ltb_spec 0 (level l)); [split; [by intros []|lia]|apply Hg]|].
  split; [destruct (Z.ltb_spec 1 (level l)); [split; [by intros []|lia]|apply Hg]|].
  split; [|split; [destruct (_ || _); done|done]].
  destruct (Z.ltb_spec 6 v), (Z.ltb_spec v 0); cbn [orb]; split; intros H'; done || lia.
Qed.

(** The size at which a file is changed is computed in 64 bits: it is the number of megabytes
    asked for below 2^43 of them, and the default for none. *)
Theorem GetMaxLogChangeInterval_bounds (m : Z) :
  - 2 ^ 43 <= m < 2 ^ 43 -> GetMaxLogChangeInterval m = (if m =? 0 then 20971520 else m * 1048576).
Proof.
  intros Hm. unfold GetMaxLogChangeInterval. destruct (Z.eqb_spec m 0); cbn [negb]; [done|].
  rewrite i64_small; [done|]. unfold BYTE_TO_MB. lia.
Qed.

(** The destinations of [InitLog]: every one is written to, in order, if all files open; the
    file that is measured and closed later is the last one opened, so the files opened before
    it are never closed.  A file is opened under the name of the path followed by the time,
    which is a file inside that directory only for a path that ends with a separator. *)
Theorem InitLog_spec (Stat : bytes -> stat) (MkdirAll : bytes -> option string) (OpenFile : bytes -> res nat)
    (now : bytes) (logLevel : Z) (paths : list bytes) (files : list nat) :
  Forall2 (fun p f => FileOpen Stat MkdirAll OpenFile now p = Ok f) paths files ->
  InitLog Stat MkdirAll OpenFile now logLevel (DPath <$> paths) = inl (mkLogger logLevel files (last files)) /\
  ClosePrintLog (mkLogger logLevel files (last files)) = last files /\
  forall p f, FileOpen Stat MkdirAll OpenFile now p = Ok f -> OpenFile (p ++ now ++ str "_LOG.log") = Ok f.
Proof.
  intros HF. split; [|split; [done|]].
  - unfold InitLog. assert (Hopen : forall ws lf, open_all Stat MkdirAll OpenFile now (DPath <$> paths) ws lf
      = inl (ws ++ files, match last files with Some f => Some f | None => lf end)).
    { induction HF as [|p f ps fs Hp HF IH]; intros ws lf; cbn [fmap list_fmap open_all].
      - by rewrite app_nil_r.
      - rewrite Hp, IH. rewrite <-(assoc_L (++)). cbn [app]. rewrite last_cons. by destruct (last fs). }
    rewrite Hopen. cbn [app]. by destruct (last files).
  - intros p f. unfold FileOpen. destruct (Stat p); [done|done| |done]. by destruct (MkdirAll p).
Qed.

(** ** Witnesses *)

Lemma NameLevel_LevelName_witness :
  NameLevel (map_to_list levels) (LevelName ErrorLog) = 4 /\
  NameLevel (map_to_list levels) (LevelName (-7)) = -7 /\ LevelName (-7) = str "LEVEL-7".
Proof.
  split; [|split].
  - apply NameLevel_LevelName; [red; reflexivity|lia].
  - apply NameLevel_LevelName; [red; reflexivity|lia].
  - vm_compute. reflexivity.
Defined.

Lemma GetMaxLogChangeInterval_bounds_witness : GetMaxLogChangeInterval 100 = 104857600.
Proof. rewrite GetMaxLogChangeInterval_bounds; [reflexivity|lia]. Defined.

Lemma InitLog_spec_witness :
  InitLog (fun _ => SDir) (fun _ => None) (fun s => Ok (length s)) (str "t") 2 [DPath (str "./Log/"); DPath (str "/tmp/")]
  = inl (mkLogger 2 [15; 14]%nat (Some 14%nat)).
Proof.
  apply (InitLog_spec (fun _ => SDir) (fun _ => None) (fun s => Ok (length s)) (str "t") 2
           [str "./Log/"; str "/tmp/"] [15; 14]%nat).
  repeat constructor.
Defined.
