(* ===== verification/Component.v ===== *)
(** * The component list: [network/component_list.go]

    A component is a value of the interface [ComponentInterface]; the list uses its dynamic
    type only, which keys it.  The entries of the map and of the slice are the same pointers
    and are not written after [PutInfo], so they are shared as values.  [Each] is given by the
    sequence of components its callback sees. *)

From S2P Require Import Prelude.
#[local] Open Scope Z_scope.

Section ComponentList.
Context {C T : Type} `{Countable T} (TypeOf : C -> T).

Record ComponentInfo := mkComponentInfo {
  Priority : Z;
  Component : C;
}.

Record ComponentList := mkComponentList {
  keys : gmap T ComponentInfo;
  values : list ComponentInfo;
}.

Definition NewComponentList : ComponentList := mkComponentList ∅ [].

(** The comparator given to [sort.SliceStable]. *)
Definition by_priority (a b : ComponentInfo) : bool := Priority a <? Priority b.
Definition SortByPriority (m : ComponentList) : ComponentList :=
  mkComponentList (keys m) (isort by_priority (values m)).

Definition PutInfo (m : ComponentList) (info : ComponentInfo) : ComponentList * bool :=
  let ty := TypeOf (Component info) in
  match keys m !! ty with
  | Some _ => (m, false)
  | None => (mkComponentList (<[ty := info]> (keys m)) (values m ++ [info]), true)
  end.
Definition Put (m : ComponentList) (priority : Z) (component : C) : ComponentList * bool :=
  PutInfo m (mkComponentInfo priority component).

Definition Len (m : ComponentList) : Z := Z.of_nat (size (keys m)).

(** The argument of [GetInfo] and [Get] is used for its type. *)
Definition GetInfo (m : ComponentList) (withTy : T) : option ComponentInfo := keys m !! withTy.
Definition Get (m : ComponentList) (withTy : T) : option C :=
  match GetInfo m withTy with
  | Some info => Some (Component info)
  | None => None
  end.
Definition Each (m : ComponentList) : list C := Component <$> values m.

Fixpoint Puts (m : ComponentList) (cs : list (Z * C)) : ComponentList :=
  match cs with
  | [] => m
  | (p, c) :: cs => Puts (fst (Put m p c)) cs
  end.

(** ** Specification *)

(** The map and the slice hold the same components, one of each type. *)
Record list_wf (m : ComponentList) : Prop := {
  lw_nodup : NoDup ((fun i => TypeOf (Component i)) <$> values m);
  lw_keys : forall ty i, keys m !! ty = Some i <-> i ∈ values m /\ TypeOf (Component i) = ty;
}.

(** ** Lemmas *)

#[export] Instance by_priority_weak : StrictWeak by_priority.
Proof.
  split; unfold by_priority; intros *; rewrite ?Z.ltb_irrefl, ?Z.ltb_lt; [done|lia|].
  intros. destruct (Z.ltb_spec (Priority x) (Priority y)); [by left|right]. lia.
Qed.

Lemma New_wf : list_wf NewComponentList.
Proof.
  split; simpl; [constructor|]. intros ty i. rewrite lookup_empty, elem_of_nil. naive_solver.
Qed.

Lemma PutInfo_wf m i : list_wf m -> list_wf (fst (PutInfo m i)).
Proof.
  intros [Hn Hk]. unfold PutInfo.
  destruct (keys m !! TypeOf (Component i)) as [j|] eqn:E; [done|]. simpl.
  assert (Hnew : forall j, j ∈ values m -> TypeOf (Component j) <> TypeOf (Component i)).
  { intros j Hj Ht. assert (Hs : keys m !! TypeOf (Component i) = Some j) by by apply Hk.
    congruence. }
  split; simpl.
  - rewrite fmap_app. apply NoDup_app. split; [done|]. split; [|repeat constructor; by apply not_elem_of_nil].
    intros ty (j & -> & Hj)%list_elem_of_fmap. cbn. rewrite list_elem_of_singleton. by apply Hnew.
  - intros ty j. rewrite lookup_insert_Some, elem_of_app, list_elem_of_singleton, Hk.
    split.
    + intros [[<- <-]|[? [? ?]]]; [by split; [right|]|by split; [left|]].
    + intros [[Hj| ->] <-]; [|by left]. right. split; [|done]. intros Ht. by apply (Hnew j).
Qed.

Lemma Puts_wf m cs : list_wf m -> list_wf (Puts m cs).
Proof.
  revert m. induction cs as [|[p c] cs IH]; intros m Hm; [done|]. apply IH. by apply PutInfo_wf.
Qed.

(** The sort is stable: it keeps the order of the entries of one priority. *)
Lemma sinsert_filter (p : Z) i l :
  filter (fun j => Priority j = p) (sinsert by_priority i l)
  = filter (fun j => Priority j = p) (i :: l).
Proof.
  induction l as [|j l IH]; [done|]. cbn [sinsert]. unfold by_priority at 1.
  destruct (Z.ltb_spec (Priority j) (Priority i)); [|done].
  rewrite filter_cons, IH, !filter_cons.
  destruct (decide (Priority j = p)), (decide (Priority i = p)); done || lia.
Qed.

Lemma isort_filter (p : Z) l :
  filter (fun j => Priority j = p) (isort by_priority l) = filter (fun j => Priority j = p) l.
Proof.
  induction l as [|i l IH]; [done|]. cbn [isort foldr].
  rewrite sinsert_filter, !filter_cons. unfold isort in IH. by rewrite IH.
Qed.

Lemma Sort_wf m : list_wf m -> list_wf (SortByPriority m).
Proof.
  intros [Hn Hk]. split; simpl; [by rewrite isort_perm|].
  intros ty i. by rewrite Hk, isort_perm.
Qed.

Lemma Len_values m : list_wf m -> Len m = zlen (values m).
Proof.
  intros [Hn Hk]. unfold Len, zlen. f_equal.
  assert (E : keys m = list_to_map ((fun i => (TypeOf (Component i), i)) <$> values m)).
  { apply map_eq. intros ty. apply option_eq. intros i. rewrite Hk, <-elem_of_list_to_map.
    - rewrite list_elem_of_fmap. split; [intros [? <-]; eauto|intros (j & [= -> ->] & ?); eauto].
    - by rewrite <-list_fmap_compose. }
  rewrite E, map_size_list_to_map; [by rewrite length_fmap|]. by rewrite <-list_fmap_compose.
Qed.

(** ** Properties *)

(** [Put] on a list of one component per type: a second component of a type is refused and
    changes nothing; another is found by its type, comes last in [Each] and counts, and the
    other types are looked up as before. *)
Theorem Put_spec (m : ComponentList) (p : Z) (c : C) :
  list_wf m ->
  list_wf (fst (Put m p c)) /\
  match Get m (TypeOf c) with
  | Some _ => Put m p c = (m, false)
  | None =>
      snd (Put m p c) = true /\
      let m' := fst (Put m p c) in
      Get m' (TypeOf c) = Some c /\ Each m' = Each m ++ [c] /\ Len m' = Len m + 1 /\
      forall ty, ty <> TypeOf c -> Get m' ty = Get m ty
  end.
Proof.
  intros Hwf. pose proof (PutInfo_wf m (mkComponentInfo p c) Hwf) as Hwf'. split; [done|].
  pose proof (Len_values _ Hwf') as HL. rewrite (Len_values _ Hwf). unfold Get, GetInfo, Put, PutInfo, Each in *.
  cbn [Component] in *. destruct (keys m !! TypeOf c) as [i|] eqn:E; [done|]. simpl in *.
  split; [done|]. rewrite lookup_insert_eq. split; [done|]. rewrite fmap_app. split; [done|].
  split; [rewrite HL, zlen_app; done|]. intros ty Hty. by rewrite lookup_insert_ne.
Qed.

(** Whatever was registered, after [SortByPriority] the components are visited in ascending
    order of priority, those of one priority in the order of their registration; nothing is
    lost, lookups are unchanged, and sorting again changes nothing. *)
Theorem SortByPriority_spec (cs : list (Z * C)) :
  let m := Puts NewComponentList cs in
  let s := SortByPriority m in
  list_wf s /\ Len s = Len m /\ Each s ≡ₚ Each m /\ (forall ty, Get s ty = Get m ty) /\
  StronglySorted (fun i j => Priority i <= Priority j) (values s) /\
  (forall p, filter (fun i => Priority i = p) (values s) = filter (fun i => Priority i = p) (values m)) /\
  SortByPriority s = s.
Proof.
  intros m s. pose proof (Puts_wf _ cs New_wf) as Hm. fold m in Hm.
  split; [by apply Sort_wf|]. split; [done|].
  split; [unfold Each; simpl; by rewrite isort_perm|]. split; [done|].
  split; [|split].
  - apply (StronglySorted_weaken (not_after by_priority)); [|apply isort_strongly_sorted; apply _].
    intros i j _ _. unfold not_after, by_priority. rewrite Z.ltb_ge. done.
  - intros p. apply isort_filter.
  - unfold s, SortByPriority. simpl. f_equal. apply isort_id. apply isort_sorted. apply _.
Qed.
End ComponentList.

(** ** Witnesses *)

Lemma Put_spec_witness :
  list_wf id (fst (Put id NewComponentList 5 x61)) /\
  Each (fst (Put id NewComponentList 5 x61)) = [x61].
Proof.
  destruct (Put_spec id NewComponentList 5 x61 (New_wf id)) as (Hwf & _ & _ & He & _).
  split; [exact Hwf|exact He].
Defined.

Lemma SortByPriority_spec_witness :
  Each (SortByPriority (Puts id NewComponentList [(5, x61); (1, x62); (5, x63); (0, x62)]))
  = [x62; x61; x63] /\
  list_wf id (SortByPriority (Puts id NewComponentList [(5, x61); (1, x62); (5, x63); (0, x62)])).
Proof.
  split; [reflexivity|].
  apply (SortByPriority_spec id [(5, x61); (1, x62); (5, x63); (0, x62)]).
Defined.
