(* ===== verification/Stream.v ===== *)
(** * Message framing over streams: [network/stream.go]

    [sendMessage] marshals a message, puts its length in front and hands the frame to the
    connection's [bufio.Writer] under the writer mutex; [receiveMessage] reads a frame from
    the connection and decodes it.

    The [bufio.Writer] is modelled as the standard library has it, over a connection whose
    [Write] is a parameter ([conn_write]); the bytes a connection was given are [sent].  The
    reading side of a connection is the list of chunks its [Read] calls will return, then
    [io.EOF].  The mutex is a flag: locking a locked mutex blocks for ever where nobody is
    left to unlock it. *)

From stdpp Require Import pretty.
From S2P Require Import Prelude Messages Protobuf.
#[local] Open Scope Z_scope.

Definition errEmptyMsg : string := "received an empty message from a peer".

(** ** [bufio.Writer] *)

Section Writer.
Context {W : Type} (conn_write : W -> bytes -> W * Z * option string).

Record bufio_Writer := mkBufio {
  buf : bytes;             (* the bytes buffered *)
  buf_size : Z;
  buf_err : option string; (* sticky *)
  wr : W;
}.

Definition Buffered (b : bufio_Writer) : Z := zlen (buf b).
Definition Available (b : bufio_Writer) : Z := buf_size b - zlen (buf b).

Definition Flush (b : bufio_Writer) : bufio_Writer * option string :=
  match buf_err b with
  | Some e => (b, Some e)
  | None =>
      if Buffered b =? 0 then (b, None)
      else
        let '(w, n, err) := conn_write (wr b) (buf b) in
        let err := if (n <? Buffered b) && bool_decide (err = None)
                   then Some "short write"%string else err in
        match err with
        | Some e => (mkBufio (drop (Z.to_nat n) (buf b)) (buf_size b) (Some e) w, Some e)
        | None => (mkBufio [] (buf_size b) None w, None)
        end
  end.

(** The loop of [Write] while [p] does not fit; the number of bytes taken, and what is left. *)
Fixpoint Write_loop (fuel : nat) (b : bufio_Writer) (p : bytes) (nn : Z) :
    bufio_Writer * bytes * Z :=
  match fuel with
  | O => (b, p, nn)
  | S fuel =>
      if (Available b <? zlen p) && bool_decide (buf_err b = None) then
        if Buffered b =? 0 then
          let '(w, n, err) := conn_write (wr b) p in
          Write_loop fuel (mkBufio (buf b) (buf_size b) err w) (drop (Z.to_nat n) p) (nn + n)
        else
          let n := Available b in
          let b := mkBufio (buf b ++ take (Z.to_nat n) p) (buf_size b) (buf_err b) (wr b) in
          let '(b, _) := Flush b in
          Write_loop fuel b (drop (Z.to_nat n) p) (nn + n)
      else (b, p, nn)
  end.
(** At most a fill, a direct write and the exit. *)
Definition Write (b : bufio_Writer) (p : bytes) : bufio_Writer * Z * option string :=
  let '(b, p, nn) := Write_loop 3 b p 0 in
  match buf_err b with
  | Some e => (b, nn, Some e)
  | None => (mkBufio (buf b ++ p) (buf_size b) None (wr b), nn + zlen p, None)
  end.

(** ** [sendMessage] *)

(** The writer of a connection and its mutex. *)
Record ConnWriter := mkConnWriter {
  bw : bufio_Writer;
  locked : bool;
}.

Inductive outcome :=
| Done
| Failed (err : string)
| Blocked.

(** [for totalBytesWritten < len(buffer) && err == nil]. *)
Fixpoint write_all (fuel : nat) (b : bufio_Writer) (buffer : bytes) (total : Z)
    (err : option string) : bufio_Writer * option string :=
  match fuel with
  | O => (b, err)
  | S fuel =>
      if (total <? zlen buffer) && bool_decide (err = None) then
        let '(b, n, err) := Write b (drop (Z.to_nat total) buffer) in
        write_all fuel b buffer (total + n) err
      else (b, err)
  end.

Definition frame (bytes : bytes) : Prelude.bytes := be_bytes 4 (u32 (zlen bytes)) ++ bytes.

(** [killed]: whether [n.kill] is closed.  The early returns leave the mutex locked. *)
Definition sendMessage (killed : bool) (c : ConnWriter) (message : Message) :
    res (ConnWriter * outcome) :=
  match Message_Marshal message with
  | Panic p => Panic p
  | Err e => Ok (c, Failed ("failed to marshal message: " ++ e))
  | Ok bytes =>
      let buffer := frame bytes in
      let totalSize := zlen buffer in
      if locked c then Ok (c, Blocked)
      else
        let b := bw c in
        let '(b, err) :=
          if (0 <? Buffered b) && (Available b <? totalSize) then Flush b else (b, None) in
        match err with
        | Some e => Ok (mkConnWriter b true, Failed e)
        | None =>
            let '(b, err) := write_all (S (length buffer)) b buffer 0 None in
            let '(b, kerr) := if killed then Flush b else (b, None) in
            match kerr with
            | Some e => Ok (mkConnWriter b true, Failed e)
            | None =>
                Ok (mkConnWriter b false,
                    match err with
                    | Some e => Failed ("stream: failed to write to socket: " ++ e)
                    | None => Done
                    end)
            end
        end
  end.

(** A sequence of sends on a running node. *)
Fixpoint sendMessages (c : ConnWriter) (ms : list Message) : res (ConnWriter * list outcome) :=
  match ms with
  | [] => Ok (c, [])
  | m :: ms =>
      '(c, o) ← sendMessage false c m;
      '(c, os) ← sendMessages c ms;
      Ok (c, o :: os)
  end.
End Writer.
Arguments bufio_Writer W : clear implicits.
Arguments ConnWriter W : clear implicits.

(** ** [receiveMessage] *)

(** The chunks the next [Read] calls return. *)
Abbreviation input := (list bytes).
(** [Read] into a buffer of [k] bytes: the bytes read, and whether it was the end. *)
Definition Read (k : Z) (i : input) : bytes * bool * input :=
  match i with
  | [] => ([], true, [])
  | c :: i =>
      let x := take (Z.to_nat k) c in
      let rest := drop (Z.to_nat k) c in
      (x, false, match rest with [] => i | _ => rest :: i end)
  end.

(** [for totalBytesRead < size && err == nil]: what was read. *)
Fixpoint read_loop (fuel : nat) (size : Z) (got : bytes) (eof : bool) (i : input) :
    bytes * bool * input :=
  match fuel with
  | O => (got, eof, i)
  | S fuel =>
      if (zlen got <? size) && negb eof then
        let '(x, eof, i) := Read (size - zlen got) i in
        read_loop fuel size (got ++ x) eof i
      else (got, eof, i)
  end.
(** Each round takes a byte, drops a chunk or ends. *)
Definition input_size (i : input) : nat := (length (mjoin i) + length i)%nat.
Definition read_full (size : Z) (eof : bool) (i : input) : bytes * bool * input :=
  read_loop (S (S (input_size i))) size [] eof i.
(** The buffer after the reads: [make] zeroed it. *)
Definition fill (size : Z) (got : bytes) : bytes :=
  got ++ replicate (Z.to_nat size - length got) x00.

(** The headers a message must have. *)
Definition valid_headers (msg : Message) : bool :=
  negb ((Message_Opcode msg =? 0)
        || match Message_Sender msg with
           | None => true
           | Some s => bool_decide (ID_NetKey s = None) || (zlen (ID_Address s) =? 0)
           end).
Definition errInvalidHeaders : string :=
  "received an invalid message (either no opcode, no sender, no net key, or no signature) from a peer".

(** Returns what is left of the input as well. *)
Definition receiveMessage (recvBufferSize : Z) (i : input) : res Message * input :=
  let '(got, eof, i) := read_full 4 false i in
  let size := be_value (fill 4 got) in
  if size =? 0 then (Err errEmptyMsg, i)
  else if u32 recvBufferSize <? size then
    (Err ("message has length of " ++ pretty size ++ " which is either broken or too large(default "
          ++ pretty recvBufferSize ++ ")"), i)
  else
    let '(got, eof, i) := read_full size eof i in
    match Message_Unmarshal Message_zero (fill size got) with
    | Panic p => (Panic p, i)
    | Err e => (Err ("failed to unmarshal message: " ++ e), i)
    | Ok msg =>
        if negb (valid_headers msg) then (Err errInvalidHeaders, i) else (Ok msg, i)
    end.

(** The loop of [Accept] up to its first error: the messages received. *)
Fixpoint receive_loop (fuel : nat) (recvBufferSize : Z) (i : input) : list Message * res unit :=
  match fuel with
  | O => ([], Panic PFuel)
  | S fuel =>
      let '(r, i) := receiveMessage recvBufferSize i in
      match r with
      | Ok msg => let '(ms, e) := receive_loop fuel recvBufferSize i in (msg :: ms, e)
      | Err e => ([], Err e)
      | Panic p => ([], Panic p)
      end
  end.

(** ** Lemmas on the writer *)

Section WriterLemmas.
Context {W : Type} (conn_write : W -> bytes -> W * Z * option string).
Context (sent : W -> bytes) (healthy : W -> Prop).

(** A working connection: [Write] takes every byte and reports no error ([io.Writer]). *)
Class Working : Prop := {
  working_write : forall w p, healthy w ->
    exists w', conn_write w p = (w', zlen p, None) /\ sent w' = sent w ++ p /\ healthy w';
}.

(** A writer that has not failed; its output is what the connection was given and what is
    buffered. *)
Record writer_ok (b : bufio_Writer W) : Prop := {
  wo_err : buf_err b = None;
  wo_size : 0 < buf_size b;
  wo_room : zlen (buf b) <= buf_size b;
  wo_conn : healthy (wr b);
}.
Definition output (b : bufio_Writer W) : bytes := sent (wr b) ++ buf b.

Context `{!Working}.

Lemma Flush_ok b : writer_ok b ->
  exists b', Flush conn_write b = (b', None) /\ writer_ok b' /\ buf b' = [] /\
    buf_size b' = buf_size b /\ output b' = output b.
Proof.
  intros [He Hs Hr Hc]. unfold Flush. rewrite He. destruct (Z.eqb_spec (Buffered b) 0) as [Hz|Hz].
  - apply zlen_zero in Hz. exists b. by repeat split.
  - destruct (working_write (wr b) (buf b) Hc) as (w & -> & Hsent & Hw).
    unfold Buffered. rewrite Z.ltb_irrefl. cbn [andb]. eexists. split; [done|].
    split; [split; simpl; try done; rewrite zlen_nil; lia|].
    split; [done|]. split; [done|]. unfold output. simpl. by rewrite Hsent, app_nil_r.
Qed.

(** The state of the loop of [Write] when it ends: what is left fits. *)
Definition write_left (b : bufio_Writer W) (p : bytes) (nn : Z)
    (r : bufio_Writer W * bytes * Z) : Prop :=
  let '(b', q, n) := r in
  n = nn + (zlen p - zlen q) /\ writer_ok b' /\ buf_size b' = buf_size b /\
  output b' ++ q = output b ++ p /\ zlen q <= Available b'.

Lemma Write_loop_fits fuel b p nn :
  writer_ok b -> zlen p <= Available b -> write_left b p nn (Write_loop conn_write (S fuel) b p nn).
Proof.
  intros Hb Hp. cbn [Write_loop]. destruct (Z.ltb_spec (Available b) (zlen p)); [lia|].
  cbn. split; [lia|]. done.
Qed.

Lemma Write_loop_empty fuel b p nn :
  writer_ok b -> buf b = [] -> write_left b p nn (Write_loop conn_write (S (S fuel)) b p nn).
Proof.
  intros Hb Hz. destruct (decide (zlen p <= Available b)); [by apply Write_loop_fits|].
  pose proof Hb as [He Hs Hr Hc]. set (f := S fuel). cbn [Write_loop].
  rewrite He, bool_decide_eq_true_2, andb_true_r by done.
  destruct (Z.ltb_spec (Available b) (zlen p)); [|lia].
  unfold Buffered. rewrite Hz. cbn [zlen length Z.of_nat Z.eqb].
  destruct (working_write (wr b) p Hc) as (w & -> & Hsent & Hw).
  rewrite (drop_ge p) by (unfold zlen; lia).
  assert (Hb2 : writer_ok (mkBufio [] (buf_size b) None w)).
  { split; simpl; try done. rewrite zlen_nil. lia. }
  pose proof (Write_loop_fits fuel _ [] (nn + zlen p) Hb2) as HL. fold f in HL.
  unfold write_left in *. destruct (Write_loop conn_write f _ [] _) as [[b' q] n'].
  destruct HL as (-> & Hok & Hbs & Ho & Hq); [unfold Available; cbn [buf buf_size]; rewrite !zlen_nil; lia|].
  split; [rewrite zlen_nil; lia|]. split; [done|]. split; [done|]. split; [|done].
  rewrite Ho. unfold output. simpl. by rewrite Hsent, Hz, !app_nil_r.
Qed.

Lemma Write_loop_ok fuel b p nn :
  writer_ok b -> write_left b p nn (Write_loop conn_write (S (S (S fuel))) b p nn).
Proof.
  intros Hb. destruct (decide (zlen p <= Available b)); [by apply Write_loop_fits|].
  destruct (decide (buf b = [])) as [Hz|Hz]; [by apply Write_loop_empty|].
  pose proof Hb as [He Hs Hr Hc]. set (f := S (S fuel)). cbn [Write_loop].
  rewrite He, bool_decide_eq_true_2, andb_true_r by done.
  destruct (Z.ltb_spec (Available b) (zlen p)); [|lia].
  destruct (Z.eqb_spec (Buffered b) 0) as [Hz'|_]; [by apply zlen_zero in Hz'|].
  assert (Hk : Z.of_nat (Z.to_nat (Available b)) = Available b) by (unfold Available; lia).
  set (k := Z.to_nat (Available b)) in *. clearbody k.
  assert (Htk : zlen (take k p) = Available b) by (unfold zlen in *; rewrite length_take; lia).
  assert (Hb1 : writer_ok (mkBufio (buf b ++ take k p) (buf_size b) None (wr b))).
  { split; simpl; try done. rewrite zlen_app, Htk. unfold Available. lia. }
  destruct (Flush_ok _ Hb1) as (b2 & -> & Hb2 & Hz2 & Hs2 & Ho2).
  pose proof (Write_loop_empty fuel b2 (drop k p) (nn + Available b) Hb2 Hz2) as HL.
  fold f in HL. unfold write_left in *. destruct (Write_loop conn_write f b2 _ _) as [[b' q] n'].
  destruct HL as (-> & Hok & Hbs & Ho & Hq).
  split; [unfold zlen in *; rewrite length_drop; lia|]. split; [done|]. split; [by rewrite Hbs, Hs2|].
  split; [|done]. rewrite Ho, Ho2. unfold output. simpl. by rewrite <-!(assoc_L (++)), take_drop.
Qed.

Lemma Write_ok b p : writer_ok b ->
  exists b', Write conn_write b p = (b', zlen p, None) /\ writer_ok b' /\
    buf_size b' = buf_size b /\ output b' = output b ++ p.
Proof.
  intros Hb. unfold Write. pose proof (Write_loop_ok 0 b p 0 Hb) as HL.
  unfold write_left in HL. destruct (Write_loop conn_write 3 b p 0) as [[b' q] n'].
  destruct HL as (-> & [He Hs Hr Hc] & Hbs & Ho & Hq). rewrite He. eexists. split; [f_equal; f_equal; lia|].
  unfold Available in Hq. split; [split; simpl; try done; rewrite zlen_app; lia|]. split; [done|].
  unfold output in *. simpl. by rewrite (assoc_L (++)).
Qed.

(** [sendMessage] over a working connection. *)
Definition cw_ok (c : ConnWriter W) : Prop := locked c = false /\ writer_ok (bw c).

Lemma sendMessage_ok killed c m :
  cw_ok c -> Message_wf m -> small (Message_encoding m) ->
  exists c', sendMessage conn_write killed c m = Ok (c', Done) /\ cw_ok c' /\
    output (bw c') = output (bw c) ++ frame (Message_encoding m).
Proof.
  intros [Hl Hb] Hwf Hs. unfold sendMessage. rewrite Message_Marshal_ok, Hl by done.
  set (f := frame (Message_encoding m)).
  assert (H1 : exists b1, (if (0 <? Buffered (bw c)) && (Available (bw c) <? zlen f)
    then Flush conn_write (bw c) else (bw c, None)) = (b1, None) /\ writer_ok b1 /\
      output b1 = output (bw c)).
  { destruct (_ && _); [|eauto]. destruct (Flush_ok _ Hb) as (b1 & ? & ? & _ & _ & ?). eauto. }
  destruct H1 as (b1 & -> & Hb1 & Ho1). cbn [write_all].
  assert (Hf : 0 < zlen f).
  { unfold f, frame. rewrite zlen_app. pose proof (zlen_nonneg (Message_encoding m)).
    unfold zlen at 1. rewrite length_be_bytes. lia. }
  destruct (Z.ltb_spec 0 (zlen f)); [|lia]. rewrite bool_decide_eq_true_2 by done. cbn [andb].
  rewrite drop_0. destruct (Write_ok b1 f Hb1) as (b2 & -> & Hb2 & _ & Ho2).
  assert (Hw : forall fuel, write_all conn_write fuel b2 f (0 + zlen f) None = (b2, None)).
  { intros [|fuel]; [done|]. cbn [write_all]. rewrite Z.add_0_l, Z.ltb_irrefl. done. }
  rewrite Hw. destruct killed.
  - destruct (Flush_ok b2 Hb2) as (b3 & -> & Hb3 & _ & _ & Ho3). eexists. split; [done|].
    split; [done|]. simpl. by rewrite Ho3, Ho2, Ho1.
  - eexists. split; [done|]. split; [done|]. simpl. by rewrite Ho2, Ho1.
Qed.
End WriterLemmas.

(** ** Lemmas on the reader *)

Lemma read_loop_ok fuel x got i y :
  mjoin i = x ++ y -> (input_size i < fuel)%nat ->
  exists i', read_loop fuel (zlen got + zlen x) got false i = (got ++ x, false, i') /\
    mjoin i' = y /\ (input_size i' <= input_size i)%nat.
Proof.
  revert x got i. induction fuel as [|fuel IH]; intros x got i Hi Hf; [lia|]. cbn [read_loop].
  pose proof (zlen_nonneg x).
  destruct (Z.ltb_spec (zlen got) (zlen got + zlen x)) as [Hlt|Hge]; cbn [negb andb].
  2:{ assert (x = []) as -> by (apply zlen_zero; lia). exists i. by rewrite app_nil_r. }
  rewrite Z.add_simpl_l. destruct i as [|c i]; cbn [Read].
  { symmetry in Hi. apply app_nil in Hi as [-> ->]. rewrite zlen_nil in Hlt. lia. }
  change (mjoin (c :: i)) with (c ++ mjoin i) in Hi.
  unfold input_size in *. change (mjoin (c :: i)) with (c ++ mjoin i) in *.
  rewrite length_app in *. cbn [length] in *.
  assert (Hx : Z.to_nat (zlen x) = length x) by (unfold zlen; lia). rewrite Hx.
  destruct (decide (length c <= length x)%nat) as [Hc|Hc].
  - rewrite (take_ge c), (drop_ge c) by lia.
    assert (exists x', x = c ++ x' /\ mjoin i = x' ++ y) as (x' & -> & Hi').
    { exists (drop (length c) x).
      assert (E : take (length c) x = c).
      { apply (f_equal (take (length c))) in Hi.
        rewrite take_app_length, take_app_le in Hi by lia. done. }
      split; [rewrite <-E at 1; by rewrite take_drop|].
      apply (f_equal (drop (length c))) in Hi.
      rewrite drop_app_length, drop_app_le in Hi by lia. done. }
    destruct (IH x' (got ++ c) i Hi') as (i' & HI & Hy & Hs); [lia|].
    exists i'. rewrite !zlen_app, Z.add_assoc in *. rewrite HI, <-(assoc_L (++)). split; [done|].
    split; [done|lia].
  - assert (E : take (length x) c = x).
    { apply (f_equal (take (length x))) in Hi.
      rewrite take_app_length, take_app_le in Hi by lia. done. }
    assert (Hrest : drop (length x) c ++ mjoin i = y).
    { apply (f_equal (drop (length x))) in Hi.
      rewrite drop_app_length, drop_app_le in Hi by lia. done. }
    assert (Hd : length (drop (length x) c) = (length c - length x)%nat) by apply length_drop.
    rewrite E. destruct (drop (length x) c) as [|b rest] eqn:Er; [simpl in Hd; lia|].
    destruct (IH [] (got ++ x) ((b :: rest) :: i) Hrest) as (i' & HI & Hy & Hs).
    { change (mjoin ((b :: rest) :: i)) with ((b :: rest) ++ mjoin i). rewrite length_app, Hd.
      cbn [length]. assert (0 < length x)%nat by (unfold zlen in Hlt; lia). lia. }
    exists i'. rewrite zlen_app, zlen_nil, Z.add_0_r in HI. rewrite HI, app_nil_r. split; [done|].
    split; [done|]. revert Hs. change (mjoin ((b :: rest) :: i)) with ((b :: rest) ++ mjoin i).
    rewrite length_app, Hd. cbn [length]. lia.
Qed.

Lemma read_full_ok x i y : mjoin i = x ++ y ->
  exists i', read_full (zlen x) false i = (x, false, i') /\ mjoin i' = y /\
    (input_size i' <= input_size i)%nat.
Proof.
  intros Hi. apply (read_loop_ok (S (S (input_size i))) x [] i y Hi). lia.
Qed.

Lemma read_loop_eof fuel size got i : read_loop fuel size got true i = (got, true, i).
Proof. destruct fuel; [done|]. cbn [read_loop]. by rewrite andb_false_r. Qed.

Lemma read_full_end size i : 0 < size -> mjoin i = [] -> read_full size false i = ([], true, []).
Proof.
  intros Hs Hi. unfold read_full.
  assert (HF : (length i < S (S (input_size i)))%nat) by (unfold input_size; lia).
  revert HF. generalize (S (S (input_size i))) as fuel. revert Hi.
  induction i as [|c i IH]; intros Hi [|fuel] HF; try lia; cbn [read_loop]; rewrite zlen_nil;
    (destruct (Z.ltb_spec 0 size); [|lia]); cbn [negb andb Read].
  - apply read_loop_eof.
  - change (mjoin (c :: i)) with (c ++ mjoin i) in Hi. apply app_nil in Hi as [-> Hi].
    rewrite take_nil, drop_nil. apply IH; [done|]. simpl in HF. lia.
Qed.

Lemma fill_full x : fill (zlen x) x = x.
Proof. unfold fill, zlen. rewrite Nat2Z.id, Nat.sub_diag. apply app_nil_r. Qed.

(** A message the receiver accepts, and that fits its limit. *)
Record sendable (limit : Z) (m : Message) : Prop := {
  sd_wf : Message_wf m;
  sd_plain : Message_plain m;
  sd_headers : valid_headers (Message_norm m) = true;
  sd_fits : zlen (Message_encoding m) <= limit;
}.

Lemma receive_frame limit m i y :
  0 <= limit < 2 ^ 32 -> sendable limit m -> mjoin i = frame (Message_encoding m) ++ y ->
  exists i', receiveMessage limit i = (Ok (Message_norm m), i') /\ mjoin i' = y /\
    (input_size i' <= input_size i)%nat.
Proof.
  intros Hlim [Hwf Hp Hh Hf] Hi. set (e := Message_encoding m) in *.
  pose proof (zlen_nonneg e) as He0.
  unfold frame in Hi. rewrite u32_small, <-(assoc_L (++)) in Hi by lia.
  unfold receiveMessage.
  assert (Hlen4 : zlen (be_bytes 4 (zlen e)) = 4) by (unfold zlen; by rewrite length_be_bytes).
  destruct (read_full_ok _ i _ Hi) as (i1 & HR & Hi1 & Hs1). rewrite Hlen4 in HR. rewrite HR.
  rewrite <-Hlen4, fill_full, be_value_bytes. change (256 ^ Z.of_nat 4) with (2 ^ 32).
  rewrite Z.mod_small by lia.
  destruct (Z.eqb_spec (zlen e) 0) as [Hz|_].
  { (* a valid message has an opcode, so its encoding is not empty *)
    exfalso. apply zlen_zero in Hz. pose proof (Message_Unmarshal_encoding m Hwf Hp) as HU.
    fold e in HU. rewrite Hz in HU. specialize (HU eq_refl).
    change (Ok Message_zero = Ok (Message_norm m)) in HU.
    assert (E : Message_norm m = Message_zero) by congruence. by rewrite E in Hh. }
  rewrite (u32_small limit) by lia. destruct (Z.ltb_spec limit (zlen e)); [lia|].
  destruct (read_full_ok e i1 y Hi1) as (i2 & -> & Hi2 & Hs2). rewrite fill_full.
  unfold e. rewrite Message_Unmarshal_encoding; [|done..|unfold small; fold e; lia].
  rewrite Hh. exists i2. split; [done|]. split; [done|lia].
Qed.

Lemma receive_end limit i : mjoin i = [] -> receiveMessage limit i = (Err errEmptyMsg, []).
Proof. intros Hi. unfold receiveMessage. by rewrite read_full_end. Qed.

Lemma receive_loop_ok limit ms i fuel :
  0 <= limit < 2 ^ 32 -> Forall (sendable limit) ms ->
  mjoin i = mjoin ((fun m => frame (Message_encoding m)) <$> ms) -> (length ms < fuel)%nat ->
  receive_loop fuel limit i = (Message_norm <$> ms, Err errEmptyMsg).
Proof.
  intros Hlim HF. revert i fuel. induction HF as [|m ms Hm HF IH]; intros i fuel Hi Hf;
    (destruct fuel as [|fuel]; [simpl in Hf; lia|]); cbn [receive_loop].
  - by rewrite receive_end.
  - destruct (receive_frame limit m i _ Hlim Hm Hi) as (i' & -> & Hi' & _).
    rewrite (IH i'); [done|done|simpl in Hf; lia].
Qed.

(** ** Properties *)

(** C9. End to end: what the receiver's loop gets from a connection is what the sender's calls put
    in, in order, whatever the chunks in which the bytes arrive.  Every send succeeds and
    leaves the mutex free; the receiver reads exactly the messages sent (up to nil and empty
    slices), then the end of the stream. *)
Theorem stream_roundtrip {W} (conn_write : W -> bytes -> W * Z * option string)
    (sent : W -> bytes) (healthy : W -> Prop) `{!Working conn_write sent healthy}
    (c : ConnWriter W) (ms : list Message) (limit : Z) (i : input) :
  cw_ok healthy c -> output sent (bw c) = [] -> 0 <= limit < 2 ^ 32 ->
  Forall (sendable limit) ms ->
  exists c', sendMessages conn_write c ms = Ok (c', (fun _ => Done) <$> ms) /\ cw_ok healthy c' /\
    let '(b, err) := Flush conn_write (bw c') in
    err = None /\
    (mjoin i = sent (wr b) ->
     receive_loop (S (length ms)) limit i = (Message_norm <$> ms, Err errEmptyMsg)).
Proof.
  intros Hc Ho Hlim HF.
  assert (Hsend : forall ms c, Forall (sendable limit) ms -> cw_ok healthy c ->
    exists c', sendMessages conn_write c ms = Ok (c', (fun _ => Done) <$> ms) /\ cw_ok healthy c' /\
      output sent (bw c') = output sent (bw c) ++ mjoin ((fun m => frame (Message_encoding m)) <$> ms)).
  { clear c ms HF Hc Ho. induction ms as [|m ms IH]; intros c HF Hc; cbn [sendMessages].
    { exists c. by rewrite app_nil_r. }
    apply Forall_cons in HF as [[Hwf _ _ Hf] HF].
    destruct (sendMessage_ok conn_write sent healthy false c m Hc Hwf) as (c1 & -> & Hc1 & Ho1).
    { unfold small. lia. }
    cbn [mbind res_bind]. destruct (IH c1 HF Hc1) as (c2 & -> & Hc2 & Ho2).
    exists c2. split; [done|]. split; [done|]. rewrite Ho2, Ho1. by rewrite <-(assoc_L (++)). }
  destruct (Hsend ms c HF Hc) as (c' & Hs & Hc' & Ho'). exists c'. split; [done|]. split; [done|].
  destruct (Flush_ok conn_write sent healthy (bw c') (proj2 Hc')) as (b & -> & Hb & Hbz & _ & Hob).
  split; [done|]. intros Hi. apply receive_loop_ok; [done|done| |lia].
  rewrite Hi. rewrite Ho' in Hob. unfold output at 1 in Hob. rewrite Hbz, app_nil_r in Hob.
  by rewrite Hob, Ho.
Qed.

(** A flush that fails before the write makes [sendMessage] return without unlocking: the
    mutex stays locked and every later send on the connection blocks. *)
Theorem failed_flush_blocks_senders {W} (conn_write : W -> bytes -> W * Z * option string)
    (killed : bool) (c c' : ConnWriter W) (m : Message) (b : bufio_Writer W) (e : string) :
  locked c = false -> Message_wf m -> small (Message_encoding m) ->
  0 < Buffered (bw c) -> Available (bw c) < zlen (frame (Message_encoding m)) ->
  Flush conn_write (bw c) = (b, Some e) ->
  sendMessage conn_write killed c m = Ok (c', Failed e) ->
  locked c' = true /\
  forall killed' m', Message_wf m' -> small (Message_encoding m') ->
    sendMessage conn_write killed' c' m' = Ok (c', Blocked).
Proof.
  intros Hl Hwf Hs Hb Ha HF. unfold sendMessage. rewrite Message_Marshal_ok, Hl by done.
  destruct (Z.ltb_spec 0 (Buffered (bw c))); [|lia].
  destruct (Z.ltb_spec (Available (bw c)) (zlen (frame (Message_encoding m)))); [|lia].
  cbn [andb]. rewrite HF. intros [= <-]. split; [done|]. intros k m' Hwf' Hs'.
  by rewrite Message_Marshal_ok.
Qed.

(** [receiveMessage] drops the error of an incomplete read and decodes the buffer with the
    missing bytes zero: the frame of a message of opcode 1000, cut before its last byte, is
    received as a message of opcode 104. *)
Theorem truncated_frame_accepted :
  let id := mkID (Some [x01]) (str "tcp://10.0.0.1:80") (Some [x02]) None in
  let m := mkMessage None (Some id) None 0 1 false 1000 [] None in
  receiveMessage (4 * 1024 * 1024) [removelast (frame (Message_encoding m))]
  = (Ok (mkMessage None (Some id) None 0 1 false 104 [] None), []).
Proof. vm_compute. reflexivity. Qed.

(** ** Witnesses *)

(** A connection to a byte string, and one whose peer is gone. *)
Definition a_conn (w p : bytes) : bytes * Z * option string := (w ++ p, zlen p, None).
Definition a_dead_conn (w p : bytes) : bytes * Z * option string := (w, 0, Some "broken pipe"%string).
#[export] Instance a_conn_working : Working a_conn (fun w => w) (fun _ => True).
Proof. split. intros w p _. exists (w ++ p). done. Defined.

Definition a_sent_message (n : Z) : Message :=
  mkMessage (Some [x01; x02]) (Some (mkID (Some [x09]) (str "tcp://a:1") (Some [x07]) None))
    None 0 n false 10 [] None.
Definition a_writer (buffered : bytes) : ConnWriter bytes := mkConnWriter (mkBufio buffered 16 None []) false.

Lemma stream_roundtrip_witness :
  exists c', sendMessages a_conn (a_writer []) [a_sent_message 1; a_sent_message 2]
             = Ok (c', [Done; Done]) /\ cw_ok (fun _ => True) c'.
Proof.
  destruct (stream_roundtrip a_conn (fun w => w) (fun _ => True) (a_writer [])
    [a_sent_message 1; a_sent_message 2] 4096 []) as (c' & Hs & Hc & _).
  - split; [reflexivity|]. split; vm_compute; intuition congruence.
  - reflexivity.
  - lia.
  - repeat (apply Forall_cons; split); [| |apply Forall_nil; exact I];
      split; vm_compute; intuition congruence.
  - exists c'. split; [exact Hs|exact Hc].
Defined.

Lemma failed_flush_blocks_senders_witness :
  sendMessage a_dead_conn false
    (mkConnWriter (mkBufio [x00; x00] 16 (Some "broken pipe"%string) []) true) (a_sent_message 2)
  = Ok (mkConnWriter (mkBufio [x00; x00] 16 (Some "broken pipe"%string) []) true, Blocked).
Proof.
  apply (failed_flush_blocks_senders a_dead_conn false (a_writer [x00; x00]) _ (a_sent_message 1)
    (mkBufio [x00; x00] 16 (Some "broken pipe"%string) []) "broken pipe"%string);
    vm_compute; intuition congruence.
Defined.
