(* ===== verification/Crypto.v ===== *)
(** * Keys, signatures and what is signed: [crypto/], [network/utils.go]

    [SignaturePolicy] and [HashPolicy] are interfaces of the code; here they are classes, the
    laws of a signature scheme being a class of their own ([SignatureLaws]) that the theorems
    about signing ask for.  The ed25519 policy and its laws are in [Ed25519.v]. *)

From S2P Require Import Prelude Messages Peer.
#[local] Open Scope Z_scope.

(** The interface of a signature policy, the methods the network uses.  [sp_Sign] may panic. *)
Class SignaturePolicy := {
  PrivateKeySize : Z;
  PublicKeySize : Z;
  PrivateToPublic : bytes -> res bytes;
  sp_Sign : bytes -> bytes -> res bytes;
  sp_Verify : bytes -> bytes -> bytes -> res bool;
}.
Class HashPolicy := { HashBytes : bytes -> bytes }.

(** [noop.Noop]. *)
Definition Noop : HashPolicy := {| HashBytes b := b |}.
(** [blake2b.Blake2b]; the hash is a package of its own. *)
Definition Blake2b (Sum256 : bytes -> bytes) : HashPolicy := {| HashBytes b := Sum256 b |}.

(** [big.Int.Bytes]: the absolute value, big-endian, without leading zeros. *)
Definition Int_Bytes (s : Z) : bytes :=
  if s =? 0 then [] else be_bytes (Z.to_nat (Z.log2 (Z.abs s) / 8 + 1)) (Z.abs s).
(** The value [s] is set to. *)
Definition Hash (hp : HashPolicy) (s : Z) : Z := be_value (HashBytes (HashPolicy := hp) (Int_Bytes s)).

Record KeyPair := mkKeyPair {
  PrivateKey : bytes;
  PublicKey : bytes;
}.

Definition PrivateKeySizeErr : string := "private key length does not equal expected key length".

Section Crypto.
Context {sp : SignaturePolicy} {hp : HashPolicy}.

Definition KeyPair_Sign (k : KeyPair) (message : bytes) : res bytes :=
  if negb (zlen (PrivateKey k) =? PrivateKeySize) then Err PrivateKeySizeErr
  else
    let message := HashBytes message in
    sp_Sign (PrivateKey k) message.

Definition Verify (publicKey message signature : bytes) : res bool :=
  if negb (zlen publicKey =? PublicKeySize) then Ok false
  else
    let message := HashBytes message in
    sp_Verify publicKey message signature.

Definition PrivateKeyHex (k : KeyPair) : bytes := hex_EncodeToString (PrivateKey k).
Definition KeyPair_PublicKeyHex (k : KeyPair) : bytes := hex_EncodeToString (PublicKey k).
Definition KeyPair_String (k : KeyPair) : bytes * bytes :=
  (PrivateKeyHex k, KeyPair_PublicKeyHex k).

(** [hex.DecodeString]: the value of a hexadecimal digit, then the pairs. *)
Definition fromHexChar (b : byte) : option Z :=
  let c := b2z b in
  if (48 <=? c) && (c <=? 57) then Some (c - 48)
  else if (97 <=? c) && (c <=? 102) then Some (c - 97 + 10)
  else if (65 <=? c) && (c <=? 70) then Some (c - 65 + 10)
  else None.
Fixpoint hex_DecodeString (s : bytes) : res bytes :=
  match s with
  | [] => Ok []
  | [c] =>
      match fromHexChar c with
      | None => Err "encoding/hex: invalid byte"
      | Some _ => Err "encoding/hex: odd length hex string"
      end
  | a :: b :: s =>
      match fromHexChar a, fromHexChar b with
      | Some x, Some y =>
          r ← hex_DecodeString s; Ok (z2b (Z.lor (Z.shiftl x 4) y) :: r)
      | _, _ => Err "encoding/hex: invalid byte"
      end
  end.

Definition fromPrivateKeyBytes (rawPrivateKey : bytes) : res KeyPair :=
  if negb (zlen rawPrivateKey =? PrivateKeySize) then Err PrivateKeySizeErr
  else
    rawPublicKey ← PrivateToPublic rawPrivateKey;
    Ok (mkKeyPair rawPrivateKey rawPublicKey).
Definition FromPrivateKey (privateKey : bytes) : res KeyPair :=
  rawPrivateKey ← hex_DecodeString privateKey;
  fromPrivateKeyBytes rawPrivateKey.
End Crypto.

(** The signed bytes of a message.  The buffer is written through by [copy] at the positions
    [pos] accumulates; [PutUint32] truncates the lengths. *)
Definition put_at (serialized : bytes) (pos : Z) (x : bytes) : bytes :=
  let n := Nat.min (length serialized - Z.to_nat pos) (length x) in
  take (Z.to_nat pos) serialized ++ take n x ++ drop (Z.to_nat pos + n) serialized.
Definition SerializeMessage (id : ID) (message : bytes) : res bytes :=
  let uint32Size := 4 in
  let address := ID_Address id in
  let idb := sbytes (ID_Id id) in
  let serialized := replicate (Z.to_nat (uint32Size + zlen address + uint32Size + zlen idb + zlen message)) x00 in
  let pos := 0 in
  let serialized := put_at serialized pos (le_bytes 4 (u32 (zlen address))) in
  let pos := pos + uint32Size in
  let serialized := put_at serialized pos address in
  let pos := pos + zlen address in
  let serialized := put_at serialized pos (le_bytes 4 (u32 (zlen idb))) in
  let pos := pos + uint32Size in
  let serialized := put_at serialized pos idb in
  let pos := pos + zlen idb in
  let serialized := put_at serialized pos message in
  let pos := pos + zlen message in
  if negb (pos =? zlen serialized) then Panic (PExplicit "internal error: invalid serialization output")
  else Ok serialized.

(** ** Specification *)

(** A signature scheme: its private keys are those its key generation makes (not every string of
    the right size is one); they and their public keys have the announced sizes, and a signature
    by a private key verifies under its public key.  [Ed25519.v] shows that the policy of the
    code is one. *)
Class SignatureLaws `{SignaturePolicy} := {
  sl_genuine : bytes -> Prop;
  sl_size : forall k, sl_genuine k -> zlen k = PrivateKeySize;
  sl_public : forall k, sl_genuine k -> exists p, PrivateToPublic k = Ok p /\ zlen p = PublicKeySize;
  sl_verify : forall k p m, sl_genuine k -> PrivateToPublic k = Ok p ->
    exists s, sp_Sign k m = Ok s /\ sp_Verify p m s = Ok true;
}.

Definition serialization (id : ID) (message : bytes) : bytes :=
  le_bytes 4 (u32 (zlen (ID_Address id))) ++ ID_Address id
  ++ le_bytes 4 (u32 (zlen (sbytes (ID_Id id)))) ++ sbytes (ID_Id id) ++ message.

(** ** Lemmas *)

Lemma put_at_app pre x rest :
  (length x <= length rest)%nat ->
  put_at (pre ++ rest) (zlen pre) x = pre ++ x ++ drop (length x) rest.
Proof.
  intros Hl. unfold put_at. assert (E : Z.to_nat (zlen pre) = length pre) by (unfold zlen; lia).
  rewrite E, length_app, take_app_length.
  replace (length pre + length rest - length pre)%nat with (length rest) by lia.
  rewrite Nat.min_r, take_ge by lia. by rewrite <-drop_drop, drop_app_length.
Qed.

Lemma SerializeMessage_ok id message : SerializeMessage id message = Ok (serialization id message).
Proof.
  unfold SerializeMessage, serialization. set (a := ID_Address id). set (d := sbytes (ID_Id id)).
  set (la := le_bytes 4 _). set (ld := le_bytes 4 (u32 (zlen d))).
  assert (Hla : length la = 4%nat) by apply length_le_bytes.
  assert (Hld : length ld = 4%nat) by apply length_le_bytes.
  assert (Hn : Z.to_nat (4 + zlen a + 4 + zlen d + zlen message)
               = (4 + (length a + (4 + (length d + length message))))%nat) by (unfold zlen; lia).
  rewrite Hn. set (z := replicate _ x00).
  assert (Hz : length z = (4 + (length a + (4 + (length d + length message))))%nat)
    by apply length_replicate.
  pose proof (put_at_app [] la z ltac:(lia)) as E0. cbn [app] in E0.
  change (zlen (@nil byte)) with 0 in E0. rewrite E0.
  replace (0 + 4) with (zlen la) by (unfold zlen; lia).
  rewrite (put_at_app la a) by (rewrite length_drop; lia). rewrite drop_drop, (assoc_L (++)).
  replace (zlen la + zlen a) with (zlen (la ++ a)) by apply zlen_app.
  rewrite put_at_app by (rewrite length_drop; lia). rewrite drop_drop, (assoc_L (++) (la ++ a)).
  replace (zlen (la ++ a) + 4) with (zlen ((la ++ a) ++ ld)) by (rewrite (zlen_app _ ld); unfold zlen; lia).
  rewrite put_at_app by (rewrite length_drop; lia). rewrite drop_drop, (assoc_L (++) ((la ++ a) ++ ld)).
  replace (zlen ((la ++ a) ++ ld) + zlen d) with (zlen (((la ++ a) ++ ld) ++ d)) by (by rewrite (zlen_app _ d)).
  rewrite put_at_app by (rewrite length_drop; lia).
  rewrite drop_drop, drop_ge, app_nil_r by lia. rewrite <-zlen_app, Z.eqb_refl. cbn [negb].
  by rewrite <-!(assoc_L (++)).
Qed.

Lemma le_bytes_app_inj n v w x y :
  0 <= v < 256 ^ Z.of_nat n -> 0 <= w < 256 ^ Z.of_nat n ->
  le_bytes n v ++ x = le_bytes n w ++ y -> v = w /\ x = y.
Proof.
  intros Hv Hw E. apply app_inj_1 in E as [E ->]; [|by rewrite !length_le_bytes].
  by apply le_bytes_inj in E.
Qed.

Lemma fromHexChar_table d : 0 <= d < 16 -> fromHexChar (hextable d) = Some d.
Proof.
  intros Hd. assert (H : d = 0 \/ d = 1 \/ d = 2 \/ d = 3 \/ d = 4 \/ d = 5 \/ d = 6 \/ d = 7 \/
    d = 8 \/ d = 9 \/ d = 10 \/ d = 11 \/ d = 12 \/ d = 13 \/ d = 14 \/ d = 15) by lia.
  repeat (destruct H as [->|H]; [done|]). by subst.
Qed.

Lemma hex_Decode_Encode l : hex_DecodeString (hex_EncodeToString l) = Ok l.
Proof.
  induction l as [|b l IH]; [done|]. cbn [hex_EncodeToString hex_DecodeString].
  pose proof (b2z_range b) as Hb.
  assert (Hl : Z.land (b2z b) 15 = b2z b mod 16) by (change 15 with (Z.ones 4); by rewrite Z.land_ones).
  assert (Hs : Z.shiftr (b2z b) 4 = b2z b / 16) by (by rewrite Z.shiftr_div_pow2).
  pose proof (Z.mod_pos_bound (b2z b) 16).
  assert (0 <= b2z b / 16 < 16) by (split; [apply Z.div_pos|apply Z.div_lt_upper_bound]; lia).
  rewrite Hl, Hs, !fromHexChar_table, IH by lia. cbn [mbind res_bind]. do 2 f_equal.
  rewrite <-(concat_bits (b2z b / 16) (b2z b mod 16) 4) by (change (2 ^ 4) with 16; lia).
  change (2 ^ 4) with 16. rewrite Z.mul_comm, <-Z.div_mod by lia. apply z2b_b2z.
Qed.

Lemma be_value_Int_Bytes s : be_value (Int_Bytes s) = Z.abs s.
Proof.
  unfold Int_Bytes. destruct (Z.eqb_spec s 0) as [->|Hs]; [done|].
  rewrite be_value_bytes. pose proof (Z.log2_nonneg (Z.abs s)) as Hl.
  pose proof (Z.div_pos (Z.log2 (Z.abs s)) 8 Hl ltac:(lia)).
  rewrite Z2Nat.id by lia. apply Z.mod_small. split; [lia|].
  destruct (Z.log2_spec (Z.abs s) ltac:(lia)) as [_ Hlt]. eapply Z.lt_le_trans; [exact Hlt|].
  change 256 with (2 ^ 8). rewrite <-Z.pow_mul_r by lia. apply Z.pow_le_mono_r; [lia|].
  pose proof (Z.mul_succ_div_gt (Z.log2 (Z.abs s)) 8 ltac:(lia)). lia.
Qed.

(** ** Properties *)

(** The hash of an integer is that of its magnitude, shortest big-endian form, and is never
    negative; with [Noop] it is the magnitude itself. *)
Theorem Hash_spec (hp : HashPolicy) (s : Z) :
  Hash hp s = Hash hp (- s) /\ 0 <= Hash hp s /\ Hash Noop s = Z.abs s /\
  (forall b rest, Int_Bytes s = b :: rest -> b <> x00).
Proof.
  assert (Hab : Int_Bytes (- s) = Int_Bytes s).
  { unfold Int_Bytes. rewrite Z.abs_opp. by destruct s. }
  split; [unfold Hash; by rewrite Hab|]. split; [apply be_value_range|].
  split; [apply be_value_Int_Bytes|]. intros b rest E ->.
  pose proof (be_value_Int_Bytes s) as Hv. rewrite E, be_value_cons in Hv. change (b2z x00) with 0 in Hv.
  unfold Int_Bytes in E. destruct (Z.eqb_spec s 0) as [->|Hs]; [done|].
  set (k := Z.log2 (Z.abs s) / 8) in *.
  assert (Hk : 0 <= k) by (apply Z.div_pos; [apply Z.log2_nonneg|lia]).
  assert (Hlen : zlen rest = k).
  { apply (f_equal zlen) in E. unfold zlen in *. rewrite length_be_bytes in E. cbn [length] in E. lia. }
  pose proof (be_value_range rest) as Hr. rewrite Hlen in Hr.
  destruct (Z.log2_spec (Z.abs s) ltac:(lia)) as [Hlo _].
  assert (256 ^ k <= 2 ^ Z.log2 (Z.abs s)); [|lia].
  change 256 with (2 ^ 8). rewrite <-Z.pow_mul_r by lia. apply Z.pow_le_mono_r; [lia|].
  pose proof (Z.mul_div_le (Z.log2 (Z.abs s)) 8 ltac:(lia)). unfold k. lia.
Qed.

(** C27. [SerializeMessage] never reaches its internal panic, and what it signs determines what was
    signed: two messages of addresses and identifiers shorter than 2^32 bytes with the same
    serialization have the same sender address, the same identifier and the same payload. *)
Theorem SerializeMessage_injective (id id' : ID) (m m' : bytes) :
  zlen (ID_Address id) < 2 ^ 32 -> zlen (ID_Address id') < 2 ^ 32 ->
  zlen (sbytes (ID_Id id)) < 2 ^ 32 -> zlen (sbytes (ID_Id id')) < 2 ^ 32 ->
  is_ok (SerializeMessage id m) = true /\
  (SerializeMessage id m = SerializeMessage id' m' ->
   ID_Address id = ID_Address id' /\ sbytes (ID_Id id) = sbytes (ID_Id id') /\ m = m').
Proof.
  intros Ha Ha' Hd Hd'. rewrite !SerializeMessage_ok. split; [done|]. intros E.
  assert (E' : serialization id m = serialization id' m') by congruence. clear E. rename E' into E.
  unfold serialization in E. pose proof (zlen_nonneg (ID_Address id)).
  pose proof (zlen_nonneg (ID_Address id')). pose proof (zlen_nonneg (sbytes (ID_Id id))).
  pose proof (zlen_nonneg (sbytes (ID_Id id'))). rewrite !u32_small in E by lia.
  apply le_bytes_app_inj in E as [El E]; [|change (256 ^ Z.of_nat 4) with (2 ^ 32); lia..].
  apply app_inj_1 in E as [Ea E]; [|unfold zlen in El; lia].
  apply le_bytes_app_inj in E as [El' E]; [|change (256 ^ Z.of_nat 4) with (2 ^ 32); lia..].
  apply app_inj_1 in E as [Ei Em]; [done|unfold zlen in El'; lia].
Qed.

(** A key pair loaded from the hexadecimal form of its private key is the pair itself, and what
    it signs verifies under its public key. *)
Theorem sign_verify {sp : SignaturePolicy} {hp : HashPolicy} (laws : SignatureLaws)
    (raw message : bytes) :
  sl_genuine raw ->
  exists k s, FromPrivateKey (hex_EncodeToString raw) = Ok k /\ PrivateKey k = raw /\
    FromPrivateKey (PrivateKeyHex k) = Ok k /\
    KeyPair_Sign k message = Ok s /\ Verify (PublicKey k) message s = Ok true.
Proof.
  intros Hg. destruct (sl_public raw Hg) as (p & Hp & Hlp).
  destruct (sl_verify raw p (HashBytes message) Hg Hp) as (s & Hs & Hv).
  pose proof (sl_size raw Hg) as Hr.
  assert (HF : FromPrivateKey (hex_EncodeToString raw) = Ok (mkKeyPair raw p)).
  { unfold FromPrivateKey. rewrite hex_Decode_Encode. cbn [mbind res_bind].
    unfold fromPrivateKeyBytes. rewrite Hr, Z.eqb_refl. cbn [negb]. by rewrite Hp. }
  exists (mkKeyPair raw p), s. split; [done|]. split; [done|]. split; [done|].
  unfold KeyPair_Sign, Verify. cbn [PrivateKey PublicKey]. by rewrite Hr, Hlp, !Z.eqb_refl.
Qed.

(** A key or a public key of a wrong size is refused before the policy is called. *)
Theorem wrong_sizes_refused {sp : SignaturePolicy} {hp : HashPolicy} (k : KeyPair)
    (message signature : bytes) :
  (zlen (PrivateKey k) <> PrivateKeySize ->
   KeyPair_Sign k message = Err PrivateKeySizeErr /\
   FromPrivateKey (PrivateKeyHex k) = Err PrivateKeySizeErr) /\
  (zlen (PublicKey k) <> PublicKeySize -> Verify (PublicKey k) message signature = Ok false).
Proof.
  split; intros H.
  - unfold KeyPair_Sign, FromPrivateKey, PrivateKeyHex. rewrite hex_Decode_Encode.
    cbn [mbind res_bind]. unfold fromPrivateKeyBytes.
    by destruct (Z.eqb_spec (zlen (PrivateKey k)) PrivateKeySize).
  - unfold Verify. by destruct (Z.eqb_spec (zlen (PublicKey k)) PublicKeySize).
Qed.

(** ** Witnesses *)

(** A toy scheme with the laws: two-byte keys, a signature is the key followed by the message. *)
Definition toy_policy : SignaturePolicy := {|
  PrivateKeySize := 2;
  PublicKeySize := 2;
  PrivateToPublic k := Ok k;
  sp_Sign k m := Ok (k ++ m);
  sp_Verify p m s := Ok (bool_decide (s = p ++ m));
|}.
Definition toy_laws : SignatureLaws (H:=toy_policy).
Proof.
  refine {| sl_genuine k := zlen k = 2 |}; simpl.
  - done.
  - intros k Hk. by exists k.
  - intros k p m _ [= ->]. eexists. split; [done|]. by rewrite bool_decide_eq_true_2.
Defined.

Lemma SerializeMessage_injective_witness :
  is_ok (SerializeMessage (mkID None (str "tcp://a:1") (Some [x07]) None) [x01]) = true.
Proof.
  apply (SerializeMessage_injective (mkID None (str "tcp://a:1") (Some [x07]) None)
           (mkID None (str "tcp://b:1") (Some [x07]) None) [x01] [x02]); reflexivity.
Defined.

Lemma sign_verify_witness :
  exists k s, FromPrivateKey (sp:=toy_policy) (str "0aff") = Ok k /\
    Verify (sp:=toy_policy) (hp:=Noop) (PublicKey k) [x01; x02] s = Ok true.
Proof.
  destruct (sign_verify (sp:=toy_policy) (hp:=Noop) toy_laws [x0a; xff] [x01; x02] eq_refl)
    as (k & s & Hk & _ & _ & _ & Hv).
  exists k, s. split; [exact Hk|exact Hv].
Defined.

Lemma wrong_sizes_refused_witness :
  KeyPair_Sign (sp:=toy_policy) (hp:=Noop) (mkKeyPair [x01] []) [] = Err PrivateKeySizeErr.
Proof.
  destruct (wrong_sizes_refused (sp:=toy_policy) (hp:=Noop) (mkKeyPair [x01] []) [] []) as [Hs _].
  apply Hs. discriminate.
Defined.
