(* ===== verification/Package.v ===== *)
(** * Message packages over UDP: [network/package.go]

    One message is one datagram: two bytes of length, then the message.  The socket is what it
    was given ([datagram]); [net.ResolveUDPAddr] is a parameter.  An error of the socket's
    [Write] is logged and not returned, so it does not appear. *)

From S2P Require Import Prelude Messages Protobuf Address Stream.
#[local] Open Scope Z_scope.

Definition MAX_PACKAGE_SIZE : Z := 1024 * 64.

Section Send.
Context (ResolveUDPAddr : bytes -> res bytes).

(** What a send hands to the socket: the peer of a dialled socket, or a resolved address. *)
Record datagram := mkDatagram {
  to : option bytes;
  payload : bytes;
}.

(** [address[strings.LastIndex(address, "/")+1:]]. *)
Definition after_slash (address : bytes) : bytes :=
  match cut_last x2f address with Some (_, x) => x | None => address end.

Definition set_dial (m : Message) (da : bytes) : Message :=
  mkMessage (Message_Message m) (Message_Sender m) (Message_Signature m) (Message_RequestNonce m)
    (Message_MessageNonce m) (Message_ReplyFlag m) (Message_Opcode m) da
    (Message_XXX_unrecognized m).

(** Returns the message with its dial address set (the caller's message is written), what was
    sent, whether the mutex is left locked, and how the call ended. *)
Definition sendUDPMessage (Address : bytes) (udpDialAddrs : gmap bytes bytes) (IsDial locked : bool)
    (message : Message) (address : bytes) : res (Message * option datagram * bool * outcome) :=
  let message :=
    if IsDial then
      match udpDialAddrs !! address with
      | Some dialAddr => set_dial message (str "udp://" ++ dialAddr)
      | None => message
      end
    else set_dial message Address in
  match Message_Marshal message with
  | Panic p => Panic p
  | r =>
      let bytes := match r with Ok b => b | _ => [] end in
      let buffer := be_bytes 2 (u16 (zlen bytes)) ++ bytes in
      if locked then Ok (message, None, true, Blocked)
      else if IsDial then Ok (message, Some (mkDatagram None buffer), false, Done)
      else
        match ResolveUDPAddr (after_slash address) with
        | Panic p => Panic p
        | Err e => Ok (message, None, true, Failed e)
        | Ok resolved => Ok (message, Some (mkDatagram (Some resolved) buffer), false, Done)
        end
  end.
End Send.

(** [ReadFromUDP] fills a zeroed buffer; its error is overwritten, so that a failed read is an
    empty datagram. *)
Definition receiveUDPMessage (read : option bytes) : res Message :=
  let buffer := fill MAX_PACKAGE_SIZE (take (Z.to_nat MAX_PACKAGE_SIZE) (default [] read)) in
  let size := be_value (take 2 buffer) in
  x ← subslice buffer 2 (u16 (2 + size));
  match Message_Unmarshal Message_zero x with
  | Panic p => Panic p
  | Err e => Err ("failed to unmarshal message: " ++ e)
  | Ok msg => if negb (valid_headers msg) then Err errInvalidHeaders else Ok msg
  end.

(** ** Lemmas *)

Lemma zlen_fill size x : 0 <= size -> zlen x <= size -> zlen (fill size x) = size.
Proof.
  intros Hs Hx. unfold fill, zlen in *. rewrite length_app, length_replicate. lia.
Qed.

(** A datagram that fits, in the zeroed buffer. *)
Lemma buffer_split x y : (length x + length y <= Z.to_nat MAX_PACKAGE_SIZE)%nat ->
  exists z, fill MAX_PACKAGE_SIZE (take (Z.to_nat MAX_PACKAGE_SIZE) (x ++ y)) = x ++ y ++ z.
Proof.
  intros Hl. rewrite take_ge by (rewrite length_app; lia). unfold fill.
  eexists. by rewrite <-(assoc_L (++)).
Qed.

(** What is sent in a datagram is read back. *)
Lemma package_received (ResolveUDPAddr : bytes -> res bytes) (Address : bytes)
    (udpDialAddrs : gmap bytes bytes) (IsDial : bool) (m m' : Message) (address : bytes)
    (d : datagram) (l : bool) :
  sendUDPMessage ResolveUDPAddr Address udpDialAddrs IsDial false m address = Ok (m', Some d, l, Done) ->
  sendable 65533 m' ->
  l = false /\ (IsDial = false -> Message_DialAddress m' = Address) /\
  receiveUDPMessage (Some (payload d)) = Ok (Message_norm m').
Proof.
  intros Hsend [Hwf Hp Hh Hf]. unfold sendUDPMessage in Hsend.
  set (m1 := if IsDial then _ else set_dial m Address) in *.
  assert (E : m' = m1 /\ l = false /\ exists b, Message_Marshal m1 = Ok b /\
    payload d = be_bytes 2 (u16 (zlen b)) ++ b).
  { destruct (Message_Marshal m1) as [b|e|p] eqn:EM; [| |done].
    - destruct IsDial; [|destruct (ResolveUDPAddr (after_slash address)); [|done..]];
        injection Hsend as <- <- <-; eauto.
    - exfalso. destruct IsDial; [|destruct (ResolveUDPAddr (after_slash address)); [|done..]];
        injection Hsend as <- _ _; rewrite Message_Marshal_ok in EM by (done || unfold small; lia); done. }
  destruct E as (-> & -> & b & EM & ->).
  rewrite Message_Marshal_ok in EM by (done || unfold small; lia). injection EM as <-.
  split; [done|]. split; [intros ->; done|]. set (e := Message_encoding m1) in *.
  pose proof (zlen_nonneg e) as He. rewrite u16_small by lia. unfold receiveUDPMessage. cbn [from_option id].
  assert (Hl2 : length (be_bytes 2 (zlen e)) = 2%nat) by apply length_be_bytes.
  assert (Hz2 : zlen (be_bytes 2 (zlen e)) = 2) by (unfold zlen at 1; by rewrite Hl2).
  destruct (buffer_split (be_bytes 2 (zlen e)) e) as (z & ->).
  { rewrite Hl2. change (Z.to_nat MAX_PACKAGE_SIZE) with (Z.to_nat 65536). unfold zlen in Hf. lia. }
  rewrite take_app_le, take_ge by lia. rewrite be_value_bytes. change (256 ^ Z.of_nat 2) with 65536.
  rewrite Z.mod_small, u16_small by lia.
  rewrite (subslice_app (be_bytes 2 (zlen e)) e z) by lia.
  cbn [mbind res_bind]. unfold e.
  rewrite Message_Unmarshal_encoding; [|done..|unfold small; fold e; lia]. by rewrite Hh.
Qed.

(** ** Properties *)

(** A message whose encoding is shorter than 65534 bytes goes through one datagram unchanged:
    what [sendUDPMessage] gives the socket, [receiveUDPMessage] reads back, with the dial
    address the sender put in. *)
Theorem package_roundtrip (ResolveUDPAddr : bytes -> res bytes) (Address : bytes)
    (udpDialAddrs : gmap bytes bytes) (IsDial : bool) (m m' : Message) (address : bytes)
    (d : datagram) (l : bool) :
  sendUDPMessage ResolveUDPAddr Address udpDialAddrs IsDial false m address = Ok (m', Some d, l, Done) ->
  sendable 65533 m' ->
  l = false /\ (IsDial = false -> Message_DialAddress m' = Address) /\
  receiveUDPMessage (Some (payload d)) = Ok (Message_norm m').
Proof. apply package_received. Qed.

(** The slice bound [2+size] is computed in sixteen bits: a datagram that announces 65534 or
    65535 bytes panics the receiver, whatever follows. *)
Theorem package_size_wraps (b : byte) (rest : bytes) :
  254 <= b2z b -> receiveUDPMessage (Some (xff :: b :: rest)) = Panic PSlice.
Proof.
  intros Hb. unfold receiveUDPMessage. cbn [from_option id].
  assert (Hn : exists n, Z.to_nat MAX_PACKAGE_SIZE = S (S n)).
  { exists (Z.to_nat 65534). unfold MAX_PACKAGE_SIZE. lia. }
  destruct Hn as (n & Hn). unfold fill. rewrite Hn. cbn [take app].
  assert (Hv : u16 (2 + be_value [xff; b]) < 2).
  { pose proof (b2z_range b). rewrite be_value_cons, be_value_cons.
    change (b2z xff) with 255. change (zlen [b]) with 1. change (zlen (@nil byte)) with 0.
    change (be_value []) with 0. unfold u16.
    replace (2 + (255 * 256 ^ 1 + (b2z b * 256 ^ 0 + 0))) with (b2z b - 254 + 1 * 2 ^ 16) by lia.
    rewrite Z_mod_plus_full, Z.mod_small by lia. lia. }
  unfold subslice. rewrite take_0. destruct (Z.ltb_spec (u16 (2 + be_value [xff; b])) 2); [|lia].
  by rewrite orb_true_r.
Qed.

(** When the address of an accepted peer does not resolve, the call returns with the writer
    mutex locked, and the next send of that connection blocks. *)
Theorem unresolved_peer_blocks_senders (ResolveUDPAddr : bytes -> res bytes) (Address : bytes)
    (udpDialAddrs : gmap bytes bytes) (m : Message) (address : bytes) (e : string) :
  ResolveUDPAddr (after_slash address) = Err e ->
  Message_wf m -> small (Message_encoding (set_dial m Address)) ->
  sendUDPMessage ResolveUDPAddr Address udpDialAddrs false false m address
  = Ok (set_dial m Address, None, true, Failed e) /\
  sendUDPMessage ResolveUDPAddr Address udpDialAddrs false true (set_dial m Address) address
  = Ok (set_dial m Address, None, true, Blocked).
Proof.
  intros He Hwf Hs. unfold sendUDPMessage.
  change (set_dial (set_dial m Address) Address) with (set_dial m Address).
  by rewrite Message_Marshal_ok, He.
Qed.

(** ** Witnesses *)

Lemma package_roundtrip_witness :
  exists m' d, sendUDPMessage (fun a => Ok a) (str "udp://h:1") ∅ false false (a_sent_message 0)
      (str "udp://127.0.0.1:9") = Ok (m', Some d, false, Done) /\
    receiveUDPMessage (Some (payload d)) = Ok (Message_norm m').
Proof.
  eexists _, _. split; [vm_compute; reflexivity|].
  eapply (package_roundtrip (fun a => Ok a) (str "udp://h:1") ∅ false (a_sent_message 0) _
            (str "udp://127.0.0.1:9")); [vm_compute; reflexivity|].
  split; vm_compute; intuition congruence.
Defined.

Lemma package_size_wraps_witness : receiveUDPMessage (Some [xff; xfe]) = Panic PSlice.
Proof. apply (package_size_wraps xfe []). vm_compute. congruence. Defined.

Lemma unresolved_peer_blocks_senders_witness :
  sendUDPMessage (fun _ => Err "no such host") [] ∅ false true (a_sent_message 0) (str "udp://x:1")
  = Ok (a_sent_message 0, None, true, Blocked).
Proof.
  apply (unresolved_peer_blocks_senders (fun _ => Err "no such host") [] ∅ (a_sent_message 0)
    (str "udp://x:1") "no such host"); vm_compute; intuition congruence.
Defined.
