(* ===== verification/Backoff.v ===== *)
(** * Reconnection delays: [network/backoff/]

    Floating-point numbers are IEEE binary64 ([SpecFloat], 53 bits); [math.Pow] is a
    parameter, and so is the conversion of a float outside the range of [int64], which Go
    leaves to the implementation.  Durations are nanoseconds.  [float64(b.attempt)] and
    [float64(b.MaxAttempts)] are compared as the integers they are (the conversion is exact
    below 2^53).

    The component's retry loop meets the network through the answers it gets ([answer]), one
    record per round. *)

From Stdlib Require Import SpecFloat.
From S2P Require Import Prelude.
#[local] Open Scope Z_scope.

(** ** Binary64 *)

Abbreviation float64 := spec_float.
Definition f_mul : float64 -> float64 -> float64 := SFmul 53 1024.
Definition f_sub : float64 -> float64 -> float64 := SFsub 53 1024.
Definition f_of_Z (z : Z) : float64 := binary_normalize 53 1024 z 0 false.
Definition f_gt (x y : float64) : bool := SFltb y x.
Definition f_le0 (x : float64) : bool := SFleb x (S754_zero false).
(** 0.5, 2.0 and 0.05. *)
Definition f_half : float64 := S754_finite false 4503599627370496 (-53).
Definition f_two : float64 := f_of_Z 2.
Definition f_jitter : float64 := S754_finite false 7205759403792794 (-57).

(** The integer part of a finite number. *)
Definition f_trunc (x : float64) : option Z :=
  match x with
  | S754_zero _ => Some 0
  | S754_finite s m e =>
      let v := if 0 <=? e then Z.pos m * 2 ^ e else Z.pos m / 2 ^ (- e) in
      Some (if s then - v else v)
  | _ => None
  end.

(** ** [backoff.go] *)

Record Backoff := mkBackoff {
  attempt : Z;
  MaxAttempts : Z;
  BackoffInterval : float64;
  Jitter : float64;
  MinInterval : Z;
  MaxInterval : Z;
}.

Definition defaultMaxAttempts : Z := 5.
Definition defaultBackoffInterval : float64 := f_two.
Definition defaultJitter : float64 := f_jitter.
Definition defaultMinInterval : Z := 1000 * 1000000.
Definition defaultMaxInterval : Z := 16 * 1000000000.
Definition maxInt64 : float64 := f_of_Z (2 ^ 63 - 1 - 512).

Definition DefaultBackoff : Backoff :=
  mkBackoff 0 defaultMaxAttempts defaultBackoffInterval defaultJitter defaultMinInterval defaultMaxInterval.

Section Backoff.
Context (Pow : float64 -> float64 -> float64) (out_of_range : float64 -> Z).

(** [time.Duration(f)]. *)
Definition Duration (x : float64) : Z :=
  match f_trunc x with
  | Some v => if (- 2 ^ 63 <=? v) && (v <? 2 ^ 63) then v else out_of_range x
  | None => out_of_range x
  end.

(** [rand]: the number [rand.Float64] returns. *)
Definition ForAttempt (rand : float64) (b : Backoff) (attempt : Z) : Z :=
  let min := MinInterval b in
  let max := MaxInterval b in
  let min := if min <=? 0 then defaultMinInterval else min in
  let max := if max <=? 0 then defaultMaxInterval else max in
  if max <=? min then max
  else
    let backoffInterval := BackoffInterval b in
    let backoffInterval := if f_le0 backoffInterval then defaultBackoffInterval else backoffInterval in
    let jitter := f_mul (f_mul (Jitter b) f_two) (f_sub rand f_half) in
    let durf := f_mul (f_of_Z min)
                  (Pow (f_mul backoffInterval (f_sub (f_of_Z 1) jitter)) (f_of_Z attempt)) in
    if f_gt durf maxInt64 then max
    else
      let dur := Duration durf in
      if dur <? min then min
      else if max <? dur then max
      else dur.

Definition set_attempt (b : Backoff) (a : Z) : Backoff :=
  mkBackoff a (MaxAttempts b) (BackoffInterval b) (Jitter b) (MinInterval b) (MaxInterval b).

Definition NextDuration (rand : float64) (b : Backoff) : Backoff * Z :=
  let dur := ForAttempt rand b (attempt b) in
  (set_attempt b (i64 (attempt b + 1)), dur).
Definition TimeoutExceeded (b : Backoff) : bool := Z.max 0 (MaxAttempts b) <=? attempt b.
Definition Reset (b : Backoff) : Backoff := set_attempt b 0.

(** ** [component.go] *)

Definition defaultComponentInitialDelay : Z := 5 * 1000000000.
Definition defaultComponentMaxAttempts : Z := 100.
Definition defaultComponentPriority : Z := 100.

Record Component := mkComponent {
  initialDelay : Z;
  maxAttempts : Z;
  priority : Z;
  backoffs : gmap bytes Backoff;
}.
Abbreviation ComponentOption := (Component -> Component).
Definition WithInitialDelay (d : Z) : ComponentOption := fun o =>
  mkComponent d (maxAttempts o) (priority o) (backoffs o).
Definition WithMaxAttempts (i : Z) : ComponentOption := fun o =>
  mkComponent (initialDelay o) i (priority o) (backoffs o).
Definition WithPriority (i : Z) : ComponentOption := fun o =>
  mkComponent (initialDelay o) (maxAttempts o) i (backoffs o).
Definition defaultOptions : ComponentOption := fun o =>
  mkComponent defaultComponentInitialDelay defaultComponentMaxAttempts defaultComponentPriority (backoffs o).
Definition New (opts : list ComponentOption) : Component :=
  foldl (fun p opt => opt p) (defaultOptions (mkComponent 0 0 0 ∅)) opts.

(** What a round of the loop meets: whether [p.backoffs] still holds the address, the random
    number, whether the address is connected after the sleep, whether [Client] succeeds,
    whether the address is connected then, and whether the ping is sent. *)
Record answer := mkAnswer {
  a_active : bool;
  a_rand : float64;
  a_connected : bool;
  a_dialled : bool;
  a_exists : bool;
  a_told : bool;
}.

Inductive ending := GaveUp | TimedOut | Inactive | AlreadyConnected | Reconnected.

(** The rounds from [i] on: the sleeps, in order, and how the loop ended.  The backoff object
    is shared with the map; nobody else advances it. *)
Fixpoint backoff_loop (fuel : nat) (maxAttempts i : Z) (b : Backoff) (env : Z -> answer) :
    list Z * ending :=
  if i <? maxAttempts then
    match fuel with
    | O => ([], GaveUp)
    | S fuel =>
        let a := env i in
        if negb (a_active a) then ([], Inactive)
        else if TimeoutExceeded b then ([], TimedOut)
        else
          let '(b, d) := NextDuration (a_rand a) b in
          if a_connected a then ([d], AlreadyConnected)
          else
            let '(ds, e) :=
              if negb (a_dialled a) then backoff_loop fuel maxAttempts (i + 1) b env
              else if negb (a_exists a) then backoff_loop fuel maxAttempts (i + 1) b env
              else if negb (a_told a) then backoff_loop fuel maxAttempts (i + 1) b env
              else ([], Reconnected) in
            (d :: ds, e)
    end
  else ([], GaveUp).

(** [None] when a backoff is active already.  The first sleep is the initial delay. *)
Definition startBackoff (p : Component) (addr : bytes) (env : Z -> answer) :
    Component * option (list Z * ending) :=
  match backoffs p !! addr with
  | Some _ => (p, None)
  | None =>
      let p' := mkComponent (initialDelay p) (maxAttempts p) (priority p)
                  (<[addr := DefaultBackoff]> (backoffs p)) in
      let r := backoff_loop (Z.to_nat (maxAttempts p)) (maxAttempts p) 0 DefaultBackoff env in
      (mkComponent (initialDelay p') (maxAttempts p') (priority p') (delete addr (backoffs p')),
       Some (initialDelay p :: fst r, snd r))
  end.

(** ** Lemmas *)

Definition min_of (b : Backoff) : Z := if MinInterval b <=? 0 then defaultMinInterval else MinInterval b.
Definition max_of (b : Backoff) : Z := if MaxInterval b <=? 0 then defaultMaxInterval else MaxInterval b.

Lemma ForAttempt_bounds r b a :
  Z.min (min_of b) (max_of b) <= ForAttempt r b a <= max_of b.
Proof.
  unfold ForAttempt. fold (min_of b) (max_of b). destruct (Z.leb_spec (max_of b) (min_of b)); [lia|].
  destruct (f_gt _ _); [lia|]. set (d := Duration _).
  destruct (Z.ltb_spec d (min_of b)); [lia|]. destruct (Z.ltb_spec (max_of b) d); lia.
Qed.

Lemma ForAttempt_default r b a :
  MinInterval b = defaultMinInterval -> MaxInterval b = defaultMaxInterval ->
  defaultMinInterval <= ForAttempt r b a <= defaultMaxInterval.
Proof.
  intros H1 H2. pose proof (ForAttempt_bounds r b a) as H. unfold min_of, max_of in H.
  rewrite H1, H2 in H. change (defaultMinInterval <=? 0) with false in H.
  change (defaultMaxInterval <=? 0) with false in H. unfold defaultMinInterval, defaultMaxInterval in *. lia.
Qed.

(** What a run of the loop from round [i] with backoff [b] does: every sleep within the default
    bounds, no more of them than attempts are left, exactly that many when it timed out, and
    the rounds exhausted when it gave up. *)
Definition run_ok (m i : Z) (b : Backoff) (fuel : nat) (r : list Z * ending) : Prop :=
  Forall (fun d => defaultMinInterval <= d <= defaultMaxInterval) (fst r) /\
  zlen (fst r) <= MaxAttempts b - attempt b /\ zlen (fst r) <= Z.max 0 (m - i) /\
  (snd r = TimedOut -> zlen (fst r) = MaxAttempts b - attempt b) /\
  (snd r = GaveUp -> (Z.to_nat (m - i) <= fuel)%nat -> zlen (fst r) = Z.max 0 (m - i)).

Lemma run_ok_cons m i b fuel r d :
  i < m -> run_ok m (i + 1) (set_attempt b (attempt b + 1)) fuel r ->
  defaultMinInterval <= d <= defaultMaxInterval -> run_ok m i b (S fuel) (d :: fst r, snd r).
Proof.
  intros Hi (HF & H1 & H2 & H3 & H4) Hd. cbn [MaxAttempts attempt set_attempt] in *.
  split; [by constructor|]. cbn [fst snd]. rewrite zlen_cons.
  split; [lia|]. split; [lia|]. split; [intros E; specialize (H3 E); lia|].
  intros E Hf. specialize (H4 E ltac:(lia)). lia.
Qed.

Lemma run_ok_stop m i b fuel e :
  attempt b <= MaxAttempts b -> e <> TimedOut \/ attempt b = MaxAttempts b ->
  e <> GaveUp \/ m <= i \/ (fuel = 0%nat /\ i < m) -> run_ok m i b fuel ([], e).
Proof.
  intros Ha He Hg. split; [constructor|]. cbn [fst snd]. rewrite zlen_nil.
  split; [lia|]. split; [lia|]. split; [intros ->; destruct He; [done|lia]|].
  intros -> Hf. destruct Hg as [?|[?|[-> ?]]]; [done|lia|lia].
Qed.

Lemma backoff_loop_ok fuel m i b env :
  MinInterval b = defaultMinInterval -> MaxInterval b = defaultMaxInterval ->
  0 <= attempt b <= MaxAttempts b -> MaxAttempts b < 2 ^ 62 ->
  run_ok m i b fuel (backoff_loop fuel m i b env).
Proof.
  intros H1 H2. revert i b H1 H2. induction fuel as [|fuel IH]; intros i b H1 H2 Ha Hm;
    cbn [backoff_loop]; (destruct (Z.ltb_spec i m); [|apply run_ok_stop; [lia|by left|lia]]).
  { apply run_ok_stop; [lia|by left|auto]. }
  destruct (negb (a_active (env i))); [apply run_ok_stop; [lia|by left|by left]|].
  unfold TimeoutExceeded. destruct (Z.leb_spec (Z.max 0 (MaxAttempts b)) (attempt b)).
  { apply run_ok_stop; [lia|right; lia|by left]. }
  unfold NextDuration. rewrite i64_small by lia.
  pose proof (ForAttempt_default (a_rand (env i)) b (attempt b) H1 H2) as Hd.
  set (b' := set_attempt b (attempt b + 1)).
  assert (Hstop : forall e, e <> TimedOut -> e <> GaveUp -> run_ok m (i + 1) b' fuel ([], e)).
  { intros. apply run_ok_stop; [simpl; lia|by left|by left]. }
  assert (Hrec : run_ok m (i + 1) b' fuel (backoff_loop fuel m (i + 1) b' env)).
  { apply IH; [done|done|simpl; lia|done]. }
  destruct (a_connected (env i)); [by apply (run_ok_cons _ _ _ _ ([], AlreadyConnected)); auto|].
  destruct (negb (a_dialled (env i))); [|destruct (negb (a_exists (env i)));
    [|destruct (negb (a_told (env i)))]];
    try (by apply (run_ok_cons _ _ _ _ ([], Reconnected)); auto);
    destruct (backoff_loop fuel m (i + 1) b' env) as [ds e];
    by apply (run_ok_cons _ _ _ _ (ds, e)).
Qed.

(** ** Properties *)

(** A delay is between the configured minimum and maximum (the defaults replacing those that
    are not positive, the maximum winning when they cross), whatever the random number, the
    attempt, [math.Pow] (NaN and infinities included) and the conversion of floats out of
    range. *)
Theorem ForAttempt_within_bounds (r : float64) (b : Backoff) (a : Z) :
  Z.min (min_of b) (max_of b) <= ForAttempt r b a <= max_of b /\
  0 < ForAttempt r b a.
Proof.
  pose proof (ForAttempt_bounds r b a) as H. split; [done|].
  assert (0 < min_of b) by (unfold min_of, defaultMinInterval; destruct (Z.leb_spec (MinInterval b) 0); lia).
  assert (0 < max_of b) by (unfold max_of, defaultMaxInterval; destruct (Z.leb_spec (MaxInterval b) 0); lia).
  lia.
Qed.

(** C26. The retry loop of a disconnected peer: the first sleep is the initial delay, every later
    one between one and sixteen seconds, and there are at most [min(maxAttempts, 5)] of them:
    the attempts of [DefaultBackoff] end the loop whatever [WithMaxAttempts] says.  The
    address is free again afterwards; a second loop on an active address does nothing. *)
Theorem startBackoff_bounded (p : Component) (addr : bytes) (env : Z -> answer) :
  match startBackoff p addr env with
  | (p', None) => p' = p /\ is_Some (backoffs p !! addr)
  | (p', Some (ds, e)) =>
      backoffs p !! addr = None /\ p' = p /\
      exists ds', ds = initialDelay p :: ds' /\
        Forall (fun d => defaultMinInterval <= d <= defaultMaxInterval) ds' /\
        zlen ds' <= Z.min (Z.max 0 (maxAttempts p)) defaultMaxAttempts /\
        (e = TimedOut -> zlen ds' = defaultMaxAttempts) /\
        (e = GaveUp -> zlen ds' = Z.max 0 (maxAttempts p))
  end.
Proof.
  unfold startBackoff. destruct (backoffs p !! addr) as [b|] eqn:E; [eauto|].
  split; [done|]. split.
  { destruct p. simpl in *. f_equal. by rewrite delete_insert_eq, delete_id. }
  exists (fst (backoff_loop (Z.to_nat (maxAttempts p)) (maxAttempts p) 0 DefaultBackoff env)).
  split; [done|].
  destruct (backoff_loop_ok (Z.to_nat (maxAttempts p)) (maxAttempts p) 0 DefaultBackoff env)
    as (HF & H1 & H2 & H3 & H4); try done.
  rewrite Z.sub_0_r in *. cbn [attempt MaxAttempts DefaultBackoff] in *.
  unfold defaultMaxAttempts in *. split; [done|]. split; [lia|]. split; [intros He; rewrite H3; [lia|done]|].
  intros He. by apply H4.
Qed.
End Backoff.

(** ** Witnesses *)

(** The conditions of these theorems hold for every input; two runs with a doubling [Pow]. *)
Definition a_Pow (x y : float64) : float64 :=
  match f_trunc y with
  | Some n => Z.iter n (f_mul x) (f_of_Z 1)
  | None => S754_nan
  end.
Definition an_answer (ok : bool) : answer := mkAnswer true f_half false ok ok ok.

Lemma ForAttempt_within_bounds_witness :
  ForAttempt a_Pow (fun _ => - 2 ^ 63) f_half DefaultBackoff 3 = 8 * 1000000000 /\
  0 < ForAttempt a_Pow (fun _ => - 2 ^ 63) f_half DefaultBackoff 3.
Proof. split; [vm_compute; reflexivity|]. apply ForAttempt_within_bounds. Defined.

Lemma startBackoff_bounded_witness :
  snd (startBackoff a_Pow (fun _ => - 2 ^ 63) (New []) [x61] (fun i => an_answer (i =? 2)))
  = Some ([5 * 1000000000; 1000000000; 2000000000; 4000000000], Reconnected) /\
  (forall env, let '(p', r) := startBackoff a_Pow (fun _ => - 2 ^ 63) (New []) [x61] env in p' = New []).
Proof.
  split; [vm_compute; reflexivity|]. intros env.
  pose proof (startBackoff_bounded a_Pow (fun _ => - 2 ^ 63) (New []) [x61] env) as H.
  destruct (startBackoff a_Pow _ (New []) [x61] env) as [p' [[ds e]|]];
    [destruct H as (_ & Hp & _)|destruct H as [Hp _]]; exact Hp.
Defined.
