(* ===== verification/Keepalive.v ===== *)
(** * Peer liveness notifications: [network/keepalive/component.go]

    The component's map of last states, with the events it sends on [peerStateChan] as the
    output of the operations.  Times and durations are nanoseconds.  [close] of a closed
    channel panics.  The loop of [keepaliveService] is given by its rounds: a [select] case and
    what follows it. *)

From S2P Require Import Prelude.
#[local] Open Scope Z_scope.

Definition DefaultKeepaliveInterval : Z := 3 * 1000000000.
Definition DefaultKeepaliveTimeout : Z := 15 * 1000000000.

Inductive PeerState := PEER_UNKNOWN | PEER_UNREACHABLE | PEER_REACHABLE.
#[export] Instance PeerState_eq_dec : EqDecision PeerState.
Proof. solve_decision. Defined.

Record PeerStateEvent := mkEvent {
  Address : bytes;
  State : PeerState;
}.

Record Component := mkComponent {
  keepaliveInterval : Z;
  keepaliveTimeout : Z;
  peerStateChan : bool;     (* not nil *)
  stopCh_closed : bool;
  lastStates : gmap bytes PeerState;
}.

Abbreviation ComponentOption := (Component -> Component).
Definition WithKeepaliveTimeout (t : Z) : ComponentOption := fun o =>
  mkComponent (keepaliveInterval o) t (peerStateChan o) (stopCh_closed o) (lastStates o).
Definition WithKeepaliveInterval (t : Z) : ComponentOption := fun o =>
  mkComponent t (keepaliveTimeout o) (peerStateChan o) (stopCh_closed o) (lastStates o).
Definition WithPeerStateChan (c : bool) : ComponentOption := fun o =>
  mkComponent (keepaliveInterval o) (keepaliveTimeout o) c (stopCh_closed o) (lastStates o).
Definition defaultOptions : ComponentOption := fun o =>
  mkComponent DefaultKeepaliveInterval DefaultKeepaliveTimeout (peerStateChan o) (stopCh_closed o)
    (lastStates o).
Definition New (opts : list ComponentOption) : Component :=
  foldl (fun p opt => opt p) (defaultOptions (mkComponent 0 0 false false ∅)) opts.

Definition set_state (p : Component) (address : bytes) (state : PeerState) : Component :=
  mkComponent (keepaliveInterval p) (keepaliveTimeout p) (peerStateChan p) (stopCh_closed p)
    (<[address := state]> (lastStates p)).

Definition updateLastStateAndNotify (p : Component) (address : bytes) (state : PeerState) :
    Component * list PeerStateEvent :=
  let last := lastStates p !! address in
  let p := set_state p address state in
  if bool_decide (last = Some state) then (p, [])
  else if peerStateChan p then (p, [mkEvent address state])
  else (p, []).

Definition PeerConnect (p : Component) (address : bytes) := updateLastStateAndNotify p address PEER_REACHABLE.
Definition PeerDisconnect (p : Component) (address : bytes) := updateLastStateAndNotify p address PEER_UNREACHABLE.

(** [EachPeer] over the peers with the time of their last message. *)
Fixpoint timeout (p : Component) (now : Z) (peers : list (bytes * Z)) : Component * list PeerStateEvent :=
  match peers with
  | [] => (p, [])
  | (address, time) :: peers =>
      let '(p, es) :=
        if time + keepaliveTimeout p <? now then updateLastStateAndNotify p address PEER_UNREACHABLE
        else (p, []) in
      let '(p, es') := timeout p now peers in
      (p, es ++ es')
  end.

Definition Cleanup (p : Component) : res Component :=
  if stopCh_closed p then Panic PCloseClosed
  else Ok (mkComponent (keepaliveInterval p) (keepaliveTimeout p) (peerStateChan p) true (lastStates p)).

(** A round of [keepaliveService]: the case chosen, and whether the ticker runs. *)
Inductive round :=
| Tick (now : Z) (peers : list (bytes * Z))
| Stopped.
Inductive next := Continue | Return.

(** Returns the component, whether the ticker still runs, what the round broadcasts and
    notifies, and what the loop does next: the [break] leaves the [select] only. *)
Definition keepaliveService_round (p : Component) (ticking : bool) (r : round) :
    Component * bool * bool * list PeerStateEvent * next :=
  match r with
  | Tick now peers => let '(p, es) := timeout p now peers in (p, ticking, true, es, Continue)
  | Stopped => (p, false, false, [], Continue)
  end.

(** The messages [Receive] tells apart, and whether it replies. *)
Inductive message := MKeepalive | MKeepaliveResponse | MOther.
Definition Receive (msg : message) (reply : option string) : bool * option string :=
  match msg with
  | MKeepalive =>
      (true, match reply with Some err => Some err | None => None end)
  | MKeepaliveResponse => (false, None)
  | MOther => (false, None)
  end.

(** The calls other components and the timer make, in the order they reach the component. *)
Inductive event :=
| Connected (address : bytes)
| Disconnected (address : bytes)
| TimerTick (now : Z) (peers : list (bytes * Z)).

Definition handle (p : Component) (e : event) : Component * list PeerStateEvent :=
  match e with
  | Connected a => PeerConnect p a
  | Disconnected a => PeerDisconnect p a
  | TimerTick now peers => let '(p, _, _, es, _) := keepaliveService_round p true (Tick now peers) in (p, es)
  end.
Fixpoint run (p : Component) (es : list event) : Component * list PeerStateEvent :=
  match es with
  | [] => (p, [])
  | e :: es =>
      let '(p, ns) := handle p e in
      let '(p, ns') := run p es in
      (p, ns ++ ns')
  end.

(** ** Specification: per address, the changes of state *)

(** What an address is observed to be, event by event. *)
Definition observed (timeout : Z) (a : bytes) (e : event) : list PeerState :=
  match e with
  | Connected b => if decide (b = a) then [PEER_REACHABLE] else []
  | Disconnected b => if decide (b = a) then [PEER_UNREACHABLE] else []
  | TimerTick now peers =>
      (fun _ => PEER_UNREACHABLE) <$> filter (fun '(b, t) => b = a /\ t + timeout < now) peers
  end.
(** The observations that differ from the one before. *)
Fixpoint changes (last : option PeerState) (os : list PeerState) : list PeerState :=
  match os with
  | [] => []
  | o :: os => if decide (last = Some o) then changes last os else o :: changes (Some o) os
  end.
Definition final (last : option PeerState) (os : list PeerState) : option PeerState :=
  foldl (fun _ o => Some o) last os.
Definition notified (a : bytes) (ns : list PeerStateEvent) : list PeerState :=
  State <$> filter (fun n => Address n = a) ns.

(** ** Lemmas *)

Lemma changes_app last os os' :
  changes last (os ++ os') = changes last os ++ changes (final last os) os'.
Proof.
  revert last. induction os as [|o os IH]; intros last; [done|]. cbn [app changes final foldl].
  case_decide as E; [rewrite IH; by subst|]. by rewrite IH.
Qed.
Lemma final_app last os os' : final last (os ++ os') = final (final last os) os'.
Proof. apply foldl_app. Qed.
Lemma notified_app a ns ns' : notified a (ns ++ ns') = notified a ns ++ notified a ns'.
Proof. unfold notified. by rewrite filter_app, fmap_app. Qed.

(** A step keeps the configuration and treats every address as the specification says. *)
Definition follows (p : Component) (r : Component * list PeerStateEvent)
    (os : bytes -> list PeerState) : Prop :=
  keepaliveTimeout (fst r) = keepaliveTimeout p /\ peerStateChan (fst r) = peerStateChan p /\
  forall a, lastStates (fst r) !! a = final (lastStates p !! a) (os a) /\
    (peerStateChan p = true -> notified a (snd r) = changes (lastStates p !! a) (os a)) /\
    (peerStateChan p = false -> notified a (snd r) = []).

Lemma follows_nil p : follows p (p, []) (fun _ => []).
Proof. by split. Qed.

Lemma follows_app p p1 p2 ns1 ns2 os1 os2 :
  follows p (p1, ns1) os1 -> follows p1 (p2, ns2) os2 ->
  follows p (p2, ns1 ++ ns2) (fun a => os1 a ++ os2 a).
Proof.
  intros (Ht1 & Hc1 & H1) (Ht2 & Hc2 & H2). cbn [fst snd] in *. split; [cbn; congruence|].
  split; [cbn; congruence|]. intros a. cbn [fst snd]. destruct (H1 a) as (Hl1 & Hn1 & Hz1).
  destruct (H2 a) as (Hl2 & Hn2 & Hz2). rewrite notified_app, final_app, changes_app, <-Hl1.
  split; [done|]. split; intros Hc.
  - rewrite Hn1, Hn2 by congruence. done.
  - by rewrite Hz1, Hz2 by congruence.
Qed.

Lemma update_follows p b s :
  follows p (updateLastStateAndNotify p b s) (fun a => if decide (b = a) then [s] else []).
Proof.
  unfold updateLastStateAndNotify.
  assert (Hl : forall a, lastStates (set_state p b s) !! a
    = final (lastStates p !! a) (if decide (b = a) then [s] else [])).
  { intros a. simpl. case_decide; [subst; by rewrite lookup_insert_eq|by rewrite lookup_insert_ne]. }
  case_bool_decide as E; [|change (peerStateChan (set_state p b s)) with (peerStateChan p);
    destruct (peerStateChan p) eqn:Ec]; (split; [done|]; split; [done|]; intros a; cbn [fst snd];
    split; [apply Hl|]; split; intros Hc; try congruence; try done).
  - case_decide; [subst|done]. cbn [changes]. by rewrite decide_True.
  - unfold notified. rewrite filter_cons. cbn [Address]. case_decide; subst.
    + cbn [changes]. by rewrite decide_False.
    + done.
Qed.

Lemma timeout_follows p now peers :
  follows p (timeout p now peers) (fun a => observed (keepaliveTimeout p) a (TimerTick now peers)).
Proof.
  revert p. induction peers as [|[b t] peers IH]; intros p; [apply follows_nil|]. cbn [timeout].
  assert (H1 : follows p
    (if t + keepaliveTimeout p <? now then updateLastStateAndNotify p b PEER_UNREACHABLE else (p, []))
    (fun a => if decide (b = a /\ t + keepaliveTimeout p < now) then [PEER_UNREACHABLE] else [])).
  { destruct (Z.ltb_spec (t + keepaliveTimeout p) now) as [Hlt|Hge].
    - pose proof (update_follows p b PEER_UNREACHABLE) as (Ht & Hc & H). split; [done|]. split; [done|].
      intros a. specialize (H a). destruct (decide (b = a)) as [->|Hne].
      + by rewrite decide_True.
      + rewrite decide_False by tauto. done.
    - split; [done|]. split; [done|]. intros a. rewrite decide_False by lia. done. }
  destruct (if t + keepaliveTimeout p <? now then _ else _) as [p1 ns1].
  specialize (IH p1). destruct (timeout p1 now peers) as [p2 ns2].
  assert (Ht1 : keepaliveTimeout p1 = keepaliveTimeout p) by apply H1. rewrite Ht1 in IH.
  pose proof (follows_app _ _ _ _ _ _ _ H1 IH) as (Ht & Hc & H). split; [done|]. split; [done|].
  intros a. specialize (H a). cbn [observed] in *. rewrite filter_cons.
  destruct (decide (b = a /\ t + keepaliveTimeout p < now)) as [Hd|Hd]; exact H.
Qed.

Lemma handle_follows p e : follows p (handle p e) (fun a => observed (keepaliveTimeout p) a e).
Proof.
  destruct e as [b|b|now peers]; cbn [handle keepaliveService_round observed];
    [apply update_follows..|].
  pose proof (timeout_follows p now peers) as H. by destruct (timeout p now peers).
Qed.

Lemma run_follows p es : follows p (run p es) (fun a => mjoin (observed (keepaliveTimeout p) a <$> es)).
Proof.
  revert p. induction es as [|e es IH]; intros p; [apply follows_nil|]. cbn [run].
  pose proof (handle_follows p e) as H1. destruct (handle p e) as [p1 ns1].
  specialize (IH p1). destruct (run p1 es) as [p2 ns2].
  assert (Ht1 : keepaliveTimeout p1 = keepaliveTimeout p) by apply H1. rewrite Ht1 in IH.
  exact (follows_app _ _ _ _ _ _ _ H1 IH).
Qed.

Lemma changes_alternate last os :
  StronglySorted (fun _ _ => True) (changes last os) /\
  forall pre x y post, changes last os = pre ++ x :: y :: post -> x <> y.
Proof.
  split.
  - induction (changes last os); constructor; [done|]. by apply Forall_true.
  - revert last. induction os as [|o os IH]; intros last pre x y post; cbn [changes].
    { by destruct pre. }
    case_decide; [apply IH|]. destruct pre as [|z pre]; cbn [app]; intros [= -> E]; [|by eapply IH].
    destruct os as [|o' os]; [done|].
    assert (Hhd : forall os, changes (Some x) os = y :: post -> x <> y).
    { clear. induction os as [|o os IH]; [done|]. cbn [changes].
      case_decide as E; [apply IH|]. intros [= -> _] ->. done. }
    by eapply Hhd.
Qed.

(** ** Properties *)

(** C25. Whatever the interleaving of connections, disconnections and timer rounds, the listener is
    told, for each address and independently of the others, exactly the changes of its
    observed state, in order: never the same state twice in a row, and nothing is missed.  The
    recorded state is the last one observed. *)
Theorem notifications_are_changes (p : Component) (es : list event) (a : bytes) :
  let '(p', ns) := run p es in
  let os := mjoin (observed (keepaliveTimeout p) a <$> es) in
  lastStates p' !! a = final (lastStates p !! a) os /\
  notified a ns = (if peerStateChan p then changes (lastStates p !! a) os else []) /\
  forall pre x y post, notified a ns = pre ++ x :: y :: post -> x <> y.
Proof.
  pose proof (run_follows p es) as (_ & _ & H). destruct (run p es) as [p' ns]. cbn zeta.
  destruct (H a) as (Hl & Hn & Hz). cbn [fst snd] in *. split; [done|].
  assert (E : notified a ns = if peerStateChan p
    then changes (lastStates p !! a) (mjoin (observed (keepaliveTimeout p) a <$> es)) else [])
    by (destruct (peerStateChan p); auto).
  split; [done|]. rewrite E. intros pre x y post. destruct (peerStateChan p); [|by destruct pre].
  apply changes_alternate.
Qed.

(** An address becomes reachable only by a new connection: once it timed out, neither traffic
    nor timer rounds that find it alive again make it reachable. *)
Theorem reachable_only_by_connection (p : Component) (es : list event) (a : bytes) :
  lastStates p !! a <> Some PEER_REACHABLE -> Connected a ∉ es ->
  lastStates (fst (run p es)) !! a <> Some PEER_REACHABLE.
Proof.
  intros Hp Hes. pose proof (run_follows p es) as (_ & _ & H). destruct (H a) as (-> & _).
  assert (Hos : PEER_REACHABLE ∉ mjoin (observed (keepaliveTimeout p) a <$> es)).
  { rewrite list_elem_of_join. intros (l & Hr & (e & -> & He)%list_elem_of_fmap).
    destruct e as [b|b|now peers]; cbn [observed] in Hr.
    - case_decide; [by subst|by apply not_elem_of_nil in Hr].
    - case_decide; [by apply list_elem_of_singleton in Hr|by apply not_elem_of_nil in Hr].
    - by apply list_elem_of_fmap in Hr as (? & ? & _). }
  revert Hp Hos. generalize (lastStates p !! a). clear.
  induction (mjoin (observed (keepaliveTimeout p) a <$> es)) as [|o os IH]; intros l Hl Ho; [done|].
  apply not_elem_of_cons in Ho as [Ho1 Ho2]. cbn [final foldl]. apply IH; [congruence|done].
Qed.

(** Closing [stopCh] does not end [keepaliveService]: no round of its loop returns, and the
    stopped case, ready for ever, stops the ticker again and again. *)
Theorem service_never_returns (p : Component) (ticking : bool) (r : round) :
  (exists p' t b es, keepaliveService_round p ticking r = (p', t, b, es, Continue)) /\
  (r = Stopped -> keepaliveService_round p ticking r = (p, false, false, [], Continue)).
Proof.
  split; [|by intros ->]. destruct r as [now peers|]; cbn [keepaliveService_round]; [|eauto 10].
  destruct (timeout p now peers) as [p' es]. eauto 10.
Qed.

(** ** Witnesses *)

Lemma reachable_only_by_connection_witness :
  lastStates (fst (run (New []) [Connected [x61]; TimerTick 100000000000 [([x61], 0)]])) !! [x61]
  <> Some PEER_REACHABLE /\
  lastStates (fst (run (fst (run (New []) [Connected [x61]; TimerTick 100000000000 [([x61], 0)]]))
    [TimerTick 100000000001 [([x61], 100000000000)]])) !! [x61] <> Some PEER_REACHABLE.
Proof.
  split; [vm_compute; congruence|].
  apply reachable_only_by_connection; [vm_compute; congruence|].
  intros H. inversion H as [|? ? ? H']. inversion H'.
Defined.

Lemma notifications_are_changes_witness :
  snd (run (New [WithPeerStateChan true])
    [Connected [x61]; Connected [x61]; Connected [x62]; TimerTick 100000000000 [([x61], 0); ([x62], 99000000000)];
     Disconnected [x61]; Connected [x61]])
  = [mkEvent [x61] PEER_REACHABLE; mkEvent [x62] PEER_REACHABLE; mkEvent [x61] PEER_UNREACHABLE;
     mkEvent [x61] PEER_REACHABLE].
Proof. vm_compute. reflexivity. Defined.

Lemma service_never_returns_witness :
  keepaliveService_round (New []) true Stopped = (New [], false, false, [], Continue).
Proof. apply (service_never_returns (New []) true Stopped). reflexivity. Defined.
