(* ===== verification/Discovery.v ===== *)
(** * Peer discovery: [network/discovery/]

    [Receive] is the component's message handler: the routing table is updated with the sender
    of every message, and requests are answered.  What it does to the network is its output:
    replies and the disconnection of the client.

    [FindNode] asks peers for the peers closest to a target.  The peers meet it through
    [query] (what a peer answers, nothing on an error or a timeout), the scheduler through
    [pick] (which of the pending queries answers next) and a schedule of the steps of [FindNode]
    and of the goroutines it starts ([find_step]), and [sort.Slice], which is not stable,
    through a parameter. *)

From S2P Require Import Prelude Messages Peer Dht Opcode.
#[local] Open Scope Z_scope.

(** ** [component.go] *)

Section Component.
Context `{!UserMessages UM UT}.

Record Component := mkComponent {
  DisablePing : bool;
  DisablePong : bool;
  DisableLookup : bool;
  Routes : option RoutingTable;  (* nil before Startup *)
}.

Definition set_routes (state : Component) (t : RoutingTable) : Component :=
  mkComponent (DisablePing state) (DisablePong state) (DisableLookup state) (Some t).

Definition Startup (state : Component) (id : ID) : res Component :=
  t ← CreateRoutingTable id;
  Ok (set_routes state t).

(** A method of the routing table through the pointer [state.Routes]. *)
Definition routes (state : Component) : res RoutingTable :=
  match Routes state with Some t => Ok t | None => Panic PNilDeref end.

Inductive action :=
| Reply (signed : bool) (msg : proto_Message UM)
| CloseClient.

(** [sender] is [client.ID]; [reply] is the error of [ctx.Reply], if any.  Returns the
    component, what it did and its error. *)
Definition Receive (state : Component) (sender : option ID) (msg : proto_Message UM)
    (reply : option string) : res (Component * list action * option string) :=
  match sender with
  | None => Panic PNilDeref
  | Some sender =>
      t ← routes state;
      t ← Update t sender;
      let state := set_routes state t in
      match msg with
      | PPing _ =>
          if DisablePing state then Ok (state, [], None)
          else Ok (state, [Reply true (PPong (mkPong None))], reply)
      | PPong _ => Ok (state, [], None)
      | PLookupNodeRequest msg =>
          if DisableLookup state then Ok (state, [], None)
          else
            match LookupNodeRequest_Target msg with
            | None => Panic PNilDeref
            | Some target =>
                peers ← FindClosestPeers t target BucketSize;
                Ok (state, [Reply true (PLookupNodeResponse (mkLookupNodeResponse peers None))], reply)
            end
      | PDisconnect _ => Ok (state, [CloseClient], None)
      | _ => Ok (state, [], None)
      end
  end.

Definition PeerDisconnect (state : Component) (id : option ID) : res Component :=
  match id with
  | None => Ok state
  | Some id =>
      t ← routes state;
      b ← PeerExists t id;
      if (b : bool) then '(t, _) ← RemovePeer t id; Ok (set_routes state t) else Ok state
  end.
End Component.

(** ** [rpc.go] *)

Section Lookup.
(** What [queryPeerByID] sends on the channel for a peer: its answer, or no peers. *)
Context (query : ID -> list ID) (pick : list ID -> nat).

(** The keys of the shared map [visited]. *)
Abbreviation visited_map := (gset bytes).

Record lookupBucket := mkLookup {
  pending : list ID;        (* the queries not answered yet; the code counts them *)
  queue : list ID;
  asked : list ID;          (* ghost: the peers queried so far *)
}.

(** [for ; lookup.pending < alpha && len(lookup.queue) > 0; lookup.pending++]: the peers taken
    off the queue; what remains is dropped. *)
Definition spawn (alpha : Z) (lookup : lookupBucket) : lookupBucket * list ID :=
  let n := Z.to_nat (alpha - zlen (pending lookup)) in
  let now := take n (queue lookup) in
  (mkLookup (pending lookup ++ now) [] (asked lookup ++ now), now).

(** The loop over a response. *)
Definition expand1 (s : visited_map * list ID * list ID) (id : ID) : visited_map * list ID * list ID :=
  let '(visited, results, queue) := s in
  let k := PublicKeyHex id in
  if bool_decide (k ∈ visited) then s
  else ({[k]} ∪ visited, results ++ [id], queue ++ [id]).
Definition expand (visited : visited_map) (results queue response : list ID) :
    visited_map * list ID * list ID :=
  foldl expand1 (visited, results, queue) response.

(** [for lookup.pending > 0]. *)
Fixpoint lookup_loop (fuel : nat) (alpha : Z) (lookup : lookupBucket) (visited : visited_map)
    (results : list ID) : res (list ID * visited_map * lookupBucket) :=
  match pending lookup with
  | [] => Ok (results, visited, lookup)
  | p0 :: _ =>
      match fuel with
      | O => Panic PFuel
      | S fuel =>
          let k := (pick (pending lookup) mod length (pending lookup))%nat in
          let peer := default p0 (pending lookup !! k) in
          let '(visited, results, queue) := expand visited results (queue lookup) (query peer) in
          let '(lookup, _) := spawn alpha (mkLookup (delete k (pending lookup)) queue (asked lookup)) in
          lookup_loop fuel alpha lookup visited results
      end
  end.

Definition performLookup (fuel : nat) (alpha : Z) (queue : list ID) (visited : visited_map) :
    res (list ID * visited_map * lookupBucket) :=
  let '(lookup, results) := spawn alpha (mkLookup [] queue []) in
  lookup_loop fuel alpha lookup visited results.

(** The peers closest to the target, dealt to at most [disjointPaths] queues.  The index
    [i%disjointPaths] of a zero divisor panics. *)
Fixpoint deal (i disjointPaths : Z) (lookups : list (list ID)) (peers : list ID) :
    res (list (list ID)) :=
  match peers with
  | [] => Ok lookups
  | p :: peers =>
      let lookups := if zlen lookups <? disjointPaths then lookups ++ [[]] else lookups in
      if disjointPaths =? 0 then Panic PDivZero
      else
        q ← index lookups (Z.rem i disjointPaths);
        deal (i + 1) disjointPaths (<[Z.to_nat (Z.rem i disjointPaths) := q ++ [p]]> lookups) peers
  end.

(** The comparator of the final sort. *)
Definition find_less (targetID left right : ID) : bool :=
  Less (Xor left targetID) (Some (Xor right targetID)).

(** A goroutine of [FindNode]: it has yet to get the mutex and perform its lookup, or to call
    [wait.Done], or has ended. *)
Inductive lookup_go :=
| GoLookup (queue : list ID)
| GoDone
| GoEnd.

(** [FindNode] from its second loop on: the variables it shares with its goroutines, the lookups
    to start a goroutine for, whether [wait.Add(1)] is due for the goroutine started last, the
    goroutines, and whether [wait.Wait] has returned. *)
Record find_state := mkFind {
  find_results : list ID;
  find_visited : visited_map;
  wait : Z;
  to_start : list (list ID);
  add_due : bool;
  goroutines : list lookup_go;
  waited : bool;
}.

(** A step of [FindNode] itself, the critical section of a goroutine (all of its lookup), and its
    [wait.Done].  A step that cannot be taken leaves the state as it is. *)
Inductive find_step :=
| FMain
| FLookup (k : nat)
| FDone (k : nat).

Definition negative_counter : panic := PExplicit "sync: negative WaitGroup counter".

Definition find_step1 (fuel : nat) (alpha : Z) (s : find_state) (e : find_step) : res find_state :=
  let '(mkFind results visited n ls due gs done) := s in
  match e with
  | FMain =>
      if due then Ok (mkFind results visited (n + 1) ls false gs done)
      else
        match ls with
        | lookup :: ls => Ok (mkFind results visited n ls true (gs ++ [GoLookup lookup]) done)
        | [] => Ok (mkFind results visited n [] false gs (done || (n =? 0)))
        end
  | FLookup k =>
      match gs !! k with
      | Some (GoLookup queue) =>
          '(rs, visited, _) ← performLookup fuel alpha queue visited;
          Ok (mkFind (results ++ rs) visited n ls due (<[k := GoDone]> gs) done)
      | _ => Ok s
      end
  | FDone k =>
      match gs !! k with
      | Some GoDone =>
          if n - 1 <? 0 then Panic negative_counter
          else Ok (mkFind results visited (n - 1) ls due (<[k := GoEnd]> gs) done)
      | _ => Ok s
      end
  end.
Fixpoint find_run (fuel : nat) (alpha : Z) (s : find_state) (sched : list find_step) : res find_state :=
  match sched with
  | [] => Ok s
  | e :: sched => s ← find_step1 fuel alpha s e; find_run fuel alpha s sched
  end.

(** The first loop. *)
Definition find_start (t : RoutingTable) (targetID : ID) (alpha disjointPaths : Z) : res find_state :=
  start ← FindClosestPeers t targetID alpha;
  let visited := list_to_set (PublicKeyHex <$> start) in
  lookups ← deal 0 disjointPaths [] start;
  Ok (mkFind start visited 0 lookups false [] false).

Context (Slice : (ID -> ID -> bool) -> list ID -> list ID).

(** [routes]: the table of the discovery component, [None] when it is not registered.  The result
    is [None] while [FindNode] has not returned. *)
Definition FindNode (fuel : nat) (routes : option RoutingTable) (targetID : ID)
    (alpha disjointPaths : Z) (sched : list find_step) : res (option (list ID)) :=
  match routes with
  | None => Ok (Some [])
  | Some t =>
      s ← find_start t targetID alpha disjointPaths;
      s ← find_run fuel alpha s sched;
      if waited s then
        let results := Slice (find_less targetID) (find_results s) in
        Some <$> (if BucketSize <? zlen results then subslice results 0 BucketSize else Ok results)
      else Ok None
  end.

(** ** Specification *)

Definition hexkey : ID -> bytes := PublicKeyHex.

(** What a lookup has done so far: only new peers were queried after the first ones, each once,
    at most [alpha] at a time; what it returns is what it started from and what peers
    answered, each new peer once. *)
Record lookup_inv (alpha : Z) (v0 visited : visited_map) (results0 results : list ID)
    (l : lookupBucket) : Prop := {
  li_pending : zlen (pending l) <= Z.max 0 alpha;
  li_sub : pending l ⊆+ asked l;
  li_queue : queue l = [];
  li_results : exists new, results = results0 ++ new /\
    NoDup (hexkey <$> new) /\
    (forall x, x ∈ new -> hexkey x ∉ v0 /\ exists p, p ∈ asked l /\ x ∈ query p) /\
    visited = list_to_set (hexkey <$> new) ∪ v0 /\
    exists first later, asked l = first ++ later /\ first ⊆+ results0 /\ later ⊆+ new;
}.
End Lookup.

(** ** Lemmas *)

Section Lemmas.
Context (query : ID -> list ID) (pick : list ID -> nat).

Lemma expand_spec v results q response :
  exists new, expand v results q response
    = (list_to_set (hexkey <$> new) ∪ v, results ++ new, q ++ new) /\
    NoDup (hexkey <$> new) /\ (forall x, x ∈ new -> hexkey x ∉ v /\ x ∈ response) /\
    (forall x, x ∈ response -> hexkey x ∈ (list_to_set (hexkey <$> new) ∪ v : gset bytes)).
Proof.
  unfold expand. revert v results q. induction response as [|id response IH]; intros v results q.
  { exists []. simpl. rewrite !app_nil_r. split; [f_equal; f_equal; set_solver|].
    split; [constructor|]. set_solver. }
  cbn [foldl expand1]. change (PublicKeyHex id) with (hexkey id). case_bool_decide as Hv.
  - destruct (IH v results q) as (new & -> & Hn & Hx & Hr). exists new.
    split; [done|]. split; [done|]. split; set_solver.
  - destruct (IH ({[hexkey id]} ∪ v) (results ++ [id]) (q ++ [id])) as (new & -> & Hn & Hx & Hr).
    exists (id :: new). rewrite fmap_cons. split; [|split; [|split]].
    + f_equal; [f_equal; [set_solver|by rewrite <-(assoc_L (++))]|by rewrite <-(assoc_L (++))].
    + constructor; [|done]. intros (y & Hy & Hyn)%list_elem_of_fmap.
      destruct (Hx y Hyn) as [Hny _]. apply Hny. set_solver.
    + intros x [->|Hxn]%elem_of_cons; [split; [done|left]|].
      destruct (Hx x Hxn). split; [set_solver|by right].
    + intros x [->|Hxr]%elem_of_cons; [set_solver|]. specialize (Hr x Hxr). set_solver.
Qed.

Lemma pick_pending (l : list ID) p0 k :
  k = (pick l mod length l)%nat -> l <> [] ->
  default p0 (l !! k) ∈ l /\ l ≡ₚ default p0 (l !! k) :: delete k l.
Proof.
  intros -> Hl. assert (Hk : (pick l mod length l < length l)%nat).
  { apply Nat.mod_upper_bound. by destruct l. }
  destruct (lookup_lt_is_Some_2 l _ Hk) as [x Hx]. rewrite Hx. simpl.
  split; [by eapply list_elem_of_lookup_2|]. by apply delete_Permutation.
Qed.

(** One round of [lookup_loop]. *)
Definition round (alpha : Z) (l : lookupBucket) (visited : gset bytes) (results : list ID) (p0 : ID) :
    lookupBucket * gset bytes * list ID :=
  let k := (pick (pending l) mod length (pending l))%nat in
  let peer := default p0 (pending l !! k) in
  let '(visited, results, queue) := expand visited results (queue l) (query peer) in
  (fst (spawn alpha (mkLookup (delete k (pending l)) queue (asked l))), visited, results).

Lemma round_spec alpha l visited results p0 :
  pending l <> [] -> queue l = [] -> p0 ∈ pending l ->
  exists peer rest new now,
    pending l ≡ₚ peer :: rest /\ now = take (Z.to_nat (alpha - zlen rest)) new /\
    round alpha l visited results p0
    = (mkLookup (delete (pick (pending l) mod length (pending l))%nat (pending l) ++ now) [] (asked l ++ now),
       list_to_set (hexkey <$> new) ∪ visited, results ++ new) /\
    rest ≡ₚ delete (pick (pending l) mod length (pending l))%nat (pending l) /\
    NoDup (hexkey <$> new) /\ (forall x, x ∈ new -> hexkey x ∉ visited /\ x ∈ query peer).
Proof.
  intros Hne Hq Hp0. unfold round. rewrite Hq.
  set (k := (pick (pending l) mod length (pending l))%nat).
  destruct (pick_pending (pending l) p0 k eq_refl Hne) as [Hin HP].
  set (peer := default p0 (pending l !! k)) in *.
  destruct (expand_spec visited results [] (query peer)) as (new & -> & Hn & Hx & _).
  exists peer, (delete k (pending l)), new, (take (Z.to_nat (alpha - zlen (delete k (pending l)))) new).
  split; [done|]. split; [done|]. split; [done|]. split; [done|]. done.
Qed.

Lemma round_inv alpha v0 r0 l visited results p0 l' visited' results' :
  lookup_inv query alpha v0 visited r0 results l -> pending l <> [] -> p0 ∈ pending l ->
  round alpha l visited results p0 = (l', visited', results') ->
  lookup_inv query alpha v0 visited' r0 results' l'.
Proof.
  intros [Hpe Hsub Hq (new0 & -> & Hn0 & Hx0 & Hv & first & later & Ha & Hfi & Hla)] Hne Hp0 Hround.
  destruct (round_spec alpha l visited (r0 ++ new0) p0 Hne Hq Hp0)
    as (peer & rest & new & now & HP & Hnow & Hr & Hrest & Hn & Hx).
  rewrite Hr in Hround. injection Hround as <- <- <-.
  assert (Hlr : zlen rest = zlen (pending l) - 1) by (rewrite HP, zlen_cons; lia).
  assert (Hln : zlen now <= Z.max 0 (alpha - zlen rest)).
  { rewrite Hnow. unfold zlen at 1. rewrite length_take. lia. }
  assert (Hns : now ⊆+ new).
  { rewrite Hnow. rewrite <-(take_drop (Z.to_nat (alpha - zlen rest)) new) at 2.
    by apply submseteq_inserts_r. }
  split; cbn [pending queue asked].
  - rewrite zlen_app, <-Hrest. lia.
  - rewrite <-Hrest. apply submseteq_app; [|done]. etrans; [|exact Hsub]. rewrite HP.
    by apply submseteq_cons.
  - done.
  - exists (new0 ++ new). rewrite (assoc_L (++)). split; [done|]. rewrite fmap_app.
    split; [|split; [|split]].
    + apply NoDup_app. split; [done|]. split; [|done]. intros k Hk (x & -> & Hxn)%list_elem_of_fmap.
      destruct (Hx x Hxn) as [Hnv _]. apply Hnv. rewrite Hv. set_solver.
    + intros x [Hxn|Hxn]%elem_of_app.
      * destruct (Hx0 x Hxn) as [? (p & Hp & ?)]. split; [done|]. exists p. split; [set_solver|done].
      * destruct (Hx x Hxn) as [Hnv Hxq]. split; [set_solver|]. exists peer. split; [|done].
        apply elem_of_app. left. eapply elem_of_submseteq; [|exact Hsub]. rewrite HP. left.
    + rewrite Hv, list_to_set_app_L. set_solver.
    + exists first, (later ++ now). rewrite Ha, (assoc_L (++)). split; [done|]. split; [done|].
      by apply submseteq_app.
Qed.

(** The keys still unseen in a finite network. *)
Lemma unseen_decreases (U visited : gset bytes) (new : list ID) :
  NoDup (hexkey <$> new) -> (forall x, x ∈ new -> hexkey x ∉ visited /\ hexkey x ∈ U) ->
  (size (U ∖ (list_to_set (hexkey <$> new) ∪ visited)) + length new = size (U ∖ visited))%nat.
Proof.
  intros Hn Hx. set (N := list_to_set (hexkey <$> new) : gset bytes).
  assert (HN : size N = length new).
  { unfold N. rewrite size_list_to_set by done. by rewrite length_fmap. }
  assert (E : U ∖ visited = (U ∖ (N ∪ visited)) ∪ N).
  { assert (HNU : forall k, k ∈ N -> k ∉ visited /\ k ∈ U).
    { intros k (x & -> & Hxn)%elem_of_list_to_set%list_elem_of_fmap. auto. }
    apply set_eq. intros k. specialize (HNU k). destruct (decide (k ∈ N)); set_solver. }
  rewrite E, (size_union (U ∖ (N ∪ visited)) N) by set_solver. lia.
Qed.

Lemma lookup_loop_spec (U : gset bytes) alpha v0 r0 fuel l visited results :
  (forall p x, x ∈ query p -> hexkey x ∈ U) ->
  lookup_inv query alpha v0 visited r0 results l ->
  (length (pending l) + size (U ∖ visited) <= fuel)%nat ->
  exists results' visited' l',
    lookup_loop query pick fuel alpha l visited results = Ok (results', visited', l') /\
    pending l' = [] /\ lookup_inv query alpha v0 visited' r0 results' l'.
Proof.
  intros HU. revert l visited results.
  induction fuel as [|fuel IH]; intros l visited results Hinv Hf; cbn [lookup_loop];
    destruct (pending l) as [|p0 ps] eqn:Ep.
  - eauto 10.
  - simpl in Hf. lia.
  - eauto 10.
  - rewrite <-Ep. assert (Hne : pending l <> []) by (by rewrite Ep).
    assert (Hp0 : p0 ∈ pending l) by (rewrite Ep; left).
    pose proof (round_spec alpha l visited results p0 Hne (li_queue _ _ _ _ _ _ _ Hinv) Hp0)
      as (peer & rest & new & now & HP & Hnow & Hr & Hrest & Hn & Hx).
    pose proof (round_inv alpha v0 r0 l visited results p0 _ _ _ Hinv Hne Hp0 Hr) as Hinv'.
    unfold round in Hr. destruct (expand _ _ _ _) as [[v' res'] q'].
    destruct (spawn _ _) as [l' ?]. cbn [fst] in Hr. injection Hr as -> -> ->.
    apply IH; [done|]. cbn [pending]. rewrite length_app.
    apply Permutation_length in HP as HPl. apply Permutation_length in Hrest as Hrl.
    simpl in HPl. cbn [length] in Hf. rewrite Ep in HPl. cbn [length] in HPl.
    assert (length now <= length new)%nat by (rewrite Hnow, length_take; lia).
    pose proof (unseen_decreases U visited new Hn) as HD.
    rewrite <-HD in Hf by (intros x Hxn; destruct (Hx x Hxn); eauto). lia.
Qed.

Lemma performLookup_spec (U : gset bytes) alpha v0 fuel q :
  (forall p x, x ∈ query p -> hexkey x ∈ U) -> (length q + size U <= fuel)%nat ->
  exists results visited l,
    performLookup query pick fuel alpha q v0 = Ok (results, visited, l) /\ pending l = [] /\
    lookup_inv query alpha v0 visited (take (Z.to_nat alpha) q) results l.
Proof.
  intros HU Hf. unfold performLookup, spawn. cbn [pending queue asked app].
  rewrite zlen_nil, Z.sub_0_r. apply (lookup_loop_spec U).
  - done.
  - split; cbn [pending queue asked].
    + unfold zlen. rewrite length_take. lia.
    + done.
    + done.
    + exists []. rewrite app_nil_r. split; [done|]. split; [constructor|].
      split; [set_solver|]. split; [simpl; set_solver|].
      exists (take (Z.to_nat alpha) q), []. by rewrite app_nil_r.
  - cbn [pending]. rewrite length_take.
    assert (size (U ∖ v0) <= size U)%nat by (apply subseteq_size; set_solver). lia.
Qed.

(** ** [FindNode] and its goroutines *)

Definition active (g : lookup_go) : bool := match g with GoEnd => false | _ => true end.
Definition go_queue (g : lookup_go) : list ID := match g with GoLookup q => q | _ => [] end.

(** Along any run: the counter is that of the goroutines that have not ended, but for the
    [wait.Add] that is due; the queues hold peers the run started from, and the results these and
    peers that were reported; [wait.Wait] returns when every goroutine has ended. *)
Record find_inv (start : list ID) (s : find_state) : Prop := {
  fi_wait : wait s = zlen (filter active (goroutines s)) - Z.b2z (add_due s);
  fi_nonneg : 0 <= wait s;
  fi_queues : Forall (fun q => (length q <= length start)%nat /\ q ⊆ start)
                (to_start s ++ (go_queue <$> goroutines s));
  fi_results : forall x, x ∈ find_results s -> x ∈ start \/ exists p, x ∈ query p;
  fi_waited : waited s = true -> to_start s = [] /\ add_due s = false /\ wait s = 0;
}.

Lemma active_insert gs k g g' :
  gs !! k = Some g -> active g = true ->
  zlen (filter active (<[k := g']> gs)) = zlen (filter active gs) - 1 + Z.b2z (active g').
Proof.
  intros Hk Hg. rewrite <-(take_drop_middle _ _ _ Hk) at 2.
  rewrite insert_take_drop by (by eapply lookup_lt_Some).
  rewrite !filter_app, (filter_cons_True _ g) by (by rewrite Hg).
  destruct g'; rewrite ?filter_cons_True, ?filter_cons_False by (done || by intros []);
    rewrite !zlen_app, ?zlen_cons; cbn [active Z.b2z]; lia.
Qed.

Lemma active_pos gs k g : gs !! k = Some g -> active g = true -> 1 <= zlen (filter active gs).
Proof.
  intros Hk Hg. pose proof (active_insert gs k g GoEnd Hk Hg) as H. cbn [active Z.b2z] in H.
  pose proof (zlen_nonneg (filter active (<[k := GoEnd]> gs))). lia.
Qed.

Lemma queues_insert (Q : list ID -> Prop) ls gs k g :
  Forall Q (ls ++ (go_queue <$> gs)) -> Q (go_queue g) -> Forall Q (ls ++ (go_queue <$> <[k := g]> gs)).
Proof. rewrite !Forall_app, list_fmap_insert. intros [H1 H2] H. split; [done|]. by apply Forall_insert. Qed.

Section Run.
Context (U : gset bytes) (alpha : Z) (fuel : nat) (start : list ID).
Context (HU : forall p x, x ∈ query p -> hexkey x ∈ U).
Context (Hf : (length start + size U <= fuel)%nat).
#[local] Abbreviation step := (find_step1 query pick fuel alpha).

(** What a step does: it keeps the invariant, or it is a [wait.Done] that overtook its
    [wait.Add]. *)
Lemma find_step1_inv s e :
  find_inv start s ->
  (exists s', step s e = Ok s' /\ find_inv start s') \/
  (exists k, e = FDone k) /\ step s e = Panic negative_counter /\ add_due s = true /\ wait s = 0.
Proof.
  intros Hs. pose proof Hs as [Hw Hn Hq Hr Hd]. destruct s as [results visited n ls due gs done0].
  cbn [find_results wait to_start add_due goroutines waited] in *.
  destruct e as [|k|k]; cbn [find_step1].
  - left. destruct due; [|destruct ls as [|lookup ls]]; eexists; (split; [reflexivity|]); split;
      cbn [find_results wait to_start add_due goroutines waited Z.b2z] in *; try done; try lia.
    + intros H. by destruct (Hd H) as (_ & ? & _).
    + intros H. split; [done|]. split; [done|]. destruct done0; [by apply Hd | by apply Z.eqb_eq in H].
    + rewrite filter_app, zlen_app, filter_cons_True, zlen_cons, filter_nil, zlen_nil by done. lia.
    + rewrite fmap_app. cbn [fmap list_fmap go_queue]. apply Forall_app in Hq as [Hl Hg].
      apply Forall_cons in Hl as [Hl Hls]. rewrite !Forall_app, Forall_singleton. done.
    + intros H. by destruct (Hd H) as (? & _).
  - left. destruct (gs !! k) as [[q| |]|] eqn:Hk; try (eexists; split; [reflexivity | exact Hs]).
    assert (Hqk : (length q <= length start)%nat /\ q ⊆ start).
    { apply Forall_app in Hq as [_ Hg]. rewrite Forall_forall in Hg. apply Hg.
      apply list_elem_of_fmap. exists (GoLookup q). split; [done|]. by eapply list_elem_of_lookup_2. }
    destruct (performLookup_spec U alpha visited fuel q HU ltac:(lia)) as (rs & v1 & l & -> & _ & Hinv).
    cbn [mbind res_bind]. eexists. split; [reflexivity|].
    split; cbn [find_results wait to_start add_due goroutines waited]; try done.
    + rewrite (active_insert _ _ _ _ Hk) by done. cbn [active Z.b2z]. lia.
    + apply queues_insert; [done|]. split; cbn; [lia|set_solver].
    + intros x [Hx|Hx]%elem_of_app; [by apply Hr|]. destruct Hinv as [_ _ _ (new & -> & _ & Hnew & _)].
      apply elem_of_app in Hx as [Hx|Hx].
      * left. apply (proj2 Hqk). apply elem_of_take in Hx as (i & Hi & _). by eapply list_elem_of_lookup_2.
      * destruct (Hnew x Hx) as (_ & p & _ & Hp). right. by exists p.
  - destruct (gs !! k) as [[q| |]|] eqn:Hk; try (left; eexists; split; [reflexivity | exact Hs]).
    pose proof (active_pos _ _ _ Hk eq_refl) as Hpos. destruct (Z.ltb_spec (n - 1) 0) as [Hneg|Hneg].
    { right. destruct due; cbn [Z.b2z] in Hw; [|lia]. split_and!; eauto; lia. }
    left. eexists. split; [reflexivity|].
    split; cbn [find_results wait to_start add_due goroutines waited]; try done.
    + rewrite (active_insert _ _ _ _ Hk) by done. cbn [active Z.b2z]. lia.
    + apply queues_insert; [done|]. split; cbn; [lia|set_solver].
    + intros H. destruct (Hd H) as (_ & -> & ->). cbn [Z.b2z] in Hw. lia.
Qed.

Lemma find_run_app s xs ys :
  find_run query pick fuel alpha s (xs ++ ys)
  = (s ← find_run query pick fuel alpha s xs; find_run query pick fuel alpha s ys).
Proof.
  revert s. induction xs as [|e xs IH]; intros s; cbn [app find_run mbind res_bind]; [done|].
  destruct (step s e); cbn [mbind res_bind]; done.
Qed.

Lemma find_run_inv s sched :
  find_inv start s ->
  (exists s', find_run query pick fuel alpha s sched = Ok s' /\ find_inv start s') \/
  find_run query pick fuel alpha s sched = Panic negative_counter /\
  exists before k after s', sched = before ++ FDone k :: after /\
    find_run query pick fuel alpha s before = Ok s' /\ add_due s' = true /\ wait s' = 0.
Proof.
  revert s. induction sched as [|e sched IH]; intros s Hs; cbn [find_run]; [eauto|].
  destruct (find_step1_inv s e Hs) as [(s1 & E & Hs1)|((k & ->) & E & Hdue & Hw)]; rewrite E; cbn [mbind res_bind].
  - destruct (IH s1 Hs1) as [?|(Hp & before & k & after & s' & -> & Hb & ?)]; [by left|right].
    split; [done|]. exists (e :: before), k, after, s'. split; [done|]. cbn [find_run]. by rewrite E.
  - right. split; [done|]. exists [], k, sched, s. done.
Qed.

(** What is left to do: a measure of the steps that change something. *)
Definition work (g : lookup_go) : nat := match g with GoLookup _ => 2 | GoDone => 1 | GoEnd => 0 end.
Definition find_left (s : find_state) : nat :=
  4 * length (to_start s) + Nat.b2n (add_due s) + sum_list_with work (goroutines s) +
  Nat.b2n (negb (waited s)).

Lemma work_insert gs k g g' :
  gs !! k = Some g ->
  (sum_list_with work (<[k := g']> gs) + work g = sum_list_with work gs + work g')%nat.
Proof.
  intros Hk. rewrite <-(take_drop_middle _ _ _ Hk) at 2.
  rewrite insert_take_drop by (by eapply lookup_lt_Some).
  rewrite !sum_list_with_app. cbn [sum_list_with]. lia.
Qed.

(** A run that has not ended can go on. *)
Lemma find_progress s :
  find_inv start s -> waited s = false ->
  exists e s', step s e = Ok s' /\ find_inv start s' /\ (find_left s' < find_left s)%nat.
Proof.
  intros Hs Hw.
  assert (HE : forall e s', step s e = Ok s' -> (find_left s' < find_left s)%nat ->
    exists e s', step s e = Ok s' /\ find_inv start s' /\ (find_left s' < find_left s)%nat).
  { intros e s' E Hlt. exists e, s'. split; [done|]. split; [|done].
    destruct (find_step1_inv s e Hs) as [(s1 & E1 & ?)|(_ & E1 & _)]; rewrite E in E1; [by injection E1 as ->|done]. }
  destruct s as [results visited n ls due gs done0]. cbn in Hw. subst done0.
  destruct due; [|destruct ls as [|q ls]].
  - eapply (HE FMain); [reflexivity|]. cbn. lia.
  - pose proof (fi_wait _ _ Hs) as Hn. cbn in Hn.
    destruct (list_find (fun g => active g = true) gs) as [[k g]|] eqn:Hk.
    + apply list_find_Some in Hk as (Hk & Hg & _). pose proof (active_pos _ _ _ Hk Hg).
      destruct g as [q| |]; [| |done].
      * assert (Hqk : (length q <= length start)%nat /\ q ⊆ start).
        { pose proof (fi_queues _ _ Hs) as Hq. apply Forall_app in Hq as [_ Hq]. rewrite Forall_forall in Hq.
          apply Hq. apply list_elem_of_fmap. exists (GoLookup q). split; [done|]. by eapply list_elem_of_lookup_2. }
        destruct (performLookup_spec U alpha visited fuel q HU ltac:(lia)) as (rs & v1 & l & Hp & _).
        eapply (HE (FLookup k)); [cbn [find_step1]; rewrite Hk, Hp; reflexivity|]. cbn.
        pose proof (work_insert _ _ _ GoDone Hk) as Hwk. cbn in Hwk. lia.
      * eapply (HE (FDone k)); [cbn [find_step1]; rewrite Hk; destruct (Z.ltb_spec (n - 1) 0); [lia | reflexivity]|]. cbn.
        pose proof (work_insert _ _ _ GoEnd Hk) as Hwk. cbn in Hwk. lia.
    + rewrite list_find_None in Hk.
      assert (E : filter active gs = []).
      { apply Forall_filter_none. eapply Forall_impl; [exact Hk|]. intros g Hg Ha. by apply Hg, Is_true_true. }
      rewrite E in Hn. eapply (HE FMain); [reflexivity|].
      change (n = 0) in Hn. rewrite Hn. cbn. lia.
  - eapply (HE FMain); [reflexivity|]. cbn. rewrite sum_list_with_app. cbn. lia.
Qed.

Lemma find_finish s :
  find_inv start s -> exists more s', find_run query pick fuel alpha s more = Ok s' /\ waited s' = true.
Proof.
  remember (find_left s) as m eqn:Hm. revert s Hm. induction m as [m IH] using lt_wf_ind. intros s -> Hs.
  destruct (waited s) eqn:Hw; [by exists [], s|].
  destruct (find_progress s Hs Hw) as (e & s1 & E & Hs1 & Hlt).
  destruct (IH _ Hlt s1 eq_refl Hs1) as (more & s' & Hr & Hd).
  exists (e :: more), s'. cbn [find_run]. by rewrite E.
Qed.
End Run.
End Lemmas.

Lemma deal_spec d i lookups peers :
  0 < d -> 0 <= i -> zlen lookups = Z.min i d ->
  exists ls, deal i d lookups peers = Ok ls /\ mjoin ls ≡ₚ mjoin lookups ++ peers.
Proof.
  intros Hd. revert i lookups. induction peers as [|p peers IH]; intros i lookups Hi Hl; cbn [deal].
  { exists lookups. by rewrite app_nil_r. }
  set (ls1 := if zlen lookups <? d then lookups ++ [[]] else lookups).
  assert (H1 : zlen ls1 = Z.min (i + 1) d /\ mjoin ls1 = mjoin lookups).
  { unfold ls1. destruct (Z.ltb_spec (zlen lookups) d); [|split; [lia|done]].
    rewrite zlen_app, join_app. split; [rewrite zlen_cons, zlen_nil; lia|]. cbn. by rewrite app_nil_r. }
  destruct H1 as [Hl1 Hj1]. destruct (Z.eqb_spec d 0); [lia|].
  assert (Hrem : 0 <= Z.rem i d < zlen ls1).
  { rewrite Hl1, Z.rem_mod_nonneg by lia. pose proof (Z.mod_pos_bound i d Hd).
    destruct (decide (i < d)); [rewrite Z.mod_small by lia; lia|lia]. }
  destruct (index_ok ls1 (Z.rem i d) Hrem) as [q Hq]. rewrite Hq. cbn [mbind res_bind].
  unfold index in Hq. destruct (Z.ltb_spec (Z.rem i d) 0); [lia|].
  destruct (ls1 !! Z.to_nat (Z.rem i d)) as [q'|] eqn:E; [|done]. injection Hq as ->.
  set (k := Z.to_nat (Z.rem i d)) in *.
  assert (HJ : mjoin (<[k := q ++ [p]]> ls1) ≡ₚ mjoin lookups ++ [p]).
  { rewrite <-Hj1. rewrite <-(take_drop_middle _ _ _ E) at 2.
    rewrite insert_take_drop by (by eapply lookup_lt_Some).
    rewrite !join_app. cbn [mjoin list_join]. rewrite <-!(assoc_L (++)). by solve_Permutation. }
  destruct (IH (i + 1) (<[k := q ++ [p]]> ls1)) as (ls & -> & HP).
  - lia.
  - unfold zlen. rewrite length_insert. exact Hl1.
  - exists ls. split; [done|]. rewrite HP, HJ. by rewrite <-(assoc_L (++)).
Qed.

(** The first loop: the peers closest to the target, dealt to the lookups. *)
Lemma find_start_spec t target alpha disjointPaths :
  table_wf t -> 0 <= alpha -> 0 < disjointPaths ->
  exists start s0, find_start t target alpha disjointPaths = Ok s0 /\ zlen start <= alpha /\
    start ⊆+ entries t /\ forall query, find_inv query start s0.
Proof.
  intros Hwf Ha Hd. unfold find_start.
  destruct (FindClosestPeers_sub t target alpha Hwf Ha) as (start & -> & Hlen & Hsub).
  destruct (deal_spec disjointPaths 0 [] start Hd) as (ls & Hls & HP); [lia|rewrite zlen_nil; lia|].
  cbn [mbind res_bind app] in *. rewrite Hls. cbn [mbind res_bind]. cbn in HP.
  eexists start, _. split; [done|]. split; [done|]. split; [done|]. intros query.
  split; cbn [find_results wait to_start add_due goroutines waited]; try done; [|by left].
  cbn. rewrite app_nil_r. apply Forall_forall. intros q (l1 & l2 & ->)%list_elem_of_split.
  rewrite join_app in HP. cbn in HP. split; [rewrite <-HP, !length_app; lia|].
  intros x Hx. rewrite <-HP. set_solver.
Qed.

(** ** Properties *)

(** C17. A lookup in a finite network ends, whatever the order in which the queries are answered,
    after at most as many rounds as there were peers to ask and peers to find.  It returns the
    first [alpha] peers of its queue and the peers it found: each reported by a peer that was
    asked, none seen before, none twice.  Every query it made is of one of these, at most
    [alpha] were pending at any time. *)
Theorem performLookup_correct (query : ID -> list ID) (pick : list ID -> nat) (U : gset bytes)
    (alpha : Z) (q : list ID) (v0 : gset bytes) :
  (forall p x, x ∈ query p -> PublicKeyHex x ∈ U) ->
  (exists results visited l,
    performLookup query pick (length q + size U) alpha q v0 = Ok (results, visited, l) /\
    pending l = [] /\
    exists new, results = take (Z.to_nat alpha) q ++ new /\ NoDup (PublicKeyHex <$> new) /\
      (forall x, x ∈ new -> PublicKeyHex x ∉ v0 /\ exists p, p ∈ asked l /\ x ∈ query p) /\
      asked l ⊆+ results) /\
  (forall l v r r0 p0 l' v' r',
    lookup_inv query alpha v0 v r0 r l -> pending l <> [] -> p0 ∈ pending l ->
    round query pick alpha l v r p0 = (l', v', r') ->
    lookup_inv query alpha v0 v' r0 r' l' /\ zlen (pending l') <= Z.max 0 alpha).
Proof.
  intros HU. split.
  - destruct (performLookup_spec query pick U alpha v0 (length q + size U) q HU (le_n _))
      as (results & visited & l & Hp & Hz & [_ _ _ (new & -> & Hn & Hx & _ & f & la & Ha & Hf & Hla)]).
    exists (take (Z.to_nat alpha) q ++ new), visited, l. split; [done|]. split; [done|].
    exists new. split; [done|]. split; [done|]. split; [done|]. rewrite Ha. by apply submseteq_app.
  - intros l v r r0 p0 l' v' r' Hinv Hne Hp0 Hr.
    pose proof (round_inv query pick alpha v0 r0 l v r p0 l' v' r' Hinv Hne Hp0 Hr) as Hinv'.
    split; [done|]. apply (li_pending _ _ _ _ _ _ _ Hinv').
Qed.

(** C19. [FindNode] on a well-formed routing table and a finite network, under any schedule of its
    goroutines, any order of the answers and any behaviour of the unstable sort.  When it has
    returned, its answer is at most sixteen peers, each known to the table or reported by some
    peer.  When it has not, the schedule can be continued so that it returns.  It panics only
    when a goroutine calls [wait.Done] before the [wait.Add] that follows its [go] statement, with
    the counter at zero; that does happen ([early_done_panics]). *)
Theorem FindNode_bounded (query : ID -> list ID) (pick : list ID -> nat)
    (Slice : (ID -> ID -> bool) -> list ID -> list ID)
    (U : gset bytes) (t : RoutingTable) (target : ID) (alpha disjointPaths : Z) (fuel : nat)
    (sched : list find_step) :
  (forall p x, x ∈ query p -> PublicKeyHex x ∈ U) -> (forall f l, Slice f l ≡ₚ l) ->
  table_wf t -> 0 <= alpha -> 0 < disjointPaths -> (Z.to_nat alpha + size U <= fuel)%nat ->
  let run := FindNode query pick Slice fuel (Some t) target alpha disjointPaths in
  match run sched with
  | Ok (Some results) =>
      zlen results <= BucketSize /\ forall x, x ∈ results -> x ∈ entries t \/ exists p, x ∈ query p
  | Ok None => exists more results, run (sched ++ more) = Ok (Some results)
  | Err _ => False
  | Panic p =>
      p = negative_counter /\
      exists before k after s0 s, sched = before ++ FDone k :: after /\
        find_start t target alpha disjointPaths = Ok s0 /\
        find_run query pick fuel alpha s0 before = Ok s /\ add_due s = true /\ wait s = 0
  end.
Proof.
  intros HU HS Hwf Ha Hd Hf. cbv zeta. unfold FindNode.
  destruct (find_start_spec t target alpha disjointPaths Hwf Ha Hd) as (start & s0 & -> & Hl & Hsub & Hinv).
  assert (Hfl : (length start + size U <= fuel)%nat) by (unfold zlen in Hl; lia). cbn [mbind res_bind].
  pose proof (find_run_inv query pick U alpha fuel start HU Hfl s0 sched (Hinv query)) as Hrun.
  destruct Hrun as [(s & Hr & Hs)|(Hr & before & k & after & s & -> & Hb & Hdue & Hw)]; rewrite Hr; cbn [mbind res_bind].
  2:{ split; [done|]. by exists before, k, after, s0, s. }
  assert (Hend : forall s, exists results,
            (if BucketSize <? zlen (Slice (find_less target) (find_results s))
             then subslice (Slice (find_less target) (find_results s)) 0 BucketSize
             else Ok (Slice (find_less target) (find_results s))) = Ok results /\
            zlen results <= BucketSize /\ results ⊆ find_results s).
  { intros s1. set (l := Slice (find_less target) (find_results s1)).
    assert (El : l ⊆ find_results s1) by (unfold l; intros x Hx; by rewrite <-(HS (find_less target) (find_results s1))).
    destruct (Z.ltb_spec BucketSize (zlen l)); [|exists l; by split_and!].
    rewrite subslice_ok by (unfold BucketSize in *; lia). eexists. split; [done|].
    split; [unfold zlen; rewrite length_take, length_drop; unfold BucketSize; lia|].
    intros x Hx. apply elem_of_take in Hx as (i & Hi & _). apply El. by eapply list_elem_of_lookup_2. }
  destruct (waited s) eqn:Hwd.
  - destruct (Hend s) as (results & -> & Hz & Hres). cbn. split; [done|]. intros x Hx.
    destruct (fi_results _ _ _ Hs x (Hres x Hx)) as [H|H]; [left|by right]. by eapply elem_of_submseteq.
  - destruct (find_finish query pick U alpha fuel start HU Hfl s Hs) as (more & s' & Hm & Hd').
    exists more. rewrite find_run_app, Hr. cbn [mbind res_bind]. rewrite Hm. cbn [mbind res_bind]. rewrite Hd'.
    destruct (Hend s') as (results & -> & _). exists results. done.
Qed.

(** A goroutine that ends before [FindNode] has counted it takes the program down: [wait.Add(1)]
    comes after the [go] statement. *)
Theorem early_done_panics :
  FindNode (fun _ => []) (fun _ => O) isort 10 (Some (table_of (table1 [64; 16]))) (peer1 3) 8 8
    [FMain; FLookup 0; FDone 0] = Panic negative_counter.
Proof. vm_compute. reflexivity. Qed.

(** The comparator of [FindNode]'s final sort never orders anything: [Xor] fills the network
    key, [Less] compares the identifiers, which are nil on both sides.  The results are not
    sorted by distance, and the peers that are cut off are arbitrary ones. *)
Theorem find_less_never (targetID left right : ID) : find_less targetID left right = false.
Proof. reflexivity. Qed.

(** Three lookups, started before the first one runs. *)
Definition three_lookups : list find_step :=
  replicate 6 FMain ++ [FLookup 0; FDone 0; FLookup 1; FLookup 2; FDone 2; FDone 1; FMain].

(** The peers a lookup starts from are returned twice, once by [FindNode] itself and once by
    [performLookup], so that they take two of the sixteen places each. *)
Theorem FindNode_duplicates :
  FindNode (fun _ => []) (fun _ => O) isort 10 (Some (table_of (table1 [64; 16]))) (peer1 3) 8 8
    three_lookups
  = Ok (Some [peer1 0; peer1 16; peer1 64; peer1 0; peer1 16; peer1 64]).
Proof. vm_compute. reflexivity. Qed.

(** [Receive] of a started component never panics on a well-formed table, except for a lookup
    request without a target: the table stays well formed and is updated with the sender;
    pings are answered by a signed pong, lookups by a signed list of at most sixteen peers of
    the table, a disconnect message closes the client, unless disabled; nothing else is
    answered. *)
Theorem Receive_spec `{!UserMessages UM UT} (state : Component) (t : RoutingTable) (sender : ID)
    (msg : proto_Message UM) (reply : option string) :
  Routes state = Some t -> table_wf t ->
  exists t', Update t sender = Ok t' /\ table_wf t' /\
    match msg with
    | PLookupNodeRequest (mkLookupNodeRequest None _) =>
        Receive state (Some sender) msg reply
        = (if DisableLookup state then Ok (set_routes state t', [], None) else Panic PNilDeref)
    | PLookupNodeRequest (mkLookupNodeRequest (Some target) _) =>
        exists peers, zlen peers <= BucketSize /\ peers ⊆+ entries t' /\
          Receive state (Some sender) msg reply
          = (if DisableLookup state then Ok (set_routes state t', [], None)
             else Ok (set_routes state t',
                      [Reply true (PLookupNodeResponse (mkLookupNodeResponse peers None))], reply))
    | PPing _ =>
        Receive state (Some sender) msg reply
        = (if DisablePing state then Ok (set_routes state t', [], None)
           else Ok (set_routes state t', [Reply true (PPong (mkPong None))], reply))
    | PDisconnect _ =>
        Receive state (Some sender) msg reply = Ok (set_routes state t', [CloseClient], None)
    | _ => Receive state (Some sender) msg reply = Ok (set_routes state t', [], None)
    end.
Proof.
  intros Hr Hwf. destruct (Update_wf t sender Hwf) as (t' & Hu & Hwf' & _).
  exists t'. split; [done|]. split; [done|]. unfold Receive, routes. rewrite Hr. cbn [mbind res_bind].
  rewrite Hu. cbn [mbind res_bind].
  destruct msg as [| | |[[target|] x]| | | | |]; cbn [DisablePing DisablePong DisableLookup set_routes
    LookupNodeRequest_Target]; try done.
  destruct (FindClosestPeers_sub t' target BucketSize Hwf' ltac:(done)) as (ps & -> & Hl & Hs).
  exists ps. split; [done|]. by split.
Qed.

(** A disconnected peer is forgotten, and only it: for an identifier of the table's length the
    entry of that identifier is removed and the table stays well formed; a client whose peer
    never identified itself changes nothing.  A peer with an empty identifier makes the
    handler panic. *)
Theorem PeerDisconnect_spec (state : Component) (t : RoutingTable) (x : ID) :
  Routes state = Some t -> table_wf t ->
  PeerDisconnect state None = Ok state /\
  (idlen x = idlen (self t) -> exists t', PeerDisconnect state (Some x) = Ok (set_routes state t') /\
     table_wf t' /\ entries t' = filter (fun e => key e <> key x) (entries t)) /\
  (idlen x = 0 -> PeerDisconnect state (Some x) = Panic PNilDeref).
Proof.
  intros Hr Hwf. unfold PeerDisconnect, routes. rewrite Hr. cbn [mbind res_bind].
  split; [done|]. split; intros Hx.
  - rewrite (PeerExists_spec t x Hwf Hx). cbn [mbind res_bind].
    destruct (RemovePeer_spec t x Hwf Hx) as (t' & Hrm & Hwf' & _ & HE). rewrite Hrm.
    case_bool_decide as Hin; cbn [mbind res_bind]; [eauto|].
    exists t. split; [destruct state; simpl in *; by subst|]. split; [done|].
    symmetry. apply Forall_filter_id, Forall_forall. intros e He Ek. apply Hin.
    rewrite <-Ek. by apply list_elem_of_fmap_2.
  - unfold PeerExists. by rewrite bucketID_empty.
Qed.

(** ** Witnesses *)

Definition started : Component := mkComponent false false false (Some (table_of (table1 [64; 16; 8]))).
(** A network of three peers: [40] knows [10] and [08], [10] knows [40]. *)
Definition a_query (p : ID) : list ID :=
  if bool_decide (key p = [x40]) then [peer1 16; peer1 8]
  else if bool_decide (key p = [x10]) then [peer1 64] else [].
Definition a_network : gset bytes := list_to_set (PublicKeyHex <$> [peer1 64; peer1 16; peer1 8]).
Lemma a_query_known p x : x ∈ a_query p -> PublicKeyHex x ∈ a_network.
Proof.
  unfold a_query. repeat case_bool_decide; rewrite ?elem_of_cons, ?elem_of_nil; intros Hx;
    destruct_or?; subst; try done; by apply (bool_decide_unpack _); vm_compute.
Qed.

Lemma performLookup_correct_witness :
  exists results visited l,
    performLookup a_query (fun _ => O) 4 3 [peer1 64] ∅ = Ok (results, visited, l) /\ pending l = [].
Proof.
  destruct (proj1 (performLookup_correct a_query (fun _ => O) a_network 3 [peer1 64] ∅ a_query_known))
    as (results & visited & l & Hp & Hz & _).
  exists results, visited, l. split; [exact Hp|exact Hz].
Defined.

Definition two_lookups : list find_step :=
  [FMain; FMain; FLookup 0; FMain; FDone 0; FMain; FLookup 1; FDone 1; FMain].
Lemma FindNode_bounded_witness :
  exists results,
    FindNode a_query (fun _ => O) isort 20 started.(Routes) (peer1 3) 3 2 two_lookups = Ok (Some results) /\
    zlen results <= BucketSize.
Proof.
  pose proof (FindNode_bounded a_query (fun _ => O) isort a_network
    (table_of (table1 [64; 16; 8])) (peer1 3) 3 2 20 two_lookups a_query_known
    (fun f l => isort_perm _ _) (table1_wf _) ltac:(lia) ltac:(lia) ltac:(vm_compute; lia)) as H.
  cbv zeta in H. change (started.(Routes)) with (Some (table_of (table1 [64; 16; 8]))).
  destruct (FindNode a_query (fun _ => O) isort 20 (Some (table_of (table1 [64; 16; 8]))) (peer1 3) 3 2 two_lookups)
    as [[results|]|e|p] eqn:E.
  - exists results. split; [reflexivity | exact (proj1 H)].
  - vm_compute in E. discriminate E.
  - destruct H.
  - vm_compute in E. discriminate E.
Defined.

Lemma Receive_spec_witness :
  exists t', Update (table_of (table1 [64; 16; 8])) (peer1 3) = Ok t' /\
    Receive (UM:=bytes) started (Some (peer1 3)) (PPing (mkPing None)) None
    = Ok (set_routes started t', [Reply true (PPong (mkPong None))], None).
Proof.
  destruct (Receive_spec started (table_of (table1 [64; 16; 8])) (peer1 3)
    (PPing (UM:=bytes) (mkPing None)) None eq_refl (table1_wf _)) as (t' & Hu & _ & Hr).
  exists t'. split; [exact Hu|exact Hr].
Defined.

Lemma PeerDisconnect_spec_witness :
  PeerDisconnect started (Some ID_zero) = Panic PNilDeref.
Proof.
  apply (PeerDisconnect_spec started (table_of (table1 [64; 16; 8])) ID_zero eq_refl (table1_wf _)).
  reflexivity.
Defined.
