(* ===== verification/Client.v ===== *)
(** * A peer's client: [network/client.go]

    The state of a [PeerClient] and its own operations: the byte stream it implements over
    [Bytes] messages, the deadlines, the readiness signals, the one-time close and the table of
    pending requests.  What a client does through the node ([Tell], [Request], [Reply], the
    removal of its entries) is in [Network].

    Times are nanoseconds and the zero time is [None].  A channel that is only ever closed is a
    flag.  A round of the loop of [Read] is one step, under the stream's mutex; between the
    rounds other goroutines run. *)

From S2P Require Import Prelude Messages.
#[local] Open Scope Z_scope.

Record StreamState := mkStream {
  buffer : bytes;
  isClosed : bool;
  readDeadline : option Z;
  writeDeadline : option Z;
}.

(** A pending request: the reply its channel of capacity one holds, if any. *)
Record RequestState (PM : Type) := mkRequest { data : option PM }.
Arguments mkRequest {PM} data.
Arguments data {PM} r.

Record PeerClient (PM : Type) := mkClient {
  ID_ : option ID;
  Address : bytes;
  Requests : gmap Z (RequestState PM);
  RequestNonce : Z;
  stream : StreamState;
  outgoingReady : bool;
  incomingReady : bool;
  closed : bool;
  closeSignal : bool;
  Time : Z;
}.
Arguments mkClient {PM}.
Arguments ID_ {PM} p. Arguments Address {PM} p. Arguments Requests {PM} p.
Arguments RequestNonce {PM} p. Arguments stream {PM} p. Arguments outgoingReady {PM} p.
Arguments incomingReady {PM} p. Arguments closed {PM} p. Arguments closeSignal {PM} p.
Arguments Time {PM} p.

Section Client.
Context {PM : Type}.
#[local] Abbreviation client := (PeerClient PM).

(** The client [createPeerClient] builds for a parsed address. *)
Definition new_client (address : bytes) (now : Z) : client :=
  mkClient None address ∅ 0 (mkStream [] false None None) false false false false now.

Definition set_stream (c : client) (s : StreamState) : client :=
  mkClient (ID_ c) (Address c) (Requests c) (RequestNonce c) s (outgoingReady c) (incomingReady c)
    (closed c) (closeSignal c) (Time c).
Definition set_ID (c : client) (id : option ID) : client :=
  mkClient id (Address c) (Requests c) (RequestNonce c) (stream c) (outgoingReady c)
    (incomingReady c) (closed c) (closeSignal c) (Time c).
Definition set_requests (c : client) (r : gmap Z (RequestState PM)) (nonce : Z) : client :=
  mkClient (ID_ c) (Address c) r nonce (stream c) (outgoingReady c) (incomingReady c)
    (closed c) (closeSignal c) (Time c).
Definition set_ready (c : client) (out inc : bool) : client :=
  mkClient (ID_ c) (Address c) (Requests c) (RequestNonce c) (stream c) out inc
    (closed c) (closeSignal c) (Time c).
Definition set_closed (c : client) : client :=
  mkClient (ID_ c) (Address c) (Requests c) (RequestNonce c)
    (mkStream (buffer (stream c)) true (readDeadline (stream c)) (writeDeadline (stream c)))
    (outgoingReady c) (incomingReady c) true true (Time c).
Definition set_time (c : client) (now : Z) : client :=
  mkClient (ID_ c) (Address c) (Requests c) (RequestNonce c) (stream c) (outgoingReady c)
    (incomingReady c) (closed c) (closeSignal c) now.

(** ** The byte stream *)

(** The new stream, and whether a blocked reader is woken. *)
Definition handleBytes (s : StreamState) (pkt : bytes) : StreamState * bool :=
  let empty := zlen (buffer s) =? 0 in
  (mkStream (buffer s ++ pkt) (isClosed s) (readDeadline s) (writeDeadline s), empty).

(** A round of [Read] into a buffer of [k] bytes: what was copied, and the return, or [None]
    when the round waits for bytes (or a second) and tries again. *)
Inductive read_result := Return (err : option string).
Definition Read_round (s : StreamState) (k : nat) (now : Z) :
    StreamState * bytes * option read_result :=
  let n := Nat.min k (length (buffer s)) in
  let got := take n (buffer s) in
  let s' := mkStream (drop n (buffer s)) (isClosed s) (readDeadline s) (writeDeadline s) in
  if isClosed s then (s', got, Some (Return (Some "closed"%string)))
  else if match readDeadline s with Some d => d <? now | None => false end then
    (s', got, Some (Return (Some "read deadline exceeded"%string)))
  else if negb (n =? 0)%nat then (s', got, Some (Return None))
  else (s', got, None).

Definition SetDeadline (s : StreamState) (t : option Z) : StreamState :=
  mkStream (buffer s) (isClosed s) t t.
Definition SetReadDeadline (s : StreamState) (t : option Z) : StreamState :=
  mkStream (buffer s) (isClosed s) t (writeDeadline s).
Definition SetWriteDeadline (s : StreamState) (t : option Z) : StreamState :=
  mkStream (buffer s) (isClosed s) (readDeadline s) t.
(** The test that opens [Write]. *)
Definition write_expired (s : StreamState) (now : Z) : bool :=
  match writeDeadline s with Some d => d <? now | None => false end.

(** ** Readiness, closing *)

(** [close] of a closed channel panics. *)
Definition setIncomingReady (c : client) : res client :=
  if incomingReady c then Panic PCloseClosed else Ok (set_ready c (outgoingReady c) true).
Definition setOutgoingReady (c : client) : res client :=
  if outgoingReady c then Panic PCloseClosed else Ok (set_ready c true (incomingReady c)).
(** Whether the signal is there, or comes within a second ([soon]). *)
Definition IsIncomingReady (c : client) (soon : bool) : bool := incomingReady c || soon.
Definition IsOutgoingReady (c : client) (soon : bool) : bool := outgoingReady c || soon.

(** The part of [Close] before the components are told: [None] for a client that is closed. *)
Definition close_once (c : client) : res (option client) :=
  if closed c then Ok None
  else if closeSignal c then Panic PCloseClosed
  else Ok (Some (set_closed c)).

(** ** Requests *)

(** [atomic.AddUint64(&c.RequestNonce, 1)]. *)
Definition next_nonce (c : client) : client * Z :=
  let n := u64 (RequestNonce c + 1) in (set_requests c (Requests c) n, n).
Definition store_request (c : client) (nonce : Z) : client :=
  set_requests c (<[nonce := mkRequest None]> (Requests c)) (RequestNonce c).
(** The reply taken from the channel, and the request forgotten. *)
Definition finish_request (c : client) (nonce : Z) : client :=
  set_requests c (delete nonce (Requests c)) (RequestNonce c).
(** [case state.data <- ptr]: the channel holds one reply; a second send waits for the end of
    the request and is lost. *)
Definition deliver_reply (c : client) (nonce : Z) (m : PM) : option client :=
  match Requests c !! nonce with
  | None => None
  | Some r =>
      match data r with
      | None => Some (set_requests c (<[nonce := mkRequest (Some m)]> (Requests c)) (RequestNonce c))
      | Some _ => Some c
      end
  end.
End Client.

(** ** Histories of a stream *)

Inductive stream_op :=
| HandleBytes (pkt : bytes)
| ReadRound (k : nat) (now : Z)
| Deadline (t : option Z)
| CloseStream.

(** What a sequence of operations delivers to the readers, in order. *)
Fixpoint stream_run (s : StreamState) (ops : list stream_op) : StreamState * bytes :=
  match ops with
  | [] => (s, [])
  | op :: ops =>
      let '(s, got) :=
        match op with
        | HandleBytes pkt => (fst (handleBytes s pkt), [])
        | ReadRound k now => let '(s, got, _) := Read_round s k now in (s, got)
        | Deadline t => (SetDeadline s t, [])
        | CloseStream => (mkStream (buffer s) true (readDeadline s) (writeDeadline s), [])
        end in
      let '(s, rest) := stream_run s ops in
      (s, got ++ rest)
  end.
Definition arrived (ops : list stream_op) : bytes :=
  mjoin ((fun op => match op with HandleBytes pkt => pkt | _ => [] end) <$> ops).

(** ** Lemmas *)

Lemma Read_round_bytes s k now :
  let '(s', got, r) := Read_round s k now in
  got ++ buffer s' = buffer s /\ (length got <= k)%nat /\
  isClosed s' = isClosed s /\ readDeadline s' = readDeadline s /\ writeDeadline s' = writeDeadline s.
Proof.
  unfold Read_round. set (n := Nat.min k (length (buffer s))).
  destruct (isClosed s), (match readDeadline s with Some d => d <? now | None => false end),
    (negb (n =? 0)%nat); simpl; rewrite take_drop, length_take; repeat split; lia.
Qed.

Lemma next_nonce_pending {PM} (c : PeerClient PM) : Requests (fst (next_nonce c)) = Requests c.
Proof. done. Qed.

(** ** Properties *)

(** The stream is a lossless queue: whatever the interleaving of incoming packets, reads of any
    size, deadlines and the close, the readers have got, in order, exactly the bytes that
    arrived, less those still buffered; reads that fail with a deadline or a closed stream
    lose nothing either. *)
Theorem stream_fifo (s : StreamState) (ops : list stream_op) :
  let '(s', got) := stream_run s ops in got ++ buffer s' = buffer s ++ arrived ops.
Proof.
  revert s. induction ops as [|op ops IH]; intros s; [by rewrite app_nil_r|]. cbn [stream_run].
  unfold arrived. rewrite fmap_cons. cbn [mjoin list_join]. fold (arrived ops).
  destruct op as [pkt|k now|t|].
  - cbn [handleBytes fst]. specialize (IH (mkStream (buffer s ++ pkt) (isClosed s) (readDeadline s) (writeDeadline s))).
    destruct (stream_run _ ops) as [s' got]. cbn [app]. rewrite IH. simpl.
    by rewrite <-(assoc_L (++)).
  - pose proof (Read_round_bytes s k now) as HR. destruct (Read_round s k now) as [[s1 got1] r].
    specialize (IH s1). destruct (stream_run s1 ops) as [s' got].
    destruct HR as (HR & _). by rewrite <-(assoc_L (++) got1), IH, (assoc_L (++)), HR.
  - specialize (IH (SetDeadline s t)). by destruct (stream_run _ ops).
  - specialize (IH (mkStream (buffer s) true (readDeadline s) (writeDeadline s))).
    by destruct (stream_run _ ops).
Qed.

(** A round of [Read] by cases: a closed stream and an expired deadline fail, with the bytes
    that were there; otherwise it returns when it got bytes and waits when it did not.  So a
    read into an empty buffer waits for ever, even with bytes to read. *)
Theorem Read_round_spec (s : StreamState) (k : nat) (now : Z) :
  let '(s', got, r) := Read_round s k now in
  got = take k (buffer s) /\ buffer s' = drop k (buffer s) /\
  r = (if isClosed s then Some (Return (Some "closed"%string))
       else if match readDeadline s with Some d => d <? now | None => false end
         then Some (Return (Some "read deadline exceeded"%string))
       else if bool_decide (got = []) then None else Some (Return None)) /\
  (k = 0%nat -> isClosed s = false -> readDeadline s = None -> r = None /\ buffer s' = buffer s).
Proof.
  unfold Read_round. set (n := Nat.min k (length (buffer s))).
  assert (Ht : take n (buffer s) = take k (buffer s)).
  { unfold n. destruct (decide (k <= length (buffer s))%nat); [by rewrite Nat.min_l by lia|].
    rewrite Nat.min_r, !take_ge by lia. done. }
  assert (Hd : drop n (buffer s) = drop k (buffer s)).
  { unfold n. destruct (decide (k <= length (buffer s))%nat); [by rewrite Nat.min_l by lia|].
    rewrite Nat.min_r, !drop_ge by lia. done. }
  assert (Hz : (n =? 0)%nat = bool_decide (take k (buffer s) = [])).
  { rewrite <-Ht. case_bool_decide as E.
    - apply Nat.eqb_eq. apply (f_equal length) in E. rewrite length_take in E. simpl in E. lia.
    - apply Nat.eqb_neq. intros E'. apply E. by rewrite E'. }
  rewrite Ht, Hd, Hz.
  destruct (isClosed s) eqn:Ec; [by repeat split|].
  destruct (match readDeadline s with Some d => d <? now | None => false end) eqn:Ed.
  { split; [done|]. split; [done|]. split; [done|]. intros _ _ E. by rewrite E in Ed. }
  destruct (bool_decide (take k (buffer s) = [])) eqn:E; cbn [negb buffer];
    (split; [done|]; split; [done|]; split; [by rewrite ?E|]); intros -> _ _; [done|].
  by apply bool_decide_eq_false in E.
Qed.

(** A client is closed once: the first [Close] marks it and its stream closed, every later one
    does nothing; it never closes the signal twice. *)
Theorem close_once_spec {PM} (c : PeerClient PM) :
  closeSignal c = closed c ->
  match close_once c with
  | Ok None => closed c = true
  | Ok (Some c') =>
      closed c = false /\ closed c' = true /\ closeSignal c' = true /\
      isClosed (stream c') = true /\ buffer (stream c') = buffer (stream c) /\
      close_once c' = Ok None
  | _ => False
  end.
Proof. unfold close_once. intros ->. by destruct (closed c). Qed.

(** ** Witnesses *)

Lemma close_once_spec_witness :
  close_once (set_closed (new_client (PM:=unit) [x61] 0)) = Ok None.
Proof.
  pose proof (close_once_spec (new_client (PM:=unit) [x61] 0) eq_refl) as H.
  destruct H as (_ & _ & _ & _ & _ & H). exact H.
Defined.
