(* ===== verification/Network.v ===== *)
(** * The node: state and outgoing side of [network/network.go] and [network/client.go]

    The state of a [Network] and the operations that send: signing and preparing messages,
    [Write], the clients of the node (creation, dialling, closing), [Tell], [Request], [Reply],
    the broadcasts, [Bootstrap], [Listen] and [Close].  What arrives is the subject of
    [Inbound].

    An operation is a computation in [ST Network]: what one goroutine does, uninterrupted;
    operations the code splits between goroutines (a request waiting for its reply, the dial of
    a client others may already see) are split here too.  [PeerClient] pointers are indices of
    [clients]; entries of [connections] are only written through the map, so they are values.
    The order in which [sync.Map.Range] visits a map is an argument.  Calls of the components'
    methods, new goroutines, closed connections and datagrams are [event]s of [trace].
    [log.Fatal] logs and returns (see [utils/log]).  A timed wait is told by a flag whether the
    signal comes in time.  Deadlines of connections are part of [conn_write]. *)

From S2P Require Import Prelude Messages Peer Lru Protobuf Opcode Address Component Stream Crypto Package Client.
#[local] Open Scope Z_scope.

(** ** The environment *)

(** A [net.Conn], [W] being the state of the socket behind it. *)
Record Conn (W : Type) := mkConn {
  isUDPConn : bool;
  LocalAddr : bytes;
  RemoteNetwork : bytes;
  RemoteAddr : bytes;
  socket : W;
}.
Arguments mkConn {W}. Arguments isUDPConn {W} c. Arguments LocalAddr {W} c.
Arguments RemoteNetwork {W} c. Arguments RemoteAddr {W} c. Arguments socket {W} c.

Inductive Listener (W : Type) :=
| NetListener
| UDPListener (c : Conn W).
Arguments NetListener {W}.
Arguments UDPListener {W} c.

(** Name resolution, sockets and transport layers [L]. *)
Class Environment (W L : Type) := {
  ParseIP : bytes -> bool;
  LookupHost : bytes -> option (list bytes);
  ResolveUDPAddr : bytes -> res bytes;
  conn_write : W -> bytes -> W * Z * option string;
  layer_Dial : L -> bytes -> res (Conn W);
  layer_Listen : L -> Z -> res (Listener W);
}.

(** A context: the value of [signMessageCtxKey], and the error of a context that is done. *)
Record Context_ := mkContext {
  ctx_sign : option bool;
  ctx_Err : option string;
}.
Definition Background : Context_ := mkContext None None.

Definition WithSignMessage (ctx : Context_) (sign : bool) : Context_ := mkContext (Some sign) (ctx_Err ctx).
Definition GetSignMessage (ctx : Context_) : bool :=
  match ctx_sign ctx with Some sign => sign | None => false end.

Inductive writeMode := WRITE_MODE_LOOP | WRITE_MODE_DIRECT.
Record options := mkOptions {
  connectionTimeout : Z;
  signaturePolicy : SignaturePolicy;
  hashPolicy : HashPolicy;
  recvWindowSize : Z;
  sendWindowSize : Z;
  writeBufferSize : Z;
  recvBufferSize : Z;
  writeFlushLatency : Z;
  writeTimeout : Z;
  writeMode_ : writeMode;
}.

Section Network.
Context {UM UT C T W L : Type} `{!UserMessages UM UT} `{Countable T} `{!Environment W L}.

Record ConnState := mkConnState {
  conn : Conn W;
  writer : ConnWriter W;
  messageNonce : Z;
  IsDial : bool;
}.

Inductive event :=
| EStartup (c : C)
| ECleanup (c : C)
| EPeerConnect (c : C) (client : nat)
| EPeerDisconnect (c : C) (client : nat)
| EReceive (c : C) (client : nat) (msg : proto_Message UM) (nonce : Z)
| EGoAccept (conn : Conn W)
| EGoAcceptUdp (conn : Conn W)
| EGoExecuteJobs (client : nat)
| EConnClose (conn : Conn W)
| EDatagram (d : datagram).

Record Network := mkNetwork {
  netID : Z;
  opts : options;
  keys : KeyPair;
  n_Address : bytes;
  Components : ComponentList (C:=C) (T:=T);
  n_ID : ID;
  udpDialAddrs : gmap bytes bytes;
  peers : gmap bytes nat;
  connections : gmap bytes ConnState;
  transports : gmap bytes L;
  listening : bool;          (* listeningCh is closed *)
  kill : bool;               (* kill is closed *)
  clients : list (PeerClient (proto_Message UM));
  jobs : list (nat * Message);
  domainLookupCache : Cache (V:=bytes);
  opcodes : tables;
  trace : list event;
}.

#[local] Abbreviation M := (ST Network).
#[local] Abbreviation client := (PeerClient (proto_Message UM)).

(** ** Writes to the fields *)

Definition set_maps (u : gmap bytes bytes) (p : gmap bytes nat) (c : gmap bytes ConnState)
    (n : Network) : Network :=
  mkNetwork (netID n) (opts n) (keys n) (n_Address n) (Components n) (n_ID n) u p c (transports n)
    (listening n) (kill n) (clients n) (jobs n) (domainLookupCache n) (opcodes n) (trace n).
Definition set_udp (u : gmap bytes bytes) (n : Network) : Network := set_maps u (peers n) (connections n) n.
Definition set_peers (p : gmap bytes nat) (n : Network) : Network := set_maps (udpDialAddrs n) p (connections n) n.
Definition set_connections (c : gmap bytes ConnState) (n : Network) : Network :=
  set_maps (udpDialAddrs n) (peers n) c n.
Definition set_flags (l k : bool) (n : Network) : Network :=
  mkNetwork (netID n) (opts n) (keys n) (n_Address n) (Components n) (n_ID n) (udpDialAddrs n) (peers n)
    (connections n) (transports n) l k (clients n) (jobs n) (domainLookupCache n) (opcodes n) (trace n).
Definition set_clients (cs : list client) (j : list (nat * Message)) (n : Network) : Network :=
  mkNetwork (netID n) (opts n) (keys n) (n_Address n) (Components n) (n_ID n) (udpDialAddrs n) (peers n)
    (connections n) (transports n) (listening n) (kill n) cs j (domainLookupCache n) (opcodes n) (trace n).
Definition set_cache (c : Cache (V:=bytes)) (n : Network) : Network :=
  mkNetwork (netID n) (opts n) (keys n) (n_Address n) (Components n) (n_ID n) (udpDialAddrs n) (peers n)
    (connections n) (transports n) (listening n) (kill n) (clients n) (jobs n) c (opcodes n) (trace n).
Definition add_trace (e : list event) (n : Network) : Network :=
  mkNetwork (netID n) (opts n) (keys n) (n_Address n) (Components n) (n_ID n) (udpDialAddrs n) (peers n)
    (connections n) (transports n) (listening n) (kill n) (clients n) (jobs n) (domainLookupCache n)
    (opcodes n) (trace n ++ e).
Definition SetNetworkID (id : Z) (n : Network) : Network :=
  mkNetwork id (opts n) (keys n) (n_Address n) (Components n) (n_ID n) (udpDialAddrs n) (peers n)
    (connections n) (transports n) (listening n) (kill n) (clients n) (jobs n) (domainLookupCache n)
    (opcodes n) (trace n).
Definition GetNetworkID (n : Network) : Z := netID n.
Definition GetKeys (n : Network) : KeyPair := keys n.

Definition emit (e : event) : M () := modify (add_trace [e]).
(** [n.Components.Each(f)]: the calls, in the order of the list. *)
Definition each_component (f : C -> event) : M () :=
  modify (fun n => add_trace (f <$> Each (Components n)) n).
(** A read and a write through a client pointer. *)
Definition load (i : nat) : M client := fun n =>
  match clients n !! i with Some c => (n, Ok c) | None => (n, Panic PNilDeref) end.
Definition save (i : nat) (c : client) : M () :=
  modify (fun n => set_clients (<[i := c]> (clients n)) (jobs n) n).
Definition unify (address : bytes) : M bytes := fun n =>
  match ToUnifiedAddress ParseIP LookupHost (domainLookupCache n) address with
  | Ok (c, inl u) => (set_cache c n, Ok u)
  | Ok (c, inr e) => (set_cache c n, Err e)
  | Err e => (n, Err e)
  | Panic p => (n, Panic p)
  end.

Definition is_stream (protocol : bytes) : bool :=
  bool_decide (protocol = str "tcp") || bool_decide (protocol = str "kcp").
Definition is_udp (protocol : bytes) : bool := bool_decide (protocol = str "udp").

(** [addrInfo, err := ParseAddress(n.Address); if err != nil { log.Fatal(err) }], then
    [addrInfo.Protocol]. *)
Definition own_protocol : M bytes := fun n =>
  match ParseAddress (n_Address n) with
  | Ok info => (n, Ok (Protocol info))
  | _ => (n, Panic PNilDeref)
  end.

(** ** Messages *)

Definition set_MessageNonce (m : Message) (nonce : Z) : Message :=
  mkMessage (Message_Message m) (Message_Sender m) (Message_Signature m) (Message_RequestNonce m)
    nonce (Message_ReplyFlag m) (Message_Opcode m) (Message_DialAddress m) (Message_XXX_unrecognized m).
Definition set_RequestNonce (m : Message) (nonce : Z) (reply : bool) : Message :=
  mkMessage (Message_Message m) (Message_Sender m) (Message_Signature m) nonce
    (Message_MessageNonce m) reply (Message_Opcode m) (Message_DialAddress m) (Message_XXX_unrecognized m).
Definition set_Signature (m : Message) (signature : slice) : Message :=
  mkMessage (Message_Message m) (Message_Sender m) signature (Message_RequestNonce m)
    (Message_MessageNonce m) (Message_ReplyFlag m) (Message_Opcode m) (Message_DialAddress m)
    (Message_XXX_unrecognized m).

Definition PrepareMessage (n : Network) (ctx : option Context_) (message : option (proto_Message UM)) :
    res Message :=
  match message with
  | None => Err "network: message is null"
  | Some message =>
      opcode ← GetOpcode (opcodes n) message;
      raw ← proto_Marshal message;
      let id := n_ID n in
      let msg := mkMessage (Some raw) (Some id) None 0 0 false (u32 opcode) [] None in
      match ctx with
      | None => Panic PNilDeref
      | Some ctx =>
          if GetSignMessage ctx then
            serialized ← SerializeMessage id raw;
            signature ← KeyPair_Sign (sp := signaturePolicy (opts n)) (hp := hashPolicy (opts n))
                          (keys n) serialized;
            Ok (set_Signature msg (Some signature))
          else Ok msg
      end
  end.

(** ** Connections *)

Definition ConnectionState (n : Network) (address : bytes) : option ConnState := connections n !! address.
Definition ConnectionStateExists (n : Network) (address : bytes) : bool :=
  match connections n !! address with Some _ => true | None => false end.

Definition set_writer (state : ConnState) (w : ConnWriter W) : ConnState :=
  mkConnState (conn state) w (messageNonce state) (IsDial state).
Definition store_state (address : bytes) (state : ConnState) : M () :=
  modify (fun n => set_connections (<[address := state]> (connections n)) n).

(** [state.writerMutex.Lock(); state.writer.Flush(); state.writerMutex.Unlock()]: the error of
    the flush is logged. *)
Definition flush_state (address : bytes) : M () :=
  state ← get (fun n => ConnectionState n address);
  match state with
  | None => mret ()
  | Some state =>
      if locked (writer state) then crash PBlocked
      else store_state address
             (set_writer state (mkConnWriter (fst (Flush conn_write (bw (writer state)))) false))
  end.
(** A tick of [flushLoop], the map being visited in the order of [range]. *)
Definition flush_tick (range : list bytes) : M () := forall_do flush_state range.

(** Returns the message, whose nonce and dial address are written, and the error. *)
Definition Network_Write (address : bytes) (message : Message) : M (Message * option string) :=
  state ← get (fun n => ConnectionState n address);
  match state with
  | None => mret (message, Some "network: connection does not exist"%string)
  | Some state =>
      let nonce := u64 (messageNonce state + 1) in
      let state := mkConnState (conn state) (writer state) nonce (IsDial state) in
      let message := set_MessageNonce message nonce in
      _ ← store_state address state;
      protocol ← own_protocol;
      '(message, err) ← (
        if is_stream protocol then
          killed ← get kill;
          '(w, o) ← lift (sendMessage conn_write killed (writer state) message);
          _ ← store_state address (set_writer state w);
          match o with
          | Done => mret (message, None)
          | Failed e => mret (message, Some e)
          | Blocked => crash PBlocked
          end
        else if is_udp protocol then
          if negb (isUDPConn (conn state)) then crash PNilDeref
          else
            own ← get n_Address;
            dialled ← get udpDialAddrs;
            '(message, d, l, o) ← lift (sendUDPMessage ResolveUDPAddr own dialled (IsDial state)
                                          (locked (writer state)) message address);
            _ ← store_state address (set_writer state (mkConnWriter (bw (writer state)) l));
            _ ← match d with Some d => emit (EDatagram d) | None => mret () end;
            match o with
            | Done => mret (message, None)
            | Failed e => mret (message, Some e)
            | Blocked => crash PBlocked
            end
        else mret (message, None));
      match err with
      | Some _ => mret (message, err)
      | None =>
          mode ← get (fun n => writeMode_ (opts n));
          _ ← match mode with WRITE_MODE_DIRECT => flush_state address | WRITE_MODE_LOOP => mret () end;
          mret (message, None)
      end
  end.

(** ** Clients: sending *)

(** The address of a client never changes. *)
Definition client_Address (i : nat) : M bytes := c ← load i; mret (Address c).

Definition Tell (i : nat) (ctx : option Context_) (message : option (proto_Message UM)) : M () :=
  prepared ← get (fun n => PrepareMessage n ctx message);
  signed ← lift match prepared with Err e => Err ("failed to sign message: " ++ e) | r => r end;
  address ← client_Address i;
  '(_, err) ← Network_Write address signed;
  match err with
  | Some e => fail ("failed to send message to " ++ string_of_list_byte address ++ ": " ++ e)
  | None => mret ()
  end.

(** [Request] up to the wait: first the request is sent, then it is registered.  Between the two
    its reply may arrive. *)
Definition Request_send (i : nat) (ctx : option Context_) (req : option (proto_Message UM)) : M Z :=
  match ctx with
  | None => fail "network: invalid context"
  | Some c =>
      match ctx_Err c with
      | Some e => fail e
      | None =>
          prepared ← get (fun n => PrepareMessage n ctx req);
          signed ← lift prepared;
          c ← load i;
          let '(c, nonce) := next_nonce c in
          _ ← save i c;
          '(_, err) ← Network_Write (Address c) (set_RequestNonce signed nonce (Message_ReplyFlag signed));
          match err with
          | Some e => fail e
          | None => mret nonce
          end
      end
  end.
Definition Request_track (i : nat) (nonce : Z) : M () := c ← load i; save i (store_request c nonce).
(** The end of [Request]: the reply, or the error of the context when it is [done]; when both
    are there [select] takes either.  [None]: it still waits. *)
Definition Request_finish (i : nat) (nonce : Z) (done : option string) (prefer_done : bool) :
    M (option (proto_Message UM)) :=
  c ← load i;
  match Requests c !! nonce ≫= data, done with
  | None, None => mret None
  | Some res, None => _ ← save i (finish_request c nonce); mret (Some res)
  | None, Some e => _ ← save i (finish_request c nonce); fail e
  | Some res, Some e =>
      _ ← save i (finish_request c nonce); if prefer_done then fail e else mret (Some res)
  end.

Definition Reply (i : nat) (ctx : option Context_) (nonce : Z) (message : option (proto_Message UM)) : M () :=
  prepared ← get (fun n => PrepareMessage n ctx message);
  msg ← lift prepared;
  address ← client_Address i;
  '(_, err) ← Network_Write address (set_RequestNonce msg nonce true);
  match err with
  | Some e => fail e
  | None => mret ()
  end.

(** [PeerClient.Write]. *)
Definition PeerClient_Write (i : nat) (data : bytes) (now : Z) : M Z :=
  c ← load i;
  if write_expired (stream c) now then fail "write deadline exceeded"
  else
    _ ← Tell i (Some (WithSignMessage Background true)) (Some (PBytes (mkBytes (Some data) None)));
    mret (zlen data).

(** ** Clients: creation, dialling, closing *)

(** [createPeerClient], the new client being stored in [clients]. *)
Definition createPeerClient (address : bytes) (now : Z) : M nat :=
  _ ← lift (ParseAddress address);
  i ← get (fun n => length (clients n));
  _ ← modify (fun n => set_clients (clients n ++ [new_client address now]) (jobs n) n);
  mret i.

Definition PeerClient_Init (i : nat) : M () :=
  _ ← each_component (fun c => EPeerConnect c i);
  emit (EGoExecuteJobs i).

Definition Dial (address : bytes) : M (Conn W) :=
  addrInfo ← lift (ParseAddress address);
  host ← (
    if negb (bool_decide (Host addrInfo = str "127.0.0.1")) then
      own ← get n_Address;
      host ← lift (ParseAddress own);
      mret (if bool_decide (Host addrInfo = Host host) then str "127.0.0.1" else Host addrInfo)
    else mret (Host addrInfo));
  let addrInfo := mkAddressInfo (Protocol addrInfo) host (Port addrInfo) in
  t ← get (fun n => transports n !! Protocol addrInfo);
  match t with
  | None => crash PTypeAssert
  | Some t =>
      conn ← lift (layer_Dial t (AddressInfo_HostPort addrInfo));
      _ ← if is_udp (Protocol addrInfo) then emit (EGoAcceptUdp conn) else mret ();
      _ ← if is_stream (Protocol addrInfo) then emit (EGoAccept conn) else mret ();
      mret conn
  end.

(** [getOrSetPeerClient] up to [LoadOrStore]: the unified address, the client, and whether it
    was there. *)
Definition getOrSet_load (address : bytes) (incoming : option (Conn W)) (now : Z) :
    M (bytes * nat * bool) :=
  address ← unify address;
  own ← get n_Address;
  if bool_decide (address = own) then fail "network: peer should not dial itself"
  else
    addrInfo ← lift (ParseAddress address);
    _ ← match incoming with
        | Some c =>
            if is_stream (Protocol addrInfo) then
              _ ← lift (ParseAddress (RemoteNetwork c ++ str "://" ++ RemoteAddr c)); mret ()
            else mret ()
        | None => mret ()
        end;
    _ ← lift (ParseAddress address);
    found ← get (fun n => peers n !! address);
    match found with
    | Some i => mret (address, i, true)
    | None =>
        i ← createPeerClient address now;
        _ ← modify (fun n => set_peers (<[address := i]> (peers n)) n);
        mret (address, i, false)
    end.

(** [bufio.NewWriterSize]. *)
Definition NewWriterSize (w : W) (size : Z) : bufio_Writer W :=
  mkBufio [] (if size <=? 0 then 4096 else size) None w.
Definition new_state (c : Conn W) (isDial : bool) (size : Z) : ConnState :=
  mkConnState c (mkConnWriter (NewWriterSize (socket c) size) false) 0 isDial.

(** The rest of it for a new client; [defer client.setOutgoingReady()] wraps it. *)
Definition getOrSet_connect (address : bytes) (i : nat) (incoming : option (Conn W)) : M nat :=
  deferred (c ← load i; c ← lift (setOutgoingReady c); save i c) (
    '(c, isDial) ← match incoming with
      | Some c => mret (c, false)
      | None =>
          r ← attempt (Dial address);
          match r with
          | inl c => mret (c, true)
          | inr e => _ ← modify (fun n => set_peers (delete address (peers n)) n); fail e
          end
      end;
    addrInfo ← lift (ParseAddress address);
    size ← get (fun n => writeBufferSize (opts n));
    _ ← if is_stream (Protocol addrInfo) then store_state address (new_state c false size) else mret ();
    _ ← (if is_udp (Protocol addrInfo) then
           _ ← store_state address (new_state c isDial size);
           if isUDPConn c then
             modify (fun n => set_udp (<[address := LocalAddr c]> (udpDialAddrs n)) n)
           else crash PNilDeref
         else mret ());
    _ ← PeerClient_Init i;
    p ← load i;
    p ← lift (setIncomingReady p);
    _ ← save i p;
    mret i).

(** The rest of it for a client that was there: [soon] is whether the goroutine that creates it
    gets it ready within a second. *)
Definition getOrSet_wait (i : nat) (soon : bool) : M nat :=
  c ← load i;
  if negb (IsOutgoingReady c soon) then fail "network: peer failed to connect" else mret i.

Definition getOrSetPeerClient (address : bytes) (incoming : option (Conn W)) (soon : bool) (now : Z) :
    M nat :=
  '(address, i, exists_) ← getOrSet_load address incoming now;
  if (exists_ : bool) then getOrSet_wait i soon else getOrSet_connect address i incoming.
Definition Network_Client (address : bytes) (soon : bool) (now : Z) : M nat :=
  getOrSetPeerClient address None soon now.

Definition PeerClient_Close (i : nat) : M () :=
  c ← load i;
  r ← lift (close_once c);
  match r with
  | None => mret ()
  | Some c =>
      _ ← save i c;
      _ ← each_component (fun x => EPeerDisconnect x i);
      match ID_ c with
      | None => mret ()
      | Some id =>
          state ← get (fun n => ConnectionState n (ID_Address id));
          _ ← match state with
              | None => mret ()
              | Some state =>
                  own ← get n_Address;
                  addrInfo ← lift (ParseAddress own);
                  _ ← if is_stream (Protocol addrInfo) then emit (EConnClose (conn state)) else mret ();
                  if is_udp (Protocol addrInfo) then
                    if isUDPConn (conn state) then emit (EConnClose (conn state)) else crash PTypeAssert
                  else mret ()
              end;
          modify (fun n => set_maps (delete (ID_Address id) (udpDialAddrs n))
                    (delete (ID_Address id) (peers n)) (delete (ID_Address id) (connections n)) n)
      end
  end.

(** ** Broadcasts *)

(** [EachPeer], the map being visited in the order of [range]; a key deleted meanwhile is
    skipped. *)
Definition EachPeer (range : list bytes) (fn : nat -> M ()) : M () :=
  forall_do (fun k =>
    found ← get (fun n => peers n !! k);
    match found with Some i => fn i | None => mret () end) range.

(** The writes of messages to one connection, one after the other: their errors. *)
Fixpoint Writes (address : bytes) (ms : list Message) : M (list (option string)) :=
  match ms with
  | [] => mret []
  | m :: ms =>
      '(_, err) ← Network_Write address m;
      errs ← Writes address ms;
      mret (err :: errs)
  end.

(** The writes of one message, shared by them, to several addresses; errors are dropped. *)
Fixpoint write_each (addresses : list bytes) (message : Message) : M () :=
  match addresses with
  | [] => mret ()
  | address :: addresses =>
      '(message, _) ← Network_Write address message;
      write_each addresses message
  end.
(** The addresses of the clients in the map. *)
Fixpoint peer_addresses (range : list bytes) : M (list bytes) :=
  match range with
  | [] => mret []
  | k :: range =>
      found ← get (fun n => peers n !! k);
      match found with
      | None => peer_addresses range
      | Some i =>
          address ← client_Address i;
          rest ← peer_addresses range;
          mret (address :: rest)
      end
  end.

Definition BroadcastByAddresses (ctx : option Context_) (message : option (proto_Message UM))
    (addresses : list bytes) : M () :=
  prepared ← get (fun n => PrepareMessage n ctx message);
  match prepared with
  | Panic p => crash p
  | Err _ => mret ()
  | Ok signed => write_each addresses signed
  end.
(** [Write] does not touch the map, so the addresses are those it holds at the start. *)
Definition Broadcast (ctx : option Context_) (message : option (proto_Message UM)) (range : list bytes) :
    M () :=
  prepared ← get (fun n => PrepareMessage n ctx message);
  match prepared with
  | Panic p => crash p
  | Err _ => mret ()
  | Ok signed => addresses ← peer_addresses range; write_each addresses signed
  end.
Definition BroadcastByIDs (ctx : option Context_) (message : option (proto_Message UM)) (ids : list ID) :
    M () :=
  BroadcastByAddresses ctx message (ID_Address <$> ids).

(** The collection stops when [fn] returns false: one address after [K*3] of them. *)
Fixpoint collect (K : Z) (got addresses : list bytes) : list bytes :=
  match addresses with
  | [] => got
  | a :: addresses =>
      let got := got ++ [a] in
      if zlen got <=? i64 (K * 3) then collect K got addresses else got
  end.
Definition BroadcastRandomly (shuffle : list bytes -> list bytes) (ctx : option Context_)
    (message : option (proto_Message UM)) (K : Z) (range : list bytes) : M () :=
  all ← peer_addresses range;
  let addresses := shuffle (collect K [] all) in
  let K := if zlen addresses <? K then zlen addresses else K in
  chosen ← lift (subslice addresses 0 K);
  BroadcastByAddresses ctx message chosen.

(** ** Starting and stopping *)

Definition startListening : M () :=
  l ← get listening;
  if (l : bool) then crash PCloseClosed else modify (fun n => set_flags true (kill n) n).

(** The loop of [FilterPeers]; the error of an address skips it. *)
Fixpoint FilterPeers_loop (visited : gset bytes) (filtered peers : list bytes) : M (list bytes) :=
  match peers with
  | [] => mret filtered
  | peerAddress :: peers =>
      if zlen peerAddress =? 0 then FilterPeers_loop visited filtered peers
      else
        r ← attempt (unify peerAddress);
        match r with
        | inr _ => FilterPeers_loop visited filtered peers
        | inl resolved =>
            if bool_decide (resolved ∈ visited) then FilterPeers_loop visited filtered peers
            else FilterPeers_loop ({[resolved]} ∪ visited) (filtered ++ [resolved]) peers
        end
  end.
Definition FilterPeers (address : bytes) (peers : list bytes) : M (list bytes) :=
  FilterPeers_loop {[address]} [] peers.

Definition Bootstrap (soon : bytes -> bool) (now : Z) (addresses : list bytes) : M () :=
  l ← get listening;
  if negb l then crash PBlocked
  else
    own ← get n_Address;
    addresses ← FilterPeers own addresses;
    forall_do (fun address =>
      client ← attempt (Network_Client address (soon address) now);
      match client with
      | inr _ => mret ()
      | inl client =>
          _ ← attempt (Tell client (Some Background) (Some (PPing (mkPing None)))); mret ()
      end) addresses.

(** The accept loop of [Listen]: [accepts] are the connections and errors of [Accept], [killed]
    whether [kill] is closed by then. *)
Fixpoint accept_loop (accepts : list (Conn W + bool)) : M () :=
  match accepts with
  | [] => crash PBlocked
  | inl conn :: accepts => _ ← emit (EGoAccept conn); accept_loop accepts
  | inr killed :: accepts => if (killed : bool) then mret () else accept_loop accepts
  end.
Definition Listen (accepts : list (Conn W + bool)) : M () :=
  _ ← each_component EStartup;
  deferred (each_component ECleanup) (
    own ← get n_Address;
    match ParseAddress own with
    | Panic p => crash p
    | Err _ => crash PNilDeref
    | Ok addrInfo =>
        t ← get (fun n => transports n !! Protocol addrInfo);
        let listener := match t with Some t => layer_Listen t (Port addrInfo) | None => Err "invalid protocol" end in
        _ ← startListening;
        if is_stream (Protocol addrInfo) then
          match listener with
          | Panic p => crash p
          | Err _ => crash PTypeAssert
          | Ok (UDPListener _) => crash PTypeAssert
          | Ok NetListener => accept_loop accepts
          end
        else if is_udp (Protocol addrInfo) then
          match listener with
          | Panic p => crash p
          | Ok (UDPListener c) => emit (EGoAcceptUdp c)
          | _ => crash PTypeAssert
          end
        else mret ()
    end).

Definition Network_Close (range : list bytes) : M () :=
  k ← get kill;
  if (k : bool) then crash PCloseClosed
  else
    _ ← modify (fun n => set_flags (listening n) true n);
    EachPeer range (fun i =>
      _ ← attempt (Tell i (Some Background) (Some (PDisconnect (mkDisconnect None))));
      _ ← attempt (PeerClient_Close i);
      mret ()).

(** ** Specification *)

(** What never changes on a node: its configuration, its keys and identity; a client pointer
    keeps its address, a closed client stays closed and a signal stays given. *)
Definition client_le (c c' : client) : Prop :=
  Address c' = Address c /\ (closed c = true -> closed c' = true) /\
  (closeSignal c = closed c -> closeSignal c' = closed c') /\
  (outgoingReady c = true -> outgoingReady c' = true).
Record node_le (n n' : Network) : Prop := {
  le_address : n_Address n' = n_Address n;
  le_config : opts n' = opts n /\ keys n' = keys n /\ n_ID n' = n_ID n /\
              Components n' = Components n /\ transports n' = transports n /\ opcodes n' = opcodes n;
  le_clients : forall i c, clients n !! i = Some c ->
                 exists c', clients n' !! i = Some c' /\ client_le c c';
}.

(** The entries of [peers] are clients of their key, never the node itself, and the close signal
    of a client is given with its close. *)
Record node_wf (n : Network) : Prop := {
  nw_peers : forall a i, peers n !! a = Some i ->
               exists c, clients n !! i = Some c /\ Address c = a;
  nw_self : peers n !! n_Address n = None;
  nw_closed : forall i c, clients n !! i = Some c -> closeSignal c = closed c;
}.
(** The node listens on a stream transport: TCP or KCP. *)
Definition stream_node (n : Network) : Prop :=
  exists info, ParseAddress (n_Address n) = Ok info /\ is_stream (Protocol info) = true.
(** The messages with the nonces after [nonce], one after the other. *)
Fixpoint number_from (nonce : Z) (ms : list Message) : list Message :=
  match ms with
  | [] => []
  | m :: ms => set_MessageNonce m (nonce + 1) :: number_from (nonce + 1) ms
  end.
(** What every operation does to a node. *)
Definition evolves (n n' : Network) : Prop := node_le n n' /\ (node_wf n -> node_wf n').
(** What [Write] does to it. *)
Definition conns_only (n n' : Network) : Prop :=
  exists cs tr, n' = add_trace tr (set_connections cs n).

(** ** Lemmas *)

Lemma add_trace_nil n : add_trace [] n = n.
Proof. destruct n. unfold add_trace. simpl. by rewrite app_nil_r. Qed.
Lemma set_connections_same n : set_connections (connections n) n = n.
Proof. by destruct n. Qed.

#[export] Instance conns_only_pre : PreOrder conns_only.
Proof.
  split.
  - intros n. exists (connections n), []. by rewrite set_connections_same, add_trace_nil.
  - intros n ? ? (cs & tr & ->) (cs' & tr' & ->). exists cs', (tr ++ tr').
    destruct n. unfold add_trace, set_connections, set_maps. simpl. by rewrite (assoc_L (++)).
Qed.
Lemma bind_store {A} a st (k : () -> M A) n :
  (store_state a st ≫= k) n = k () (set_connections (<[a := st]> (connections n)) n).
Proof. done. Qed.
Lemma bind_each {A} f (k : () -> M A) n :
  (each_component f ≫= k) n = k () (add_trace (f <$> Each (Components n)) n).
Proof. done. Qed.
Lemma conns_only_store a st : frames conns_only (store_state a st).
Proof. intros n. eexists _, []. simpl. by rewrite add_trace_nil. Qed.
Lemma conns_only_emit e : frames conns_only (emit e).
Proof. intros n. eexists (connections n), [e]. simpl. by rewrite set_connections_same. Qed.
Hint Resolve conns_only_store conns_only_emit : frames.

Lemma own_protocol_frames (R : relation Network) `{!PreOrder R} : frames R own_protocol.
Proof. intros n. unfold own_protocol. destruct (ParseAddress _); reflexivity. Qed.
Hint Resolve own_protocol_frames : frames.

Lemma flush_state_frames a : frames conns_only (flush_state a).
Proof. unfold flush_state. frame. Qed.
Hint Resolve flush_state_frames : frames.

Lemma Network_Write_frames a m : frames conns_only (Network_Write a m).
Proof. unfold Network_Write. frame. Qed.

Lemma client_le_refl c : client_le c c.
Proof. done. Qed.
Lemma client_le_trans c1 c2 c3 : client_le c1 c2 -> client_le c2 c3 -> client_le c1 c3.
Proof. unfold client_le. naive_solver congruence. Qed.

#[export] Instance evolves_pre : PreOrder evolves.
Proof.
  split.
  - intros n. split; [|done]. split; [done|done|]. eauto using client_le_refl.
  - intros n1 n2 n3 [[Ha Hc Hl] Hw] [[Ha' Hc' Hl'] Hw']. split; [|auto]. split.
    + congruence.
    + destruct Hc as (?&?&?&?&?&?), Hc' as (?&?&?&?&?&?). repeat split; congruence.
    + intros i c Hi. destruct (Hl _ _ Hi) as (c2 & H2 & L2). destruct (Hl' _ _ H2) as (c3 & H3 & L3).
      eauto using client_le_trans.
Qed.

(** Operations that keep the clients and add no peer. *)
Lemma evolves_keep n n' :
  n_Address n' = n_Address n -> opts n' = opts n -> keys n' = keys n -> n_ID n' = n_ID n ->
  Components n' = Components n -> transports n' = transports n -> opcodes n' = opcodes n ->
  clients n' = clients n -> peers n' ⊆ peers n -> evolves n n'.
Proof.
  intros Ha Ho Hk Hi Hc Ht Hoc Hcl Hp. split.
  - split; [done|done|]. rewrite Hcl. eauto using client_le_refl.
  - intros [Hw Hs Hd]. split; rewrite ?Hcl, ?Ha; [| |done].
    + intros a i Hai. apply (Hw a i). by eapply lookup_weaken.
    + by eapply lookup_weaken_None.
Qed.
Ltac keep := intros ?; apply evolves_keep; first [done | simpl; apply delete_subseteq | idtac].

Lemma evolves_conns n n' : conns_only n n' -> evolves n n'.
Proof. intros (cs & tr & ->). by apply evolves_keep. Qed.
Lemma conns_frames {A} (m : M A) : frames conns_only m -> frames evolves m.
Proof. intros Hm n. apply evolves_conns, Hm. Qed.
Lemma store_state_evolves a st : frames evolves (store_state a st).
Proof. apply conns_frames, conns_only_store. Qed.
Lemma emit_evolves e : frames evolves (emit e).
Proof. keep. Qed.
Lemma each_component_evolves f : frames evolves (each_component f).
Proof. keep. Qed.
Lemma load_evolves i : frames evolves (load i).
Proof. intros n. unfold load. by destruct (clients n !! i). Qed.
Lemma unify_evolves a : frames evolves (unify a).
Proof.
  intros n. unfold unify. destruct (ToUnifiedAddress _ _ _ a) as [[c [u|e]]|e|p]; try done; revert n; keep.
Qed.
Lemma delete_peer_evolves a : frames evolves (modify (fun n => set_peers (delete a (peers n)) n)).
Proof. keep. Qed.
Lemma Write_evolves a m : frames evolves (Network_Write a m).
Proof. apply conns_frames, Network_Write_frames. Qed.
Lemma flush_evolves a : frames evolves (flush_state a).
Proof. apply conns_frames, flush_state_frames. Qed.
Hint Resolve store_state_evolves emit_evolves each_component_evolves load_evolves unify_evolves
  delete_peer_evolves Write_evolves flush_evolves : frames.

Lemma evolves_save n i c c' :
  clients n !! i = Some c -> client_le c c' -> evolves n (set_clients (<[i:=c']> (clients n)) (jobs n) n).
Proof.
  intros Hi (Ha & Hcl & Hsig & Hr). assert (Hlt : (i < length (clients n))%nat) by by eapply lookup_lt_Some.
  split.
  - split; [done|done|]. intros j d Hj. simpl. destruct (decide (j = i)) as [->|Hne].
    + rewrite list_lookup_insert_eq by done. exists c'. simplify_eq. done.
    + rewrite list_lookup_insert_ne by done. eauto using client_le_refl.
  - intros [Hw Hs Hd]. split; [|done|]; simpl.
    + intros a j Haj. destruct (Hw _ _ Haj) as (d & Hdj & Hda). destruct (decide (j = i)) as [->|Hne].
      * rewrite list_lookup_insert_eq by done. exists c'. split; [done|]. by simplify_eq.
      * rewrite list_lookup_insert_ne by done. eauto.
    + intros j d. destruct (decide (j = i)) as [->|Hne].
      * rewrite list_lookup_insert_eq by done. intros [= <-]. apply Hsig. by eapply Hd.
      * rewrite list_lookup_insert_ne by done. apply Hd.
Qed.

(** [c ← load i; k c] where [k] first writes the client. *)
Lemma load_frames {A} i (k : client -> M A) :
  (forall n c, clients n !! i = Some c -> evolves n (fst (k c n))) -> frames evolves (load i ≫= k).
Proof.
  intros Hk n. unfold mbind, ST_bind, load. destruct (clients n !! i) eqn:E; [by apply Hk|done].
Qed.
Lemma save_frames {A} n i c c' (k : () -> M A) :
  clients n !! i = Some c -> client_le c c' -> (forall u, frames evolves (k u)) ->
  evolves n (fst ((save i c' ≫= k) n)).
Proof.
  intros Hi Hle Hk. apply frames_bind_at; [exact _|by eapply evolves_save|]. intros u _. apply Hk.
Qed.

Lemma client_Address_evolves i : frames evolves (client_Address i).
Proof. unfold client_Address. frame. Qed.
Hint Resolve client_Address_evolves : frames.
Lemma Tell_evolves i ctx m : frames evolves (Tell i ctx m).
Proof. unfold Tell. frame. Qed.
Lemma Reply_evolves i ctx nonce m : frames evolves (Reply i ctx nonce m).
Proof. unfold Reply. frame. Qed.
Hint Resolve Tell_evolves Reply_evolves : frames.
Lemma PeerClient_Write_evolves i d now : frames evolves (PeerClient_Write i d now).
Proof. unfold PeerClient_Write. frame. Qed.
Lemma Request_send_evolves i ctx m : frames evolves (Request_send i ctx m).
Proof.
  unfold Request_send. destruct ctx as [c|]; [|frame]. destruct (ctx_Err c); [frame|].
  apply frames_bind; [exact _|frame|]. intros r. apply frames_bind; [exact _|frame|]. intros signed.
  apply load_frames. intros n d Hi. unfold next_nonce. eapply save_frames; [exact Hi|done|]. frame.
Qed.
Lemma Request_track_evolves i nonce : frames evolves (Request_track i nonce).
Proof. apply load_frames. intros n c Hi. by eapply evolves_save. Qed.
Lemma Request_finish_evolves i nonce d p : frames evolves (Request_finish i nonce d p).
Proof.
  apply load_frames. intros n c Hi.
  destruct (Requests c !! nonce ≫= data), d; [..|done]; (eapply save_frames; [exact Hi|done|]); frame.
Qed.
Hint Resolve PeerClient_Write_evolves Request_send_evolves Request_track_evolves
  Request_finish_evolves : frames.

Lemma Dial_evolves a : frames evolves (Dial a).
Proof. unfold Dial. frame. Qed.
Hint Resolve Dial_evolves : frames.

Lemma evolves_new n a now :
  a <> n_Address n -> peers n !! a = None ->
  evolves n (set_peers (<[a := length (clients n)]> (peers n))
               (set_clients (clients n ++ [new_client a now]) (jobs n) n)).
Proof.
  intros Hne Hnone. split.
  - split; [done|done|]. intros i c Hi. exists c. split; [|apply client_le_refl].
    simpl. by apply lookup_app_l_Some.
  - intros [Hw Hs Hd]. split; simpl.
    + intros b i. rewrite lookup_insert_Some. intros [[<- <-]|[_ Hb]].
      * exists (new_client a now). split; [|done]. by rewrite lookup_app_r, Nat.sub_diag by lia.
      * destruct (Hw _ _ Hb) as (c & ? & ?). exists c. split; [|done]. by apply lookup_app_l_Some.
    + by rewrite lookup_insert_ne.
    + intros i c [?|[_ Hc]]%lookup_app_Some; [by eapply Hd|].
      apply list_lookup_singleton_Some in Hc as [_ <-]. done.
Qed.

Lemma createPeerClient_eq a now n info :
  ParseAddress a = Ok info ->
  createPeerClient a now n =
    (set_clients (clients n ++ [new_client a now]) (jobs n) n, Ok (length (clients n))).
Proof. intros EP. unfold createPeerClient. by rewrite bind_lift, EP. Qed.

Lemma getOrSet_load_evolves a inc now : frames evolves (getOrSet_load a inc now).
Proof.
  unfold getOrSet_load. apply frames_bind; [exact _|apply unify_evolves|]. clear a. intros a n.
  rewrite bind_get. case_bool_decide as Ea; [done|]. rewrite bind_lift.
  destruct (ParseAddress a) as [info|e|p] eqn:EP; [|done..].
  assert (Hk : evolves n (fst ((
    _ ← lift (Ok info);
    found ← get (fun n => peers n !! a);
    match found with
    | Some i => mret (a, i, true)
    | None =>
        i ← createPeerClient a now;
        _ ← modify (fun n => set_peers (<[a := i]> (peers n)) n);
        mret (a, i, false)
    end : M (bytes * nat * bool)) n))).
  { rewrite bind_lift, bind_get. destruct (peers n !! a) eqn:E; [done|].
    rewrite (bind_Ok _ _ _ _ _ (createPeerClient_eq a now n info EP)), bind_modify.
    cbn [fst mret ST_ret]. by apply (evolves_new n a now). }
  destruct inc as [c|]; [|exact Hk]. destruct (is_stream (Protocol info)); [|exact Hk].
  destruct (ParseAddress (RemoteNetwork c ++ str "://" ++ RemoteAddr c)) as [x|e|p] eqn:EC.
  - rewrite (bind_Ok _ _ n n ()); [exact Hk|]. done.
  - by rewrite (bind_Err _ _ n n e); [|done].
  - done.
Qed.
Hint Resolve getOrSet_load_evolves : frames.

Lemma load_save_frames {A} i (f : client -> res client) (k : () -> M A) :
  (forall c c', f c = Ok c' -> client_le c c') -> (forall u, frames evolves (k u)) ->
  frames evolves (c ← load i; c ← lift (f c); save i c ≫= k).
Proof.
  intros Hf Hk. apply load_frames. intros n c Hi. rewrite bind_lift.
  destruct (f c) as [c'|e|p] eqn:E; [|done..]. eapply save_frames; [exact Hi|by apply Hf|done].
Qed.
Lemma setOutgoingReady_le (c c' : client) : setOutgoingReady c = Ok c' -> client_le c c'.
Proof. unfold setOutgoingReady. destruct (outgoingReady c); [done|]. by intros [= <-]. Qed.
Lemma setIncomingReady_le (c c' : client) : setIncomingReady c = Ok c' -> client_le c c'.
Proof. unfold setIncomingReady. destruct (incomingReady c); [done|]. by intros [= <-]. Qed.
Lemma PeerClient_Init_evolves i : frames evolves (PeerClient_Init i).
Proof. unfold PeerClient_Init. frame. Qed.
Hint Resolve PeerClient_Init_evolves : frames.

Lemma getOrSet_connect_evolves a i inc : frames evolves (getOrSet_connect a i inc).
Proof.
  unfold getOrSet_connect. apply frames_deferred; [exact _| |].
  - apply load_frames. intros n c Hi. rewrite bind_lift.
    destruct (setOutgoingReady c) eqn:E; [|done..]. eapply evolves_save; [done|by apply setOutgoingReady_le].
  - apply frames_bind; [exact _|frame|]. intros [c d]. apply frames_bind; [exact _|frame|]. intros info.
    apply frames_bind; [exact _|frame|]. intros size. apply frames_bind; [exact _|frame|]. intros _.
    apply frames_bind; [exact _| |].
    + frame. apply frames_modify. keep.
    + intros _. apply frames_bind; [exact _|frame|]. intros _.
      apply load_save_frames; [apply setIncomingReady_le|frame].
Qed.
Hint Resolve getOrSet_connect_evolves : frames.
Lemma getOrSet_wait_evolves i soon : frames evolves (getOrSet_wait i soon).
Proof. unfold getOrSet_wait. frame. Qed.
Hint Resolve getOrSet_wait_evolves : frames.
Lemma getOrSetPeerClient_evolves a inc soon now : frames evolves (getOrSetPeerClient a inc soon now).
Proof. unfold getOrSetPeerClient. frame. Qed.
Lemma Network_Client_evolves a soon now : frames evolves (Network_Client a soon now).
Proof. apply getOrSetPeerClient_evolves. Qed.
Hint Resolve getOrSetPeerClient_evolves Network_Client_evolves : frames.

Lemma PeerClient_Close_evolves i : frames evolves (PeerClient_Close i).
Proof.
  unfold PeerClient_Close. apply load_frames. intros n c Hi. rewrite bind_lift.
  destruct (close_once c) as [[c'|]|e|p] eqn:E; [|done..].
  eapply save_frames; [exact Hi| |].
  - revert E. unfold close_once. destruct (closed c) eqn:Ec, (closeSignal c); try done. intros [= <-].
    unfold client_le. simpl. done.
  - frame. apply frames_modify. keep.
Qed.
Hint Resolve PeerClient_Close_evolves : frames.

Lemma write_each_evolves l m : frames evolves (write_each l m).
Proof. revert m. induction l as [|a l IH]; intros m; cbn; frame. Qed.
Lemma peer_addresses_evolves l : frames evolves (peer_addresses l).
Proof. induction l as [|a l IH]; cbn; frame. Qed.
Hint Resolve write_each_evolves peer_addresses_evolves : frames.
Lemma BroadcastByAddresses_evolves ctx m l : frames evolves (BroadcastByAddresses ctx m l).
Proof. unfold BroadcastByAddresses. frame. Qed.
Hint Resolve BroadcastByAddresses_evolves : frames.
Lemma Broadcast_evolves ctx m l : frames evolves (Broadcast ctx m l).
Proof. unfold Broadcast. frame. Qed.
Lemma BroadcastByIDs_evolves ctx m l : frames evolves (BroadcastByIDs ctx m l).
Proof. unfold BroadcastByIDs. frame. Qed.
Lemma BroadcastRandomly_evolves sh ctx m K l : frames evolves (BroadcastRandomly sh ctx m K l).
Proof. unfold BroadcastRandomly. frame. Qed.
Lemma flags_evolves l k : frames evolves (modify (set_flags l k)).
Proof. apply frames_modify. keep. Qed.
Lemma FilterPeers_evolves a l : frames evolves (FilterPeers a l).
Proof.
  unfold FilterPeers. generalize (@nil bytes) as f. generalize ({[a]} : gset bytes) as v.
  induction l as [|x l IH]; intros v f; cbn; frame.
Qed.
Hint Resolve Broadcast_evolves BroadcastByIDs_evolves BroadcastRandomly_evolves FilterPeers_evolves : frames.
Lemma Bootstrap_evolves soon now l : frames evolves (Bootstrap soon now l).
Proof. unfold Bootstrap. frame. Qed.
Lemma accept_loop_evolves l : frames evolves (accept_loop l).
Proof. induction l as [|[x|x] l IH]; cbn; frame. Qed.
Hint Resolve accept_loop_evolves : frames.
Lemma Listen_evolves l : frames evolves (Listen l).
Proof. unfold Listen, startListening. frame. apply frames_modify. keep. Qed.
Lemma Network_Close_evolves l : frames evolves (Network_Close l).
Proof. unfold Network_Close, EachPeer. frame. apply frames_modify. keep. Qed.
Lemma flush_tick_evolves l : frames evolves (flush_tick l).
Proof. unfold flush_tick. frame. Qed.
Hint Resolve Bootstrap_evolves Listen_evolves Network_Close_evolves flush_tick_evolves : frames.

(** ** Writing over working connections *)

Section Writing.
Context (sent : W -> bytes) (healthy : W -> Prop) `{!Working conn_write sent healthy}.

Lemma flush_state_ok n a st :
  connections n !! a = Some st -> cw_ok healthy (writer st) ->
  exists w, flush_state a n = (set_connections (<[a := set_writer st w]> (connections n)) n, Ok ()) /\
    cw_ok healthy w /\ output sent (bw w) = output sent (bw (writer st)).
Proof.
  intros Ha [Hl Hb]. unfold flush_state, ConnectionState. rewrite bind_get, Ha, Hl.
  destruct (Flush_ok conn_write sent healthy _ Hb) as (b & Hf & Hb' & _ & _ & Ho). rewrite Hf.
  by eexists.
Qed.

(** A write to a working connection of a stream node. *)
Lemma Network_Write_stream n a st m :
  stream_node n -> connections n !! a = Some st -> cw_ok healthy (writer st) ->
  let m' := set_MessageNonce m (u64 (messageNonce st + 1)) in
  Message_wf m' -> small (Message_encoding m') ->
  exists w, Network_Write a m n =
      (set_connections (<[a := mkConnState (conn st) w (u64 (messageNonce st + 1)) (IsDial st)]> (connections n)) n,
       Ok (m', None)) /\
    cw_ok healthy w /\ output sent (bw w) = output sent (bw (writer st)) ++ frame (Message_encoding m').
Proof.
  intros (info & HP & Hst) Ha Hw m' Hwf Hsm. unfold Network_Write, ConnectionState.
  rewrite bind_get, Ha. cbv zeta. fold m'. rewrite bind_store.
  rewrite (bind_Ok own_protocol _ _ _ (Protocol info)) by (unfold own_protocol; simpl; by rewrite HP).
  rewrite Hst. cbn [writer conn messageNonce IsDial].
  destruct (sendMessage_ok conn_write sent healthy (kill n) (writer st) m' Hw Hwf Hsm)
    as (w & Hs & Hcw & Ho).
  set (st' := mkConnState (conn st) w (u64 (messageNonce st + 1)) (IsDial st)).
  set (n' := set_connections (<[a := st']> (connections n)) n).
  rewrite (bind_Ok _ _ _ n' (m', None)); [|rewrite bind_get, bind_lift; cbn [kill set_connections set_maps]; rewrite Hs;
    cbv beta iota; rewrite bind_store; unfold n', set_connections, set_maps; simpl; by rewrite insert_insert_eq].
  rewrite bind_get. destruct (writeMode_ (opts n')).
  - exists w. by rewrite bind_ret.
  - assert (Hl : connections n' !! a = Some st') by apply lookup_insert_eq.
    destruct (flush_state_ok n' a st' Hl Hcw) as (w2 & Hf & Hcw2 & Ho2).
    exists w2. rewrite (bind_Ok _ _ _ _ _ Hf). split; [|split; [done|by rewrite Ho2]].
    unfold n', set_connections, set_maps. simpl. by rewrite insert_insert_eq.
Qed.

Lemma Writes_ok n a st ms :
  stream_node n -> connections n !! a = Some st -> cw_ok healthy (writer st) ->
  0 <= messageNonce st -> messageNonce st + zlen ms < 2 ^ 64 ->
  Forall (fun m => Message_wf m /\ small (Message_encoding m)) (number_from (messageNonce st) ms) ->
  exists w, Writes a ms n =
      (set_connections (<[a := mkConnState (conn st) w (messageNonce st + zlen ms) (IsDial st)]> (connections n)) n,
       Ok ((fun _ => None) <$> ms)) /\
    cw_ok healthy w /\
    output sent (bw w) = output sent (bw (writer st))
      ++ mjoin ((fun m => frame (Message_encoding m)) <$> number_from (messageNonce st) ms).
Proof.
  revert n st. induction ms as [|m ms IH]; intros n st Hn Ha Hw Hlo Hhi HF.
  - exists (writer st). simpl. rewrite zlen_nil, Z.add_0_r, app_nil_r. split; [|done].
    rewrite insert_id by (rewrite Ha; by destruct st). by rewrite set_connections_same.
  - cbn [number_from] in *. apply Forall_cons in HF as [[Hwf Hsm] HF]. rewrite zlen_cons in Hhi.
    pose proof (zlen_nonneg ms). cbn [Writes].
    assert (Hu : u64 (messageNonce st + 1) = messageNonce st + 1) by (apply u64_small; lia).
    destruct (Network_Write_stream n a st m Hn Ha Hw) as (w & HW & Hcw & Ho); [by rewrite Hu..|].
    rewrite Hu in HW, Ho. rewrite (bind_Ok _ _ _ _ _ HW).
    set (st1 := mkConnState (conn st) w (messageNonce st + 1) (IsDial st)) in *.
    set (n1 := set_connections (<[a := st1]> (connections n)) n) in *.
    destruct (IH n1 st1) as (w' & HWs & Hcw' & Ho'); [done|by apply lookup_insert_eq|done| | |done|].
    { simpl. lia. } { simpl. lia. }
    exists w'. rewrite (bind_Ok _ _ _ _ _ HWs). split; [|split; [done|]].
    + unfold n1, set_connections, set_maps. simpl. rewrite insert_insert_eq, zlen_cons.
      by replace (messageNonce st + (1 + zlen ms)) with (messageNonce st + 1 + zlen ms) by lia.
    + rewrite Ho'. change (writer st1) with w. rewrite Ho. simpl. by rewrite <-(assoc_L (++)).
Qed.
End Writing.

(** ** Clients *)

Lemma load_ok i c n : clients n !! i = Some c -> load i n = (n, Ok c).
Proof. unfold load. by intros ->. Qed.
Lemma load_inv i c n n' : load i n = (n', Ok c) -> n' = n /\ clients n !! i = Some c.
Proof. unfold load. destruct (clients n !! i); [|done]. by intros [= <- <-]. Qed.

(** The parts of [getOrSet_connect] before the signals touch neither clients nor peers. *)
Definition keeps_clients (n n' : Network) : Prop := clients n' = clients n /\ peers n' = peers n.
#[export] Instance keeps_clients_pre : PreOrder keeps_clients.
Proof. split; [by intros n|]. intros ??? [??] [??]. split; congruence. Qed.
Lemma keeps_emit e : frames keeps_clients (emit e).
Proof. by intros n. Qed.
Lemma keeps_each f : frames keeps_clients (each_component f).
Proof. by intros n. Qed.
Lemma keeps_store a st : frames keeps_clients (store_state a st).
Proof. by intros n. Qed.
Hint Resolve keeps_emit keeps_each keeps_store : frames.
Lemma Dial_keeps a : frames conns_only (Dial a).
Proof. unfold Dial. frame. Qed.
Lemma conns_keeps {A} (m : M A) : frames conns_only m -> frames keeps_clients m.
Proof. intros Hm n. by destruct (Hm n) as (cs & tr & ->). Qed.
Lemma keeps_run {A} (m : M A) n n' r : frames keeps_clients m -> m n = (n', r) -> keeps_clients n n'.
Proof. intros Hm E. specialize (Hm n). by rewrite E in Hm. Qed.

(** What a successful connection leaves: the client, with both signals given. *)
Lemma connect_ok a i inc n n' j c :
  getOrSet_connect a i inc n = (n', Ok j) -> clients n !! i = Some c ->
  j = i /\ peers n' = peers n /\ clients n' !! i = Some (set_ready c true true).
Proof.
  intros (n1 & Hm & Hf & Hp)%deferred_inv Hc.
  apply bind_inv in Hm as (n2 & [x d] & H2 & Hm).
  apply bind_inv in Hm as (n3 & info & H3 & Hm). injection H3 as <- _.
  apply bind_inv in Hm as (n4 & size & H4 & Hm). injection H4 as <- <-.
  apply bind_inv in Hm as (n5 & [] & H5 & Hm). apply bind_inv in Hm as (n6 & [] & H6 & Hm).
  apply bind_inv in Hm as (n7 & [] & H7 & Hm). apply bind_inv in Hm as (n8 & p & H8 & Hm).
  apply load_inv in H8 as [-> H8].
  apply bind_inv in Hm as (n9 & p' & H9 & Hm). apply bind_inv in Hm as (n10 & [] & H10 & Hm).
  injection Hm as <- <-. injection H9 as <- H9. injection H10 as <-.
  assert (Hk : keeps_clients n n7).
  { transitivity n2; [|transitivity n5; [|transitivity n6]].
    - revert H2. destruct inc as [y|]; [by intros [= <- _ _]|].
      intros H2. apply bind_inv in H2 as (m1 & [y|e] & Hd & H2); [|done]. injection H2 as <- _ _.
      revert Hd. apply keeps_run, frames_attempt, conns_keeps, Dial_keeps.
    - revert H5. apply keeps_run. frame.
    - revert H6. apply keeps_run. frame. intros m. done.
    - revert H7. apply keeps_run. unfold PeerClient_Init. frame. }
  destruct Hk as [Hcl Hpe].
  assert (p = c) as -> by congruence. unfold setIncomingReady in H9.
  destruct (incomingReady c) eqn:Ei; [done|]. injection H9 as <-.
  assert (Hlt : (i < length (clients n7))%nat) by (rewrite Hcl; by eapply lookup_lt_Some).
  split; [done|]. revert Hf Hp.
  rewrite (bind_Ok (load i) _ _ _ (set_ready c (outgoingReady c) true))
    by (apply load_ok; by apply list_lookup_insert_eq).
  rewrite bind_lift. unfold setOutgoingReady. cbn [outgoingReady set_ready].
  destruct (outgoingReady c); [done|]. intros <- _. simpl.
  split; [done|]. rewrite list_insert_insert_eq. by apply list_lookup_insert_eq.
Qed.

(** The first part, by what it finds. *)
Lemma getOrSet_load_ok a inc now n n' u i found :
  getOrSet_load a inc now n = (n', Ok (u, i, found)) ->
  exists c, unify a n = (set_cache c n, Ok u) /\ u <> n_Address n /\ is_ok (ParseAddress u) = true /\
    ((found = true /\ peers n !! u = Some i /\ n' = set_cache c n) \/
     (found = false /\ peers n !! u = None /\ i = length (clients n) /\
      n' = set_peers (<[u := i]> (peers n))
             (set_clients (clients n ++ [new_client u now]) (jobs n) (set_cache c n)))).
Proof.
  intros (n1 & v & Hu & Hm)%bind_inv. assert (exists c, n1 = set_cache c n) as (c & ->).
  { revert Hu. unfold unify. destruct (ToUnifiedAddress _ _ _ a) as [[c [w|e]]|e|p]; try done.
    intros [= <- _]. eauto. }
  rewrite bind_get in Hm. case_bool_decide as Ev; [done|].
  rewrite bind_lift in Hm. destruct (ParseAddress v) as [info|e|p] eqn:EP; [|done..].
  apply bind_inv in Hm as (n2 & [] & H2 & Hm).
  assert (n2 = set_cache c n) as ->.
  { revert H2. destruct inc as [x|]; [|by intros [= <-]].
    destruct (is_stream (Protocol info)); [|by intros [= <-]].
    rewrite bind_lift. destruct (ParseAddress (RemoteNetwork x ++ _)); [by intros [= <-]|done..]. }
  rewrite bind_lift, bind_get in Hm.
  destruct (peers (set_cache c n) !! v) as [j|] eqn:Ej.
  - injection Hm as <- <- <- <-. exists c. rewrite EP. eauto 10.
  - rewrite (bind_Ok _ _ _ _ _ (createPeerClient_eq v now _ info EP)), bind_modify in Hm.
    injection Hm as <- <- <- <-. exists c. rewrite EP. split; [done|]. split; [done|]. split; [done|]. right. done.
Qed.

Lemma set_cache_clients c n : clients (set_cache c n) = clients n /\ peers (set_cache c n) = peers n /\
  n_Address (set_cache c n) = n_Address n.
Proof. done. Qed.
Lemma unify_cache a n n' r : unify a n = (n', r) -> exists c, n' = set_cache c n.
Proof.
  unfold unify. destruct (ToUnifiedAddress _ _ _ a) as [[c [w|e]]|e|p]; intros [= <- _]; eauto;
    exists (domainLookupCache n); by destruct n.
Qed.

(** A client that is there and ready is found again. *)
Lemma Client_found n n' b c i soon now :
  peers n !! Address c = Some i -> clients n !! i = Some c -> outgoingReady c = true ->
  Address c <> n_Address n -> is_ok (ParseAddress (Address c)) = true ->
  unify b n = (n', Ok (Address c)) ->
  Network_Client b soon now n = (n', Ok i) /\ exists d, n' = set_cache d n.
Proof.
  intros Hp Hc Ho Hne HP Hu. destruct (unify_cache _ _ _ _ Hu) as (d & ->). split; [|eauto].
  unfold Network_Client, getOrSetPeerClient.
  rewrite (bind_Ok _ _ n (set_cache d n) (Address c, i, true)).
  - unfold getOrSet_wait. rewrite (bind_Ok _ _ _ (set_cache d n) c) by (by apply load_ok).
    unfold IsOutgoingReady. by rewrite Ho.
  - unfold getOrSet_load. rewrite (bind_Ok _ _ _ _ _ Hu), bind_get. cbn [n_Address set_cache].
    rewrite bool_decide_eq_false_2 by done. rewrite bind_lift.
    destruct (ParseAddress (Address c)) as [info| |] eqn:EP; [|done..].
    rewrite bind_ret, bind_lift, bind_get. simpl. by rewrite Hp.
Qed.

(** What a request for a client leaves. *)
Lemma getOrSetPeerClient_got n n1 a inc now i :
  node_wf n -> getOrSetPeerClient a inc false now n = (n1, Ok i) ->
  exists c n0, unify a n = (n0, Ok (Address c)) /\
    clients n1 !! i = Some c /\ peers n1 !! Address c = Some i /\ outgoingReady c = true /\
    Address c <> n_Address n1 /\ is_ok (ParseAddress (Address c)) = true /\
    forall j, peers n !! Address c = Some j -> j = i.
Proof.
  intros Hwf Hg. apply bind_inv in Hg as (m & [[u j] found] & Hl & Hg).
  apply getOrSet_load_ok in Hl as (d & Hu & Hne & HP & [(-> & Hp & ->)|(-> & Hp & -> & ->)]).
  - destruct (nw_peers _ Hwf _ _ Hp) as (c & Hc & <-).
    unfold getOrSet_wait in Hg. rewrite (bind_Ok _ _ _ (set_cache d n) c) in Hg by by apply load_ok.
    unfold IsOutgoingReady in Hg. destruct (outgoingReady c) eqn:Ho; [|done].
    injection Hg as <- <-. exists c, (set_cache d n). split_and!; try done. congruence.
  - cbv beta iota in Hg. set (m := set_peers _ _) in Hg.
    assert (Ha : n_Address n1 = n_Address n).
    { pose proof (getOrSet_connect_evolves u (length (clients n)) inc m) as [Hev _].
      rewrite Hg in Hev. exact (le_address _ _ Hev). }
    destruct (connect_ok _ _ _ _ _ _ (new_client u now) Hg) as (-> & Hpe & Hc).
    { simpl. by rewrite lookup_app_r, Nat.sub_diag by lia. }
    exists (set_ready (new_client u now) true true), (set_cache d n).
    assert (Hp1 : peers n1 !! u = Some (length (clients n))) by (rewrite Hpe; apply lookup_insert_eq).
    split; [done|]. split; [done|]. split; [done|]. split; [done|]. cbn [Address set_ready new_client].
    split; [by rewrite Ha|]. split; [done|]. congruence.
Qed.

(** [Close] by cases, up to the writes to the maps. *)
Lemma Close_state n i c :
  clients n !! i = Some c -> closeSignal c = closed c -> closed c = false ->
  PeerClient_Close i n =
  let n1 := add_trace ((fun x => EPeerDisconnect x i) <$> Each (Components n))
              (set_clients (<[i := set_closed c]> (clients n)) (jobs n) n) in
  (match ID_ c with
   | None => mret ()
   | Some id =>
       state ← get (fun n => ConnectionState n (ID_Address id));
       _ ← match state with
           | None => mret ()
           | Some state =>
               own ← get n_Address;
               addrInfo ← lift (ParseAddress own);
               _ ← if is_stream (Protocol addrInfo) then emit (EConnClose (conn state)) else mret ();
               if is_udp (Protocol addrInfo) then
                 if isUDPConn (conn state) then emit (EConnClose (conn state)) else crash PTypeAssert
               else mret ()
           end;
       modify (fun n => set_maps (delete (ID_Address id) (udpDialAddrs n))
                 (delete (ID_Address id) (peers n)) (delete (ID_Address id) (connections n)) n)
   end : M ()) n1.
Proof.
  intros Hc Hs Hcl. unfold PeerClient_Close. rewrite (bind_Ok _ _ n n c) by by apply load_ok.
  rewrite bind_lift. unfold close_once. rewrite Hs, Hcl. done.
Qed.

(** ** Properties *)

(** C16. One client per address.  A client got or created for an address belongs to the unified form
    of that very address: it is the entry of it in the map of peers, the one that was there if
    there was one, and its outgoing signal is given.  In any later state of the node (whatever
    operations ran in between, [node_le]) in which the entry is still there, a request for any
    address that unifies to the same form answers the same client, without dialling. *)
Theorem Client_cached (n n1 : Network) (a : bytes) (inc : option (Conn W)) (now : Z) (i : nat) :
  node_wf n -> getOrSetPeerClient a inc false now n = (n1, Ok i) ->
  exists c n0, unify a n = (n0, Ok (Address c)) /\
    clients n1 !! i = Some c /\ peers n1 !! Address c = Some i /\ outgoingReady c = true /\
    (forall j, peers n !! Address c = Some j -> j = i) /\
    forall m b m' soon now', node_le n1 m -> peers m !! Address c = Some i ->
      unify b m = (m', Ok (Address c)) ->
      Network_Client b soon now' m = (m', Ok i) /\ exists d, m' = set_cache d m.
Proof.
  intros Hwf Hg.
  destruct (getOrSetPeerClient_got _ _ _ _ _ _ Hwf Hg) as (c & n0 & Hu & Hc & Hp & Ho & Hne & HP & Hj).
  exists c, n0. repeat (split; [done|]). intros m b m' soon now' Hle Hpm Hub.
  destruct (le_clients _ _ Hle _ _ Hc) as (c' & Hc' & Ha & _ & _ & Hr). rewrite <-Ha in *.
  eapply Client_found; eauto. by rewrite (le_address _ _ Hle).
Qed.

(** A dial that fails is reported to the goroutine that dialled only: one that found the client
    meanwhile gets it as ready, though it is gone from the map and has no connection. *)
Theorem failed_dial_reported_ready (n n1 n2 n3 : Network) (a u : bytes) (now now' : Z) (i : nat) (e : string) :
  getOrSet_load a None now n = (n1, Ok (u, i, false)) ->
  getOrSet_load a None now' n1 = (n2, Ok (u, i, true)) ->
  Dial u n2 = (n3, Err e) ->
  exists n4, getOrSet_connect u i None n2 = (n4, Err e) /\
    peers n4 !! u = None /\ connections n4 = connections n3 /\
    forall soon, getOrSet_wait i soon n4 = (n4, Ok i).
Proof.
  intros H1 H2 Hd.
  apply getOrSet_load_ok in H1 as (d & _ & _ & HP & [(? & _)|(_ & _ & Hi & ->)]); [done|].
  apply getOrSet_load_ok in H2 as (d' & _ & _ & _ & [(_ & _ & ->)|(? & _)]); [|done].
  set (n2 := set_cache d' _) in *.
  assert (Hk : keeps_clients n2 n3) by (eapply keeps_run; [apply conns_keeps, Dial_keeps|exact Hd]).
  destruct Hk as [Hcl Hpe]. set (n3' := set_peers (delete u (peers n3)) n3).
  assert (Hc : clients n3' !! i = Some (new_client u now)).
  { unfold n3'. simpl. rewrite Hcl. simpl. by rewrite Hi, lookup_app_r, Nat.sub_diag by lia. }
  set (n4 := set_clients (<[i := set_ready (new_client u now) true false]> (clients n3')) (jobs n3') n3').
  exists n4. unfold getOrSet_connect, deferred.
  rewrite (bind_Err _ _ n2 n3' e).
  2: { rewrite (bind_Ok (attempt (Dial u)) _ n2 n3 (inr e)); [done|]. by rewrite attempt_eq, Hd. }
  rewrite (bind_Ok (load i) _ _ _ _ (load_ok _ _ _ Hc)), bind_lift.
  split; [done|]. split; [apply lookup_delete_eq|]. split; [done|]. intros soon.
  unfold getOrSet_wait. rewrite (bind_Ok _ _ _ n4 (set_ready (new_client u now) true false)); [done|].
  apply load_ok. simpl. apply list_lookup_insert_eq. by eapply lookup_lt_Some.
Qed.

(** C18. [Close] by cases: a closed client stays as it is; otherwise it is marked closed and the
    components are told, once each; a client whose peer is known by then has its connection
    closed and leaves the three maps, under the address its peer gave. *)
Theorem PeerClient_Close_spec (n : Network) (i : nat) (c : client) (info : AddressInfo) :
  node_wf n -> clients n !! i = Some c -> ParseAddress (n_Address n) = Ok info ->
  (forall id st, ID_ c = Some id -> ConnectionState n (ID_Address id) = Some st ->
     is_udp (Protocol info) = isUDPConn (conn st) /\ is_udp (Protocol info) = negb (is_stream (Protocol info))) ->
  (closed c = true -> PeerClient_Close i n = (n, Ok ())) /\
  (closed c = false ->
   exists n', PeerClient_Close i n = (n', Ok ()) /\
     clients n' = <[i := set_closed c]> (clients n) /\
     PeerClient_Close i n' = (n', Ok ()) /\
     let told := (fun x => EPeerDisconnect x i) <$> Each (Components n) in
     match ID_ c with
     | None =>
         trace n' = trace n ++ told /\ peers n' = peers n /\ connections n' = connections n /\
         udpDialAddrs n' = udpDialAddrs n
     | Some id =>
         let a := ID_Address id in
         trace n' = trace n ++ told ++
           match connections n !! a with Some st => [EConnClose (conn st)] | None => [] end /\
         peers n' = delete a (peers n) /\ connections n' = delete a (connections n) /\
         udpDialAddrs n' = delete a (udpDialAddrs n)
     end).
Proof.
  intros Hwf Hc HP Hst. pose proof (nw_closed _ Hwf _ _ Hc) as Hsig.
  assert (Hdone : forall m d, clients m !! i = Some d -> closed d = true -> PeerClient_Close i m = (m, Ok ())).
  { intros m d Hd Hcl. unfold PeerClient_Close. rewrite (bind_Ok _ _ m m d) by by apply load_ok.
    rewrite bind_lift. unfold close_once. by rewrite Hcl. }
  split; [by apply Hdone|]. intros Hcl. rewrite (Close_state n i c) by done. cbv zeta.
  assert (Hlt : (i < length (clients n))%nat) by by eapply lookup_lt_Some.
  assert (Hlk : <[i := set_closed c]> (clients n) !! i = Some (set_closed c))
    by by apply list_lookup_insert_eq.
  destruct (ID_ c) as [id|].
  - rewrite bind_get. unfold ConnectionState. cbn [connections add_trace set_clients].
    destruct (connections n !! ID_Address id) as [st|] eqn:Est.
    + destruct (Hst id st eq_refl Est) as [Hu Hs].
      set (n1 := add_trace _ _).
      rewrite (bind_Ok _ _ n1 (add_trace [EConnClose (conn st)] n1) ()).
      * eexists. split; [done|]. split; [done|]. split; [by eapply Hdone; [exact Hlk|]|].
        simpl. by rewrite <-(assoc_L (++)).
      * rewrite bind_get. unfold n1. cbn [n_Address add_trace set_clients]. rewrite bind_lift, HP.
        revert Hu Hs. destruct (is_udp (Protocol info)); intros Hu Hs; rewrite <-?Hu;
          destruct (is_stream (Protocol info)); done.
    + eexists. split; [done|]. split; [done|]. split; [by eapply Hdone; [exact Hlk|]|].
      simpl. by rewrite app_nil_r.
  - eexists. split; [done|]. split; [done|]. split; [by eapply Hdone; [exact Hlk|]|]. done.
Qed.

(** A client whose peer never sent a message, such as one just dialled, is not removed by its
    [Close]: its entry stays in the map, and the next request for the address answers the
    closed client, whose stream is closed and whose jobs are not run any more. *)
Theorem closed_client_is_cached (n n1 n2 : Network) (i : nat) (c : client) (b : bytes) (soon : bool) (now : Z) :
  node_wf n -> clients n !! i = Some c -> peers n !! Address c = Some i ->
  ID_ c = None -> closed c = false -> outgoingReady c = true -> is_ok (ParseAddress (Address c)) = true ->
  PeerClient_Close i n = (n1, Ok ()) -> unify b n1 = (n2, Ok (Address c)) ->
  clients n1 !! i = Some (set_closed c) /\ peers n1 = peers n /\ connections n1 = connections n /\
  Network_Client b soon now n1 = (n2, Ok i).
Proof.
  intros Hwf Hc Hp Hid Hcl Ho HP. rewrite (Close_state n i c) by (done || by eapply nw_closed).
  cbv zeta. rewrite Hid. intros [= <-] Hu.
  assert (Hlk : <[i := set_closed c]> (clients n) !! i = Some (set_closed c))
    by (apply list_lookup_insert_eq; by eapply lookup_lt_Some).
  repeat (split; [done|]). eapply (Client_found _ _ b (set_closed c)); eauto.
  simpl. intros E. pose proof (nw_self _ Hwf). congruence.
Qed.

Lemma FilterPeers_loop_ok address n visited filtered peers :
  cache_wf (domainLookupCache n) ->
  (forall u, u ∈ visited <-> u ∈ address :: filtered) -> NoDup (address :: filtered) ->
  exists n' more, FilterPeers_loop visited filtered peers n = (n', Ok (filtered ++ more)) /\
    (exists d, n' = set_cache d n /\ cache_wf d) /\ NoDup (address :: filtered ++ more) /\
    (forall u, u ∈ more -> exists p c c', p ∈ peers /\ p <> [] /\
       ToUnifiedAddress ParseIP LookupHost c p = Ok (c', inl u)) /\
    (forall p, p ∈ peers -> p <> [] -> exists c c' r, cache_wf c /\
       ToUnifiedAddress ParseIP LookupHost c p = Ok (c', r) /\
       forall u, r = inl u -> u ∈ address :: filtered ++ more).
Proof.
  revert n visited filtered. induction peers as [|p peers IH]; intros n visited filtered Hc Hv Hn.
  { exists n, []. rewrite app_nil_r. split; [done|]. split; [exists (domainLookupCache n); by destruct n|].
    split; [done|]. split; intros x Hx; by apply elem_of_nil in Hx. }
  cbn [FilterPeers_loop]. destruct (Z.eqb_spec (zlen p) 0) as [Hz|Hz].
  { apply zlen_zero in Hz as ->. destruct (IH n visited filtered Hc Hv Hn) as (n' & more & Hr & Hd & Hn' & Hs & Hcp).
    exists n', more. split; [done|]. split; [done|]. split; [done|]. split.
    - intros u Hu. destruct (Hs u Hu) as (q & c & c' & Hq & ?). exists q, c, c'. split; [by right|done].
    - intros q [->|Hq]%elem_of_cons Hne; [done|]. by apply Hcp. }
  assert (Hpn : p <> []) by (by intros ->).
  destruct (ToUnifiedAddress_wf ParseIP LookupHost (domainLookupCache n) p Hc) as (c' & r & Hr & Hc').
  assert (Hat : attempt (unify p) n = (set_cache c' n, Ok r)).
  { rewrite attempt_eq. unfold unify. rewrite Hr. by destruct r. }
  rewrite (bind_Ok _ _ _ _ _ Hat).
  (* the step, given what the rest of the loop starts from *)
  assert (Hstep : forall visited' filtered' new, filtered' = filtered ++ new ->
    (forall u, u ∈ visited' <-> u ∈ address :: filtered') -> NoDup (address :: filtered') ->
    (forall u, u ∈ new -> r = inl u) -> (forall u, r = inl u -> u ∈ address :: filtered') ->
    exists n' more, FilterPeers_loop visited' filtered' peers (set_cache c' n) = (n', Ok (filtered ++ more)) /\
      (exists d, n' = set_cache d n /\ cache_wf d) /\ NoDup (address :: filtered ++ more) /\
      (forall u, u ∈ more -> exists q c c', q ∈ p :: peers /\ q <> [] /\
         ToUnifiedAddress ParseIP LookupHost c q = Ok (c', inl u)) /\
      (forall q, q ∈ p :: peers -> q <> [] -> exists c c' r, cache_wf c /\
         ToUnifiedAddress ParseIP LookupHost c q = Ok (c', r) /\
         forall u, r = inl u -> u ∈ address :: filtered ++ more)).
  { intros v' f' new -> Hv' Hn' Hnew Hin. destruct (IH (set_cache c' n) v' _ Hc' Hv' Hn')
      as (n' & more & Hr' & (d & -> & Hd) & Hnd & Hs & Hcp).
    exists (set_cache d (set_cache c' n)), (new ++ more). rewrite (assoc_L (++)). split; [done|].
    split; [by exists d|]. split; [done|]. split.
    - intros u [Hu|Hu]%elem_of_app.
      + exists p, (domainLookupCache n), c'. split; [by left|]. rewrite Hr, (Hnew u Hu). done.
      + destruct (Hs u Hu) as (q & x & x' & Hq & ?). exists q, x, x'. split; [by right|done].
    - intros q [->|Hq]%elem_of_cons Hne; [|by apply Hcp].
      exists (domainLookupCache n), c', r. split; [done|]. split; [done|]. intros u Hu.
      specialize (Hin u Hu). revert Hin. rewrite !elem_of_cons, !elem_of_app. tauto. }
  destruct r as [u|e].
  - case_bool_decide as Hvis.
    + apply (Hstep visited filtered []); [by rewrite app_nil_r|done|done|by intros ? ?%elem_of_nil|].
      intros ? [= <-]. by apply Hv.
    + apply (Hstep _ (filtered ++ [u]) [u]); [done| | | |].
      * intros w. rewrite elem_of_union, elem_of_singleton, Hv, !elem_of_cons, elem_of_app, list_elem_of_singleton. tauto.
      * rewrite app_comm_cons, NoDup_app. split; [done|]. split; [|apply NoDup_singleton].
        intros w Hw ->%list_elem_of_singleton. by apply Hvis, Hv.
      * by intros w ->%list_elem_of_singleton.
      * intros w [= <-]. rewrite elem_of_cons, elem_of_app, list_elem_of_singleton. auto.
  - apply (Hstep visited filtered []); [by rewrite app_nil_r|done|done|by intros ? ?%elem_of_nil|done].
Qed.

Lemma peer_addresses_ok n range : node_wf n -> (forall k, k ∈ range -> is_Some (peers n !! k)) ->
  peer_addresses range n = (n, Ok range).
Proof.
  intros Hwf. induction range as [|k range IH]; intros Hr; [done|]. cbn [peer_addresses]. rewrite bind_get.
  destruct (Hr k ltac:(by left)) as (i & Hk). rewrite Hk. destruct (nw_peers _ Hwf _ _ Hk) as (c & Hc & Ha).
  rewrite (bind_Ok (client_Address i) _ n n k).
  - rewrite (bind_Ok _ _ _ _ _ (IH ltac:(intros x Hx; apply Hr; by right))). done.
  - unfold client_Address. rewrite (bind_Ok _ _ n n c) by by apply load_ok. by rewrite <-Ha.
Qed.

Lemma collect_take K got l : exists m, collect K got l = got ++ take m l /\
  ((m < length l)%nat -> i64 (K * 3) < zlen got + Z.of_nat m).
Proof.
  revert got. induction l as [|a l IH]; intros got; cbn [collect].
  { exists 0%nat. split; [by rewrite app_nil_r|]. simpl. lia. }
  destruct (Z.leb_spec (zlen (got ++ [a])) (i64 (K * 3))) as [Hle|Hlt].
  - destruct (IH (got ++ [a])) as (m & -> & Hm). exists (S m). simpl. rewrite <-(assoc_L (++)).
    split; [done|]. intros Hl. specialize (Hm ltac:(lia)). rewrite zlen_app in Hm.
    change (zlen [a]) with 1 in Hm. lia.
  - exists 1%nat. split; [done|]. rewrite zlen_app in Hlt. change (zlen [a]) with 1 in Hlt. lia.
Qed.

(** [FilterPeers] never fails and answers each address once, the node's own never: what it
    answers are unified forms of the given addresses, and every given address that unifies is
    there (or is the node's own). *)
Theorem FilterPeers_spec (n : Network) (address : bytes) (peers : list bytes) :
  cache_wf (domainLookupCache n) ->
  exists n' filtered, FilterPeers address peers n = (n', Ok filtered) /\
    (exists d, n' = set_cache d n /\ cache_wf d) /\ NoDup (address :: filtered) /\
    (forall u, u ∈ filtered -> exists p c c', p ∈ peers /\ p <> [] /\
       ToUnifiedAddress ParseIP LookupHost c p = Ok (c', inl u)) /\
    (forall p, p ∈ peers -> p <> [] -> exists c c' r, cache_wf c /\
       ToUnifiedAddress ParseIP LookupHost c p = Ok (c', r) /\
       forall u, r = inl u -> u ∈ address :: filtered).
Proof.
  intros Hc. apply (FilterPeers_loop_ok address n {[address]} [] peers Hc).
  - intros u. by rewrite elem_of_singleton, list_elem_of_singleton.
  - apply NoDup_singleton.
Qed.

(** A random broadcast goes to distinct peers of the node, as many as asked for or all of them;
    asked for a negative number, it panics. *)
Theorem BroadcastRandomly_spec (n : Network) (shuffle : list bytes -> list bytes) (ctx : option Context_)
    (message : option (proto_Message UM)) (K : Z) (range : list bytes) :
  node_wf n -> NoDup range -> (forall k, k ∈ range <-> is_Some (peers n !! k)) ->
  (forall l, shuffle l ≡ₚ l) -> - 2 ^ 63 <= K * 3 < 2 ^ 63 ->
  (K < 0 -> BroadcastRandomly shuffle ctx message K range n = (n, Panic PSlice)) /\
  (0 <= K -> exists chosen,
     BroadcastRandomly shuffle ctx message K range n = BroadcastByAddresses ctx message chosen n /\
     NoDup chosen /\ (forall a, a ∈ chosen -> is_Some (peers n !! a)) /\
     zlen chosen = Z.min K (zlen range)).
Proof.
  intros Hwf Hnd Hrange Hsh HK. unfold BroadcastRandomly.
  rewrite (bind_Ok _ _ _ _ _ (peer_addresses_ok n range Hwf (fun k Hk => proj1 (Hrange k) Hk))). cbv zeta.
  destruct (collect_take K [] range) as (m & -> & Hm). rewrite app_nil_l.
  rewrite i64_small, zlen_nil in Hm by lia. set (l := shuffle (take m range)).
  assert (Hl : l ≡ₚ take m range) by apply Hsh.
  assert (Hlen : zlen l = Z.of_nat (Nat.min m (length range))).
  { unfold zlen. by rewrite Hl, length_take. }
  unfold zlen in Hm. split; intros HK0.
  - destruct (Z.ltb_spec (zlen l) K); [unfold zlen in *; lia|]. rewrite bind_lift. unfold subslice.
    destruct (Z.ltb_spec K 0); [|lia]. by rewrite orb_true_r.
  - set (K' := if zlen l <? K then zlen l else K).
    assert (HK' : 0 <= K' <= zlen l).
    { unfold K'. pose proof (zlen_nonneg l). destruct (Z.ltb_spec (zlen l) K); lia. }
    exists (take (Z.to_nat K') l). rewrite bind_lift. unfold subslice.
    destruct (Z.ltb_spec 0 0); [lia|]. destruct (Z.ltb_spec K' 0); [lia|].
    destruct (Z.ltb_spec (zlen l) K'); [lia|]. cbn [orb]. rewrite Z.sub_0_r, drop_0.
    split; [done|]. split; [|split].
    + apply (sublist_NoDup _ l); [|apply sublist_take]. rewrite Hl.
      by apply (sublist_NoDup _ range); [|apply sublist_take].
    + intros a Ha. apply Hrange. apply elem_of_take in Ha as (j & Ha & _).
      apply list_elem_of_lookup_2 in Ha. rewrite Hl in Ha. apply elem_of_take in Ha as (j' & Ha & _).
      by eapply list_elem_of_lookup_2.
    + unfold zlen at 1. rewrite length_take. unfold K', zlen in *.
      destruct (Z.ltb_spec (Z.of_nat (length l)) K); lia.
Qed.

(** The callbacks of [Listen]: the components are started, the connections handed over, and the
    components cleaned up when it returns: on a stream transport that is when the node is
    killed, but over UDP it is at once, with the node still receiving. *)
Theorem Listen_callbacks (n : Network) (info : AddressInfo) (t : L) (conns : list (Conn W)) :
  listening n = false -> ParseAddress (n_Address n) = Ok info -> transports n !! Protocol info = Some t ->
  let started := EStartup <$> Each (Components n) in
  let stopped := ECleanup <$> Each (Components n) in
  (is_stream (Protocol info) = true -> layer_Listen t (Port info) = Ok NetListener ->
   exists n', Listen ((inl <$> conns) ++ [inr true]) n = (n', Ok ()) /\
     trace n' = trace n ++ started ++ (EGoAccept <$> conns) ++ stopped) /\
  (forall c accepts, is_udp (Protocol info) = true -> layer_Listen t (Port info) = Ok (UDPListener c) ->
   exists n', Listen accepts n = (n', Ok ()) /\ kill n' = kill n /\
     trace n' = trace n ++ started ++ [EGoAcceptUdp c] ++ stopped).
Proof.
  intros Hl HP Ht started stopped.
  set (n1 := set_flags true (kill n) (add_trace started n)).
  assert (Hloop : forall n, accept_loop ((inl <$> conns) ++ [inr true]) n
                            = (add_trace (EGoAccept <$> conns) n, Ok ())).
  { clear. induction conns as [|c conns IH]; intros n; cbn; [by rewrite add_trace_nil|].
    unfold emit. rewrite bind_modify, IH. unfold add_trace. simpl. by rewrite <-(assoc_L (++)). }
  split.
  - intros Hs HL. eexists. unfold Listen. rewrite bind_each.
    unfold deferred. rewrite bind_get. cbn [n_Address add_trace]. rewrite HP, bind_get.
    cbn [transports add_trace]. rewrite Ht, HL. cbv zeta. fold started.
    rewrite (bind_Ok _ _ _ n1 ()) by (unfold startListening; rewrite bind_get; simpl; by rewrite Hl).
    rewrite Hs, Hloop. split; [done|]. simpl. by rewrite <-!(assoc_L (++)).
  - intros c accepts Hu HL. eexists. unfold Listen. rewrite bind_each.
    unfold deferred. rewrite bind_get. cbn [n_Address add_trace]. rewrite HP, bind_get.
    cbn [transports add_trace]. rewrite Ht, HL. cbv zeta. fold started.
    rewrite (bind_Ok _ _ _ n1 ()) by (unfold startListening; rewrite bind_get; simpl; by rewrite Hl).
    assert (Hs : is_stream (Protocol info) = false).
    { apply bool_decide_eq_true in Hu. unfold is_stream. by rewrite Hu. }
    rewrite Hs, Hu. split; [done|]. split; [done|]. simpl. by rewrite <-!(assoc_L (++)).
Qed.
End Network.

#[export] Hint Resolve store_state_evolves emit_evolves each_component_evolves load_evolves unify_evolves
  delete_peer_evolves Write_evolves flush_evolves client_Address_evolves Tell_evolves Reply_evolves
  PeerClient_Write_evolves Request_send_evolves Request_track_evolves Request_finish_evolves
  Dial_evolves getOrSet_load_evolves getOrSet_connect_evolves getOrSet_wait_evolves
  getOrSetPeerClient_evolves Network_Client_evolves PeerClient_Close_evolves write_each_evolves
  BroadcastByAddresses_evolves Broadcast_evolves BroadcastByIDs_evolves BroadcastRandomly_evolves
  FilterPeers_evolves Bootstrap_evolves Listen_evolves Network_Close_evolves flush_tick_evolves : frames.

(** ** Witnesses *)

(** An environment of one host whose connections keep what they are given; a transport layer
    refuses every dial ([None]) or makes stream or UDP connections. *)
#[export] Instance a_env : Environment bytes (option bool) := {
  ParseIP := a_ParseIP;
  LookupHost := a_LookupHost;
  ResolveUDPAddr b := Ok b;
  conn_write := a_conn;
  layer_Dial l hostport := match l with
                           | Some udp => Ok (mkConn udp (str "127.0.0.1:9") (str "tcp") hostport [])
                           | None => Err "connection refused"
                           end;
  layer_Listen l _ := match l with
                      | Some true => Ok (UDPListener (mkConn true (str "127.0.0.1:80") [] [] []))
                      | Some false => Ok NetListener
                      | None => Err "address in use"
                      end;
}.
Definition a_options : options := mkOptions 0 toy_policy Noop 16 0 64 1024 0 0 WRITE_MODE_LOOP.
Definition a_address : bytes := str "tcp://127.0.0.1:81".
Abbreviation a_Network := (Network (UM:=bytes) (UT:=unit) (C:=nat) (T:=nat) (W:=bytes) (L:=option bool)).
(** A node with one component. *)
Definition a_node (own : bytes) (l : option bool) :
    Network (UM:=bytes) (UT:=unit) (C:=nat) (T:=nat) (W:=bytes) (L:=option bool) :=
  mkNetwork 0 a_options (mkKeyPair [x01; x02] [x01; x02]) own (Puts id NewComponentList [(0, 7%nat)])
    (mkID (Some [x01; x02]) own (Some [x01; x02]) None) ∅ ∅ ∅ {[str "tcp" := l; str "udp" := l]}
    false false [] [] (NewCache 10) init [].
Definition a_tcp_node : Network := a_node (str "tcp://127.0.0.1:80") (Some false).
Definition a_udp_node : Network := a_node (str "udp://127.0.0.1:80") (Some true).

Lemma a_node_wf own l : node_wf (a_node own l).
Proof.
  split; simpl; [intros ??; by rewrite lookup_empty|by rewrite lookup_empty|intros ??; by rewrite lookup_nil].
Qed.

(** The node after it dialled [a_address]. *)
Definition a_dialled : Network := fst (getOrSetPeerClient a_address None false 0 a_tcp_node).
Lemma a_dial_runs : getOrSetPeerClient a_address None false 0 a_tcp_node = (a_dialled, Ok 0%nat).
Proof. unfold a_dialled. apply run_eq. vm_compute. reflexivity. Qed.
Lemma a_dialled_wf : node_wf a_dialled.
Proof.
  assert (H : evolves a_tcp_node a_dialled) by apply getOrSetPeerClient_evolves.
  apply H, a_node_wf.
Qed.

Definition a_ready_client : PeerClient (proto_Message bytes) := set_ready (new_client a_address 0) true true.
Lemma a_dialled_client : clients a_dialled !! 0%nat = Some a_ready_client.
Proof. vm_compute. reflexivity. Qed.
Lemma a_unifies : snd (unify a_address a_tcp_node) = Ok a_address.
Proof. vm_compute. reflexivity. Qed.
Lemma a_dialled_peers : peers a_dialled = {[a_address := 0%nat]}.
Proof.
  pose proof a_dial_runs as Hg. apply bind_inv in Hg as (m & [[u j] found] & Hl & Hg).
  apply getOrSet_load_ok in Hl as (d & Hu & _ & _ & [(_ & Hp & _)|(-> & _ & -> & ->)]).
  { exfalso. revert Hp. unfold a_tcp_node, a_node. cbn [peers]. by rewrite lookup_empty. }
  pose proof a_unifies as Ha. rewrite Hu in Ha. injection Ha as ->.
  destruct (connect_ok _ _ _ _ _ _ (new_client a_address 0) Hg) as (_ & -> & _); done.
Qed.
Lemma a_dialled_peer : peers a_dialled !! a_address = Some 0%nat.
Proof. rewrite a_dialled_peers. apply lookup_singleton_eq. Qed.
Lemma a_dialled_info : ParseAddress (n_Address a_dialled) = Ok (mkAddressInfo (str "tcp") (str "127.0.0.1") 80).
Proof. vm_compute. reflexivity. Qed.

(** A client is dialled, the node sends through it, and the address is asked for again. *)
Definition a_told : Network :=
  fst (Tell 0 (Some Background) (Some (PBytes (mkBytes (Some [x68]) None))) a_dialled).
Lemma a_told_later : node_le a_dialled a_told.
Proof. exact (proj1 (Tell_evolves 0 (Some Background) (Some (PBytes (mkBytes (Some [x68]) None))) a_dialled)). Qed.
Definition a_told_unified : Network := fst (unify a_address a_told).
Lemma a_told_unify_runs : unify a_address a_told = (a_told_unified, Ok a_address).
Proof. unfold a_told_unified. apply run_eq. vm_compute. reflexivity. Qed.
Lemma a_told_peers : peers a_told !! a_address = Some 0%nat.
Proof. vm_compute. reflexivity. Qed.

Lemma Client_cached_witness :
  exists c : PeerClient (proto_Message bytes), clients a_dialled !! 0%nat = Some c /\ Address c = a_address /\
    Network_Client a_address false 7 a_told = (a_told_unified, Ok 0%nat).
Proof.
  destruct (Client_cached a_tcp_node a_dialled a_address None 0 0 (a_node_wf _ _) a_dial_runs)
    as (c & n0 & Hu & Hc & _ & _ & _ & Hl).
  assert (Ha : Address c = a_address).
  { pose proof a_unifies as H. rewrite Hu in H. injection H as H. exact H. }
  exists c. split; [exact Hc|]. split; [exact Ha|]. rewrite Ha in Hl.
  exact (proj1 (Hl a_told a_address a_told_unified false 7 a_told_later a_told_peers a_told_unify_runs)).
Defined.

(** A node whose dials fail, and two goroutines that dial at once. *)
Definition a_refused : Network := a_node (str "tcp://127.0.0.1:80") None.
Definition a_first : Network := fst (getOrSet_load a_address None 0 a_refused).
Definition a_second : Network := fst (getOrSet_load a_address None 0 a_first).
Lemma failed_dial_reported_ready_witness :
  exists n4, getOrSet_connect a_address 0 None a_second = (n4, Err "connection refused"%string) /\
    peers n4 !! a_address = None /\ getOrSet_wait 0 false n4 = (n4, Ok 0%nat).
Proof.
  destruct (failed_dial_reported_ready a_refused a_first a_second (fst (Dial a_address a_second)) a_address a_address 0 0 0
              "connection refused") as (n4 & H1 & H2 & _ & H3).
  { unfold a_first. apply run_eq. vm_compute. reflexivity. }
  { unfold a_second. apply run_eq. vm_compute. reflexivity. }
  { apply (run_eq (Dial a_address) a_second). vm_compute. reflexivity. }
 
  exists n4. split; [exact H1|]. split; [exact H2|apply H3].
Defined.

Lemma PeerClient_Close_spec_witness :
  exists n', PeerClient_Close 0 a_dialled = (n', Ok ()) /\ peers n' = peers a_dialled.
Proof.
  destruct (PeerClient_Close_spec a_dialled 0 a_ready_client (mkAddressInfo (str "tcp") (str "127.0.0.1") 80)
              a_dialled_wf a_dialled_client) as (_ & H).
  - exact a_dialled_info.
  - intros id st Hid. discriminate Hid.
  - destruct (H eq_refl) as (n' & Hn & _ & _ & _ & Hp & _).
    exists n'. split; [exact Hn|exact Hp].
Defined.

(** The same node after the client is closed. *)
Definition a_closed : Network := fst (PeerClient_Close 0 a_dialled).
Lemma a_close_runs : PeerClient_Close 0 a_dialled = (a_closed, Ok ()).
Proof. unfold a_closed. apply run_eq. vm_compute. reflexivity. Qed.
Definition a_unified : Network := fst (unify a_address a_closed).
Lemma a_unify_runs : unify a_address a_closed = (a_unified, Ok a_address).
Proof. unfold a_unified. apply run_eq. vm_compute. reflexivity. Qed.
Lemma closed_client_is_cached_witness :
  Network_Client a_address false 0 a_closed = (a_unified, Ok 0%nat).
Proof.
  apply (closed_client_is_cached a_dialled a_closed a_unified 0 a_ready_client a_address false 0 a_dialled_wf
           a_dialled_client a_dialled_peer eq_refl eq_refl eq_refl eq_refl a_close_runs a_unify_runs).
Defined.

Lemma FilterPeers_spec_witness :
  exists n' filtered, FilterPeers (str "tcp://127.0.0.1:80")
      [str "tcp://localhost:80"; []; str "tcp://localhost:81"; str "tcp://127.0.0.1:81"; str "%"] a_tcp_node
    = (n', Ok filtered) /\ NoDup (str "tcp://127.0.0.1:80" :: filtered).
Proof.
  destruct (FilterPeers_spec a_tcp_node (str "tcp://127.0.0.1:80")
    [str "tcp://localhost:80"; []; str "tcp://localhost:81"; str "tcp://127.0.0.1:81"; str "%"])
    as (n' & f & Hf & _ & Hn & _); [apply NewCache_wf; reflexivity|].
  exists n', f. split; [exact Hf|exact Hn].
Defined.

Lemma BroadcastRandomly_spec_witness :
  BroadcastRandomly id (Some Background) (Some (PPing (mkPing None))) (-1) [a_address] a_dialled
  = (a_dialled, Panic PSlice).
Proof.
  apply (BroadcastRandomly_spec a_dialled id (Some Background) (Some (PPing (mkPing None))) (-1) [a_address]).
  - exact a_dialled_wf.
  - apply NoDup_singleton.
  - intros k. rewrite list_elem_of_singleton.
    rewrite a_dialled_peers, lookup_singleton_is_Some. split; congruence.
  - intros l. reflexivity.
  - lia.
  - lia.
Defined.

Lemma Listen_callbacks_witness :
  exists n', Listen [] a_udp_node = (n', Ok ()) /\ kill n' = false.
Proof.
  destruct (Listen_callbacks a_udp_node (mkAddressInfo (str "udp") (str "127.0.0.1") 80) (Some true) [])
    as (_ & H); [reflexivity|vm_compute; reflexivity|vm_compute; reflexivity|].
  destruct (H (mkConn true (str "127.0.0.1:80") [] [] []) [] eq_refl eq_refl) as (n' & Hn & Hk & _).
  exists n'. split; [exact Hn|exact Hk].
Defined.
