(* ===== verification/Inbound.v ===== *)
(** * The node: incoming side of [network/network.go]

    What a node does with the messages of a connection ([Accept]) and of a UDP socket
    ([AcceptUdp]), the job queue of a client and the dispatch of a message to a waiting
    request, the byte stream or the components ([dispatchMessage]).

    [Accept] handles a message in two parts: the first message creates or finds the client, in
    the loop itself ([accept_once]); the rest runs in a goroutine per message ([goroutine]),
    whose steps are its checks, its push to the window, its pop, and each job it submits
    ([accept_go]): the window's mutex makes a push and a pop atomic, not what is between them.
    The loop of [Accept] with its goroutines, and what becomes of the messages under any
    schedule, is in [Incoming]. *)

From S2P Require Import Prelude Messages Peer Lru Protobuf Opcode Address Component Stream Crypto RecvWindow Client Network.
#[local] Open Scope Z_scope.

Section Inbound.
Context {UM UT C T W L : Type} `{!UserMessages UM UT} `{Countable T} `{!Environment W L}.
#[local] Abbreviation node := (Network (UM:=UM) (UT:=UT) (C:=C) (T:=T) (W:=W) (L:=L)).
#[local] Abbreviation M := (ST node).

(** ** Dispatch *)

Definition empty_message (t : tables) (code : Z) : option (proto_Message UM) :=
  if code =? BytesCode then Some (PBytes (mkBytes None None))
  else if code =? PingCode then Some (PPing (mkPing None))
  else if code =? PongCode then Some (PPong (mkPong None))
  else if code =? LookupNodeRequestCode then Some (PLookupNodeRequest (mkLookupNodeRequest None None))
  else if code =? LookupNodeResponseCode then Some (PLookupNodeResponse (mkLookupNodeResponse [] None))
  else if code =? DisconnectCode then Some (PDisconnect (mkDisconnect None))
  else if code =? UnregisteredCode then None
  else match GetMessageType t code with Ok m => Some m | _ => None end.

(** [soon]: whether the client gets ready within a second. *)
Definition dispatchMessage (i : nat) (msg : Message) (soon : bool) (now : Z) : M () :=
  client ← load i;
  if negb (IsIncomingReady client soon) then mret ()
  else
    t ← get opcodes;
    match empty_message t (Message_Opcode msg) with
    | None => mret ()
    | Some ptr =>
        let raw := sbytes (Message_Message msg) in
        match (if 0 <? zlen raw then proto_Unmarshal ptr raw else Ok ptr) with
        | Panic p => crash p
        | Err _ => mret ()
        | Ok ptr =>
            let client := set_time client now in
            let nonce := Message_RequestNonce msg in
            match (if (0 <? nonce) && Message_ReplyFlag msg then deliver_reply client nonce ptr else None) with
            | Some client => save i client
            | None =>
                match ptr with
                | PBytes msgRaw =>
                    save i (set_stream client (fst (handleBytes (stream client) (sbytes (Bytes_Data msgRaw)))))
                | _ =>
                    _ ← save i client;
                    each_component (fun c => EReceive c i ptr nonce)
                end
            end
        end
    end.

(** ** Jobs *)

(** The channel of jobs of a client holds 128 of them.  When the client is closed and there is
    room, [select] takes either branch ([take]). *)
Definition job_capacity : nat := 128.
Definition jobs_of (i : nat) (l : list (nat * Message)) : list Message := (filter (fun j => j.1 = i) l).*2.
Definition Submit (i : nat) (take : bool) (job : Message) : M () :=
  c ← load i;
  queued ← get jobs;
  let room := bool_decide (length (jobs_of i queued) < job_capacity)%nat in
  if room && (negb (closeSignal c) || take) then
    modify (fun n => set_clients (clients n) (jobs n ++ [(i, job)]) n)
  else if closeSignal c then mret ()
  else crash PBlocked.

Fixpoint take_job (i : nat) (l : list (nat * Message)) : option (Message * list (nat * Message)) :=
  match l with
  | [] => None
  | (j, m) :: l =>
      if decide (j = i) then Some (m, l)
      else match take_job i l with Some (m', l) => Some (m', (j, m) :: l) | None => None end
  end.
(** A round of [executeJobs] that takes a job; [false]: there is none. *)
Definition executeJob (i : nat) (soon : bool) (now : Z) : M bool :=
  queued ← get jobs;
  match take_job i queued with
  | None => mret false
  | Some (m, rest) =>
      _ ← modify (fun n => set_clients (clients n) rest n);
      _ ← dispatchMessage i m soon now;
      mret true
  end.

(** ** [Accept] *)

Definition check_signature (o : options) (msg : Message) : res bool :=
  match Message_Signature msg with
  | None => Ok true
  | Some signature =>
      match Message_Sender msg with
      | None => Panic PNilDeref
      | Some sender =>
          serialized ← SerializeMessage sender (sbytes (Message_Message msg));
          Verify (sp := signaturePolicy o) (hp := hashPolicy o) (sbytes (ID_NetKey sender)) serialized signature
      end
  end.

(** The variables of an [Accept]: [client], [clientInit], [recvWindow]. *)
Record accept_state := mkAccept {
  a_client : option nat;
  clientInit : bool;
  recvWindow : RecvWindow (V:=Message);
}.

Definition Accept_start (n : node) : res accept_state :=
  w ← NewRecvWindow (recvWindowSize (opts n)); Ok (mkAccept None false w).

(** [clientInit.Do], and the error it leaves in [err]. *)
Definition accept_once (incoming : Conn W) (a : accept_state) (msg : Message) (soon : bool) (now : Z) :
    M (accept_state * option string) :=
  if clientInit a then mret (a, None)
  else
    match Message_Sender msg with
    | None => crash PNilDeref
    | Some sender =>
        r ← attempt (getOrSetPeerClient (ID_Address sender) (Some incoming) soon now);
        match r with
        | inr e => mret (mkAccept None true (recvWindow a), Some e)
        | inl i =>
            c ← load i;
            _ ← save i (set_ID c (Some sender));
            exists_ ← get (fun n => ConnectionStateExists n (ID_Address sender));
            mret (mkAccept (Some i) true (recvWindow a),
                  if (exists_ : bool) then None else Some "network: failed to load session"%string)
        end
    end.

(** [client.ID.Equals(peer.ID(msg.Sender))]. *)
Definition same_peer (i : nat) (msg : Message) : M bool :=
  c ← load i;
  match ID_ c, Message_Sender msg with
  | Some id, Some sender => mret (Equals id sender)
  | _, _ => crash PNilDeref
  end.

(** The goroutine of a message, by what it does next: check its message, push it, pop what is
    ready, submit that.  It has ended when there is nothing to submit. *)
Inductive goroutine :=
| GStart (msg : Message)
| GPush (msg : Message)
| GPop
| GSubmit (ready : list (option Message)).

(** One step of it. *)
Definition accept_go (a : accept_state) (take : bool) (g : goroutine) : M (accept_state * goroutine) :=
  match g with
  | GStart msg =>
      o ← get opts;
      ok ← lift (check_signature o msg);
      if negb ok then mret (a, GSubmit [])
      else
        match a_client a with
        | None => crash PNilDeref
        | Some i =>
            same ← same_peer i msg;
            mret (a, if (same : bool) then GPush msg else GSubmit [])
        end
  | GPush msg =>
      w ← lift (Push (recvWindow a) (Message_MessageNonce msg) (Some msg));
      mret (mkAccept (a_client a) (clientInit a) w, GPop)
  | GPop =>
      '(w, ready) ← lift (Pop (recvWindow a));
      mret (mkAccept (a_client a) (clientInit a) w, GSubmit ready)
  | GSubmit [] => mret (a, GSubmit [])
  | GSubmit (None :: _) => crash PTypeAssert
  | GSubmit (Some msg :: ready) =>
      match a_client a with
      | None => crash PNilDeref
      | Some i => _ ← Submit i take msg; mret (a, GSubmit ready)
      end
  end.

(** The deferred function. *)
Definition accept_cleanup (incoming : Conn W) (a : accept_state) : M () :=
  _ ← match a_client a with Some i => _ ← attempt (PeerClient_Close i); mret () | None => mret () end;
  emit (EConnClose incoming).

(** The goroutine of a datagram; [client] is shared by them. *)
Definition AcceptUdp_job (incoming : Conn W) (client : option nat) (msg : Message) (soon take : bool)
    (now : Z) : M (option nat) :=
  o ← get opts;
  ok ← lift (check_signature o msg);
  if negb ok then mret client
  else
    r ← attempt (getOrSetPeerClient (Message_DialAddress msg) (Some incoming) soon now);
    match r with
    | inr _ => mret None
    | inl i =>
        match Message_Sender msg with
        | None => crash PNilDeref
        | Some sender =>
            c ← load i;
            _ ← save i (set_ID c (Some sender));
            exists_ ← get (fun n => ConnectionStateExists n (Message_DialAddress msg));
            if negb exists_ then mret (Some i)
            else
              same ← same_peer i msg;
              if negb same then mret (Some i)
              else
                _ ← Submit i take msg;
                mret (Some i)
        end
    end.

(** ** Histories *)

(** The operations of a node, the steps of the goroutines among them; [a] and [client] are
    whatever the loop or goroutine has got. *)
Inductive op :=
| OClient (address : bytes) (soon : bool) (now : Z)
| OLoad (address : bytes) (incoming : option (Conn W)) (now : Z)
| OConnect (address : bytes) (i : nat) (incoming : option (Conn W))
| OTell (i : nat) (ctx : option Context_) (m : option (proto_Message UM))
| ORequest_send (i : nat) (ctx : option Context_) (m : option (proto_Message UM))
| ORequest_track (i : nat) (nonce : Z)
| ORequest_finish (i : nat) (nonce : Z) (done : option string) (prefer_done : bool)
| OReply (i : nat) (ctx : option Context_) (nonce : Z) (m : option (proto_Message UM))
| OWrite (i : nat) (data : bytes) (now : Z)
| OBroadcast (ctx : option Context_) (m : option (proto_Message UM)) (range : list bytes)
| OBroadcastByAddresses (ctx : option Context_) (m : option (proto_Message UM)) (addresses : list bytes)
| OBroadcastByIDs (ctx : option Context_) (m : option (proto_Message UM)) (ids : list ID)
| OBroadcastRandomly (shuffle : list bytes -> list bytes) (ctx : option Context_)
    (m : option (proto_Message UM)) (K : Z) (range : list bytes)
| OBootstrap (soon : bytes -> bool) (now : Z) (addresses : list bytes)
| OListen (accepts : list (Conn W + bool))
| OFlush (range : list bytes)
| OAccept_once (incoming : Conn W) (a : accept_state) (msg : Message) (soon : bool) (now : Z)
| OAccept_go (a : accept_state) (take : bool) (g : goroutine)
| OAccept_cleanup (incoming : Conn W) (a : accept_state)
| OAcceptUdp_job (incoming : Conn W) (client : option nat) (msg : Message) (soon take : bool) (now : Z)
| OExecuteJob (i : nat) (soon : bool) (now : Z)
| OClose (i : nat)
| ONetwork_Close (range : list bytes).

Definition run_op (o : op) (n : node) : node :=
  match o with
  | OClient a soon now => fst (Network_Client a soon now n)
  | OLoad a inc now => fst (getOrSet_load a inc now n)
  | OConnect a i inc => fst (getOrSet_connect a i inc n)
  | OTell i ctx m => fst (Tell i ctx m n)
  | ORequest_send i ctx m => fst (Request_send i ctx m n)
  | ORequest_track i nonce => fst (Request_track i nonce n)
  | ORequest_finish i nonce d p => fst (Request_finish i nonce d p n)
  | OReply i ctx nonce m => fst (Reply i ctx nonce m n)
  | OWrite i data now => fst (PeerClient_Write i data now n)
  | OBroadcast ctx m range => fst (Broadcast ctx m range n)
  | OBroadcastByAddresses ctx m l => fst (BroadcastByAddresses ctx m l n)
  | OBroadcastByIDs ctx m l => fst (BroadcastByIDs ctx m l n)
  | OBroadcastRandomly sh ctx m K range => fst (BroadcastRandomly sh ctx m K range n)
  | OBootstrap soon now l => fst (Bootstrap soon now l n)
  | OListen l => fst (Listen l n)
  | OFlush range => fst (flush_tick range n)
  | OAccept_once inc a msg soon now => fst (accept_once inc a msg soon now n)
  | OAccept_go a take g => fst (accept_go a take g n)
  | OAccept_cleanup inc a => fst (accept_cleanup inc a n)
  | OAcceptUdp_job inc c msg soon take now => fst (AcceptUdp_job inc c msg soon take now n)
  | OExecuteJob i soon now => fst (executeJob i soon now n)
  | OClose i => fst (PeerClient_Close i n)
  | ONetwork_Close range => fst (Network_Close range n)
  end.
Definition run_ops (ops : list op) (n : node) : node := foldl (fun n o => run_op o n) n ops.

(** ** Lemmas *)

#[local] Abbreviation evolves := (evolves (UM:=UM) (UT:=UT) (C:=C) (T:=T) (W:=W) (L:=L)).

Lemma save_evolves_at (n : node) i c c' :
  clients n !! i = Some c -> client_le c c' -> evolves n (fst (save i c' n)).
Proof. apply evolves_save. Qed.

Lemma deliver_reply_le (c c' : PeerClient (proto_Message UM)) nonce m :
  deliver_reply c nonce m = Some c' -> client_le c c'.
Proof.
  unfold deliver_reply. destruct (Requests c !! nonce) as [r|]; [|done].
  destruct (data r); by intros [= <-].
Qed.

Lemma dispatch_evolves i msg soon now : frames evolves (dispatchMessage i msg soon now).
Proof.
  unfold dispatchMessage. apply load_frames. intros n c Hi.
  destruct (negb (IsIncomingReady c soon)); [done|]. rewrite bind_get.
  destruct (empty_message (opcodes n) (Message_Opcode msg)) as [ptr|]; [|done]. cbv zeta.
  destruct (if 0 <? _ then _ else Ok ptr) as [ptr'|e|p]; [|done..].
  destruct (if (0 <? Message_RequestNonce msg) && _ then _ else None) as [c'|] eqn:E.
  - eapply save_evolves_at; [exact Hi|]. destruct ((0 <? Message_RequestNonce msg) && Message_ReplyFlag msg); [|done].
    by apply deliver_reply_le in E.
  - destruct ptr'; [by eapply save_evolves_at|..]; (eapply save_frames; [exact Hi|done|]); frame.
Qed.
Lemma jobs_evolves (f : node -> list (nat * Message)) :
  frames evolves (modify (fun n => set_clients (clients n) (f n) n)).
Proof. intros n. by apply evolves_keep. Qed.
Hint Resolve dispatch_evolves jobs_evolves : frames.
Lemma Submit_evolves i take m : frames evolves (Submit i take m).
Proof. unfold Submit. frame. Qed.
Lemma executeJob_evolves i soon now : frames evolves (executeJob i soon now).
Proof. unfold executeJob. frame. Qed.
Hint Resolve Submit_evolves executeJob_evolves : frames.
Lemma same_peer_evolves i m : frames evolves (same_peer i m).
Proof. unfold same_peer. frame. Qed.
Hint Resolve same_peer_evolves : frames.
Lemma accept_go_evolves a take g : frames evolves (accept_go a take g).
Proof. destruct g as [m|m| |[|[m|] ready]]; unfold accept_go; frame. Qed.
Lemma set_ID_frames {A} i id (k : () -> M A) :
  (forall u, frames evolves (k u)) -> frames evolves (c ← load i; save i (set_ID c id) ≫= k).
Proof. intros Hk. apply load_frames. intros n c Hi. by eapply save_frames. Qed.
Lemma accept_once_evolves inc a m soon now : frames evolves (accept_once inc a m soon now).
Proof.
  unfold accept_once. destruct (clientInit a); [frame|]. destruct (Message_Sender m) as [id|]; [|frame].
  apply frames_bind; [exact _|frame|]. intros [i|e]; [|frame]. apply set_ID_frames. frame.
Qed.
Lemma accept_cleanup_evolves inc a : frames evolves (accept_cleanup inc a).
Proof. unfold accept_cleanup. frame. Qed.
Lemma AcceptUdp_job_evolves inc c m soon take now : frames evolves (AcceptUdp_job inc c m soon take now).
Proof.
  unfold AcceptUdp_job. apply frames_bind; [exact _|frame|]. intros o.
  apply frames_bind; [exact _|frame|]. intros ok. destruct (negb ok); [frame|].
  apply frames_bind; [exact _|frame|]. intros [i|e]; [|frame].
  destruct (Message_Sender m) as [id|]; [|frame]. apply set_ID_frames. frame.
Qed.
Hint Resolve accept_go_evolves accept_once_evolves accept_cleanup_evolves AcceptUdp_job_evolves : frames.

Lemma run_op_evolves o n : evolves n (run_op o n).
Proof.
  destruct o; cbn [run_op];
    match goal with |- _ _ (fst (?m n)) =>
      let H := fresh in assert (H : frames evolves m) by eauto 2 with frames; apply H end.
Qed.
Lemma run_ops_evolves ops n : evolves n (run_ops ops n).
Proof.
  revert n. induction ops as [|o ops IH]; intros n; [reflexivity|].
  etransitivity; [apply run_op_evolves|apply IH].
Qed.

(** A connection touches the connection of its address only. *)
Definition same_conn (k : bytes) (n n' : node) : Prop := connections n' !! k = connections n !! k.
#[export] Instance same_conn_pre k : PreOrder (same_conn k).
Proof. split; unfold same_conn; [by intros n|]. intros ????->. done. Qed.
Lemma store_same_conn a k st : k <> a -> frames (same_conn k) (store_state a st).
Proof. intros Hne n. unfold same_conn. simpl. by rewrite lookup_insert_ne. Qed.
Lemma connect_connections a i inc (n : node) k :
  k <> a -> connections (fst (getOrSet_connect a i inc n)) !! k = connections n !! k.
Proof.
  intros Hne. assert (Hm : forall (f : node -> node), (forall n, connections (f n) = connections n) ->
    frames (same_conn k) (modify f)) by (intros f Hf n'; unfold same_conn; simpl; by rewrite Hf).
  assert (Hst : forall st, frames (same_conn k) (store_state a st)) by (intros; by apply store_same_conn).
  assert (Hl : frames (same_conn k) (load i)) by (intros n'; unfold load; by destruct (clients n' !! i)).
  assert (Hsv : forall c, frames (same_conn k) (save i c)) by (intros c; by apply Hm).
  assert (Hem : forall e, frames (same_conn k) (emit e)) by (intros e; by apply Hm).
  assert (He : forall f, frames (same_conn k) (each_component f)) by (intros f; by apply Hm).
  assert (Hf : frames (same_conn k) (getOrSet_connect a i inc)); [|apply Hf].
  unfold getOrSet_connect, PeerClient_Init, Dial. frame; auto.
Qed.

(** *** Dispatch *)

(** What the payload of a message decodes to. *)
Definition decodes (t : tables) (msg : Message) (ptr : proto_Message UM) : Prop :=
  exists e, empty_message t (Message_Opcode msg) = Some e /\
    (if 0 <? zlen (sbytes (Message_Message msg)) then proto_Unmarshal e (sbytes (Message_Message msg))
     else Ok e) = Ok ptr.
(** The message goes to a waiting request. *)
Definition claimed (c : PeerClient (proto_Message UM)) (msg : Message) : bool :=
  (0 <? Message_RequestNonce msg) && Message_ReplyFlag msg
    && match Requests c !! Message_RequestNonce msg with Some _ => true | None => false end.

Lemma dispatch_eq (n : node) i c msg soon now ptr :
  clients n !! i = Some c -> IsIncomingReady c soon = true -> decodes (opcodes n) msg ptr ->
  dispatchMessage i msg soon now n =
  let put c' := set_clients (<[i := c']> (clients n)) (jobs n) n in
  let c1 := set_time c now in
  match (if (0 <? Message_RequestNonce msg) && Message_ReplyFlag msg
         then deliver_reply c1 (Message_RequestNonce msg) ptr else None) with
  | Some c2 => (put c2, Ok ())
  | None =>
      match ptr with
      | PBytes b => (put (set_stream c1 (fst (handleBytes (stream c1) (sbytes (Bytes_Data b))))), Ok ())
      | _ => (add_trace ((fun x => EReceive x i ptr (Message_RequestNonce msg)) <$> Each (Components n)) (put c1), Ok ())
      end
  end.
Proof.
  intros Hc Hr (e & He & Hd). unfold dispatchMessage.
  rewrite (bind_Ok _ _ n n c) by by apply load_ok. rewrite Hr. cbn [negb]. rewrite bind_get, He. cbv zeta.
  rewrite Hd. destruct (if _ && Message_ReplyFlag msg then _ else None); [done|]. by destruct ptr.
Qed.

Lemma claimed_deliver c msg ptr now :
  (if (0 <? Message_RequestNonce msg) && Message_ReplyFlag msg
   then deliver_reply (set_time c now) (Message_RequestNonce msg) ptr else None) =
  if claimed c msg then deliver_reply (set_time c now) (Message_RequestNonce msg) ptr else None.
Proof.
  unfold claimed, deliver_reply. cbn [Requests set_time].
  destruct (0 <? _), (Message_ReplyFlag msg), (Requests c !! Message_RequestNonce msg); done.
Qed.

(** What [PrepareMessage] puts in a message. *)
Lemma PrepareMessage_payload (n : node) (ctx : Context_) (m : proto_Message UM) (msg : Message) code raw :
  PrepareMessage n (Some ctx) (Some m) = Ok msg -> GetOpcode (opcodes n) m = Ok code ->
  proto_Marshal m = Ok raw ->
  Message_Opcode msg = u32 code /\ Message_Message msg = Some raw /\ Message_RequestNonce msg = 0.
Proof.
  unfold PrepareMessage. intros Hp Hc Hr. rewrite Hc in Hp. cbn [mbind res_bind] in Hp.
  rewrite Hr in Hp. cbn [mbind res_bind] in Hp.
  destruct (GetSignMessage ctx); [|by injection Hp as <-].
  destruct (SerializeMessage _ _) as [ser| |]; [|done..]. cbn [mbind res_bind] in Hp.
  destruct (KeyPair_Sign _ _) as [s| |]; [|done..]. by injection Hp as <-.
Qed.

Lemma empty_message_table t code : tables_wf t -> code <> 0 -> empty_message t code = opcodeTbl t !! code.
Proof.
  intros Hwf Hne. unfold empty_message, GetMessageType.
  assert (Hr : forall k m, k < 1000 -> opcodeTbl init !! k = Some m -> opcodeTbl t !! k = Some m)
    by (intros k m Hk <-; by apply (tw_reserved _ Hwf)).
  repeat match goal with
  | |- context [if code =? ?k then _ else _] =>
      destruct (Z.eqb_spec code k) as [->|];
        [first [done | symmetry; apply Hr; [done|reflexivity]]|]
  end.
  by destruct (opcodeTbl t !! code).
Qed.

(** *** Delivery *)

Lemma Submit_ok (n : node) i c m take :
  clients n !! i = Some c -> closeSignal c = false -> (length (jobs_of i (jobs n)) < job_capacity)%nat ->
  Submit i take m n = (set_clients (clients n) (jobs n ++ [(i, m)]) n, Ok ()).
Proof.
  intros Hc Hs Hl. unfold Submit. rewrite (bind_Ok _ _ n n c) by by apply load_ok. rewrite bind_get. cbv zeta.
  rewrite bool_decide_eq_true_2, Hs by done. done.
Qed.

Lemma jobs_of_app i l l' : jobs_of i (l ++ l') = jobs_of i l ++ jobs_of i l'.
Proof. unfold jobs_of. by rewrite filter_app, fmap_app. Qed.
Lemma jobs_of_own i ms : jobs_of i ((fun m => (i, m)) <$> ms) = ms.
Proof.
  unfold jobs_of. induction ms as [|m ms IH]; [done|]. rewrite fmap_cons, filter_cons_True by done.
  by rewrite fmap_cons, IH.
Qed.

(** *** Numbered messages *)

Lemma length_number_from z l : length (number_from z l) = length l.
Proof. revert z. induction l as [|m l IH]; intros z; [done|]. simpl. by rewrite IH. Qed.
Lemma number_from_nonces z l : Message_MessageNonce <$> number_from z l = seqZ (z + 1) (zlen l).
Proof.
  revert z. induction l as [|m l IH]; intros z; [done|]. cbn [number_from fmap list_fmap].
  rewrite zlen_cons, (seqZ_cons (z + 1)) by (pose proof (zlen_nonneg l); lia). apply (f_equal (cons (z + 1))).
  rewrite IH. f_equal; lia.
Qed.
Lemma norm_nonces (l : list Message) : Message_MessageNonce <$> (Message_norm <$> l) = Message_MessageNonce <$> l.
Proof. rewrite <-list_fmap_compose. by apply list_fmap_ext. Qed.

(** The goroutine of a datagram whose client is there. *)
Lemma udp_job_submits (n n0 : node) (inc : Conn W) (cl : option nat) (msg : Message) (sender : ID)
    (i : nat) (c : PeerClient (proto_Message UM)) (info : AddressInfo) (soon take : bool) (now : Z) :
  let d := Message_DialAddress msg in
  check_signature (opts n) msg = Ok true -> Message_Sender msg = Some sender ->
  unify d n = (n0, Ok d) -> d <> n_Address n -> ParseAddress d = Ok info -> is_udp (Protocol info) = true ->
  peers n !! d = Some i -> clients n !! i = Some c -> outgoingReady c = true -> closeSignal c = false ->
  is_Some (connections n !! d) -> (length (jobs_of i (jobs n)) < job_capacity)%nat ->
  exists n', AcceptUdp_job inc cl msg soon take now n = (n', Ok (Some i)) /\
    clients n' !! i = Some (set_ID c (Some sender)) /\ jobs n' = jobs n ++ [(i, msg)].
Proof.
  intros d Hsig Hs Hu Hne HP Hudp Hp Hc Ho Hcl Hconn Hroom.
  destruct (unify_cache _ _ _ _ Hu) as (x & ->).
  assert (Hst : is_stream (Protocol info) = false).
  { apply bool_decide_eq_true in Hudp. unfold is_stream. by rewrite Hudp. }
  assert (Hg : getOrSetPeerClient d (Some inc) soon now n = (set_cache x n, Ok i)).
  { unfold getOrSetPeerClient. rewrite (bind_Ok _ _ n (set_cache x n) (d, i, true)).
    - unfold getOrSet_wait. rewrite (bind_Ok _ _ _ (set_cache x n) c) by by apply load_ok.
      unfold IsOutgoingReady. by rewrite Ho.
    - unfold getOrSet_load. rewrite (bind_Ok _ _ _ _ _ Hu), bind_get. cbn [n_Address set_cache].
      rewrite bool_decide_eq_false_2 by done. rewrite bind_lift, HP, Hst, bind_ret, bind_lift, bind_get.
      cbn [peers set_cache]. by rewrite Hp. }
  assert (Hlt : (i < length (clients n))%nat) by by eapply lookup_lt_Some.
  set (c1 := set_ID c (Some sender)). set (n1 := set_clients (<[i := c1]> (clients n)) (jobs n) (set_cache x n)).
  assert (Hc1 : clients n1 !! i = Some c1) by by apply list_lookup_insert_eq.
  unfold AcceptUdp_job. rewrite bind_get, bind_lift, Hsig. cbn [negb]. fold d.
  rewrite (bind_Ok _ _ n (set_cache x n) (inl i)) by (by rewrite attempt_eq, Hg).
  rewrite Hs, (bind_Ok _ _ _ (set_cache x n) c) by by apply load_ok.
  unfold save. rewrite bind_modify. fold c1. cbn [clients jobs set_cache]. fold n1.
  rewrite bind_get. unfold ConnectionStateExists. cbn [connections set_clients set_cache n1].
  destruct Hconn as [st Hconn]. rewrite Hconn. cbn [negb].
  rewrite (bind_Ok _ _ n1 n1 true).
  2: { unfold same_peer. rewrite (bind_Ok _ _ n1 n1 c1) by by apply load_ok. rewrite Hs. cbn [ID_ c1 set_ID].
       f_equal. unfold mret, ST_ret. do 2 f_equal. by apply Equals_spec. }
  cbn [negb]. rewrite (bind_Ok _ _ _ _ _ (Submit_ok n1 i c1 msg take Hc1 Hcl Hroom)).
  eexists. split; [done|]. done.
Qed.

(** ** Properties *)

(** C2. Whatever a node does, in whatever order its goroutines run: its configuration, keys,
    identity and address stay, a client pointer keeps its address and a closed client stays
    closed; every entry of the peer map is a client of its key, the node itself is never one,
    and the close signal of a client is given exactly when it is closed. *)
Theorem node_history (n : node) (ops : list op) :
  node_wf n -> node_wf (run_ops ops n) /\ node_le n (run_ops ops n).
Proof. intros Hwf. destruct (run_ops_evolves ops n) as [Hle Hw]. auto. Qed.

(** C15. What [dispatchMessage] does with a message it can decode: the reply of a request that is
    waiting goes to the request, once; a [Bytes] message that is not such a reply is appended to
    the client's stream; any other message goes to every component, in the order of their list,
    with its request nonce.  A message it cannot decode, without an opcode or with one that is
    not registered does nothing. *)
Theorem dispatchMessage_spec (n : node) (i : nat) (c : PeerClient (proto_Message UM)) (msg : Message)
    (soon : bool) (now : Z) :
  clients n !! i = Some c -> IsIncomingReady c soon = true ->
  (forall ptr, decodes (opcodes n) msg ptr ->
   exists n' c', dispatchMessage i msg soon now n = (n', Ok ()) /\
     clients n' = <[i := c']> (clients n) /\ Time c' = now /\
     if claimed c msg then
       trace n' = trace n /\ stream c' = stream c /\
       Requests c' !! Message_RequestNonce msg
       = Some (match Requests c !! Message_RequestNonce msg with
               | Some (mkRequest (Some first)) => mkRequest (Some first)
               | _ => mkRequest (Some ptr)
               end)
     else
       Requests c' = Requests c /\
       match ptr with
       | PBytes b =>
           trace n' = trace n /\ buffer (stream c') = buffer (stream c) ++ sbytes (Bytes_Data b)
       | _ =>
           stream c' = stream c /\
           trace n' = trace n ++ ((fun x => EReceive x i ptr (Message_RequestNonce msg)) <$> Each (Components n))
       end) /\
  (empty_message (opcodes n) (Message_Opcode msg) = None -> dispatchMessage i msg soon now n = (n, Ok ())).
Proof.
  intros Hc Hr. split.
  - intros ptr Hd. rewrite (dispatch_eq n i c msg soon now ptr Hc Hr Hd). cbv zeta.
    rewrite claimed_deliver. destruct (claimed c msg) eqn:Ecl.
    + unfold claimed in Ecl. unfold deliver_reply. cbn [Requests set_time].
      destruct (Requests c !! Message_RequestNonce msg) as [[[first|]]|] eqn:Er;
        [| |by rewrite andb_false_r in Ecl]; eexists _, _; (split; [done|]); simpl.
      * split; [done|]. split; [done|]. simpl. by rewrite Er.
      * split; [done|]. split; [done|]. simpl. by rewrite lookup_insert_eq.
    + destruct ptr; eexists _, _; (split; [done|]); done.
  - intros He. unfold dispatchMessage. rewrite (bind_Ok _ _ n n c) by by apply load_ok.
    rewrite Hr. cbn [negb]. by rewrite bind_get, He.
Qed.

(** What a node prepares, a node with the same registry hands to its components: a registered
    message that survives its own encoding ([m'] is what it comes back as) is received by every
    component, or by the stream for a [Bytes] message. *)
Theorem prepared_message_dispatched (n r : node) (ctx : Context_) (m m' : proto_Message UM) (msg : Message)
    (i : nat) (c : PeerClient (proto_Message UM)) (soon : bool) (now : Z) :
  tables_wf (opcodes n) -> opcodes r = opcodes n ->
  (forall code e raw, GetOpcode (opcodes n) m = Ok code -> GetMessageType (opcodes n) code = Ok e ->
     proto_Marshal m = Ok raw ->
     code < 2 ^ 32 /\ (if 0 <? zlen raw then proto_Unmarshal e raw else Ok e) = Ok m') ->
  PrepareMessage n (Some ctx) (Some m) = Ok msg ->
  clients r !! i = Some c -> IsIncomingReady c soon = true ->
  exists r', dispatchMessage i msg soon now r = (r', Ok ()) /\
    match m' with
    | PBytes b => exists c', clients r' !! i = Some c' /\
        buffer (stream c') = buffer (stream c) ++ sbytes (Bytes_Data b)
    | _ => trace r' = trace r ++ ((fun x => EReceive x i m' 0) <$> Each (Components r))
    end.
Proof.
  intros Hwf Hop Hrt Hprep Hc Hr.
  assert (Hok : exists code raw, GetOpcode (opcodes n) m = Ok code /\ proto_Marshal m = Ok raw).
  { unfold PrepareMessage in Hprep. destruct (GetOpcode (opcodes n) m) as [code| |]; [|done..].
    cbn [mbind res_bind] in Hprep. destruct (proto_Marshal m) as [raw| |]; [|done..]. eauto. }
  destruct Hok as (code & raw & Eop & Em).
  destruct (PrepareMessage_payload n ctx m msg code raw Hprep Eop Em) as (Hcd & Hraw & Hrn).
  specialize (fun e => Hrt code e raw Eop).
  unfold GetOpcode in Eop. destruct (msgTbl (opcodes n) !! TypeOf m) eqn:Et; [|done]. injection Eop as ->.
  destruct (tw_types _ Hwf _ _ Et) as (e & Hcode & Hty).
  destruct (Hrt e) as [Hrange Hdec]; [unfold GetMessageType; by rewrite Hcode|done|].
  assert (Hne : code <> 0).
  { intros ->. rewrite (tw_reserved _ Hwf 0) in Hcode by lia. by vm_compute in Hcode. }
  assert (Hpos : 0 <= code).
  { destruct (decide (0 <= code)) as [|Hneg]; [done|]. rewrite (tw_reserved _ Hwf code) in Hcode by lia.
    apply init_codes in Hcode. unfold msgOpcodePairs in Hcode. rewrite !elem_of_cons, elem_of_nil in Hcode.
    destruct_or?; simplify_eq; exfalso; apply Hneg; by vm_compute. }
  rewrite u32_small in Hcd by done.
  assert (Hd : decodes (opcodes r) msg m').
  { exists e. rewrite Hop, Hcd, empty_message_table, Hraw by done. done. }
  rewrite (dispatch_eq r i c msg soon now m' Hc Hr Hd), Hrn. cbv zeta. cbn [Z.ltb Z.compare andb].
  assert (Hlt : (i < length (clients r))%nat) by by eapply lookup_lt_Some.
  destruct m'; eexists; (split; [done|]); try done.
  eexists. split; [by apply list_lookup_insert_eq|done].
Qed.

(** C14. Which messages pass the signature check, and what becomes of the others.  A signed message
    of an honest sender passes; so does any message with the same sender, payload and signature,
    whatever its opcode, nonces, reply flag and dial address.  A message without a signature
    passes, whatever else it holds.  A message with one is answered by the signature policy, on
    the key of its sender (refused when it has not the size of a key) and the hash of the sender's
    address, identifier and the payload.  The goroutine of a message that is refused ends there,
    over a stream and over UDP: nothing of the node changes. *)
Theorem signature_scope (n : node) (o : options) (ctx : Context_) (m : proto_Message UM) (msg : Message)
    (laws : SignatureLaws (H := signaturePolicy (opts n))) :
  signaturePolicy o = signaturePolicy (opts n) -> hashPolicy o = hashPolicy (opts n) ->
  sl_genuine (SignatureLaws := laws) (PrivateKey (keys n)) ->
  @PrivateToPublic (signaturePolicy (opts n)) (PrivateKey (keys n)) = Ok (PublicKey (keys n)) ->
  ID_NetKey (n_ID n) = Some (PublicKey (keys n)) ->
  GetSignMessage ctx = true -> PrepareMessage n (Some ctx) (Some m) = Ok msg ->
  (is_Some (Message_Signature msg) /\ check_signature o msg = Ok true) /\
  (forall msg', Message_Sender msg' = Message_Sender msg -> Message_Message msg' = Message_Message msg ->
     Message_Signature msg' = Message_Signature msg -> check_signature o msg' = Ok true) /\
  (forall msg', Message_Signature msg' = None -> check_signature o msg' = Ok true) /\
  (forall msg' sg sender, Message_Signature msg' = Some sg -> Message_Sender msg' = Some sender ->
     check_signature o msg' =
     if zlen (sbytes (ID_NetKey sender)) =? @PublicKeySize (signaturePolicy o) then
       @sp_Verify (signaturePolicy o) (sbytes (ID_NetKey sender))
         (@HashBytes (hashPolicy o) (serialization sender (sbytes (Message_Message msg')))) sg
     else Ok false) /\
  (forall (r : node) msg', check_signature (opts r) msg' = Ok false ->
     (forall a take, accept_go a take (GStart msg') r = (r, Ok (a, GSubmit []))) /\
     (forall inc cl soon take now, AcceptUdp_job inc cl msg' soon take now r = (r, Ok cl))).
Proof.
  intros Ho1 Ho2 Hgen Hp Hid Hctx Hprep. unfold PrepareMessage in Hprep.
  destruct (GetOpcode (opcodes n) m) as [code| |]; [|done..]. cbn [mbind res_bind] in Hprep.
  destruct (proto_Marshal m) as [raw| |]; [|done..]. cbn [mbind res_bind] in Hprep. rewrite Hctx in Hprep.
  rewrite SerializeMessage_ok in Hprep. cbn [mbind res_bind] in Hprep.
  destruct (KeyPair_Sign (keys n) _) as [sg| |] eqn:Esg; [|done..]. cbn [mbind res_bind] in Hprep.
  injection Hprep as <-.
  assert (Heq : forall msg' sg sender, Message_Signature msg' = Some sg -> Message_Sender msg' = Some sender ->
    check_signature o msg' =
    if zlen (sbytes (ID_NetKey sender)) =? @PublicKeySize (signaturePolicy o) then
      @sp_Verify (signaturePolicy o) (sbytes (ID_NetKey sender))
        (@HashBytes (hashPolicy o) (serialization sender (sbytes (Message_Message msg')))) sg
    else Ok false).
  { intros msg' s x Hs Hx. unfold check_signature. rewrite Hs, Hx, SerializeMessage_ok.
    cbn [mbind res_bind]. unfold Verify. by destruct (zlen (sbytes (ID_NetKey x)) =? PublicKeySize). }
  assert (Hcheck : forall msg', Message_Sender msg' = Some (n_ID n) -> Message_Message msg' = Some raw ->
    Message_Signature msg' = Some sg -> check_signature o msg' = Ok true).
  { intros msg' Hs Hm Hg. rewrite (Heq _ _ _ Hg Hs), Hm, Ho1, Ho2, Hid.
    destruct (sl_public (SignatureLaws := laws) _ Hgen) as (p & Hp' & Hlen).
    assert (p = PublicKey (keys n)) as -> by congruence. unfold sbytes. cbn [default from_option].
    unfold id. rewrite Hlen, Z.eqb_refl.
    destruct (sl_verify (SignatureLaws := laws) _ _
                (@HashBytes (hashPolicy (opts n)) (serialization (n_ID n) raw)) Hgen Hp) as (s & Hs' & Hv).
    pose proof (sl_size (SignatureLaws := laws) _ Hgen) as Hk.
    unfold KeyPair_Sign in Esg. rewrite Hk, Z.eqb_refl in Esg. cbn [negb] in Esg. congruence. }
  split; [by split; [|apply Hcheck]|]. split; [intros; by apply Hcheck|].
  split; [by intros msg' Hg; unfold check_signature; rewrite Hg|]. split; [exact Heq|].
  intros r msg' Hf. split; intros; unfold accept_go, AcceptUdp_job; by rewrite bind_get, bind_lift, Hf.
Qed.

(** A request gets its reply: the first message with its nonce and the reply flag ends it. *)
Theorem request_gets_reply (n n1 : node) (i : nat) (nonce : Z) (c : PeerClient (proto_Message UM))
    (msg : Message) (ptr : proto_Message UM) (soon : bool) (now : Z) :
  clients n !! i = Some c -> IsIncomingReady c soon = true -> Request_track i nonce n = (n1, Ok ()) ->
  Message_RequestNonce msg = nonce -> 0 < nonce -> Message_ReplyFlag msg = true ->
  decodes (opcodes n) msg ptr ->
  exists n2 n3 c3, dispatchMessage i msg soon now n1 = (n2, Ok ()) /\ trace n2 = trace n /\
    Request_finish i nonce None false n2 = (n3, Ok (Some ptr)) /\
    clients n3 !! i = Some c3 /\ Requests c3 = delete nonce (Requests c).
Proof.
  intros Hc Hr Ht Hn Hpos Hfl Hd. unfold Request_track in Ht.
  rewrite (bind_Ok _ _ n n c) in Ht by by apply load_ok. injection Ht as <-.
  assert (Hlt : (i < length (clients n))%nat) by by eapply lookup_lt_Some.
  set (n1 := set_clients _ _ _). set (c1 := store_request c nonce).
  assert (Hc1 : clients n1 !! i = Some c1) by by apply list_lookup_insert_eq.
  rewrite (dispatch_eq n1 i c1 msg soon now ptr Hc1 Hr Hd), Hn, Hfl. cbv zeta.
  destruct (Z.ltb_spec 0 nonce); [|lia]. cbn [andb]. unfold deliver_reply. cbn [Requests set_time c1].
  unfold c1, store_request at 1. cbn [Requests set_requests]. rewrite lookup_insert_eq. cbn [data].
  eexists _, _, _. split; [done|]. split; [done|].
  unfold Request_finish. erewrite (bind_Ok (load i)).
  2: { apply load_ok. apply list_lookup_insert_eq. simpl. by rewrite length_insert. }
  cbn [Requests set_requests]. rewrite lookup_insert_eq. split; [done|]. split.
  - apply list_lookup_insert_eq. simpl. by rewrite !length_insert.
  - cbn [Requests finish_request set_requests set_time store_request].
    by rewrite delete_insert_eq, delete_insert_eq.
Qed.

(** What [Request] has done when it waits to register: the nonce is counted, the request is not
    registered, and nothing else of the client has changed. *)
Lemma Request_send_ok (n n' : node) i ctx m nonce (c : PeerClient (proto_Message UM)) :
  Request_send i ctx m n = (n', Ok nonce) -> clients n !! i = Some c ->
  nonce = snd (next_nonce c) /\ clients n' !! i = Some (fst (next_nonce c)).
Proof.
  unfold Request_send. destruct ctx as [cx|]; [|done]. destruct (ctx_Err cx); [done|].
  intros Hs Hc. rewrite bind_get, bind_lift in Hs.
  destruct (PrepareMessage n (Some cx) m) as [signed| |]; [|done..].
  rewrite (bind_Ok _ _ _ _ _ (load_ok _ _ _ Hc)) in Hs. unfold next_nonce in *. cbv zeta in Hs.
  unfold save in Hs. rewrite bind_modify in Hs.
  apply bind_inv in Hs as (n2 & [m2 err] & Hw & Hs). destruct err; [done|]. injection Hs as <- <-.
  split; [done|]. pose proof (keeps_run _ _ _ _ (conns_keeps _ (Network_Write_frames _ _)) Hw) as [Hcl _].
  rewrite Hcl. simpl. apply list_lookup_insert_eq. by eapply lookup_lt_Some.
Qed.

(** A message that nothing waits for. *)
Lemma unclaimed_dispatch (n : node) (i : nat) (c : PeerClient (proto_Message UM)) (msg : Message)
    (ptr : proto_Message UM) (soon : bool) (now : Z) :
  clients n !! i = Some c -> Requests c !! Message_RequestNonce msg = None -> IsIncomingReady c soon = true ->
  decodes (opcodes n) msg ptr ->
  exists n1 c1, dispatchMessage i msg soon now n = (n1, Ok ()) /\ clients n1 !! i = Some c1 /\
    Requests c1 = Requests c /\
    match ptr with
    | PBytes b =>
        buffer (stream c1) = buffer (stream c) ++ sbytes (Bytes_Data b) /\ trace n1 = trace n
    | _ =>
        stream c1 = stream c /\
        trace n1 = trace n ++ ((fun x => EReceive x i ptr (Message_RequestNonce msg)) <$> Each (Components n))
    end.
Proof.
  intros Hc Hnone Hr Hd. rewrite (dispatch_eq n i c msg soon now ptr Hc Hr Hd). cbv zeta. rewrite claimed_deliver.
  assert (Hcl : claimed c msg = false) by (unfold claimed; rewrite Hnone; by rewrite andb_false_r).
  rewrite Hcl. assert (Hlt : (i < length (clients n))%nat) by by eapply lookup_lt_Some.
  destruct ptr; eexists _, _; (split; [reflexivity|]); (split; [by apply list_lookup_insert_eq|]); done.
Qed.

(** C28. A reply that arrives between the sending of its request and its registration is lost to it.
    [Request] has sent the request and not yet registered it when the reply is dispatched: a
    [Bytes] reply is appended to the client's stream, any other goes to the components as an
    ordinary message, and the request, registered after it, still waits. *)
Theorem early_reply_is_lost (n0 n : node) (i : nat) (ctx : option Context_) (m : option (proto_Message UM))
    (nonce : Z) (c : PeerClient (proto_Message UM)) (msg : Message) (ptr : proto_Message UM) (soon : bool) (now : Z) :
  clients n0 !! i = Some c -> Requests c !! nonce = None -> IsIncomingReady c soon = true ->
  Request_send i ctx m n0 = (n, Ok nonce) ->
  Message_RequestNonce msg = nonce -> Message_ReplyFlag msg = true -> decodes (opcodes n) msg ptr ->
  exists n1 n2 c1, dispatchMessage i msg soon now n = (n1, Ok ()) /\ clients n1 !! i = Some c1 /\
    Requests c1 = Requests c /\
    match ptr with
    | PBytes b =>
        buffer (stream c1) = buffer (stream c) ++ sbytes (Bytes_Data b) /\ trace n1 = trace n
    | _ =>
        stream c1 = stream c /\
        trace n1 = trace n ++ ((fun x => EReceive x i ptr nonce) <$> Each (Components n))
    end /\
    Request_track i nonce n1 = (n2, Ok ()) /\ Request_finish i nonce None false n2 = (n2, Ok None).
Proof.
  intros Hc0 Hnone Hr Hsend Hn Hfl Hd. destruct (Request_send_ok _ _ _ _ _ _ _ Hsend Hc0) as [_ Hc].
  subst nonce. destruct (unclaimed_dispatch n i _ msg ptr soon now Hc Hnone Hr Hd) as (n1 & c1 & Hd1 & Hc1 & Hr1 & Ht1).
  set (n2 := set_clients (<[i := store_request c1 (Message_RequestNonce msg)]> (clients n1)) (jobs n1) n1).
  exists n1, n2, c1. split; [done|]. split; [done|]. split; [done|]. split; [exact Ht1|]. split.
  - unfold Request_track. by rewrite (bind_Ok _ _ _ _ _ (load_ok _ _ _ Hc1)).
  - unfold Request_finish. erewrite (bind_Ok (load i)).
    2: { apply load_ok, list_lookup_insert_eq. by eapply lookup_lt_Some. }
    cbn [Requests store_request set_requests]. by rewrite lookup_insert_eq.
Qed.

(** A peer that gives its address in a form that is not its unified one is refused ("failed to
    load session"), and leaves the node damaged: the client it created is closed but stays the
    entry of the unified address, and is what later requests for that address get. *)
Theorem unnormalised_sender_stays (n n1 : node) (inc : Conn W) (w : RecvWindow) (msg : Message)
    (sender : ID) (c0 : Lru.Cache (V:=bytes)) (u : bytes) (soon : bool) (now : Z)
    (a1 : accept_state) (err : option string) :
  node_wf n -> Message_Sender msg = Some sender ->
  unify (ID_Address sender) n = (set_cache c0 n, Ok u) -> u <> ID_Address sender ->
  connections n !! ID_Address sender = None -> peers n !! u = None ->
  accept_once inc (mkAccept None false w) msg soon now n = (n1, Ok (a1, err)) -> a_client a1 <> None ->
  err = Some "network: failed to load session"%string /\
  exists i n2 c, a_client a1 = Some i /\ accept_cleanup inc a1 n1 = (n2, Ok ()) /\
    clients n2 !! i = Some c /\ closed c = true /\ peers n2 !! u = Some i /\
    forall b n3 soon' now', unify b n2 = (n3, Ok u) -> Network_Client b soon' now' n2 = (n3, Ok i).
Proof.
  intros Hwf Hs Hu Hne Hconn Hpeer Honce Ha1. unfold accept_once in Honce. cbn [clientInit] in Honce.
  rewrite Hs in Honce. apply bind_inv in Honce as (m & r & Hg & Honce). rewrite attempt_eq in Hg.
  destruct (getOrSetPeerClient (ID_Address sender) (Some inc) soon now n) as [m' [i|e|p]] eqn:EG; [|injection Hg as <- <-; by injection Honce as _ <- _|done].
  injection Hg as <- <-. apply bind_inv in EG as (nl & [[v j] found] & Hl & Hconnect).
  pose proof Hl as Hl'. apply getOrSet_load_ok in Hl as (d & Hud & Hown & HP & [(_ & Hp & _)|(-> & _ & -> & Enl)]).
  { rewrite Hu in Hud. injection Hud as _ <-. congruence. }
  rewrite Hu in Hud. injection Hud as _ <-. cbv beta iota in Hconnect.
  set (i0 := length (clients n)) in *.
  destruct (connect_ok u i0 (Some inc) nl m' i (new_client u now) Hconnect) as (-> & Hpe & Hc).
  { rewrite Enl. simpl. by rewrite lookup_app_r, Nat.sub_diag by (unfold i0; lia). }
  assert (Hcs : connections m' !! ID_Address sender = None).
  { pose proof (connect_connections u i0 (Some inc) nl (ID_Address sender) ltac:(done)) as E.
    rewrite Hconnect in E. simpl in E. rewrite E, Enl. done. }
  assert (Hlt : (i0 < length (clients m'))%nat) by by eapply lookup_lt_Some.
  rewrite (bind_Ok _ _ m' m' _ (load_ok _ _ _ Hc)) in Honce.
  unfold save in Honce. rewrite bind_modify, bind_get in Honce. unfold ConnectionStateExists in Honce.
  cbn [connections set_clients] in Honce. rewrite Hcs in Honce. injection Honce as <- <- <-.
  split; [done|]. set (c1 := set_ID _ _). set (n1 := set_clients _ _ _).
  assert (Hc1 : clients n1 !! i0 = Some c1) by by apply list_lookup_insert_eq.
  exists i0. unfold accept_cleanup. cbn [a_client].
  assert (Haddr : n_Address m' = n_Address n).
  { pose proof (getOrSet_connect_evolves u i0 (Some inc) nl) as [Hev _]. rewrite Hconnect in Hev.
    rewrite Enl in Hev. exact (le_address _ _ Hev). }
  eexists _, (set_closed c1). split; [done|]. split.
  { erewrite bind_Ok; [reflexivity|]. erewrite bind_Ok; [reflexivity|].
    rewrite attempt_eq, (Close_state n1 i0 c1 Hc1) by done. cbv zeta. cbn [ID_ c1 set_ID].
    rewrite bind_get. unfold ConnectionState. cbn [connections add_trace set_clients n1].
    rewrite Hcs, bind_ret. reflexivity. }
  assert (Hl2 : <[i0 := set_closed c1]> (clients n1) !! i0 = Some (set_closed c1)).
  { apply list_lookup_insert_eq. simpl. by rewrite length_insert. }
  assert (Hp2 : delete (ID_Address sender) (peers m') !! u = Some i0).
  { rewrite lookup_delete_ne by done. rewrite Hpe, Enl. apply lookup_insert_eq. }
  split; [exact Hl2|]. split; [done|]. split; [exact Hp2|].
  intros b n3 soon' now' Hb. eapply (Client_found _ _ b (set_closed c1)); [exact Hp2|exact Hl2|done| |exact HP|exact Hb].
  cbn. by rewrite Haddr.
Qed.

(** Over UDP the identity of a client is whatever the last datagram with its dial address said:
    a datagram that passes the signature check replaces it before comparing, so the comparison
    never refuses, and the dial address itself is not signed. *)
Theorem udp_identity_replaced (n n0 : node) (inc : Conn W) (cl : option nat) (msg : Message) (sender : ID)
    (i : nat) (c : PeerClient (proto_Message UM)) (info : AddressInfo) (soon take : bool) (now : Z) :
  let d := Message_DialAddress msg in
  check_signature (opts n) msg = Ok true -> Message_Sender msg = Some sender ->
  unify d n = (n0, Ok d) -> d <> n_Address n -> ParseAddress d = Ok info -> is_udp (Protocol info) = true ->
  peers n !! d = Some i -> clients n !! i = Some c -> outgoingReady c = true -> closeSignal c = false ->
  is_Some (connections n !! d) -> (length (jobs_of i (jobs n)) < job_capacity)%nat ->
  exists n', AcceptUdp_job inc cl msg soon take now n = (n', Ok (Some i)) /\
    clients n' !! i = Some (set_ID c (Some sender)) /\ jobs n' = jobs n ++ [(i, msg)].
Proof. apply udp_job_submits. Qed.
End Inbound.

(** ** Witnesses *)

Lemma node_history_witness :
  node_wf (run_ops [OClient a_address false 0; OClose 0; ONetwork_Close []] a_tcp_node).
Proof. apply node_history. apply a_node_wf. Defined.

Definition a_ping (nonce : Z) (reply : bool) (code : Z) : Message :=
  mkMessage None (Some (n_ID a_tcp_node)) None nonce 1 reply code [] None.
Lemma a_dialled_opcodes : opcodes a_dialled = init.
Proof. exact (proj2 (proj2 (proj2 (proj2 (proj2 (le_config _ _ (proj1 (getOrSetPeerClient_evolves a_address None false 0 a_tcp_node)))))))). Qed.
Lemma a_decodes nonce reply : decodes (opcodes a_dialled) (a_ping nonce reply PongCode) (PPong (mkPong None)).
Proof. exists (PPong (mkPong None)). rewrite a_dialled_opcodes. by split. Qed.

Lemma dispatchMessage_spec_witness :
  exists n', dispatchMessage 0 (a_ping 0 false PongCode) false 5 a_dialled = (n', Ok ()).
Proof.
  destruct (dispatchMessage_spec a_dialled 0 a_ready_client (a_ping 0 false PongCode) false 5 a_dialled_client eq_refl)
    as [H _].
  destruct (H _ (a_decodes 0 false)) as (n' & c' & Hn & _). exists n'. exact Hn.
Defined.

Definition a_signed : Message :=
  match PrepareMessage a_tcp_node (Some (WithSignMessage Background true)) (Some (PPong (mkPong None))) with
  | Ok m => m
  | _ => Message_zero
  end.
Lemma a_signs :
  PrepareMessage a_tcp_node (Some (WithSignMessage Background true)) (Some (PPong (mkPong None))) = Ok a_signed.
Proof. vm_compute. reflexivity. Qed.

Lemma prepared_message_dispatched_witness :
  exists r', dispatchMessage 0 a_signed false 5 a_dialled = (r', Ok ()).
Proof.
  destruct (prepared_message_dispatched a_tcp_node a_dialled (WithSignMessage Background true)
    (PPong (mkPong None)) (PPong (mkPong None)) a_signed 0 a_ready_client false 5) as (r' & Hr & _).
  - apply init_wf.
  - apply a_dialled_opcodes.
  - intros code e raw Hc He Hraw. vm_compute in Hc. injection Hc as <-. vm_compute in He. injection He as <-.
    vm_compute in Hraw. injection Hraw as <-. split; reflexivity.
  - apply a_signs.
  - apply a_dialled_client.
  - reflexivity.
  - exists r'. exact Hr.
Defined.

Lemma signature_scope_witness :
  check_signature a_options a_signed = Ok true /\
  check_signature a_options (set_Signature a_signed (Some [])) = Ok false.
Proof.
  destruct (signature_scope a_tcp_node a_options (WithSignMessage Background true) (PPong (mkPong None)) a_signed
              toy_laws eq_refl eq_refl eq_refl eq_refl eq_refl eq_refl a_signs) as ([_ H] & _ & _ & Hv & _).
  split; [exact H|]. rewrite (Hv _ [] (n_ID a_tcp_node)); reflexivity.
Defined.

Lemma request_gets_reply_witness :
  exists n2 n3, dispatchMessage 0 (a_ping 1 true PongCode) false 5 (fst (Request_track 0 1 a_dialled)) = (n2, Ok ()) /\
    Request_finish 0 1 None false n2 = (n3, Ok (Some (PPong (mkPong None)))).
Proof.
  destruct (request_gets_reply a_dialled (fst (Request_track 0 1 a_dialled)) 0 1 a_ready_client (a_ping 1 true PongCode)
    (PPong (mkPong None)) false 5) as (n2 & n3 & c3 & Hd & _ & Hf & _).
  - apply a_dialled_client.
  - reflexivity.
  - apply run_eq. unfold Request_track. rewrite (bind_Ok _ _ _ _ _ (load_ok _ _ _ a_dialled_client)). reflexivity.
  - reflexivity.
  - lia.
  - reflexivity.
  - apply a_decodes.
  - exists n2, n3. split; [exact Hd|exact Hf].
Defined.

Definition a_sent : Network :=
  fst (Request_send 0 (Some Background) (Some (PPing (mkPing None))) a_dialled).
Lemma a_send_runs : Request_send 0 (Some Background) (Some (PPing (mkPing None))) a_dialled = (a_sent, Ok 1).
Proof. unfold a_sent. apply run_eq. vm_compute. reflexivity. Qed.
Lemma a_sent_decodes : decodes (opcodes a_sent) (a_ping 1 true PongCode) (PPong (mkPong None)).
Proof.
  exists (PPong (mkPong None)). pose proof (Request_send_evolves 0 (Some Background) (Some (PPing (mkPing None))) a_dialled) as [H _].
  destruct (le_config _ _ H) as (_ & _ & _ & _ & _ & E). unfold a_sent. rewrite E, a_dialled_opcodes. by split.
Qed.
Lemma early_reply_is_lost_witness :
  exists n1 n2, dispatchMessage 0 (a_ping 1 true PongCode) false 5 a_sent = (n1, Ok ()) /\
    Request_track 0 1 n1 = (n2, Ok ()) /\ Request_finish 0 1 None false n2 = (n2, Ok None).
Proof.
  destruct (early_reply_is_lost a_dialled a_sent 0 (Some Background) (Some (PPing (mkPing None))) 1 a_ready_client
              (a_ping 1 true PongCode) (PPong (mkPong None)) false 5 a_dialled_client eq_refl eq_refl a_send_runs
              eq_refl eq_refl a_sent_decodes) as (n1 & n2 & c1 & Hd & _ & _ & _ & Ht & Hf).
  exists n1, n2. split; [exact Hd|]. split; [exact Ht | exact Hf].
Defined.

(** *** Two nodes *)

(** The sending node has dialled [a_address], where the receiving one listens. *)
Definition a_receiver : Network := a_node a_address None.
Definition a_incoming : Conn bytes := mkConn false a_address (str "tcp") (str "127.0.0.1:9") [].
Definition a_payload (x : byte) : Message :=
  mkMessage (Some [x]) (Some (n_ID a_tcp_node)) None 0 0 false BytesCode [] None.
Definition a_received (nonce : Z) (x : byte) : Message := Message_norm (set_MessageNonce (a_payload x) nonce).
Definition a_window : RecvWindow (V:=Message) := mkWindow 0 16 (replicate 16 None) false.
Definition a_accepted : Network :=
  fst (accept_once a_incoming (mkAccept None false a_window) (a_received 1 x07) false 0 a_receiver).
Definition a_peer_client : PeerClient (proto_Message bytes) :=
  mkClient (Some (n_ID a_tcp_node)) (str "tcp://127.0.0.1:80") ∅ 0 (mkStream [] false None None) true true false false 0.
Definition a_state : ConnState (W:=bytes) := new_state (mkConn false (str "127.0.0.1:9") (str "tcp") (str "127.0.0.1:81") []) false 64.

Lemma a_stream_node : stream_node a_dialled.
Proof. exists (mkAddressInfo (str "tcp") (str "127.0.0.1") 80). split; [exact a_dialled_info|reflexivity]. Qed.
Lemma a_connection : connections a_dialled !! a_address = Some a_state.
Proof. vm_compute. reflexivity. Qed.
Lemma a_sendable (k : Z) : Forall (sendable 1000) (number_from 0 [a_payload x07; a_payload x08]).
Proof. repeat constructor; try (vm_compute; intuition congruence). Qed.

(** A sender that calls itself [localhost]. *)
Definition a_local_sender : ID := mkID (Some [x09]) (str "tcp://localhost:81") (Some [x09]) None.
Definition a_local_message : Message := mkMessage None (Some a_local_sender) None 0 1 false PingCode [] None.
Definition a_refusing : Network := fst (accept_once a_incoming (mkAccept None false a_window) a_local_message false 0 a_tcp_node).
Lemma unnormalised_sender_stays_witness :
  exists (n2 : a_Network) c, clients n2 !! 0%nat = Some c /\ closed c = true /\ peers n2 !! a_address = Some 0%nat.
Proof.
  destruct (unnormalised_sender_stays a_tcp_node a_refusing a_incoming a_window a_local_message a_local_sender
    (domainLookupCache (fst (unify (str "tcp://localhost:81") a_tcp_node))) a_address false 0
    (mkAccept (Some 0%nat) true a_window) (Some "network: failed to load session"%string))
    as (_ & i & n2 & c & Hi & _ & Hc & Hcl & Hp & _).
  - apply a_node_wf.
  - reflexivity.
  - vm_compute. reflexivity.
  - discriminate.
  - reflexivity.
  - reflexivity.
  - unfold a_refusing. apply run_eq. vm_compute. reflexivity.
  - discriminate.
  - injection Hi as <-. exists n2, c. split; [exact Hc|]. split; [exact Hcl|exact Hp].
Defined.

(** A UDP node that has dialled a peer, and a datagram that claims the peer's dial address. *)
Definition a_udp_address : bytes := str "udp://127.0.0.1:81".
Definition a_udp_dialled : Network := fst (getOrSetPeerClient a_udp_address None false 0 a_udp_node).
Definition a_udp_client : PeerClient (proto_Message bytes) := set_ready (new_client a_udp_address 0) true true.
Definition a_datagram : Message := mkMessage None (Some a_local_sender) None 0 1 false PingCode a_udp_address None.
Lemma udp_identity_replaced_witness :
  exists n' : a_Network, clients n' !! 0%nat = Some (set_ID a_udp_client (Some a_local_sender)).
Proof.
  destruct (udp_identity_replaced a_udp_dialled (fst (unify a_udp_address a_udp_dialled)) a_incoming None a_datagram
    a_local_sender 0 a_udp_client (mkAddressInfo (str "udp") (str "127.0.0.1") 81) false false 0)
    as (n' & _ & Hc & _).
  - reflexivity.
  - reflexivity.
  - apply run_eq. vm_compute. reflexivity.
  - vm_compute. discriminate.
  - vm_compute. reflexivity.
  - reflexivity.
  - vm_compute. reflexivity.
  - vm_compute. reflexivity.
  - reflexivity.
  - reflexivity.
  - eexists. vm_compute. reflexivity.
  - vm_compute. lia.
  - exists n'. exact Hc.
Defined.
