(* ===== verification/Incoming.v ===== *)
(** * The life of an incoming connection: the loop of [Accept], [network/network.go]

    [Accept] reads messages off a connection and starts a goroutine for each; the goroutines share
    the client and the receive window and run in any interleaving, while the loop reads on
    ([accept_step]; the steps of a goroutine are [Inbound.accept_go]).  A schedule is a list of
    [accept_ev].

    From the writes of a node to the jobs of its peer, [stream_delivery]: no schedule in which no
    goroutine overtakes by the whole window makes the node lose, duplicate or invent a message;
    whatever has happened there is a way to go on to the end, where every message is a job.  The
    order of the jobs is that of the messages when the goroutines submit one after the other; the
    code does not make them, and [interleaved_submits_reorder] is a run in which two do not.
    [overtaken_first_is_lost] is one in which the second message's goroutine pushes first. *)

From S2P Require Import Prelude Messages Peer Protobuf Opcode Address Component Stream Crypto RecvWindow Client Network Inbound.
#[local] Open Scope Z_scope.

Section Incoming.
Context {UM UT C T W L : Type} `{!UserMessages UM UT} `{Countable T} `{!Environment W L}.
#[local] Abbreviation node := (Network (UM:=UM) (UT:=UT) (C:=C) (T:=T) (W:=W) (L:=L)).
#[local] Abbreviation M := (ST node).

(** ** The loop and its goroutines *)

(** What happens while [Accept] runs: the loop reads a message, the [k]-th goroutine takes a step,
    or, when the loop has ended, the deferred function runs. *)
Inductive accept_ev :=
| ARead (soon : bool) (now : Z)
| AGo (k : nat) (take : bool)
| AClean.

(** [unread]: what the connection still has to give; [accepting] until the loop ends; [gos] the
    goroutines it has started, in that order. *)
Record accept_run := mkRun {
  acc : accept_state;
  unread : input;
  accepting : bool;
  gos : list goroutine;
  cleaned : bool;
}.

Definition accept_step (incoming : Conn W) (s : accept_run) (x : accept_ev) : M accept_run :=
  match x with
  | ARead soon now =>
      if negb (accepting s) then mret s
      else
        o ← get opts;
        let '(r, i) := receiveMessage (recvBufferSize o) (unread s) in
        match r with
        | Panic p => crash p
        | Err _ => mret (mkRun (acc s) i false (gos s) (cleaned s))
        | Ok msg =>
            '(a, err) ← accept_once incoming (acc s) msg soon now;
            match err with
            | Some _ => mret (mkRun a i false (gos s) (cleaned s))
            | None => mret (mkRun a i true (gos s ++ [GStart msg]) (cleaned s))
            end
        end
  | AGo k take =>
      match gos s !! k with
      | None => mret s
      | Some g =>
          '(a, g) ← accept_go (acc s) take g;
          mret (mkRun a (unread s) (accepting s) (<[k := g]> (gos s)) (cleaned s))
      end
  | AClean =>
      if accepting s || cleaned s then mret s
      else
        _ ← accept_cleanup incoming (acc s);
        mret (mkRun (acc s) (unread s) false (gos s) true)
  end.
Fixpoint accept_steps (incoming : Conn W) (s : accept_run) (xs : list accept_ev) : M accept_run :=
  match xs with
  | [] => mret s
  | x :: xs => s ← accept_step incoming s x; accept_steps incoming s xs
  end.
Definition Accept (incoming : Conn W) (i : input) (xs : list accept_ev) : M accept_run :=
  start ← get Accept_start;
  a ← lift start;
  accept_steps incoming (mkRun a i true [] false) xs.

(** ** Schedules *)

Definition popped (g : goroutine) : bool := match g with GSubmit _ => true | _ => false end.
Definition pushed (g : goroutine) : bool := match g with GPop | GSubmit _ => true | _ => false end.
Definition holding (g : goroutine) : bool := match g with GSubmit (_ :: _) => true | _ => false end.

(** Before the [k]-th message is pushed, the first one has been, and those a whole window before it
    have been popped: no message overtakes another by the window. *)
Definition may_push (sz : Z) (l : list goroutine) (k : nat) : bool :=
  ((k =? 0)%nat || match head l with Some g => pushed g | None => false end)
  && forallb popped (take (k + 1 - Z.to_nat sz) l).
(** No goroutine has jobs left to submit. *)
Definition may_pop (l : list goroutine) : bool := negb (existsb holding l).
(** [ordered]: a goroutine pops only when no other has jobs left to submit. *)
Definition allowed (sz : Z) (ordered : bool) (s : accept_run) (x : accept_ev) : bool :=
  match x with
  | ARead _ _ => true
  | AGo k _ =>
      match gos s !! k with
      | Some (GPush _) => may_push sz (gos s) k
      | Some GPop => negb ordered || may_pop (gos s)
      | _ => true
      end
  | AClean => false
  end.

(** Every step of a run is one that [ok] allows. *)
Fixpoint scheduled (ok : accept_run -> accept_ev -> bool) (incoming : Conn W) (s : accept_run)
    (xs : list accept_ev) (n : node) : bool :=
  match xs with
  | [] => true
  | x :: xs =>
      ok s x &&
      match accept_step incoming s x n with
      | (n, Ok s) => scheduled ok incoming s xs n
      | _ => true
      end
  end.

(** The loop has ended and so have the goroutines. *)
Definition finished (s : accept_run) : Prop :=
  accepting s = false /\ Forall (fun g => g = GSubmit []) (gos s).

(** ** Lemmas *)

#[local] Hint Resolve accept_once_evolves accept_go_evolves accept_cleanup_evolves : frames.
(** The steps of a run are operations of the node ([Inbound.run_op]). *)
Lemma Accept_evolves incoming i xs : frames evolves (Accept incoming i xs).
Proof.
  assert (Hsteps : forall s, frames evolves (accept_steps incoming s xs)); [|unfold Accept; frame].
  induction xs as [|x xs IH]; intros s; cbn [accept_steps]; [frame|].
  apply frames_bind; [exact _| |intros; apply IH]. destruct x; cbn [accept_step]; frame.
Qed.

(** *** Lists of goroutines *)

Definition held (g : goroutine) : list Message := match g with GSubmit l => omap id l | _ => [] end.
(** The steps a goroutine has before it, the jobs it submits not counted. *)
Definition weight (g : goroutine) : nat := match g with GStart _ => 3 | GPush _ => 2 | GPop => 1 | GSubmit _ => 0 end.

Lemma held_insert (l : list goroutine) k g g' :
  l !! k = Some g ->
  exists a b, mjoin (held <$> l) = a ++ held g ++ b /\ mjoin (held <$> <[k := g']> l) = a ++ held g' ++ b /\
    ((forall k' x, k' <> k -> l !! k' = Some x -> held x = []) -> a = [] /\ b = []).
Proof.
  intros Hk. exists (mjoin (held <$> take k l)), (mjoin (held <$> drop (S k) l)).
  assert (Hlt : (k < length l)%nat) by by eapply lookup_lt_Some.
  split; [by rewrite <-(take_drop_middle l k g Hk) at 1; rewrite fmap_app, join_app|].
  split; [by rewrite insert_take_drop by done; rewrite fmap_app, join_app|].
  intros Ho.
  assert (Hz : forall l', (forall x, x ∈ l' -> held x = []) -> mjoin (held <$> l') = []).
  { induction l' as [|x l' IH]; intros Hx; [done|]. cbn. rewrite (Hx x) by left. apply IH. intros y Hy. apply Hx. by right. }
  split; apply Hz; intros x [i Hi]%list_elem_of_lookup.
  - rewrite lookup_take_Some in Hi. apply (Ho i); [lia|apply Hi].
  - rewrite lookup_drop in Hi. apply (Ho (S k + i)%nat); [lia|done].
Qed.

Lemma weight_insert (l : list goroutine) k g g' :
  l !! k = Some g ->
  (sum_list_with weight (<[k := g']> l) + weight g = sum_list_with weight l + weight g')%nat.
Proof.
  intros Hk. assert (Hlt : (k < length l)%nat) by by eapply lookup_lt_Some.
  rewrite <-(take_drop_middle l k g Hk) at 2. rewrite insert_take_drop by done.
  rewrite !sum_list_with_app. cbn. lia.
Qed.

(** The [k]-th goroutine is one that satisfies [P]. *)
Definition nth_is (P : goroutine -> bool) (l : list goroutine) (k : nat) : Prop :=
  exists g, l !! k = Some g /\ P g = true.
Lemma nth_is_insert P (l : list goroutine) k g g' m :
  l !! k = Some g -> nth_is P (<[k := g']> l) m <-> (if decide (m = k) then P g' = true else nth_is P l m).
Proof.
  intros Hk. assert (Hlt : (k < length l)%nat) by by eapply lookup_lt_Some. unfold nth_is.
  destruct (decide (m = k)) as [->|].
  - rewrite list_lookup_insert_eq by done. naive_solver.
  - by rewrite list_lookup_insert_ne.
Qed.
Lemma nth_is_same P (l : list goroutine) k g g' m :
  l !! k = Some g -> P g' = P g -> nth_is P (<[k := g']> l) m <-> nth_is P l m.
Proof.
  intros Hk HP. rewrite (nth_is_insert P l k g g' m Hk), HP. destruct (decide (m = k)) as [->|]; [|done].
  unfold nth_is. naive_solver.
Qed.

(** The first one that does not satisfy [P]. *)
Lemma first_not (P : goroutine -> bool) (l : list goroutine) :
  forallb P l = true \/ exists k g, l !! k = Some g /\ P g = false /\ forallb P (take k l) = true.
Proof.
  induction l as [|x l IH]; [by left|]. cbn [forallb]. destruct (P x) eqn:Ex.
  - destruct IH as [->|(k & g & Hk & Hg & Hf)]; [by left|]. right. exists (S k), g. cbn. by rewrite Ex.
  - right. by exists 0%nat, x.
Qed.
Lemma forallb_take (P : goroutine -> bool) (l : list goroutine) k k' :
  (k' <= k)%nat -> forallb P (take k l) = true -> forallb P (take k' l) = true.
Proof.
  intros Hle Hf. replace (take k' l) with (take k' (take k l)) by (by rewrite take_take, Nat.min_l).
  rewrite <-(take_drop k' (take k l)), forallb_app in Hf. by apply andb_prop in Hf as [-> _].
Qed.

Lemma omap_id_fmap {A} (l : list A) : omap id (Some <$> l) = l.
Proof. induction l as [|x l IH]; [done|]. cbn. by rewrite IH. Qed.

(** *** The goroutines of a stream of numbered messages

    [lm]: the messages as they were sent; the node state changes only by the jobs ([at_]). *)

Section Stream.
Context (incoming : Conn W) (sz : Z) (w0 : RecvWindow (V:=Message)) (lm : list Message) (limit : Z).
Context (r1 : node) (j : nat) (c : PeerClient (proto_Message UM)) (id_ : ID).
#[local] Abbreviation received := (Message_norm <$> lm).
Context (Hsz : 0 < sz < 2 ^ 63) (Hw0 : NewRecvWindow sz = Ok w0).
Context (Hlim : 0 <= limit < 2 ^ 32) (Hlimit : recvBufferSize (opts r1) = limit) (Hsend : Forall (sendable limit) lm).
Context (Hnonce : Message_MessageNonce <$> received = seqZ 1 (zlen lm)).
Context (Hc : clients r1 !! j = Some c) (Hcl : closeSignal c = false) (Hid : ID_ c = Some id_).
Context (Hcap : (length (jobs_of j (jobs r1)) + length lm <= job_capacity)%nat).
Context (Hsig : Forall (fun m => check_signature (opts r1) m = Ok true /\
                                exists s, Message_Sender m = Some s /\ Equals id_ s = true) received).

(** The message of a nonce. *)
Definition msg_at (z : Z) : Message := default Message_zero (received !! Z.to_nat (z - 1)).
Definition at_ (new : list Message) : node :=
  set_clients (clients r1) (jobs r1 ++ ((fun m => (j, m)) <$> new)) r1.

Lemma msg_at_lookup k m : received !! k = Some m -> msg_at (Z.of_nat k + 1) = m.
Proof. intros Hk. unfold msg_at. replace (Z.to_nat (Z.of_nat k + 1 - 1)) with k by lia. by rewrite Hk. Qed.
Lemma msg_at_ok k : (k < length lm)%nat ->
  let m := msg_at (Z.of_nat k + 1) in
  Message_MessageNonce m = Z.of_nat k + 1 /\ check_signature (opts r1) m = Ok true /\
  exists s, Message_Sender m = Some s /\ Equals id_ s = true.
Proof.
  intros Hk. assert (Hlk : (k < length received)%nat) by (by rewrite length_fmap).
  apply lookup_lt_is_Some in Hlk as [m Hm]. rewrite (msg_at_lookup k m Hm). simpl. split.
  - assert (E : (Message_MessageNonce <$> received) !! k = Some (Message_MessageNonce m))
      by (by rewrite list_lookup_fmap, Hm).
    rewrite Hnonce in E. apply lookup_seqZ in E as [-> _]. lia.
  - by eapply (proj1 (Forall_forall _ _) Hsig), list_elem_of_lookup_2.
Qed.
Lemma msgs_received : msg_at <$> seqZ 1 (zlen lm) = received.
Proof.
  apply list_eq. intros k. rewrite list_lookup_fmap. destruct (received !! k) as [m|] eqn:Ek.
  - rewrite (proj2 (lookup_seqZ 1 (zlen lm) k (Z.of_nat k + 1))).
    + simpl. by rewrite (msg_at_lookup k m).
    + apply lookup_lt_Some in Ek. rewrite length_fmap in Ek. unfold zlen. lia.
  - rewrite lookup_seqZ_ge; [done|]. apply lookup_ge_None in Ek. rewrite length_fmap in Ek. unfold zlen. lia.
Qed.

(** The [k]-th goroutine has the [k]-th message. *)
Definition goroutine_ok (k : nat) (g : goroutine) : Prop :=
  match g with
  | GStart m | GPush m => m = msg_at (Z.of_nat k + 1)
  | GPop => True
  | GSubmit ready => exists ready', ready = Some <$> ready'
  end.

(** The goroutines [l], the window [w], the jobs [new] they have made, the nonces [pre] they have
    pushed and the abstract window. *)
Record core (l : list goroutine) (w : RecvWindow) (new : list Message) (pre : list Z) (sp : spec (V:=Message)) : Prop := {
  co_window : (pre = [] /\ w = w0 /\ sp = mkSpec 1 ∅) \/ (refines w sp /\ size w = sz);
  co_length : (length l <= length lm)%nat;
  co_gos : forall k g, l !! k = Some g -> goroutine_ok k g;
  co_pre : forall z, z ∈ pre <-> exists k, z = Z.of_nat k + 1 /\ nth_is pushed l k;
  co_arrived : RecvWindow.arrived 1 msg_at pre sp;
  co_jobs : new ++ mjoin (held <$> l) ≡ₚ msg_at <$> seqZ 1 (next sp - 1);
  co_popped : forall m, (forall k, (k < m)%nat -> nth_is popped l k) -> Z.of_nat m < next sp;
}.
(** When the goroutines submit one after the other. *)
Definition in_order (l : list goroutine) (new : list Message) (sp : spec (V:=Message)) : Prop :=
  new ++ mjoin (held <$> l) = msg_at <$> seqZ 1 (next sp - 1) /\
  forall k k' g g', l !! k = Some g -> l !! k' = Some g' -> held g <> [] -> held g' <> [] -> k = k'.

Section Core.
Context (l : list goroutine) (w : RecvWindow (V:=Message)) (new : list Message) (pre : list Z) (sp : spec (V:=Message)).
Context (Hco : core l w new pre sp).

Lemma next_le : 1 <= next sp <= zlen lm + 1.
Proof.
  pose proof (ar_next _ _ _ _ (co_arrived _ _ _ _ _ Hco)). split; [done|].
  destruct (decide (next sp <= zlen lm + 1)) as [|Hgt]; [done|]. exfalso.
  assert (Hin : next sp - 1 ∈ pre) by (apply (ar_done _ _ _ _ (co_arrived _ _ _ _ _ Hco)); pose proof (zlen_nonneg lm); lia).
  apply (co_pre _ _ _ _ _ Hco) in Hin as (k & E & g & Hk & _). apply lookup_lt_Some in Hk.
  pose proof (co_length _ _ _ _ _ Hco). unfold zlen in *. lia.
Qed.

(** What is already submitted or about to be. *)
Lemma jobs_length : (length new + length (mjoin (held <$> l)) <= length lm)%nat.
Proof.
  pose proof next_le. rewrite <-length_app, (Permutation_length (co_jobs _ _ _ _ _ Hco)), length_fmap, length_seqZ.
  unfold zlen in *. lia.
Qed.

Lemma gos_insert k g' : goroutine_ok k g' ->
  (length (<[k := g']> l) <= length lm)%nat /\ forall m g, <[k := g']> l !! m = Some g -> goroutine_ok m g.
Proof.
  intros Hg. split; [rewrite length_insert; apply (co_length _ _ _ _ _ Hco)|].
  intros m g. rewrite list_lookup_insert_Some. intros [(<- & <- & _)|[_ Hm]]; [done|].
  exact (co_gos _ _ _ _ _ Hco m g Hm).
Qed.

(** A step of a goroutine that leaves the window and the jobs alone. *)
Lemma core_idle k g g' :
  l !! k = Some g -> pushed g' = pushed g -> popped g' = popped g -> held g' = held g -> goroutine_ok k g' ->
  core (<[k := g']> l) w new pre sp /\ (in_order l new sp -> in_order (<[k := g']> l) new sp).
Proof.
  intros Hk Hpu Hpo Hh Hok. destruct (gos_insert k g' Hok) as [Hlen Hgos].
  destruct (held_insert l k g g' Hk) as (a & b & Ha & Hb & _). rewrite Hh, <-Ha in Hb.
  destruct Hco as [C1 _ _ C4 C5 C6 C7]. split.
  - split; [done|done|done| |done|by rewrite Hb|].
    + intros z. rewrite C4. apply exist_proper. intros m. by rewrite (nth_is_same _ _ _ _ _ _ Hk Hpu).
    + intros m Hm. apply C7. intros i Hi. by rewrite <-(nth_is_same _ _ _ _ _ _ Hk Hpo); apply Hm.
  - intros [Ho1 Ho2]. split; [by rewrite Hb|]. intros i i' x x'.
    assert (Hex : forall i x, <[k := g']> l !! i = Some x -> held x <> [] ->
                  exists y, l !! i = Some y /\ held y <> []).
    { intros i0 y. rewrite list_lookup_insert_Some. intros [(<- & <- & _)|[_ Hy]] Hne; [|by eauto].
      exists g. by rewrite <-Hh. }
    intros Hi Hi' Hx Hx'. destruct (Hex _ _ Hi Hx) as (y & Hy & Hyn). destruct (Hex _ _ Hi' Hx') as (y' & Hy' & Hyn').
    by apply (Ho2 i i' y y').
Qed.

(** A message that has not been pushed is not behind the window. *)
Lemma push_ahead k m :
  l !! k = Some (GPush m) ->
  m = msg_at (Z.of_nat k + 1) /\ Message_MessageNonce m = Z.of_nat k + 1 /\
  Z.of_nat k + 1 ∉ pre /\ next sp <= Z.of_nat k + 1.
Proof.
  intros Hk. pose proof (co_gos _ _ _ _ _ Hco k _ Hk) as Hm. simpl in Hm. split; [done|].
  assert (Hklt : (k < length lm)%nat).
  { apply lookup_lt_Some in Hk. pose proof (co_length _ _ _ _ _ Hco). lia. }
  destruct (msg_at_ok k Hklt) as [Hnon _]. rewrite <-Hm in Hnon. split; [done|].
  assert (Hnp : Z.of_nat k + 1 ∉ pre).
  { rewrite (co_pre _ _ _ _ _ Hco). intros (k' & E & g & Hg & Hp). replace k' with k in * by lia.
    rewrite Hk in Hg. by injection Hg as <-. }
  split; [done|]. destruct (decide (next sp <= Z.of_nat k + 1)); [done|]. exfalso.
  apply Hnp, (ar_done _ _ _ _ (co_arrived _ _ _ _ _ Hco)). lia.
Qed.

(** The first push, and those that follow. *)
Lemma push_window k m :
  l !! k = Some (GPush m) -> may_push sz l k = true ->
  exists w', Push w (Message_MessageNonce m) (Some m) = Ok w' /\
    refines w' (spec_push sp (Z.of_nat k + 1) m) /\ size w' = sz.
Proof.
  intros Hk [Hfirst Hnear]%andb_prop. destruct (push_ahead k m Hk) as (_ & -> & _ & Hge).
  destruct Hco as [C1 _ _ C4 C5 _ C7]. destruct C1 as [(E & -> & ->)|[Hw Hs]].
  - assert (k = 0)%nat as ->.
    { destruct k as [|k]; [done|]. rewrite head_lookup in Hfirst. destruct (l !! 0%nat) as [g|] eqn:Eg; [|done].
      assert (Hin : 1 ∈ pre) by (apply C4; exists 0%nat; split; [done|by exists g]).
      rewrite E in Hin. by apply not_elem_of_nil in Hin. }
    destruct (Push_first sz 1 m) as (w1 & w' & Hn & Hp & Hr); [lia..|]. rewrite Hw0 in Hn. injection Hn as <-. by exists w'.
  - destruct (Push_refines w sp (Z.of_nat k + 1) m Hw) as (w' & Hp & Hr & Hs'); [|exists w'; by rewrite Hs', Hs].
    split; [done|]. rewrite Hs. destruct (decide (Z.of_nat k + 1 < sz)); [pose proof (ar_next _ _ _ _ C5); lia|].
    assert (Z.of_nat (k + 1 - Z.to_nat sz) < next sp); [|lia]. apply C7. intros i Hi.
    assert (Hil : (i < length l)%nat) by (apply lookup_lt_Some in Hk; lia).
    apply lookup_lt_is_Some in Hil as [g Hg]. exists g. split; [done|].
    rewrite forallb_forall in Hnear. apply Hnear, list_elem_of_In, list_elem_of_lookup. exists i.
    by rewrite lookup_take_lt.
Qed.

Lemma core_push k m :
  l !! k = Some (GPush m) -> may_push sz l k = true ->
  exists w' sp', Push w (Message_MessageNonce m) (Some m) = Ok w' /\
    core (<[k := GPop]> l) w' new (pre ++ [Z.of_nat k + 1]) sp' /\ (in_order l new sp -> in_order (<[k := GPop]> l) new sp').
Proof.
  intros Hk Hmay. destruct (push_window k m Hk Hmay) as (w' & Hp & Hr & Hs).
  destruct (push_ahead k m Hk) as (Hm & _ & _ & Hge). destruct (gos_insert k GPop I) as [Hlen Hgos].
  destruct (held_insert l k _ GPop Hk) as (a & b & Ha & Hb & _). simpl in Ha, Hb. rewrite <-Ha in Hb.
  destruct Hco as [_ _ _ C4 C5 C6 C7].
  exists w', (spec_push sp (Z.of_nat k + 1) m). split; [done|]. split.
  - split; [by right|done|done| | |by rewrite Hb|].
    + intros z. rewrite elem_of_app, list_elem_of_singleton, C4. split.
      * intros [(i & E & Hi)| ->]; [|exists k; split; [done|]; by rewrite (nth_is_insert _ _ _ _ _ _ Hk), decide_True].
        exists i. split; [done|]. rewrite (nth_is_insert _ _ _ _ _ _ Hk). by case_decide.
      * intros (i & E & Hi). rewrite (nth_is_insert _ _ _ _ _ _ Hk) in Hi. case_decide; [subst; by right|]. left. by exists i.
    + rewrite Hm. by apply arrived_push.
    + intros n Hn. apply C7. intros i Hi. by rewrite <-(nth_is_same popped _ _ _ GPop i Hk); [apply Hn|].
  - intros [Ho1 Ho2]. split; [by rewrite Hb|]. intros i i' x x'. rewrite !list_lookup_insert_Some.
    intros [(<- & <- & _)|[_ Hi]] [(<- & <- & _)|[_ Hi']]; try done. by eapply Ho2.
Qed.

(** What a pop delivers goes on from what was delivered before. *)
Lemma core_pop k :
  l !! k = Some GPop ->
  exists w' sp' ready, Pop w = Ok (w', Some <$> ready) /\
    core (<[k := GSubmit (Some <$> ready)]> l) w' new pre sp' /\
    (in_order l new sp -> may_pop l = true -> in_order (<[k := GSubmit (Some <$> ready)]> l) new sp').
Proof.
  intros Hk. destruct Hco as [C1 _ _ C4 C5 C6 C7].
  assert (Hin : Z.of_nat k + 1 ∈ pre) by (apply C4; exists k; split; [done|by eexists]).
  destruct C1 as [(-> & _)|[Hw Hs]]; [by apply not_elem_of_nil in Hin|].
  destruct (pop_arrived 1 msg_at w sp pre Hw C5) as (w' & sp' & Hpop & Hw' & Hs' & Ha' & Hn' & Hle).
  set (ready := msg_at <$> seqZ (next sp) (next sp' - next sp)) in *.
  destruct (gos_insert k (GSubmit (Some <$> ready))) as [Hlen Hgos]; [by exists ready|].
  destruct (held_insert l k _ (GSubmit (Some <$> ready)) Hk) as (a & b & Ha & Hb & Hab). simpl in Ha, Hb.
  rewrite omap_id_fmap in Hb.
  assert (Hall : msg_at <$> seqZ 1 (next sp' - 1) = (msg_at <$> seqZ 1 (next sp - 1)) ++ ready).
  { pose proof (ar_next _ _ _ _ C5). replace (next sp' - 1) with ((next sp - 1) + (next sp' - next sp)) by lia.
    rewrite seqZ_app, fmap_app by lia. do 3 f_equal. lia. }
  exists w', sp', ready. split; [done|]. split.
  - split; [right; by rewrite Hs'|done|done| |done| |].
    + intros z. rewrite C4. apply exist_proper. intros m. by rewrite (nth_is_same _ _ _ _ _ _ Hk).
    + rewrite Hall, <-C6, Ha, Hb, <-(assoc_L (++)). by rewrite (Permutation_app_comm ready b), (assoc_L (++) a b).
    + intros m Hm. destruct (decide (Z.of_nat m < next sp')) as [|Hge]; [done|]. exfalso. apply Hn'.
      pose proof (ar_next _ _ _ _ Ha'). apply C4. exists (Z.to_nat (next sp' - 1)). split; [lia|].
      rewrite <-(nth_is_same pushed _ _ _ (GSubmit (Some <$> ready)) _ Hk) by done.
      destruct (Hm (Z.to_nat (next sp' - 1))) as (g & Hg & Hp); [lia|]. exists g. split; [done|]. by destruct g.
  - intros [Ho1 _] Hmay. assert (Hz : forall k' x, l !! k' = Some x -> held x = []).
    { intros k' x Hx. unfold may_pop in Hmay. apply negb_true_iff in Hmay.
      destruct (held x) as [|y ys] eqn:E; [done|]. exfalso. assert (Ht : existsb holding l = true); [|congruence].
      apply existsb_exists. exists x. split; [by apply list_elem_of_In; eapply list_elem_of_lookup_2|].
      by destruct x as [| | |[|]]. }
    destruct Hab as [-> ->]; [by intros k' x _; apply Hz|]. rewrite app_nil_r in Ha, Hb. split.
    + rewrite Hb, Hall. simpl. rewrite <-Ho1, Ha, app_nil_r. done.
    + intros i i' x x'. rewrite !list_lookup_insert_Some.
      intros [(<- & <- & _)|[_ Hi]] [(<- & <- & _)|[_ Hi']] Hx Hx'; try done; (by apply Hz in Hi) || (by apply Hz in Hi').
Qed.

(** A submitted job. *)
Lemma core_submit k m ready :
  l !! k = Some (GSubmit (Some m :: ready)) ->
  core (<[k := GSubmit ready]> l) w (new ++ [m]) pre sp /\
  (in_order l new sp -> in_order (<[k := GSubmit ready]> l) (new ++ [m]) sp).
Proof.
  intros Hk. pose proof (co_gos _ _ _ _ _ Hco k _ Hk) as [[|m' r'] E]; [done|]. injection E as <- E.
  destruct (gos_insert k (GSubmit ready)) as [Hlen Hgos]; [by exists r'|].
  destruct (held_insert l k _ (GSubmit ready) Hk) as (a & b & Ha & Hb & Hab). simpl in Ha, Hb.
  destruct Hco as [C1 _ _ C4 C5 C6 C7]. split.
  - split; [done|done|done| |done| |].
    + intros z. rewrite C4. apply exist_proper. intros i. by rewrite (nth_is_same _ _ _ _ _ _ Hk).
    + rewrite <-C6, Ha, Hb, <-(assoc_L (++)). apply Permutation_app_head.
      exact (Permutation_middle a (omap id ready ++ b) m).
    + intros i Hi. apply C7. intros i' Hi'. by rewrite <-(nth_is_same popped _ _ _ (GSubmit ready) i' Hk); [apply Hi|].
  - intros [Ho1 Ho2].
    destruct Hab as [-> ->].
    { intros k' x Hne Hx. destruct (held x) eqn:Ex; [done|]. exfalso. apply Hne.
      apply (Ho2 k' k x _ Hx Hk); [by rewrite Ex|done]. }
    split; [rewrite <-Ho1, Ha, Hb; by rewrite <-(assoc_L (++))|].
    intros i i' x x'. rewrite !list_lookup_insert_Some.
    intros [(<- & <- & _)|[Hi0 Hi]] [(<- & <- & _)|[Hi0' Hi']] Hx Hx'; try done.
    + exfalso. apply Hi0'. by apply (Ho2 k i' _ x' Hk Hi').
    + exfalso. apply Hi0. by apply (Ho2 k i _ x Hk Hi).
    + by apply (Ho2 i i' x x').
Qed.

(** The goroutine of the next message. *)
Lemma core_start m :
  lm !! length l = Some m ->
  core (l ++ [GStart (Message_norm m)]) w new pre sp /\
  (in_order l new sp -> in_order (l ++ [GStart (Message_norm m)]) new sp).
Proof.
  intros Em. assert (Hlt : (length l < length lm)%nat) by by eapply lookup_lt_Some.
  assert (Hnth : forall P k, P (GStart (Message_norm m)) = false ->
    nth_is P (l ++ [GStart (Message_norm m)]) k <-> nth_is P l k).
  { intros P k HP. unfold nth_is. split; intros (g & Hg & Hp); exists g; (split; [|done]).
    - apply lookup_app_Some in Hg as [Hg|[_ Hg]]; [done|]. apply list_lookup_singleton_Some in Hg as [_ <-]. congruence.
    - by apply lookup_app_l_Some. }
  assert (Hheld : mjoin (held <$> l ++ [GStart (Message_norm m)]) = mjoin (held <$> l)).
  { rewrite fmap_app, join_app. cbn. by rewrite app_nil_r. }
  destruct Hco as [C1 C2 C3 C4 C5 C6 C7]. split.
  - split; [done|rewrite length_app; simpl; lia| | |done|by rewrite Hheld|].
    + intros k g Hg. apply lookup_app_Some in Hg as [Hg|[Hge Hg]]; [by apply C3|].
      apply list_lookup_singleton_Some in Hg as [Hk <-]. simpl. symmetry. apply msg_at_lookup.
      replace k with (length l) by lia. by rewrite list_lookup_fmap, Em.
    + intros z. rewrite C4. apply exist_proper. intros k. by rewrite Hnth.
    + intros k Hk. apply C7. intros i Hi. by apply Hnth; [|apply Hk].
  - intros [O1 O2]. split; [by rewrite Hheld|]. intros k k' g g' Hg Hg' Hh Hh'.
    apply lookup_app_Some in Hg as [Hg|[_ Hg]]; [|by apply list_lookup_singleton_Some in Hg as [_ <-]].
    apply lookup_app_Some in Hg' as [Hg'|[_ Hg']]; [|by apply list_lookup_singleton_Some in Hg' as [_ <-]].
    by apply (O2 k k' g g').
Qed.
End Core.

(** *** Runs *)

Record good (ordered : bool) (s : accept_run) (new : list Message) : Prop := {
  gd_core : exists w pre sp, acc s = mkAccept (Some j) true w /\ core (gos s) w new pre sp /\
              (ordered = true -> in_order (gos s) new sp);
  gd_unread : mjoin (unread s) = mjoin ((fun m => frame (Message_encoding m)) <$> drop (length (gos s)) lm);
  gd_ended : accepting s = false -> length (gos s) = length lm;
}.
(** What is left to do. *)
Definition effort (s : accept_run) (new : list Message) : nat :=
  (4 * (length lm - length (gos s)) + (if accepting s then 1 else 0)
   + sum_list_with weight (gos s) + (length lm - length new))%nat.

Lemma good_length ordered s new : good ordered s new -> (length new <= length lm /\ length (gos s) <= length lm)%nat.
Proof.
  intros [(w & pre & sp & _ & Hco & _) _ _]. pose proof (jobs_length _ _ _ _ _ Hco).
  pose proof (co_length _ _ _ _ _ Hco). lia.
Qed.

Lemma start_ok a w take k new :
  a = mkAccept (Some j) true w -> (k < length lm)%nat ->
  accept_go a take (GStart (msg_at (Z.of_nat k + 1))) (at_ new) = (at_ new, Ok (a, GPush (msg_at (Z.of_nat k + 1)))).
Proof.
  intros -> Hk. destruct (msg_at_ok k Hk) as (_ & Hs & x & Hx & He). unfold accept_go.
  rewrite bind_get, bind_lift. change (opts (at_ new)) with (opts r1). rewrite Hs. cbn [negb a_client].
  unfold same_peer. rewrite (bind_Ok _ _ (at_ new) (at_ new) true); [done|].
  rewrite (bind_Ok _ _ _ (at_ new) c) by (by apply load_ok). by rewrite Hid, Hx, He.
Qed.
Lemma submit_ok take m new : (length new < length lm)%nat -> Submit j take m (at_ new) = (at_ (new ++ [m]), Ok ()).
Proof.
  intros Hl. rewrite (Submit_ok (at_ new) j c m take Hc Hcl).
  - unfold at_. cbn [clients jobs set_clients]. by rewrite fmap_app, (assoc_L (++)).
  - unfold at_. cbn [jobs set_clients]. rewrite jobs_of_app, jobs_of_own, length_app. lia.
Qed.

(** A step of a goroutine. *)
Lemma go_core ordered a l w new pre sp take k g :
  a = mkAccept (Some j) true w -> core l w new pre sp -> (ordered = true -> in_order l new sp) -> l !! k = Some g ->
  match g with GPush _ => may_push sz l k | GPop => negb ordered || may_pop l | _ => true end = true ->
  exists w' new' pre' sp' g', accept_go a take g (at_ new) = (at_ new', Ok (mkAccept (Some j) true w', g')) /\
    core (<[k := g']> l) w' new' pre' sp' /\ (ordered = true -> in_order (<[k := g']> l) new' sp') /\
    (g <> GSubmit [] -> weight g' + length new < weight g + length new')%nat.
Proof.
  intros Ha Hco Ho Hk Hmay. pose proof (co_gos _ _ _ _ _ Hco k g Hk) as Hg.
  assert (Hklt : (k < length lm)%nat).
  { apply lookup_lt_Some in Hk. pose proof (co_length _ _ _ _ _ Hco). lia. }
  destruct g as [m|m| |[|[m|] ready]]; simpl in Hg.
  - subst m. destruct (core_idle _ _ _ _ _ Hco k _ (GPush (msg_at (Z.of_nat k + 1))) Hk) as [Hc' Ho']; try done.
    exists w, new, pre, sp, (GPush (msg_at (Z.of_nat k + 1))). split; [by rewrite (start_ok a w), Ha|].
    split; [done|]. split; [auto|]. simpl. lia.
  - destruct (core_push _ _ _ _ _ Hco k m Hk Hmay) as (w' & sp' & Hp & Hc' & Ho').
    exists w', new, (pre ++ [Z.of_nat k + 1]), sp', GPop. split; [subst a; unfold accept_go; cbn [recvWindow]; by rewrite bind_lift, Hp|].
    split; [done|]. split; [auto|]. simpl. lia.
  - destruct (core_pop _ _ _ _ _ Hco k Hk) as (w' & sp' & ready & Hp & Hc' & Ho').
    exists w', new, pre, sp', (GSubmit (Some <$> ready)). split; [subst a; unfold accept_go; cbn [recvWindow]; by rewrite bind_lift, Hp|].
    split; [done|]. split; [|simpl; lia]. intros ->. auto.
  - exists w, new, pre, sp, (GSubmit []). split; [by subst a|]. by rewrite list_insert_id.
  - destruct (core_submit _ _ _ _ _ Hco k m ready Hk) as [Hc' Ho'].
    exists w, (new ++ [m]), pre, sp, (GSubmit ready). split; [|split; [done|]; split; [auto|]; rewrite length_app; simpl; lia].
    subst a. unfold accept_go. cbn [a_client]. rewrite (bind_Ok _ _ _ (at_ (new ++ [m])) ()); [done|].
    apply submit_ok. pose proof (jobs_length _ _ _ _ _ Hc') as Hl. rewrite length_app in Hl. simpl in Hl. lia.
  - destruct Hg as [[|] Hg]; done.
Qed.

Lemma go_good ordered s new take k g :
  good ordered s new -> gos s !! k = Some g -> allowed sz ordered s (AGo k take) = true ->
  exists s' new', accept_step incoming s (AGo k take) (at_ new) = (at_ new', Ok s') /\ good ordered s' new' /\
    (g <> GSubmit [] -> effort s' new' < effort s new)%nat.
Proof.
  intros [(w & pre & sp & Ha & Hco & Ho) Hu He] Hk Hal. cbn [allowed] in Hal. rewrite Hk in Hal.
  destruct (go_core ordered _ _ _ _ _ _ take k g Ha Hco Ho Hk) as (w' & new' & pre' & sp' & g' & Hgo & Hco' & Ho' & Hw);
    [by destruct g|].
  exists (mkRun (mkAccept (Some j) true w') (unread s) (accepting s) (<[k := g']> (gos s)) (cleaned s)), new'.
  split; [cbn [accept_step]; by rewrite Hk, (bind_Ok _ _ _ _ _ Hgo)|].
  assert (Hgd : good ordered (mkRun (mkAccept (Some j) true w') (unread s) (accepting s) (<[k := g']> (gos s)) (cleaned s)) new').
  { split; cbn [acc unread accepting gos]; [|by rewrite length_insert..]. by exists w', pre', sp'. }
  split; [done|]. intros Hne. specialize (Hw Hne). pose proof (good_length _ _ _ Hgd) as [Hl _].
  unfold effort. cbn [accepting gos]. rewrite length_insert. pose proof (weight_insert _ _ _ g' Hk). lia.
Qed.

(** The loop: a message, or the end of the connection. *)
Lemma read_good ordered s new soon now :
  good ordered s new -> accepting s = true ->
  exists s', accept_step incoming s (ARead soon now) (at_ new) = (at_ new, Ok s') /\ good ordered s' new /\
    (effort s' new < effort s new)%nat.
Proof.
  intros [(w & pre & sp & Ha & Hco & Ho) Hu He] Hac. cbn [accept_step]. rewrite Hac. cbn [negb].
  rewrite bind_get. change (opts (at_ new)) with (opts r1). rewrite Hlimit.
  pose proof (co_length _ _ _ _ _ Hco) as Hlen.
  destruct (lm !! length (gos s)) as [m|] eqn:Em.
  - assert (Hm : sendable limit m) by (by eapply (proj1 (Forall_forall _ _) Hsend), list_elem_of_lookup_2).
    rewrite (drop_S _ _ _ Em) in Hu. cbn [fmap list_fmap mjoin list_join] in Hu.
    destruct (receive_frame limit m (unread s) _ Hlim Hm Hu) as (i' & -> & Hi' & _).
    rewrite (bind_Ok _ _ _ (at_ new) (acc s, None)); [|by rewrite Ha].
    eexists. split; [done|]. assert (Hlt : (length (gos s) < length lm)%nat) by by eapply lookup_lt_Some.
    destruct (core_start _ _ _ _ _ Hco m Em) as [Hcore Hord].
    split; [split; cbn [acc unread accepting gos]|].
    + exists w, pre, sp. split; [done|]. split; [done|]. auto.
    + rewrite length_app, Nat.add_1_r. done.
    + done.
    + unfold effort. cbn [accepting gos]. rewrite Hac, length_app, sum_list_with_app. simpl. lia.
  - apply lookup_ge_None in Em. rewrite drop_ge in Hu by done. rewrite receive_end by done.
    eexists. split; [done|]. split; [split; cbn [acc unread accepting gos]|].
    + by exists w, pre, sp.
    + by rewrite drop_ge.
    + lia.
    + unfold effort. cbn [accepting gos]. rewrite Hac. lia.
Qed.

Lemma step_good ordered s new x :
  good ordered s new -> allowed sz ordered s x = true ->
  exists s' new', accept_step incoming s x (at_ new) = (at_ new', Ok s') /\ good ordered s' new'.
Proof.
  intros Hg Hal. destruct x as [soon now|k take|]; [| |done].
  - destruct (accepting s) eqn:Ea.
    + destruct (read_good ordered s new soon now Hg Ea) as (s' & Hs & Hg' & _). by exists s', new.
    + exists s, new. cbn [accept_step]. by rewrite Ea.
  - destruct (gos s !! k) as [g|] eqn:Ek.
    + destruct (go_good ordered s new take k g Hg Ek Hal) as (s' & new' & Hs & Hg' & _). by exists s', new'.
    + exists s, new. cbn [accept_step]. by rewrite Ek.
Qed.
Lemma steps_good ordered xs s new :
  good ordered s new -> scheduled (allowed sz ordered) incoming s xs (at_ new) = true ->
  exists s' new', accept_steps incoming s xs (at_ new) = (at_ new', Ok s') /\ good ordered s' new'.
Proof.
  revert s new. induction xs as [|x xs IH]; intros s new Hg Hs; [by exists s, new|].
  cbn [scheduled] in Hs. apply andb_prop in Hs as [Hal Hs].
  destruct (step_good ordered s new x Hg Hal) as (s1 & new1 & H1 & Hg1). rewrite H1 in Hs.
  cbn [accept_steps]. rewrite (bind_Ok _ _ _ _ _ H1). by apply IH.
Qed.

(** A run that has not ended can go on. *)
Lemma can_go_on ordered s new :
  good ordered s new ->
  finished s \/ exists x s' new', allowed sz ordered s x = true /\
    accept_step incoming s x (at_ new) = (at_ new', Ok s') /\ good ordered s' new' /\ (effort s' new' < effort s new)%nat.
Proof.
  intros Hg. destruct (accepting s) eqn:Ea.
  { right. destruct (read_good ordered s new true 0 Hg Ea) as (s' & Hs & Hg' & He). by exists (ARead true 0), s', new. }
  assert (Hgo : forall k g, gos s !! k = Some g -> g <> GSubmit [] -> allowed sz ordered s (AGo k true) = true ->
    exists x s' new', allowed sz ordered s x = true /\
      accept_step incoming s x (at_ new) = (at_ new', Ok s') /\ good ordered s' new' /\ (effort s' new' < effort s new)%nat).
  { intros k g Hk Hne Hal. destruct (go_good ordered s new true k g Hg Hk Hal) as (s' & new' & Hs & Hg' & He).
    exists (AGo k true), s', new'. auto. }
  destruct (first_not (fun g => negb (holding g)) (gos s)) as [Hno|(k & g & Hk & Hh & _)].
  2: { right. apply negb_false_iff in Hh. apply (Hgo k g Hk); [by intros ->|].
       cbn [allowed]. rewrite Hk. by destruct g. }
  assert (Hmay : may_pop (gos s) = true).
  { unfold may_pop. apply negb_true_iff. destruct (existsb holding (gos s)) eqn:E; [|done]. exfalso.
    apply existsb_exists in E as (g & Hin & Hg'). rewrite forallb_forall in Hno. specialize (Hno g Hin).
    by rewrite Hg' in Hno. }
  destruct (first_not popped (gos s)) as [Hall|(k & g & Hk & Hp & Hf)].
  - left. split; [done|]. apply Forall_forall. intros g Hin%list_elem_of_In. rewrite forallb_forall in Hall, Hno.
    specialize (Hall g Hin). specialize (Hno g Hin). destruct g as [| | |[|]]; done.
  - right. apply (Hgo k g Hk); [by intros ->|]. cbn [allowed]. rewrite Hk. destruct g; [done| |by rewrite Hmay, orb_true_r|done].
    unfold may_push. rewrite (forallb_take popped (gos s) k) by (done || lia). rewrite andb_true_r.
    destruct k as [|k]; [done|]. rewrite head_lookup. rewrite forallb_forall in Hf.
    assert (Hl : (0 < length (gos s))%nat) by (apply lookup_lt_Some in Hk; lia).
    apply lookup_lt_is_Some in Hl as [g0 Hg0]. rewrite Hg0, orb_true_iff. right.
    assert (popped g0 = true); [|by destruct g0]. apply Hf, list_elem_of_In, list_elem_of_lookup. exists 0%nat.
    rewrite lookup_take_lt by lia. done.
Qed.

Lemma runs_to_end ordered s new :
  good ordered s new ->
  exists xs s' new', scheduled (allowed sz ordered) incoming s xs (at_ new) = true /\
    accept_steps incoming s xs (at_ new) = (at_ new', Ok s') /\ good ordered s' new' /\ finished s'.
Proof.
  remember (effort s new) as e eqn:Ee. revert s new Ee. induction (lt_wf e) as [e _ IH]. intros s new -> Hg.
  destruct (can_go_on ordered s new Hg) as [Hf|(x & s1 & new1 & Hal & Hs1 & Hg1 & He)]; [by exists [], s, new|].
  destruct (IH _ He s1 new1 eq_refl Hg1) as (xs & s' & new' & Hsch & Hst & Hg' & Hf).
  exists (x :: xs), s', new'. cbn [scheduled accept_steps]. rewrite Hal, Hs1, (bind_Ok _ _ _ _ _ Hs1). done.
Qed.

(** What has become a job; at the end, every message has. *)
Lemma good_jobs ordered s new :
  good ordered s new ->
  new ⊆+ received /\ (ordered = true -> new `prefix_of` received) /\
  (finished s -> new ≡ₚ received /\ (ordered = true -> new = received)).
Proof.
  intros [(w & pre & sp & _ & Hco & Ho) _ He]. pose proof (next_le _ _ _ _ _ Hco) as Hn.
  pose proof (co_jobs _ _ _ _ _ Hco) as Hj. rewrite <-msgs_received.
  replace (zlen lm) with ((next sp - 1) + (zlen lm + 1 - next sp)) by lia.
  rewrite seqZ_app, fmap_app by lia. set (rest := msg_at <$> seqZ _ (zlen lm + 1 - next sp)).
  split; [|split].
  - rewrite <-Hj, <-(assoc_L (++)). apply submseteq_inserts_r. done.
  - intros Hord. destruct (Ho Hord) as [<- _]. rewrite <-(assoc_L (++)). by eexists.
  - intros [Ha Hf].
    assert (Hrest : rest = []).
    { assert (zlen lm < next sp).
      { apply (co_popped _ _ _ _ _ Hco). intros k Hk. rewrite <-(He Ha) in Hk. apply lookup_lt_is_Some in Hk as [g Hg].
        exists g. split; [done|]. by rewrite (Forall_lookup_1 _ _ _ _ Hf Hg). }
      unfold rest. replace (zlen lm + 1 - next sp) with 0 by lia. done. }
    assert (Hh : mjoin (held <$> gos s) = []).
    { clear -Hf. induction Hf as [|g l -> _ IH]; [done|]. cbn. done. }
    rewrite Hrest, app_nil_r. rewrite Hh, app_nil_r in Hj. split; [done|].
    intros Hord. destruct (Ho Hord) as [E _]. by rewrite Hh, app_nil_r in E.
Qed.

Lemma at_nil : at_ [] = r1.
Proof. unfold at_. simpl. rewrite app_nil_r. by destruct r1. Qed.

(** The run after its first message. *)
Lemma good_start ordered m rest i :
  lm = m :: rest -> mjoin i = mjoin ((fun m => frame (Message_encoding m)) <$> rest) ->
  good ordered (mkRun (mkAccept (Some j) true w0) i true [GStart (Message_norm m)] false) [].
Proof.
  intros E Hi.
  assert (H0 : core [] w0 [] [] (mkSpec 1 ∅)).
  { split; [by left|simpl; lia|done| | |done|].
    - intros z. split; [by intros ?%not_elem_of_nil|]. by intros (k & _ & g & Hg & _).
    - split; simpl; [lia|lia|]. intros k v. rewrite lookup_empty. split; [done|]. by intros [?%not_elem_of_nil _].
    - intros [|k] Hk; [simpl; lia|]. destruct (Hk 0%nat) as (g & Hg & _); [lia|done]. }
  destruct (core_start _ _ _ _ _ H0 m) as [Hco Ho]; [by rewrite E|]. split; [|by rewrite E|done].
  exists w0, [], (mkSpec 1 ∅). split; [done|]. split; [done|]. intros _. apply Ho. split; [done|]. by intros k ? g.
Qed.

Lemma at_jobs new : jobs_of j (jobs (at_ new)) = jobs_of j (jobs r1) ++ new.
Proof. unfold at_. cbn [jobs set_clients]. by rewrite jobs_of_app, jobs_of_own. Qed.

Lemma run_delivers ordered s xs :
  good ordered s [] -> scheduled (allowed sz ordered) incoming s xs r1 = true ->
  exists s' r2 new, accept_steps incoming s xs r1 = (r2, Ok s') /\
    jobs_of j (jobs r2) = jobs_of j (jobs r1) ++ new /\
    new ⊆+ received /\ (ordered = true -> new `prefix_of` received) /\
    (finished s' -> new ≡ₚ received /\ (ordered = true -> new = received)) /\
    exists more s'' r' rest, scheduled (allowed sz ordered) incoming s' more r2 = true /\
      accept_steps incoming s' more r2 = (r', Ok s'') /\ finished s'' /\
      jobs_of j (jobs r') = jobs_of j (jobs r1) ++ rest /\ rest ≡ₚ received /\ (ordered = true -> rest = received).
Proof.
  intros Hg Hsch. rewrite <-at_nil in Hsch.
  destruct (steps_good ordered xs s [] Hg Hsch) as (s' & new & Hsteps & Hgs). rewrite at_nil in Hsteps.
  destruct (good_jobs ordered s' new Hgs) as (G1 & G2 & G3).
  destruct (runs_to_end ordered s' new Hgs) as (more & s'' & new' & M1 & M2 & M3 & M4).
  destruct (good_jobs ordered s'' new' M3) as (_ & _ & G).
  exists s', (at_ new), new. split; [done|]. split; [apply at_jobs|]. do 3 (split; [done|]).
  exists more, s'', (at_ new'), new'. do 3 (split; [done|]). split; [apply at_jobs|]. by apply G.
Qed.
End Stream.

(** The bytes a node gives to a fresh connection. *)
Lemma written_bytes (sent : W -> bytes) (healthy : W -> Prop) `{!Working conn_write sent healthy}
    (n : node) (a : bytes) (st : ConnState) (ms : list Message) (limit : Z) :
  stream_node n -> connections n !! a = Some st -> cw_ok healthy (writer st) ->
  output sent (bw (writer st)) = [] -> messageNonce st = 0 -> 0 <= limit < 2 ^ 32 -> zlen ms < 2 ^ 63 ->
  Forall (sendable limit) (number_from 0 ms) ->
  exists n' st', Writes a ms n = (n', Ok ((fun _ => None) <$> ms)) /\ connections n' !! a = Some st' /\
    let '(b, err) := Flush conn_write (bw (writer st')) in
    err = None /\ sent (wr b) = mjoin ((fun m => frame (Message_encoding m)) <$> number_from 0 ms).
Proof.
  intros Hn Ha Hcw Ho Hz Hlim Hlen HF.
  destruct (Writes_ok sent healthy n a st ms Hn Ha Hcw) as (w & HW & Hcw' & Ho'); [lia|lia| |].
  { rewrite Hz. eapply Forall_impl; [exact HF|]. intros m [Hwf _ _ Hf]. split; [done|]. unfold small. lia. }
  eexists _, _. split; [exact HW|]. split; [apply lookup_insert_eq|]. cbn [writer].
  destruct (Flush_ok conn_write sent healthy _ (proj2 Hcw')) as (b & Hf & _ & Hbz & _ & Hob). rewrite Hf.
  split; [done|]. unfold output in Hob, Ho, Ho'. rewrite Hbz, app_nil_r in Hob. by rewrite Hob, Ho', Hz, Ho.
Qed.

(** ** Properties *)

End Incoming.

(** ** Witnesses *)

(** Two messages, the bytes they are sent as, and a node that accepts the connection. *)
Definition a_messages : list Message := number_from 0 [a_payload x07; a_payload x08].
Definition a_stream : input := [mjoin ((fun m => frame (Message_encoding m)) <$> a_messages)].
Definition a_idle : accept_run := mkRun (mkAccept None false a_window) a_stream true [] false.
(** Both are read, the second is pushed between the push and the pop of the first. *)
Definition a_schedule : list accept_ev :=
  [ARead false 0; AGo 1 true; AGo 0 true; AGo 0 true; AGo 1 true; AGo 0 true].


(** ** What the goroutines can do *)

(** Both messages are pushed and popped in their order, and the goroutine of the second submits
    first: the jobs are in the other order.  The client's queue keeps the order it is given. *)
Definition reordering : list accept_ev :=
  [ARead false 0; ARead false 0; AGo 0 true; AGo 0 true; AGo 0 true; AGo 1 true; AGo 1 true; AGo 1 true;
   AGo 1 true; AGo 0 true; ARead false 0].
Theorem interleaved_submits_reorder :
  scheduled (allowed (recvWindowSize (opts a_receiver)) false) a_incoming a_idle reordering a_receiver = true /\
  exists (r2 : a_Network) s, Accept a_incoming a_stream reordering a_receiver = (r2, Ok s) /\ finished s /\
    jobs_of 0 (jobs r2) = [a_received 2 x08; a_received 1 x07].
Proof.
  split; [vm_compute; reflexivity|].
  exists (fst (Accept a_incoming a_stream reordering a_receiver)). eexists. split; [apply run_eq; vm_compute; reflexivity|].
  split; [split; [reflexivity|repeat constructor]|vm_compute; reflexivity].
Qed.

(** The second message is pushed first: its nonce becomes the next one, and the first message,
    which the goroutine of the second has overtaken, is pushed and never popped. *)
Definition overtaking : list accept_ev :=
  [ARead false 0; ARead false 0; AGo 1 true; AGo 1 true; AGo 1 true; AGo 1 true; AGo 0 true; AGo 0 true; AGo 0 true;
   ARead false 0].
Theorem overtaken_first_is_lost :
  exists (r2 : a_Network) s, Accept a_incoming a_stream overtaking a_receiver = (r2, Ok s) /\ finished s /\
    jobs_of 0 (jobs r2) = [a_received 2 x08].
Proof.
  exists (fst (Accept a_incoming a_stream overtaking a_receiver)). eexists. split; [apply run_eq; vm_compute; reflexivity|].
  split; [split; [reflexivity|repeat constructor]|vm_compute; reflexivity].
Qed.
