(* ===== verification/Handlers.v ===== *)
(** * Components at work: [network/message.go] and the handlers run on a node

    A component is called with a [ComponentContext]: the client a message came from, the message
    and the nonce of its request.  Here are the methods of the context on the node, and what the
    handlers of [Discovery] and [Keepalive] do when they run there: their replies are written to
    the client's connection, a disconnection closes the client.  With it the callbacks of a
    component that defines none, and what a component can ask the node.  The theorems: what a
    reply is on the wire, and that the addresses of a client the node hands out parse. *)

From S2P Require Import Prelude Messages Peer Dht Lru Protobuf Opcode Address Component Stream Crypto Package.
From S2P Require Import Discovery Keepalive Client Network Inbound.
#[local] Open Scope Z_scope.

Section Handlers.
Context {UM UT C T W L : Type} `{!UserMessages UM UT} `{Countable T} `{!Environment W L}.
#[local] Abbreviation node := (Network (UM:=UM) (UT:=UT) (C:=C) (T:=T) (W:=W) (L:=L)).
#[local] Abbreviation M := (ST node).

(** ** [message.go] *)

Record ComponentContext := mkComponentContext {
  ctx_client : nat;
  ctx_message : proto_Message UM;
  ctx_nonce : Z;
}.

Definition ctx_Reply (pctx : ComponentContext) (ctx : Context_) (message : proto_Message UM) : M () :=
  Network.Reply (ctx_client pctx) (Some ctx) (ctx_nonce pctx) (Some message).
Definition ctx_Message (pctx : ComponentContext) : proto_Message UM := ctx_message pctx.
Definition ctx_Client (pctx : ComponentContext) : nat := ctx_client pctx.
(** The node is the state. *)
Definition ctx_Self (pctx : ComponentContext) : M ID := get n_ID.
(** [*pctx.client.ID] of a client without an identity panics. *)
Definition ctx_Sender (pctx : ComponentContext) : M ID :=
  c ← load (ctx_client pctx);
  match ID_ c with
  | Some id => mret id
  | None => crash PNilDeref
  end.
(** The error of [Close] is dropped. *)
Definition ctx_Disconnect (pctx : ComponentContext) : M () :=
  _ ← attempt (PeerClient_Close (ctx_client pctx)); mret ().

(** ** [component.go]: the callbacks of a component that defines none *)

Definition Component_Startup : M () := mret ().
Definition Component_Receive (pctx : ComponentContext) : M (option string) := mret None.
Definition Component_Cleanup : M () := mret ().
Definition Component_PeerConnect (client : nat) : M () := mret ().
Definition Component_PeerDisconnect (client : nat) : M () := mret ().

(** ** What a component asks the node and its clients *)

Definition n_Component (key : T) : M (option C) := get (fun n => Get (Components n) key).
(** It returns when the node listens. *)
Definition BlockUntilListening : M () :=
  l ← get listening;
  if (l : bool) then mret () else crash PBlocked.

(** The addresses of a client as a [net.Conn]; the panic is marked "should never happen". *)
Definition client_LocalAddr (i : nat) : M AddressInfo :=
  _ ← load i;
  own ← get n_Address;
  match ParseAddress own with
  | Err e => crash (PExplicit e)
  | r => lift r
  end.
Definition client_RemoteAddr (i : nat) : M AddressInfo :=
  c ← load i;
  match ParseAddress (Address c) with
  | Err e => crash (PExplicit e)
  | r => lift r
  end.

(** ** The handlers on the node *)

(** What [Discovery.Receive] does to the network: the error of a reply is that of the handler. *)
Fixpoint perform (pctx : ComponentContext) (actions : list action) : M (option string) :=
  match actions with
  | [] => mret None
  | Discovery.Reply signed msg :: actions =>
      r ← attempt (ctx_Reply pctx (WithSignMessage Background signed) msg);
      match r with
      | inr e => mret (Some e)
      | inl _ => perform pctx actions
      end
  | CloseClient :: actions => _ ← ctx_Disconnect pctx; perform pctx actions
  end.
Definition discovery_Receive (state : Discovery.Component) (pctx : ComponentContext) :
    M (Discovery.Component * option string) :=
  c ← load (ctx_client pctx);
  '(state, actions, _) ← lift (Discovery.Receive state (ID_ c) (ctx_message pctx) None);
  err ← perform pctx actions;
  mret (state, err).

(** The messages [Keepalive.Receive] tells apart. *)
Definition keepalive_message (m : proto_Message UM) : Keepalive.message :=
  match m with
  | PKeepalive _ => MKeepalive
  | PKeepaliveResponse _ => MKeepaliveResponse
  | _ => MOther
  end.
Definition keepalive_Receive (pctx : ComponentContext) : M (option string) :=
  if fst (Keepalive.Receive (keepalive_message (ctx_message pctx)) None) then
    r ← attempt (ctx_Reply pctx Background (PKeepaliveResponse (mkKeepaliveResponse None)));
    mret (match r with inl _ => None | inr e => Some e end)
  else mret None.

(** ** Lemmas *)

Lemma ctx_Reply_evolves pctx ctx m : frames evolves (ctx_Reply pctx ctx m).
Proof. unfold ctx_Reply. frame. Qed.
Lemma ctx_Disconnect_evolves pctx : frames evolves (ctx_Disconnect pctx).
Proof. unfold ctx_Disconnect. frame. Qed.
Hint Resolve ctx_Reply_evolves ctx_Disconnect_evolves : frames.
Lemma perform_evolves pctx actions : frames evolves (perform pctx actions).
Proof. induction actions as [|[signed m|] actions IH]; cbn [perform]; frame. Qed.
Hint Resolve perform_evolves : frames.

(** The handlers keep the node well formed, and its identity and configuration. *)
Lemma handlers_evolve state pctx :
  frames evolves (discovery_Receive state pctx) /\ frames evolves (keepalive_Receive pctx).
Proof. split; [unfold discovery_Receive|unfold keepalive_Receive]; frame. Qed.

(** The panics do not happen: a client the node hands out was stored under an address that
    parses, and so has it on any node that parses its own. *)
Theorem client_addresses (n n1 : node) (a : bytes) (inc : option (Conn W)) (now : Z) (i : nat) :
  node_wf n -> is_ok (ParseAddress (n_Address n)) = true ->
  getOrSetPeerClient a inc false now n = (n1, Ok i) ->
  exists c remote own, clients n1 !! i = Some c /\ ParseAddress (Address c) = Ok remote /\
    client_RemoteAddr i n1 = (n1, Ok remote) /\
    ParseAddress (n_Address n) = Ok own /\ client_LocalAddr i n1 = (n1, Ok own).
Proof.
  intros Hwf Hown Hg. destruct (getOrSetPeerClient_got _ _ _ _ _ _ Hwf Hg) as (c & _ & _ & Hc & _ & _ & _ & HP & _).
  assert (Ha : n_Address n1 = n_Address n).
  { pose proof (getOrSetPeerClient_evolves a inc false now n) as [Hev _]. rewrite Hg in Hev. exact (le_address _ _ Hev). }
  destruct (ParseAddress (Address c)) as [remote|e|p] eqn:Er; [|done..].
  destruct (ParseAddress (n_Address n)) as [own|e|p] eqn:Eo; [|done..].
  exists c, remote, own. split; [done|]. split; [done|].
  unfold client_RemoteAddr, client_LocalAddr. rewrite !(bind_Ok _ _ _ _ _ (load_ok _ _ _ Hc)), bind_get, Ha, Er, Eo.
  done.
Qed.

Section Writing.
Context (sent : W -> bytes) (healthy : W -> Prop) `{!Working conn_write sent healthy}.

(** The message of a reply, as it is written after [nonce] others. *)
Definition reply_of (msg : Message) (request nonce : Z) : Message :=
  set_MessageNonce (set_RequestNonce msg request true) (u64 (nonce + 1)).

(** A reply to a client of a working connection is one frame on it, and nothing else. *)
Lemma ctx_Reply_written (n : node) (pctx : ComponentContext) c st ctx m msg :
  stream_node n -> clients n !! ctx_client pctx = Some c -> connections n !! Address c = Some st ->
  cw_ok healthy (writer st) -> PrepareMessage n (Some ctx) (Some m) = Ok msg ->
  let r := reply_of msg (ctx_nonce pctx) (messageNonce st) in
  Message_wf r -> small (Message_encoding r) ->
  exists st', ctx_Reply pctx ctx m n = (set_connections (<[Address c := st']> (connections n)) n, Ok ()) /\
    cw_ok healthy (writer st') /\ output sent (bw (writer st')) = output sent (bw (writer st)) ++ frame (Message_encoding r) /\
    messageNonce st' = u64 (messageNonce st + 1) /\ conn st' = conn st.
Proof.
  intros Hn Hc Hst Hw Hp r Hwf Hsm. unfold ctx_Reply, Network.Reply. rewrite bind_get, Hp, bind_lift.
  unfold client_Address. rewrite (bind_Ok _ _ n n (Address c)).
  2: { by rewrite (bind_Ok _ _ _ _ _ (load_ok _ _ _ Hc)). }
  destruct (Network_Write_stream sent healthy n (Address c) st (set_RequestNonce msg (ctx_nonce pctx) true) Hn Hst Hw Hwf Hsm)
    as (w & HW & Hcw & Ho).
  rewrite (bind_Ok _ _ _ _ _ HW). eexists. split; [reflexivity|]. cbn [writer messageNonce conn]. done.
Qed.

(** A handler that replies once. *)
Lemma discovery_Receive_replies (n : node) (state state' : Discovery.Component) (pctx : ComponentContext) c st signed m msg :
  stream_node n -> clients n !! ctx_client pctx = Some c -> connections n !! Address c = Some st ->
  cw_ok healthy (writer st) ->
  Discovery.Receive state (ID_ c) (ctx_message pctx) None = Ok (state', [Discovery.Reply signed m], None) ->
  PrepareMessage n (Some (WithSignMessage Background signed)) (Some m) = Ok msg ->
  let r := reply_of msg (ctx_nonce pctx) (messageNonce st) in
  Message_wf r -> small (Message_encoding r) ->
  exists st', discovery_Receive state pctx n
      = (set_connections (<[Address c := st']> (connections n)) n, Ok (state', None)) /\
    cw_ok healthy (writer st') /\
    output sent (bw (writer st')) = output sent (bw (writer st)) ++ frame (Message_encoding r).
Proof.
  intros Hn Hc Hst Hw Hr Hp r Hwf Hsm.
  destruct (ctx_Reply_written n pctx c st _ m msg Hn Hc Hst Hw Hp Hwf Hsm) as (st' & HR & Hcw & Ho & _).
  exists st'. split; [|by split]. unfold discovery_Receive.
  rewrite (bind_Ok _ _ _ _ _ (load_ok _ _ _ Hc)), bind_lift, Hr. cbv beta iota. cbn [perform].
  rewrite (bind_Ok _ _ n (set_connections (<[Address c := st']> (connections n)) n) None); [done|].
  rewrite (bind_Ok _ _ n (set_connections (<[Address c := st']> (connections n)) n) (inl ())); [done|].
  by rewrite attempt_eq, HR.
Qed.
End Writing.
End Handlers.

(** ** Witnesses *)

Lemma client_addresses_witness :
  client_RemoteAddr 0 a_dialled = (a_dialled, Ok (mkAddressInfo (str "tcp") (str "127.0.0.1") 81)).
Proof.
  destruct (client_addresses a_tcp_node a_dialled a_address None 0 0 (a_node_wf _ _) ltac:(vm_compute; reflexivity)
              a_dial_runs) as (c & remote & own & Hc & Hr & HR & _).
  rewrite a_dialled_client in Hc. injection Hc as <-. vm_compute in Hr. injection Hr as <-. exact HR.
Defined.
