(* ===== verification/Udp.v ===== *)
(** * Receiving datagrams: [AcceptUdp] of [network/network.go]

    The loop of [AcceptUdp] with the goroutines it starts: one per datagram, which run at any
    time, in any order, and share the variable [client] of the loop.  [Inbound] has the goroutine
    ([AcceptUdp_job]) and [Package] the datagram ([receiveUDPMessage]).  The theorems: a datagram
    sent by another node becomes a job of its client, and a datagram that is not a message ends
    the loop, so that the node receives nothing any more. *)

From S2P Require Import Prelude Messages Peer Lru Protobuf Opcode Address Component Stream Crypto Package.
From S2P Require Import Client Network Inbound.
#[local] Open Scope Z_scope.

Section Udp.
Context {UM UT C T W L : Type} `{!UserMessages UM UT} `{Countable T} `{!Environment W L}.
#[local] Abbreviation node := (Network (UM:=UM) (UT:=UT) (C:=C) (T:=T) (W:=W) (L:=L)).
#[local] Abbreviation M := (ST node).

(** What happens while [AcceptUdp] runs: the loop is given a datagram (or [ReadFromUDP] fails),
    or the [k]-th goroutine that has not run yet runs. *)
Inductive udp_step :=
| Read (read : option bytes)
| Run (k : nat) (soon take : bool) (now : Z).

(** The loop and its goroutines: [reading] until the [break], [pending] the messages of the
    goroutines that have not run. *)
Record udp_state := mkUdp {
  reading : bool;
  pending : list Message;
  client : option nat;
}.
Definition AcceptUdp_step (incoming : Conn W) (s : udp_state) (x : udp_step) : M udp_state :=
  match x with
  | Read read =>
      if reading s then
        match receiveUDPMessage read with
        | Panic p => crash p
        | Err _ => mret (mkUdp false (pending s) (client s))
        | Ok msg => mret (mkUdp true (pending s ++ [msg]) (client s))
        end
      else mret s
  | Run k soon take now =>
      match pending s !! k with
      | None => mret s
      | Some msg =>
          client ← AcceptUdp_job incoming (client s) msg soon take now;
          mret (mkUdp (reading s) (delete k (pending s)) client)
      end
  end.
Fixpoint AcceptUdp_steps (incoming : Conn W) (s : udp_state) (xs : list udp_step) : M udp_state :=
  match xs with
  | [] => mret s
  | x :: xs => s ← AcceptUdp_step incoming s x; AcceptUdp_steps incoming s xs
  end.
(** The deferred function, after the break and a second more of steps; a connection that is not
    a UDP socket is a nil pointer, whose [Close] is an error. *)
Definition AcceptUdp_cleanup (incoming : Conn W) (client : option nat) : M () :=
  _ ← match client with Some i => _ ← attempt (PeerClient_Close i); mret () | None => mret () end;
  if isUDPConn incoming then emit (EConnClose incoming) else mret ().
(** [true] when it returned; otherwise it waits for a datagram. *)
Definition AcceptUdp (incoming : Conn W) (xs : list udp_step) : M bool :=
  s ← AcceptUdp_steps incoming (mkUdp true [] None) xs;
  if reading s then mret false
  else _ ← AcceptUdp_cleanup incoming (client s); mret true.

(** ** Lemmas *)

#[local] Hint Resolve AcceptUdp_job_evolves : frames.
Lemma AcceptUdp_steps_evolves incoming s xs : frames evolves (AcceptUdp_steps incoming s xs).
Proof.
  revert s. induction xs as [|x xs IH]; intros s; cbn [AcceptUdp_steps]; [frame|].
  apply frames_bind; [exact _| |intros; apply IH]. destruct x; cbn [AcceptUdp_step]; frame.
Qed.
#[local] Hint Resolve AcceptUdp_steps_evolves : frames.
Lemma AcceptUdp_evolves incoming xs : frames evolves (AcceptUdp incoming xs).
Proof. unfold AcceptUdp, AcceptUdp_cleanup. frame. Qed.

Lemma AcceptUdp_steps_app incoming s xs ys (n n1 : node) s1 :
  AcceptUdp_steps incoming s xs n = (n1, Ok s1) ->
  AcceptUdp_steps incoming s (xs ++ ys) n = AcceptUdp_steps incoming s1 ys n1.
Proof.
  revert s n. induction xs as [|x xs IH]; intros s n; cbn [AcceptUdp_steps app]; [by intros [= -> ->]|].
  intros (m & a & Hx & Hxs)%bind_inv. rewrite (bind_Ok _ _ _ _ _ Hx). by apply IH.
Qed.

(** After the break only the goroutines run, those of the datagrams read before it. *)
Definition is_run (x : udp_step) : bool := match x with Run _ _ _ _ => true | Read _ => false end.
Lemma AcceptUdp_ended incoming s xs (n : node) :
  reading s = false ->
  AcceptUdp_steps incoming s xs n = AcceptUdp_steps incoming s (filter (fun x => is_run x) xs) n.
Proof.
  revert s n. induction xs as [|x xs IH]; intros s n Hs; [done|].
  destruct x as [r|k soon take now]; cbn [AcceptUdp_steps].
  - rewrite filter_cons_False by (by intros []). cbn [AcceptUdp_step]. rewrite Hs, bind_ret. by apply IH.
  - rewrite filter_cons_True by done. cbn [AcceptUdp_steps]. unfold mbind, ST_bind.
    destruct (AcceptUdp_step incoming s (Run k soon take now) n) as [n1 [s1|e|q]] eqn:E; [|done..]. apply IH.
    revert E. cbn [AcceptUdp_step]. destruct (pending s !! k); [|by intros [= _ <-]].
    intros (m' & c & _ & [= _ <-])%bind_inv. done.
Qed.
Lemma AcceptUdp_drained incoming s s' xs (n n' : node) :
  reading s = false -> AcceptUdp_steps incoming s xs n = (n', Ok s') ->
  reading s' = false /\ pending s' ⊆+ pending s.
Proof.
  revert s n. induction xs as [|x xs IH]; intros s n Hs; cbn [AcceptUdp_steps]; [by intros [= _ <-]|].
  intros (m & s1 & Hx & Hxs)%bind_inv.
  assert (H1 : reading s1 = false /\ pending s1 ⊆+ pending s).
  { revert Hx. destruct x as [r|k soon take now]; cbn [AcceptUdp_step]; [rewrite Hs; by intros [= _ <-]|].
    destruct (pending s !! k); [|by intros [= _ <-]]. intros (m' & c & _ & [= _ <-])%bind_inv. simpl.
    split; [done|]. apply sublist_submseteq, sublist_delete. }
  destruct H1 as [H1 H2]. destruct (IH _ _ H1 Hxs) as [H3 H4]. split; [done|]. by etransitivity.
Qed.

Definition same_clients (n n' : node) : Prop := clients n' = clients n.
#[local] Instance same_clients_pre : PreOrder same_clients.
Proof. split; unfold same_clients; [by intros n|]. intros ????->. done. Qed.
Lemma Close_closes (n n' : node) i r :
  node_wf n -> PeerClient_Close i n = (n', r) -> is_panic r = false ->
  exists c, clients n' !! i = Some c /\ closed c = true.
Proof.
  intros Hwf Hcl Hp. destruct (clients n !! i) as [c|] eqn:Hc.
  2: { exfalso. revert Hcl Hp. unfold PeerClient_Close, mbind, ST_bind, load. rewrite Hc. by intros [= _ <-]. }
  destruct (closed c) eqn:Ec.
  { revert Hcl. unfold PeerClient_Close. rewrite (bind_Ok _ _ _ _ _ (load_ok _ _ _ Hc)), bind_lift.
    unfold close_once. rewrite Ec. intros [= <- _]. by exists c. }
  rewrite (Close_state n i c Hc (nw_closed _ Hwf _ _ Hc) Ec) in Hcl. cbv zeta in Hcl.
  match type of Hcl with ?m _ = _ => assert (Hf : frames same_clients m) end.
  { assert (He : forall e, frames same_clients (emit e)) by (intros ev m; done).
    assert (Hm : forall a, frames same_clients (modify (fun n => set_maps (delete a (udpDialAddrs n))
      (delete a (peers n)) (delete a (connections n)) n))) by (intros a m; done).
    frame. }
  match type of Hcl with _ ?m = _ => specialize (Hf m) end. rewrite Hcl in Hf. exists (set_closed c).
  unfold same_clients in Hf. cbn [fst] in Hf. rewrite Hf. simpl. split; [|done].
  apply list_lookup_insert_eq. by eapply lookup_lt_Some.
Qed.

(** ** Theorems *)

(** C29. A datagram that [receiveUDPMessage] refuses ends the service of the socket, whatever the loop
    has received before: the loop breaks, no later datagram is read and no goroutine started any
    more; the goroutines of the earlier datagrams run on; then the client of the last one is
    closed, and last the socket.  The empty datagram is one, and so is any that does not decode:
    anybody can send it. *)
Theorem malformed_datagram_ends_service (n n1 n2 : node) (incoming : Conn W) (before later : list udp_step)
    (read : option bytes) (e : string) (s s2 : udp_state) :
  node_wf n ->
  AcceptUdp_steps incoming (mkUdp true [] None) before n = (n1, Ok s) -> reading s = true ->
  receiveUDPMessage read = Err e -> isUDPConn incoming = true ->
  AcceptUdp_steps incoming (mkUdp false (pending s) (client s)) (filter (fun x => is_run x) later) n1 = (n2, Ok s2) ->
  (forall i, client s2 = Some i -> is_panic (snd (PeerClient_Close i n2)) = false) ->
  AcceptUdp_steps incoming (mkUdp true [] None) (before ++ Read read :: later) n = (n2, Ok s2) /\
  reading s2 = false /\ pending s2 ⊆+ pending s /\
  (exists n3, AcceptUdp incoming (before ++ Read read :: later) n = (add_trace [EConnClose incoming] n3, Ok true) /\
     match client s2 with
     | None => n3 = n2
     | Some i => n3 = fst (PeerClient_Close i n2) /\ exists c, clients n3 !! i = Some c /\ closed c = true
     end) /\
  receiveUDPMessage (Some []) = Err errInvalidHeaders.
Proof.
  intros Hwf Hb Hs Hr Hu Hl Hp.
  assert (Hsteps : AcceptUdp_steps incoming (mkUdp true [] None) (before ++ Read read :: later) n = (n2, Ok s2)).
  { rewrite (AcceptUdp_steps_app _ _ _ _ _ _ _ Hb). cbn [AcceptUdp_steps AcceptUdp_step].
    rewrite Hs, Hr, bind_ret. by rewrite AcceptUdp_ended. }
  destruct (AcceptUdp_drained _ _ _ _ _ _ (eq_refl : reading (mkUdp false _ _) = false) Hl) as [Hs2 Hp2].
  do 3 (split; [done|]). split; [|vm_compute; reflexivity].
  assert (Hwf2 : node_wf n2).
  { pose proof (AcceptUdp_steps_evolves incoming (mkUdp true [] None) (before ++ Read read :: later) n) as [_ Hev].
    rewrite Hsteps in Hev. by apply Hev. }
  unfold AcceptUdp. rewrite (bind_Ok _ _ _ _ _ Hsteps), Hs2. unfold AcceptUdp_cleanup. rewrite Hu.
  destruct (client s2) as [i|]; [|by exists n2]. specialize (Hp i eq_refl).
  destruct (PeerClient_Close i n2) as [n3 r] eqn:Ec. exists n3. split.
  - unfold mbind, ST_bind. rewrite attempt_eq, Ec. by destruct r.
  - split; [done|]. by eapply Close_closes.
Qed.

(** A message sent in a datagram to a node that knows its dial address becomes a job of the
    client of that address, and the loop waits for the next datagram. *)
Theorem datagram_delivery (n n0 : node) (incoming : Conn W) (resolve : bytes -> res bytes) (own : bytes)
    (dials : gmap bytes bytes) (IsDial : bool) (m m' : Message) (address : bytes) (dg : datagram) (l : bool)
    (sender : ID) (i : nat) (c : PeerClient (proto_Message UM)) (info : AddressInfo) (soon take : bool) (now : Z) :
  sendUDPMessage resolve own dials IsDial false m address = Ok (m', Some dg, l, Done) -> sendable 65533 m' ->
  let got := Message_norm m' in
  let d := Message_DialAddress got in
  check_signature (opts n) got = Ok true -> Message_Sender got = Some sender ->
  unify d n = (n0, Ok d) -> d <> n_Address n -> ParseAddress d = Ok info -> is_udp (Protocol info) = true ->
  peers n !! d = Some i -> clients n !! i = Some c -> outgoingReady c = true -> closeSignal c = false ->
  is_Some (connections n !! d) -> (length (jobs_of i (jobs n)) < job_capacity)%nat ->
  exists n', AcceptUdp incoming [Read (Some (payload dg)); Run 0 soon take now] n = (n', Ok false) /\
    clients n' !! i = Some (set_ID c (Some sender)) /\ jobs n' = jobs n ++ [(i, got)].
Proof.
  intros Hsend Hm got d Hsig Hs Hu Hne HP Hudp Hp Hc Ho Hcl Hconn Hroom.
  destruct (package_received resolve own dials IsDial m m' address dg l Hsend Hm) as (_ & _ & Hrecv).
  destruct (udp_job_submits n n0 incoming None got sender i c info soon take now Hsig Hs Hu Hne HP Hudp Hp Hc Ho
              Hcl Hconn Hroom) as (n' & Hj & Hc' & Hj').
  exists n'. split; [|by split]. unfold AcceptUdp.
  rewrite (bind_Ok _ _ n n' (mkUdp true [] (Some i))); [done|].
  cbn [AcceptUdp_steps AcceptUdp_step reading pending client]. rewrite Hrecv.
  rewrite (bind_Ok _ _ n n (mkUdp true [got] None)) by done.
  rewrite (bind_Ok _ _ n n' (mkUdp true [] (Some i))); [done|].
  cbn [AcceptUdp_step reading pending client lookup list_lookup delete list_delete].
  by rewrite (bind_Ok _ _ n n' (Some i) Hj).
Qed.
End Udp.

(** ** Witnesses *)

Definition a_udp_socket : Conn bytes := mkConn true (str "127.0.0.1:80") [] [] [].

(** The datagram of a known peer is read and handled, a second one is read, then comes an empty
    one; the last goroutine runs after the break. *)
Definition a_packet : bytes :=
  match sendUDPMessage (fun a => Ok a) a_udp_address ∅ false false a_datagram (str "udp://127.0.0.1:80") with
  | Ok (_, Some d, _, _) => payload d
  | _ => []
  end.
Definition a_udp_before : list udp_step := [Read (Some a_packet); Run 0 false true 0; Read (Some a_packet)].
Definition a_udp_later : list udp_step := [Read (Some a_packet); Run 0 false true 0; Read None].
Definition a_udp_served : Network :=
  fst (AcceptUdp_steps a_udp_socket (mkUdp true [] None) a_udp_before a_udp_dialled).

Lemma malformed_datagram_ends_service_witness :
  exists (n3 : a_Network) c,
    AcceptUdp a_udp_socket (a_udp_before ++ Read (Some []) :: a_udp_later) a_udp_dialled
    = (add_trace [EConnClose a_udp_socket] n3, Ok true) /\
    clients n3 !! 0%nat = Some c /\ closed c = true.
Proof.
  destruct (malformed_datagram_ends_service a_udp_dialled
    a_udp_served (fst (AcceptUdp_steps a_udp_socket (mkUdp false [Message_norm a_datagram] (Some 0%nat))
                         (filter (fun x => is_run x) a_udp_later) a_udp_served))
    a_udp_socket a_udp_before a_udp_later (Some []) errInvalidHeaders
    (mkUdp true [Message_norm a_datagram] (Some 0%nat)) (mkUdp false [] (Some 0%nat)))
    as (_ & _ & _ & (n3 & Ha & _ & c & Hc & Hcl) & _).
  - apply (getOrSetPeerClient_evolves a_udp_address None false 0 a_udp_node), a_node_wf.
  - unfold a_udp_served. apply run_eq. vm_compute. reflexivity.
  - reflexivity.
  - vm_compute. reflexivity.
  - reflexivity.
  - apply run_eq. vm_compute. reflexivity.
  - intros i [= <-]. vm_compute. reflexivity.
  - exists n3, c. split; [exact Ha|]. split; [exact Hc|exact Hcl].
Defined.

Lemma datagram_delivery_witness :
  exists n' : a_Network, clients n' !! 0%nat = Some (set_ID a_udp_client (Some a_local_sender)) /\
    length (jobs n') = 1%nat.
Proof.
  destruct (datagram_delivery a_udp_dialled (fst (unify a_udp_address a_udp_dialled)) a_udp_socket (fun a => Ok a)
    a_udp_address ∅ false a_datagram a_datagram (str "udp://127.0.0.1:80")
    (mkDatagram (Some (str "127.0.0.1:80"))
       (match sendUDPMessage (fun a => Ok a) a_udp_address ∅ false false a_datagram (str "udp://127.0.0.1:80") with
        | Ok (_, Some d, _, _) => payload d
        | _ => []
        end)) false
    a_local_sender 0 a_udp_client (mkAddressInfo (str "udp") (str "127.0.0.1") 81) false false 0)
    as (n' & _ & Hc & Hj).
  - vm_compute. reflexivity.
  - split; vm_compute; intuition congruence.
  - reflexivity.
  - reflexivity.
  - apply run_eq. vm_compute. reflexivity.
  - vm_compute. discriminate.
  - vm_compute. reflexivity.
  - reflexivity.
  - vm_compute. reflexivity.
  - vm_compute. reflexivity.
  - reflexivity.
  - reflexivity.
  - eexists. vm_compute. reflexivity.
  - vm_compute. lia.
  - exists n'. split; [exact Hc|]. rewrite Hj. vm_compute. reflexivity.
Defined.
