(* ===== verification/Query.v ===== *)
(** * Asking a peer: [queryPeerByID] of [network/discovery/rpc.go]

    A lookup asks a peer for the peers closest to the target and gets, on the channel of
    responses, what the peer answers, or no peers when anything fails.  [Discovery] takes that
    as the function [query]; here it is the code that computes it, a request of the node with a
    timeout, and the whole exchange: the request through the codec to the other node, that
    node's discovery component over its routing table, and the reply back to the query. *)

From S2P Require Import Prelude Messages Peer Dht Lru Protobuf Opcode Address Component Stream Crypto Discovery.
From S2P Require Import Client Network Inbound Handlers.
#[local] Open Scope Z_scope.

Section Query.
Context {UM UT C T W L : Type} `{!UserMessages UM UT} `{Countable T} `{!Environment W L}.
#[local] Abbreviation node := (Network (UM:=UM) (UT:=UT) (C:=C) (T:=T) (W:=W) (L:=L)).
#[local] Abbreviation M := (ST node).

(** [queryPeerByID] up to the wait for the reply: the client asked and the nonce of the request,
    or [None] when it has already given up.  The context is new: its three seconds are not
    over. *)
Definition query_send (peerID targetID : ID) (soon : bool) (now : Z) : M (option (nat * Z)) :=
  client ← attempt (Network_Client (ID_Address peerID) soon now);
  match client with
  | inr _ => mret None
  | inl client =>
      let msg := mkLookupNodeRequest (Some targetID) None in
      nonce ← attempt (Request_send client (Some Background) (Some (PLookupNodeRequest msg)));
      match nonce with
      | inr _ => mret None
      | inl nonce => mret (Some (client, nonce))
      end
  end.
(** The end of it: the response sent on the channel, or [None] while it waits. *)
Definition query_finish (client : nat) (nonce : Z) (done : option string) (prefer_done : bool) :
    M (option (list ID)) :=
  response ← attempt (Request_finish client nonce done prefer_done);
  match response with
  | inr _ => mret (Some [])
  | inl None => mret None
  | inl (Some (PLookupNodeResponse response)) => mret (Some (LookupNodeResponse_Peers response))
  | inl (Some _) => mret (Some [])
  end.
(** The whole, with what the other goroutines of the node do between the sending of the request
    and its registration ([early]) and while it waits ([meanwhile]). *)
Definition queryPeerByID (peerID targetID : ID) (soon : bool) (now : Z) (early meanwhile : M ())
    (done : option string) (prefer_done : bool) : M (option (list ID)) :=
  sent ← query_send peerID targetID soon now;
  match sent with
  | None => mret (Some [])
  | Some (client, nonce) =>
      _ ← early;
      _ ← Request_track client nonce;
      _ ← meanwhile;
      query_finish client nonce done prefer_done
  end.

(** ** Specification *)

(** The codes of the two messages of a lookup, which nothing registers over. *)
Record lookup_codes (t : tables (UM:=UM)) : Prop := {
  lc_wf : tables_wf t;
  lc_request : msgTbl t !! TLookupNodeRequest = Some LookupNodeRequestCode;
  lc_response : msgTbl t !! TLookupNodeResponse = Some LookupNodeResponseCode;
}.

(** What of a message that was sent arrives: payload and opcode, with a nonce and the reply
    flag.  (An empty payload arrives as nil.) *)
Definition carries (got sent : Message) (nonce : Z) (reply : bool) : Prop :=
  Message_Opcode got = Message_Opcode sent /\
  sbytes (Message_Message got) = sbytes (Message_Message sent) /\
  Message_RequestNonce got = nonce /\ Message_ReplyFlag got = reply.

(** ** Lemmas *)

(** A message of the protocol, prepared by one node, decoded by another. *)
Lemma carried_decodes (a : node) (t : tables) (ctx : Context_) (m e m' : proto_Message UM) (sent got : Message)
    (code : Z) (raw : bytes) (nonce : Z) (reply : bool) :
  PrepareMessage a (Some ctx) (Some m) = Ok sent -> carries got sent nonce reply ->
  GetOpcode (opcodes a) m = Ok code -> 0 < code < 1000 -> tables_wf t -> opcodeTbl init !! code = Some e ->
  proto_Marshal m = Ok raw -> proto_Unmarshal e [] = Ok e -> proto_Unmarshal e raw = Ok m' ->
  decodes t got m'.
Proof.
  intros Hp (Ho & Hm & _ & _) Hc Hr Hwf He Hraw Hne Hun.
  destruct (PrepareMessage_payload a ctx m sent code raw Hp Hc Hraw) as (Hco & Hpay & _).
  exists e. rewrite Ho, Hm, Hco, Hpay, u32_small by lia. split.
  - rewrite empty_message_table; [by rewrite (tw_reserved _ Hwf) by lia|done|lia].
  - change (sbytes (Some raw)) with raw. destruct raw as [|x raw]; [change (Ok e = Ok m'); by rewrite <-Hne, <-Hun|].
    rewrite zlen_cons. destruct (Z.ltb_spec 0 (1 + zlen raw)); [exact Hun|]. pose proof (zlen_nonneg raw). lia.
Qed.

(** A query always ends: once its context is done it sends a response, whatever the node has
    become meanwhile. *)
Lemma query_finish_done (n : node) (client : nat) (nonce : Z) (e : string) (prefer : bool) :
  (client < length (clients n))%nat ->
  exists n' peers, query_finish client nonce (Some e) prefer n = (n', Ok (Some peers)).
Proof.
  intros [c Hc]%lookup_lt_is_Some_2. unfold query_finish, mbind, ST_bind, attempt, Request_finish.
  rewrite (bind_Ok _ _ _ _ _ (load_ok _ _ _ Hc)).
  destruct (Requests c !! nonce ≫= data) as [res|]; unfold mbind, ST_bind, save, modify, mret, ST_ret, fail;
    [destruct prefer; [|destruct res]|]; eauto.
Qed.
Lemma request_decodes (a : node) (t : tables) (target : ID) (q got : Message) (nonce : Z) (reply : bool) :
  lookup_codes (opcodes a) -> lookup_codes t -> ID_plain target ->
  small (LookupNodeRequest_encoding (mkLookupNodeRequest (Some target) None)) ->
  PrepareMessage a (Some Background) (Some (PLookupNodeRequest (mkLookupNodeRequest (Some target) None))) = Ok q ->
  carries got q nonce reply ->
  decodes t got (PLookupNodeRequest (mkLookupNodeRequest (Some (ID_norm target)) None)).
Proof.
  intros Ha Ht Hpl Hs Hp Hg.
  eapply (carried_decodes a t Background _ (PLookupNodeRequest (mkLookupNodeRequest None None)) _ q got LookupNodeRequestCode);
    [exact Hp|exact Hg| |done|apply Ht|reflexivity|by apply LookupNodeRequest_Marshal_ok|reflexivity|].
  - unfold GetOpcode. cbn [TypeOf]. by rewrite (lc_request _ Ha).
  - cbn [proto_Unmarshal]. by rewrite LookupNodeRequest_Unmarshal_encoding.
Qed.
Lemma response_decodes (b : node) (t : tables) (ctx : Context_) (ps : list ID) (r got : Message) (nonce : Z) (reply : bool) :
  lookup_codes (opcodes b) -> lookup_codes t -> Forall ID_plain ps ->
  small (LookupNodeResponse_encoding (mkLookupNodeResponse ps None)) ->
  PrepareMessage b (Some ctx) (Some (PLookupNodeResponse (mkLookupNodeResponse ps None))) = Ok r ->
  carries got r nonce reply ->
  decodes t got (PLookupNodeResponse (mkLookupNodeResponse (ID_norm <$> ps) None)).
Proof.
  intros Hb Ht Hpl Hs Hp Hg.
  eapply (carried_decodes b t ctx _ (PLookupNodeResponse (mkLookupNodeResponse [] None)) _ r got LookupNodeResponseCode);
    [exact Hp|exact Hg| |done|apply Ht|reflexivity|by apply LookupNodeResponse_Marshal_ok|reflexivity|].
  - unfold GetOpcode. cbn [TypeOf]. by rewrite (lc_response _ Hb).
  - cbn [proto_Unmarshal]. by rewrite LookupNodeResponse_Unmarshal_encoding.
Qed.

(** The first message of a lookup at the node that is asked. *)
Lemma request_received (a b : node) (j : nat) (cb : PeerClient (proto_Message UM)) (target : ID) (q q' : Message)
    (nonce : Z) (soon : bool) (now : Z) :
  lookup_codes (opcodes a) -> lookup_codes (opcodes b) -> ID_plain target ->
  small (LookupNodeRequest_encoding (mkLookupNodeRequest (Some target) None)) ->
  clients b !! j = Some cb -> IsIncomingReady cb soon = true ->
  PrepareMessage a (Some Background) (Some (PLookupNodeRequest (mkLookupNodeRequest (Some target) None))) = Ok q ->
  carries q' q nonce false ->
  let request := PLookupNodeRequest (mkLookupNodeRequest (Some (ID_norm target)) None) in
  dispatchMessage j q' soon now b
  = (add_trace ((fun x => EReceive x j request nonce) <$> Each (Components b))
       (set_clients (<[j := set_time cb now]> (clients b)) (jobs b) b), Ok ()).
Proof.
  intros Ha Hb Hpl Hs Hcb Hrb Hq Hc request.
  pose proof (request_decodes a (opcodes b) target q q' nonce false Ha Hb Hpl Hs Hq Hc) as Hd.
  rewrite (dispatch_eq b j cb q' soon now _ Hcb Hrb Hd). destruct Hc as (_ & _ & -> & ->).
  cbv zeta. by rewrite andb_false_r.
Qed.

(** The answer of its discovery component. *)
Lemma peers_served (state : Discovery.Component) (t : RoutingTable) (sender target : ID) :
  Routes state = Some t -> table_wf t -> DisableLookup state = false ->
  exists t' peers, Update t sender = Ok t' /\ table_wf t' /\ peers ⊆+ entries t' /\ zlen peers <= BucketSize /\
    Discovery.Receive (UM:=UM) state (Some sender) (PLookupNodeRequest (mkLookupNodeRequest (Some target) None)) None
    = Ok (set_routes state t', [Discovery.Reply true (PLookupNodeResponse (mkLookupNodeResponse peers None))], None).
Proof.
  intros Hr Hwf Hd. destruct (Update_wf t sender Hwf) as (t' & Hu & Hwf' & _).
  destruct (FindClosestPeers_sub t' target BucketSize Hwf' ltac:(done)) as (ps & Hf & Hl & Hs).
  exists t', ps. do 4 (split; [done|]). unfold Receive, routes. rewrite Hr. cbn [mbind res_bind].
  rewrite Hu. cbn [mbind res_bind DisableLookup set_routes LookupNodeRequest_Target]. by rewrite Hd, Hf.
Qed.

(** The reply at the node that asked. *)
Lemma response_received (a a1 b : node) (i : nat) (ca : PeerClient (proto_Message UM)) (ctx : Context_)
    (peers : list ID) (r r' : Message) (nonce : Z) (soon : bool) (now : Z) :
  lookup_codes (opcodes a) -> lookup_codes (opcodes b) -> Forall ID_plain peers ->
  small (LookupNodeResponse_encoding (mkLookupNodeResponse peers None)) ->
  clients a !! i = Some ca -> IsIncomingReady ca soon = true -> Request_track i nonce a = (a1, Ok ()) -> 0 < nonce ->
  PrepareMessage b (Some ctx) (Some (PLookupNodeResponse (mkLookupNodeResponse peers None))) = Ok r ->
  carries r' r nonce true ->
  exists a2 a3, dispatchMessage i r' soon now a1 = (a2, Ok ()) /\
    query_finish i nonce None false a2 = (a3, Ok (Some (ID_norm <$> peers))).
Proof.
  intros Ha Hb Hpp Hsm Hca Hra Htr Hn Hr Hc'.
  pose proof (response_decodes b (opcodes a) ctx peers r r' nonce true Hb Ha Hpp Hsm Hr Hc') as Hd'.
  destruct Hc' as (_ & _ & Hrn & Hrf).
  destruct (request_gets_reply a a1 i nonce ca r' _ soon now Hca Hra Htr Hrn Hn Hrf Hd')
    as (a2 & a3 & c3 & Hdis & _ & Hfin & _).
  exists a2, a3. split; [exact Hdis|]. unfold query_finish, mbind at 1, ST_bind, attempt.
  by rewrite Hfin.
Qed.

Lemma carries_norm (r : Message) (nonce k : Z) :
  carries (Message_norm (reply_of r nonce k)) r nonce true.
Proof. split; [done|]. split; [|done]. apply sbytes_norm. Qed.

(** ** Theorems *)

Section Served.
Context (sent : W -> bytes) (healthy : W -> Prop) `{!Working conn_write sent healthy}.

(** C23. A lookup query from node [a] to node [b].  The request [a] prepares, however it arrives
    ([q']), is received by every component of [b] with its target and nonce.  The discovery
    component of [b], run on it, learns of the sender and writes one frame to the connection of
    its client and nothing else: a reply with at most sixteen peers of its table.  That frame,
    decoded and dispatched at [a], ends the query of [a], which sends exactly those peers, up to
    nil and empty slices, to its lookup. *)
Theorem lookup_query_answered (a a1 b : node) (i j : nat) (ca cb : PeerClient (proto_Message UM))
    (st : ConnState) (target sender : ID) (state : Discovery.Component) (t : RoutingTable) (q q' : Message)
    (nonce : Z) (soon : bool) (now : Z) :
  lookup_codes (opcodes a) -> lookup_codes (opcodes b) -> ID_plain target ->
  small (LookupNodeRequest_encoding (mkLookupNodeRequest (Some target) None)) ->
  clients a !! i = Some ca -> IsIncomingReady ca soon = true -> Request_track i nonce a = (a1, Ok ()) -> 0 < nonce ->
  stream_node b -> clients b !! j = Some cb -> IsIncomingReady cb soon = true -> ID_ cb = Some sender ->
  connections b !! Address cb = Some st -> cw_ok healthy (writer st) ->
  Routes state = Some t -> table_wf t -> DisableLookup state = false ->
  PrepareMessage a (Some Background) (Some (PLookupNodeRequest (mkLookupNodeRequest (Some target) None))) = Ok q ->
  carries q' q nonce false ->
  let request := PLookupNodeRequest (mkLookupNodeRequest (Some (ID_norm target)) None) in
  exists b1 t' peers,
    dispatchMessage j q' soon now b = (b1, Ok ()) /\
    trace b1 = trace b ++ ((fun x => EReceive x j request nonce) <$> Each (Components b)) /\
    Update t sender = Ok t' /\ peers ⊆+ entries t' /\ zlen peers <= BucketSize /\
    forall r, PrepareMessage b1 (Some (WithSignMessage Background true))
                (Some (PLookupNodeResponse (mkLookupNodeResponse peers None))) = Ok r ->
      let reply := reply_of r nonce (messageNonce st) in
      Forall ID_plain peers -> small (LookupNodeResponse_encoding (mkLookupNodeResponse peers None)) ->
      Message_wf reply -> small (Message_encoding reply) ->
      exists st' a2 a3,
        discovery_Receive state (mkComponentContext j request nonce) b1
        = (set_connections (<[Address cb := st']> (connections b1)) b1, Ok (set_routes state t', None)) /\
        output sent (bw (writer st')) = output sent (bw (writer st)) ++ frame (Message_encoding reply) /\
        dispatchMessage i (Message_norm reply) soon now a1 = (a2, Ok ()) /\
        query_finish i nonce None false a2 = (a3, Ok (Some (ID_norm <$> peers))).
Proof.
  intros Ha Hb Hpl Hs Hca Hra Htr Hn Hsb Hcb Hrb Hid Hst Hw Hro Hwf Hdl Hq Hc request.
  pose proof (request_received a b j cb target q q' nonce soon now Ha Hb Hpl Hs Hcb Hrb Hq Hc) as E1.
  destruct (peers_served state t sender (ID_norm target) Hro Hwf Hdl) as (t' & ps & Hu & _ & Hsub & Hl & Hr).
  cbv zeta in E1. fold request in E1, Hr. set (b1 := add_trace _ _) in E1.
  assert (Hcb1 : clients b1 !! j = Some (set_time cb now)).
  { apply list_lookup_insert_eq. by eapply lookup_lt_Some. }
  exists b1, t', ps. split; [exact E1|]. do 4 (split; [done|]).
  intros r Hp reply Hpp Hsm Hwm Hsr.
  destruct (discovery_Receive_replies sent healthy b1 state (set_routes state t') (mkComponentContext j request nonce)
    (set_time cb now) st true (PLookupNodeResponse (mkLookupNodeResponse ps None)) r Hsb Hcb1 Hst Hw) as (st' & HD & _ & Ho);
    [change (ID_ (set_time cb now)) with (ID_ cb); rewrite Hid; exact Hr|exact Hp|exact Hwm|exact Hsr|].
  destruct (response_received a a1 b1 i ca _ ps r (Message_norm reply) nonce soon now Ha Hb Hpp Hsm Hca Hra Htr Hn Hp)
    as (a2 & a3 & Hd2 & Hf); [apply carries_norm|].
  by exists st', a2, a3.
Qed.
End Served.
End Query.

(** ** Witness: a node asks the peer it has dialled *)

Definition a_lookup : proto_Message bytes := PLookupNodeRequest (mkLookupNodeRequest (Some (peer1 3)) None).
Definition a_request : Message :=
  match PrepareMessage a_dialled (Some Background) (Some a_lookup) with Ok q => set_RequestNonce q 1 false | _ => Message_zero end.
(** What the discovery component [started] answers. *)
Definition a_response : Message :=
  match Discovery.Receive (UM:=bytes) started (Some (peer1 5)) a_lookup None with
  | Ok (_, [Discovery.Reply sign m], _) =>
      match PrepareMessage a_dialled (Some (WithSignMessage Background sign)) (Some m) with
      | Ok r => set_RequestNonce r 1 true
      | _ => Message_zero
      end
  | _ => Message_zero
  end.

Lemma a_lookup_codes : lookup_codes (opcodes a_dialled).
Proof. split; [rewrite a_dialled_opcodes; apply init_wf|reflexivity|reflexivity]. Qed.

(** The whole query: the reply is dispatched while it waits. *)
Example query_example :
  snd (queryPeerByID (mkID None a_address None None) (peer1 3) false 0 (mret ())
         (dispatchMessage 0 a_response false 5) None false a_dialled)
  = Ok (Some (ID_norm <$> [peer1 0; peer1 5; peer1 8; peer1 16; peer1 64])).
Proof. vm_compute. reflexivity. Qed.

(** The node that is asked: it has dialled too, and knows who it talks to. *)
Definition a_server : a_Network :=
  set_clients [set_ID a_ready_client (Some (peer1 5))] [] a_dialled.

Lemma same_but_clients (n : a_Network) cs js a st :
  lookup_codes (opcodes n) -> stream_node n -> connections n !! a = Some st ->
  let n' := set_clients cs js n in
  lookup_codes (opcodes n') /\ stream_node n' /\ connections n' !! a = Some st.
Proof. done. Qed.
Lemma a_server_same :
  lookup_codes (opcodes a_server) /\ stream_node a_server /\ connections a_server !! a_address = Some a_state.
Proof.
  apply (same_but_clients a_dialled); [exact a_lookup_codes|exact a_stream_node|exact a_connection].
Qed.

Lemma lookup_query_answered_witness :
  exists b1 t', dispatchMessage 0 a_request false 5 a_server = (b1, Ok ()) /\
    Update (table_of (table1 [64; 16; 8])) (peer1 5) = Ok t'.
Proof.
  destruct (lookup_query_answered (fun w => w) (fun _ => True) a_dialled (fst (Request_track 0 1 a_dialled)) a_server 0 0
    a_ready_client (set_ID a_ready_client (Some (peer1 5))) a_state (peer1 3) (peer1 5) started
    (table_of (table1 [64; 16; 8])) (set_RequestNonce a_request 0 false) a_request 1 false 5)
    as (b1 & t' & ps & Hd & _ & Hu & _).
  - apply a_lookup_codes.
  - apply a_server_same.
  - reflexivity.
  - vm_compute. reflexivity.
  - apply a_dialled_client.
  - reflexivity.
  - apply run_eq. unfold Request_track. rewrite (bind_Ok _ _ _ _ _ (load_ok _ _ _ a_dialled_client)). reflexivity.
  - lia.
  - apply a_server_same.
  - reflexivity.
  - reflexivity.
  - reflexivity.
  - apply a_server_same.
  - split; [reflexivity|]. split; [reflexivity|reflexivity|vm_compute; discriminate|exact I].
  - reflexivity.
  - apply table1_wf.
  - reflexivity.
  - vm_compute. reflexivity.
  - vm_compute. repeat split.
  - exists b1, t'. split; [exact Hd|exact Hu].
Defined.
