(* ===== verification/Builder.v ===== *)
(** * Building a node: [network/builder.go]

    The options, the registration of components and transport layers, and [Build].  The default
    policies, the random key pair and the default transport layers come from elsewhere: they are
    parameters.  A builder and the node it builds share the component list and the transports;
    here each has its own value, so the model is that of a builder not used after [Build]. *)

From S2P Require Import Prelude Messages Peer Lru Opcode Address Component Crypto Client Network.
#[local] Open Scope Z_scope.

Definition defaultAddress : bytes := str "tcp://localhost:8588".
Definition ErrStrDuplicateComponent : string := "builder: Component is already registered".
Definition ErrStrNoAddress : string := "builder: network requires public server IP for peers to connect to".
Definition ErrStrNoKeyPair : string :=
  "builder: cryptography keys not provided to Network; cannot create node ID".

(** The constants of [network.go]; durations in nanoseconds. *)
Definition defaultConnectionTimeout : Z := 60 * 1000000000.
Definition defaultReceiveWindowSize : Z := 4096.
Definition defaultSendWindowSize : Z := 4096.
Definition defaultWriteBufferSize : Z := 4096.
Definition defaultRecvBufferSize : Z := 4 * 1024 * 1024.
Definition defaultWriteFlushLatency : Z := 50 * 1000000.
Definition defaultWriteTimeout : Z := 3 * 1000000000.

(** An option is a function on the options. *)
Definition BuilderOption : Type := options -> options.
Definition ConnectionTimeout (d : Z) : BuilderOption := fun o =>
  mkOptions d (signaturePolicy o) (hashPolicy o) (recvWindowSize o) (sendWindowSize o)
    (writeBufferSize o) (recvBufferSize o) (writeFlushLatency o) (writeTimeout o) (writeMode_ o).
Definition WithSignaturePolicy (policy : SignaturePolicy) : BuilderOption := fun o =>
  mkOptions (connectionTimeout o) policy (hashPolicy o) (recvWindowSize o) (sendWindowSize o)
    (writeBufferSize o) (recvBufferSize o) (writeFlushLatency o) (writeTimeout o) (writeMode_ o).
Definition WithHashPolicy (policy : HashPolicy) : BuilderOption := fun o =>
  mkOptions (connectionTimeout o) (signaturePolicy o) policy (recvWindowSize o) (sendWindowSize o)
    (writeBufferSize o) (recvBufferSize o) (writeFlushLatency o) (writeTimeout o) (writeMode_ o).
Definition RecvWindowSize (size : Z) : BuilderOption := fun o =>
  mkOptions (connectionTimeout o) (signaturePolicy o) (hashPolicy o) size (sendWindowSize o)
    (writeBufferSize o) (recvBufferSize o) (writeFlushLatency o) (writeTimeout o) (writeMode_ o).
Definition SendWindowSize (size : Z) : BuilderOption := fun o =>
  mkOptions (connectionTimeout o) (signaturePolicy o) (hashPolicy o) (recvWindowSize o) size
    (writeBufferSize o) (recvBufferSize o) (writeFlushLatency o) (writeTimeout o) (writeMode_ o).
Definition WriteBufferSize (byteSize : Z) : BuilderOption := fun o =>
  mkOptions (connectionTimeout o) (signaturePolicy o) (hashPolicy o) (recvWindowSize o)
    (sendWindowSize o) byteSize (recvBufferSize o) (writeFlushLatency o) (writeTimeout o) (writeMode_ o).
Definition ReceiveBufferSize (byteSize : Z) : BuilderOption := fun o =>
  mkOptions (connectionTimeout o) (signaturePolicy o) (hashPolicy o) (recvWindowSize o)
    (sendWindowSize o) (writeBufferSize o) byteSize (writeFlushLatency o) (writeTimeout o) (writeMode_ o).
Definition WriteFlushLatency (d : Z) : BuilderOption := fun o =>
  mkOptions (connectionTimeout o) (signaturePolicy o) (hashPolicy o) (recvWindowSize o)
    (sendWindowSize o) (writeBufferSize o) (recvBufferSize o) d (writeTimeout o) (writeMode_ o).
Definition WriteMode (m : writeMode) : BuilderOption := fun o =>
  mkOptions (connectionTimeout o) (signaturePolicy o) (hashPolicy o) (recvWindowSize o)
    (sendWindowSize o) (writeBufferSize o) (recvBufferSize o) (writeFlushLatency o) (writeTimeout o) m.
Definition WriteTimeout (d : Z) : BuilderOption := fun o =>
  mkOptions (connectionTimeout o) (signaturePolicy o) (hashPolicy o) (recvWindowSize o)
    (sendWindowSize o) (writeBufferSize o) (recvBufferSize o) (writeFlushLatency o) d (writeMode_ o).

Section Builder.
Context {UM UT C T W L : Type} `{!UserMessages UM UT} `{Countable T} `{!Environment W L}.
Context (TypeOf : C -> T) (blake2b : bytes -> bytes).
#[local] Abbreviation node := (Network (UM:=UM) (UT:=UT) (C:=C) (T:=T) (W:=W) (L:=L)).
#[local] Abbreviation components := (ComponentList (C:=C) (T:=T)).

Record Builder := mkBuilder {
  b_opts : options;
  b_keys : option KeyPair;
  b_address : bytes;
  b_Components : option components;
  ComponentCount : Z;
  b_transports : gmap bytes L;
}.

Definition defaultBuilderOptions (ed25519 : SignaturePolicy) (blake2b_policy : HashPolicy) : options :=
  mkOptions defaultConnectionTimeout ed25519 blake2b_policy defaultReceiveWindowSize
    defaultSendWindowSize defaultWriteBufferSize defaultRecvBufferSize defaultWriteFlushLatency
    defaultWriteTimeout WRITE_MODE_LOOP.

Definition RegisterTransportLayer (b : Builder) (name : bytes) (layer : L) : Builder :=
  mkBuilder (b_opts b) (b_keys b) (b_address b) (b_Components b) (ComponentCount b)
    (<[name := layer]> (b_transports b)).
Definition ClearTransportLayers (b : Builder) : Builder :=
  mkBuilder (b_opts b) (b_keys b) (b_address b) (b_Components b) (ComponentCount b) ∅.
Definition SetKeys (b : Builder) (pair : option KeyPair) : Builder :=
  mkBuilder (b_opts b) pair (b_address b) (b_Components b) (ComponentCount b) (b_transports b).
Definition SetAddress (b : Builder) (address : bytes) : Builder :=
  mkBuilder (b_opts b) (b_keys b) address (b_Components b) (ComponentCount b) (b_transports b).
Definition set_components (b : Builder) (cs : components) (count : Z) : Builder :=
  mkBuilder (b_opts b) (b_keys b) (b_address b) (Some cs) count (b_transports b).

Definition NewBuilder (o : options) (random : KeyPair) (tcp kcp udp : L) : Builder :=
  let builder := mkBuilder o (Some random) defaultAddress None 0 ∅ in
  let builder := RegisterTransportLayer builder (str "tcp") tcp in
  let builder := RegisterTransportLayer builder (str "kcp") kcp in
  RegisterTransportLayer builder (str "udp") udp.
Definition NewBuilderWithOptions (o : options) (random : KeyPair) (tcp kcp udp : L)
    (opt : list BuilderOption) : Builder :=
  let builder := NewBuilder o random tcp kcp udp in
  mkBuilder (foldl (fun o f => f o) (b_opts builder) opt) (b_keys builder) (b_address builder)
    (b_Components builder) (ComponentCount builder) (b_transports builder).

(** The new builder, and the error. *)
Definition AddComponentWithPriority (b : Builder) (priority : Z) (c : C) : Builder * option string :=
  let cs := match b_Components b with Some cs => cs | None => NewComponentList end in
  let '(cs, added) := Put TypeOf cs priority c in
  (set_components b cs (ComponentCount b),
   if negb added then Some ErrStrDuplicateComponent else None).
Definition AddComponent (b : Builder) (c : C) : Builder * option string :=
  let '(b, err) := AddComponentWithPriority b (ComponentCount b) c in
  match err with
  | None =>
      (mkBuilder (b_opts b) (b_keys b) (b_address b) (b_Components b) (ComponentCount b + 1)
         (b_transports b), None)
  | Some e => (b, Some e)
  end.

(** [cache] and [t] are the package-level host cache and opcode registry.  Returns the host
    cache, the builder, whose components are sorted, and the node or the error. *)
Definition Build (b : Builder) (cache : Cache (V:=bytes)) (t : tables) :
    res (Cache (V:=bytes) * Builder * (node + string)) :=
  match b_keys b with
  | None => Ok (cache, b, inr ErrStrNoKeyPair)
  | Some k =>
      if zlen (b_address b) =? 0 then Ok (cache, b, inr ErrStrNoAddress)
      else
        let cs := match b_Components b with
                  | None => NewComponentList
                  | Some cs => SortByPriority cs
                  end in
        let b := set_components b cs (ComponentCount b) in
        '(cache, r) ← ToUnifiedAddress ParseIP LookupHost cache (b_address b);
        match r with
        | inr err => Ok (cache, b, inr err)
        | inl unifiedAddress =>
            let id := CreateID blake2b unifiedAddress (Some (PublicKey k)) in
            Ok (cache, b,
                inl (mkNetwork 0 (b_opts b) k unifiedAddress cs id ∅ ∅ ∅ (b_transports b) false false
                       [] [] cache t []))
        end
  end.

(** A program's registrations of components: with a priority, or at the count so far. *)
Fixpoint AddComponents (b : Builder) (cs : list (option Z * C)) : Builder :=
  match cs with
  | [] => b
  | (Some p, c) :: cs => AddComponents (fst (AddComponentWithPriority b p c)) cs
  | (None, c) :: cs => AddComponents (fst (AddComponent b c)) cs
  end.

(** ** Lemmas *)

(** The components added one after the other without a priority, to a builder that has those of
    priorities below its count. *)
Lemma AddComponents_order (b : Builder) (cs : list C) (old : components) :
  default NewComponentList (b_Components b) = old ->
  NoDup ((TypeOf <$> Each old) ++ (TypeOf <$> cs)) -> list_wf TypeOf old ->
  StronglySorted (fun i j => Priority i < Priority j) (values old) ->
  (forall i, i ∈ values old -> Priority i < ComponentCount b) ->
  let b' := AddComponents b ((fun c => (None, c)) <$> cs) in
  let new := default NewComponentList (b_Components b') in
  Each new = Each old ++ cs /\ StronglySorted (fun i j => Priority i < Priority j) (values new) /\
  ComponentCount b' = ComponentCount b + zlen cs /\ b_keys b' = b_keys b /\ b_address b' = b_address b.
Proof.
  revert b old. induction cs as [|c cs IH]; intros b old Hold Hnd Hwf Hs Hlt.
  { simpl. rewrite Hold, app_nil_r, zlen_nil, Z.add_0_r. done. }
  assert (Hget : Component.keys old !! TypeOf c = None).
  { destruct (Component.keys old !! TypeOf c) as [i|] eqn:E; [|done]. exfalso.
    apply (lw_keys _ _ Hwf) in E as [Hi Hty]. apply NoDup_app in Hnd as (_ & Hnd & _).
    apply (Hnd (TypeOf c)); [|by left]. rewrite <-Hty. unfold Each. rewrite <-list_fmap_compose.
    by apply (list_elem_of_fmap_2 (fun j => TypeOf (Component.Component j))). }
  set (cs1 := mkComponentList (<[TypeOf c := mkComponentInfo (ComponentCount b) c]> (Component.keys old))
                (values old ++ [mkComponentInfo (ComponentCount b) c])).
  set (b1 := mkBuilder (b_opts b) (b_keys b) (b_address b) (Some cs1) (ComponentCount b + 1) (b_transports b)).
  assert (Hadd : AddComponent b c = (b1, None)).
  { unfold AddComponent, AddComponentWithPriority, Put, PutInfo.
    replace (match b_Components b with Some cs => cs | None => NewComponentList end) with old
      by (rewrite <-Hold; by destruct (b_Components b)).
    cbn [Component.Component]. by rewrite Hget. }
  cbn [fmap list_fmap AddComponents]. rewrite Hadd. cbn [fst].
  assert (Hwf1 : list_wf TypeOf cs1).
  { pose proof (PutInfo_wf TypeOf old (mkComponentInfo (ComponentCount b) c) Hwf) as Hp.
    unfold PutInfo in Hp. cbn [Component.Component] in Hp. by rewrite Hget in Hp. }
  destruct (IH b1 cs1) as (He & Hss & Hcnt & Hk & Ha); [done| |done| | |].
  - unfold Each. cbn [values cs1]. rewrite fmap_app, fmap_app, <-(assoc_L (++)). done.
  - cbn [values cs1]. apply StronglySorted_app_2; [|done|by repeat constructor].
    intros x y Hx ->%list_elem_of_singleton. by apply Hlt.
  - intros x. cbn [values cs1 ComponentCount b1]. rewrite elem_of_app, list_elem_of_singleton.
    intros [Hx| ->]; [specialize (Hlt x Hx); lia|simpl; lia].
  - split; [|split; [done|split; [|done]]].
    + rewrite He. unfold Each. cbn [values cs1]. by rewrite fmap_app, <-(assoc_L (++)).
    + rewrite Hcnt, zlen_cons. cbn [ComponentCount b1]. lia.
Qed.

(** ** Properties *)

(** C31. [Build] by cases, in this order: no keys, no address, an address that does not unify;
    otherwise a well-formed node that is not listening, whose address is the unified one, whose
    identity is that address with the public key and its hash, and whose components are those
    registered in ascending order of priority. *)
Theorem Build_spec (b : Builder) (cache : Cache (V:=bytes)) (t : tables) :
  cache_wf cache -> match b_Components b with Some cs => list_wf TypeOf cs | None => True end ->
  exists cache' b' r, Build b cache t = Ok (cache', b', r) /\ cache_wf cache' /\
  match b_keys b with
  | None => r = inr ErrStrNoKeyPair
  | Some k =>
      (b_address b = [] -> r = inr ErrStrNoAddress) /\
      (b_address b <> [] -> exists u,
         ToUnifiedAddress ParseIP LookupHost cache (b_address b) = Ok (cache', u) /\
         match u with
         | inr err => r = inr err
         | inl u => exists n, r = inl n /\ node_wf n /\ n_Address n = u /\ keys n = k /\
             opts n = b_opts b /\ listening n = false /\ kill n = false /\
             ID_Address (n_ID n) = u /\ ID_NetKey (n_ID n) = Some (PublicKey k) /\
             ID_Id (n_ID n) = Some (blake2b (PublicKey k)) /\
             list_wf TypeOf (Components n) /\
             Each (Components n) ≡ₚ Each (default NewComponentList (b_Components b)) /\
             StronglySorted (fun i j => Priority i <= Priority j) (values (Components n))
         end)
  end.
Proof.
  intros Hc Hcs. unfold Build. destruct (b_keys b) as [k|]; [|by eexists _, _, _].
  destruct (Z.eqb_spec (zlen (b_address b)) 0) as [Hz|Hz].
  { apply zlen_zero in Hz. by eexists _, _, _. }
  destruct (ToUnifiedAddress_wf ParseIP LookupHost cache (b_address b) Hc) as (c' & u & Hu & Hc').
  set (cs := match b_Components b with None => NewComponentList | Some cs => SortByPriority cs end).
  assert (Hsort : list_wf TypeOf cs /\ Each cs ≡ₚ Each (default NewComponentList (b_Components b)) /\
                  StronglySorted (fun i j => Priority i <= Priority j) (values cs)).
  { unfold cs. destruct (b_Components b) as [cs0|]; [|split; [apply New_wf|split; [done|constructor]]].
    split; [by apply Sort_wf|]. split; [unfold Each; simpl; by rewrite isort_perm|].
    apply (StronglySorted_weaken (not_after by_priority)); [|apply isort_strongly_sorted; apply _].
    intros i j _ _. unfold not_after, by_priority. rewrite Z.ltb_ge. done. }
  destruct Hsort as (Hs1 & Hs2 & Hs3).
  cbn [b_address set_components]. rewrite Hu. cbn [mbind res_bind].
  assert (Hne : b_address b <> []) by (intros E; by rewrite E in Hz).
  destruct u as [u|e]; eexists _, _, _; (split; [reflexivity|]); (split; [done|]); (split; [done|]); intros _;
    eexists; (split; [exact eq_refl|]).
  - eexists. split; [done|]. split; [split; simpl; [intros ??; by rewrite lookup_empty|by rewrite lookup_empty|intros ??; by rewrite lookup_nil]|]. done.
  - done.
Qed.

(** Components added without a priority are visited in the order they were added. *)
Theorem components_in_order (b : Builder) (cs : list C) (cache cache' : Cache (V:=bytes)) (t : tables)
    (b' : Builder) (n : node) :
  b_Components b = None -> ComponentCount b = 0 -> NoDup (TypeOf <$> cs) ->
  Build (AddComponents b ((fun c => (None, c)) <$> cs)) cache t = Ok (cache', b', inl n) ->
  Each (Components n) = cs.
Proof.
  intros Hb Hn Hnd HB.
  destruct (AddComponents_order b cs NewComponentList) as (He & Hs & _ & _ & _);
    [by rewrite Hb|done|apply New_wf|constructor|by intros ? ?%elem_of_nil|].
  set (b1 := AddComponents b _) in *. unfold Build in HB. destruct (b_keys b1) as [k|]; [|done].
  destruct (zlen (b_address b1) =? 0); [done|].
  destruct (ToUnifiedAddress _ _ _ _) as [[c' [u|e]]|e|p]; cbn [mbind res_bind] in HB; [|done..].
  injection HB as _ _ <-. cbn [Components].
  destruct (b_Components b1) as [cs1|]; [|exact He]. simpl in He, Hs.
  unfold Each, SortByPriority in *. cbn [values]. rewrite isort_id; [done|].
  apply StronglySorted_Sorted. apply (StronglySorted_weaken (fun i j => Priority i < Priority j)); [|done].
  intros i j _ _ Hij. unfold not_after, by_priority. apply Z.ltb_ge. lia.
Qed.
End Builder.

(** ** Witnesses *)

Definition a_builder : Builder (C:=nat) (T:=nat) (L:=option bool) :=
  NewBuilder a_options (mkKeyPair [x01; x02] [x01; x02]) (Some false) (Some false) (Some true).
Definition a_build (b : Builder) : res (Cache (V:=bytes) * Builder * (a_Network + string)) :=
  Build (fun k : bytes => k) b (NewCache 10) init.

Lemma Build_spec_witness :
  exists cache' b' r, a_build a_builder = Ok (cache', b', r) /\ cache_wf cache'.
Proof.
  destruct (Build_spec (C:=nat) (T:=nat) (W:=bytes) id (fun k => k) a_builder (NewCache 10) init)
    as (c & b & r & HB & Hc & _); [apply NewCache_wf; reflexivity|exact I|].
  exists c, b, r. split; [exact HB|exact Hc].
Defined.

(** Three components, and the node built with them. *)
Definition a_components : Builder := AddComponents id a_builder ((fun c => (None, c)) <$> [5%nat; 3%nat; 9%nat]).
Definition a_built : a_Network :=
  match a_build a_components with Ok (_, _, inl n) => n | _ => a_tcp_node end.
Lemma a_builds : exists c b, a_build a_components = Ok (c, b, inl a_built).
Proof.
  assert (H : match a_build a_components with Ok (_, _, inl _) => true | _ => false end = true)
    by (vm_compute; reflexivity).
  unfold a_built. revert H.
  destruct (a_build a_components) as [[[c b] [n|e]]|e|p]; intros H; [by exists c, b|discriminate H..].
Qed.
Lemma components_in_order_witness : Each (Components a_built) = [5%nat; 3%nat; 9%nat].
Proof.
  destruct a_builds as (c & b & E).
  apply (components_in_order id (fun k => k) a_builder [5%nat; 3%nat; 9%nat] (NewCache 10) c init b a_built).
  - reflexivity.
  - reflexivity.
  - apply (bool_decide_unpack _). vm_compute. exact I.
  - exact E.
Defined.
