(* ===== verification/Transport.v ===== *)
(** * Transport layers: [network/transport]

    TCP, KCP and UDP as layers of a node: which calls of [net] and [kcp] they make, in what
    order, with which settings.  The calls are parameters ([Sockets]): an endpoint is what they
    answer, a setting is a change of its state.  The three layers are the instance of
    [Environment] a node runs on; the theorem of the file is that their listeners and
    connections are of the types the node takes them for. *)

From S2P Require Import Prelude Messages Peer Lru Opcode Address Log Component Stream Crypto Client Network Inbound Builder.
#[local] Open Scope Z_scope.

(** ** The packages [net] and [kcp] *)

Record endpoint (W : Type) := mkEndpoint {
  e_local : bytes;
  e_network : bytes;
  e_remote : bytes;
  e_socket : W;
}.
Arguments mkEndpoint {W}. Arguments e_local {W} e. Arguments e_network {W} e.
Arguments e_remote {W} e. Arguments e_socket {W} e.

(** The calls of [net] and [kcp]; sharding is the pair of shard counts of [kcp].  The settings
    are methods of the connection whose errors the code drops. *)
Class Sockets (W : Type) := {
  net_ParseIP : bytes -> bool;
  net_LookupHost : bytes -> option (list bytes);
  net_Listen : bytes -> bytes -> res ();
  net_ResolveTCPAddr : bytes -> bytes -> res bytes;
  net_ResolveUDPAddr : bytes -> bytes -> res bytes;
  net_DialTCP : bytes -> bytes -> res (endpoint W);
  net_ListenUDP : bytes -> bytes -> res (endpoint W);
  net_DialUDP : bytes -> bytes -> res (endpoint W);
  kcp_ListenWithOptions : bytes -> Z -> Z -> res ();
  kcp_DialWithOptions : bytes -> Z -> Z -> res (endpoint W);
  SetWriteBuffer : Z -> W -> W;
  SetReadBuffer : Z -> W -> W;
  SetNoDelay : bool -> W -> W;
  SetWindowSize : Z -> Z -> W -> W;
  write : W -> bytes -> W * Z * option string;
}.

(** [*net.TCPConn], [*kcp.UDPSession] and [*net.UDPConn]. *)
Definition tcp_conn {W} (e : endpoint W) (set : W -> W) : Conn W :=
  mkConn false (e_local e) (e_network e) (e_remote e) (set (e_socket e)).
Definition udp_conn {W} (e : endpoint W) : Conn W :=
  mkConn true (e_local e) (e_network e) (e_remote e) (e_socket e).

(** ** The layers *)

Record TCP := mkTCP {
  WriteBufferSize : Z;
  ReadBufferSize : Z;
  NoDelay : bool;
}.
Definition NewTCP : TCP := mkTCP 10000 10000 false.

Record KCP := mkKCP {
  DataShards : Z;
  ParityShards : Z;
  SendWindowSize : Z;
  RecvWindowSize : Z;
}.
Definition NewKCP : KCP := mkKCP 0 0 10000 10000.

Record UDP := mkUDP {
  udp_WriteBufferSize : Z;
  udp_ReadBufferSize : Z;
  udp_NoDelay : bool;
}.
Definition NewUDP : UDP := mkUDP 10000 10000 false.

Definition port_address (port : Z) : bytes := str ":" ++ Itoa64 port.

Section Layers.
Context {W : Type} `{!Sockets W}.

Definition TCP_Listen (t : TCP) (port : Z) : res (Listener W) :=
  _ ← net_Listen (str "tcp") (port_address port);
  Ok NetListener.
Definition TCP_Dial (t : TCP) (address : bytes) : res (Conn W) :=
  resolved ← net_ResolveTCPAddr (str "tcp") address;
  conn ← net_DialTCP (str "tcp") resolved;
  Ok (tcp_conn conn (fun w =>
    SetNoDelay (NoDelay t) (SetReadBuffer (ReadBufferSize t) (SetWriteBuffer (WriteBufferSize t) w)))).

Definition KCP_Listen (t : KCP) (port : Z) : res (Listener W) :=
  _ ← kcp_ListenWithOptions (port_address port) (DataShards t) (ParityShards t);
  Ok NetListener.
Definition KCP_Dial (t : KCP) (address : bytes) : res (Conn W) :=
  conn ← kcp_DialWithOptions address (DataShards t) (ParityShards t);
  Ok (tcp_conn conn (SetWindowSize (SendWindowSize t) (RecvWindowSize t))).

Definition UDP_Listen (t : UDP) (port : Z) : res (Listener W) :=
  resolved ← net_ResolveUDPAddr (str "udp") (port_address port);
  listener ← net_ListenUDP (str "udp") resolved;
  Ok (UDPListener (udp_conn listener)).
Definition UDP_Dial (t : UDP) (address : bytes) : res (Conn W) :=
  resolved ← net_ResolveUDPAddr (str "udp") address;
  conn ← net_DialUDP (str "udp") resolved;
  Ok (udp_conn conn).

(** A value of the interface [transport.Layer]. *)
Inductive Layer := LTCP (t : TCP) | LKCP (t : KCP) | LUDP (t : UDP).
Definition Layer_Listen (l : Layer) (port : Z) : res (Listener W) :=
  match l with
  | LTCP t => TCP_Listen t port
  | LKCP t => KCP_Listen t port
  | LUDP t => UDP_Listen t port
  end.
Definition Layer_Dial (l : Layer) (address : bytes) : res (Conn W) :=
  match l with
  | LTCP t => TCP_Dial t address
  | LKCP t => KCP_Dial t address
  | LUDP t => UDP_Dial t address
  end.
End Layers.

#[export] Instance layers_env {W} `{!Sockets W} : Environment W Layer := {
  ParseIP := net_ParseIP;
  LookupHost := net_LookupHost;
  ResolveUDPAddr := net_ResolveUDPAddr (str "udp");
  conn_write := write;
  layer_Dial := Layer_Dial;
  layer_Listen := Layer_Listen;
}.

(** The layers [NewBuilder] registers. *)
Definition default_transports : gmap bytes Layer :=
  <[str "udp" := LUDP NewUDP]> (<[str "kcp" := LKCP NewKCP]> (<[str "tcp" := LTCP NewTCP]> ∅)).

(** ** Specification *)

(** Each layer is registered under the protocols whose type assertions it meets. *)
Definition fits (transports : gmap bytes Layer) : Prop := forall p l, transports !! p = Some l ->
  match l with
  | LTCP _ | LKCP _ => is_stream p = true
  | LUDP _ => is_udp p = true
  end.

(** ** Lemmas *)

Lemma default_fits : fits default_transports.
Proof.
  intros p l. unfold default_transports. rewrite !lookup_insert_Some, lookup_empty.
  intros [[<- <-]|[_ [[<- <-]|[_ [[<- <-]|[_ [=]]]]]]]; reflexivity.
Qed.

Section Lemmas.
Context {UM UT C T W : Type} `{!UserMessages UM UT} `{Countable T} `{!Sockets W}.
#[local] Abbreviation node := (Network (UM:=UM) (UT:=UT) (C:=C) (T:=T) (W:=W) (L:=Layer)).

Lemma NewBuilder_transports (o : options) (random : KeyPair) (opt : list BuilderOption) :
  b_transports (NewBuilderWithOptions (C:=C) (T:=T) o random (LTCP NewTCP) (LKCP NewKCP) (LUDP NewUDP) opt)
  = default_transports.
Proof. done. Qed.

(** A dialled connection is a UDP socket exactly for the protocol [udp]. *)
Lemma Layer_Dial_kind (transports : gmap bytes Layer) p l address (c : Conn W) :
  fits transports -> transports !! p = Some l -> Layer_Dial l address = Ok c -> isUDPConn c = is_udp p.
Proof.
  intros Hf Hl Hd. specialize (Hf p l Hl).
  assert (Hs : is_stream p = true -> is_udp p = false).
  { unfold is_stream, is_udp. intros [E|E]%orb_true_iff; apply bool_decide_eq_true in E; by rewrite E. }
  destruct l; cbn [Layer_Dial] in Hd; unfold TCP_Dial, KCP_Dial, UDP_Dial in Hd.
  - destruct (net_ResolveTCPAddr _ _); [|done..]. cbn in Hd.
    destruct (net_DialTCP _ _); [|done..]. injection Hd as <-. by rewrite Hs.
  - destruct (kcp_DialWithOptions _ _ _); [|done..]. injection Hd as <-. by rewrite Hs.
  - destruct (net_ResolveUDPAddr _ _); [|done..]. cbn in Hd.
    destruct (net_DialUDP _ _); [|done..]. injection Hd as <-. by rewrite Hf.
Qed.
(** So is a listener. *)
Lemma Layer_Listen_kind (transports : gmap bytes Layer) p l port (ls : Listener W) :
  fits transports -> transports !! p = Some l -> Layer_Listen l port = Ok ls ->
  match ls with NetListener => is_stream p = true | UDPListener _ => is_udp p = true end.
Proof.
  intros Hf Hl Hd. specialize (Hf p l Hl).
  destruct l; cbn [Layer_Listen] in Hd; unfold TCP_Listen, KCP_Listen, UDP_Listen in Hd.
  - destruct (net_Listen _ _); [|done..]. by injection Hd as <-.
  - destruct (kcp_ListenWithOptions _ _ _); [|done..]. by injection Hd as <-.
  - destruct (net_ResolveUDPAddr _ _); [|done..]. cbn in Hd.
    destruct (net_ListenUDP _ _); [|done..]. by injection Hd as <-.
Qed.
End Lemmas.

(** ** Theorems *)

Section Theorems.
Context {UM UT C T W : Type} `{!UserMessages UM UT} `{Countable T} `{!Sockets W}.
#[local] Abbreviation node := (Network (UM:=UM) (UT:=UT) (C:=C) (T:=T) (W:=W) (L:=Layer)).

Lemma accept_loop_fits accepts (n : node) : snd (accept_loop accepts n) <> Panic PTypeAssert.
Proof.
  revert n. induction accepts as [|[c|[]] accepts IH]; intros n; cbn [accept_loop]; [done| |done|apply IH].
  unfold emit. rewrite bind_modify. apply IH.
Qed.

(** On a node with the default transports the type assertions on listeners and connections
    hold: a dialled connection is a UDP socket exactly for the protocol [udp], and [Listen]
    fails an assertion in one case, when the transport could not open the port: [log.Fatal]
    returns, and the assertion meets a nil listener. *)
Theorem transports_fit (n : node) :
  fits (transports n) ->
  (forall address n' c, Dial address n = (n', Ok c) ->
   exists info, ParseAddress address = Ok info /\ isUDPConn c = is_udp (Protocol info)) /\
  (forall info l accepts, ParseAddress (n_Address n) = Ok info -> listening n = false ->
   transports n !! Protocol info = Some l ->
   (forall ls, Layer_Listen l (Port info) = Ok ls -> snd (Listen accepts n) <> Panic PTypeAssert) /\
   (forall e, Layer_Listen l (Port info) = Err e -> snd (Listen accepts n) = Panic PTypeAssert)).
Proof.
  intros Hf. split.
  - intros address n' c Hd. unfold Dial in Hd. rewrite bind_lift in Hd.
    destruct (ParseAddress address) as [info|e|e] eqn:HP; [|done..].
    exists info. split; [done|].
    apply bind_inv in Hd as (m & host & Hh & Hd). rewrite bind_get in Hd. cbn [Protocol] in Hd.
    assert (Ht : transports m = transports n).
    { destruct (negb _) in Hh; [|by injection Hh as <- _]. rewrite bind_get, bind_lift in Hh.
      destruct (ParseAddress (n_Address n)); [|done..]. by injection Hh as <- _. }
    rewrite Ht in Hd. destruct (transports n !! Protocol info) as [l|] eqn:El; [|done].
    rewrite bind_lift in Hd. destruct (layer_Dial l _) as [conn|e|e] eqn:Ed; [|done..].
    apply bind_inv in Hd as (m1 & [] & _ & Hd). apply bind_inv in Hd as (m2 & [] & _ & Hd).
    injection Hd as _ <-. exact (Layer_Dial_kind _ _ _ _ _ Hf El Ed).
  - intros info l accepts HP Hl Ht.
    set (n1 := add_trace (EStartup <$> Each (Components n)) n).
    set (n2 := set_flags true (kill n1) n1).
    assert (Hd : forall (f m : ST node ()) s, (forall s, is_panic (snd (f s)) = false) -> snd (deferred f m s) = snd (m s)).
    { clear. intros f m s Hf. unfold deferred. destruct (m s) as [s' [r|e|e]]; [| |done];
        specialize (Hf s'); by destruct (f s') as [s'' [|?|?]]. }
    unfold Listen. rewrite bind_each. fold n1. rewrite Hd by done. rewrite bind_get.
    change (n_Address n1) with (n_Address n). rewrite HP, bind_get. change (transports n1) with (transports n).
    rewrite Ht. cbv zeta. change (layer_Listen l) with (Layer_Listen l).
    rewrite (bind_Ok _ _ _ n2 ()) by (unfold startListening; rewrite bind_get; simpl; by rewrite Hl).
    assert (Hk : is_stream (Protocol info) = negb (is_udp (Protocol info))).
    { pose proof (Hf _ _ Ht) as Hk. unfold is_stream, is_udp in *.
      destruct l; [apply orb_true_iff in Hk as [Hk|Hk]|apply orb_true_iff in Hk as [Hk|Hk]|];
        apply bool_decide_eq_true in Hk; by rewrite Hk. }
    split.
    + intros ls EL. rewrite EL. pose proof (Layer_Listen_kind _ _ _ _ _ Hf Ht EL) as Hls.
      destruct ls as [|c]; [rewrite Hls; apply accept_loop_fits|]. by rewrite Hk, Hls.
    + intros e EL. rewrite EL, Hk. by destruct (is_udp (Protocol info)).
Qed.
End Theorems.

(** ** Witnesses *)

(** Sockets that open every port but 1, on a network that names itself. *)
#[export] Instance a_sockets : Sockets bytes := {
  net_ParseIP := a_ParseIP;
  net_LookupHost := a_LookupHost;
  net_Listen _ address := if bool_decide (address = str ":1") then Err "permission denied" else Ok ();
  net_ResolveTCPAddr _ address := Ok address;
  net_ResolveUDPAddr _ address := Ok address;
  net_DialTCP network address := Ok (mkEndpoint (str "127.0.0.1:9") network address []);
  net_ListenUDP network address := Ok (mkEndpoint address network [] []);
  net_DialUDP network address := Ok (mkEndpoint (str "127.0.0.1:9") network address []);
  kcp_ListenWithOptions _ _ _ := Ok ();
  kcp_DialWithOptions address _ _ := Ok (mkEndpoint (str "127.0.0.1:9") (str "udp") address []);
  SetWriteBuffer _ w := w;
  SetReadBuffer _ w := w;
  SetNoDelay _ w := w;
  SetWindowSize _ _ w := w;
  write := a_conn;
}.
Definition a_layered (address : bytes) : Network (UM:=bytes) (UT:=unit) (C:=nat) (T:=nat) (W:=bytes) (L:=Layer) :=
  mkNetwork 0 a_options (mkKeyPair [x01; x02] [x01; x02]) address (Puts id NewComponentList [(0, 7%nat)])
    (mkID (Some [x01; x02]) address (Some [x01; x02]) None) ∅ ∅ ∅ default_transports
    false false [] [] (NewCache 10) init [].

Lemma transports_fit_witness :
  snd (Listen [] (a_layered (str "tcp://127.0.0.1:1"))) = Panic PTypeAssert /\
  snd (Listen [] (a_layered (str "udp://127.0.0.1:80"))) <> Panic PTypeAssert.
Proof.
  split.
  - destruct (transports_fit (a_layered (str "tcp://127.0.0.1:1")) default_fits) as [_ H].
    apply (proj2 (H (mkAddressInfo (str "tcp") (str "127.0.0.1") 1) (LTCP NewTCP) []
                    ltac:(vm_compute; reflexivity) ltac:(reflexivity) ltac:(vm_compute; reflexivity))
             "permission denied"%string). vm_compute. reflexivity.
  - destruct (transports_fit (a_layered (str "udp://127.0.0.1:80")) default_fits) as [_ H].
    apply (proj1 (H (mkAddressInfo (str "udp") (str "127.0.0.1") 80) (LUDP NewUDP) []
                    ltac:(vm_compute; reflexivity) ltac:(reflexivity) ltac:(vm_compute; reflexivity))
             (UDPListener (mkConn true (str ":80") (str "udp") [] []))). vm_compute. reflexivity.
Defined.
