(* ===== verification/Mapping.v ===== *)
(** * Components that move the address of a node: [network/addressmap/], [network/nat/]

    Both act at startup, before the node listens: they replace the node's address, by one that
    is configured ([addressmap]) or by the one a gateway maps the node's port to ([nat]), and
    make the identity anew.  The gateway is a parameter ([Gateway]); what it is asked is the
    trace of calls.  [IP_String] is [net.IP.String] of the standard library. *)

From S2P Require Import Prelude Messages Peer Lru Opcode Address Component Crypto Client Network Inbound Builder.
#[local] Open Scope Z_scope.

(** ** [net.IP] *)

(** [ip.To4()], for an address of 4 or 16 bytes. *)
Definition To4 (ip : bytes) : option bytes :=
  if zlen ip =? 4 then Some ip
  else if (zlen ip =? 16) && bool_decide (take 12 ip = replicate 10 x00 ++ [xff; xff])
  then Some (drop 12 ip)
  else None.

(** The eight 16-bit groups of an IPv6 address. *)
Fixpoint groups (ip : bytes) : list Z :=
  match ip with
  | a :: b :: ip => (256 * b2z a + b2z b) :: groups ip
  | _ => []
  end.
Fixpoint zero_run (g : list Z) : nat :=
  match g with
  | 0 :: g => S (zero_run g)
  | _ => O
  end.
(** The first longest run of zero groups: where it starts and its length. *)
Fixpoint longest_run (i : nat) (g : list Z) (best : nat * nat) : nat * nat :=
  match g with
  | [] => best
  | _ :: rest =>
      longest_run (S i) rest (if (best.2 <? zero_run g)%nat then (i, zero_run g) else best)
  end.

(** [appendHex]: no leading zeros. *)
Definition hex_group (v : Z) : bytes :=
  let digit j := hextable (Z.land (Z.shiftr v (4 * j)) 15) in
  if v =? 0 then [x30]
  else if v <? 16 then [digit 0]
  else if v <? 256 then [digit 1; digit 0]
  else if v <? 4096 then [digit 2; digit 1; digit 0]
  else [digit 3; digit 2; digit 1; digit 0].
Fixpoint join (sep : bytes) (l : list bytes) : bytes :=
  match l with
  | [] => []
  | [x] => x
  | x :: l => x ++ sep ++ join sep l
  end.
Definition ipv6_String (ip : bytes) : bytes :=
  let g := groups ip in
  let '(i, n) := longest_run 0 g (0%nat, 0%nat) in
  if (n <=? 1)%nat then join (str ":") (hex_group <$> g)
  else join (str ":") (hex_group <$> take i g) ++ str "::" ++ join (str ":") (hex_group <$> drop (i + n) g).

Definition IP_String (ip : slice) : bytes :=
  let p := sbytes ip in
  if zlen p =? 0 then str "<nil>"
  else
    match To4 p with
    | Some p4 => join (str ".") ((fun b => Itoa (b2z b)) <$> p4)
    | None => if zlen p =? 16 then ipv6_String p else str "?" ++ hex_EncodeToString p
    end.

(** An address that is one. *)
Definition valid_IP (ip : slice) : Prop := zlen (sbytes ip) = 4 \/ zlen (sbytes ip) = 16.

Example ip_examples :
  IP_String (Some [x7f; x00; x00; x01]) = str "127.0.0.1" /\
  IP_String (Some (replicate 15 x00 ++ [x01])) = str "::1" /\
  IP_String (Some [x20; x01; x0d; xb8; x00; x00; x00; x00; x00; x01; x00; x00; x00; x00; x00; x01])
    = str "2001:db8::1:0:0:1" /\
  IP_String None = str "<nil>".
Proof. vm_compute. repeat split. Qed.

(** ** The gateway *)

(** A value and an error, as the methods of the gateway return them. *)
Class Gateway (G : Type) := {
  DiscoverGateway : res G;
  GetInternalAddress : G -> slice * option string;
  GetExternalAddress : G -> slice * option string;
  AddPortMapping : G -> bytes -> Z -> bytes -> Z -> Z * option string;
}.

Section Mapping.
Context {UM UT C T W L G : Type} `{!UserMessages UM UT} `{Countable T} `{!Environment W L} `{!Gateway G}.
Context (blake2b : bytes -> bytes).
#[local] Abbreviation node := (Network (UM:=UM) (UT:=UT) (C:=C) (T:=T) (W:=W) (L:=L)).

(** [n.Address = address; n.ID = peer.CreateID(n.Address, n.GetKeys().PublicKey)]. *)
Definition set_address (address : bytes) (n : node) : node :=
  mkNetwork (netID n) (opts n) (keys n) address (Components n)
    (CreateID blake2b address (Some (PublicKey (GetKeys n)))) (udpDialAddrs n) (peers n)
    (connections n) (transports n) (listening n) (kill n) (clients n) (jobs n)
    (domainLookupCache n) (opcodes n) (trace n).

(** ** [network/addressmap/component.go] *)

Definition addressmap_Startup (MappingAddress : bytes) : ST node () :=
  own ← get n_Address;
  match ParseAddress own with
  | Panic p => crash p
  | Err _ => mret ()
  | Ok _ =>
      match ParseAddress MappingAddress with
      | Panic p => crash p
      | Err _ => mret ()
      | Ok mapInfo => modify (set_address (AddressInfo_String mapInfo))
      end
  end.

(** ** [network/nat/component.go] *)

Record nat_Component := mkNat {
  gateway : option G;
  internalIP : slice;
  externalIP : slice;
  internalPort : Z;
  externalPort : Z;
}.
Definition new_nat : nat_Component := mkNat None None None 0 0.

Inductive nat_call :=
| CAddPortMapping (protocol : bytes) (internalPort : Z) (description : bytes) (timeout : Z)
| CDeletePortMapping (protocol : bytes) (internalPort : Z).

(** The startup of a component that has this gateway or failed to find one: the component, what
    the gateway was asked, and the new host and port of the node if it gets them. *)
Definition nat_discover (p : nat_Component) : res (nat_Component * list nat_call * option (bytes * Z)) :=
  match DiscoverGateway with
  | Panic e => Panic e
  | Err _ => Ok (p, [], None)
  | Ok g =>
      let '(ip, err) := GetInternalAddress g in
      let p := mkNat (gateway p) ip (externalIP p) (internalPort p) (externalPort p) in
      match err with
      | Some _ => Ok (p, [], None)
      | None =>
          let '(ip, err) := GetExternalAddress g in
          let p := mkNat (gateway p) (internalIP p) ip (internalPort p) (externalPort p) in
          match err with
          | Some _ => Ok (p, [], None)
          | None =>
              let '(port, err) := AddPortMapping g (str "tcp") (internalPort p) (str "noise") 1000000000 in
              let p := mkNat (gateway p) (internalIP p) (externalIP p) (internalPort p) port in
              let calls := [CAddPortMapping (str "tcp") (internalPort p) (str "noise") 1000000000] in
              match err with
              | Some _ => Ok (p, calls, None)
              | None =>
                  let p := mkNat (Some g) (internalIP p) (externalIP p) (internalPort p) (externalPort p) in
                  Ok (p, calls, Some (IP_String (externalIP p), u16 (externalPort p)))
              end
          end
      end
  end.
Definition nat_Startup (p : nat_Component) : ST node (nat_Component * list nat_call) :=
  own ← get n_Address;
  match ParseAddress own with
  | Panic e => crash e
  | Err _ => mret (p, [])
  | Ok info =>
      let p := mkNat (gateway p) (internalIP p) (externalIP p) (Port info) (externalPort p) in
      '(p, calls, mapped) ← lift (nat_discover p);
      _ ← match mapped with
          | None => mret ()
          | Some (host, port) =>
              modify (set_address (AddressInfo_String (mkAddressInfo (Protocol info) host port)))
          end;
      mret (p, calls)
  end.
(** The error of the gateway is only logged. *)
Definition nat_Cleanup (p : nat_Component) : list nat_call :=
  match gateway p with
  | None => []
  | Some _ => [CDeletePortMapping (str "tcp") (internalPort p)]
  end.
End Mapping.

Definition RegisterComponent {C T L} `{Countable T} (TypeOf : C -> T) (nat : C) (b : Builder (C:=C) (T:=T) (L:=L)) : Builder :=
  fst (AddComponentWithPriority TypeOf b (-99999) nat).

(** ** Lemmas *)

Lemma host_ok_app a b : host_ok (a ++ b) = host_ok a && host_ok b.
Proof. apply forallb_app. Qed.
Lemma host_ok_join sep l : host_ok sep = true -> Forall (fun x => host_ok x = true) l -> host_ok (join sep l) = true.
Proof.
  intros Hs Hl. induction Hl as [|x l Hx Hl IH]; [done|]. cbn [join].
  destruct l; [done|]. by rewrite !host_ok_app, Hs, Hx, IH.
Qed.
Lemma host_ok_digits s : forallb is_digit s = true -> host_ok s = true.
Proof.
  unfold host_ok. rewrite !forallb_forall. intros Hs b Hb. specialize (Hs b Hb).
  unfold host_char, is_alnum. by rewrite Hs, orb_true_r.
Qed.
Lemma host_char_hex d : host_char (hextable (Z.land d 15)) = true.
Proof.
  assert (Hd : 0 <= Z.land d 15 < 16) by (change 15 with (Z.ones 4); rewrite Z.land_ones by lia; by apply Z.mod_pos_bound).
  revert Hd. generalize (Z.land d 15). intros e He.
  assert (E : forallb (fun k => host_char (hextable (Z.of_nat k))) (seq 0 16) = true) by by vm_compute.
  rewrite forallb_forall in E. specialize (E (Z.to_nat e)). rewrite Z2Nat.id in E by lia.
  apply E, in_seq. lia.
Qed.
Lemma host_ok_hex v : host_ok (hex_group v) = true.
Proof.
  unfold hex_group. cbv zeta.
  repeat (destruct (_ <? _) || destruct (_ =? _)); unfold host_ok; cbn [forallb]; by rewrite ?host_char_hex.
Qed.
Lemma host_ok_hexes l : host_ok (join (str ":") (hex_group <$> l)) = true.
Proof. apply host_ok_join; [done|]. apply Forall_fmap, Forall_true. intros v. apply host_ok_hex. Qed.

(** The text of an address can stand for the host of a node's address. *)
Lemma IP_String_host ip : valid_IP ip -> host_ok (IP_String ip) = true.
Proof.
  intros Hip. unfold IP_String. destruct (Z.eqb_spec (zlen (sbytes ip)) 0); [destruct Hip; lia|].
  destruct (To4 (sbytes ip)) as [p4|] eqn:E4.
  - apply host_ok_join; [done|]. apply Forall_fmap, Forall_true. intros b. cbn.
    apply host_ok_digits, Itoa_digits. apply b2z_range.
  - destruct (Z.eqb_spec (zlen (sbytes ip)) 16).
    + unfold ipv6_String. destruct (longest_run _ _ _) as [i k].
      destruct (k <=? 1)%nat; rewrite ?host_ok_app, ?host_ok_hexes; done.
    + destruct Hip as [Hip|]; [|done]. unfold To4 in E4. by rewrite Hip in E4.
Qed.

Lemma u16_range z : 0 <= u16 z < 65536.
Proof. apply Z.mod_pos_bound. lia. Qed.

Section MappingSpec.
Context {UM UT C T W L G : Type} `{!UserMessages UM UT} `{Countable T} `{!Environment W L} `{!Gateway G}.
Context (blake2b : bytes -> bytes).
#[local] Abbreviation node := (Network (UM:=UM) (UT:=UT) (C:=C) (T:=T) (W:=W) (L:=L)).

(** The identity a node announces is its address with its key. *)
Definition node_identity (n : node) : Prop :=
  n_ID n = CreateID blake2b (n_Address n) (Some (PublicKey (keys n))).

Lemma set_address_identity a n : node_identity (set_address blake2b a n).
Proof. done. Qed.

(** A node listens, if it does, on the port of its address. *)
Lemma Listen_port (n : node) (info : AddressInfo) (t : L) accepts :
  ParseAddress (n_Address n) = Ok info -> is_stream (Protocol info) || is_udp (Protocol info) = true ->
  transports n !! Protocol info = Some t -> snd (Listen accepts n) = Ok () ->
  is_ok (layer_Listen t (Port info)) = true.
Proof.
  intros Hp Hpr Ht. unfold Listen. rewrite bind_each. set (n1 := add_trace _ n).
  intros HL. destruct (deferred _ _ n1) as [n2 r] eqn:E. cbn in HL. subst r.
  apply deferred_inv in E as (n3 & E & _). revert E. rewrite bind_get. cbn [n_Address n1 add_trace].
  rewrite Hp, bind_get. cbn [transports n1 add_trace]. rewrite Ht.
  destruct (layer_Listen t (Port info)) as [l|e|e]; [done| |]; cbn [is_ok];
    intros E; apply bind_inv in E as (n4 & [] & _ & E);
    destruct (is_stream (Protocol info)); try done; cbn in Hpr; rewrite Hpr in E; done.
Qed.

(** What the gateway gives a node that listens on [port], when every request succeeds: the
    gateway, the external address and the external port. *)
Definition mapping (port : Z) : option (G * slice * Z) :=
  match DiscoverGateway with
  | Ok g =>
      match GetInternalAddress g, GetExternalAddress g, AddPortMapping g (str "tcp") port (str "noise") 1000000000 with
      | (_, None), (ip, None), (external, None) => Some (g, ip, external)
      | _, _, _ => None
      end
  | _ => None
  end.

(** The mapped address of a node by [addressmap], in normal form. *)
Lemma addressmap_Startup_spec (n : node) (own info : AddressInfo) (protocol host : bytes) (port : Z) :
  ParseAddress (n_Address n) = Ok own -> scheme_ok protocol = true -> host_ok host = true -> 0 <= port < 65536 ->
  let address := FormatAddress protocol host port in
  addressmap_Startup blake2b address n = (set_address blake2b address n, Ok ()) /\
  node_identity (set_address blake2b address n).
Proof.
  intros Ho Hs Hh Hp address. split; [|done]. unfold addressmap_Startup. rewrite bind_get, Ho.
  unfold address at 1. by rewrite ParseAddress_FormatAddress_ok.
Qed.

(** ** Theorems *)

(** C30. The startup of the NAT component, by cases.  If any request to the gateway fails the node
    is unchanged and no mapping will be removed at the end.  Otherwise the gateway was asked to
    map the port the node had, and will be asked to unmap that one; the node announces the
    external address and the low 16 bits of the external port, its new address parses back to
    them, and its identity is made anew with its own key.  Only then does the node listen, and
    if it does it is on the external port: the one the gateway forwards to is its old one. *)
Theorem nat_Startup_spec (p : nat_Component) (n : node) (protocol host : bytes) (port : Z) :
  n_Address n = FormatAddress protocol host port ->
  scheme_ok protocol = true -> host_ok host = true -> 0 <= port < 65536 -> is_panic (DiscoverGateway (G:=G)) = false ->
  exists p' calls n', nat_Startup blake2b p n = (n', Ok (p', calls)) /\
  match mapping port with
  | None => n' = n /\ gateway p' = gateway p
  | Some (g, ip, external) =>
      n' = set_address blake2b (FormatAddress protocol (IP_String ip) (u16 external)) n /\
      gateway p' = Some g /\ calls = [CAddPortMapping (str "tcp") port (str "noise") 1000000000] /\
      nat_Cleanup p' = [CDeletePortMapping (str "tcp") port] /\ node_identity n' /\
      (valid_IP ip ->
       ParseAddress (n_Address n') = Ok (mkAddressInfo protocol (IP_String ip) (u16 external)) /\
       forall t accepts, is_stream protocol || is_udp protocol = true ->
         transports n' !! protocol = Some t -> snd (Listen accepts n') = Ok () ->
         is_ok (layer_Listen t (u16 external)) = true)
  end.
Proof.
  intros Ha Hs Hh Hp Hg. unfold nat_Startup, mapping, nat_discover. rewrite bind_get, Ha.
  rewrite ParseAddress_FormatAddress_ok by done. cbn [Port Protocol].
  destruct DiscoverGateway as [g|e|e]; [|by eexists _, _, n|done].
  rewrite bind_lift. destruct (GetInternalAddress g) as [ip1 [e|]]; [by eexists _, _, n|].
  destruct (GetExternalAddress g) as [ip [e|]]; [by eexists _, _, n|]. cbn [internalPort].
  destruct (AddPortMapping g _ _ _ _) as [ext [e|]]; [by eexists _, _, n|].
  eexists _, _, _. split; [reflexivity|]. cbn [externalPort externalIP internalPort gateway nat_Cleanup].
  do 4 (split; [reflexivity|]). split; [done|]. intros Hip.
  match goal with |- ParseAddress ?a = _ /\ _ => assert (E : ParseAddress a = Ok (mkAddressInfo protocol (IP_String ip) (u16 ext))) end.
  { apply ParseAddress_FormatAddress_ok; [done|by apply IP_String_host|apply u16_range]. }
  split; [exact E|]. intros t accepts Hpr Ht HL. by apply (Listen_port _ _ t accepts E).
Qed.
End MappingSpec.

(** ** Witness *)

(** A gateway that maps any port to 40000 of 203.0.113.5. *)
#[local] Instance a_gateway : Gateway unit := {
  DiscoverGateway := Ok tt;
  GetInternalAddress _ := (Some [xc0; xa8; x00; x02], None);
  GetExternalAddress _ := (Some [xcb; x00; x71; x05], None);
  AddPortMapping _ _ _ _ _ := (40000, None);
}.
Definition a_mapped_node : a_Network := fst (nat_Startup (G:=unit) (fun b => b) new_nat a_tcp_node).

Lemma nat_Startup_spec_witness :
  n_Address a_mapped_node = str "tcp://203.0.113.5:40000" /\ node_identity (fun b => b) a_mapped_node /\
  ParseAddress (n_Address a_mapped_node) = Ok (mkAddressInfo (str "tcp") (str "203.0.113.5") 40000).
Proof.
  destruct (nat_Startup_spec (G:=unit) (fun b => b) new_nat a_tcp_node (str "tcp") (str "127.0.0.1") 80)
    as (p' & calls & n' & E & Hm); [reflexivity|reflexivity|reflexivity|lia|reflexivity|].
  unfold a_mapped_node. rewrite E. destruct Hm as (Hn & _ & _ & _ & Hid & Hip). cbn [fst].
  split; [rewrite Hn; vm_compute; reflexivity|]. split; [exact Hid|].
  destruct Hip as [Hpa _]; [left; reflexivity|]. rewrite Hpa. vm_compute. reflexivity.
Defined.
