(* ===== verification/Topologies.v ===== *)
(** * The topologies of the examples: [examples/topologies/topologies.go]

    Six shapes of a small cluster as maps from the address of a node to the addresses of its
    neighbours, the construction of the nodes ([setupNodes]) and the step that connects them
    ([bootstrapNodes]).  The maps are keyed by [host:port]; the address of a built node has a
    scheme.  So no node finds its neighbours, none is bootstrapped, and the test that follows
    expects no message to arrive ([topologies_never_connect]). *)

From S2P Require Import Prelude Messages Peer Lru Opcode Address Component Crypto Client Network Inbound Builder.
#[local] Open Scope Z_scope.

Definition host : bytes := str "127.0.0.1".
(** [fmt.Sprintf("%s:%d", host, port)] of a port number. *)
Definition host_port (port : Z) : bytes := host ++ str ":" ++ Itoa port.

Abbreviation peer_map := (gmap bytes (gset bytes)).

(** The ports [startPort], [startPort+1], ... of [n] nodes. *)
Definition ports_from (startPort : Z) (n : nat) : list Z := (fun i => startPort + Z.of_nat i) <$> seq 0 n.
(** [peers[addr]] for every node, in the order of the loop. *)
Definition peers_of (neighbours : list (Z * list Z)) : peer_map :=
  foldl (fun peers '(port, ns) => <[host_port port := list_to_set (host_port <$> ns)]> peers) ∅ neighbours.

Definition setupRingNodes (startPort : Z) : list Z * peer_map :=
  let numNodes := 4 in
  (ports_from startPort 4,
   peers_of ((fun i => let i := Z.of_nat i in
     (startPort + i, [startPort + Z.rem (numNodes + i + 1) numNodes; startPort + Z.rem (numNodes + i - 1) numNodes]))
     <$> seq 0 4)).

(** The loop of the shapes given by their edges: an offset and the offsets of its neighbours. *)
Definition edge_ports (startPort : Z) (e : Z * list Z) : Z * list Z :=
  (startPort + fst e, Z.add startPort <$> snd e).
Definition setup_edges (startPort : Z) (edges : list (Z * list Z)) : list Z * peer_map :=
  let edges := edge_ports startPort <$> edges in (fst <$> edges, peers_of edges).
Definition setupMeshNodes (startPort : Z) : list Z * peer_map :=
  setup_edges startPort [(0, [1]); (1, [0; 5; 2]); (2, [1; 3; 5]); (3, [2; 4]); (4, [3; 5]); (5, [1; 2; 4])].
Definition setupStarNodes (startPort : Z) : list Z * peer_map :=
  setup_edges startPort [(0, [1; 2; 3; 4]); (1, [0]); (2, [0]); (3, [0]); (4, [0])].
Definition setupTreeNodes (startPort : Z) : list Z * peer_map :=
  setup_edges startPort [(0, [1; 3]); (1, [0; 2]); (2, [1]); (3, [0; 4; 5]); (4, [3]); (5, [3])].

(** Every node has the one map of all of them, itself included. *)
Definition setupFullyConnectedNodes (startPort : Z) : list Z * peer_map :=
  let ports := ports_from startPort 5 in
  (ports, peers_of ((fun port => (port, ports)) <$> ports)).
Definition setupLineNodes (startPort : Z) : list Z * peer_map :=
  let numNodes := 5 in
  (ports_from startPort 5,
   peers_of ((fun i => let i := Z.of_nat i in
     (startPort + i, (if 0 <? i then [startPort + i - 1] else []) ++
                     (if i <? numNodes - 1 then [startPort + i + 1] else []))) <$> seq 0 5)).

Section Topologies.
Context {UM UT C T W L : Type} `{!UserMessages UM UT} `{Countable T} `{!Environment W L}.
Context (TypeOf : C -> T) (blake2b : bytes -> bytes).
#[local] Abbreviation node := (Network (UM:=UM) (UT:=UT) (C:=C) (T:=T) (W:=W) (L:=L)).

(** The nodes on the ports, each with a key pair and a component of its own; the first error
    ends it. *)
Fixpoint setupNodes (o : options) (random : Z -> KeyPair) (tcp kcp udp : L) (component : Z -> C)
    (cache : Cache (V:=bytes)) (t : tables) (ports : list Z) : res (Cache (V:=bytes) * (list node + string)) :=
  match ports with
  | [] => Ok (cache, inl [])
  | port :: ports =>
      let builder := NewBuilder o (random port) tcp kcp udp in
      let builder := SetKeys builder (Some (random port)) in
      let builder := SetAddress builder (str "tcp://" ++ host_port port) in
      let '(builder, _) := AddComponent TypeOf builder (component port) in
      '(cache, _, r) ← Build blake2b builder cache t;
      match r with
      | inr err => Ok (cache, inr err)
      | inl n =>
          '(cache, rest) ← setupNodes o random tcp kcp udp component cache t ports;
          Ok (cache, match rest with inl nodes => inl (n :: nodes) | inr err => inr err end)
      end
  end.

(** [soon] and [now] are those of the dials of [Bootstrap]; the map is ranged over in the order
    of [elements]. *)
Definition bootstrapNode (soon : bytes -> bool) (now : Z) (peers : peer_map) (n : node) : node :=
  let ns := default ∅ (peers !! n_Address n) in
  if (size ns =? 0)%nat then n else fst (Bootstrap soon now (elements ns) n).
Definition bootstrapNodes (soon : bytes -> bool) (now : Z) (nodes : list node) (peers : peer_map) : list node :=
  bootstrapNode soon now peers <$> nodes.

(** The branch of [broadcastTest] that waits for the message of the sender at node [i]. *)
Definition expects_message (nodes : list node) (peers : peer_map) (sender i : nat) : bool :=
  match nodes !! i, nodes !! sender with
  | Some n, Some s => bool_decide (n_Address s ∈ default ∅ (peers !! n_Address n)) && negb (i =? sender)%nat
  | _, _ => false
  end.
End Topologies.

(** The shapes. *)
Definition topologies : list (Z -> list Z * peer_map) :=
  [setupRingNodes; setupMeshNodes; setupStarNodes; setupFullyConnectedNodes; setupLineNodes; setupTreeNodes].

Example ring_example :
  (setupRingNodes 19700).1 = [19700; 19701; 19702; 19703] /\
  elements <$> ((setupRingNodes 19700).2 !! str "127.0.0.1:19700") = Some [str "127.0.0.1:19703"; str "127.0.0.1:19701"].
Proof. split; vm_compute; reflexivity. Qed.

(** ** Lemmas *)

(** The keys of a map of neighbours have no scheme. *)
Definition keyed (peers : peer_map) : Prop := forall k, is_Some (peers !! k) -> exists port, k = host_port port.
Lemma peers_of_keyed ns : keyed (peers_of ns).
Proof.
  unfold peers_of. assert (H0 : keyed ∅) by (intros k [m Hm]; by rewrite lookup_empty in Hm).
  revert H0. generalize (∅ : peer_map). induction ns as [|[port l] ns IH]; intros peers Hp; [done|].
  apply IH. intros k [<-|[_ Hk]]%lookup_insert_is_Some; [by eexists|by apply Hp].
Qed.

(** What a built node has for address. *)
Definition node_address (port : Z) : bytes := str "tcp://" ++ host_port port.

Lemma keyed_address peers port : keyed peers -> peers !! node_address port = None.
Proof.
  intros Hk. destruct (peers !! node_address port) as [m|] eqn:E; [|done].
  destruct (Hk (node_address port)) as [q Hq]; [by rewrite E|]. discriminate Hq.
Qed.
Lemma topologies_keyed setup startPort : setup ∈ topologies -> keyed (setup startPort).2.
Proof.
  unfold topologies. rewrite !elem_of_cons, elem_of_nil. intros Hs.
  destruct_or?; subst; try done; apply peers_of_keyed.
Qed.

Section Lemmas.
Context {UM UT C T W L : Type} `{!UserMessages UM UT} `{Countable T} `{!Environment W L}.
Context (TypeOf : C -> T) (blake2b : bytes -> bytes).
#[local] Abbreviation node := (Network (UM:=UM) (UT:=UT) (C:=C) (T:=T) (W:=W) (L:=L)).

Lemma Build_address (b : Builder (L:=L)) (cache cache' : Cache (V:=bytes)) (t : tables) k a :
  b_keys b = Some k -> b_address b = a -> a <> [] ->
  ToUnifiedAddress ParseIP LookupHost cache a = Ok (cache', inl a) ->
  exists b' (n : node), Build blake2b b cache t = Ok (cache', b', inl n) /\ n_Address n = a.
Proof.
  intros Hk Ha Hne Hu. unfold Build. rewrite Hk, Ha.
  destruct (Z.eqb_spec (zlen a) 0) as [E|_]; [by apply zlen_zero in E|].
  cbn [b_address set_components]. rewrite Ha, Hu. cbn [mbind res_bind]. by eexists _, _.
Qed.
Lemma AddComponent_keeps (b : Builder (L:=L)) c :
  b_keys (fst (AddComponent TypeOf b c)) = b_keys b /\ b_address (fst (AddComponent TypeOf b c)) = b_address b.
Proof.
  unfold AddComponent, AddComponentWithPriority. destruct (Put _ _ _ _) as [cs []]; done.
Qed.

Lemma setupNodes_ok (o : options) random tcp kcp udp component (cache : Cache (V:=bytes)) (t : tables) ports :
  resolver_ok ParseIP LookupHost -> cache_ok ParseIP cache -> ParseIP host = true ->
  Forall (fun port => 0 <= port < 65536) ports ->
  exists cache' (nodes : list node),
    setupNodes TypeOf blake2b o random tcp kcp udp component cache t ports = Ok (cache', inl nodes) /\
    n_Address <$> nodes = node_address <$> ports.
Proof.
  intros Hro Hc Hip Hp. revert cache Hc. induction Hp as [|port ports Hport _ IH]; intros cache Hc; [by eexists _, []|].
  destruct (ToUnifiedAddress_format ParseIP LookupHost cache (str "tcp") host port Hro Hc) as (c' & r & Hu & Hc' & Hr & _);
    [done|done|lia|].
  specialize (Hr Hip). subst r. destruct (IH c' Hc') as (c2 & nodes & Hn & Ha).
  cbn [setupNodes]. set (b0 := SetAddress _ _).
  destruct (AddComponent_keeps b0 (component port)) as [Hk Ha0].
  destruct (AddComponent TypeOf b0 (component port)) as [b err]. cbn [fst] in Hk, Ha0.
  destruct (Build_address b cache c' t (random port) (node_address port)) as (b' & n & -> & Hna);
    [by rewrite Hk|by rewrite Ha0|done|exact Hu|].
  cbn [mbind res_bind]. rewrite Hn. cbn [mbind res_bind].
  eexists _, _. split; [reflexivity|]. rewrite !fmap_cons. by rewrite Ha, Hna.
Qed.
End Lemmas.

(** ** Theorems *)

Section Theorems.
Context {UM UT C T W L : Type} `{!UserMessages UM UT} `{Countable T} `{!Environment W L}.
Context (TypeOf : C -> T) (blake2b : bytes -> bytes).
#[local] Abbreviation node := (Network (UM:=UM) (UT:=UT) (C:=C) (T:=T) (W:=W) (L:=L)).

(** On every one of the topologies the nodes are built, one for each port, and stay as they are:
    [bootstrapNodes] finds no neighbours for any of them and dials nobody, and [broadcastTest]
    expects silence between every two nodes. *)
Theorem topologies_never_connect (setup : Z -> list Z * peer_map) (startPort : Z) (o : options)
    (random : Z -> KeyPair) (tcp kcp udp : L) (component : Z -> C) (cache : Cache (V:=bytes)) (t : tables)
    (soon : bytes -> bool) (now : Z) :
  setup ∈ topologies -> Forall (fun port => 0 <= port < 65536) (setup startPort).1 ->
  resolver_ok ParseIP LookupHost -> cache_ok ParseIP cache -> ParseIP host = true ->
  exists cache' (nodes : list node),
    setupNodes TypeOf blake2b o random tcp kcp udp component cache t (setup startPort).1 = Ok (cache', inl nodes) /\
    n_Address <$> nodes = node_address <$> (setup startPort).1 /\
    bootstrapNodes soon now nodes (setup startPort).2 = nodes /\
    forall sender i, expects_message nodes (setup startPort).2 sender i = false.
Proof.
  intros Hs Hp Hro Hc Hip.
  destruct (setupNodes_ok TypeOf blake2b o random tcp kcp udp component cache t _ Hro Hc Hip Hp) as (c' & nodes & Hn & Ha).
  assert (Hnone : forall n, n ∈ nodes -> (setup startPort).2 !! n_Address n = None).
  { intros n Hin. apply (list_elem_of_fmap_2 n_Address) in Hin. rewrite Ha in Hin.
    apply list_elem_of_fmap in Hin as (port & -> & _). by apply keyed_address, topologies_keyed. }
  exists c', nodes. split; [done|]. split; [done|]. split.
  - unfold bootstrapNodes. rewrite <-(list_fmap_id nodes) at 2. apply list_fmap_ext. intros k n Hk.
    unfold bootstrapNode. rewrite (Hnone n) by (by eapply list_elem_of_lookup_2). done.
  - intros sender i. unfold expects_message. destruct (nodes !! i) as [n|] eqn:Ei; [|done].
    destruct (nodes !! sender); [|done]. rewrite (Hnone n) by (by eapply list_elem_of_lookup_2). done.
Qed.
End Theorems.

(** ** Witness *)

Lemma topologies_never_connect_witness :
  exists cache' (nodes : list a_Network),
    setupNodes id (fun b => b) a_options (fun _ => mkKeyPair [x01] [x01]) (Some false) (Some false) (Some true)
      (fun _ => 7%nat) (NewCache 1000) init (setupRingNodes 19700).1 = Ok (cache', inl nodes) /\
    n_Address <$> nodes = [str "tcp://127.0.0.1:19700"; str "tcp://127.0.0.1:19701";
      str "tcp://127.0.0.1:19702"; str "tcp://127.0.0.1:19703"] /\
    bootstrapNodes (fun _ => true) 0 nodes (setupRingNodes 19700).2 = nodes.
Proof.
  destruct (topologies_never_connect (L := option bool) (W := bytes) id (fun b => b) setupRingNodes 19700 a_options
    (fun _ => mkKeyPair [x01] [x01]) (Some false) (Some false) (Some true) (fun _ => 7%nat) (NewCache 1000) init
    (fun _ => true) 0) as (c' & nodes & Hn & Ha & Hb & _).
  - unfold topologies. left.
  - repeat constructor; discriminate.
  - apply a_resolver_ok.
  - apply a_cache_ok.
  - reflexivity.
  - exists c', nodes. split; [exact Hn|]. split; [rewrite Ha; vm_compute; reflexivity|exact Hb].
Defined.
