(* ===== verification/Word.v ===== *)
(** * Machine arithmetic of the ed25519 code

    The arithmetic of [int32] and [int64] values under the scopes [int32_scope] and
    [int64_scope]: the operators of Go, each wrapping around at its width.  A chain of wrapping
    additions and multiplications equals the plain one when the plain result fits
    ([i64_plain], [i32_plain]), which is how the overflow freedom of the field and scalar
    arithmetic is proved.  Also the carry step those files repeat, disjoint [or], and the bytes
    of an array as integers. *)

From S2P Require Import Prelude.
#[local] Open Scope Z_scope.

Declare Scope int32_scope.
Delimit Scope int32_scope with int32.
Declare Scope int64_scope.
Delimit Scope int64_scope with int64.

Notation "a + b" := (i32 (Z.add a%int32 b%int32)) : int32_scope.
Notation "a - b" := (i32 (Z.sub a%int32 b%int32)) : int32_scope.
Notation "a * b" := (i32 (Z.mul a%int32 b%int32)) : int32_scope.
Notation "- a" := (i32 (Z.opp a%int32)) : int32_scope.
Notation "a << k" := (i32 (Z.shiftl a%int32 k%Z)) (at level 40, left associativity) : int32_scope.
Notation "a >> k" := (Z.shiftr a%int32 k%Z) (at level 40, left associativity) : int32_scope.
Notation "a + b" := (i64 (Z.add a%int64 b%int64)) : int64_scope.
Notation "a - b" := (i64 (Z.sub a%int64 b%int64)) : int64_scope.
Notation "a * b" := (i64 (Z.mul a%int64 b%int64)) : int64_scope.
Notation "a << k" := (i64 (Z.shiftl a%int64 k%Z)) (at level 40, left associativity) : int64_scope.
Notation "a >> k" := (Z.shiftr a%int64 k%Z) (at level 40, left associativity) : int64_scope.

(** ** Wrapping *)

Lemma sint_small w z : 0 < w -> - 2 ^ (w - 1) <= z < 2 ^ (w - 1) -> sint w z = z.
Proof.
  intros Hw Hz. assert (2 ^ w = 2 * 2 ^ (w - 1)) by (rewrite <- Z.pow_succ_r by lia; f_equal; lia).
  unfold sint. rewrite Z.mod_small; lia.
Qed.

Lemma sint_mod w a b : a mod 2 ^ w = b mod 2 ^ w -> sint w a = sint w b.
Proof.
  intros H. unfold sint. f_equal.
  rewrite <- Zplus_mod_idemp_l, H, Zplus_mod_idemp_l. done.
Qed.

Lemma sint_idemp w a : 0 < w -> sint w a mod 2 ^ w = a mod 2 ^ w.
Proof.
  intros Hw. unfold sint. rewrite Zminus_mod_idemp_l. f_equal. lia.
Qed.

Section Ring.
Context (w : Z) (Hw : 0 < w).

Lemma sint_add_l a b : sint w (sint w a + b) = sint w (a + b).
Proof. apply sint_mod. rewrite <- Zplus_mod_idemp_l, sint_idemp, Zplus_mod_idemp_l; done. Qed.
Lemma sint_add_r a b : sint w (a + sint w b) = sint w (a + b).
Proof. rewrite Z.add_comm, sint_add_l. f_equal. lia. Qed.
Lemma sint_mul_l a b : sint w (sint w a * b) = sint w (a * b).
Proof. apply sint_mod. rewrite <- Zmult_mod_idemp_l, sint_idemp, Zmult_mod_idemp_l; done. Qed.
Lemma sint_mul_r a b : sint w (a * sint w b) = sint w (a * b).
Proof. rewrite Z.mul_comm, sint_mul_l. f_equal. lia. Qed.
Lemma sint_sub_l a b : sint w (sint w a - b) = sint w (a - b).
Proof. apply sint_mod. rewrite <- Zminus_mod_idemp_l, sint_idemp, Zminus_mod_idemp_l; done. Qed.
Lemma sint_sub_r a b : sint w (a - sint w b) = sint w (a - b).
Proof. apply sint_mod. rewrite <- Zminus_mod_idemp_r, sint_idemp, Zminus_mod_idemp_r; done. Qed.
End Ring.

#[export] Hint Rewrite sint_add_l sint_add_r sint_mul_l sint_mul_r sint_sub_l sint_sub_r
  using lia : wrap.

(** A wrapped expression is the plain one wrapped once. *)
Ltac plain := unfold i64, i32; autorewrite with wrap.

(** ** Exact machine arithmetic

    [exact w z m]: the machine value [w] is the integer [z], of absolute value at most [m].
    [machine] derives it for an expression from bounds of its variables: [z] is the expression
    without the wrapping and [m] the same expression of the bounds, and no operation on the way
    overflows. *)
Definition exact (w z m : Z) : Prop := w = z /\ Z.abs z <= m.

Lemma exact_var x m : Z.abs x <= m -> exact x x m.
Proof. done. Qed.
Lemma exact_const q : exact (Zpos q) (Zpos q) (Zpos q).
Proof. done. Qed.

Lemma exact_zero : exact 0 0 0.
Proof. done. Qed.

Section Exact.
Context (a b x y m n : Z).

Lemma exact_add64 : exact a x m -> exact b y n -> m + n < 2 ^ 63 -> exact (i64 (a + b)) (x + y) (m + n).
Proof. intros [-> Hx] [-> Hy] H. split; [apply i64_small|]; lia. Qed.
Lemma exact_sub64 : exact a x m -> exact b y n -> m + n < 2 ^ 63 -> exact (i64 (a - b)) (x - y) (m + n).
Proof. intros [-> Hx] [-> Hy] H. split; [apply i64_small|]; lia. Qed.
Lemma exact_mul64 : exact a x m -> exact b y n -> m * n < 2 ^ 63 -> exact (i64 (a * b)) (x * y) (m * n).
Proof.
  intros [-> Hx] [-> Hy] H. assert (Z.abs (x * y) <= m * n) by (rewrite Z.abs_mul; nia).
  split; [apply i64_small|]; lia.
Qed.
Lemma exact_mul32 : exact a x m -> exact b y n -> m * n < 2 ^ 31 -> exact (i32 (a * b)) (x * y) (m * n).
Proof.
  intros [-> Hx] [-> Hy] H. assert (Z.abs (x * y) <= m * n) by (rewrite Z.abs_mul; nia).
  split; [apply i32_small|]; lia.
Qed.
Lemma exact_shl64 k : 0 <= k <= 40 -> exact a x m -> m * 2 ^ k < 2 ^ 63 -> exact (i64 (Z.shiftl a k)) (x * 2 ^ k) (m * 2 ^ k).
Proof.
  intros Hk [-> Hx] H. rewrite Z.shiftl_mul_pow2 by lia.
  assert (Z.abs (x * 2 ^ k) <= m * 2 ^ k) by (rewrite Z.abs_mul, (Z.abs_eq (2 ^ k)) by lia; nia).
  split; [apply i64_small|]; lia.
Qed.
End Exact.

Create HintDb machine.
Ltac machine :=
  lazymatch goal with
  | |- exact (i64 (_ + _)) _ _ => eapply exact_add64; [machine | machine | reflexivity]
  | |- exact (i64 (_ - _)) _ _ => eapply exact_sub64; [machine | machine | reflexivity]
  | |- exact (i64 (_ * _)) _ _ => eapply exact_mul64; [machine | machine | reflexivity]
  | |- exact (i64 (Z.shiftl _ _)) _ _ => eapply exact_shl64; [lia | machine | reflexivity]
  | |- exact (i32 (_ * _)) _ _ => eapply exact_mul32; [machine | machine | reflexivity]
  | |- exact (Zpos _) _ _ => apply exact_const
  | |- exact 0 _ _ => apply exact_zero
  | |- exact _ _ _ => first [eapply exact_var; eassumption | eauto with machine]
  end.

(** ** The carry step

    [c = (h + (1 << (k-1))) >> k; hi += c; h -= c << k]: the part of [h] above its low [k]
    bits, rounded to nearest, moves to the next limb. *)
Definition carry (k h hi : Z) : Z * Z :=
  let c := ((h + (1 << (k - 1))) >> k)%int64 in
  ((h - (c << k))%int64, (hi + c)%int64).
(** The same to the lowest limb, where 2^255 counts for 19. *)
Definition carry19 (k h hi : Z) : Z * Z :=
  let c := ((h + (1 << (k - 1))) >> k)%int64 in
  ((h - (c << k))%int64, (hi + c * 19)%int64).

Lemma round_div k h :
  1 <= k -> let c := (h + 2 ^ (k - 1)) / 2 ^ k in - 2 ^ (k - 1) <= h - 2 ^ k * c < 2 ^ (k - 1).
Proof.
  intros Hk c. assert (E : 2 ^ k = 2 * 2 ^ (k - 1)).
  { rewrite <- Z.pow_succ_r by lia. f_equal. lia. }
  pose proof (Z.div_mod (h + 2 ^ (k - 1)) (2 ^ k)). fold c in H.
  pose proof (Z.mod_pos_bound (h + 2 ^ (k - 1)) (2 ^ k)). lia.
Qed.

Lemma carry_value k h :
  1 <= k <= 40 -> - 2 ^ 62 <= h <= 2 ^ 62 ->
  exists c, ((h + (1 << (k - 1))) >> k)%int64 = c /\ (h - (c << k))%int64 = h - 2 ^ k * c /\
    - 2 ^ (k - 1) <= h - 2 ^ k * c < 2 ^ (k - 1) /\ - 2 ^ 62 < c < 2 ^ 62.
Proof.
  intros Hk Hh. exists ((h + 2 ^ (k - 1)) / 2 ^ k).
  assert (Hp : 1 <= 2 ^ (k - 1) <= 2 ^ 39).
  { split; [apply (Z.pow_le_mono_r 2 0); lia | apply Z.pow_le_mono_r; lia]. }
  assert (E : 2 ^ k = 2 * 2 ^ (k - 1)) by (rewrite <- Z.pow_succ_r by lia; f_equal; lia).
  pose proof (round_div k h ltac:(lia)) as Hr. cbv zeta in Hr.
  set (c := (h + 2 ^ (k - 1)) / 2 ^ k) in *.
  rewrite !Z.shiftl_mul_pow2, !Z.shiftr_div_pow2 by lia.
  rewrite Z.mul_1_l, (i64_small (2 ^ (k - 1))), (i64_small (h + _)) by lia. fold c.
  split; [done|]. plain. rewrite <- (Z.mul_comm (2 ^ k) c), sint_small by lia.
  repeat split; nia.
Qed.

Lemma carry_spec k h hi :
  1 <= k <= 40 -> - 2 ^ 62 <= h <= 2 ^ 62 -> - 2 ^ 62 <= hi <= 2 ^ 62 ->
  exists c, carry k h hi = (h - 2 ^ k * c, hi + c) /\
    - 2 ^ (k - 1) <= h - 2 ^ k * c < 2 ^ (k - 1).
Proof.
  intros Hk Hh Hhi. destruct (carry_value k h Hk Hh) as (c & E1 & E2 & Hr & Hc).
  exists c. split; [|done]. unfold carry. rewrite E1, E2, (i64_small (hi + c)) by lia. done.
Qed.

Lemma carry19_spec k h hi :
  10 <= k <= 40 -> - 2 ^ 62 <= h <= 2 ^ 62 -> - 2 ^ 62 <= hi <= 2 ^ 62 ->
  exists c, carry19 k h hi = (h - 2 ^ k * c, hi + 19 * c) /\
    - 2 ^ (k - 1) <= h - 2 ^ k * c < 2 ^ (k - 1).
Proof.
  intros Hk Hh Hhi. destruct (carry_value k h ltac:(lia) Hh) as (c & E1 & E2 & Hr & Hc).
  exists c. split; [|done]. unfold carry19. rewrite E1, E2.
  assert (1024 <= 2 ^ k) by (change 1024 with (2 ^ 10); apply Z.pow_le_mono_r; lia).
  assert (2 ^ (k - 1) <= 2 ^ 39) by (apply Z.pow_le_mono_r; lia).
  assert (- 2 ^ 53 <= c <= 2 ^ 53) by nia.
  f_equal. plain. rewrite sint_small; lia.
Qed.

(** ** Disjoint [or] *)

Lemma land_disjoint a b k : 0 <= k -> 0 <= a < 2 ^ k -> Z.land a (Z.shiftl b k) = 0.
Proof.
  intros Hk Ha. apply Z.bits_inj'. intros i Hi. rewrite Z.land_spec, Z.bits_0.
  destruct (Z.lt_ge_cases i k).
  - rewrite (Z.shiftl_spec_low b k i) by done. apply andb_false_r.
  - rewrite (testbit_high a k i) by lia. done.
Qed.

Lemma lxor_add a b k : 0 <= k -> 0 <= a < 2 ^ k -> Z.lxor a (Z.shiftl b k) = a + 2 ^ k * b.
Proof.
  intros Hk Ha. rewrite <- Z.add_nocarry_lxor, Z.shiftl_mul_pow2 by (done || by apply land_disjoint). lia.
Qed.
Lemma lor_add a b k : 0 <= k -> 0 <= a < 2 ^ k -> Z.lor a (Z.shiftl b k) = a + 2 ^ k * b.
Proof. intros Hk Ha. rewrite <- Z.lxor_lor by (by apply land_disjoint). by apply lxor_add. Qed.

Lemma land_ones_mod a k : 0 <= k -> Z.land (2 ^ k - 1) a = a mod 2 ^ k.
Proof.
  intros Hk. rewrite Z.land_comm, <- Z.land_ones, Z.ones_equiv by done. f_equal.
Qed.

Lemma exact_land a x m k : 0 <= k -> 0 <= x -> exact a x m -> exact (Z.land a (2 ^ k - 1)) (x mod 2 ^ k) (2 ^ k - 1).
Proof.
  intros Hk Hx [-> Hm]. split; [rewrite Z.land_comm; apply land_ones_mod; done|].
  pose proof (Z.mod_pos_bound x (2 ^ k)). lia.
Qed.

(** ** Bytes

    A [[32]byte] is a list of 32 bytes.  The code reads arrays at constant indices below their
    length, so that the default of [ith] is never used. *)
Definition ith (l : bytes) (i : nat) : Z := b2z (nth i l x00).

Definition load3 (l : bytes) : Z :=
  let r := ith l 0 in
  let r := Z.lor r (ith l 1 << 8)%int64 in
  Z.lor r (ith l 2 << 16)%int64.
Definition load4 (l : bytes) : Z :=
  let r := ith l 0 in
  let r := Z.lor r (ith l 1 << 8)%int64 in
  let r := Z.lor r (ith l 2 << 16)%int64 in
  Z.lor r (ith l 3 << 24)%int64.

Lemma ith_range l i : 0 <= ith l i < 256.
Proof. apply b2z_range. Qed.

Lemma load3_exact l : exact (load3 l) (ith l 0 + 2 ^ 8 * ith l 1 + 2 ^ 16 * ith l 2) 16777215.
Proof.
  pose proof (ith_range l 0). pose proof (ith_range l 1). pose proof (ith_range l 2). split; [|lia].
  unfold load3. rewrite !i64_small by (rewrite Z.shiftl_mul_pow2; lia).
  rewrite (lor_add _ _ 8), (lor_add _ _ 16); lia.
Qed.

Lemma load4_exact l :
  exact (load4 l) (ith l 0 + 2 ^ 8 * ith l 1 + 2 ^ 16 * ith l 2 + 2 ^ 24 * ith l 3) 4294967295.
Proof.
  pose proof (ith_range l 0). pose proof (ith_range l 1). pose proof (ith_range l 2).
  pose proof (ith_range l 3). split; [|lia].
  unfold load4. rewrite !i64_small by (rewrite Z.shiftl_mul_pow2; lia).
  rewrite (lor_add _ _ 8), (lor_add _ _ 16), (lor_add _ _ 24); lia.
Qed.
#[export] Hint Resolve load3_exact load4_exact : machine.

(** The integer of the low 255 bits: [FeFromBytes] ignores the highest one. *)
Lemma le_value_low l b :
  length l = 31%nat -> le_value (l ++ [b]) mod 2 ^ 255 = le_value l + 2 ^ 248 * (b2z b mod 2 ^ 7).
Proof.
  intros Hl. rewrite le_value_snoc. pose proof (le_value_range l) as Hr.
  unfold zlen in *. rewrite Hl in *. change (256 ^ Z.of_nat 31) with (2 ^ 248) in *.
  pose proof (b2z_range b). pose proof (Z.mod_pos_bound (b2z b) (2 ^ 7) ltac:(lia)).
  symmetry. apply (Z.mod_unique _ _ (b2z b / 2 ^ 7)); [lia|].
  rewrite (Z.div_mod (b2z b) (2 ^ 7)) at 1 by lia. lia.
Qed.

Lemma le_value_inj a b : length a = length b -> le_value a = le_value b -> a = b.
Proof. intros Hl Hv. rewrite <- (le_bytes_value a), <- (le_bytes_value b), Hl, Hv. done. Qed.

Lemma lor_byte a b : Z.lor a (i32 b) mod 256 = Z.lor a b mod 256.
Proof.
  change 256 with (2 ^ 8). rewrite <- !Z.land_ones, !Z.land_lor_distr_l, !Z.land_ones by lia. f_equal.
  rewrite (Znumtheory.Zmod_div_mod _ (2 ^ 32) (i32 b)), (Znumtheory.Zmod_div_mod _ (2 ^ 32) b)
    by first [lia | exists (2 ^ 24); done].
  unfold i32. rewrite sint_idemp by lia. done.
Qed.

(** A limb by its bits: [s] low ones, two bytes, and the rest. *)
Lemma limb_digits s t u h :
  (t =? Z.abs s + 8) = true -> (u =? Z.abs s + 16) = true -> (0 <=? s) = true ->
  h = h mod 2 ^ s + 2 ^ s * ((h / 2 ^ s) mod 256) + 2 ^ t * ((h / 2 ^ t) mod 256) + 2 ^ u * (h / 2 ^ u).
Proof.
  rewrite !Z.eqb_eq, Z.leb_le. intros -> -> Hs. rewrite Z.abs_eq by done. assert (0 < 2 ^ s) by (apply Z.pow_pos_nonneg; lia).
  rewrite !Z.pow_add_r, <- !Z.div_div by lia. change (2 ^ 16) with (256 * 256).
  rewrite <- Z.div_div by lia. change (2 ^ 8) with 256.
  pose proof (Z.div_mod h (2 ^ s)). pose proof (Z.div_mod (h / 2 ^ s) 256).
  pose proof (Z.div_mod (h / 2 ^ s / 256) 256). nia.
Qed.

Lemma straddle s a h : 0 <= s <= 8 -> 0 <= a < 2 ^ s -> (a + 2 ^ s * h) mod 256 = a + 2 ^ s * (h mod 2 ^ (8 - s)).
Proof.
  intros Hs Ha. assert (E : 256 = 2 ^ s * 2 ^ (8 - s)).
  { rewrite <- Z.pow_add_r by lia. replace (s + (8 - s)) with 8 by lia. done. }
  assert (Hm : 0 < 2 ^ (8 - s)) by (apply Z.pow_pos_nonneg; lia).
  pose proof (Z.mod_pos_bound h (2 ^ (8 - s)) Hm). rewrite E.
  generalize dependent (2 ^ (8 - s)). generalize dependent (2 ^ s). intros u Ha m E Hm H.
  symmetry. apply (Z.mod_unique _ _ (h / m)); [nia|]. rewrite (Z.div_mod h m) at 1 by lia. ring.
Qed.
