(* ===== verification/Prime.v ===== *)
(** * Primality certificates and Fermat's theorem

    The field of ed25519 is the integers modulo 2^255-19.  That this is a prime follows from
    Pocklington's criterion ([pocklington]), checked by modular exponentiation with [powm];
    Fermat's little theorem ([fermat]) then makes the power chain of [FeInvert] an inverse. *)

From Stdlib Require Import Znumtheory Wf_nat.
From S2P Require Import Prelude.
#[local] Open Scope Z_scope.

(** [a^e] modulo m, by squaring; [red] reduces modulo m. *)
Definition reduces (m : Z) (red : Z -> Z) : Prop := forall x, red x mod m = x mod m.

Fixpoint powm (red : Z -> Z) (a : Z) (e : positive) : Z :=
  match e with
  | xH => red a
  | xO e => let b := powm red a e in red (b * b)
  | xI e => let b := powm red a e in red (a * red (b * b))
  end.

Lemma powm_spec m red a e : reduces m red -> powm red a e mod m = (a ^ Zpos e) mod m.
Proof.
  intros Hred.
  assert (S : forall b x, b mod m = x mod m -> (b * b) mod m = (x * x) mod m).
  { intros b x E. rewrite Zmult_mod, E, <- Zmult_mod. done. }
  induction e as [e IH|e IH|]; cbn [powm]; rewrite Hred.
  - rewrite <- Zmult_mod_idemp_r, Hred, (S _ _ IH), Zmult_mod_idemp_r, <- Z.pow_add_r, <- Z.pow_succ_r by lia.
    do 2 f_equal. lia.
  - rewrite (S _ _ IH), <- Z.pow_add_r by lia. do 2 f_equal. lia.
  - rewrite Z.pow_1_r. done.
Qed.

Lemma modulo_reduces m : reduces m (fun x => x mod m).
Proof. intros x. apply Zmod_mod. Qed.

(** Modulo 2^255-19, by folding the bits above 2^255. *)
Definition fold25519 (x : Z) : Z := 19 * Z.shiftr x 255 + Z.land x (Z.ones 255).
Definition red25519 (x : Z) : Z := fold25519 (fold25519 x).

Lemma red25519_reduces : reduces (2 ^ 255 - 19) red25519.
Proof.
  assert (F : reduces (2 ^ 255 - 19) fold25519).
  { intros x. unfold fold25519. rewrite Z.land_ones, Z.shiftr_div_pow2 by lia.
    rewrite (Z.div_mod x (2 ^ 255)) at 3 by lia.
    replace (2 ^ 255 * (x / 2 ^ 255) + x mod 2 ^ 255)
      with (19 * (x / 2 ^ 255) + x mod 2 ^ 255 + x / 2 ^ 255 * (2 ^ 255 - 19)) by ring.
    rewrite Z_mod_plus_full. done. }
  intros x. unfold red25519. rewrite !F. done.
Qed.

(** ** Prime divisors *)

Lemma prime_divisor n : 1 < n -> exists r, prime r /\ (r | n).
Proof.
  intros Hn. assert (H0 : 0 <= n) by lia. revert Hn. pattern n. apply Z_lt_induction; [|done].
  clear n H0. intros n IH Hn. destruct (prime_dec n) as [Hp|Hp].
  - exists n. split; [done | apply Z.divide_refl].
  - destruct (not_prime_divide n Hn Hp) as (d & Hd & Hdn). destruct (IH d) as (r & Hr & Hrd); [lia..|].
    exists r. split; [done | etrans; done].
Qed.

(** A number all of whose prime divisors exceed its square root is prime. *)
Lemma large_divisors_prime n b :
  1 < n -> 0 <= b -> n < (b + 1) * (b + 1) -> (forall r, prime r -> (r | n) -> b < r) -> prime n.
Proof.
  intros Hn Hb Hsq Hr. destruct (prime_dec n) as [Hp|Hp]; [done|]. exfalso.
  assert (Hd : forall d, 1 < d -> (d | n) -> b < d).
  { intros d Hd Hdn. destruct (prime_divisor d Hd) as (r & Hpr & Hrd).
    pose proof (Hr r Hpr (Z.divide_trans _ _ _ Hrd Hdn)). apply Z.divide_pos_le in Hrd; lia. }
  destruct (not_prime_divide n Hn Hp) as (d & Hd1 & Hdn). pose proof (Hd d ltac:(lia) Hdn).
  destruct Hdn as (k & ->). pose proof (Hd k ltac:(nia) (Z.divide_factor_l k d)). nia.
Qed.

(** Trial division. *)
Definition no_divisor (n : Z) (bound : nat) : bool :=
  forallb (fun k => negb (n mod Z.of_nat k =? 0)) (seq 2 bound).

Lemma trial_division n bound :
  1 < n -> n < (Z.of_nat bound + 2) * (Z.of_nat bound + 2) -> no_divisor n bound = true -> prime n.
Proof.
  intros Hn Hb Hd. apply (large_divisors_prime n (Z.of_nat bound + 1)); [lia..|].
  intros r Hr Hrn. destruct (Z.lt_ge_cases (Z.of_nat bound + 1) r) as [H|H]; [done|]. exfalso.
  pose proof (prime_ge_2 r Hr). unfold no_divisor in Hd. rewrite forallb_forall in Hd.
  specialize (Hd (Z.to_nat r)). rewrite negb_true_iff, Z.eqb_neq, Z2Nat.id in Hd by lia.
  apply Hd; [apply in_seq; lia | by apply Zdivide_mod].
Qed.

(** ** The order of a number modulo a prime *)

Section Order.
Context (r a : Z) (Hr : prime r).

Definition one_at (k : Z) : Prop := (r | a ^ k - 1).

Lemma one_at_mod k : one_at k <-> (a ^ k) mod r = 1.
Proof.
  pose proof (prime_ge_2 r Hr). unfold one_at. rewrite <- Z.mod_divide by lia.
  rewrite <- (Z.mod_small 1 r) at 2 by lia. symmetry. apply Z.cong_iff_0.
Qed.

Lemma divide_pow i : 0 <= i -> (r | a ^ i) -> (r | a).
Proof.
  intros Hi. pattern i. apply natlike_ind; [|intros k Hk IH|done].
  - intros H. apply Z.divide_pos_le in H; pose proof (prime_ge_2 r Hr); lia.
  - rewrite Z.pow_succ_r by done. intros [H|H]%(prime_mult r Hr); auto.
Qed.

Lemma one_at_not_dvd k : 0 < k -> one_at k -> forall i, 0 <= i -> ~ (r | a ^ i).
Proof.
  intros Hk Hone i Hi Hd. pose proof (prime_ge_2 r Hr).
  assert (Hra : (r | a)) by (by apply (divide_pow i)).
  assert (Hrk : (r | a ^ k)).
  { replace k with (Z.succ (k - 1)) by lia. rewrite Z.pow_succ_r by lia. by apply Z.divide_mul_l. }
  pose proof (Z.divide_sub_r _ _ _ Hrk Hone) as Hone'. replace (a ^ k - (a ^ k - 1)) with 1 in Hone' by ring.
  apply Z.divide_pos_le in Hone'; lia.
Qed.

Lemma one_at_sub i j : 0 <= i <= j -> one_at j -> one_at i -> one_at (j - i).
Proof.
  intros Hij Hj Hi. pose proof (prime_ge_2 r Hr).
  rewrite one_at_mod in *. 
  assert (E : a ^ j = a ^ i * a ^ (j - i)) by (rewrite <- Z.pow_add_r by lia; f_equal; lia).
  rewrite E, Zmult_mod, Hi, Z.mul_1_l, Zmod_mod in Hj. done.
Qed.

(** The least positive exponent that gives one divides the others. *)
Lemma order_exists k :
  0 < k -> one_at k ->
  exists d, 0 < d /\ one_at d /\ (forall i, 0 < i < d -> ~ one_at i) /\
    forall j, 0 <= j -> one_at j -> (d | j).
Proof.
  intros Hk Hone.
  destruct (dec_inh_nat_subset_has_unique_least_element (fun n => one_at (Z.of_nat n + 1)))
    as (m & (Hm & Hleast) & _).
  { intros n. destruct (decide ((a ^ (Z.of_nat n + 1)) mod r = 1)) as [H|H]; rewrite one_at_mod; tauto. }
  { exists (Z.to_nat (k - 1)). rewrite Z2Nat.id by lia. by replace (k - 1 + 1) with k by lia. }
  set (d := Z.of_nat m + 1). assert (Hmin : forall i, 0 < i < d -> ~ one_at i).
  { intros i Hi H. specialize (Hleast (Z.to_nat (i - 1))). rewrite Z2Nat.id in Hleast by lia.
    replace (i - 1 + 1) with i in Hleast by lia. specialize (Hleast H). lia. }
  exists d. split; [lia|]. split; [done|]. split; [done|].
  intros j Hj. pattern j. apply Z_lt_induction; [|done]. clear j Hj. intros j IH Hj.
  destruct (Z.lt_ge_cases j d) as [Hd|Hd].
  - destruct (decide (j = 0)) as [->|]; [apply Z.divide_0_r|]. exfalso. apply (Hmin j); [|done].
    destruct (Z.lt_ge_cases 0 j) as [?|?]; [done|]. exfalso.
    assert (j < 0) by lia. destruct (Z.lt_ge_cases j 0); [|lia].
    revert Hj. unfold one_at. rewrite Z.pow_neg_r by done. intros H'.
    apply Z.divide_opp_r in H'. apply Z.divide_pos_le in H'; pose proof (prime_ge_2 r Hr); lia.
  - assert (H : (d | j - d)) by (apply IH; [lia | apply one_at_sub; auto; lia]).
    replace j with (j - d + d) by lia. by apply Z.divide_add_r.
Qed.

Lemma seqZ_NoDup_map (f : Z -> Z) n :
  (forall i j, 0 <= i < j -> j < n -> f i <> f j) -> NoDup (f <$> seqZ 0 n).
Proof.
  intros H. apply NoDup_fmap_2_strong; [|apply NoDup_seqZ].
  intros i j Hi%elem_of_seqZ Hj%elem_of_seqZ E. destruct (Z.lt_trichotomy i j) as [L|[L|L]]; [|done|].
  - destruct (H i j); [lia..|done].
  - destruct (H j i); [lia..|done].
Qed.

(** The powers of [a] below its order are distinct non-zero residues. *)
Lemma order_lt d : 0 < d -> one_at d -> (forall i, 0 < i < d -> ~ one_at i) -> d < r.
Proof.
  intros Hd Hone Hmin. pose proof (prime_ge_2 r Hr).
  assert (Hsub : (fun i => (a ^ i) mod r) <$> seqZ 0 d ⊆+ seqZ 1 (r - 1)).
  { apply NoDup_submseteq.
    - apply seqZ_NoDup_map. intros i j Hi Hj E. apply (Hmin (j - i)); [lia|].
      assert (Hdiv : (r | a ^ i * (a ^ (j - i) - 1))).
      { replace (a ^ i * (a ^ (j - i) - 1)) with (a ^ j - a ^ i).
        - apply Z.mod_divide; [lia|]. rewrite Zminus_mod, E, Z.sub_diag. apply Z.mod_0_l. lia.
        - replace j with (i + (j - i)) at 1 by lia. rewrite Z.pow_add_r by lia. ring. }
      apply (prime_mult r Hr) in Hdiv as [Hdiv|Hdiv]; [|done].
      destruct (one_at_not_dvd d Hd Hone i ltac:(lia) Hdiv).
    - intros x (i & -> & Hi%elem_of_seqZ)%list_elem_of_fmap. apply elem_of_seqZ.
      pose proof (Z.mod_pos_bound (a ^ i) r). assert ((a ^ i) mod r <> 0); [|lia].
      rewrite Z.mod_divide by lia. apply (one_at_not_dvd d); auto; lia. }
  apply submseteq_length in Hsub. rewrite length_fmap, !length_seqZ in Hsub. lia.
Qed.
End Order.

(** ** Pocklington's criterion *)

Definition product : list Z -> Z := foldr Z.mul 1.

Lemma product_pos qs : Forall prime qs -> 0 < product qs.
Proof.
  induction 1 as [|q qs Hq _ IH]; [done|]. pose proof (prime_ge_2 q Hq). simpl. lia.
Qed.

Lemma prime_divides_product q qs : prime q -> Forall prime qs -> (q | product qs) -> q ∈ qs.
Proof.
  intros Hq. induction 1 as [|x qs Hx _ IH]; simpl; intros Hd.
  - apply Z.divide_pos_le in Hd; pose proof (prime_ge_2 q Hq); lia.
  - apply (prime_mult q Hq) in Hd as [Hd|Hd]; [|right; auto].
    rewrite (prime_div_prime q x) by done. left.
Qed.

Lemma product_divides qs d :
  Forall prime qs -> NoDup qs -> Forall (fun q => (q | d)) qs -> (product qs | d).
Proof.
  induction 1 as [|q qs Hq Hqs IH]; simpl; intros Hnd Hd; [apply Z.divide_1_l|].
  apply NoDup_cons in Hnd as [Hin Hnd]. apply Forall_cons in Hd as [Hqd Hd].
  destruct (IH Hnd Hd) as (k & ->). apply (prime_mult q Hq) in Hqd as [(j & ->)|Hqd].
  - exists j. ring.
  - destruct Hin. by apply prime_divides_product.
Qed.

Definition pocklington_check (red : Z -> Z) (n a : Z) (qs : list Z) : bool :=
  (1 <? n) && (n <? (product qs + 1) * (product qs + 1)) && bool_decide (NoDup qs) &&
  (powm red a (Z.to_pos (n - 1)) mod n =? 1) &&
  forallb (fun q => ((n - 1) mod q =? 0) && (1 <? (n - 1) / q) &&
                    (Z.gcd (powm red a (Z.to_pos ((n - 1) / q)) - 1) n =? 1)) qs.

Lemma divide_powm r n red a e :
  0 < n -> reduces n red -> (r | n) -> (r | a ^ Zpos e - 1) -> (r | powm red a e - 1).
Proof.
  intros Hn Hred Hrn H. pose proof (powm_spec n red a e Hred) as [k E]%Z.cong_iff_ex.
  replace (powm red a e - 1) with (k * n + (a ^ Zpos e - 1)) by lia.
  apply Z.divide_add_r; [by apply Z.divide_mul_r | done].
Qed.

Lemma pocklington (red : Z -> Z) (n a : Z) (qs : list Z) :
  reduces n red -> Forall prime qs -> pocklington_check red n a qs = true -> prime n.
Proof.
  intros Hred Hqs. unfold pocklington_check.
  rewrite !andb_true_iff, !Z.ltb_lt, Z.eqb_eq, bool_decide_eq_true, forallb_forall.
  intros [[[[Hn Hsq] Hnd] Hone] Hall]. pose proof (product_pos qs Hqs).
  apply (large_divisors_prime n (product qs)); [lia..|]. intros r Hr Hrn.
  pose proof (prime_ge_2 r Hr).
  assert (H1 : one_at r a (n - 1)).
  { rewrite (powm_spec n red a _ Hred), Z2Pos.id in Hone by lia. unfold one_at. apply (Z.divide_trans _ n); [done|].
    apply Z.mod_divide; [lia|]. rewrite Zminus_mod, Hone, Z.mod_1_l, Z.sub_diag by lia. apply Z.mod_0_l. lia. }
  destruct (order_exists r a Hr (n - 1)) as (d & Hd & Hd1 & Hmin & Hdiv); [lia|done|].
  apply (Z.le_lt_trans _ d); [|by apply (order_lt r a)]. apply Z.divide_pos_le; [done|].
  apply product_divides; [done..|]. apply Forall_forall. intros q Hq.
  assert (Hpq : prime q) by (rewrite Forall_forall in Hqs; auto). pose proof (prime_ge_2 q Hpq).
  specialize (Hall q ltac:(by apply list_elem_of_In)).
  rewrite !andb_true_iff, !Z.eqb_eq, Z.ltb_lt in Hall. destruct Hall as [[Hq0 Hm] Hgcd].
  destruct (Zdivide_dec q d) as [Hqd|Hqd]; [done|]. exfalso.
  set (m := (n - 1) / q) in *. assert (En : n - 1 = q * m) by (apply Z_div_exact_full_2; lia).
  assert (Hdm : (d | m)).
  { apply (Gauss d q); [rewrite <- En; apply Hdiv; [lia|done] | apply rel_prime_sym, prime_rel_prime; done]. }
  assert (Hm1 : one_at r a m).
  { destruct Hdm as (k & ->). unfold one_at. assert (0 <= k) by nia. rewrite Z.mul_comm, Z.pow_mul_r by lia.
    apply (Z.divide_trans _ (a ^ d - 1)); [done|]. pattern k. apply natlike_ind; [apply Z.divide_0_r| |done].
    intros x Hx IH. rewrite Z.pow_succ_r by done.
    replace (a ^ d * (a ^ d) ^ x - 1) with (a ^ d * ((a ^ d) ^ x - 1) + (a ^ d - 1)) by ring.
    apply Z.divide_add_r; [by apply Z.divide_mul_r | apply Z.divide_refl]. }
  assert (Hr1 : (r | 1)).
  { rewrite <- Hgcd. apply Z.gcd_greatest; [|done]. apply (divide_powm r n red); [lia|done..|].
    rewrite Z2Pos.id by lia. done. }
  apply Z.divide_pos_le in Hr1; lia.
Qed.

(** ** Fermat's little theorem *)

Lemma product_perm l k : l ≡ₚ k -> product l = product k.
Proof. induction 1; simpl; lia. Qed.

Lemma product_scale r a l :
  product ((fun i => (a * i) mod r) <$> l) mod r = (a ^ zlen l * product l) mod r.
Proof.
  induction l as [|x l IH]; [done|]. rewrite zlen_cons, fmap_cons. cbn [product foldr]. fold (product l).
  fold (product ((fun i => (a * i) mod r) <$> l)).
  rewrite Zmult_mod_idemp_l, <- Zmult_mod_idemp_r, IH, Zmult_mod_idemp_r.
  rewrite Z.pow_add_r by (pose proof (zlen_nonneg l); lia). rewrite Z.pow_1_r. f_equal. ring.
Qed.

Lemma fermat (r a : Z) : prime r -> ~ (r | a) -> (a ^ (r - 1)) mod r = 1.
Proof.
  intros Hr Ha. pose proof (prime_ge_2 r Hr). set (l := seqZ 1 (r - 1)).
  assert (Hl : forall x, x ∈ l <-> 1 <= x < r) by (intros; unfold l; rewrite elem_of_seqZ; lia).
  assert (Hnd : NoDup ((fun i => (a * i) mod r) <$> l)).
  { apply NoDup_fmap_2_strong; [|apply NoDup_seqZ]. intros i j Hi%Hl Hj%Hl E.
    assert (Hd : (r | a * (i - j))).
    { rewrite Z.mul_sub_distr_l. apply Z.mod_divide; [lia|].
      rewrite Zminus_mod, E, Z.sub_diag. apply Z.mod_0_l. lia. }
    apply (prime_mult r Hr) in Hd as [Hd|Hd]; [done|].
    destruct (decide (i = j)) as [|Hij]; [done|]. exfalso.
    destruct (Z.lt_ge_cases i j).
    - replace (i - j) with (- (j - i)) in Hd by ring. apply Z.divide_opp_r in Hd. apply Z.divide_pos_le in Hd; lia.
    - apply Z.divide_pos_le in Hd; lia. }
  assert (Hperm : (fun i => (a * i) mod r) <$> l ≡ₚ l).
  { apply submseteq_length_Permutation; [apply NoDup_submseteq; [done|] | rewrite length_fmap; lia].
    intros x (i & -> & Hi%Hl)%list_elem_of_fmap. apply Hl.
    pose proof (Z.mod_pos_bound (a * i) r). assert ((a * i) mod r <> 0); [|lia].
    rewrite Z.mod_divide by lia. intros [Hd|Hd]%(prime_mult r Hr); [done|]. apply Z.divide_pos_le in Hd; lia. }
  pose proof (product_scale r a l) as E. rewrite (product_perm _ _ Hperm) in E.
  assert (Hlen : zlen l = r - 1) by (unfold zlen, l; rewrite length_seqZ; lia). rewrite Hlen in E.
  assert (Hnp : ~ (r | product l)).
  { clear - Hr Hl H. assert (Hl' : Forall (fun x => 1 <= x < r) l) by (apply Forall_forall; intros; by apply Hl).
    clear Hl. induction Hl' as [|x k Hx _ IH]; simpl.
    - intros Hd. apply Z.divide_pos_le in Hd; lia.
    - intros [Hd|Hd]%(prime_mult r Hr); [|done]. apply Z.divide_pos_le in Hd; lia. }
  assert (Hd : (r | (a ^ (r - 1) - 1) * product l)).
  { rewrite Z.mul_sub_distr_r, Z.mul_1_l. apply Z.mod_divide; [lia|].
    rewrite Zminus_mod, <- E, Z.sub_diag. apply Z.mod_0_l. lia. }
  apply (prime_mult r Hr) in Hd as [Hd|Hd]; [|done]. by apply one_at_mod.
Qed.

(** ** The prime of ed25519 *)

(** A small prime by trial division, a larger one by its certificate: the base 2 and enough
    prime factors of its predecessor, themselves proved first. *)
Ltac by_trial :=
  match goal with |- prime ?n =>
    let b := eval vm_compute in (Z.to_nat (Z.sqrt n)) in
    apply (trial_division n b); [done | done | vm_compute; reflexivity]
  end.
Ltac certify_with red Hred qs :=
  apply (pocklington red _ 2 qs);
  [exact Hred
  |repeat (apply Forall_cons; split); first [assumption | by apply Forall_nil | by_trial]
  | vm_compute; reflexivity].
Ltac certify qs :=
  match goal with |- prime ?n => certify_with (fun x => x mod n) (modulo_reduces n) qs end.

Lemma prime_25519 : prime (2 ^ 255 - 19).
Proof.
  assert (prime 8574133) by certify [991; 103].
  assert (prime 1919519569386763) by certify [8574133; 127].
  assert (prime 2773320623) by certify [569003].
  assert (prime 72106336199) by certify [2773320623].
  assert (prime 75445702479781427272750846543864801) by certify [1919519569386763; 72106336199].
  assert (prime 31757755568855353) by certify [430751; 4153].
  assert (prime 74058212732561358302231226437062788676166966415465897661863160754340907)
    by certify [75445702479781427272750846543864801; 31757755568855353].
  certify_with red25519 red25519_reduces [74058212732561358302231226437062788676166966415465897661863160754340907].
Qed.
