(* ===== verification/Modp.v ===== *)
(** * The integers modulo 2^255-19

    Equality modulo p ([=p]) as a congruence of the integer operations, and the field it makes of
    them: no zero divisors, Fermat's theorem, inverses. *)

From Stdlib Require Import Setoid Morphisms Znumtheory.
From S2P Require Import Prelude Prime Word.
#[local] Open Scope Z_scope.

Definition p : Z := 2 ^ 255 - 19.

Inductive eqp (a b : Z) : Prop := eqp_mod (H : a mod p = b mod p).
Notation "a =p b" := (eqp a b) (at level 70) : Z_scope.

Lemma p_pos : 0 < p.
Proof. reflexivity. Qed.
Lemma eqp_iff a b : a =p b <-> a mod p = b mod p.
Proof. split; [intros [H]; exact H | apply eqp_mod]. Qed.

#[export] Instance eqp_equiv : Equivalence eqp.
Proof. split; red; intros *; rewrite !eqp_iff; congruence. Qed.
#[export] Instance eqp_add : Proper (eqp ==> eqp ==> eqp) Z.add.
Proof. intros a a' [Ha] b b' [Hb]. split. rewrite Zplus_mod, Ha, Hb, <- Zplus_mod. done. Qed.
#[export] Instance eqp_sub : Proper (eqp ==> eqp ==> eqp) Z.sub.
Proof. intros a a' [Ha] b b' [Hb]. split. rewrite Zminus_mod, Ha, Hb, <- Zminus_mod. done. Qed.
#[export] Instance eqp_mul : Proper (eqp ==> eqp ==> eqp) Z.mul.
Proof. intros a a' [Ha] b b' [Hb]. split. rewrite Zmult_mod, Ha, Hb, <- Zmult_mod. done. Qed.
#[export] Instance eqp_opp : Proper (eqp ==> eqp) Z.opp.
Proof. intros a a' Ha. change (- a) with (0 - a). change (- a') with (0 - a'). rewrite Ha. done. Qed.
#[export] Instance eqp_dec a b : Decision (a =p b).
Proof. destruct (decide (a mod p = b mod p)); [left | right]; rewrite eqp_iff; done. Defined.

Lemma eqp_diff a b k : a = b + p * k -> a =p b.
Proof. intros ->. apply eqp_iff. rewrite Z.mul_comm, Z_mod_plus_full. done. Qed.

#[export] Instance eqp_pow : Proper (eqp ==> eq ==> eqp) Z.pow.
Proof.
  intros a b H e ? <-. destruct (Z.lt_ge_cases e 0); [rewrite !Z.pow_neg_r by done; done|].
  pattern e. apply natlike_ind; [done | | done]. intros k Hk IH.
  rewrite !Z.pow_succ_r, IH, H by done. done.
Qed.

(** ** A field *)

Lemma eqp_0 a : a =p 0 <-> (p | a).
Proof. rewrite eqp_iff, Z.mod_0_l by done. apply Z.mod_divide. done. Qed.

Lemma eqp_integral a b : a * b =p 0 -> a =p 0 \/ b =p 0.
Proof. rewrite !eqp_0. apply prime_mult, prime_25519. Qed.

Lemma eqp_sub_0 a b : a =p b <-> a - b =p 0.
Proof.
  split; intros H; [rewrite H, Z.sub_diag; done|].
  replace a with (a - b + b) by ring. rewrite H. done.
Qed.

Lemma eqp_cancel a b c : ~ a =p 0 -> a * b =p a * c -> b =p c.
Proof.
  intros Ha H. apply eqp_sub_0 in H. rewrite <- Z.mul_sub_distr_l in H.
  apply eqp_sub_0. destruct (eqp_integral _ _ H); [contradiction | done].
Qed.

Lemma fermat_p a : ~ a =p 0 -> a ^ (p - 1) =p 1.
Proof.
  rewrite eqp_0. intros H. apply eqp_iff. rewrite (fermat p a prime_25519 H). done.
Qed.

Definition inv (a : Z) : Z := a ^ (p - 2).
#[export] Instance inv_proper : Proper (eqp ==> eqp) inv.
Proof. intros a b H. unfold inv. rewrite H. done. Qed.

Lemma inv_r a : ~ a =p 0 -> a * inv a =p 1.
Proof.
  intros H. unfold inv. rewrite <- Z.pow_succ_r by (unfold p; lia).
  replace (Z.succ (p - 2)) with (p - 1) by lia. by apply fermat_p.
Qed.

(** [x = n / m] by cross multiplication. *)
Lemma eqp_div x n m : ~ m =p 0 -> x =p n * inv m <-> x * m =p n.
Proof.
  intros Hm. split; intros H.
  - rewrite H. replace (n * inv m * m) with (n * (m * inv m)) by ring. rewrite inv_r, Z.mul_1_r by done. done.
  - apply (eqp_cancel m); [done|]. rewrite (Z.mul_comm m x), H.
    replace (m * (n * inv m)) with (n * (m * inv m)) by ring. rewrite inv_r, Z.mul_1_r by done. done.
Qed.

Lemma eqp_mul_0 a b : a * b =p 0 <-> a =p 0 \/ b =p 0.
Proof.
  split; [apply eqp_integral|]. intros [-> | ->]; [done | by rewrite Z.mul_0_r].
Qed.
Lemma eqp_nonzero_mul a b : ~ a =p 0 -> ~ b =p 0 -> ~ a * b =p 0.
Proof. rewrite eqp_mul_0. tauto. Qed.

Lemma eqp_0_1 : ~ 1 =p 0.
Proof. rewrite eqp_iff. vm_compute. congruence. Qed.
