(* ===== verification/FieldRep.v ===== *)
(** * Field elements, whatever their representation

    The package [src/crypto/ed25519/internal/edwards25519/] has two representations of a field
    element, chosen by the architecture at compile time ([fe.go] and [fe_amd64.go]), each with
    its constants and tables; [field.go] and [group.go] are compiled against either.  Here a
    representation is a class: the operations those files use ([FieldElements]), the constants
    ([Constants]), and what the operations promise ([FieldLaws]).  [Fe.v] and [FeAmd64.v] are
    the instances; [Field.v], [Group.v] and what is above them use the class only. *)

From Stdlib Require Import Setoid Morphisms.
From S2P Require Import Prelude Prime Word Modp.
#[local] Open Scope Z_scope.

(** [limb0 n] is the element whose first limb is [n] and whose others are zero.  [FeToBytes]
    writes through both its pointers: it returns the bytes, and the element it leaves its argument
    as (the portable one normalises it in place). *)
Class FieldElements := {
  FieldElement : Type;
  limb0 : Z -> FieldElement;
  FeAdd : FieldElement -> FieldElement -> FieldElement;
  FeSub : FieldElement -> FieldElement -> FieldElement;
  FeNeg : FieldElement -> FieldElement;
  FeMul : FieldElement -> FieldElement -> FieldElement;
  FeSquare : FieldElement -> FieldElement;
  FeSquare2 : FieldElement -> FieldElement;
  FeCMove : FieldElement -> FieldElement -> Z -> FieldElement;
  FeFromBytes : bytes -> FieldElement;
  FeToBytes : FieldElement -> bytes * FieldElement;
}.

(** A point as [(y + x, y - x, 2 d x y)]. *)
Record PreComputedGroupElement {F : FieldElements} := mkPre {
  yPlusX : FieldElement; yMinusX : FieldElement; xy2d : FieldElement }.
Arguments mkPre {F} _ _ _.

Class Constants (F : FieldElements) := {
  d : FieldElement;
  d2 : FieldElement;
  SqrtM1 : FieldElement;
  bi : list PreComputedGroupElement;
  base : list (list PreComputedGroupElement);
}.

(** The contract.  [val] is the integer an element stands for, and [size k] bounds its limbs as a
    sum of [k] results of multiplications; sums of three may be multiplied again. *)
Class FieldLaws (F : FieldElements) := {
  val : FieldElement -> Z;
  size : Z -> FieldElement -> Prop;
  size_mono j k f : j <= k -> size j f -> size k f;
  limb0_law n : 0 <= n <= 1 -> size 1 (limb0 n) /\ val (limb0 n) = n;
  FeAdd_law j k f g : size j f -> size k g -> 1 <= j -> 1 <= k -> j + k <= 3 ->
    size (j + k) (FeAdd f g) /\ val (FeAdd f g) =p val f + val g;
  FeSub_law j k f g : size j f -> size k g -> 1 <= j -> 1 <= k -> j + k <= 3 ->
    size (j + k) (FeSub f g) /\ val (FeSub f g) =p val f - val g;
  FeNeg_law k f : size k f -> 1 <= k <= 2 -> size k (FeNeg f) /\ val (FeNeg f) =p - val f;
  FeMul_law f g : size 3 f -> size 3 g -> size 1 (FeMul f g) /\ val (FeMul f g) =p val f * val g;
  FeSquare_law f : size 3 f -> size 1 (FeSquare f) /\ val (FeSquare f) =p val f * val f;
  FeSquare2_law f : size 3 f -> size 1 (FeSquare2 f) /\ val (FeSquare2 f) =p 2 * (val f * val f);
  FeCMove_law f g b : size 1 f -> size 1 g -> FeCMove f g (Z.b2z b) = if b then g else f;
  FeFromBytes_law s : length s = 32%nat ->
    size 1 (FeFromBytes s) /\ val (FeFromBytes s) =p le_value s mod 2 ^ 255;
  FeToBytes_law k f : size k f -> k <= 3 ->
    (length (FeToBytes f).1 = 32%nat /\ le_value (FeToBytes f).1 = val f mod p) /\
    size (Z.max 2 k) (FeToBytes f).2 /\ val (FeToBytes f).2 =p val f;
}.

Section Sizes.
Context {F : FieldElements} {L : FieldLaws F}.

(** What the multiplications return, and what they take. *)
Definition tight (f : FieldElement) : Prop := size 1 f.
Definition loose (f : FieldElement) : Prop := size 3 f.

Lemma tight_loose f : tight f -> loose f.
Proof. apply size_mono. lia. Qed.
Lemma size_loose k f : size k f -> k <= 3 -> loose f.
Proof. intros H Hk. by apply (size_mono k). Qed.

Lemma FeMul_size j k f g : size j f -> size k g -> j <= 3 -> k <= 3 ->
  size 1 (FeMul f g) /\ val (FeMul f g) =p val f * val g.
Proof. intros. apply FeMul_law; by eapply size_loose. Qed.
Lemma FeSquare_size k f : size k f -> k <= 3 -> size 1 (FeSquare f) /\ val (FeSquare f) =p val f * val f.
Proof. intros. apply FeSquare_law; by eapply size_loose. Qed.
Lemma FeSquare2_size k f : size k f -> k <= 3 ->
  size 1 (FeSquare2 f) /\ val (FeSquare2 f) =p 2 * (val f * val f).
Proof. intros. apply FeSquare2_law; by eapply size_loose. Qed.
End Sizes.

#[export] Hint Resolve tight_loose : cocher.

(** ** The field operations along a body *)

Ltac known_size f := lazymatch goal with H : size _ f |- _ => H end.
(** Take the next operation of a body: its result is a variable of known size and value. *)
Ltac fe_op :=
  lazymatch goal with
  | |- ?R (let t := ?X in @?B t) ?P =>
      let H := fresh "H" in
      lazymatch X with
      | FeAdd ?a ?b => let Ha := known_size a in let Hb := known_size b in
          pose proof (FeAdd_law _ _ a b Ha Hb ltac:(lia) ltac:(lia) ltac:(lia)) as H
      | FeSub ?a ?b => let Ha := known_size a in let Hb := known_size b in
          pose proof (FeSub_law _ _ a b Ha Hb ltac:(lia) ltac:(lia) ltac:(lia)) as H
      | FeMul ?a ?b => let Ha := known_size a in let Hb := known_size b in
          pose proof (FeMul_size _ _ a b Ha Hb ltac:(lia) ltac:(lia)) as H
      | FeSquare ?a => let Ha := known_size a in pose proof (FeSquare_size _ a Ha ltac:(lia)) as H
      | FeSquare2 ?a => let Ha := known_size a in pose proof (FeSquare2_size _ a Ha ltac:(lia)) as H
      end;
      lazymatch type of H with
      | size (?j + ?k) _ /\ _ => let n := eval compute in (j + k) in change (j + k) with n in H
      | _ => idtac
      end;
      change (R (B X) P);
      let t := fresh "t" in let E := fresh "E" in
      revert H; generalize X; intros t [H E]; cbv beta
  end.
Ltac fe_ops := repeat fe_op.
Ltac sizes := repeat split; (eapply size_mono; [|eassumption]; lia).
