(* ===== verification/Fe.v ===== *)
(** * Field elements of edwards25519, 32-bit limbs

    [src/crypto/ed25519/internal/edwards25519/fe.go], the representation the Go compiler takes on
    every architecture but amd64: an element of the field of 2^255-19 elements is ten [int32]
    limbs of alternately 26 and 25 bits.  Every operation is written with the width of its
    operands, under [int32_scope] and [int64_scope].

    [val] is the integer an element stands for and [=p] equality modulo p.  An operation is
    correct when, on inputs within its bounds, no intermediate value overflows, its result is
    within the output bounds and has the right value modulo p. *)

From Stdlib Require Import Setoid Morphisms.
From S2P Require Import Prelude Prime Word Modp FieldRep.
#[local] Open Scope Z_scope.

Record FieldElement := fe { fe0 : Z; fe1 : Z; fe2 : Z; fe3 : Z; fe4 : Z; fe5 : Z; fe6 : Z; fe7 : Z; fe8 : Z; fe9 : Z }.

(** Apply an operation limb by limb. *)
Definition map_limbs (op : Z -> Z -> Z) (a b : FieldElement) : FieldElement :=
  let 'fe a0 a1 a2 a3 a4 a5 a6 a7 a8 a9 := a in
  let 'fe b0 b1 b2 b3 b4 b5 b6 b7 b8 b9 := b in
  fe (op a0 b0) (op a1 b1) (op a2 b2) (op a3 b3) (op a4 b4)
     (op a5 b5) (op a6 b6) (op a7 b7) (op a8 b8) (op a9 b9).

Definition FeAdd (a b : FieldElement) : FieldElement := map_limbs (fun x y => (x + y)%int32) a b.
Definition FeSub (a b : FieldElement) : FieldElement := map_limbs (fun x y => (x - y)%int32) a b.
Definition FeNeg (f : FieldElement) : FieldElement := map_limbs (fun x _ => (- x)%int32) f f.

(** [f[i] ^= b & (f[i] ^ g[i])] with [b] negated: all ones or zero. *)
Definition FeCMove (f g : FieldElement) (b : Z) : FieldElement :=
  let b := (- b)%int32 in
  map_limbs (fun x y => Z.lxor x (Z.land b (Z.lxor x y))) f g.

Definition FeCombine (h0 h1 h2 h3 h4 h5 h6 h7 h8 h9 : Z) : FieldElement :=
  let '(h0, h1) := carry 26 h0 h1 in
  let '(h4, h5) := carry 26 h4 h5 in
  let '(h1, h2) := carry 25 h1 h2 in
  let '(h5, h6) := carry 25 h5 h6 in
  let '(h2, h3) := carry 26 h2 h3 in
  let '(h6, h7) := carry 26 h6 h7 in
  let '(h3, h4) := carry 25 h3 h4 in
  let '(h7, h8) := carry 25 h7 h8 in
  let '(h4, h5) := carry 26 h4 h5 in
  let '(h8, h9) := carry 26 h8 h9 in
  let '(h9, h0) := carry19 25 h9 h0 in
  let '(h0, h1) := carry 26 h0 h1 in
  fe (i32 h0) (i32 h1) (i32 h2) (i32 h3) (i32 h4) (i32 h5) (i32 h6) (i32 h7) (i32 h8) (i32 h9).

(** The conversions [int64(f[i])] of an [int32] are the identity. *)
Definition FeMul (f g : FieldElement) : FieldElement :=
  let 'fe f0 f1 f2 f3 f4 f5 f6 f7 f8 f9 := f in
  let 'fe g0 g1 g2 g3 g4 g5 g6 g7 g8 g9 := g in
  let f1_2 := (2 * f1)%int32 in
  let f3_2 := (2 * f3)%int32 in
  let f5_2 := (2 * f5)%int32 in
  let f7_2 := (2 * f7)%int32 in
  let f9_2 := (2 * f9)%int32 in
  let g1_19 := (19 * g1)%int32 in
  let g2_19 := (19 * g2)%int32 in
  let g3_19 := (19 * g3)%int32 in
  let g4_19 := (19 * g4)%int32 in
  let g5_19 := (19 * g5)%int32 in
  let g6_19 := (19 * g6)%int32 in
  let g7_19 := (19 * g7)%int32 in
  let g8_19 := (19 * g8)%int32 in
  let g9_19 := (19 * g9)%int32 in
let h0 := (f0 * g0 + f1_2 * g9_19 + f2 * g8_19 + f3_2 * g7_19 + f4 * g6_19 + f5_2 * g5_19 + f6 *
    g4_19 + f7_2 * g3_19 + f8 * g2_19 + f9_2 * g1_19)%int64 in
let h1 := (f0 * g1 + f1 * g0 + f2 * g9_19 + f3 * g8_19 + f4 * g7_19 + f5 * g6_19 + f6 * g5_19 + f7 *
    g4_19 + f8 * g3_19 + f9 * g2_19)%int64 in
let h2 := (f0 * g2 + f1_2 * g1 + f2 * g0 + f3_2 * g9_19 + f4 * g8_19 + f5_2 * g7_19 + f6 * g6_19 +
    f7_2 * g5_19 + f8 * g4_19 + f9_2 * g3_19)%int64 in
let h3 := (f0 * g3 + f1 * g2 + f2 * g1 + f3 * g0 + f4 * g9_19 + f5 * g8_19 + f6 * g7_19 + f7 * g6_19
    + f8 * g5_19 + f9 * g4_19)%int64 in
let h4 := (f0 * g4 + f1_2 * g3 + f2 * g2 + f3_2 * g1 + f4 * g0 + f5_2 * g9_19 + f6 * g8_19 + f7_2 *
    g7_19 + f8 * g6_19 + f9_2 * g5_19)%int64 in
let h5 := (f0 * g5 + f1 * g4 + f2 * g3 + f3 * g2 + f4 * g1 + f5 * g0 + f6 * g9_19 + f7 * g8_19 + f8
    * g7_19 + f9 * g6_19)%int64 in
let h6 := (f0 * g6 + f1_2 * g5 + f2 * g4 + f3_2 * g3 + f4 * g2 + f5_2 * g1 + f6 * g0 + f7_2 * g9_19
    + f8 * g8_19 + f9_2 * g7_19)%int64 in
let h7 := (f0 * g7 + f1 * g6 + f2 * g5 + f3 * g4 + f4 * g3 + f5 * g2 + f6 * g1 + f7 * g0 + f8 *
    g9_19 + f9 * g8_19)%int64 in
let h8 := (f0 * g8 + f1_2 * g7 + f2 * g6 + f3_2 * g5 + f4 * g4 + f5_2 * g3 + f6 * g2 + f7_2 * g1 +
    f8 * g0 + f9_2 * g9_19)%int64 in
let h9 := (f0 * g9 + f1 * g8 + f2 * g7 + f3 * g6 + f4 * g5 + f5 * g4 + f6 * g3 + f7 * g2 + f8 * g1 +
    f9 * g0)%int64 in
  FeCombine h0 h1 h2 h3 h4 h5 h6 h7 h8 h9.

Definition feSquare (f : FieldElement) : Z * Z * Z * Z * Z * Z * Z * Z * Z * Z :=
  let 'fe f0 f1 f2 f3 f4 f5 f6 f7 f8 f9 := f in
  let f0_2 := (2 * f0)%int32 in
  let f1_2 := (2 * f1)%int32 in
  let f2_2 := (2 * f2)%int32 in
  let f3_2 := (2 * f3)%int32 in
  let f4_2 := (2 * f4)%int32 in
  let f5_2 := (2 * f5)%int32 in
  let f6_2 := (2 * f6)%int32 in
  let f7_2 := (2 * f7)%int32 in
let f5_38 := (38 * f5)%int64 in
let f6_19 := (19 * f6)%int64 in
let f7_38 := (38 * f7)%int64 in
let f8_19 := (19 * f8)%int64 in
let f9_38 := (38 * f9)%int64 in
let h0 := (f0 * f0 + f1_2 * f9_38 + f2_2 * f8_19 + f3_2 * f7_38 + f4_2 * f6_19 + f5 * f5_38)%int64
    in
let h1 := (f0_2 * f1 + f2 * f9_38 + f3_2 * f8_19 + f4 * f7_38 + f5_2 * f6_19)%int64 in
let h2 := (f0_2 * f2 + f1_2 * f1 + f3_2 * f9_38 + f4_2 * f8_19 + f5_2 * f7_38 + f6 * f6_19)%int64 in
let h3 := (f0_2 * f3 + f1_2 * f2 + f4 * f9_38 + f5_2 * f8_19 + f6 * f7_38)%int64 in
let h4 := (f0_2 * f4 + f1_2 * f3_2 + f2 * f2 + f5_2 * f9_38 + f6_2 * f8_19 + f7 * f7_38)%int64 in
let h5 := (f0_2 * f5 + f1_2 * f4 + f2_2 * f3 + f6 * f9_38 + f7_2 * f8_19)%int64 in
let h6 := (f0_2 * f6 + f1_2 * f5_2 + f2_2 * f4 + f3_2 * f3 + f7_2 * f9_38 + f8 * f8_19)%int64 in
let h7 := (f0_2 * f7 + f1_2 * f6 + f2_2 * f5 + f3_2 * f4 + f8 * f9_38)%int64 in
let h8 := (f0_2 * f8 + f1_2 * f7_2 + f2_2 * f6 + f3_2 * f5_2 + f4 * f4 + f9 * f9_38)%int64 in
let h9 := (f0_2 * f9 + f1_2 * f8 + f2_2 * f7 + f3_2 * f6 + f4_2 * f5)%int64 in
  (h0, h1, h2, h3, h4, h5, h6, h7, h8, h9).

Definition FeSquare (f : FieldElement) : FieldElement :=
  let '(h0, h1, h2, h3, h4, h5, h6, h7, h8, h9) := feSquare f in
  FeCombine h0 h1 h2 h3 h4 h5 h6 h7 h8 h9.

Definition FeSquare2 (f : FieldElement) : FieldElement :=
  let '(h0, h1, h2, h3, h4, h5, h6, h7, h8, h9) := feSquare f in
  FeCombine (h0 + h0)%int64 (h1 + h1)%int64 (h2 + h2)%int64 (h3 + h3)%int64 (h4 + h4)%int64
    (h5 + h5)%int64 (h6 + h6)%int64 (h7 + h7)%int64 (h8 + h8)%int64 (h9 + h9)%int64.

Definition FeFromBytes (src : bytes) : FieldElement :=
  let h0 := load4 src in
  let h1 := (load3 (drop 4 src) << 6)%int64 in
  let h2 := (load3 (drop 7 src) << 5)%int64 in
  let h3 := (load3 (drop 10 src) << 3)%int64 in
  let h4 := (load3 (drop 13 src) << 2)%int64 in
  let h5 := load4 (drop 16 src) in
  let h6 := (load3 (drop 20 src) << 7)%int64 in
  let h7 := (load3 (drop 23 src) << 5)%int64 in
  let h8 := (load3 (drop 26 src) << 4)%int64 in
  let h9 := (Z.land (load3 (drop 29 src)) 8388607 << 2)%int64 in
  FeCombine h0 h1 h2 h3 h4 h5 h6 h7 h8 h9.

(** [carry = h >> k; hi += carry; h -= carry << k]. *)
Definition carry_down (k h hi : Z) : Z * Z :=
  let c := (h >> k)%int32 in ((h - (c << k))%int32, (hi + c)%int32).

(** The limbs, now the digits of the integer, as bytes. *)
Definition limb_bytes (h0 h1 h2 h3 h4 h5 h6 h7 h8 h9 : Z) : bytes :=
  [z2b (h0 >> 0)%int32; z2b (h0 >> 8)%int32; z2b (h0 >> 16)%int32;
   z2b (Z.lor (h0 >> 24) (h1 << 2))%int32; z2b (h1 >> 6)%int32; z2b (h1 >> 14)%int32;
   z2b (Z.lor (h1 >> 22) (h2 << 3))%int32; z2b (h2 >> 5)%int32; z2b (h2 >> 13)%int32;
   z2b (Z.lor (h2 >> 21) (h3 << 5))%int32; z2b (h3 >> 3)%int32; z2b (h3 >> 11)%int32;
   z2b (Z.lor (h3 >> 19) (h4 << 6))%int32; z2b (h4 >> 2)%int32; z2b (h4 >> 10)%int32;
   z2b (h4 >> 18)%int32; z2b (h5 >> 0)%int32; z2b (h5 >> 8)%int32; z2b (h5 >> 16)%int32;
   z2b (Z.lor (h5 >> 24) (h6 << 1))%int32; z2b (h6 >> 7)%int32; z2b (h6 >> 15)%int32;
   z2b (Z.lor (h6 >> 23) (h7 << 3))%int32; z2b (h7 >> 5)%int32; z2b (h7 >> 13)%int32;
   z2b (Z.lor (h7 >> 21) (h8 << 4))%int32; z2b (h8 >> 4)%int32; z2b (h8 >> 12)%int32;
   z2b (Z.lor (h8 >> 20) (h9 << 6))%int32; z2b (h9 >> 2)%int32; z2b (h9 >> 10)%int32;
   z2b (h9 >> 18)%int32].

(** [FeToBytes(s, h)] normalises [h] in place before it writes [s]: the bytes, and the limbs [h]
    is left with. *)
Definition FeToBytes (h : FieldElement) : bytes * FieldElement :=
  let 'fe h0 h1 h2 h3 h4 h5 h6 h7 h8 h9 := h in
  let q := ((19 * h9 + (1 << 24)) >> 25)%int32 in
  let q := ((h0 + q) >> 26)%int32 in
  let q := ((h1 + q) >> 25)%int32 in
  let q := ((h2 + q) >> 26)%int32 in
  let q := ((h3 + q) >> 25)%int32 in
  let q := ((h4 + q) >> 26)%int32 in
  let q := ((h5 + q) >> 25)%int32 in
  let q := ((h6 + q) >> 26)%int32 in
  let q := ((h7 + q) >> 25)%int32 in
  let q := ((h8 + q) >> 26)%int32 in
  let q := ((h9 + q) >> 25)%int32 in
  let h0 := (h0 + 19 * q)%int32 in
  let '(h0, h1) := carry_down 26 h0 h1 in
  let '(h1, h2) := carry_down 25 h1 h2 in
  let '(h2, h3) := carry_down 26 h2 h3 in
  let '(h3, h4) := carry_down 25 h3 h4 in
  let '(h4, h5) := carry_down 26 h4 h5 in
  let '(h5, h6) := carry_down 25 h5 h6 in
  let '(h6, h7) := carry_down 26 h6 h7 in
  let '(h7, h8) := carry_down 25 h7 h8 in
  let '(h8, h9) := carry_down 26 h8 h9 in
  let c := (h9 >> 25)%int32 in
  let h9 := (h9 - (c << 25))%int32 in
  (limb_bytes h0 h1 h2 h3 h4 h5 h6 h7 h8 h9, fe h0 h1 h2 h3 h4 h5 h6 h7 h8 h9).

(** ** The field *)

(** The integer a field element stands for (the comment on [FieldElement]). *)
Definition val (f : FieldElement) : Z :=
  let 'fe f0 f1 f2 f3 f4 f5 f6 f7 f8 f9 := f in
  f0 + 2 ^ 26 * f1 + 2 ^ 51 * f2 + 2 ^ 77 * f3 + 2 ^ 102 * f4 + 2 ^ 128 * f5 + 2 ^ 153 * f6 +
  2 ^ 179 * f7 + 2 ^ 204 * f8 + 2 ^ 230 * f9.

(** Limbs bounded in absolute value, the even ones by [e] and the odd ones by [o]. *)
Definition within (e o : Z) (f : FieldElement) : Prop :=
  let 'fe f0 f1 f2 f3 f4 f5 f6 f7 f8 f9 := f in
  (Z.abs f0 <= e /\ Z.abs f2 <= e /\ Z.abs f4 <= e /\ Z.abs f6 <= e /\ Z.abs f8 <= e) /\
  (Z.abs f1 <= o /\ Z.abs f3 <= o /\ Z.abs f5 <= o /\ Z.abs f7 <= o /\ Z.abs f9 <= o).
(** What the multiplications return (2^25 and 1.01*2^24), and what they take (1.65*2^26 and
    1.65*2^25: more than their comments ask for, and what the group operations give them). *)
Definition tight : FieldElement -> Prop := within 33554432 16944987.
Definition loose : FieldElement -> Prop := within 110729625 55364812.

Lemma within_mono e o e' o' f : e <= e' -> o <= o' -> within e o f -> within e' o' f.
Proof. destruct f; simpl. lia. Qed.

(** ** Limb by limb *)

Lemma map_limbs_spec (op op' : Z -> Z -> Z) a b e a' b' e' f g :
  (forall x y, Z.abs x <= a -> Z.abs y <= b -> op x y = op' x y /\ Z.abs (op' x y) <= e) ->
  (forall x y, Z.abs x <= a' -> Z.abs y <= b' -> op x y = op' x y /\ Z.abs (op' x y) <= e') ->
  within a a' f -> within b b' g ->
  map_limbs op f g = map_limbs op' f g /\ within e e' (map_limbs op' f g).
Proof.
  intros He Ho Hf Hg. destruct f, g; simpl in *. destruct_and!.
  split; [f_equal; first [by apply He | by apply Ho]|].
  repeat split; first [by apply He | by apply Ho].
Qed.

Lemma FeAdd_spec e o e' o' f g :
  within e o f -> within e' o' g -> e + e' < 2 ^ 31 -> o + o' < 2 ^ 31 ->
  within (e + e') (o + o') (FeAdd f g) /\ val (FeAdd f g) = val f + val g.
Proof.
  intros Hf Hg He Ho. unfold FeAdd.
  destruct (map_limbs_spec (fun x y => (x + y)%int32) Z.add e e' (e + e') o o' (o + o') f g) as [-> Hw];
    [intros; rewrite i32_small by lia; lia ..| done | done |].
  split; [done|]. destruct f, g; simpl. ring.
Qed.

Lemma FeSub_spec e o e' o' f g :
  within e o f -> within e' o' g -> e + e' < 2 ^ 31 -> o + o' < 2 ^ 31 ->
  within (e + e') (o + o') (FeSub f g) /\ val (FeSub f g) = val f - val g.
Proof.
  intros Hf Hg He Ho. unfold FeSub.
  destruct (map_limbs_spec (fun x y => (x - y)%int32) Z.sub e e' (e + e') o o' (o + o') f g) as [-> Hw];
    [intros; rewrite i32_small by lia; lia ..| done | done |].
  split; [done|]. destruct f, g; simpl. ring.
Qed.

Lemma FeNeg_spec e o f :
  within e o f -> e < 2 ^ 31 -> o < 2 ^ 31 -> within e o (FeNeg f) /\ val (FeNeg f) = - val f.
Proof.
  intros Hf He Ho. unfold FeNeg.
  destruct (map_limbs_spec (fun x _ => (- x)%int32) (fun x _ => - x) e e e o o o f f) as [-> Hw];
    [intros; rewrite i32_small by lia; lia ..| done | done |].
  split; [done|]. destruct f; simpl. ring.
Qed.

Lemma FeCMove_spec f g b : FeCMove f g (Z.b2z b) = if b then g else f.
Proof.
  unfold FeCMove. destruct f, g, b; cbn -[Z.lxor Z.land].
  - change (i32 (-1)) with (-1). f_equal; rewrite Z.land_m1_l, <- Z.lxor_assoc, Z.lxor_nilpotent; done.
  - change (i32 0) with 0. f_equal; apply Z.lxor_0_r.
Qed.

(** ** Reduction *)

(** One step of a carry chain: [carry k h hi] becomes [(h - 2^k c, hi + c)]. *)
Ltac carry_step :=
  match goal with
  | |- context [carry ?k ?h ?hi] =>
      let c := fresh "c" in let E := fresh "E" in let H := fresh "R" in
      destruct (carry_spec k h hi) as (c & E & H); [lia ..|]; rewrite E; clear E
  | |- context [carry19 ?k ?h ?hi] =>
      let c := fresh "c" in let E := fresh "E" in let H := fresh "R" in
      destruct (carry19_spec k h hi) as (c & E & H); [lia ..|]; rewrite E; clear E
  end; cbv beta iota; cbn [Z.sub Z.pos_sub Z.add Z.opp Pos.pred_double] in *.

Definition small62 (h : Z) : Prop := Z.abs h <= 4000000000000000000.

Lemma FeCombine_spec h0 h1 h2 h3 h4 h5 h6 h7 h8 h9 :
  small62 h0 -> small62 h1 -> small62 h2 -> small62 h3 -> small62 h4 ->
  small62 h5 -> small62 h6 -> small62 h7 -> small62 h8 -> small62 h9 ->
  let r := FeCombine h0 h1 h2 h3 h4 h5 h6 h7 h8 h9 in
  tight r /\ val r =p val (fe h0 h1 h2 h3 h4 h5 h6 h7 h8 h9).
Proof.
  unfold small62. rewrite !Z.abs_le. intros H0 H1 H2 H3 H4 H5 H6 H7 H8 H9.
  unfold FeCombine. cbv zeta. do 12 carry_step.
  rewrite !i32_small by lia. split.
  - unfold tight, within. rewrite !Z.abs_le. lia.
  - apply (eqp_diff _ _ (- c9)). unfold val, p. ring.
Qed.

(** ** Products *)

(** [FeCombine] of entries computed without overflow. *)
Lemma FeCombine_exact w0 w1 w2 w3 w4 w5 w6 w7 w8 w9 h0 h1 h2 h3 h4 h5 h6 h7 h8 h9
    m0 m1 m2 m3 m4 m5 m6 m7 m8 m9 v :
  exact w0 h0 m0 -> exact w1 h1 m1 -> exact w2 h2 m2 -> exact w3 h3 m3 -> exact w4 h4 m4 ->
  exact w5 h5 m5 -> exact w6 h6 m6 -> exact w7 h7 m7 -> exact w8 h8 m8 -> exact w9 h9 m9 ->
  forallb (fun m => m <=? 4000000000000000000) [m0; m1; m2; m3; m4; m5; m6; m7; m8; m9] = true ->
  val (fe h0 h1 h2 h3 h4 h5 h6 h7 h8 h9) =p v ->
  tight (FeCombine w0 w1 w2 w3 w4 w5 w6 w7 w8 w9) /\ val (FeCombine w0 w1 w2 w3 w4 w5 w6 w7 w8 w9) =p v.
Proof.
  intros [-> ?] [-> ?] [-> ?] [-> ?] [-> ?] [-> ?] [-> ?] [-> ?] [-> ?] [-> ?] Hm <-.
  simpl in Hm. rewrite !andb_true_iff, !Z.leb_le in Hm. destruct_and!.
  apply FeCombine_spec; (eapply Z.le_trans; [eassumption | done]).
Qed.

Ltac combine := eapply FeCombine_exact; [machine .. | reflexivity |].

(** The part of a product above 2^255. *)
Definition high (f g : FieldElement) : Z :=
  let 'fe f0 f1 f2 f3 f4 f5 f6 f7 f8 f9 := f in
  let 'fe g0 g1 g2 g3 g4 g5 g6 g7 g8 g9 := g in
    2 ^ 1 * (f1 * g9) + 2 ^ 0 * (f2 * g8) + 2 ^ 26 * (f2 * g9) + 2 ^ 1 * (f3 * g7) + 2 ^ 26 * (f3 * g8)
    + 2 ^ 52 * (f3 * g9) + 2 ^ 0 * (f4 * g6) + 2 ^ 26 * (f4 * g7) + 2 ^ 51 * (f4 * g8) + 2 ^ 77 * (f4 *
    g9) + 2 ^ 1 * (f5 * g5) + 2 ^ 26 * (f5 * g6) + 2 ^ 52 * (f5 * g7) + 2 ^ 77 * (f5 * g8) + 2 ^ 103 *
    (f5 * g9) + 2 ^ 0 * (f6 * g4) + 2 ^ 26 * (f6 * g5) + 2 ^ 51 * (f6 * g6) + 2 ^ 77 * (f6 * g7) + 2 ^
    102 * (f6 * g8) + 2 ^ 128 * (f6 * g9) + 2 ^ 1 * (f7 * g3) + 2 ^ 26 * (f7 * g4) + 2 ^ 52 * (f7 * g5)
    + 2 ^ 77 * (f7 * g6) + 2 ^ 103 * (f7 * g7) + 2 ^ 128 * (f7 * g8) + 2 ^ 154 * (f7 * g9) + 2 ^ 0 * (f8
    * g2) + 2 ^ 26 * (f8 * g3) + 2 ^ 51 * (f8 * g4) + 2 ^ 77 * (f8 * g5) + 2 ^ 102 * (f8 * g6) + 2 ^ 128
    * (f8 * g7) + 2 ^ 153 * (f8 * g8) + 2 ^ 179 * (f8 * g9) + 2 ^ 1 * (f9 * g1) + 2 ^ 26 * (f9 * g2) + 2
    ^ 52 * (f9 * g3) + 2 ^ 77 * (f9 * g4) + 2 ^ 103 * (f9 * g5) + 2 ^ 128 * (f9 * g6) + 2 ^ 154 * (f9 *
    g7) + 2 ^ 179 * (f9 * g8) + 2 ^ 205 * (f9 * g9).

Lemma FeMul_spec f g :
  loose f -> loose g -> tight (FeMul f g) /\ val (FeMul f g) =p val f * val g.
Proof.
  destruct f as [f0 f1 f2 f3 f4 f5 f6 f7 f8 f9] eqn:Ef, g as [g0 g1 g2 g3 g4 g5 g6 g7 g8 g9] eqn:Eg.
  intros Hf Hg. simpl in Hf, Hg. destruct_and!. unfold FeMul. cbv zeta. combine.
  apply (eqp_diff _ _ (- high f g)). subst. unfold val, high, p. ring.
Qed.

Lemma FeSquare_spec f : loose f -> tight (FeSquare f) /\ val (FeSquare f) =p val f * val f.
Proof.
  destruct f as [f0 f1 f2 f3 f4 f5 f6 f7 f8 f9] eqn:Ef.
  intros Hf. simpl in Hf. destruct_and!. unfold FeSquare, feSquare. cbv beta iota zeta. combine.
  apply (eqp_diff _ _ (- high f f)). subst. unfold val, high, p. ring.
Qed.

Lemma FeSquare2_spec f : loose f -> tight (FeSquare2 f) /\ val (FeSquare2 f) =p 2 * (val f * val f).
Proof.
  destruct f as [f0 f1 f2 f3 f4 f5 f6 f7 f8 f9] eqn:Ef.
  intros Hf. simpl in Hf. destruct_and!. unfold FeSquare2, feSquare. cbv beta iota zeta. combine.
  apply (eqp_diff _ _ (- (2 * high f f))). subst. unfold val, high, p. ring.
Qed.

(** ** Conversions *)

Lemma load3_mask l :
  exact (Z.land (load3 l) 8388607) (ith l 0 + 2 ^ 8 * ith l 1 + 2 ^ 16 * (ith l 2 mod 2 ^ 7)) 8388607.
Proof.
  destruct (load3_exact l) as [-> _].
  pose proof (ith_range l 0). pose proof (ith_range l 1). pose proof (ith_range l 2).
  change 8388607 with (2 ^ 23 - 1). rewrite Z.land_comm, land_ones_mod by lia.
  pose proof (Z.mod_pos_bound (ith l 2) (2 ^ 7) ltac:(lia)).
  split; [|lia]. rewrite (Z.div_mod (ith l 2) (2 ^ 7)) at 1 by lia.
  symmetry. apply (Z.mod_unique _ _ (ith l 2 / 2 ^ 7)); lia.
Qed.
#[local] Hint Resolve load3_mask : machine.

Lemma FeFromBytes_spec src :
  length src = 32%nat ->
  tight (FeFromBytes src) /\ val (FeFromBytes src) =p le_value src mod 2 ^ 255.
Proof.
  intros Hl.
  assert (exists l b, src = l ++ [b]) as (l & b & ->).
  { destruct src using rev_ind; [discriminate | eauto]. }
  rewrite length_app in Hl. simpl in Hl. assert (Hl' : length l = 31%nat) by lia. clear Hl.
  rewrite le_value_low by done.
  do 31 (destruct l as [|? l]; [discriminate|]). destruct l; [|discriminate]. clear Hl'.
  unfold FeFromBytes. cbv zeta. combine.
  cbn [drop app]. unfold ith. cbn [nth le_value val]. apply (eqp_diff _ _ 0). ring.
Qed.

Lemma carry_down_spec k h hi :
  0 <= k <= 26 -> Z.abs h < 2 ^ 30 -> Z.abs hi < 2 ^ 30 ->
  exists c, carry_down k h hi = (h - 2 ^ k * c, hi + c) /\ 0 <= h - 2 ^ k * c < 2 ^ k.
Proof.
  intros Hk Hh Hhi. exists (h / 2 ^ k). unfold carry_down.
  assert (1 <= 2 ^ k) by (apply (Z.pow_le_mono_r 2 0); lia).
  assert (2 ^ k <= 2 ^ 26) by (apply Z.pow_le_mono_r; lia).
  pose proof (Z.div_mod h (2 ^ k)). pose proof (Z.mod_pos_bound h (2 ^ k)).
  rewrite Z.shiftr_div_pow2, Z.shiftl_mul_pow2, <- (Z.mul_comm (2 ^ k)) by lia.
  set (c := h / 2 ^ k) in *. assert (Z.abs c <= 2 ^ 30) by nia.
  split; [|lia]. rewrite (i32_small (2 ^ k * c)) by lia. rewrite !i32_small by lia. done.
Qed.

Lemma limb_bytes_spec h0 h1 h2 h3 h4 h5 h6 h7 h8 h9 :
  0 <= h0 < 2 ^ 26 -> 0 <= h1 < 2 ^ 25 -> 0 <= h2 < 2 ^ 26 -> 0 <= h3 < 2 ^ 25 -> 0 <= h4 < 2 ^ 26 ->
  0 <= h5 < 2 ^ 25 -> 0 <= h6 < 2 ^ 26 -> 0 <= h7 < 2 ^ 25 -> 0 <= h8 < 2 ^ 26 -> 0 <= h9 < 2 ^ 25 ->
  le_value (limb_bytes h0 h1 h2 h3 h4 h5 h6 h7 h8 h9) = val (fe h0 h1 h2 h3 h4 h5 h6 h7 h8 h9).
Proof.
  intros. unfold limb_bytes. cbn [le_value]. rewrite !b2z_z2b, !lor_byte, !Z.shiftr_div_pow2 by lia.
  rewrite !lor_add by first [lia | split; [apply Z.div_pos; lia | apply Z.div_lt_upper_bound; lia]].
  rewrite !straddle by first [lia | split; [apply Z.div_pos; lia | apply Z.div_lt_upper_bound; lia]].
  repeat match goal with |- context [8 - ?s] => let v := eval compute in (8 - s) in change (8 - s) with v end.
  pose proof (limb_digits 8 16 24 h0 eq_refl eq_refl eq_refl). pose proof (limb_digits 6 14 22 h1 eq_refl eq_refl eq_refl).
  pose proof (limb_digits 5 13 21 h2 eq_refl eq_refl eq_refl). pose proof (limb_digits 3 11 19 h3 eq_refl eq_refl eq_refl).
  pose proof (limb_digits 2 10 18 h4 eq_refl eq_refl eq_refl). pose proof (limb_digits 8 16 24 h5 eq_refl eq_refl eq_refl).
  pose proof (limb_digits 7 15 23 h6 eq_refl eq_refl eq_refl). pose proof (limb_digits 5 13 21 h7 eq_refl eq_refl eq_refl).
  pose proof (limb_digits 4 12 20 h8 eq_refl eq_refl eq_refl). pose proof (limb_digits 2 10 18 h9 eq_refl eq_refl eq_refl).
  assert ((h4 / 2 ^ 18) mod 256 = h4 / 2 ^ 18) by (apply Z.mod_small; split; [apply Z.div_pos; lia | apply Z.div_lt_upper_bound; lia]).
  assert ((h9 / 2 ^ 18) mod 256 = h9 / 2 ^ 18) by (apply Z.mod_small; split; [apply Z.div_pos; lia | apply Z.div_lt_upper_bound; lia]).
  change (2 ^ 0) with 1 in *. change (2 ^ 8) with 256 in *. rewrite !Z.div_1_r in *. unfold val. lia.
Qed.

Lemma quotient_step k h q :
  0 <= k -> Z.abs h < 2 ^ 30 -> Z.abs q < 2 ^ 30 ->
  exists c, ((h + q) >> k)%int32 = c /\ 0 <= h + q - 2 ^ k * c < 2 ^ k.
Proof.
  intros Hk Hh Hq. exists ((h + q) / 2 ^ k). rewrite i32_small, Z.shiftr_div_pow2 by lia.
  split; [done|]. assert (0 < 2 ^ k) by (apply Z.pow_pos_nonneg; lia).
  pose proof (Z.div_mod (h + q) (2 ^ k)). pose proof (Z.mod_pos_bound (h + q) (2 ^ k)). lia.
Qed.

Ltac quotient :=
  match goal with
  | |- context [Z.shiftr (i32 (?h + ?q)) ?k] =>
      let c := fresh "q" in let E := fresh "E" in let H := fresh "Q" in
      destruct (quotient_step k h q) as (c & E & H); [lia ..|]; rewrite E; clear E
  end.
Ltac carry_down_step :=
  match goal with
  | |- context [carry_down ?k ?h ?hi] =>
      let c := fresh "c" in let E := fresh "E" in let H := fresh "R" in
      destruct (carry_down_spec k h hi) as (c & E & H); [lia ..|]; rewrite E; clear E
  end; cbv beta iota.

(** The comment's claim: the quotient by p is that of [h + 2^-25 19 h9 + 1/2] by 2^255. *)
Lemma quotient_exact low h9 q Q c D :
  Z.abs low <= 2 ^ 232 -> Z.abs h9 <= 55364812 ->
  0 <= 19 * h9 + 2 ^ 24 - 2 ^ 25 * q < 2 ^ 25 ->
  0 <= low + 2 ^ 230 * h9 + q - 2 ^ 255 * Q < 2 ^ 255 ->
  0 <= D < 2 ^ 255 -> low + 2 ^ 230 * h9 + 19 * Q = D + 2 ^ 255 * c ->
  D = (low + 2 ^ 230 * h9) mod p.
Proof.
  rewrite !Z.abs_le. intros.
  assert (c = Q) as -> by lia. apply (Z.mod_unique _ _ Q); unfold p; lia.
Qed.

(** The canonical limbs: the digits of the residue modulo p. *)
Definition canonical (h : FieldElement) : Prop :=
  let 'fe h0 h1 h2 h3 h4 h5 h6 h7 h8 h9 := h in
  (0 <= h0 < 2 ^ 26 /\ 0 <= h2 < 2 ^ 26 /\ 0 <= h4 < 2 ^ 26 /\ 0 <= h6 < 2 ^ 26 /\ 0 <= h8 < 2 ^ 26) /\
  (0 <= h1 < 2 ^ 25 /\ 0 <= h3 < 2 ^ 25 /\ 0 <= h5 < 2 ^ 25 /\ 0 <= h7 < 2 ^ 25 /\ 0 <= h9 < 2 ^ 25).

(** What [FeToBytes] leaves its argument as, and the bytes of that. *)
Lemma FeToBytes_limbs h :
  loose h -> canonical (FeToBytes h).2 /\ val (FeToBytes h).2 = val h mod p /\
  le_value (FeToBytes h).1 = val (FeToBytes h).2.
Proof.
  destruct h as [h0 h1 h2 h3 h4 h5 h6 h7 h8 h9]. intros Hh. simpl in Hh. rewrite !Z.abs_le in Hh.
  destruct_and!. unfold FeToBytes. cbv zeta. rewrite (i32_small (19 * h9)) by lia.
  change (i32 (Z.shiftl 1 24)) with (2 ^ 24). do 11 quotient.
  rewrite (i32_small (19 * _)), (i32_small (h0 + _)) by lia. do 9 carry_down_step.
  set (d := (h9 + c7)%Z). assert (Hd : 0 <= d - 2 ^ 25 * (d / 2 ^ 25) < 2 ^ 25).
  { pose proof (Z.div_mod d (2 ^ 25)). pose proof (Z.mod_pos_bound d (2 ^ 25)). lia. }
  rewrite Z.shiftr_div_pow2, Z.shiftl_mul_pow2, <- (Z.mul_comm (2 ^ 25)) by lia.
  rewrite (i32_small (2 ^ 25 * _)), i32_small by (subst d; lia). cbn [fst snd].
  rewrite limb_bytes_spec by (done || lia). split; [unfold canonical; subst d; lia|]. split; [|done].
  subst d. unfold val. apply (quotient_exact _ h9 q q9 ((h9 + c7) / 2 ^ 25)); lia.
Qed.

(** The canonical encoding: the 32 bytes of the residue modulo p. *)
Lemma FeToBytes_spec h :
  loose h -> length (FeToBytes h).1 = 32%nat /\ le_value (FeToBytes h).1 = val h mod p.
Proof.
  intros Hh. destruct (FeToBytes_limbs h Hh) as (_ & <- & H). split; [|exact H].
  destruct h. unfold FeToBytes. repeat case_match; done.
Qed.

(** ** The representation *)

Definition portable : FieldElements := {|
  FieldRep.FieldElement := FieldElement;
  FieldRep.limb0 n := fe n 0 0 0 0 0 0 0 0 0;
  FieldRep.FeAdd := FeAdd; FieldRep.FeSub := FeSub; FieldRep.FeNeg := FeNeg;
  FieldRep.FeMul := FeMul; FieldRep.FeSquare := FeSquare; FieldRep.FeSquare2 := FeSquare2;
  FieldRep.FeCMove := FeCMove;
  FieldRep.FeFromBytes := FeFromBytes; FieldRep.FeToBytes := FeToBytes;
|}.

(** The sum of [k] results. *)
Definition size (k : Z) : FieldElement -> Prop := within (33554432 * k) (16944987 * k).

Lemma size_3_loose f : size 3 f -> loose f.
Proof. by apply within_mono. Qed.
(** Normalised limbs are not those of a product: the even ones go up to 2^26. *)
Lemma canonical_size f : canonical f -> size 2 f.
Proof. destruct f. unfold canonical, size, within. lia. Qed.
Lemma FeToBytes_size k f :
  size k f -> k <= 3 ->
  (length (FeToBytes f).1 = 32%nat /\ le_value (FeToBytes f).1 = val f mod p) /\
  size (Z.max 2 k) (FeToBytes f).2 /\ val (FeToBytes f).2 =p val f.
Proof.
  intros Hf Hk. assert (Hl : loose f) by (apply size_3_loose; eapply within_mono; [| |exact Hf]; lia).
  destruct (FeToBytes_limbs f Hl) as (Hc & Hv & _). split; [by apply FeToBytes_spec|]. split.
  - eapply within_mono; [| |apply (canonical_size _ Hc)]; lia.
  - rewrite Hv. apply eqp_iff, Zmod_mod.
Qed.
Lemma tight_size f (v : Z) : tight f /\ val f =p v -> size 1 f /\ val f =p v.
Proof. done. Qed.

Lemma within_sum j k f (v w : Z) :
  within (33554432 * j + 33554432 * k) (16944987 * j + 16944987 * k) f /\ v = w -> size (j + k) f /\ v =p w.
Proof. intros [H ->]. split; [|done]. eapply within_mono; [| |exact H]; lia. Qed.

#[refine] Definition portable_laws : FieldLaws portable := {|
  FieldRep.val := val : portable.(FieldRep.FieldElement) -> Z; FieldRep.size := size |}.
Proof.
  - intros j k f Hjk. apply within_mono; lia.
  - intros n Hn. cbn. lia.
  - intros. apply within_sum, FeAdd_spec; done || lia.
  - intros. apply within_sum, FeSub_spec; done || lia.
  - intros k f Hf Hk. destruct (FeNeg_spec _ _ f Hf ltac:(lia) ltac:(lia)) as [Hn Hv].
    split; [exact Hn|]. cbn. by rewrite Hv.
  - intros. apply tight_size, FeMul_spec; by apply size_3_loose.
  - intros. apply tight_size, FeSquare_spec; by apply size_3_loose.
  - intros. apply tight_size, FeSquare2_spec; by apply size_3_loose.
  - intros f g b _ _. apply FeCMove_spec.
  - intros. by apply tight_size, FeFromBytes_spec.
  - intros k f Hf Hk. apply (FeToBytes_size k); [done|lia].
Defined.

(** ** Theorems *)

(** C36. The products are those of the field: on limbs up to 1.65*2^26 and 1.65*2^25 no 32-bit or
    64-bit operation overflows, the result is within 2^25 and 1.01*2^24, and its value is the
    product (the square, twice the square) modulo p.  The sum or difference of two results is
    again an argument, without a reduction in between. *)
Theorem FeMul_correct (f g : FieldElement) :
  loose f -> loose g ->
  (tight (FeMul f g) /\ val (FeMul f g) =p val f * val g) /\
  (tight (FeSquare f) /\ val (FeSquare f) =p val f * val f) /\
  (tight (FeSquare2 f) /\ val (FeSquare2 f) =p 2 * (val f * val f)) /\
  (forall h, tight f -> tight h ->
     (loose (FeAdd f h) /\ val (FeAdd f h) = val f + val h) /\
     (loose (FeSub f h) /\ val (FeSub f h) = val f - val h)).
Proof.
  intros Hf Hg. split; [by apply FeMul_spec|]. split; [by apply FeSquare_spec|].
  split; [by apply FeSquare2_spec|]. intros h Ht Hh.
  destruct (FeAdd_spec _ _ _ _ f h Ht Hh) as [Ha Hva]; [done..|].
  destruct (FeSub_spec _ _ _ _ f h Ht Hh) as [Hs Hvs]; [done..|].
  split; (split; [|done]); (eapply within_mono; [| |eassumption]); done.
Qed.

Definition a_fe : FieldElement := fe 33554432 (-16944987) 33554432 16944987 (-33554432) 5 6 7 8 9.
Lemma FeMul_correct_witness :
  tight (FeMul a_fe a_fe) /\ val (FeMul a_fe a_fe) =p val a_fe * val a_fe.
Proof.
  destruct (FeMul_correct a_fe a_fe) as [H _]; [vm_compute; repeat split; congruence ..|].
  exact H.
Defined.
