(* ===== verification/Amd64.v ===== *)
(** * The amd64 instructions of the field multiplication

    [src/crypto/ed25519/internal/edwards25519/fe_mul_amd64.s] and [fe_square_amd64.s] are
    straight-line code on 64-bit registers, a carry flag and memory.  This file has the machine
    they run on: the instructions they use, in the operand order of Go's assembler (the
    destination last), as functions of the state.  Memory is a function from the address of an
    aligned 64-bit word to the word; arguments are read from the frame pointer FP. *)

From S2P Require Import Prelude Word.
#[local] Open Scope Z_scope.

Inductive reg := AX | BX | CX | DX | SI | DI | BP | R8 | R9 | R10 | R11 | R12 | R13 | R14 | R15.
#[export] Instance reg_eq_dec : EqDecision reg.
Proof. solve_decision. Defined.

(** [Mem off r] is [off(r)], [Arg off] is [name+off(FP)]. *)
Inductive operand :=
| Reg (r : reg)
| Mem (off : Z) (r : reg)
| Arg (off : Z)
| Imm (n : Z).
Coercion Reg : reg >-> operand.

(** [SHLD k src dst] is [SHLQ $k, src, dst]: the double shift, which fills [dst] from the high
    bits of [src]. *)
Inductive instr :=
| MOVQ (src dst : operand)
| MULQ (src : operand)
| IMUL3Q (imm : Z) (src dst : operand)
| ADDQ (src dst : operand)
| ADCQ (src dst : operand)
| ANDQ (src dst : operand)
| SHLQ (k : Z) (dst : operand)
| SHRQ (k : Z) (dst : operand)
| SHLD (k : Z) (src dst : operand)
| RET.

Record state := mkState { regs : reg -> Z; carry_flag : bool; memory : Z -> Z; args : Z -> Z }.

Definition read (s : state) (o : operand) : Z :=
  match o with
  | Reg r => regs s r
  | Mem off r => memory s (regs s r + off)
  | Arg off => args s off
  | Imm n => n
  end.

(** Writing to an argument or a constant does not occur. *)
Definition write (s : state) (o : operand) (v : Z) : state :=
  match o with
  | Reg r => mkState (fun r' => if decide (r' = r) then v else regs s r') (carry_flag s) (memory s) (args s)
  | Mem off r =>
      let a := regs s r + off in
      mkState (regs s) (carry_flag s) (fun a' => if a' =? a then v else memory s a') (args s)
  | _ => s
  end.
Definition set_carry (c : bool) (s : state) : state := mkState (regs s) c (memory s) (args s).

(** ** The arithmetic of the instructions *)

Definition add64 (a b : Z) : Z := u64 (a + b).
Definition adc64 (c : bool) (a b : Z) : Z := u64 (a + b + Z.b2z c).
Definition carry_out (c : bool) (a b : Z) : bool := 2 ^ 64 <=? a + b + Z.b2z c.
Definition mul_lo (a b : Z) : Z := u64 (a * b).
Definition mul_hi (a b : Z) : Z := Z.shiftr (a * b) 64.
Definition and64 (a b : Z) : Z := Z.land a b.
Definition shl64 (k a : Z) : Z := u64 (Z.shiftl a k).
Definition shr64 (k a : Z) : Z := Z.shiftr a k.
Definition shld64 (k src dst : Z) : Z := Z.lor (u64 (Z.shiftl dst k)) (Z.shiftr src (64 - k)).
(** The signed product does not fit. *)
Definition imul_overflow (a b : Z) : bool := negb (i64 (i64 a * b) =? i64 a * b).

Definition exec_instr (i : instr) (s : state) : state :=
  match i with
  | MOVQ src dst => write s dst (read s src)
  | MULQ src =>
      let a := read s AX in let b := read s src in
      set_carry (negb (mul_hi a b =? 0)) (write (write s AX (mul_lo a b)) DX (mul_hi a b))
  | IMUL3Q imm src dst =>
      let a := read s src in
      set_carry (imul_overflow a imm) (write s dst (mul_lo a imm))
  | ADDQ src dst =>
      let a := read s dst in let b := read s src in
      set_carry (carry_out false a b) (write s dst (add64 a b))
  | ADCQ src dst =>
      let a := read s dst in let b := read s src in
      set_carry (carry_out (carry_flag s) a b) (write s dst (adc64 (carry_flag s) a b))
  | ANDQ src dst => set_carry false (write s dst (and64 (read s dst) (read s src)))
  | SHLQ k dst => let a := read s dst in set_carry (Z.testbit a (64 - k)) (write s dst (shl64 k a))
  | SHRQ k dst => let a := read s dst in set_carry (Z.testbit a (k - 1)) (write s dst (shr64 k a))
  | SHLD k src dst =>
      let a := read s dst in
      set_carry (Z.testbit a (64 - k)) (write s dst (shld64 k (read s src) a))
  | RET => s
  end.

(** The code up to its [RET]. *)
Fixpoint run_code (code : list instr) (s : state) : state :=
  match code with
  | [] | RET :: _ => s
  | i :: code => run_code code (exec_instr i s)
  end.

(** ** What the instructions compute *)

(** Two words as one number. *)
Definition wide (r : Z * Z) : Z := r.1 + 2 ^ 64 * r.2.
Definition words (r : Z * Z) : Prop := 0 <= r.1 < 2 ^ 64 /\ 0 <= r.2 < 2 ^ 64.

(** [MULQ], and [MULQ; ADDQ AX, lo; ADCQ DX, hi]. *)
Definition mul_wide (a b : Z) : Z * Z := (mul_lo a b, mul_hi a b).
Definition mac (r : Z * Z) (a b : Z) : Z * Z :=
  (add64 r.1 (mul_lo a b), adc64 (carry_out false r.1 (mul_lo a b)) r.2 (mul_hi a b)).

Lemma mul_words a b :
  0 <= a < 2 ^ 64 -> 0 <= b < 2 ^ 64 -> words (mul_wide a b) /\ wide (mul_wide a b) = a * b.
Proof.
  intros Ha Hb. unfold words, wide, mul_wide, mul_lo, mul_hi, u64. cbn [fst snd].
  rewrite Z.shiftr_div_pow2 by lia. assert (0 <= a * b < 2 ^ 64 * 2 ^ 64) by nia.
  pose proof (Z.mod_pos_bound (a * b) (2 ^ 64)). pose proof (Z.div_mod (a * b) (2 ^ 64)).
  assert (0 <= a * b / 2 ^ 64 < 2 ^ 64) by (split; [apply Z.div_pos | apply Z.div_lt_upper_bound]; lia).
  lia.
Qed.

Lemma mac_words r a b :
  words r -> 0 <= a < 2 ^ 64 -> 0 <= b < 2 ^ 64 -> wide r + a * b < 2 ^ 128 ->
  words (mac r a b) /\ wide (mac r a b) = wide r + a * b.
Proof.
  intros [H1 H2] Ha Hb. destruct (mul_words a b Ha Hb) as [[M1 M2] E]. revert M1 M2 E.
  unfold words, wide, mul_wide, mac. cbn [fst snd]. generalize (mul_lo a b) (mul_hi a b). intros l h Hl Hh <- Hs.
  unfold add64, adc64, carry_out. cbn [Z.b2z]. rewrite Z.add_0_r.
  destruct (Z.leb_spec (2 ^ 64) (r.1 + l)) as [Hc|Hc]; cbn [Z.b2z].
  - assert (E : u64 (r.1 + l) = r.1 + l - 2 ^ 64).
    { unfold u64. symmetry. apply (Z.mod_unique _ _ 1); lia. }
    rewrite E, u64_small by lia. lia.
  - rewrite !u64_small by lia. lia.
Qed.

(** [SHLQ $13, lo, hi; ANDQ mask, lo] splits a number at bit 51. *)
Lemma split_51 r :
  words r -> wide r < 2 ^ 115 ->
  shld64 13 r.1 r.2 = wide r / 2 ^ 51 /\ and64 r.1 2251799813685247 = wide r mod 2 ^ 51.
Proof.
  intros [H1 H2] Hr. unfold wide in *. unfold shld64, and64.
  assert (E : (r.1 + 2 ^ 64 * r.2) / 2 ^ 51 = r.1 / 2 ^ 51 + 2 ^ 13 * r.2).
  { replace (2 ^ 64 * r.2) with (2 ^ 13 * r.2 * 2 ^ 51) by ring. apply Z_div_plus_full. lia. }
  split.
  - rewrite (u64_small (Z.shiftl _ _)), Z.lor_comm by (rewrite Z.shiftl_mul_pow2; lia).
    rewrite Z.shiftr_div_pow2, lor_add, E by
      first [lia | split; [apply Z.div_pos; lia | apply Z.div_lt_upper_bound; lia]]. done.
  - change 2251799813685247 with (2 ^ 51 - 1). rewrite Z.land_comm, land_ones_mod by lia.
    replace (2 ^ 64 * r.2) with (2 ^ 13 * r.2 * 2 ^ 51) by ring. rewrite Z_mod_plus_full. done.
Qed.
