(* ===== verification/FeAmd64.v ===== *)
(** * Field elements of edwards25519, 51-bit limbs

    [src/crypto/ed25519/internal/edwards25519/fe_amd64.go], the representation taken on amd64:
    five [uint64] limbs of 51 bits.  Products and squares are the assembly of
    [fe_mul_amd64.s] and [fe_square_amd64.s], listed instruction by instruction and run by the
    machine of [Amd64.v].  As in [Fe.v], an operation is correct when nothing overflows, its
    result is within bounds and it has the right value modulo p. *)

From Stdlib Require Import Setoid Morphisms.
From S2P Require Import Prelude Prime Word Modp FieldRep Amd64.
#[local] Open Scope Z_scope.

Declare Scope uint64_scope.
Delimit Scope uint64_scope with uint64.
Notation "a + b" := (u64 (Z.add a%uint64 b%uint64)) : uint64_scope.
Notation "a - b" := (u64 (Z.sub a%uint64 b%uint64)) : uint64_scope.
Notation "a * b" := (u64 (Z.mul a%uint64 b%uint64)) : uint64_scope.
Notation "a << k" := (u64 (Z.shiftl a%uint64 k%Z)) (at level 40, left associativity) : uint64_scope.
Notation "a >> k" := (Z.shiftr a%uint64 k%Z) (at level 40, left associativity) : uint64_scope.

Record FieldElement := fe { fe0 : Z; fe1 : Z; fe2 : Z; fe3 : Z; fe4 : Z }.

Definition maskLow51Bits : Z := 2 ^ 51 - 1.

Definition map_limbs (op : Z -> Z -> Z) (a b : FieldElement) : FieldElement :=
  fe (op (fe0 a) (fe0 b)) (op (fe1 a) (fe1 b)) (op (fe2 a) (fe2 b)) (op (fe3 a) (fe3 b)) (op (fe4 a) (fe4 b)).

Definition FeAdd (a b : FieldElement) : FieldElement := map_limbs (fun x y => (x + y)%uint64) a b.

(** [hi += lo >> 51; lo = lo & maskLow51Bits] *)
Definition carry51 (lo hi : Z) : Z * Z := (Z.land lo maskLow51Bits, (hi + (lo >> 51))%uint64).

(** The ten lines [FeSub] and [feReduce] share: reduce each limb, propagating carries. *)
Definition propagate (t : FieldElement) : FieldElement :=
  let 'fe t0 t1 t2 t3 t4 := t in
  let '(t0, t1) := carry51 t0 t1 in
  let '(t1, t2) := carry51 t1 t2 in
  let '(t2, t3) := carry51 t2 t3 in
  let '(t3, t4) := carry51 t3 t4 in
  let t0 := (t0 + (t4 >> 51) * 19)%uint64 in
  let t4 := Z.land t4 maskLow51Bits in
  fe t0 t1 t2 t3 t4.

Definition FeSub (a b : FieldElement) : FieldElement :=
  let 'fe t0 t1 t2 t3 t4 := propagate b in
  fe ((fe0 a + 0xFFFFFFFFFFFDA) - t0)%uint64 ((fe1 a + 0xFFFFFFFFFFFFE) - t1)%uint64
     ((fe2 a + 0xFFFFFFFFFFFFE) - t2)%uint64 ((fe3 a + 0xFFFFFFFFFFFFE) - t3)%uint64
     ((fe4 a + 0xFFFFFFFFFFFFE) - t4)%uint64.

(** [FeZero(&t)] leaves five zeros. *)
Definition FeNeg (a : FieldElement) : FieldElement := FeSub (fe 0 0 0 0 0) a.

Definition FeCMove (f g : FieldElement) (b : Z) : FieldElement :=
  let negate := ((2 ^ 64 - 1) * u64 b)%uint64 in
  map_limbs (fun x y => Z.lxor x (Z.land negate (Z.lxor x y))) f g.

(** ** The assembly *)

Definition FeMul_code : list instr :=
  [
    MOVQ (Arg 0) DI; MOVQ (Arg 8) BX; MOVQ (Arg 16) CX;
    MOVQ (Mem 0 BX) AX; MULQ (Mem 0 CX); MOVQ AX SI; MOVQ DX BP;
    MOVQ (Mem 8 BX) DX; IMUL3Q 19 DX AX; MULQ (Mem 32 CX); ADDQ AX SI; ADCQ DX BP;
    MOVQ (Mem 16 BX) DX; IMUL3Q 19 DX AX; MULQ (Mem 24 CX); ADDQ AX SI; ADCQ DX BP;
    MOVQ (Mem 24 BX) DX; IMUL3Q 19 DX AX; MULQ (Mem 16 CX); ADDQ AX SI; ADCQ DX BP;
    MOVQ (Mem 32 BX) DX; IMUL3Q 19 DX AX; MULQ (Mem 8 CX); ADDQ AX SI; ADCQ DX BP;
    MOVQ (Mem 0 BX) AX; MULQ (Mem 8 CX); MOVQ AX R8; MOVQ DX R9;
    MOVQ (Mem 8 BX) AX; MULQ (Mem 0 CX); ADDQ AX R8; ADCQ DX R9;
    MOVQ (Mem 16 BX) DX; IMUL3Q 19 DX AX; MULQ (Mem 32 CX); ADDQ AX R8; ADCQ DX R9;
    MOVQ (Mem 24 BX) DX; IMUL3Q 19 DX AX; MULQ (Mem 24 CX); ADDQ AX R8; ADCQ DX R9;
    MOVQ (Mem 32 BX) DX; IMUL3Q 19 DX AX; MULQ (Mem 16 CX); ADDQ AX R8; ADCQ DX R9;
    MOVQ (Mem 0 BX) AX; MULQ (Mem 16 CX); MOVQ AX R10; MOVQ DX R11;
    MOVQ (Mem 8 BX) AX; MULQ (Mem 8 CX); ADDQ AX R10; ADCQ DX R11;
    MOVQ (Mem 16 BX) AX; MULQ (Mem 0 CX); ADDQ AX R10; ADCQ DX R11;
    MOVQ (Mem 24 BX) DX; IMUL3Q 19 DX AX; MULQ (Mem 32 CX); ADDQ AX R10; ADCQ DX R11;
    MOVQ (Mem 32 BX) DX; IMUL3Q 19 DX AX; MULQ (Mem 24 CX); ADDQ AX R10; ADCQ DX R11;
    MOVQ (Mem 0 BX) AX; MULQ (Mem 24 CX); MOVQ AX R12; MOVQ DX R13;
    MOVQ (Mem 8 BX) AX; MULQ (Mem 16 CX); ADDQ AX R12; ADCQ DX R13;
    MOVQ (Mem 16 BX) AX; MULQ (Mem 8 CX); ADDQ AX R12; ADCQ DX R13;
    MOVQ (Mem 24 BX) AX; MULQ (Mem 0 CX); ADDQ AX R12; ADCQ DX R13;
    MOVQ (Mem 32 BX) DX; IMUL3Q 19 DX AX; MULQ (Mem 32 CX); ADDQ AX R12; ADCQ DX R13;
    MOVQ (Mem 0 BX) AX; MULQ (Mem 32 CX); MOVQ AX R14; MOVQ DX R15;
    MOVQ (Mem 8 BX) AX; MULQ (Mem 24 CX); ADDQ AX R14; ADCQ DX R15;
    MOVQ (Mem 16 BX) AX; MULQ (Mem 16 CX); ADDQ AX R14; ADCQ DX R15;
    MOVQ (Mem 24 BX) AX; MULQ (Mem 8 CX); ADDQ AX R14; ADCQ DX R15;
    MOVQ (Mem 32 BX) AX; MULQ (Mem 0 CX); ADDQ AX R14; ADCQ DX R15;
    MOVQ (Imm 2251799813685247) AX; SHLD 13 SI BP; ANDQ AX SI; SHLD 13 R8 R9; ANDQ AX R8;
    ADDQ BP R8; SHLD 13 R10 R11; ANDQ AX R10; ADDQ R9 R10; SHLD 13 R12 R13; ANDQ AX R12;
    ADDQ R11 R12; SHLD 13 R14 R15; ANDQ AX R14; ADDQ R13 R14; IMUL3Q 19 R15 R15; ADDQ R15 SI;
    MOVQ SI DX; SHRQ 51 DX; ADDQ DX R8; MOVQ R8 DX; SHRQ 51 DX; ANDQ AX SI; ADDQ DX R10;
    MOVQ R10 DX; SHRQ 51 DX; ANDQ AX R8; ADDQ DX R12; MOVQ R12 DX; SHRQ 51 DX; ANDQ AX R10;
    ADDQ DX R14; MOVQ R14 DX; SHRQ 51 DX; ANDQ AX R12; IMUL3Q 19 DX DX; ADDQ DX SI; ANDQ AX R14;
    MOVQ SI (Mem 0 DI); MOVQ R8 (Mem 8 DI); MOVQ R10 (Mem 16 DI); MOVQ R12 (Mem 24 DI);
    MOVQ R14 (Mem 32 DI); RET
  ].

Definition FeSquare_code : list instr :=
  [
    MOVQ (Arg 0) DI; MOVQ (Arg 8) SI;
    MOVQ (Mem 0 SI) AX; MULQ (Mem 0 SI); MOVQ AX CX; MOVQ DX R8;
    MOVQ (Mem 8 SI) DX; IMUL3Q 38 DX AX; MULQ (Mem 32 SI); ADDQ AX CX; ADCQ DX R8;
    MOVQ (Mem 16 SI) DX; IMUL3Q 38 DX AX; MULQ (Mem 24 SI); ADDQ AX CX; ADCQ DX R8;
    MOVQ (Mem 0 SI) AX; SHLQ 1 AX; MULQ (Mem 8 SI); MOVQ AX R9; MOVQ DX R10;
    MOVQ (Mem 16 SI) DX; IMUL3Q 38 DX AX; MULQ (Mem 32 SI); ADDQ AX R9; ADCQ DX R10;
    MOVQ (Mem 24 SI) DX; IMUL3Q 19 DX AX; MULQ (Mem 24 SI); ADDQ AX R9; ADCQ DX R10;
    MOVQ (Mem 0 SI) AX; SHLQ 1 AX; MULQ (Mem 16 SI); MOVQ AX R11; MOVQ DX R12;
    MOVQ (Mem 8 SI) AX; MULQ (Mem 8 SI); ADDQ AX R11; ADCQ DX R12;
    MOVQ (Mem 24 SI) DX; IMUL3Q 38 DX AX; MULQ (Mem 32 SI); ADDQ AX R11; ADCQ DX R12;
    MOVQ (Mem 0 SI) AX; SHLQ 1 AX; MULQ (Mem 24 SI); MOVQ AX R13; MOVQ DX R14;
    MOVQ (Mem 8 SI) AX; SHLQ 1 AX; MULQ (Mem 16 SI); ADDQ AX R13; ADCQ DX R14;
    MOVQ (Mem 32 SI) DX; IMUL3Q 19 DX AX; MULQ (Mem 32 SI); ADDQ AX R13; ADCQ DX R14;
    MOVQ (Mem 0 SI) AX; SHLQ 1 AX; MULQ (Mem 32 SI); MOVQ AX R15; MOVQ DX BX;
    MOVQ (Mem 8 SI) AX; SHLQ 1 AX; MULQ (Mem 24 SI); ADDQ AX R15; ADCQ DX BX;
    MOVQ (Mem 16 SI) AX; MULQ (Mem 16 SI); ADDQ AX R15; ADCQ DX BX;
    MOVQ (Imm 2251799813685247) AX; SHLD 13 CX R8; ANDQ AX CX; SHLD 13 R9 R10; ANDQ AX R9;
    ADDQ R8 R9; SHLD 13 R11 R12; ANDQ AX R11; ADDQ R10 R11; SHLD 13 R13 R14; ANDQ AX R13;
    ADDQ R12 R13; SHLD 13 R15 BX; ANDQ AX R15; ADDQ R14 R15; IMUL3Q 19 BX DX; ADDQ DX CX;
    MOVQ CX DX; SHRQ 51 DX; ADDQ DX R9; MOVQ R9 DX; SHRQ 51 DX; ANDQ AX CX; ADDQ DX R11;
    MOVQ R11 DX; SHRQ 51 DX; ANDQ AX R9; ADDQ DX R13; MOVQ R13 DX; SHRQ 51 DX; ANDQ AX R11;
    ADDQ DX R15; MOVQ R15 DX; SHRQ 51 DX; ANDQ AX R13; IMUL3Q 19 DX DX; ADDQ DX CX; ANDQ AX R15;
    MOVQ CX (Mem 0 DI); MOVQ R9 (Mem 8 DI); MOVQ R11 (Mem 16 DI); MOVQ R13 (Mem 24 DI);
    MOVQ R15 (Mem 32 DI); RET
  ].

(** The element at an address, and memory with an element stored at an address. *)
Definition element (m : Z -> Z) (a : Z) : FieldElement :=
  fe (m (a + 0)) (m (a + 8)) (m (a + 16)) (m (a + 24)) (m (a + 32)).
Definition store_at (o : Z) (f : FieldElement) (m : Z -> Z) : Z -> Z :=
  fun a => if a =? o + 32 then fe4 f else if a =? o + 24 then fe3 f else if a =? o + 16 then fe2 f
           else if a =? o + 8 then fe1 f else if a =? o + 0 then fe0 f else m a.

(** A call with its pointers at FP, FP+8, ..., on a memory. *)
Definition call (code : list instr) (pointers : list Z) (m : Z -> Z) : Z -> Z :=
  memory (run_code code (mkState (fun _ => 0) false m (fun off => nth (Z.to_nat (off / 8)) pointers 0))).

(** The result at 0, the arguments at 40 and 80. *)
Definition FeMul (a b : FieldElement) : FieldElement :=
  element (call FeMul_code [0; 40; 80] (store_at 40 a (store_at 80 b (fun _ => 0)))) 0.
Definition FeSquare (a : FieldElement) : FieldElement :=
  element (call FeSquare_code [0; 40] (store_at 40 a (fun _ => 0))) 0.

Definition FeSquare2 (a : FieldElement) : FieldElement :=
  let out := FeSquare a in FeAdd out out.

(** ** Bytes *)

Definition FeFromBytes (x : bytes) : FieldElement :=
  let x i := ith x i in
  let v0 := x 0%nat in
  let v0 := Z.lor v0 (x 1%nat << 8)%uint64 in
  let v0 := Z.lor v0 (x 2%nat << 16)%uint64 in
  let v0 := Z.lor v0 (x 3%nat << 24)%uint64 in
  let v0 := Z.lor v0 (x 4%nat << 32)%uint64 in
  let v0 := Z.lor v0 (x 5%nat << 40)%uint64 in
  let v0 := Z.lor v0 (Z.land (x 6%nat) 7 << 48)%uint64 in
  let v1 := (x 6%nat >> 3)%uint64 in
  let v1 := Z.lor v1 (x 7%nat << 5)%uint64 in
  let v1 := Z.lor v1 (x 8%nat << 13)%uint64 in
  let v1 := Z.lor v1 (x 9%nat << 21)%uint64 in
  let v1 := Z.lor v1 (x 10%nat << 29)%uint64 in
  let v1 := Z.lor v1 (x 11%nat << 37)%uint64 in
  let v1 := Z.lor v1 (Z.land (x 12%nat) 63 << 45)%uint64 in
  let v2 := (x 12%nat >> 6)%uint64 in
  let v2 := Z.lor v2 (x 13%nat << 2)%uint64 in
  let v2 := Z.lor v2 (x 14%nat << 10)%uint64 in
  let v2 := Z.lor v2 (x 15%nat << 18)%uint64 in
  let v2 := Z.lor v2 (x 16%nat << 26)%uint64 in
  let v2 := Z.lor v2 (x 17%nat << 34)%uint64 in
  let v2 := Z.lor v2 (x 18%nat << 42)%uint64 in
  let v2 := Z.lor v2 (Z.land (x 19%nat) 1 << 50)%uint64 in
  let v3 := (x 19%nat >> 1)%uint64 in
  let v3 := Z.lor v3 (x 20%nat << 7)%uint64 in
  let v3 := Z.lor v3 (x 21%nat << 15)%uint64 in
  let v3 := Z.lor v3 (x 22%nat << 23)%uint64 in
  let v3 := Z.lor v3 (x 23%nat << 31)%uint64 in
  let v3 := Z.lor v3 (x 24%nat << 39)%uint64 in
  let v3 := Z.lor v3 (Z.land (x 25%nat) 15 << 47)%uint64 in
  let v4 := (x 25%nat >> 4)%uint64 in
  let v4 := Z.lor v4 (x 26%nat << 4)%uint64 in
  let v4 := Z.lor v4 (x 27%nat << 12)%uint64 in
  let v4 := Z.lor v4 (x 28%nat << 20)%uint64 in
  let v4 := Z.lor v4 (x 29%nat << 28)%uint64 in
  let v4 := Z.lor v4 (x 30%nat << 36)%uint64 in
  let v4 := Z.lor v4 (Z.land (x 31%nat) 127 << 44)%uint64 in
  fe v0 v1 v2 v3 v4.

Definition feReduce (v : FieldElement) : FieldElement :=
  let 'fe t0 t1 t2 t3 t4 := propagate v in
  let c := ((t0 + 19) >> 51)%uint64 in
  let c := ((t1 + c) >> 51)%uint64 in
  let c := ((t2 + c) >> 51)%uint64 in
  let c := ((t3 + c) >> 51)%uint64 in
  let c := ((t4 + c) >> 51)%uint64 in
  let t0 := (t0 + 19 * c)%uint64 in
  let '(t0, t1) := carry51 t0 t1 in
  let '(t1, t2) := carry51 t1 t2 in
  let '(t2, t3) := carry51 t2 t3 in
  let '(t3, t4) := carry51 t3 t4 in
  let t4 := Z.land t4 maskLow51Bits in
  fe t0 t1 t2 t3 t4.

(** [byte((t >> k) & 0xff)], and a byte two limbs share:
    [r = byte(t >> k); r ^= byte((t' << s) & m)]. *)
Definition byte_of (t k : Z) : byte := z2b (Z.land (t >> k)%uint64 0xff).
Definition shared_byte (t k t' s m : Z) : byte :=
  z2b (Z.lxor (u8 (t >> k)%uint64) (u8 (Z.land (t' << s)%uint64 m))).

Definition limb_bytes (t0 t1 t2 t3 t4 : Z) : bytes :=
  [byte_of t0 0; byte_of t0 8; byte_of t0 16; byte_of t0 24; byte_of t0 32; byte_of t0 40;
   shared_byte t0 48 t1 3 0xf8;
   byte_of t1 5; byte_of t1 13; byte_of t1 21; byte_of t1 29; byte_of t1 37;
   shared_byte t1 45 t2 6 0xc0;
   byte_of t2 2; byte_of t2 10; byte_of t2 18; byte_of t2 26; byte_of t2 34; byte_of t2 42;
   shared_byte t2 50 t3 1 0xfe;
   byte_of t3 7; byte_of t3 15; byte_of t3 23; byte_of t3 31; byte_of t3 39;
   shared_byte t3 47 t4 4 0xf0;
   byte_of t4 4; byte_of t4 12; byte_of t4 20; byte_of t4 28; byte_of t4 36;
   byte_of t4 44].

(** Here the limbs are reduced into a local, and [v] is left as it was. *)
Definition FeToBytes (v : FieldElement) : bytes * FieldElement :=
  let 'fe t0 t1 t2 t3 t4 := feReduce v in
  (limb_bytes t0 t1 t2 t3 t4, v).

(** ** Values and bounds *)

Definition val (f : FieldElement) : Z :=
  fe0 f + 2 ^ 51 * fe1 f + 2 ^ 102 * fe2 f + 2 ^ 153 * fe3 f + 2 ^ 204 * fe4 f.

Definition within (b : Z) (f : FieldElement) : Prop :=
  0 <= fe0 f < b /\ 0 <= fe1 f < b /\ 0 <= fe2 f < b /\ 0 <= fe3 f < b /\ 0 <= fe4 f < b.
(** Sums of [k] results, twice a square being one; what is multiplied stays below 2^54, as the
    comment on [FeAdd] asks. *)
Definition size (k : Z) : FieldElement -> Prop := within (k * (2 ^ 52 + 2 ^ 19)).

(** ** The assembly, by its accumulators *)

(** The end of both programs: the 128-bit accumulators to limbs. *)
Definition reduce (r0 r1 r2 r3 r4 : Z * Z) : FieldElement :=
  let m := 2251799813685247 in
  let r01 := shld64 13 r0.1 r0.2 in
  let r00 := and64 r0.1 m in
  let r11 := shld64 13 r1.1 r1.2 in
  let r10 := add64 (and64 r1.1 m) r01 in
  let r21 := shld64 13 r2.1 r2.2 in
  let r20 := add64 (and64 r2.1 m) r11 in
  let r31 := shld64 13 r3.1 r3.2 in
  let r30 := add64 (and64 r3.1 m) r21 in
  let r41 := shld64 13 r4.1 r4.2 in
  let r40 := add64 (and64 r4.1 m) r31 in
  let r00 := add64 r00 (mul_lo r41 19) in
  let r10 := add64 r10 (shr64 51 r00) in
  let r20 := add64 r20 (shr64 51 r10) in
  let r30 := add64 r30 (shr64 51 r20) in
  let r40 := add64 r40 (shr64 51 r30) in
  let r00 := add64 (and64 r00 m) (mul_lo (shr64 51 r40) 19) in
  fe r00 (and64 r10 m) (and64 r20 m) (and64 r30 m) (and64 r40 m).

Definition mul_accumulators (x y : FieldElement) : FieldElement :=
  let 'fe x0 x1 x2 x3 x4 := x in
  let 'fe y0 y1 y2 y3 y4 := y in
  let n x := mul_lo x 19 in
  reduce (mac (mac (mac (mac (mul_wide x0 y0) (n x1) y4) (n x2) y3) (n x3) y2) (n x4) y1)
    (mac (mac (mac (mac (mul_wide x0 y1) x1 y0) (n x2) y4) (n x3) y3) (n x4) y2)
    (mac (mac (mac (mac (mul_wide x0 y2) x1 y1) x2 y0) (n x3) y4) (n x4) y3)
    (mac (mac (mac (mac (mul_wide x0 y3) x1 y2) x2 y1) x3 y0) (n x4) y4)
    (mac (mac (mac (mac (mul_wide x0 y4) x1 y3) x2 y2) x3 y1) x4 y0).

Definition square_accumulators (x : FieldElement) : FieldElement :=
  let 'fe x0 x1 x2 x3 x4 := x in
  let n x := mul_lo x 19 in
  let k x := mul_lo x 38 in
  let two x := shl64 1 x in
  reduce (mac (mac (mul_wide x0 x0) (k x1) x4) (k x2) x3)
    (mac (mac (mul_wide (two x0) x1) (k x2) x4) (n x3) x3)
    (mac (mac (mul_wide (two x0) x2) x1 x1) (k x3) x4)
    (mac (mac (mul_wide (two x0) x3) (two x1) x2) (n x4) x4)
    (mac (mac (mul_wide (two x0) x4) (two x1) x3) x2 x2).

Ltac execute :=
  intros; cbv -[add64 adc64 carry_out mul_lo mul_hi and64 shl64 shr64 shld64 imul_overflow Z.add Z.eqb Z.testbit];
  lazymatch goal with |- ?a = ?b => constr_eq a b; reflexivity end.

(** Both programs read all their input before they write, so that this holds wherever the
    pointers point, also to the same element. *)
Lemma FeMul_run s :
  memory (run_code FeMul_code s) =
  store_at (args s 0) (mul_accumulators (element (memory s) (args s 8)) (element (memory s) (args s 16))) (memory s).
Proof. execute. Qed.
Lemma FeSquare_run s :
  memory (run_code FeSquare_code s) = store_at (args s 0) (square_accumulators (element (memory s) (args s 8))) (memory s).
Proof. execute. Qed.

Lemma element_store o f m : element (store_at o f m) o = f.
Proof.
  destruct f. unfold element, store_at.
  repeat match goal with |- context [?a =? ?b] => destruct (Z.eqb_spec a b); try lia end. done.
Qed.
Lemma element_far o f m a : a + 40 <= o \/ o + 40 <= a -> element (store_at o f m) a = element m a.
Proof.
  intros H. unfold element, store_at.
  repeat match goal with |- context [?a =? ?b] => destruct (Z.eqb_spec a b); try lia end. done.
Qed.

(** The programs are functions of the elements their arguments point at. *)
Lemma FeMul_accumulators a b : FeMul a b = mul_accumulators a b.
Proof.
  unfold FeMul, call. rewrite FeMul_run, element_store. cbn [args memory].
  change (nth _ _ 0) with 40 at 1. change (nth (Z.to_nat (16 / 8)) _ 0) with 80.
  rewrite element_store, element_far, element_store by lia. done.
Qed.
Lemma FeSquare_accumulators a : FeSquare a = square_accumulators a.
Proof.
  unfold FeSquare, call. rewrite FeSquare_run, element_store. cbn [args memory].
  change (nth _ _ 0) with 40 at 1. rewrite element_store. done.
Qed.

(** ** Reduction *)

Lemma split_limb t : 0 <= t -> shr64 51 t = t / 2 ^ 51 /\ and64 t 2251799813685247 = t mod 2 ^ 51.
Proof.
  intros Ht. unfold shr64, and64. rewrite Z.shiftr_div_pow2 by lia. split; [done|].
  change 2251799813685247 with (2 ^ 51 - 1). rewrite Z.land_comm, land_ones_mod by lia. done.
Qed.

Lemma div_mod_51 t : t = 2 ^ 51 * (t / 2 ^ 51) + t mod 2 ^ 51 /\ 0 <= t mod 2 ^ 51 < 2 ^ 51.
Proof. split; [apply Z.div_mod; lia | apply Z.mod_pos_bound; lia]. Qed.

(** Name the halves of a number. *)
Ltac halves t q m :=
  let H := fresh "D" in
  pose proof (div_mod_51 t) as H; set (q := t / 2 ^ 51) in *; set (m := t mod 2 ^ 51) in *; clearbody q m.

(** What the accumulators of both programs stay below. *)
Definition acc_bound : Z := 700 * 2 ^ 104.

(** An accumulator that holds [v], at most [m]; an operand of a multiplication. *)
Definition accumulator (v m : Z) (r : Z * Z) : Prop := words r /\ wide r = v /\ 0 <= v <= m.
Definition factor (v m w : Z) : Prop := w = v /\ 0 <= v <= m.

Lemma factor_mul_lo x m n k :
  0 <= x <= m -> n = Zpos k -> (m * n <? 2 ^ 64) = true -> factor (x * n) (m * n) (mul_lo x n).
Proof. rewrite Z.ltb_lt. intros Hx -> Hm. split; [apply u64_small; nia | nia]. Qed.
Lemma factor_double x m : 0 <= x <= m -> (m * 2 <? 2 ^ 64) = true -> factor (x * 2) (m * 2) (shl64 1 x).
Proof.
  rewrite Z.ltb_lt. intros Hx Hm. split; [|lia]. unfold shl64. rewrite Z.shiftl_mul_pow2 by lia. apply u64_small. lia.
Qed.

Lemma mul_accumulator a b v m w n :
  factor v m a -> factor w n b -> ((m <? 2 ^ 64) && (n <? 2 ^ 64)) = true ->
  accumulator (v * w) (m * n) (mul_wide a b).
Proof.
  intros [-> Hv] [-> Hw]. rewrite andb_true_iff, !Z.ltb_lt. intros [Hm Hn].
  destruct (mul_words v w) as [H E]; [lia..|]. split; [done|]. split; [done | nia].
Qed.
Lemma mac_accumulator r u k a b v m w n :
  accumulator u k r -> factor v m a -> factor w n b ->
  ((m <? 2 ^ 64) && (n <? 2 ^ 64) && (k + m * n <? 2 ^ 128)) = true ->
  accumulator (u + v * w) (k + m * n) (mac r a b).
Proof.
  intros (Hr & <- & Hu) [-> Hv] [-> Hw]. rewrite !andb_true_iff, !Z.ltb_lt. intros [[Hm Hn] Hk].
  assert (0 <= v * w <= m * n) by nia.
  destruct (mac_words r v w) as [H' E]; [done | lia..|]. split; [done|]. split; [done | lia].
Qed.

Ltac factor_ :=
  lazymatch goal with
  | |- factor _ _ (mul_lo _ _) => eapply factor_mul_lo; [eassumption | reflexivity | reflexivity]
  | |- factor _ _ (shl64 _ _) => eapply factor_double; [eassumption | reflexivity]
  | |- factor _ _ _ => split; [reflexivity | eassumption]
  end.
Ltac accumulate :=
  lazymatch goal with
  | |- accumulator _ _ (mul_wide _ _) => eapply mul_accumulator; [factor_ | factor_ | reflexivity]
  | |- accumulator _ _ (mac _ _ _) => eapply mac_accumulator; [accumulate | factor_ | factor_ | reflexivity]
  end.

Lemma reduce51_spec r0 r1 r2 r3 r4 v0 v1 v2 v3 v4 b0 b1 b2 b3 b4 v :
  accumulator v0 b0 r0 -> accumulator v1 b1 r1 -> accumulator v2 b2 r2 -> accumulator v3 b3 r3 ->
  accumulator v4 b4 r4 ->
  (forallb (fun b => b <=? acc_bound) [b0; b1; b2; b3] && (b4 <=? 46 * 2 ^ 104)) = true ->
  v0 + 2 ^ 51 * v1 + 2 ^ 102 * v2 + 2 ^ 153 * v3 + 2 ^ 204 * v4 =p v ->
  within (2 ^ 51 + 2 ^ 18) (reduce r0 r1 r2 r3 r4) /\ val (reduce r0 r1 r2 r3 r4) =p v.
Proof.
  cbn [forallb]. rewrite !andb_true_iff, !Z.leb_le.
  intros (W0 & E0 & B0) (W1 & E1 & B1) (W2 & E2 & B2) (W3 & E3 & B3) (W4 & E4 & B4) B <-. unfold acc_bound in B.
  unfold reduce. cbv zeta.
  destruct (split_51 r0 W0) as [-> ->]; [lia|]. destruct (split_51 r1 W1) as [-> ->]; [lia|].
  destruct (split_51 r2 W2) as [-> ->]; [lia|]. destruct (split_51 r3 W3) as [-> ->]; [lia|].
  destruct (split_51 r4 W4) as [-> ->]; [lia|]. rewrite E0, E1, E2, E3, E4. clear W0 W1 W2 W3 W4 E0 E1 E2 E3 E4.
  halves v0 q0 m0. halves v1 q1 m1. halves v2 q2 m2. halves v3 q3 m3. halves v4 q4 m4.
  unfold mul_lo, add64. rewrite (u64_small (q4 * 19)) by lia.
  rewrite (u64_small (m0 + _)), (u64_small (m1 + _)), (u64_small (m2 + _)), (u64_small (m3 + _)), (u64_small (m4 + _)) by lia.
  set (u0 := m0 + q4 * 19) in *. destruct (split_limb u0) as [-> ->]; [lia|]. halves u0 c0 l0.
  rewrite (u64_small (m1 + q0 + c0)) by lia.
  set (u1 := m1 + q0 + c0) in *. destruct (split_limb u1) as [-> ->]; [lia|]. halves u1 c1 l1.
  rewrite (u64_small (m2 + q1 + c1)) by lia.
  set (u2 := m2 + q1 + c1) in *. destruct (split_limb u2) as [-> ->]; [lia|]. halves u2 c2 l2.
  rewrite (u64_small (m3 + q2 + c2)) by lia.
  set (u3 := m3 + q2 + c2) in *. destruct (split_limb u3) as [-> ->]; [lia|]. halves u3 c3 l3.
  rewrite (u64_small (m4 + q3 + c3)) by lia.
  set (u4 := m4 + q3 + c3) in *. destruct (split_limb u4) as [-> ->]; [lia|]. halves u4 c4 l4.
  rewrite (u64_small (c4 * 19)), u64_small by lia.
  unfold within, val. cbn [fe0 fe1 fe2 fe3 fe4]. split; [lia|].
  apply (eqp_diff _ _ (- (q4 + c4))). unfold p. lia.
Qed.

Lemma size_limbs f :
  size 3 f ->
  0 <= fe0 f <= 3 * (2 ^ 52 + 2 ^ 19) /\ 0 <= fe1 f <= 3 * (2 ^ 52 + 2 ^ 19) /\ 0 <= fe2 f <= 3 * (2 ^ 52 + 2 ^ 19) /\
  0 <= fe3 f <= 3 * (2 ^ 52 + 2 ^ 19) /\ 0 <= fe4 f <= 3 * (2 ^ 52 + 2 ^ 19).
Proof. unfold size, within. lia. Qed.

Lemma tight_51 f (v : Z) : within (2 ^ 51 + 2 ^ 18) f /\ val f =p v -> size 1 f /\ val f =p v.
Proof. unfold size, within. intros [H E]. split; [lia | done]. Qed.

Lemma FeMul64_limbs f g : size 3 f -> size 3 g -> within (2 ^ 51 + 2 ^ 18) (FeMul f g) /\ val (FeMul f g) =p val f * val g.
Proof.
  intros (X0 & X1 & X2 & X3 & X4)%size_limbs (Y0 & Y1 & Y2 & Y3 & Y4)%size_limbs. rewrite FeMul_accumulators.
  destruct f as [x0 x1 x2 x3 x4], g as [y0 y1 y2 y3 y4]. cbn [fe0 fe1 fe2 fe3 fe4] in *.
  unfold mul_accumulators. cbv beta iota zeta. eapply reduce51_spec; [accumulate .. | reflexivity |].
  unfold val. cbn [fe0 fe1 fe2 fe3 fe4].
  apply (eqp_diff _ _ (- (x1 * y4 + x2 * y3 + x3 * y2 + x4 * y1 + 2 ^ 51 * (x2 * y4 + x3 * y3 + x4 * y2) +
    2 ^ 102 * (x3 * y4 + x4 * y3) + 2 ^ 153 * (x4 * y4)))). unfold p. ring.
Qed.
Lemma FeMul64_spec f g : size 3 f -> size 3 g -> size 1 (FeMul f g) /\ val (FeMul f g) =p val f * val g.
Proof. intros. by apply tight_51, FeMul64_limbs. Qed.

Lemma accumulator_inj v v' m m' r r' : accumulator v m r -> accumulator v' m' r' -> v = v' -> r = r'.
Proof.
  unfold accumulator, words, wide. destruct r as [a b], r' as [a' b']. cbn [fst snd].
  intros (H & E & _) (H' & E' & _) <-. f_equal; lia.
Qed.

(** The two programs fill the same accumulators when the arguments are equal. *)
Lemma square_is_product f : size 3 f -> FeSquare f = FeMul f f.
Proof.
  intros (X0 & X1 & X2 & X3 & X4)%size_limbs. rewrite FeSquare_accumulators, FeMul_accumulators.
  destruct f as [x0 x1 x2 x3 x4]. cbn [fe0 fe1 fe2 fe3 fe4] in *.
  unfold square_accumulators, mul_accumulators. cbv beta iota zeta.
  f_equal; (eapply accumulator_inj; [accumulate | accumulate | ring]).
Qed.

Lemma FeSquare64_spec f : size 3 f -> size 1 (FeSquare f) /\ val (FeSquare f) =p val f * val f.
Proof. intros Hf. rewrite square_is_product by done. by apply FeMul64_spec. Qed.

(** ** Additions and moves *)

Lemma FeAdd64_spec b c f g :
  within b f -> within c g -> b + c <= 2 ^ 64 -> within (b + c) (FeAdd f g) /\ val (FeAdd f g) = val f + val g.
Proof.
  unfold within. intros Hf Hg Hb. unfold FeAdd, map_limbs, val. cbn [fe0 fe1 fe2 fe3 fe4].
  rewrite !u64_small by lia. lia.
Qed.


Lemma carry51_spec lo hi :
  0 <= lo -> 0 <= hi -> hi + lo / 2 ^ 51 < 2 ^ 64 -> carry51 lo hi = (lo mod 2 ^ 51, hi + lo / 2 ^ 51).
Proof.
  intros Hlo Hhi H. unfold carry51, maskLow51Bits. rewrite Z.land_comm, land_ones_mod, Z.shiftr_div_pow2 by lia.
  pose proof (Z.div_pos lo (2 ^ 51) Hlo ltac:(lia)). rewrite u64_small by lia. done.
Qed.
Lemma mask51_spec t : 0 <= t -> Z.land t maskLow51Bits = t mod 2 ^ 51.
Proof. intros Ht. unfold maskLow51Bits. rewrite Z.land_comm. by apply land_ones_mod. Qed.

Ltac carry51_step t q m :=
  lazymatch goal with
  | |- context [carry51 t ?hi] =>
      let D := fresh "D" in pose proof (div_mod_51 t) as D; rewrite (carry51_spec t hi) by lia;
      set (q := t / 2 ^ 51) in *; set (m := t mod 2 ^ 51) in *; clearbody q m; cbv beta iota
  end.

(** The same value modulo p, and limbs of 51 bits but for a little in the lowest. *)
Lemma propagate_spec t :
  within (2 ^ 54) t ->
  exists t0 t1 t2 t3 t4 c, propagate t = fe t0 t1 t2 t3 t4 /\
    0 <= t0 < 2 ^ 51 + 171 /\ 0 <= t1 < 2 ^ 51 /\ 0 <= t2 < 2 ^ 51 /\ 0 <= t3 < 2 ^ 51 /\ 0 <= t4 < 2 ^ 51 /\
    val (fe t0 t1 t2 t3 t4) = val t - p * c.
Proof.
  destruct t as [t0 t1 t2 t3 t4]. unfold within, propagate. cbn [fe0 fe1 fe2 fe3 fe4].
  intros (H0 & H1 & H2 & H3 & H4).
  carry51_step t0 q0 m0. set (u1 := t1 + q0) in *. carry51_step u1 q1 m1.
  set (u2 := t2 + q1) in *. carry51_step u2 q2 m2. set (u3 := t3 + q2) in *. carry51_step u3 q3 m3.
  cbv zeta. rewrite mask51_spec, Z.shiftr_div_pow2 by lia. set (u4 := t4 + q3) in *. halves u4 q4 m4.
  rewrite (u64_small (q4 * 19)), u64_small by lia.
  exists (m0 + q4 * 19), m1, m2, m3, m4, q4. split; [done|].
  split_and!; try lia. unfold val, p. cbn [fe0 fe1 fe2 fe3 fe4]. lia.
Qed.

Lemma FeSub64_spec b f g :
  within b f -> within (2 ^ 54) g -> b <= 2 ^ 54 ->
  within (b + 2 ^ 52 - 1) (FeSub f g) /\ val (FeSub f g) =p val f - val g.
Proof.
  intros Hf Hg Hb. destruct (propagate_spec g Hg) as (t0 & t1 & t2 & t3 & t4 & c & Et & H0 & H1 & H2 & H3 & H4 & E).
  unfold FeSub. rewrite Et. unfold within in Hf |- *.
  destruct f as [x0 x1 x2 x3 x4]. cbn [fe0 fe1 fe2 fe3 fe4] in *.
  rewrite (u64_small (x0 + _)), (u64_small (x1 + _)), (u64_small (x2 + _)), (u64_small (x3 + _)), (u64_small (x4 + _)) by lia.
  rewrite !u64_small by lia. split; [lia|].
  apply (eqp_diff _ _ (2 + c)). revert E. unfold val, p. cbn [fe0 fe1 fe2 fe3 fe4]. lia.
Qed.

Lemma lxor_mod x y w : 0 <= w -> 0 <= x < 2 ^ w -> 0 <= y < 2 ^ w -> Z.lxor x y mod 2 ^ w = Z.lxor x y.
Proof.
  intros Hw Hx Hy. rewrite <- Z.land_ones by done. apply Z.bits_inj'. intros i Hi.
  rewrite Z.land_spec, Z.lxor_spec. destruct (Z.lt_ge_cases i w).
  - rewrite Z.ones_spec_low by lia. apply andb_true_r.
  - rewrite (testbit_high x w), (testbit_high y w) by lia. done.
Qed.

Lemma FeCMove64_spec f g b : within (2 ^ 64) f -> within (2 ^ 64) g -> FeCMove f g (Z.b2z b) = if b then g else f.
Proof.
  unfold within. destruct f as [x0 x1 x2 x3 x4], g as [y0 y1 y2 y3 y4]. cbn [fe0 fe1 fe2 fe3 fe4].
  intros Hf Hg. unfold FeCMove, map_limbs. cbn [fe0 fe1 fe2 fe3 fe4].
  assert (E : forall x y, 0 <= x < 2 ^ 64 -> 0 <= y < 2 ^ 64 ->
    Z.lxor x (Z.land (u64 ((2 ^ 64 - 1) * u64 (Z.b2z b))) (Z.lxor x y)) = if b then y else x).
  { intros x y Hx Hy. destruct b; cbn [Z.b2z].
    - change (u64 ((2 ^ 64 - 1) * u64 1)) with (2 ^ 64 - 1). rewrite land_ones_mod by lia.
      rewrite lxor_mod by lia. rewrite <- Z.lxor_assoc, Z.lxor_nilpotent. apply Z.lxor_0_l.
    - change (u64 ((2 ^ 64 - 1) * u64 0)) with 0. rewrite Z.land_0_l. apply Z.lxor_0_r. }
  rewrite !E by lia. by destruct b.
Qed.

(** ** Bytes *)

Lemma shared_byte_spec s k t t' :
  0 < s <= 6 -> k = 51 - s -> 0 <= t < 2 ^ 51 -> 0 <= t' < 2 ^ 51 ->
  b2z (shared_byte t k t' s (256 - 2 ^ s)) = t / 2 ^ k + 2 ^ s * (t' mod 2 ^ (8 - s)).
Proof.
  intros Hs -> Ht Ht'. unfold shared_byte. rewrite b2z_z2b, Z.shiftr_div_pow2 by lia.
  assert (Hq : 0 <= t / 2 ^ (51 - s) < 2 ^ s).
  { split; [apply Z.div_pos; [lia | apply Z.pow_pos_nonneg; lia]|].
    apply Z.div_lt_upper_bound; [apply Z.pow_pos_nonneg; lia|].
    rewrite <- Z.pow_add_r by lia. replace (51 - s + s) with 51 by lia. lia. }
  assert (2 ^ s <= 2 ^ 6) by (apply Z.pow_le_mono_r; lia).
  assert (E8 : 2 ^ 8 = 2 ^ s * 2 ^ (8 - s)) by (rewrite <- Z.pow_add_r by lia; f_equal; lia).
  assert (Hm : 0 <= t' mod 2 ^ (8 - s) < 2 ^ (8 - s)) by (apply Z.mod_pos_bound, Z.pow_pos_nonneg; lia).
  assert (Em : 256 - 2 ^ s = Z.shiftl (2 ^ (8 - s) - 1) s).
  { rewrite Z.shiftl_mul_pow2 by lia. change 256 with (2 ^ 8). rewrite E8. ring. }
  rewrite (u64_small (Z.shiftl t' s)) by (rewrite Z.shiftl_mul_pow2 by lia; nia).
  rewrite Em, <- Z.shiftl_land, Z.land_comm, land_ones_mod by lia.
  assert (Hb : 0 <= Z.shiftl (t' mod 2 ^ (8 - s)) s < 2 ^ 8) by (rewrite Z.shiftl_mul_pow2 by lia; nia).
  unfold u8. rewrite (Z.mod_small (t / _)), (Z.mod_small (Z.shiftl _ _)) by lia.
  rewrite lxor_add by lia. apply Z.mod_small. change 256 with (2 ^ 8). nia.
Qed.

Lemma byte_of_spec t k : 0 <= k -> b2z (byte_of t k) = t / 2 ^ k mod 256.
Proof.
  intros Hk. unfold byte_of. rewrite b2z_z2b, Z.shiftr_div_pow2 by done.
  change 255 with (2 ^ 8 - 1). rewrite Z.land_comm, land_ones_mod by lia. apply Zmod_mod.
Qed.

Lemma byte_step t k k' : (k' =? k + 8) = true -> (0 <=? k) = true -> t / 2 ^ k = t / 2 ^ k mod 256 + 256 * (t / 2 ^ k').
Proof.
  rewrite Z.eqb_eq, Z.leb_le. intros -> Hk. rewrite Z.pow_add_r, <- Z.div_div by (try apply Z.pow_nonzero; lia).
  change (2 ^ 8) with 256. pose proof (Z.div_mod (t / 2 ^ k) 256). lia.
Qed.

(** A limb by its bytes: the low [s] bits, then the bytes from [s] on. *)
Ltac limb_steps t s ks :=
  lazymatch ks with
  | ?k :: ?ks => pose proof (byte_step t s k eq_refl eq_refl); limb_steps t k ks
  | [] => idtac
  end.

Lemma limb_bytes64_spec t0 t1 t2 t3 t4 :
  0 <= t0 < 2 ^ 51 -> 0 <= t1 < 2 ^ 51 -> 0 <= t2 < 2 ^ 51 -> 0 <= t3 < 2 ^ 51 -> 0 <= t4 < 2 ^ 51 ->
  le_value (limb_bytes t0 t1 t2 t3 t4) = val (fe t0 t1 t2 t3 t4).
Proof.
  intros H0 H1 H2 H3 H4. unfold limb_bytes. cbn [le_value]. rewrite !byte_of_spec by lia.
  rewrite (shared_byte_spec 3 48), (shared_byte_spec 6 45), (shared_byte_spec 1 50), (shared_byte_spec 4 47) by lia.
  limb_steps t0 0 [8; 16; 24; 32; 40; 48]. limb_steps t1 5 [13; 21; 29; 37; 45].
  limb_steps t2 2 [10; 18; 26; 34; 42; 50]. limb_steps t3 7 [15; 23; 31; 39; 47].
  limb_steps t4 4 [12; 20; 28; 36; 44].
  pose proof (Z.div_mod t1 (2 ^ (8 - 3))). pose proof (Z.div_mod t2 (2 ^ (8 - 6))).
  pose proof (Z.div_mod t3 (2 ^ (8 - 1))). pose proof (Z.div_mod t4 (2 ^ (8 - 4))).
  rewrite (Z.mod_small (t4 / 2 ^ 44)) in * by (split; [apply Z.div_pos; lia | apply Z.div_lt_upper_bound; lia]).
  change (2 ^ (8 - 3)) with (2 ^ 5) in *. change (2 ^ (8 - 6)) with (2 ^ 2) in *.
  change (2 ^ (8 - 1)) with (2 ^ 7) in *. change (2 ^ (8 - 4)) with (2 ^ 4) in *.
  change (2 ^ 0) with 1 in *. rewrite Z.div_1_r in *. unfold val. cbn [fe0 fe1 fe2 fe3 fe4].
  repeat match goal with
         | H : context [?a / ?b] |- _ => generalize dependent (a / b); intros
         | H : context [?a mod ?b] |- _ => generalize dependent (a mod b); intros
         end.
  lia.
Qed.

Lemma feReduce_spec v :
  within (2 ^ 54) v ->
  exists t0 t1 t2 t3 t4, feReduce v = fe t0 t1 t2 t3 t4 /\
    0 <= t0 < 2 ^ 51 /\ 0 <= t1 < 2 ^ 51 /\ 0 <= t2 < 2 ^ 51 /\ 0 <= t3 < 2 ^ 51 /\ 0 <= t4 < 2 ^ 51 /\
    val (fe t0 t1 t2 t3 t4) = val v mod p.
Proof.
  intros Hv. destruct (propagate_spec v Hv) as (t0 & t1 & t2 & t3 & t4 & c & Et & H0 & H1 & H2 & H3 & H4 & E).
  unfold feReduce. rewrite Et. clear Et Hv. cbv zeta. rewrite !Z.shiftr_div_pow2 by lia.
  rewrite (u64_small (t0 + 19)) by lia. halves (t0 + 19) k0 n0.
  rewrite (u64_small (t1 + k0)) by lia. halves (t1 + k0) k1 n1.
  rewrite (u64_small (t2 + k1)) by lia. halves (t2 + k1) k2 n2.
  rewrite (u64_small (t3 + k2)) by lia. halves (t3 + k2) k3 n3.
  rewrite (u64_small (t4 + k3)) by lia. halves (t4 + k3) k4 n4.
  rewrite (u64_small (19 * k4)), (u64_small (t0 + _)) by lia.
  set (u0 := t0 + 19 * k4) in *. carry51_step u0 q0 m0.
  set (u1 := t1 + q0) in *. carry51_step u1 q1 m1.
  set (u2 := t2 + q1) in *. carry51_step u2 q2 m2. set (u3 := t3 + q2) in *. carry51_step u3 q3 m3.
  set (u4 := t4 + q3) in *. rewrite mask51_spec by lia. halves u4 q4 m4.
  exists m0, m1, m2, m3, m4. split; [done|]. split_and!; try lia.
  assert (Ev : val v = val (fe t0 t1 t2 t3 t4) + p * c) by lia. rewrite Ev, Z.mul_comm, Z_mod_plus_full.
  apply (Z.mod_unique _ _ k4); unfold val, p in *; cbn [fe0 fe1 fe2 fe3 fe4] in *; lia.
Qed.

Lemma FeToBytes64_spec v :
  within (2 ^ 54) v ->
  (length (FeToBytes v).1 = 32%nat /\ le_value (FeToBytes v).1 = val v mod p) /\ (FeToBytes v).2 = v.
Proof.
  intros Hv. destruct (feReduce_spec v Hv) as (t0 & t1 & t2 & t3 & t4 & Et & H0 & H1 & H2 & H3 & H4 & E).
  unfold FeToBytes. rewrite Et. cbn [fst snd]. split; [|done]. split; [done|].
  rewrite limb_bytes64_spec by done. exact E.
Qed.

Lemma shl_byte x k : 0 <= x < 256 -> 0 <= k <= 50 -> u64 (Z.shiftl x k) = Z.shiftl x k.
Proof.
  intros Hx Hk. apply u64_small. rewrite Z.shiftl_mul_pow2 by lia.
  assert (2 ^ k <= 2 ^ 50) by (apply Z.pow_le_mono_r; lia). nia.
Qed.

Lemma land_low x m s : 0 <= s -> m = 2 ^ s - 1 -> Z.land x m = x mod 2 ^ s.
Proof. intros Hs ->. rewrite Z.land_comm. by apply land_ones_mod. Qed.

Lemma FeFromBytes64_spec s :
  length s = 32%nat -> within (2 ^ 51) (FeFromBytes s) /\ val (FeFromBytes s) = le_value s mod 2 ^ 255.
Proof.
  intros Hl.
  assert (exists l b, s = l ++ [b]) as (l & b & ->).
  { destruct s using rev_ind; [discriminate | eauto]. }
  rewrite length_app in Hl. simpl in Hl. assert (Hl' : length l = 31%nat) by lia. clear Hl.
  rewrite le_value_low by done.
  do 31 (destruct l as [|? l]; [discriminate|]). destruct l; [|discriminate]. clear Hl'.
  unfold FeFromBytes. cbv beta zeta. unfold ith. cbn [nth app le_value].
  repeat match goal with |- context [b2z ?x] => pose proof (b2z_range x); generalize dependent (b2z x); intros end.
  rewrite (land_low _ 7 3), (land_low _ 63 6), (land_low _ 1 1), (land_low _ 15 4), (land_low _ 127 7) by lia.
  rewrite !Z.shiftr_div_pow2 by lia.
  repeat match goal with
         | |- context [?x mod 2 ^ ?k] =>
             pose proof (Z.div_mod x (2 ^ k) ltac:(lia)); pose proof (Z.mod_pos_bound x (2 ^ k) ltac:(lia));
             generalize dependent (x mod 2 ^ k); generalize dependent (x / 2 ^ k); intros
         end.
  rewrite !shl_byte by lia.
  rewrite (lor_add _ _ 8), (lor_add _ _ 16), (lor_add _ _ 24), (lor_add _ _ 32), (lor_add _ _ 40), (lor_add _ _ 48),
    (lor_add _ _ 5), (lor_add _ _ 13), (lor_add _ _ 21), (lor_add _ _ 29), (lor_add _ _ 37), (lor_add _ _ 45),
    (lor_add _ _ 2), (lor_add _ _ 10), (lor_add _ _ 18), (lor_add _ _ 26), (lor_add _ _ 34), (lor_add _ _ 42), (lor_add _ _ 50),
    (lor_add _ _ 7), (lor_add _ _ 15), (lor_add _ _ 23), (lor_add _ _ 31), (lor_add _ _ 39), (lor_add _ _ 47),
    (lor_add _ _ 4), (lor_add _ _ 12), (lor_add _ _ 20), (lor_add _ _ 28), (lor_add _ _ 36), (lor_add _ _ 44) by lia.
  unfold within, val. cbn [fe0 fe1 fe2 fe3 fe4]. lia.
Qed.

(** ** The representation *)

Definition amd64 : FieldElements := {|
  FieldRep.FieldElement := FieldElement;
  FieldRep.limb0 n := fe n 0 0 0 0;
  FieldRep.FeAdd := FeAdd; FieldRep.FeSub := FeSub; FieldRep.FeNeg := FeNeg;
  FieldRep.FeMul := FeMul; FieldRep.FeSquare := FeSquare; FieldRep.FeSquare2 := FeSquare2;
  FieldRep.FeCMove := FeCMove;
  FieldRep.FeFromBytes := FeFromBytes; FieldRep.FeToBytes := FeToBytes;
|}.

Lemma within51_mono b c f : b <= c -> within b f -> within c f.
Proof. unfold within. lia. Qed.

Lemma FeSquare2_64_spec f : size 3 f -> size 1 (FeSquare2 f) /\ val (FeSquare2 f) =p 2 * (val f * val f).
Proof.
  intros Hf. destruct (FeMul64_limbs f f Hf Hf) as [Hs E]. unfold FeSquare2. cbv zeta.
  rewrite square_is_product by done.
  destruct (FeAdd64_spec _ _ _ _ Hs Hs) as [Ha Ea]; [lia|]. split; [eapply within51_mono; [|exact Ha]; lia|].
  rewrite Ea, E. apply (eqp_diff _ _ 0). ring.
Qed.

#[refine] Definition amd64_laws : FieldLaws amd64 := {|
  FieldRep.val := val : amd64.(FieldRep.FieldElement) -> Z; FieldRep.size := size |}.
Proof.
  - intros j k f Hjk. apply within51_mono. lia.
  - intros n Hn. cbn. unfold size, within, val. cbn [fe0 fe1 fe2 fe3 fe4]. lia.
  - intros j k f g Hf Hg Hj Hk Hjk. destruct (FeAdd64_spec _ _ f g Hf Hg) as [H E]; [lia|].
    split; [eapply within51_mono; [|exact H]; lia | cbn; by rewrite E].
  - intros j k f g Hf Hg Hj Hk Hjk. destruct (FeSub64_spec (j * (2 ^ 52 + 2 ^ 19)) f g) as [H E]; [done | | lia |].
    + eapply within51_mono; [|exact Hg]. lia.
    + split; [eapply within51_mono; [|exact H]; lia | done].
  - intros k f Hf Hk. destruct (FeSub64_spec 1 (fe 0 0 0 0 0) f) as [H E]; [by unfold within | | lia |].
    + eapply within51_mono; [|exact Hf]. lia.
    + split; [eapply within51_mono; [|exact H]; lia | exact E].
  - exact FeMul64_spec.
  - exact FeSquare64_spec.
  - exact FeSquare2_64_spec.
  - intros f g b Hf Hg. apply FeCMove64_spec; (eapply within51_mono; [|eassumption]); lia.
  - intros s Hs. destruct (FeFromBytes64_spec s Hs) as [H E].
    split; [eapply within51_mono; [|exact H]; lia | cbn; by rewrite E].
  - intros k f Hf Hk. destruct (FeToBytes64_spec f) as [Hb E].
    + eapply within51_mono; [|exact Hf]. nia.
    + split; [exact Hb|]. cbn. rewrite E. split; [|done]. eapply within51_mono; [|exact Hf]. nia.
Defined.

(** ** Theorems *)

(** C37. The assembly multiplies.  From any registers, flags and memory, with the pointers anywhere (the
    result may overwrite an argument): on limbs up to 3*2^52 (and a little more) the code of [FeMul] leaves at its
    first pointer an element of the product modulo p, with limbs below 2^51 + 2^18, and the rest of
    memory as it was; [FeSquare] does the same with the square, and gives the very limbs [FeMul]
    gives for two equal arguments.  No 128-bit accumulator and no limb overflows. *)
Theorem assembly_correct (s : state) :
  let out := args s 0 in
  let x := element (memory s) (args s 8) in
  let y := element (memory s) (args s 16) in
  size 3 x -> size 3 y ->
  (let m := memory (run_code FeMul_code s) in
   within (2 ^ 51 + 2 ^ 18) (element m out) /\ val (element m out) =p val x * val y /\
   (forall a, ~ In (a - out) [0; 8; 16; 24; 32] -> m a = memory s a)) /\
  (let m := memory (run_code FeSquare_code s) in
   within (2 ^ 51 + 2 ^ 18) (element m out) /\ val (element m out) =p val x * val x /\
   (forall a, ~ In (a - out) [0; 8; 16; 24; 32] -> m a = memory s a)) /\
  FeSquare x = FeMul x x.
Proof.
  intros out x y Hx Hy. cbv zeta. rewrite FeMul_run, FeSquare_run.
  change (args s 0) with out. change (element (memory s) (args s 8)) with x.
  change (element (memory s) (args s 16)) with y. rewrite !element_store, <- FeMul_accumulators, <- FeSquare_accumulators.
  assert (R : forall f a, ~ In (a - out) [0; 8; 16; 24; 32] -> store_at out f (memory s) a = memory s a).
  { intros f a Ha. unfold store_at. cbn [In] in Ha.
    repeat match goal with |- context [?a =? ?b] => destruct (Z.eqb_spec a b); [lia|] end. done. }
  destruct (FeMul64_limbs x y Hx Hy) as [HM EM], (FeMul64_limbs x x Hx Hx) as [HS ES].
  rewrite (square_is_product x Hx).
  split; [by auto|]. split; by auto.
Qed.

(** The result overwrites the first argument. *)
Definition an_fe : FieldElement := fe (3 * 2 ^ 52) 5 (3 * 2 ^ 52) 7 (2 ^ 51).
Definition in_place : state :=
  mkState (fun _ => 17) true (store_at 64 an_fe (store_at 256 an_fe (fun _ => 0))) (fun off => if off =? 16 then 256 else 64).
Lemma assembly_correct_witness :
  val (element (memory (run_code FeMul_code in_place)) 64) =p val an_fe * val an_fe.
Proof.
  destruct (assembly_correct in_place) as ((_ & H & _) & _).
  - vm_compute. repeat split; congruence.
  - vm_compute. repeat split; congruence.
  - exact H.
Defined.
