(* ===== verification/Field.v ===== *)
(** * Field elements: constants, tests and powers

    [src/crypto/ed25519/internal/edwards25519/field.go], which is independent of the
    representation, and so is this file: zero and one, the sign and zero tests (on the canonical
    bytes), and the two power chains [FeInvert] (p-2) and [fePow22523] (2^252-3). *)

From Stdlib Require Import Setoid Morphisms Znumtheory.
From S2P Require Import Prelude Prime Word Modp FeAmd64 Fe FieldRep.
#[local] Open Scope Z_scope.

Section Operations.
Context {F : FieldElements}.

Definition FeZero : FieldElement := limb0 0.
Definition FeOne : FieldElement := limb0 1.
Definition FeCopy (src : FieldElement) : FieldElement := src.

(** The tests pass their argument on to [FeToBytes]: the answer, and what the argument is left as. *)
Definition FeIsNegative (f : FieldElement) : Z * FieldElement :=
  let '(s, f) := FeToBytes f in
  (Z.land (ith s 0) 1, f).

Definition FeIsNonZero (f : FieldElement) : Z * FieldElement :=
  let '(s, f) := FeToBytes f in
  let x := fold_left (fun x b => Z.lor x (b2z b)) s 0 in
  let x := Z.lor x (Z.shiftr x 4) in
  let x := Z.lor x (Z.shiftr x 2) in
  let x := Z.lor x (Z.shiftr x 1) in
  (Z.land x 1, f).

(** [for i = 1; i < n; i++ { FeSquare(&t, &t) }] *)
Definition squares (n : nat) (t : FieldElement) : FieldElement := Nat.iter (n - 1) FeSquare t.

Definition FeInvert (z : FieldElement) : FieldElement :=
  let t0 := FeSquare z in
  let t1 := FeSquare t0 in
  let t1 := squares 2 t1 in
  let t1 := FeMul z t1 in
  let t0 := FeMul t0 t1 in
  let t2 := FeSquare t0 in
  let t1 := FeMul t1 t2 in
  let t2 := FeSquare t1 in
  let t2 := squares 5 t2 in
  let t1 := FeMul t2 t1 in
  let t2 := FeSquare t1 in
  let t2 := squares 10 t2 in
  let t2 := FeMul t2 t1 in
  let t3 := FeSquare t2 in
  let t3 := squares 20 t3 in
  let t2 := FeMul t3 t2 in
  let t2 := FeSquare t2 in
  let t2 := squares 10 t2 in
  let t1 := FeMul t2 t1 in
  let t2 := FeSquare t1 in
  let t2 := squares 50 t2 in
  let t2 := FeMul t2 t1 in
  let t3 := FeSquare t2 in
  let t3 := squares 100 t3 in
  let t2 := FeMul t3 t2 in
  let t2 := FeSquare t2 in
  let t2 := squares 50 t2 in
  let t1 := FeMul t2 t1 in
  let t1 := FeSquare t1 in
  let t1 := squares 5 t1 in
  FeMul t1 t0.

Definition fePow22523 (z : FieldElement) : FieldElement :=
  let t0 := FeSquare z in
  let t0 := squares 1 t0 in
  let t1 := FeSquare t0 in
  let t1 := squares 2 t1 in
  let t1 := FeMul z t1 in
  let t0 := FeMul t0 t1 in
  let t0 := FeSquare t0 in
  let t0 := squares 1 t0 in
  let t0 := FeMul t1 t0 in
  let t1 := FeSquare t0 in
  let t1 := squares 5 t1 in
  let t0 := FeMul t1 t0 in
  let t1 := FeSquare t0 in
  let t1 := squares 10 t1 in
  let t1 := FeMul t1 t0 in
  let t2 := FeSquare t1 in
  let t2 := squares 20 t2 in
  let t1 := FeMul t2 t1 in
  let t1 := FeSquare t1 in
  let t1 := squares 10 t1 in
  let t0 := FeMul t1 t0 in
  let t1 := FeSquare t0 in
  let t1 := squares 50 t1 in
  let t1 := FeMul t1 t0 in
  let t2 := FeSquare t1 in
  let t2 := squares 100 t2 in
  let t1 := FeMul t2 t1 in
  let t1 := FeSquare t1 in
  let t1 := squares 50 t1 in
  let t0 := FeMul t1 t0 in
  let t0 := FeSquare t0 in
  let t0 := squares 2 t0 in
  FeMul t0 z.

End Operations.

Section Laws.
Context {F : FieldElements} {L : FieldLaws F}.

Lemma FeZero_spec : tight FeZero /\ val FeZero = 0.
Proof. by apply limb0_law. Qed.
Lemma FeOne_spec : tight FeOne /\ val FeOne = 1.
Proof. by apply limb0_law. Qed.

(** ** The tests *)

(** The encoding of an element within the bounds, and the element it leaves. *)
Lemma FeToBytes_tight f : tight f ->
  (length (FeToBytes f).1 = 32%nat /\ le_value (FeToBytes f).1 = val f mod p) /\
  size 2 (FeToBytes f).2 /\ val (FeToBytes f).2 =p val f.
Proof. intros Hf. apply (FeToBytes_law 1 f Hf). lia. Qed.
Lemma FeToBytes_loose f : loose f ->
  length (FeToBytes f).1 = 32%nat /\ le_value (FeToBytes f).1 = val f mod p.
Proof. intros Hf. apply (FeToBytes_law 3 f Hf). lia. Qed.

Lemma FeIsNegative_spec f :
  loose f -> (FeIsNegative f).1 = (val f mod p) mod 2 /\ (FeIsNegative f).2 = (FeToBytes f).2.
Proof.
  intros Hf. destruct (FeToBytes_loose f Hf) as [Hl <-]. unfold FeIsNegative.
  destruct (FeToBytes f) as [[|b l] f']; [discriminate|]. split; [|done]. unfold ith. cbn [fst nth le_value].
  change 1 with (Z.ones 1). rewrite Z.land_ones by lia. change (2 ^ 1) with 2.
  replace (b2z b + 256 * le_value l) with (b2z b + (128 * le_value l) * 2) by ring.
  rewrite Z_mod_plus_full. done.
Qed.

Lemma fold_lor_range l x :
  0 <= x < 256 -> 0 <= fold_left (fun x b => Z.lor x (b2z b)) l x < 256.
Proof.
  revert x. induction l as [|b l IH]; [done|]; intros x Hx; cbn [fold_left]. apply IH.
  pose proof (b2z_range b). split; [apply Z.lor_nonneg; lia|].
  rewrite <- (Z.mod_small x 256), <- (Z.mod_small (b2z b) 256) by lia. change 256 with (2 ^ 8).
  rewrite <- !Z.land_ones, <- Z.land_lor_distr_l, Z.land_ones by lia. apply Z.mod_pos_bound. lia.
Qed.

Lemma fold_lor_zero l x :
  fold_left (fun x b => Z.lor x (b2z b)) l x = 0 <-> x = 0 /\ le_value l = 0.
Proof.
  revert x. induction l as [|b l IH]; intros x; cbn [fold_left le_value]; [tauto|].
  rewrite IH, Z.lor_eq_0_iff. pose proof (b2z_range b). pose proof (le_value_range l). lia.
Qed.

(** The low bit after the three shifts is set unless the byte is zero. *)
Lemma smear (x : Z) :
  0 <= x < 256 ->
  (let x := Z.lor x (Z.shiftr x 4) in let x := Z.lor x (Z.shiftr x 2) in
   let x := Z.lor x (Z.shiftr x 1) in Z.land x 1) = if x =? 0 then 0 else 1.
Proof.
  intros Hx. assert (E : forallb (fun n => let y := Z.of_nat n in
    (let x := Z.lor y (Z.shiftr y 4) in let x := Z.lor x (Z.shiftr x 2) in
     let x := Z.lor x (Z.shiftr x 1) in Z.land x 1) =? if y =? 0 then 0 else 1) (seq 0 256) = true)
    by (vm_compute; reflexivity).
  rewrite forallb_forall in E. specialize (E (Z.to_nat x)). cbv zeta in E. rewrite Z2Nat.id in E by lia.
  apply Z.eqb_eq, E, in_seq. lia.
Qed.

Lemma FeIsNonZero_spec f :
  loose f -> (FeIsNonZero f).1 = if decide (val f =p 0) then 0 else 1.
Proof.
  intros Hf. destruct (FeToBytes_loose f Hf) as [Hl Hv]. unfold FeIsNonZero.
  destruct (FeToBytes f) as [s f']. cbn [fst] in *. cbv zeta. cbn [fst].
  rewrite (smear (fold_left _ _ _)) by (apply fold_lor_range; lia).
  assert (E : fold_left (fun x b => Z.lor x (b2z b)) s 0 = 0 <-> val f =p 0).
  { rewrite fold_lor_zero, Hv, eqp_iff, Z.mod_0_l by done. tauto. }
  destruct (Z.eqb_spec (fold_left (fun x b => Z.lor x (b2z b)) s 0) 0), (decide _); tauto.
Qed.

(** ** Power chains *)

(** [t] is the power [e] of [z]. *)
Definition power (z : FieldElement) (e : Z) (t : FieldElement) : Prop :=
  loose t /\ 0 <= e /\ val t =p val z ^ e.

Lemma power_base z : loose z -> power z 1 z.
Proof. intros. split; [done|]. split; [lia|]. rewrite Z.pow_1_r. done. Qed.
Lemma power_square z e t : power z e t -> power z (2 * e) (FeSquare t).
Proof.
  intros (Hl & He & Hv). destruct (FeSquare_law t Hl) as [Ht Hs].
  split; [by auto with cocher|]. split; [lia|]. rewrite Hs, Hv, <- Z.pow_add_r by done.
  replace (e + e) with (2 * e) by ring. done.
Qed.
Lemma power_squares z e n t : power z e t -> power z (2 ^ Z.of_nat (n - 1) * e) (squares n t).
Proof.
  intros H. unfold squares. induction (n - 1)%nat as [|k IH]; [by rewrite Z.mul_1_l|].
  simpl Nat.iter. rewrite Nat2Z.inj_succ, Z.pow_succ_r, <- Z.mul_assoc by lia. by apply power_square.
Qed.
Lemma power_mul z e e' t t' : power z e t -> power z e' t' -> power z (e + e') (FeMul t t').
Proof.
  intros (Hl & He & Hv) (Hl' & He' & Hv'). destruct (FeMul_law t t' Hl Hl') as [Ht Hm].
  split; [by auto with cocher|]. split; [lia|]. rewrite Hm, Hv, Hv', <- Z.pow_add_r by done. done.
Qed.

(** The result of a chain: its last step is a product. *)
Definition chain_result (z : FieldElement) (e : Z) (r : FieldElement) : Prop :=
  tight r /\ val r =p val z ^ e.
Lemma chain_end z e e' e'' t t' :
  power z e t -> power z e' t' -> e'' = e + e' -> chain_result z e'' (FeMul t t').
Proof.
  intros (Hl & He & Hv) (Hl' & He' & Hv') ->. destruct (FeMul_law t t' Hl Hl') as [Ht Hm].
  split; [done|]. rewrite Hm, Hv, Hv', <- Z.pow_add_r by done. done.
Qed.
End Laws.

(** Along a chain, each variable is a power of [z] whose exponent is computed. *)
Ltac is_power :=
  lazymatch goal with
  | |- power _ _ (FeMul _ _) => eapply power_mul; is_power
  | |- power _ _ (FeSquare _) => eapply power_square; is_power
  | |- power _ _ (squares _ _) => eapply power_squares; is_power
  | _ => eassumption
  end.
Ltac chain :=
  lazymatch goal with
  | |- chain_result ?z ?e (let t := ?X in @?B t) =>
      let H := fresh "H" in eassert (H : power z _ X) by is_power;
      change (chain_result z e (B X));
      lazymatch type of H with
      | power _ ?e0 _ => let e1 := eval vm_compute in e0 in
          replace e0 with e1 in H by (vm_compute; reflexivity)
      end;
      let t := fresh "t" in revert H; generalize X; intros t H; cbv beta; chain
  | _ => eapply chain_end; [eassumption .. | vm_compute; reflexivity]
  end.

Section Powers.
Context {F : FieldElements} {L : FieldLaws F}.

Lemma FeInvert_spec z : loose z -> tight (FeInvert z) /\ val (FeInvert z) =p val z ^ (p - 2).
Proof.
  intros Hz%power_base. change (chain_result z (p - 2) (FeInvert z)). cbv delta [FeInvert] beta. chain.
Qed.

Lemma fePow22523_spec z :
  loose z -> tight (fePow22523 z) /\ val (fePow22523 z) =p val z ^ ((p - 5) / 8).
Proof.
  intros Hz%power_base. change (chain_result z ((p - 5) / 8) (fePow22523 z)). cbv delta [fePow22523] beta. chain.
Qed.
End Powers.

(** ** The encoding *)

(** What an encoding of the field should be: 32 bytes, the same for two elements exactly when they
    have the same value modulo p; decoding takes the bytes back to the value, and the bytes of a
    canonical encoding survive the way back.  The encoded element, which the portable [FeToBytes]
    normalises in place, keeps its value, but its limbs may be those of a sum of two. *)
Definition canonical_encoding {F : FieldElements} (L : FieldLaws F) : Prop :=
  forall (f g : FieldElement) (src : bytes),
  tight f -> tight g -> length src = 32%nat -> le_value src < p ->
  (length (FeToBytes f).1 = 32%nat /\ le_value (FeToBytes f).1 = val f mod p) /\
  ((FeToBytes f).1 = (FeToBytes g).1 <-> val f =p val g) /\
  val (FeFromBytes (FeToBytes f).1) =p val f /\
  (FeToBytes (FeFromBytes src)).1 = src /\
  (size 2 (FeToBytes f).2 /\ val (FeToBytes f).2 =p val f).

Lemma encoding_canonical {F : FieldElements} {L : FieldLaws F} : canonical_encoding L.
Proof.
  intros f g src Hf Hg Hl Hs. destruct (FeToBytes_tight f Hf) as [[Lf Vf] Af].
  destruct (FeToBytes_tight g Hg) as [[Lg Vg] _].
  destruct (FeFromBytes_law src Hl) as [Ht Hv].
  destruct (FeToBytes_tight _ Ht) as [[Ls Vs] _].
  split; [done|]. split; [|split; [|split; [|exact Af]]].
  - rewrite eqp_iff. split; intros H; [congruence|]. apply le_value_inj; congruence.
  - destruct (FeFromBytes_law _ Lf) as [_ ->]. rewrite Vf.
    pose proof (Z.mod_pos_bound (val f) p p_pos). rewrite Z.mod_small by (unfold p in *; lia).
    apply eqp_iff, Zmod_mod.
  - apply le_value_inj; [congruence|]. rewrite Vs. apply eqp_iff in Hv. rewrite Hv. pose proof (le_value_range src).
    rewrite (Z.mod_small _ (2 ^ 255)), Z.mod_small by (unfold p in *; lia). done.
Qed.

(** ** Theorems *)

(** The tests and the inverse are those of the field: the zero test and the sign (the parity
    of the canonical representative) depend on the value only, [FeInvert] inverts every
    element but zero, which it leaves zero, and [fePow22523] is the power (p-5)/8. *)
Theorem FeInvert_correct {F : FieldElements} {L : FieldLaws F} (z : FieldElement) :
  tight z ->
  (FeIsNonZero z).1 = (if decide (val z =p 0) then 0 else 1) /\
  (FeIsNegative z).1 = (val z mod p) mod 2 /\
  (tight (FeInvert z) /\ (val z =p 0 -> val (FeInvert z) =p 0) /\
   (~ val z =p 0 -> val z * val (FeInvert z) =p 1)) /\
  (tight (fePow22523 z) /\ val (fePow22523 z) =p val z ^ ((p - 5) / 8)).
Proof.
  intros Hz. pose proof (tight_loose z Hz) as Hl.
  destruct (FeInvert_spec z Hl) as [Ht Hv].
  split; [exact (FeIsNonZero_spec z Hl)|].
  split; [exact (proj1 (FeIsNegative_spec z Hl))|].
  split; [|exact (fePow22523_spec z Hl)].
  split; [done|]. rewrite Hv. split; intros H.
  - etrans; [apply (eqp_pow _ _ H _ _ eq_refl)|]. rewrite Z.pow_0_l by (unfold p; lia). reflexivity.
  - rewrite <- Z.pow_succ_r by (unfold p; lia).
    replace (Z.succ (p - 2)) with (p - 1) by lia. apply fermat_p, H.
Qed.

(** The witnesses are on the portable representation. *)
#[local] Existing Instance portable.
#[local] Existing Instance portable_laws.

Definition fe_two : FieldElement := fe 2 0 0 0 0 0 0 0 0 0.
Lemma FeInvert_correct_witness : val fe_two * val (FeInvert fe_two) =p 1.
Proof.
  destruct (FeInvert_correct fe_two) as (_ & _ & (_ & _ & H) & _); [vm_compute; repeat split; congruence|].
  apply H. rewrite eqp_iff. vm_compute. congruence.
Defined.

(** [FeToBytes] and [FeFromBytes] are a canonical encoding of the field, in both
    representations. *)
Theorem FeToBytes_canonical : canonical_encoding portable_laws /\ canonical_encoding amd64_laws.
Proof. split; apply encoding_canonical. Qed.
