(* ===== verification/Scalar.v ===== *)
(** * Scalars of edwards25519

    [src/crypto/ed25519/internal/edwards25519/scalar.go]: arithmetic modulo the order l of the
    base point, on 32-byte little-endian integers.  The 23 or 24 variables [s0], [s1], ... are
    the limbs of a list; the code is unrolled into three idioms, which are the [step]s here
    (move a carry up, rounded or not; fold the limb of 2^(21 i) down by 2^252 = l - c), and the
    step lists below are those of the source, in its order.

    That no step overflows an [int64] and where the limbs end up is an interval analysis
    ([bounds]), proved sound for the steps and computed on the two programs. *)

From S2P Require Import Prelude Word.
#[local] Open Scope Z_scope.

Definition limb (s : list Z) (i : nat) : Z := nth i s 0.

Inductive step :=
| Round (i : nat)
| Floor (i : nat)
| Fold (i : nat).

(** [s_j += v] and [s_j -= v]. *)
Definition add_at (j : nat) (v : Z) (s : list Z) : list Z := <[j := (limb s j + v)%int64]> s.
Definition sub_at (j : nat) (v : Z) (s : list Z) : list Z := <[j := (limb s j - v)%int64]> s.

Definition exec (st : step) (s : list Z) : list Z :=
  match st with
  | Round i =>
      let carry := ((limb s i + (1 << 20)) >> 21)%int64 in
      let s := add_at (i + 1) carry s in
      sub_at i (carry << 21)%int64 s
  | Floor i =>
      let carry := (limb s i >> 21)%int64 in
      let s := add_at (i + 1) carry s in
      sub_at i (carry << 21)%int64 s
  | Fold i =>
      let x := limb s i in
      let s := add_at (i - 12) (x * 666643)%int64 s in
      let s := add_at (i - 11) (x * 470296)%int64 s in
      let s := add_at (i - 10) (x * 654183)%int64 s in
      let s := sub_at (i - 9) (x * 997805)%int64 s in
      let s := add_at (i - 8) (x * 136657)%int64 s in
      let s := sub_at (i - 7) (x * 683901)%int64 s in
      <[i := 0]> s
  end.
Definition execs (steps : list step) (s : list Z) : list Z := fold_left (fun s st => exec st s) steps s.

(** ** The two programs *)

(** The 12 limbs of a 32-byte scalar, and the 24 of a 64-byte one. *)
Definition load_scalar (s : bytes) : list Z :=
  [Z.land 2097151 (load3 s)%int64; Z.land 2097151 (load4 (drop 2 s) >> 5)%int64;
   Z.land 2097151 (load3 (drop 5 s) >> 2)%int64; Z.land 2097151 (load4 (drop 7 s) >> 7)%int64;
   Z.land 2097151 (load4 (drop 10 s) >> 4)%int64; Z.land 2097151 (load3 (drop 13 s) >> 1)%int64;
   Z.land 2097151 (load4 (drop 15 s) >> 6)%int64; Z.land 2097151 (load3 (drop 18 s) >> 3)%int64;
   Z.land 2097151 (load3 (drop 21 s))%int64; Z.land 2097151 (load4 (drop 23 s) >> 5)%int64;
   Z.land 2097151 (load3 (drop 26 s) >> 2)%int64; (load4 (drop 28 s) >> 7)%int64].
Definition load_wide (s : bytes) : list Z :=
  [Z.land 2097151 (load3 s)%int64; Z.land 2097151 (load4 (drop 2 s) >> 5)%int64;
   Z.land 2097151 (load3 (drop 5 s) >> 2)%int64; Z.land 2097151 (load4 (drop 7 s) >> 7)%int64;
   Z.land 2097151 (load4 (drop 10 s) >> 4)%int64; Z.land 2097151 (load3 (drop 13 s) >> 1)%int64;
   Z.land 2097151 (load4 (drop 15 s) >> 6)%int64; Z.land 2097151 (load3 (drop 18 s) >> 3)%int64;
   Z.land 2097151 (load3 (drop 21 s))%int64; Z.land 2097151 (load4 (drop 23 s) >> 5)%int64;
   Z.land 2097151 (load3 (drop 26 s) >> 2)%int64; Z.land 2097151 (load4 (drop 28 s) >> 7)%int64;
   Z.land 2097151 (load4 (drop 31 s) >> 4)%int64; Z.land 2097151 (load3 (drop 34 s) >> 1)%int64;
   Z.land 2097151 (load4 (drop 36 s) >> 6)%int64; Z.land 2097151 (load3 (drop 39 s) >> 3)%int64;
   Z.land 2097151 (load3 (drop 42 s))%int64; Z.land 2097151 (load4 (drop 44 s) >> 5)%int64;
   Z.land 2097151 (load3 (drop 47 s) >> 2)%int64; Z.land 2097151 (load4 (drop 49 s) >> 7)%int64;
   Z.land 2097151 (load4 (drop 52 s) >> 4)%int64; Z.land 2097151 (load3 (drop 55 s) >> 1)%int64;
   Z.land 2097151 (load4 (drop 57 s) >> 6)%int64; (load4 (drop 60 s) >> 3)%int64].

Definition products (a b c : list Z) : list Z :=
  let a0 := limb a 0 in let a1 := limb a 1 in let a2 := limb a 2 in let a3 := limb a 3 in
  let a4 := limb a 4 in let a5 := limb a 5 in let a6 := limb a 6 in let a7 := limb a 7 in
  let a8 := limb a 8 in let a9 := limb a 9 in let a10 := limb a 10 in let a11 := limb a 11 in
  let b0 := limb b 0 in let b1 := limb b 1 in let b2 := limb b 2 in let b3 := limb b 3 in
  let b4 := limb b 4 in let b5 := limb b 5 in let b6 := limb b 6 in let b7 := limb b 7 in
  let b8 := limb b 8 in let b9 := limb b 9 in let b10 := limb b 10 in let b11 := limb b 11 in
  let c0 := limb c 0 in let c1 := limb c 1 in let c2 := limb c 2 in let c3 := limb c 3 in
  let c4 := limb c 4 in let c5 := limb c 5 in let c6 := limb c 6 in let c7 := limb c 7 in
  let c8 := limb c 8 in let c9 := limb c 9 in let c10 := limb c 10 in let c11 := limb c 11 in
  let s0 := (c0 + a0 * b0)%int64 in
  let s1 := (c1 + a0 * b1 + a1 * b0)%int64 in
  let s2 := (c2 + a0 * b2 + a1 * b1 + a2 * b0)%int64 in
  let s3 := (c3 + a0 * b3 + a1 * b2 + a2 * b1 + a3 * b0)%int64 in
  let s4 := (c4 + a0 * b4 + a1 * b3 + a2 * b2 + a3 * b1 + a4 * b0)%int64 in
  let s5 := (c5 + a0 * b5 + a1 * b4 + a2 * b3 + a3 * b2 + a4 * b1 + a5 * b0)%int64 in
  let s6 := (c6 + a0 * b6 + a1 * b5 + a2 * b4 + a3 * b3 + a4 * b2 + a5 * b1 + a6 * b0)%int64 in
  let s7 := (c7 + a0 * b7 + a1 * b6 + a2 * b5 + a3 * b4 + a4 * b3 + a5 * b2 + a6 * b1 + a7 *
    b0)%int64 in
  let s8 := (c8 + a0 * b8 + a1 * b7 + a2 * b6 + a3 * b5 + a4 * b4 + a5 * b3 + a6 * b2 + a7 * b1 +
    a8 * b0)%int64 in
  let s9 := (c9 + a0 * b9 + a1 * b8 + a2 * b7 + a3 * b6 + a4 * b5 + a5 * b4 + a6 * b3 + a7 * b2 +
    a8 * b1 + a9 * b0)%int64 in
  let s10 := (c10 + a0 * b10 + a1 * b9 + a2 * b8 + a3 * b7 + a4 * b6 + a5 * b5 + a6 * b4 + a7 * b3
    + a8 * b2 + a9 * b1 + a10 * b0)%int64 in
  let s11 := (c11 + a0 * b11 + a1 * b10 + a2 * b9 + a3 * b8 + a4 * b7 + a5 * b6 + a6 * b5 + a7 *
    b4 + a8 * b3 + a9 * b2 + a10 * b1 + a11 * b0)%int64 in
  let s12 := (a1 * b11 + a2 * b10 + a3 * b9 + a4 * b8 + a5 * b7 + a6 * b6 + a7 * b5 + a8 * b4 + a9
    * b3 + a10 * b2 + a11 * b1)%int64 in
  let s13 := (a2 * b11 + a3 * b10 + a4 * b9 + a5 * b8 + a6 * b7 + a7 * b6 + a8 * b5 + a9 * b4 +
    a10 * b3 + a11 * b2)%int64 in
  let s14 := (a3 * b11 + a4 * b10 + a5 * b9 + a6 * b8 + a7 * b7 + a8 * b6 + a9 * b5 + a10 * b4 +
    a11 * b3)%int64 in
  let s15 := (a4 * b11 + a5 * b10 + a6 * b9 + a7 * b8 + a8 * b7 + a9 * b6 + a10 * b5 + a11 *
    b4)%int64 in
  let s16 := (a5 * b11 + a6 * b10 + a7 * b9 + a8 * b8 + a9 * b7 + a10 * b6 + a11 * b5)%int64 in
  let s17 := (a6 * b11 + a7 * b10 + a8 * b9 + a9 * b8 + a10 * b7 + a11 * b6)%int64 in
  let s18 := (a7 * b11 + a8 * b10 + a9 * b9 + a10 * b8 + a11 * b7)%int64 in
  let s19 := (a8 * b11 + a9 * b10 + a10 * b9 + a11 * b8)%int64 in
  let s20 := (a9 * b11 + a10 * b10 + a11 * b9)%int64 in
  let s21 := (a10 * b11 + a11 * b10)%int64 in
  let s22 := (a11 * b11)%int64 in
  let s23 := 0 in
  [s0; s1; s2; s3; s4; s5; s6; s7; s8; s9; s10; s11; s12; s13; s14; s15; s16; s17; s18; s19; s20; s21; s22; s23].

Definition ScMulAdd_spread : list step :=
  [Round 0; Round 2; Round 4; Round 6; Round 8; Round 10; Round 12; Round 14; Round 16; Round 18;
   Round 20; Round 22; Round 1; Round 3; Round 5; Round 7; Round 9; Round 11; Round 13; Round 15;
   Round 17; Round 19; Round 21].
Definition ScMulAdd_high : list step :=
  [Fold 23; Fold 22; Fold 21; Fold 20; Fold 19; Fold 18; Round 6; Round 8; Round 10; Round 12;
   Round 14; Round 16; Round 7; Round 9; Round 11; Round 13; Round 15].
Definition ScMulAdd_low : list step :=
  [Fold 17; Fold 16; Fold 15; Fold 14; Fold 13; Fold 12; Round 0; Round 2; Round 4; Round 6;
   Round 8; Round 10; Round 1; Round 3; Round 5; Round 7; Round 9; Round 11; Fold 12].
Definition ScMulAdd_final : list step :=
  [Floor 0; Floor 1; Floor 2; Floor 3; Floor 4; Floor 5; Floor 6; Floor 7; Floor 8; Floor 9;
   Floor 10; Floor 11; Fold 12; Floor 0; Floor 1; Floor 2; Floor 3; Floor 4; Floor 5; Floor 6;
   Floor 7; Floor 8; Floor 9; Floor 10].

Definition ScReduce_high : list step :=
  [Fold 23; Fold 22; Fold 21; Fold 20; Fold 19; Fold 18; Round 6; Round 8; Round 10; Round 12;
   Round 14; Round 16; Round 7; Round 9; Round 11; Round 13; Round 15].
Definition ScReduce_low : list step :=
  [Fold 17; Fold 16; Fold 15; Fold 14; Fold 13; Fold 12; Round 0; Round 2; Round 4; Round 6;
   Round 8; Round 10; Round 1; Round 3; Round 5; Round 7; Round 9; Round 11; Fold 12].
Definition ScReduce_final : list step :=
  [Floor 0; Floor 1; Floor 2; Floor 3; Floor 4; Floor 5; Floor 6; Floor 7; Floor 8; Floor 9;
   Floor 10; Floor 11; Fold 12; Floor 0; Floor 1; Floor 2; Floor 3; Floor 4; Floor 5; Floor 6;
   Floor 7; Floor 8; Floor 9; Floor 10].

Definition scalar_bytes (s : list Z) : bytes :=
  let s0 := limb s 0 in let s1 := limb s 1 in let s2 := limb s 2 in let s3 := limb s 3 in
  let s4 := limb s 4 in let s5 := limb s 5 in let s6 := limb s 6 in let s7 := limb s 7 in
  let s8 := limb s 8 in let s9 := limb s 9 in let s10 := limb s 10 in let s11 := limb s 11 in
  [z2b (s0 >> 0)%int64; z2b (s0 >> 8)%int64; z2b (Z.lor (s0 >> 16) (s1 << 5))%int64;
   z2b (s1 >> 3)%int64; z2b (s1 >> 11)%int64; z2b (Z.lor (s1 >> 19) (s2 << 2))%int64;
   z2b (s2 >> 6)%int64; z2b (Z.lor (s2 >> 14) (s3 << 7))%int64; z2b (s3 >> 1)%int64;
   z2b (s3 >> 9)%int64; z2b (Z.lor (s3 >> 17) (s4 << 4))%int64; z2b (s4 >> 4)%int64;
   z2b (s4 >> 12)%int64; z2b (Z.lor (s4 >> 20) (s5 << 1))%int64; z2b (s5 >> 7)%int64;
   z2b (Z.lor (s5 >> 15) (s6 << 6))%int64; z2b (s6 >> 2)%int64; z2b (s6 >> 10)%int64;
   z2b (Z.lor (s6 >> 18) (s7 << 3))%int64; z2b (s7 >> 5)%int64; z2b (s7 >> 13)%int64;
   z2b (s8 >> 0)%int64; z2b (s8 >> 8)%int64; z2b (Z.lor (s8 >> 16) (s9 << 5))%int64;
   z2b (s9 >> 3)%int64; z2b (s9 >> 11)%int64; z2b (Z.lor (s9 >> 19) (s10 << 2))%int64;
   z2b (s10 >> 6)%int64; z2b (Z.lor (s10 >> 14) (s11 << 7))%int64; z2b (s11 >> 1)%int64;
   z2b (s11 >> 9)%int64; z2b (s11 >> 17)%int64].

Definition ScMulAdd (a b c : bytes) : bytes :=
  let s := products (load_scalar a) (load_scalar b) (load_scalar c) in
  let s := execs ScMulAdd_spread s in
  let s := execs ScMulAdd_high s in
  let s := execs ScMulAdd_low s in
  let s := execs ScMulAdd_final s in
  scalar_bytes s.

Definition ScReduce (s : bytes) : bytes :=
  let s := load_wide s in
  let s := execs ScReduce_high s in
  let s := execs ScReduce_low s in
  let s := execs ScReduce_final s in
  scalar_bytes s.

(** ** Values *)

Definition l : Z := 2 ^ 252 + 27742317777372353535851937790883648493.

Fixpoint value (s : list Z) : Z :=
  match s with
  | [] => 0
  | z :: s => z + 2 ^ 21 * value s
  end.

Lemma value_insert j v s :
  (j < length s)%nat -> value (<[j := v]> s) = value s + (v - limb s j) * 2 ^ (21 * Z.of_nat j).
Proof.
  revert j. induction s as [|z s IH]; intros [|j] Hj; simpl in Hj; try lia.
  - change (<[0%nat := v]> (z :: s)) with (v :: s). change (2 ^ (21 * Z.of_nat 0)) with 1.
    cbn [value]. unfold limb. cbn [nth]. ring.
  - change (<[S j := v]> (z :: s)) with (z :: <[j := v]> s). cbn [value]. rewrite IH by lia.
    unfold limb. cbn [nth]. replace (21 * Z.of_nat (S j)) with (21 + 21 * Z.of_nat j) by lia.
    rewrite Z.pow_add_r by lia. ring.
Qed.

(** ** Interval analysis *)

Definition range (z : Z) (b : Z * Z) : Prop := fst b <= z <= snd b.
Definition ranges : list Z -> list (Z * Z) -> Prop := Forall2 range.
(** The interval is within [int64]. *)
Definition fits (b : Z * Z) : bool := (- 2 ^ 63 <=? fst b) && (snd b <? 2 ^ 63).
Definition ensure (b : Z * Z) : option (Z * Z) := if fits b then Some b else None.

Definition b_add (j : nat) (v : Z * Z) (bs : list (Z * Z)) : option (list (Z * Z)) :=
  b ← bs !! j; r ← ensure (fst b + fst v, snd b + snd v); Some (<[j := r]> bs).
Definition b_sub (j : nat) (v : Z * Z) (bs : list (Z * Z)) : option (list (Z * Z)) :=
  b ← bs !! j; r ← ensure (fst b - snd v, snd b - fst v); Some (<[j := r]> bs).
Definition b_mul (x : Z * Z) (k : positive) : option (Z * Z) :=
  ensure (fst x * Zpos k, snd x * Zpos k).

(** A carry of the limb [i], rounded by [r]: the low part that is left is in [[-r, 2^21 - r)]. *)
Definition b_carry (r : Z) (i : nat) (bs : list (Z * Z)) : option (list (Z * Z)) :=
  b ← bs !! i; s ← ensure (fst b + r, snd b + r);
  c ← ensure ((fst b + r) / 2 ^ 21 * 2 ^ 21, (snd b + r) / 2 ^ 21 * 2 ^ 21);
  bs ← b_add (i + 1) ((fst b + r) / 2 ^ 21, (snd b + r) / 2 ^ 21) bs;
  Some (<[i := (- r, 2 ^ 21 - 1 - r)]> bs).

Definition bound (st : step) (bs : list (Z * Z)) : option (list (Z * Z)) :=
  match st with
  | Round i => b_carry (2 ^ 20) i bs
  | Floor i => b_carry 0 i bs
  | Fold i =>
      if (i <? 12)%nat then None else
      x ← bs !! i;
      v ← b_mul x 666643; bs ← b_add (i - 12) v bs;
      v ← b_mul x 470296; bs ← b_add (i - 11) v bs;
      v ← b_mul x 654183; bs ← b_add (i - 10) v bs;
      v ← b_mul x 997805; bs ← b_sub (i - 9) v bs;
      v ← b_mul x 136657; bs ← b_add (i - 8) v bs;
      v ← b_mul x 683901; bs ← b_sub (i - 7) v bs;
      Some (<[i := (0, 0)]> bs)
  end.
Fixpoint bounds (steps : list step) (bs : list (Z * Z)) : option (list (Z * Z)) :=
  match steps with
  | [] => Some bs
  | st :: steps => bs ← bound st bs; bounds steps bs
  end.

Lemma ensure_Some b b' : ensure b = Some b' -> b' = b /\ - 2 ^ 63 <= fst b /\ snd b < 2 ^ 63.
Proof.
  unfold ensure, fits. case_match eqn:E; [|done]. intros [= <-].
  rewrite andb_true_iff, Z.leb_le, Z.ltb_lt in E. done.
Qed.

Lemma limb_range s bs i b : ranges s bs -> bs !! i = Some b -> range (limb s i) b /\ (i < length s)%nat.
Proof.
  intros H Hb. destruct (Forall2_lookup_r _ _ _ _ _ H Hb) as (z & Hz & Hr).
  unfold limb. rewrite (nth_lookup_Some _ _ _ _ Hz). split; [done|]. by apply lookup_lt_Some in Hz.
Qed.

Lemma limb_insert_ne i j v s : i <> j -> limb (<[j := v]> s) i = limb s i.
Proof. intros H. unfold limb. rewrite !nth_lookup, list_lookup_insert_ne; done. Qed.

Lemma add_at_spec j v s bs bv bs' :
  ranges s bs -> range v bv -> b_add j bv bs = Some bs' ->
  ranges (add_at j v s) bs' /\ value (add_at j v s) = value s + v * 2 ^ (21 * Z.of_nat j) /\
  (forall i, i <> j -> limb (add_at j v s) i = limb s i).
Proof.
  intros Hs Hv Hb. unfold b_add in Hb. apply bind_Some in Hb as (b & Hj & Hb).
  apply bind_Some in Hb as (r & (-> & Hlo & Hhi)%ensure_Some & [= <-]). simpl in *.
  destruct (limb_range _ _ _ _ Hs Hj) as [Hr Hlt]. unfold range, add_at in *.
  rewrite i64_small by lia. split; [|split].
  - apply Forall2_insert; [done | unfold range; simpl; lia].
  - rewrite value_insert by done. ring.
  - intros. by apply limb_insert_ne.
Qed.

Lemma sub_at_spec j v s bs bv bs' :
  ranges s bs -> range v bv -> b_sub j bv bs = Some bs' ->
  ranges (sub_at j v s) bs' /\ value (sub_at j v s) = value s - v * 2 ^ (21 * Z.of_nat j) /\
  (forall i, i <> j -> limb (sub_at j v s) i = limb s i).
Proof.
  intros Hs Hv Hb. unfold b_sub in Hb. apply bind_Some in Hb as (b & Hj & Hb).
  apply bind_Some in Hb as (r & (-> & Hlo & Hhi)%ensure_Some & [= <-]). simpl in *.
  destruct (limb_range _ _ _ _ Hs Hj) as [Hr Hlt]. unfold range, sub_at in *.
  rewrite i64_small by lia. split; [|split].
  - apply Forall2_insert; [done | unfold range; simpl; lia].
  - rewrite value_insert by done. ring.
  - intros. by apply limb_insert_ne.
Qed.

Lemma mul_spec x k b b' : range x b -> b_mul b k = Some b' -> range (x * Zpos k) b' /\ i64 (x * Zpos k) = x * Zpos k.
Proof.
  unfold range. intros Hx (-> & Hlo & Hhi)%ensure_Some. simpl in *.
  split; [nia|]. apply i64_small. nia.
Qed.

(** The multiple of l a step takes away. *)
Definition quotient (st : step) (s : list Z) : Z :=
  match st with
  | Fold i => limb s i * 2 ^ (21 * (Z.of_nat i - 12))
  | _ => 0
  end.

Lemma carry_at_spec r i s bs bs' c :
  0 <= r <= 2 ^ 20 -> ranges s bs -> b_carry r i bs = Some bs' -> c = (limb s i + r) / 2 ^ 21 ->
  let s' := sub_at i (i64 (Z.shiftl c 21)) (add_at (i + 1) c s) in
  ranges s' bs' /\ value s' = value s.
Proof.
  intros Hr Hs Hb Hc s'. unfold b_carry in Hb. apply bind_Some in Hb as (b & Hi & Hb).
  apply bind_Some in Hb as (? & (-> & Hlo & Hhi)%ensure_Some & Hb).
  apply bind_Some in Hb as (? & (-> & Hclo & Hchi)%ensure_Some & Hb).
  apply bind_Some in Hb as (bs1 & Hadd & [= <-]). simpl in *.
  destruct (limb_range _ _ _ _ Hs Hi) as [Hli Hlt]. unfold range in Hli.
  pose proof (Z.div_mod (limb s i + r) (2 ^ 21) ltac:(done)).
  pose proof (Z.mod_pos_bound (limb s i + r) (2 ^ 21) ltac:(done)).
  assert (Hrc : range c ((fst b + r) / 2 ^ 21, (snd b + r) / 2 ^ 21)).
  { subst c. split; apply Z.div_le_mono; simpl; lia. }
  destruct (add_at_spec (i + 1) c s bs _ bs1 Hs Hrc Hadd) as (Hs1 & Hv1 & Hl1).
  destruct Hrc as [Hc1 Hc2]. simpl in Hc1, Hc2.
  assert (Hlen : (i < length (add_at (i + 1) c s))%nat) by (unfold add_at; rewrite length_insert; done).
  subst s'. unfold sub_at. rewrite Hl1 by lia. rewrite Z.shiftl_mul_pow2, (i64_small (c * 2 ^ 21)) by lia.
  rewrite i64_small by lia. split.
  - apply Forall2_insert; [done|]. unfold range. simpl. lia.
  - rewrite value_insert, Hv1, Hl1 by (done || lia).
    replace (21 * Z.of_nat (i + 1)) with (21 + 21 * Z.of_nat i) by lia. rewrite Z.pow_add_r by lia.
    generalize (2 ^ (21 * Z.of_nat i)). intros w. change (2 ^ 21) with 2097152. ring.
Qed.

Lemma fold_weights x k :
  12 <= k ->
  x * 666643 * 2 ^ (21 * (k - 12)) + x * 470296 * 2 ^ (21 * (k - 11)) + x * 654183 * 2 ^ (21 * (k - 10))
  - x * 997805 * 2 ^ (21 * (k - 9)) + x * 136657 * 2 ^ (21 * (k - 8)) - x * 683901 * 2 ^ (21 * (k - 7))
  - x * 2 ^ (21 * k) = - (x * 2 ^ (21 * (k - 12)) * l).
Proof.
  intros Hk. set (w := 2 ^ (21 * (k - 12))).
  assert (E : forall j, 0 <= j -> 2 ^ (21 * (k - 12 + j)) = w * 2 ^ (21 * j)).
  { intros j Hj. unfold w. rewrite <- Z.pow_add_r by lia. f_equal. lia. }
  replace (k - 11) with (k - 12 + 1) by lia. replace (k - 10) with (k - 12 + 2) by lia.
  replace (k - 9) with (k - 12 + 3) by lia. replace (k - 8) with (k - 12 + 4) by lia.
  replace (k - 7) with (k - 12 + 5) by lia. replace (21 * k) with (21 * (k - 12 + 12)) by lia.
  rewrite !E by lia. clearbody w. unfold l.
  repeat match goal with |- context [21 * Zpos ?n] =>
    let v := eval compute in (21 * Zpos n) in change (21 * Zpos n) with v end. ring.
Qed.

(** The analysis is right: a step whose bounds it finds does not overflow, ends in the bounds,
    and keeps the value up to a multiple of l. *)
Lemma bound_sound st s bs bs' :
  ranges s bs -> bound st bs = Some bs' ->
  ranges (exec st s) bs' /\ value (exec st s) = value s - quotient st s * l.
Proof.
  intros Hs Hb. destruct st as [i|i|i]; cbn [exec bound quotient] in *.
  - assert (Hi : exists b, bs !! i = Some b /\ - 2 ^ 63 <= fst b + 2 ^ 20 /\ snd b + 2 ^ 20 < 2 ^ 63).
    { apply bind_Some in Hb as (b & Hi & Hb). apply bind_Some in Hb as (? & (-> & ?)%ensure_Some & _). eauto. }
    destruct Hi as (b & Hi & Hf). destruct (limb_range _ _ _ _ Hs Hi) as [Hr _]. unfold range in Hr.
    destruct (carry_at_spec (2 ^ 20) i s bs bs' ((limb s i + 2 ^ 20) / 2 ^ 21)) as [Hs' Hv']; [lia|done..|].
    change (i64 (Z.shiftl 1 20)) with (2 ^ 20).
    rewrite (i64_small (limb s i + 2 ^ 20)), Z.shiftr_div_pow2 by lia. split; [done|]. rewrite Hv'. ring.
  - destruct (carry_at_spec 0 i s bs bs' (limb s i / 2 ^ 21)) as [Hs' Hv']; [lia|done..|by rewrite Z.add_0_r|].
    rewrite Z.shiftr_div_pow2 by lia. split; [done|]. rewrite Hv'. ring.
  - destruct (i <? 12)%nat eqn:Hi12; [done|]. apply Nat.ltb_ge in Hi12.
    apply bind_Some in Hb as (x & Hx & Hb). destruct (limb_range _ _ _ _ Hs Hx) as [Hr Hlt].
    remember (limb s i) as x0 eqn:Ex0.
    apply bind_Some in Hb as (v1 & Hm1 & Hb). destruct (mul_spec _ _ _ _ Hr Hm1) as [Hv1 Ev1].
    apply bind_Some in Hb as (b1 & Ha1 & Hb).
    apply bind_Some in Hb as (v2 & Hm2 & Hb). destruct (mul_spec _ _ _ _ Hr Hm2) as [Hv2 Ev2].
    apply bind_Some in Hb as (b2 & Ha2 & Hb).
    apply bind_Some in Hb as (v3 & Hm3 & Hb). destruct (mul_spec _ _ _ _ Hr Hm3) as [Hv3 Ev3].
    apply bind_Some in Hb as (b3 & Ha3 & Hb).
    apply bind_Some in Hb as (v4 & Hm4 & Hb). destruct (mul_spec _ _ _ _ Hr Hm4) as [Hv4 Ev4].
    apply bind_Some in Hb as (b4 & Ha4 & Hb).
    apply bind_Some in Hb as (v5 & Hm5 & Hb). destruct (mul_spec _ _ _ _ Hr Hm5) as [Hv5 Ev5].
    apply bind_Some in Hb as (b5 & Ha5 & Hb).
    apply bind_Some in Hb as (v6 & Hm6 & Hb). destruct (mul_spec _ _ _ _ Hr Hm6) as [Hv6 Ev6].
    apply bind_Some in Hb as (b6 & Ha6 & [= <-]).
    rewrite Ev1, Ev2, Ev3, Ev4, Ev5, Ev6.
    destruct (add_at_spec _ _ _ _ _ _ Hs Hv1 Ha1) as (H1 & E1 & L1).
    destruct (add_at_spec _ _ _ _ _ _ H1 Hv2 Ha2) as (H2 & E2 & L2).
    destruct (add_at_spec _ _ _ _ _ _ H2 Hv3 Ha3) as (H3 & E3 & L3).
    destruct (sub_at_spec _ _ _ _ _ _ H3 Hv4 Ha4) as (H4 & E4 & L4).
    destruct (add_at_spec _ _ _ _ _ _ H4 Hv5 Ha5) as (H5 & E5 & L5).
    destruct (sub_at_spec _ _ _ _ _ _ H5 Hv6 Ha6) as (H6 & E6 & L6).
    split; [apply Forall2_insert; [done | unfold range; simpl; lia]|].
    rewrite value_insert by (unfold add_at, sub_at; rewrite !length_insert; done).
    rewrite E6, E5, E4, E3, E2, E1, L6, L5, L4, L3, L2, L1 by lia. rewrite <- Ex0.
    rewrite !Nat2Z.inj_sub by lia. change (Z.of_nat 12) with 12. change (Z.of_nat 11) with 11. change (Z.of_nat 10) with 10.
    change (Z.of_nat 9) with 9. change (Z.of_nat 8) with 8. change (Z.of_nat 7) with 7.
    rewrite <- (Z.add_opp_r (value s) (_ * l)), <- fold_weights by lia. generalize (Z.of_nat i). clear. intros k. ring.
Qed.

Lemma bounds_sound steps s bs bs' :
  ranges s bs -> bounds steps bs = Some bs' ->
  ranges (execs steps s) bs' /\ (exists k, value (execs steps s) = value s - k * l) /\
  (forallb (fun st => if st is Fold _ then false else true) steps = true ->
   value (execs steps s) = value s).
Proof.
  revert s bs. induction steps as [|st steps IH]; intros s bs Hs Hb.
  - injection Hb as <-. split; [done|]. split; [|done]. exists 0. unfold execs. simpl. ring.
  - cbn [bounds] in Hb. apply bind_Some in Hb as (b1 & H1 & Hb).
    destruct (bound_sound _ _ _ _ Hs H1) as [Hs1 Hv1]. destruct (IH _ _ Hs1 Hb) as (Hs2 & (k & Hk) & Hc).
    change (execs (st :: steps) s) with (execs steps (exec st s)). split; [done|]. split.
    + exists (k + quotient st s). rewrite Hk, Hv1. ring.
    + cbn [forallb]. rewrite andb_true_iff. intros [Hst Hsteps]. rewrite (Hc Hsteps), Hv1.
      destruct st; [simpl; ring .. | done].
Qed.

(** ** Loading *)

Lemma le_value_drop k s : (k <= length s)%nat -> le_value (drop k s) = le_value s / 2 ^ (8 * Z.of_nat k).
Proof.
  revert s. induction k as [|k IH]; intros s Hk; [simpl; by rewrite Z.div_1_r|].
  destruct s as [|b s]; simpl in Hk; [lia|]. cbn [drop skipn le_value]. rewrite IH by lia.
  replace (8 * Z.of_nat (S k)) with (8 + 8 * Z.of_nat k) by lia. rewrite Z.pow_add_r, <- Z.div_div by lia.
  f_equal. apply (Z.div_unique _ _ _ (b2z b)); [pose proof (b2z_range b); lia | ring].
Qed.

Lemma load4_value s : (4 <= length s)%nat -> load4 s = le_value s mod 2 ^ 32.
Proof.
  intros Hl. destruct (load4_exact s) as [-> _]. pose proof (ith_range s 0). pose proof (ith_range s 1).
  pose proof (ith_range s 2). pose proof (ith_range s 3).
  do 4 (destruct s as [|? s]; [simpl in Hl; lia|]). unfold ith in *. cbn [nth le_value] in *.
  apply (Z.mod_unique _ _ (le_value s)); lia.
Qed.
Lemma load3_value s : (3 <= length s)%nat -> load3 s = le_value s mod 2 ^ 24.
Proof.
  intros Hl. destruct (load3_exact s) as [-> _]. pose proof (ith_range s 0). pose proof (ith_range s 1).
  pose proof (ith_range s 2).
  do 3 (destruct s as [|? s]; [simpl in Hl; lia|]). unfold ith in *. cbn [nth le_value] in *.
  apply (Z.mod_unique _ _ (le_value s)); lia.
Qed.

Lemma mod_shift_mod a n r w :
  0 <= r -> 0 <= w -> r + w <= n -> (Z.shiftr (a mod 2 ^ n) r) mod 2 ^ w = (a / 2 ^ r) mod 2 ^ w.
Proof.
  intros Hr Hw Hn. rewrite <- !Z.land_ones, <- !Z.shiftr_div_pow2 by lia. apply Z.bits_inj'. intros i Hi.
  rewrite !Z.land_spec, !Z.shiftr_spec, Z.land_spec by done.
  destruct (Z.lt_ge_cases i w) as [H|H].
  - rewrite (Z.ones_spec_low n) by lia. by rewrite andb_true_r.
  - rewrite (Z.ones_spec_high w) by lia. by rewrite !andb_false_r.
Qed.

(** The [i]-th limb of a scalar is its [i]-th digit in base 2^21. *)
Definition digit (N : Z) (i : nat) : Z := (N / 2 ^ (21 * Z.of_nat i)) mod 2 ^ 21.

Lemma digit4 s k r i :
  (k + 4 <= length s)%nat -> 0 <= r <= 11 -> 8 * Z.of_nat k + r = 21 * Z.of_nat i ->
  Z.land 2097151 (Z.shiftr (load4 (drop k s)) r) = digit (le_value s) i.
Proof.
  intros Hk Hr E. change 2097151 with (2 ^ 21 - 1). rewrite land_ones_mod by lia.
  rewrite load4_value by (rewrite length_drop; lia). rewrite mod_shift_mod, le_value_drop by lia.
  unfold digit. rewrite Z.div_div, <- Z.pow_add_r, E by lia. done.
Qed.
Lemma digit3 s k r i :
  (k + 3 <= length s)%nat -> 0 <= r <= 3 -> 8 * Z.of_nat k + r = 21 * Z.of_nat i ->
  Z.land 2097151 (Z.shiftr (load3 (drop k s)) r) = digit (le_value s) i.
Proof.
  intros Hk Hr E. change 2097151 with (2 ^ 21 - 1). rewrite land_ones_mod by lia.
  rewrite load3_value by (rewrite length_drop; lia). rewrite mod_shift_mod, le_value_drop by lia.
  unfold digit. rewrite Z.div_div, <- Z.pow_add_r, E by lia. done.
Qed.

Lemma value_digits N j n :
  value ((digit N <$> seq j n) ++ [N / 2 ^ (21 * Z.of_nat (j + n))]) = N / 2 ^ (21 * Z.of_nat j).
Proof.
  revert j. induction n as [|n IH]; intros j.
  - simpl. rewrite Nat.add_0_r. ring.
  - cbn [seq fmap list_fmap app value]. replace (j + S n)%nat with (S j + n)%nat by lia. rewrite IH.
    replace (21 * Z.of_nat (S j)) with (21 * Z.of_nat j + 21) by lia.
    rewrite Z.pow_add_r, <- Z.div_div by lia. unfold digit.
    rewrite (Z.div_mod (N / 2 ^ (21 * Z.of_nat j)) (2 ^ 21)) at 3 by done. ring.
Qed.

Lemma digit_range N i : range (digit N i) (0, 2097151).
Proof. unfold range, digit. pose proof (Z.mod_pos_bound (N / 2 ^ (21 * Z.of_nat i)) (2 ^ 21)). simpl. lia. Qed.

Lemma digit3_0 s k i :
  (k + 3 <= length s)%nat -> 8 * Z.of_nat k = 21 * Z.of_nat i ->
  Z.land 2097151 (load3 (drop k s)) = digit (le_value s) i.
Proof. intros Hk E. rewrite <- (Z.shiftr_0_r (load3 _)). apply digit3; lia. Qed.
Lemma top_digit s k r n :
  length s = (k + 4)%nat -> 0 <= r -> 8 * Z.of_nat k + r = n ->
  Z.shiftr (load4 (drop k s)) r = le_value s / 2 ^ n.
Proof.
  intros Hl Hr <-. pose proof (le_value_range s) as Hs. unfold zlen in Hs. rewrite Hl in Hs.
  rewrite load4_value, le_value_drop by (rewrite ?length_drop; lia).
  assert (E : 256 ^ Z.of_nat (k + 4) = 2 ^ (8 * Z.of_nat k) * 2 ^ 32).
  { rewrite <- Z.pow_add_r by lia. change 256 with (2 ^ 8). rewrite <- Z.pow_mul_r by lia. f_equal. lia. }
  assert (0 < 2 ^ (8 * Z.of_nat k)) by (apply Z.pow_pos_nonneg; lia).
  rewrite Z.mod_small.
  - rewrite Z.shiftr_div_pow2, Z.div_div, <- Z.pow_add_r by lia. done.
  - split; [apply Z.div_pos; lia | apply Z.div_lt_upper_bound; lia].
Qed.

Ltac digits Hl :=
  repeat (apply f_equal2; [first [apply digit4; rewrite ?Hl; lia | apply digit3; rewrite ?Hl; lia
    | apply digit3_0; rewrite ?Hl; lia | eapply top_digit; rewrite ?Hl; lia
    | rewrite <- (drop_0 _) at 1; apply digit3_0; rewrite ?Hl; lia]|]).

Lemma load_scalar_digits s :
  length s = 32%nat -> load_scalar s = (digit (le_value s) <$> seq 0 11) ++ [le_value s / 2 ^ 231].
Proof. intros Hl. unfold load_scalar. cbn [seq fmap list_fmap app]. digits Hl. done. Qed.

Lemma load_wide_digits s :
  length s = 64%nat -> load_wide s = (digit (le_value s) <$> seq 0 23) ++ [le_value s / 2 ^ 483].
Proof. intros Hl. unfold load_wide. cbn [seq fmap list_fmap app]. digits Hl. done. Qed.

Lemma load_wide_spec s :
  length s = 64%nat ->
  value (load_wide s) = le_value s /\ ranges (load_wide s) (replicate 23 (0, 2097151) ++ [(0, 536870911)]).
Proof.
  intros Hl. rewrite load_wide_digits by done. split.
  - pose proof (value_digits (le_value s) 0 23) as H. simpl (0 + 23)%nat in H.
    change (21 * Z.of_nat 23) with 483 in H. rewrite H. change (2 ^ (21 * Z.of_nat 0)) with 1. apply Z.div_1_r.
  - apply Forall2_app; [|constructor; [|done]].
    + cbn [seq fmap list_fmap replicate]. repeat constructor; apply digit_range.
    + pose proof (le_value_range s) as Hs. unfold zlen in Hs. rewrite Hl in Hs. unfold range. simpl.
      change (256 ^ Z.of_nat 64) with (2 ^ 512) in Hs.
      split; [apply Z.div_pos; lia | apply Z.lt_succ_r, Z.div_lt_upper_bound; lia].
Qed.

(** ** The final reduction *)

Definition mid_bounds : list (Z * Z) := replicate 12 (0, 2097151) ++ [(-1, 0)] ++ replicate 11 (0, 0).
Definition final_bounds : list (Z * Z) := replicate 11 (0, 2097151) ++ [(-1, 2097152)] ++ replicate 12 (0, 0).

Lemma execs_app st1 st2 s : execs (st1 ++ st2) s = execs st2 (execs st1 s).
Proof. apply fold_left_app. Qed.

Lemma execs_cons st steps s : execs (st :: steps) s = execs steps (exec st s).
Proof. done. Qed.
#[global] Opaque execs.

Lemma value_app s t : value (s ++ t) = value s + 2 ^ (21 * Z.of_nat (length s)) * value t.
Proof.
  induction s as [|z s IH]; [change (2 ^ (21 * Z.of_nat (length (@nil Z)))) with 1; cbn [app value]; ring|].
  cbn [app value length]. rewrite IH. replace (21 * Z.of_nat (S (length s))) with (21 + 21 * Z.of_nat (length s)) by lia.
  rewrite Z.pow_add_r by lia. ring.
Qed.

Lemma value_range s n : ranges s (replicate n (0, 2097151)) -> 0 <= value s < 2 ^ (21 * Z.of_nat n).
Proof.
  revert n. induction s as [|z s IH]; intros [|n] H; try by (apply Forall2_length in H; simpl in H).
  apply Forall2_cons in H as [[Hz1 Hz2] H]. specialize (IH n H). simpl in Hz1, Hz2. cbn [value].
  replace (21 * Z.of_nat (S n)) with (21 + 21 * Z.of_nat n) by lia. rewrite Z.pow_add_r by lia. lia.
Qed.

Lemma value_zeros s n : ranges s (replicate n (0, 0)) -> value s = 0.
Proof.
  revert n. induction s as [|z s IH]; intros [|n] H; try by (apply Forall2_length in H; simpl in H).
  apply Forall2_cons in H as [[Hz1 Hz2] H]. simpl in Hz1, Hz2. cbn [value]. rewrite (IH n H). lia.
Qed.

(** Digits below the limb [k], the limb, and nothing above. *)
Lemma value_top s n b m :
  ranges s (replicate n (0, 2097151) ++ [b] ++ replicate m (0, 0)) ->
  exists low, range (limb s n) b /\ 0 <= low < 2 ^ (21 * Z.of_nat n) /\
    value s = low + 2 ^ (21 * Z.of_nat n) * limb s n.
Proof.
  intros H. apply Forall2_app_inv_r in H as (s1 & s2 & H1 & H2 & ->).
  destruct s2 as [|z s2]; [by apply Forall2_length in H2|]. apply Forall2_cons in H2 as [Hz H2].
  assert (Hl : length s1 = n) by (apply Forall2_length in H1; rewrite length_replicate in H1; done).
  exists (value s1). rewrite value_app. cbn [value]. rewrite (value_zeros _ _ H2), Hl.
  replace (limb (s1 ++ z :: s2) n) with z.
  - split; [done|]. split; [by apply value_range | ring].
  - unfold limb. rewrite app_nth2 by lia. by rewrite Hl, Nat.sub_diag.
Qed.

Lemma final_spec s bs :
  ranges s bs -> bounds (take 12 ScReduce_final) bs = Some mid_bounds ->
  ranges (execs ScReduce_final s) final_bounds /\ value (execs ScReduce_final s) = value s mod l.
Proof.
  intros Hs Hb. rewrite <- (take_drop 12 ScReduce_final) at 1 2. rewrite execs_app.
  destruct (bounds_sound _ _ _ _ Hs Hb) as (Hm & _ & Hv). specialize (Hv eq_refl).
  set (t := execs (take 12 ScReduce_final) s) in *.
  destruct (value_top t 12 (-1, 0) 11 Hm) as (low & [Hq1 Hq2] & Hlow & Ht). simpl in Hq1, Hq2.
  change (2 ^ (21 * Z.of_nat 12)) with (2 ^ 252) in *.
  change (drop 12 ScReduce_final) with (Fold 12 :: drop 13 ScReduce_final).
  rewrite execs_cons.
  destruct (bound (Fold 12) mid_bounds) as [b3|] eqn:E3; [|by vm_compute in E3].
  destruct (bound_sound _ _ _ _ Hm E3) as [H3 Hv3]. vm_compute in E3. injection E3 as <-.
  destruct (bounds_sound (drop 13 ScReduce_final) _ _ final_bounds H3) as (Hf & _ & Hvf);
    [vm_compute; reflexivity|]. split; [exact Hf|]. rewrite (Hvf eq_refl), Hv3, <- Hv. clearbody t. rewrite Ht.
  cbn [quotient]. change (2 ^ (21 * (Z.of_nat 12 - 12))) with 1. rewrite Z.mul_1_r.
  apply (Z.mod_unique _ _ (limb t 12)); [|ring].
  assert (limb t 12 = 0 \/ limb t 12 = -1) as [-> | ->] by lia; unfold l; lia.
Qed.

(** ** Storing *)

Lemma limb_digits1 s t h :
  (t =? Z.abs s + 8) = true -> (0 <=? s) = true ->
  h = h mod 2 ^ s + 2 ^ s * ((h / 2 ^ s) mod 256) + 2 ^ t * (h / 2 ^ t).
Proof.
  rewrite Z.eqb_eq, Z.leb_le. intros -> Hs. rewrite Z.abs_eq by done.
  assert (0 < 2 ^ s) by (apply Z.pow_pos_nonneg; lia).
  rewrite Z.pow_add_r, <- Z.div_div by lia. change (2 ^ 8) with 256.
  pose proof (Z.div_mod h (2 ^ s)). pose proof (Z.div_mod (h / 2 ^ s) 256). nia.
Qed.

Lemma le_value_scalar_bytes s0 s1 s2 s3 s4 s5 s6 s7 s8 s9 s10 s11 t :
  Forall (fun z => 0 <= z < 2 ^ 21) [s0; s1; s2; s3; s4; s5; s6; s7; s8; s9; s10] -> 0 <= s11 <= 2 ^ 21 ->
  le_value (scalar_bytes ([s0; s1; s2; s3; s4; s5; s6; s7; s8; s9; s10; s11] ++ t))
  = value [s0; s1; s2; s3; s4; s5; s6; s7; s8; s9; s10; s11].
Proof.
  rewrite !Forall_cons. intros Hs H11. destruct_and!. unfold scalar_bytes. cbv zeta.
  cbn [limb nth app le_value value]. unfold limb. cbn [nth app]. rewrite !b2z_z2b, !Z.shiftr_div_pow2 by lia.
  rewrite !(i64_small (Z.shiftl _ _)) by (rewrite Z.shiftl_mul_pow2; lia).
  rewrite !lor_add by first [lia | split; [apply Z.div_pos; lia | apply Z.div_lt_upper_bound; lia]].
  rewrite !straddle by first [lia | split; [apply Z.div_pos; lia | apply Z.div_lt_upper_bound; lia]].
  repeat match goal with |- context [8 - ?s] => let v := eval compute in (8 - s) in change (8 - s) with v end.
  pose proof (limb_digits1 8 16 s0 eq_refl eq_refl). pose proof (limb_digits 3 11 19 s1 eq_refl eq_refl eq_refl).
  pose proof (limb_digits1 6 14 s2 eq_refl eq_refl). pose proof (limb_digits 1 9 17 s3 eq_refl eq_refl eq_refl).
  pose proof (limb_digits 4 12 20 s4 eq_refl eq_refl eq_refl). pose proof (limb_digits1 7 15 s5 eq_refl eq_refl).
  pose proof (limb_digits 2 10 18 s6 eq_refl eq_refl eq_refl). pose proof (limb_digits1 5 13 s7 eq_refl eq_refl).
  pose proof (limb_digits1 8 16 s8 eq_refl eq_refl). pose proof (limb_digits 3 11 19 s9 eq_refl eq_refl eq_refl).
  pose proof (limb_digits1 6 14 s10 eq_refl eq_refl). pose proof (limb_digits 1 9 17 s11 eq_refl eq_refl eq_refl).
  assert ((s7 / 2 ^ 13) mod 256 = s7 / 2 ^ 13) by (apply Z.mod_small; split; [apply Z.div_pos; lia | apply Z.div_lt_upper_bound; lia]).
  assert ((s11 / 2 ^ 17) mod 256 = s11 / 2 ^ 17) by (apply Z.mod_small; split; [apply Z.div_pos; lia | apply Z.div_lt_upper_bound; lia]).
  change (2 ^ 0) with 1 in *. change (2 ^ 8) with 256 in *. rewrite !Z.div_1_r in *. lia.
Qed.

Lemma scalar_bytes_spec s :
  ranges s final_bounds -> 0 <= value s ->
  length (scalar_bytes s) = 32%nat /\ le_value (scalar_bytes s) = value s.
Proof.
  intros H Hv. split; [done|].
  destruct (value_top s 11 (-1, 2097152) 12 H) as (low & [H1 H2] & Hlow & E).
  change (2 ^ (21 * Z.of_nat 11)) with (2 ^ 231) in *. simpl in H1, H2.
  apply Forall2_app_inv_r in H as (u & v & Hu & Hw & ->).
  apply Forall2_app_inv_r in Hw as (v' & w & Hv' & Hw & ->).
  apply Forall2_cons_inv_r in Hv' as (z & v & [Hz1 Hz2] & Hv'%Forall2_nil_inv_r & ->). subst v.
  cbn [replicate] in Hu. do 11 (apply Forall2_cons_inv_r in Hu as (? & ? & [? ?] & Hu & ->)).
  apply Forall2_nil_inv_r in Hu. subst. cbn [fst snd] in *. cbn [app] in *. unfold limb in *. cbn [nth] in *.
  assert (0 <= z) by lia. etrans; [apply le_value_scalar_bytes|].
  - rewrite !Forall_cons. repeat split; (lia || apply Forall_nil; done).
  - lia.
  - cbn [value]. rewrite (value_zeros _ _ Hw). ring.
Qed.

Lemma bounds_app st1 st2 bs : bounds (st1 ++ st2) bs = bounds st1 bs ≫= bounds st2.
Proof.
  revert bs. induction st1 as [|st st1 IH]; intros bs; [done|]. cbn [app bounds].
  destruct (bound st bs) as [b|]; [apply IH | done].
Qed.

(** ** Theorems *)

(** Any limbs on which the analysis succeeds are reduced modulo l. *)
Lemma reduce_spec steps bs s :
  ranges s bs ->
  bounds (steps ++ ScReduce_high ++ ScReduce_low ++ take 12 ScReduce_final) bs = Some mid_bounds ->
  let out := scalar_bytes (execs ScReduce_final (execs ScReduce_low (execs ScReduce_high (execs steps s)))) in
  length out = 32%nat /\ le_value out = value s mod l.
Proof.
  intros Hs Hb. rewrite !app_assoc, bounds_app in Hb. apply bind_Some in Hb as (b1 & H1 & H2).
  destruct (bounds_sound _ _ _ _ Hs H1) as (Hs1 & (k & Hk) & _). rewrite !execs_app in Hs1, Hk.
  set (t := execs ScReduce_low (execs ScReduce_high (execs steps s))) in *.
  destruct (final_spec t b1 Hs1 H2) as [Hf Hv].
  destruct (scalar_bytes_spec _ Hf) as [Hl Ho].
  - rewrite Hv. apply Z.mod_pos_bound. done.
  - split; [exact Hl|]. rewrite Ho, Hv, Hk. rewrite <- (Z.add_opp_r (value s)), <- Z.mul_opp_l.
    apply Z_mod_plus_full.
Qed.

Lemma ScReduce_spec (s : bytes) :
  length s = 64%nat -> length (ScReduce s) = 32%nat /\ le_value (ScReduce s) = le_value s mod l.
Proof.
  intros Hl. destruct (load_wide_spec s Hl) as [Hv Hr].
  destruct (reduce_spec [] _ (load_wide s) Hr) as [Hlen Hval]; [vm_compute; reflexivity|].
  rewrite Hv in Hval. done.
Qed.

Lemma load_scalar_spec s :
  length s = 32%nat ->
  value (load_scalar s) = le_value s /\ ranges (load_scalar s) (replicate 11 (0, 2097151) ++ [(0, 33554431)]).
Proof.
  intros Hl. rewrite load_scalar_digits by done. split.
  - pose proof (value_digits (le_value s) 0 11) as H. simpl (0 + 11)%nat in H.
    change (21 * Z.of_nat 11) with 231 in H. rewrite H. change (2 ^ (21 * Z.of_nat 0)) with 1. apply Z.div_1_r.
  - apply Forall2_app; [|constructor; [|done]].
    + cbn [seq fmap list_fmap replicate]. repeat constructor; apply digit_range.
    + pose proof (le_value_range s) as Hs. unfold zlen in Hs. rewrite Hl in Hs. unfold range. simpl.
      change (256 ^ Z.of_nat 32) with (2 ^ 256) in Hs.
      split; [apply Z.div_pos; lia | apply Z.lt_succ_r, Z.div_lt_upper_bound; lia].
Qed.

Definition scalar_limbs (a : list Z) : Prop := ranges a (replicate 11 (0, 2097151) ++ [(0, 33554431)]).

Lemma scalar_limbs_inv a :
  scalar_limbs a ->
  exists a0 a1 a2 a3 a4 a5 a6 a7 a8 a9 a10 a11, a = [a0; a1; a2; a3; a4; a5; a6; a7; a8; a9; a10; a11] /\
    Z.abs a0 <= 2097151 /\ Z.abs a1 <= 2097151 /\ Z.abs a2 <= 2097151 /\ Z.abs a3 <= 2097151 /\
    Z.abs a4 <= 2097151 /\ Z.abs a5 <= 2097151 /\ Z.abs a6 <= 2097151 /\ Z.abs a7 <= 2097151 /\
    Z.abs a8 <= 2097151 /\ Z.abs a9 <= 2097151 /\ Z.abs a10 <= 2097151 /\ Z.abs a11 <= 33554431.
Proof.
  unfold scalar_limbs. cbn [replicate app]. intros Hr.
  do 12 (apply Forall2_cons_inv_r in Hr as (? & ? & [? ?] & Hr & ->)). apply Forall2_nil_inv_r in Hr as ->.
  simpl in *. do 12 eexists. split; [done|]. repeat split; apply Z.abs_le; lia.
Qed.

Lemma exacts_ranges ws zs ms :
  Forall3 exact ws zs ms -> ws = zs /\ ranges ws ((fun m => (- m, m)) <$> ms).
Proof.
  induction 1 as [|w z m ws zs ms [-> Hm] _ [-> IH]]; [by split; constructor|].
  split; [done|]. constructor; [|done]. apply Z.abs_le in Hm. done.
Qed.

Lemma products_spec a b c :
  scalar_limbs a -> scalar_limbs b -> scalar_limbs c ->
  exists ms, ranges (products a b c) ((fun m => (- m, m)) <$> ms) /\
    value (products a b c) = value a * value b + value c /\
    bounds (ScMulAdd_spread ++ ScReduce_high ++ ScReduce_low ++ take 12 ScReduce_final)
      ((fun m => (- m, m)) <$> ms) = Some mid_bounds.
Proof.
  intros (a0 & a1 & a2 & a3 & a4 & a5 & a6 & a7 & a8 & a9 & a10 & a11 & -> & Ha)%scalar_limbs_inv
    (b0 & b1 & b2 & b3 & b4 & b5 & b6 & b7 & b8 & b9 & b10 & b11 & -> & Hb)%scalar_limbs_inv
    (c0 & c1 & c2 & c3 & c4 & c5 & c6 & c7 & c8 & c9 & c10 & c11 & -> & Hc)%scalar_limbs_inv.
  destruct_and!. unfold products, limb. cbn [nth]. cbv zeta.
  eassert (H' : Forall3 exact _ _ _); [|destruct (exacts_ranges _ _ _ H') as [E Hr]; eexists; split; [exact Hr|]].
  - repeat (apply Forall3_cons; [machine|]); apply Forall3_nil.
  - split.
    + rewrite E. cbn [value]. ring.
    + vm_compute. reflexivity.
Qed.

(** After its products [ScMulAdd] goes on as [ScReduce] does. *)
Lemma ScMulAdd_steps :
  ScMulAdd_high = ScReduce_high /\ ScMulAdd_low = ScReduce_low /\ ScMulAdd_final = ScReduce_final.
Proof. split_and!; reflexivity. Qed.

Lemma ScMulAdd_spec (a b c : bytes) :
  length a = 32%nat -> length b = 32%nat -> length c = 32%nat ->
  length (ScMulAdd a b c) = 32%nat /\
  le_value (ScMulAdd a b c) = (le_value a * le_value b + le_value c) mod l.
Proof.
  intros Ha Hb Hc. destruct (load_scalar_spec a Ha) as [Va Ra], (load_scalar_spec b Hb) as [Vb Rb],
    (load_scalar_spec c Hc) as [Vc Rc].
  destruct (products_spec _ _ _ Ra Rb Rc) as (ms & Hr & Hv & Hbounds).
  unfold ScMulAdd. destruct ScMulAdd_steps as (-> & -> & ->).
  destruct (reduce_spec _ _ _ Hr Hbounds) as [Hl Hval]. rewrite Hv, Va, Vb, Vc in Hval. exact (conj Hl Hval).
Qed.

(** ** Theorems *)

(** [ScReduce] reduces a 64-byte integer modulo l: 32 bytes, the canonical ones, and no step
    overflows. *)
Theorem ScReduce_correct (s : bytes) :
  length s = 64%nat -> length (ScReduce s) = 32%nat /\ le_value (ScReduce s) = le_value s mod l.
Proof. apply ScReduce_spec. Qed.

Lemma ScReduce_correct_witness :
  le_value (ScReduce (replicate 64 xff)) = (2 ^ 512 - 1) mod (2 ^ 252 + 27742317777372353535851937790883648493).
Proof. destruct (ScReduce_correct (replicate 64 xff) eq_refl) as [_ H]. rewrite H. vm_compute. reflexivity. Defined.

(** C39. [ScMulAdd] computes a b + c modulo l for any three 32-byte integers, reduced or not. *)
Theorem ScMulAdd_correct (a b c : bytes) :
  length a = 32%nat -> length b = 32%nat -> length c = 32%nat ->
  length (ScMulAdd a b c) = 32%nat /\
  le_value (ScMulAdd a b c) = (le_value a * le_value b + le_value c) mod l.
Proof. apply ScMulAdd_spec. Qed.

Lemma ScMulAdd_correct_witness :
  let x := le_bytes 32 (2 ^ 252) in
  le_value (ScMulAdd x x x) = (2 ^ 504 + 2 ^ 252) mod (2 ^ 252 + 27742317777372353535851937790883648493).
Proof.
  intros x. destruct (ScMulAdd_correct x x x eq_refl eq_refl eq_refl) as [_ H]. rewrite H. vm_compute. reflexivity.
Defined.
