(* ===== verification/Curve.v ===== *)
(** * The twisted Edwards curve -x^2 + y^2 = 1 + d x^2 y^2

    The mathematics the group operations are checked against: the addition law on affine
    points, with coordinates modulo p.  The law is complete ([padd_complete]: its denominators
    never vanish on the curve), because -1 is a square and d is not; it stays on the curve. *)

From Stdlib Require Import Setoid Morphisms Znumtheory.
From S2P Require Import Prelude Prime Word Modp.
#[local] Open Scope Z_scope.

(** ** The constants *)

(** The coefficient d = -121665/121666 of the curve, and a square root of -1. *)
Definition cd : Z := 37095705934669439343138083508754565189542113879843219016388785533085940283555.
Definition ci : Z := 19681161376707505956807079304988542015446066515923890162744021073123829784752.

Lemma d_ratio : 121666 * cd =p - 121665.
Proof. split. vm_compute. reflexivity. Qed.
Lemma ci_squared : ci * ci =p - 1.
Proof. split. vm_compute. reflexivity. Qed.

(** Euler's criterion: d has no square root. *)
Lemma cd_power : cd ^ ((p - 1) / 2) =p - 1.
Proof.
  split. change ((p - 1) / 2) with (Zpos (Z.to_pos ((p - 1) / 2))).
  rewrite <- (powm_spec p red25519 cd _ red25519_reduces). vm_compute. reflexivity.
Qed.

Lemma cd_nonsquare s : ~ s * s =p cd.
Proof.
  intros H. pose proof cd_power as E. rewrite <- H in E.
  rewrite <- Z.pow_2_r, <- Z.pow_mul_r in E by (vm_compute; congruence).
  replace (2 * ((p - 1) / 2)) with (p - 1) in E by (vm_compute; reflexivity).
  destruct (decide (s =p 0)) as [Hs|Hs].
  - rewrite Hs, Z.pow_0_l in E by (unfold p; lia). rewrite eqp_iff in E. vm_compute in E. congruence.
  - rewrite (fermat_p s Hs) in E. rewrite eqp_iff in E. vm_compute in E. congruence.
Qed.

(** ** Points *)

Definition on_curve (x y : Z) : Prop := y * y - x * x =p 1 + cd * x * x * y * y.

(** The denominators of a sum are one plus and minus this. *)
Definition cross (x1 y1 x2 y2 : Z) : Z := cd * x1 * x2 * y1 * y2.
Definition add_x (x1 y1 x2 y2 : Z) : Z := (x1 * y2 + y1 * x2) * inv (1 + cross x1 y1 x2 y2).
Definition add_y (x1 y1 x2 y2 : Z) : Z := (y1 * y2 + x1 * x2) * inv (1 - cross x1 y1 x2 y2).

#[export] Instance on_curve_proper : Proper (eqp ==> eqp ==> iff) on_curve.
Proof. intros x x' Hx y y' Hy. unfold on_curve. rewrite Hx, Hy. done. Qed.
#[export] Instance cross_proper : Proper (eqp ==> eqp ==> eqp ==> eqp ==> eqp) cross.
Proof. intros ? ? H1 ? ? H2 ? ? H3 ? ? H4. unfold cross. rewrite H1, H2, H3, H4. done. Qed.
#[export] Instance add_x_proper : Proper (eqp ==> eqp ==> eqp ==> eqp ==> eqp) add_x.
Proof. intros ? ? H1 ? ? H2 ? ? H3 ? ? H4. unfold add_x. rewrite H1, H2, H3, H4. done. Qed.
#[export] Instance add_y_proper : Proper (eqp ==> eqp ==> eqp ==> eqp ==> eqp) add_y.
Proof. intros ? ? H1 ? ? H2 ? ? H3 ? ? H4. unfold add_y. rewrite H1, H2, H3, H4. done. Qed.

(** A polynomial identity that holds up to a multiple of equations that hold. *)
Lemma eqp_combine2 a b l1 r1 c1 l2 r2 c2 :
  l1 =p r1 -> l2 =p r2 -> a - b = c1 * (l1 - r1) + c2 * (l2 - r2) -> a =p b.
Proof.
  intros H1 H2 E. apply eqp_sub_0. rewrite E. apply eqp_sub_0 in H1, H2. rewrite H1, H2.
  rewrite !Z.mul_0_r. done.
Qed.

Lemma eqp_combine4 a b l1 r1 c1 l2 r2 c2 l3 r3 c3 l4 r4 c4 :
  l1 =p r1 -> l2 =p r2 -> l3 =p r3 -> l4 =p r4 ->
  a - b = c1 * (l1 - r1) + c2 * (l2 - r2) + c3 * (l3 - r3) + c4 * (l4 - r4) -> a =p b.
Proof.
  intros H1 H2 H3 H4 E. apply eqp_sub_0. rewrite E. apply eqp_sub_0 in H1, H2, H3, H4.
  rewrite H1, H2, H3, H4. rewrite !Z.mul_0_r. done.
Qed.

Lemma square_nonsquare s t : ~ t =p 0 -> ~ s * s =p cd * (t * t).
Proof.
  intros Ht H. apply (cd_nonsquare (s * inv t)).
  apply (eqp_cancel (t * t)); [by apply eqp_nonzero_mul|].
  replace (t * t * (s * inv t * (s * inv t))) with (s * s * ((t * inv t) * (t * inv t))) by ring.
  rewrite inv_r, H by done. apply (eqp_diff _ _ 0). ring.
Qed.

(** The denominators never vanish. *)
Lemma padd_complete x1 y1 x2 y2 e :
  on_curve x1 y1 -> on_curve x2 y2 -> e * e = 1 -> ~ 1 + e * cross x1 y1 x2 y2 =p 0.
Proof.
  intros H1 H2 He H0. unfold on_curve in *. set (c := cross x1 y1 x2 y2) in *.
  assert (Hc : e * c =p - 1) by (apply eqp_sub_0; rewrite <- H0; apply (eqp_diff _ _ 0); ring).
  assert (Hc2 : c * c =p 1).
  { replace (c * c) with (e * c * (e * c)) by (transitivity (e * e * (c * c)); [ring | rewrite He; ring]).
    rewrite Hc. done. }
  assert (Hxy : ~ x1 * y1 =p 0).
  { intros E. apply eqp_0_1. rewrite <- Hc2. unfold c, cross.
    replace (cd * x1 * x2 * y1 * y2) with ((x1 * y1) * (cd * x2 * y2)) by ring. rewrite E. done. }
  assert (Key : forall j, j * j =p - 1 -> j * x2 + y2 =p 0).
  { intros j Hj. assert (E : (j * x1 + c * y1) * (j * x1 + c * y1)
      =p cd * ((x1 * y1 * (j * x2 + y2)) * (x1 * y1 * (j * x2 + y2)))).
    { apply (eqp_combine4 _ _ _ _ (x1 * x1 - cd * x1 * x1 * y1 * y1 * x2 * x2) _ _ (y1 * y1 - 1)
        _ _ 1 _ _ (- (cd * x1 * x1 * y1 * y1)) Hj Hc2 H1 H2). unfold c, cross. ring. }
    destruct (decide (j * x2 + y2 =p 0)) as [|Hn]; [done|]. exfalso.
    apply (square_nonsquare _ _ (eqp_nonzero_mul _ _ Hxy Hn) E). }
  assert (Hy : y2 =p 0).
  { pose proof (Key ci ci_squared) as K1. pose proof (Key (- ci)) as K2. specialize (K2 ltac:(
      replace (- ci * - ci) with (ci * ci) by ring; exact ci_squared)).
    assert (K : 2 * y2 =p 0).
    { replace (2 * y2) with ((ci * x2 + y2) + (- ci * x2 + y2)) by ring. rewrite K1, K2. done. }
    apply eqp_integral in K as [K|K]; [|done]. rewrite eqp_iff in K. vm_compute in K. congruence. }
  apply eqp_0_1. rewrite <- Hc2. unfold c, cross. rewrite Hy, Z.mul_0_r. done.
Qed.

(** The sum of two points of the curve is on the curve. *)
Lemma add_on_curve x1 y1 x2 y2 :
  on_curve x1 y1 -> on_curve x2 y2 -> on_curve (add_x x1 y1 x2 y2) (add_y x1 y1 x2 y2).
Proof.
  intros H1 H2. pose proof (padd_complete x1 y1 x2 y2 1 H1 H2 eq_refl) as Hp.
  pose proof (padd_complete x1 y1 x2 y2 (- 1) H1 H2 eq_refl) as Hm.
  replace (1 + 1 * cross x1 y1 x2 y2) with (1 + cross x1 y1 x2 y2) in Hp by ring.
  replace (1 + - 1 * cross x1 y1 x2 y2) with (1 - cross x1 y1 x2 y2) in Hm by ring.
  set (x3 := add_x x1 y1 x2 y2). set (y3 := add_y x1 y1 x2 y2).
  assert (E1 : x3 * (1 + cross x1 y1 x2 y2) =p x1 * y2 + y1 * x2) by (apply eqp_div; done).
  assert (E2 : y3 * (1 - cross x1 y1 x2 y2) =p y1 * y2 + x1 * x2) by (apply eqp_div; done).
  clearbody x3 y3. unfold on_curve in *. set (e := cross x1 y1 x2 y2) in *.
  apply (eqp_cancel ((1 + e) * (1 - e) * ((1 + e) * (1 - e)))); [by repeat apply eqp_nonzero_mul|].
  transitivity ((y3 * (1 - e)) * (y3 * (1 - e)) * ((1 + e) * (1 + e)) -
                (x3 * (1 + e)) * (x3 * (1 + e)) * ((1 - e) * (1 - e))).
  { apply (eqp_diff _ _ 0). ring. }
  transitivity ((1 + e) * (1 + e) * ((1 - e) * (1 - e)) +
                cd * ((x3 * (1 + e)) * (x3 * (1 + e)) * ((y3 * (1 - e)) * (y3 * (1 - e))))).
  2: { apply (eqp_diff _ _ 0). ring. }
  rewrite E1, E2.
  apply (eqp_combine2 _ _ _ _
    ((y2 * y2 - x2 * x2) * (1 + e * e) - cd * x2 * x2 * y2 * y2 * (y1 * y1 - x1 * x1 + 1 + cd * x1 * x1 * y1 * y1))
    _ _ ((1 + cd * x1 * x1 * y1 * y1) * (1 + e * e) - cd * x1 * x1 * y1 * y1 * (y2 * y2 - x2 * x2 + 1 + cd * x2 * x2 * y2 * y2))
    H1 H2). unfold e, cross. ring.
Qed.

(** ** Associativity

    With the denominators cleared, the two sides of associativity differ by a combination of the
    three curve equations; the coefficients are written out. *)

(** The sum of [(X/U, Y/V)] and [(x, y)], as fractions. *)
Definition num_x (X U Y V x y : Z) : Z := X * y * V + Y * x * U.
Definition den_x (X U Y V x y : Z) : Z := U * V + cd * X * Y * x * y.
Definition num_y (X U Y V x y : Z) : Z := Y * y * U + X * x * V.
Definition den_y (X U Y V x y : Z) : Z := U * V - cd * X * Y * x * y.

Section Assoc.
Context (x1 y1 x2 y2 x3 y3 : Z).
Context (H1 : on_curve x1 y1) (H2 : on_curve x2 y2) (H3 : on_curve x3 y3).

Let X12 := num_x x1 1 y1 1 x2 y2.
Let U12 := den_x x1 1 y1 1 x2 y2.
Let Y12 := num_y x1 1 y1 1 x2 y2.
Let V12 := den_y x1 1 y1 1 x2 y2.
Let X23 := num_x x2 1 y2 1 x3 y3.
Let U23 := den_x x2 1 y2 1 x3 y3.
Let Y23 := num_y x2 1 y2 1 x3 y3.
Let V23 := den_y x2 1 y2 1 x3 y3.

Lemma eqp_combine3 a b l1 r1 c1 l2 r2 c2 l3 r3 c3 :
  l1 =p r1 -> l2 =p r2 -> l3 =p r3 ->
  a - b = c1 * (l1 - r1) + c2 * (l2 - r2) + c3 * (l3 - r3) -> a =p b.
Proof.
  intros E1 E2 E3 E. apply eqp_sub_0. rewrite E. apply eqp_sub_0 in E1, E2, E3.
  rewrite E1, E2, E3. rewrite !Z.mul_0_r. done.
Qed.

Lemma assoc_x :
  num_x X12 U12 Y12 V12 x3 y3 * den_x X23 U23 Y23 V23 x1 y1
  =p num_x X23 U23 Y23 V23 x1 y1 * den_x X12 U12 Y12 V12 x3 y3.
Proof.
  unfold on_curve in *. apply (eqp_combine3 _ _ _ _
    (- cd * y1 * x2 * y2 ^ 4 * x3 ^ 2 * y3 - cd * y1 * x2 ^ 2 * y2 ^ 3 * x3 - cd * y1 * x2 ^ 2 * y2
     ^ 3 * x3 ^ 3 - cd * y1 * x2 ^ 3 * y2 ^ 2 * y3 + cd * y1 * x2 ^ 3 * y2 ^ 2 * y3 ^ 3 + cd * y1 *
     x2 ^ 4 * y2 * x3 * y3 ^ 2 + cd * x1 * x2 * y2 ^ 4 * x3 * y3 ^ 2 - cd * x1 * x2 ^ 2 * y2 ^ 3 *
     y3 + cd * x1 * x2 ^ 2 * y2 ^ 3 * y3 ^ 3 - cd * x1 * x2 ^ 3 * y2 ^ 2 * x3 - cd * x1 * x2 ^ 3 *
     y2 ^ 2 * x3 ^ 3 - cd * x1 * x2 ^ 4 * y2 * x3 ^ 2 * y3 + cd ^ 2 * y1 * x2 ^ 3 * y2 ^ 4 * x3 ^ 2
     * y3 + cd ^ 2 * y1 * x2 ^ 4 * y2 ^ 3 * x3 * y3 ^ 2 - cd ^ 2 * x1 * x2 ^ 3 * y2 ^ 4 * x3 * y3 ^
     2 - cd ^ 2 * x1 * x2 ^ 4 * y2 ^ 3 * x3 ^ 2 * y3)
    _ _
    (y1 * y2 * x3 - y1 * y2 * x3 * y3 ^ 2 + y1 * y2 * x3 ^ 3 + y1 * x2 * y3 - y1 * x2 * y3 ^ 3 + y1
     * x2 * x3 ^ 2 * y3 - y1 ^ 3 * y2 * x3 + y1 ^ 3 * y2 * x3 * y3 ^ 2 - y1 ^ 3 * y2 * x3 ^ 3 - y1 ^
     3 * x2 * y3 + y1 ^ 3 * x2 * y3 ^ 3 - y1 ^ 3 * x2 * x3 ^ 2 * y3 + x1 * y2 * y3 - x1 * y2 * y3 ^
     3 + x1 * y2 * x3 ^ 2 * y3 + x1 * x2 * x3 - x1 * x2 * x3 * y3 ^ 2 + x1 * x2 * x3 ^ 3 - x1 * y1 ^
     2 * y2 * y3 + x1 * y1 ^ 2 * y2 * y3 ^ 3 - x1 * y1 ^ 2 * y2 * x3 ^ 2 * y3 - x1 * y1 ^ 2 * x2 *
     x3 + x1 * y1 ^ 2 * x2 * x3 * y3 ^ 2 - x1 * y1 ^ 2 * x2 * x3 ^ 3 + x1 ^ 2 * y1 * y2 * x3 - x1 ^
     2 * y1 * y2 * x3 * y3 ^ 2 + x1 ^ 2 * y1 * y2 * x3 ^ 3 + x1 ^ 2 * y1 * x2 * y3 - x1 ^ 2 * y1 *
     x2 * y3 ^ 3 + x1 ^ 2 * y1 * x2 * x3 ^ 2 * y3 + x1 ^ 3 * y2 * y3 - x1 ^ 3 * y2 * y3 ^ 3 + x1 ^ 3
     * y2 * x3 ^ 2 * y3 + x1 ^ 3 * x2 * x3 - x1 ^ 3 * x2 * x3 * y3 ^ 2 + x1 ^ 3 * x2 * x3 ^ 3 + cd *
     y1 * y2 * x3 ^ 3 * y3 ^ 2 + cd * y1 * x2 * x3 ^ 2 * y3 ^ 3 - cd * y1 * x2 * y2 ^ 2 * x3 ^ 2 *
     y3 - cd * y1 * x2 ^ 2 * y2 * x3 * y3 ^ 2 - cd * y1 ^ 3 * y2 * x3 ^ 3 * y3 ^ 2 - cd * y1 ^ 3 *
     x2 * x3 ^ 2 * y3 ^ 3 + cd * y1 ^ 3 * x2 * y2 ^ 2 * x3 ^ 2 * y3 + cd * y1 ^ 3 * x2 ^ 2 * y2 * x3
     * y3 ^ 2 + cd * x1 * y2 * x3 ^ 2 * y3 ^ 3 + cd * x1 * x2 * x3 ^ 3 * y3 ^ 2 + cd * x1 * x2 * y2
     ^ 2 * x3 * y3 ^ 2 + cd * x1 * x2 ^ 2 * y2 * x3 ^ 2 * y3 - cd * x1 * y1 ^ 2 * y2 * x3 ^ 2 * y3 ^
     3 - cd * x1 * y1 ^ 2 * x2 * x3 ^ 3 * y3 ^ 2 - cd * x1 * y1 ^ 2 * x2 * y2 ^ 2 * x3 * y3 ^ 2 - cd
     * x1 * y1 ^ 2 * x2 ^ 2 * y2 * x3 ^ 2 * y3 + cd * x1 ^ 2 * y1 * y2 * x3 ^ 3 * y3 ^ 2 + cd * x1 ^
     2 * y1 * x2 * x3 ^ 2 * y3 ^ 3 - cd * x1 ^ 2 * y1 * x2 * y2 ^ 2 * x3 ^ 2 * y3 - cd * x1 ^ 2 * y1
     * x2 ^ 2 * y2 * x3 * y3 ^ 2 + cd * x1 ^ 3 * y2 * x3 ^ 2 * y3 ^ 3 + cd * x1 ^ 3 * x2 * x3 ^ 3 *
     y3 ^ 2 + cd * x1 ^ 3 * x2 * y2 ^ 2 * x3 * y3 ^ 2 + cd * x1 ^ 3 * x2 ^ 2 * y2 * x3 ^ 2 * y3 + cd
     ^ 2 * x1 * y1 ^ 2 * x2 * y2 ^ 2 * x3 ^ 3 * y3 ^ 2 - cd ^ 2 * x1 * y1 ^ 2 * x2 ^ 2 * y2 * x3 ^ 2
     * y3 ^ 3 - cd ^ 2 * x1 ^ 2 * y1 * x2 * y2 ^ 2 * x3 ^ 2 * y3 ^ 3 + cd ^ 2 * x1 ^ 2 * y1 * x2 ^ 2
     * y2 * x3 ^ 3 * y3 ^ 2)
    _ _
    (- y1 * y2 * x3 + y1 * y2 ^ 3 * x3 - y1 * x2 * y3 + y1 * x2 * y2 ^ 2 * y3 - y1 * x2 ^ 2 * y2 *
     x3 - y1 * x2 ^ 3 * y3 + y1 ^ 3 * y2 * x3 - y1 ^ 3 * y2 ^ 3 * x3 + y1 ^ 3 * x2 * y3 - y1 ^ 3 *
     x2 * y2 ^ 2 * y3 + y1 ^ 3 * x2 ^ 2 * y2 * x3 + y1 ^ 3 * x2 ^ 3 * y3 - x1 * y2 * y3 + x1 * y2 ^
     3 * y3 - x1 * x2 * x3 + x1 * x2 * y2 ^ 2 * x3 - x1 * x2 ^ 2 * y2 * y3 - x1 * x2 ^ 3 * x3 + x1 *
     y1 ^ 2 * y2 * y3 - x1 * y1 ^ 2 * y2 ^ 3 * y3 + x1 * y1 ^ 2 * x2 * x3 - x1 * y1 ^ 2 * x2 * y2 ^
     2 * x3 + x1 * y1 ^ 2 * x2 ^ 2 * y2 * y3 + x1 * y1 ^ 2 * x2 ^ 3 * x3 - x1 ^ 2 * y1 * y2 * x3 +
     x1 ^ 2 * y1 * y2 ^ 3 * x3 - x1 ^ 2 * y1 * x2 * y3 + x1 ^ 2 * y1 * x2 * y2 ^ 2 * y3 - x1 ^ 2 *
     y1 * x2 ^ 2 * y2 * x3 - x1 ^ 2 * y1 * x2 ^ 3 * y3 - x1 ^ 3 * y2 * y3 + x1 ^ 3 * y2 ^ 3 * y3 -
     x1 ^ 3 * x2 * x3 + x1 ^ 3 * x2 * y2 ^ 2 * x3 - x1 ^ 3 * x2 ^ 2 * y2 * y3 - x1 ^ 3 * x2 ^ 3 * x3
     - cd * x1 * y1 ^ 2 * x2 * y2 ^ 2 * x3 + cd * x1 * y1 ^ 2 * x2 ^ 2 * y2 * y3 + cd * x1 ^ 2 * y1
     * x2 * y2 ^ 2 * y3 - cd * x1 ^ 2 * y1 * x2 ^ 2 * y2 * x3)
    H1 H2 H3).
  unfold X12, U12, Y12, V12, X23, U23, Y23, V23, num_x, den_x, num_y, den_y. ring.
Qed.

Lemma assoc_y :
  num_y X12 U12 Y12 V12 x3 y3 * den_y X23 U23 Y23 V23 x1 y1
  =p num_y X23 U23 Y23 V23 x1 y1 * den_y X12 U12 Y12 V12 x3 y3.
Proof.
  unfold on_curve in *. apply (eqp_combine3 _ _ _ _
    (cd * y1 * x2 * y2 ^ 4 * x3 * y3 ^ 2 - cd * y1 * x2 ^ 2 * y2 ^ 3 * y3 + cd * y1 * x2 ^ 2 * y2 ^
     3 * y3 ^ 3 - cd * y1 * x2 ^ 3 * y2 ^ 2 * x3 - cd * y1 * x2 ^ 3 * y2 ^ 2 * x3 ^ 3 - cd * y1 * x2
     ^ 4 * y2 * x3 ^ 2 * y3 - cd * x1 * x2 * y2 ^ 4 * x3 ^ 2 * y3 - cd * x1 * x2 ^ 2 * y2 ^ 3 * x3 -
     cd * x1 * x2 ^ 2 * y2 ^ 3 * x3 ^ 3 - cd * x1 * x2 ^ 3 * y2 ^ 2 * y3 + cd * x1 * x2 ^ 3 * y2 ^ 2
     * y3 ^ 3 + cd * x1 * x2 ^ 4 * y2 * x3 * y3 ^ 2 - cd ^ 2 * y1 * x2 ^ 3 * y2 ^ 4 * x3 * y3 ^ 2 -
     cd ^ 2 * y1 * x2 ^ 4 * y2 ^ 3 * x3 ^ 2 * y3 + cd ^ 2 * x1 * x2 ^ 3 * y2 ^ 4 * x3 ^ 2 * y3 + cd
     ^ 2 * x1 * x2 ^ 4 * y2 ^ 3 * x3 * y3 ^ 2)
    _ _
    (y1 * y2 * y3 - y1 * y2 * y3 ^ 3 + y1 * y2 * x3 ^ 2 * y3 + y1 * x2 * x3 - y1 * x2 * x3 * y3 ^ 2
     + y1 * x2 * x3 ^ 3 - y1 ^ 3 * y2 * y3 + y1 ^ 3 * y2 * y3 ^ 3 - y1 ^ 3 * y2 * x3 ^ 2 * y3 - y1 ^
     3 * x2 * x3 + y1 ^ 3 * x2 * x3 * y3 ^ 2 - y1 ^ 3 * x2 * x3 ^ 3 + x1 * y2 * x3 - x1 * y2 * x3 *
     y3 ^ 2 + x1 * y2 * x3 ^ 3 + x1 * x2 * y3 - x1 * x2 * y3 ^ 3 + x1 * x2 * x3 ^ 2 * y3 - x1 * y1 ^
     2 * y2 * x3 + x1 * y1 ^ 2 * y2 * x3 * y3 ^ 2 - x1 * y1 ^ 2 * y2 * x3 ^ 3 - x1 * y1 ^ 2 * x2 *
     y3 + x1 * y1 ^ 2 * x2 * y3 ^ 3 - x1 * y1 ^ 2 * x2 * x3 ^ 2 * y3 + x1 ^ 2 * y1 * y2 * y3 - x1 ^
     2 * y1 * y2 * y3 ^ 3 + x1 ^ 2 * y1 * y2 * x3 ^ 2 * y3 + x1 ^ 2 * y1 * x2 * x3 - x1 ^ 2 * y1 *
     x2 * x3 * y3 ^ 2 + x1 ^ 2 * y1 * x2 * x3 ^ 3 + x1 ^ 3 * y2 * x3 - x1 ^ 3 * y2 * x3 * y3 ^ 2 +
     x1 ^ 3 * y2 * x3 ^ 3 + x1 ^ 3 * x2 * y3 - x1 ^ 3 * x2 * y3 ^ 3 + x1 ^ 3 * x2 * x3 ^ 2 * y3 + cd
     * y1 * y2 * x3 ^ 2 * y3 ^ 3 + cd * y1 * x2 * x3 ^ 3 * y3 ^ 2 + cd * y1 * x2 * y2 ^ 2 * x3 * y3
     ^ 2 + cd * y1 * x2 ^ 2 * y2 * x3 ^ 2 * y3 - cd * y1 ^ 3 * y2 * x3 ^ 2 * y3 ^ 3 - cd * y1 ^ 3 *
     x2 * x3 ^ 3 * y3 ^ 2 - cd * y1 ^ 3 * x2 * y2 ^ 2 * x3 * y3 ^ 2 - cd * y1 ^ 3 * x2 ^ 2 * y2 * x3
     ^ 2 * y3 + cd * x1 * y2 * x3 ^ 3 * y3 ^ 2 + cd * x1 * x2 * x3 ^ 2 * y3 ^ 3 - cd * x1 * x2 * y2
     ^ 2 * x3 ^ 2 * y3 - cd * x1 * x2 ^ 2 * y2 * x3 * y3 ^ 2 - cd * x1 * y1 ^ 2 * y2 * x3 ^ 3 * y3 ^
     2 - cd * x1 * y1 ^ 2 * x2 * x3 ^ 2 * y3 ^ 3 + cd * x1 * y1 ^ 2 * x2 * y2 ^ 2 * x3 ^ 2 * y3 + cd
     * x1 * y1 ^ 2 * x2 ^ 2 * y2 * x3 * y3 ^ 2 + cd * x1 ^ 2 * y1 * y2 * x3 ^ 2 * y3 ^ 3 + cd * x1 ^
     2 * y1 * x2 * x3 ^ 3 * y3 ^ 2 + cd * x1 ^ 2 * y1 * x2 * y2 ^ 2 * x3 * y3 ^ 2 + cd * x1 ^ 2 * y1
     * x2 ^ 2 * y2 * x3 ^ 2 * y3 + cd * x1 ^ 3 * y2 * x3 ^ 3 * y3 ^ 2 + cd * x1 ^ 3 * x2 * x3 ^ 2 *
     y3 ^ 3 - cd * x1 ^ 3 * x2 * y2 ^ 2 * x3 ^ 2 * y3 - cd * x1 ^ 3 * x2 ^ 2 * y2 * x3 * y3 ^ 2 + cd
     ^ 2 * x1 * y1 ^ 2 * x2 * y2 ^ 2 * x3 ^ 2 * y3 ^ 3 - cd ^ 2 * x1 * y1 ^ 2 * x2 ^ 2 * y2 * x3 ^ 3
     * y3 ^ 2 - cd ^ 2 * x1 ^ 2 * y1 * x2 * y2 ^ 2 * x3 ^ 3 * y3 ^ 2 + cd ^ 2 * x1 ^ 2 * y1 * x2 ^ 2
     * y2 * x3 ^ 2 * y3 ^ 3)
    _ _
    (- y1 * y2 * y3 + y1 * y2 ^ 3 * y3 - y1 * x2 * x3 + y1 * x2 * y2 ^ 2 * x3 - y1 * x2 ^ 2 * y2 *
     y3 - y1 * x2 ^ 3 * x3 + y1 ^ 3 * y2 * y3 - y1 ^ 3 * y2 ^ 3 * y3 + y1 ^ 3 * x2 * x3 - y1 ^ 3 *
     x2 * y2 ^ 2 * x3 + y1 ^ 3 * x2 ^ 2 * y2 * y3 + y1 ^ 3 * x2 ^ 3 * x3 - x1 * y2 * x3 + x1 * y2 ^
     3 * x3 - x1 * x2 * y3 + x1 * x2 * y2 ^ 2 * y3 - x1 * x2 ^ 2 * y2 * x3 - x1 * x2 ^ 3 * y3 + x1 *
     y1 ^ 2 * y2 * x3 - x1 * y1 ^ 2 * y2 ^ 3 * x3 + x1 * y1 ^ 2 * x2 * y3 - x1 * y1 ^ 2 * x2 * y2 ^
     2 * y3 + x1 * y1 ^ 2 * x2 ^ 2 * y2 * x3 + x1 * y1 ^ 2 * x2 ^ 3 * y3 - x1 ^ 2 * y1 * y2 * y3 +
     x1 ^ 2 * y1 * y2 ^ 3 * y3 - x1 ^ 2 * y1 * x2 * x3 + x1 ^ 2 * y1 * x2 * y2 ^ 2 * x3 - x1 ^ 2 *
     y1 * x2 ^ 2 * y2 * y3 - x1 ^ 2 * y1 * x2 ^ 3 * x3 - x1 ^ 3 * y2 * x3 + x1 ^ 3 * y2 ^ 3 * x3 -
     x1 ^ 3 * x2 * y3 + x1 ^ 3 * x2 * y2 ^ 2 * y3 - x1 ^ 3 * x2 ^ 2 * y2 * x3 - x1 ^ 3 * x2 ^ 3 * y3
     - cd * x1 * y1 ^ 2 * x2 * y2 ^ 2 * y3 + cd * x1 * y1 ^ 2 * x2 ^ 2 * y2 * x3 + cd * x1 ^ 2 * y1
     * x2 * y2 ^ 2 * x3 - cd * x1 ^ 2 * y1 * x2 ^ 2 * y2 * y3)
    H1 H2 H3).
  unfold X12, U12, Y12, V12, X23, U23, Y23, V23, num_x, den_x, num_y, den_y. ring.
Qed.
End Assoc.

(** The sum of fractions. *)
Lemma add_frac x y X U Y V x' y' :
  on_curve x y -> on_curve x' y' -> ~ U =p 0 -> ~ V =p 0 -> x * U =p X -> y * V =p Y ->
  (add_x x y x' y' * den_x X U Y V x' y' =p num_x X U Y V x' y' /\ ~ den_x X U Y V x' y' =p 0) /\
  (add_y x y x' y' * den_y X U Y V x' y' =p num_y X U Y V x' y' /\ ~ den_y X U Y V x' y' =p 0).
Proof.
  intros H H' HU HV HX HY. pose proof (padd_complete x y x' y' 1 H H' eq_refl) as Hp.
  pose proof (padd_complete x y x' y' (- 1) H H' eq_refl) as Hm.
  replace (1 + 1 * cross x y x' y') with (1 + cross x y x' y') in Hp by ring.
  replace (1 + - 1 * cross x y x' y') with (1 - cross x y x' y') in Hm by ring.
  assert (E1 : add_x x y x' y' * (1 + cross x y x' y') =p x * y' + y * x') by (apply eqp_div; done).
  assert (E2 : add_y x y x' y' * (1 - cross x y x' y') =p y * y' + x * x') by (apply eqp_div; done).
  assert (Ex : den_x X U Y V x' y' =p U * V * (1 + cross x y x' y')).
  { unfold den_x, cross. rewrite <- HX, <- HY. apply (eqp_diff _ _ 0). ring. }
  assert (Ey : den_y X U Y V x' y' =p U * V * (1 - cross x y x' y')).
  { unfold den_y, cross. rewrite <- HX, <- HY. apply (eqp_diff _ _ 0). ring. }
  rewrite Ex, Ey. unfold num_x, num_y. rewrite <- HX, <- HY.
  split; (split; [|by repeat apply eqp_nonzero_mul]).
  - transitivity (U * V * (add_x x y x' y' * (1 + cross x y x' y'))); [apply (eqp_diff _ _ 0); ring|].
    rewrite E1. apply (eqp_diff _ _ 0). ring.
  - transitivity (U * V * (add_y x y x' y' * (1 - cross x y x' y'))); [apply (eqp_diff _ _ 0); ring|].
    rewrite E2. apply (eqp_diff _ _ 0). ring.
Qed.

(** ** The group *)

Definition point : Type := Z * Z.
Definition peq (P Q : point) : Prop := P.1 =p Q.1 /\ P.2 =p Q.2.
Notation "P == Q" := (peq P Q) (at level 70) : Z_scope.
Definition curve (P : point) : Prop := on_curve P.1 P.2.
Definition padd (P Q : point) : point := (add_x P.1 P.2 Q.1 Q.2, add_y P.1 P.2 Q.1 Q.2).
Definition pneg (P : point) : point := (- P.1, P.2).
Definition pzero : point := (0, 1).

#[export] Instance peq_equiv : Equivalence peq.
Proof.
  split; red; unfold peq; [done | intros P Q [-> ->]; done | intros P Q R [-> ->] [-> ->]; done].
Qed.
#[export] Instance curve_proper : Proper (peq ==> iff) curve.
Proof. intros P Q [Hx Hy]. unfold curve. rewrite Hx, Hy. done. Qed.
#[export] Instance padd_proper : Proper (peq ==> peq ==> peq) padd.
Proof. intros P P' [Hx Hy] Q Q' [Hx' Hy']. unfold padd. split; cbn [fst snd]; rewrite Hx, Hy, Hx', Hy'; done. Qed.
#[export] Instance pneg_proper : Proper (peq ==> peq) pneg.
Proof. intros P P' [Hx Hy]. unfold pneg. split; cbn [fst snd]; [rewrite Hx; done | done]. Qed.

Lemma curve_padd P Q : curve P -> curve Q -> curve (padd P Q).
Proof. apply add_on_curve. Qed.
Lemma curve_pneg P : curve P -> curve (pneg P).
Proof.
  unfold curve, on_curve, pneg. cbn [fst snd]. intros H.
  apply (eqp_combine2 _ _ _ _ 1 0 0 0 H); [done | ring].
Qed.
Lemma curve_pzero : curve pzero.
Proof. unfold curve, on_curve. cbn [fst snd pzero]. apply (eqp_diff _ _ 0). ring. Qed.
#[export] Hint Resolve curve_padd curve_pneg curve_pzero : curve.

Lemma padd_comm P Q : padd P Q == padd Q P.
Proof.
  unfold padd, add_x, add_y. split; cbn [fst snd];
    replace (cross Q.1 Q.2 P.1 P.2) with (cross P.1 P.2 Q.1 Q.2) by (unfold cross; ring);
    apply (eqp_diff _ _ 0); ring.
Qed.

Lemma inv_1 : inv 1 =p 1.
Proof. unfold inv. rewrite Z.pow_1_l by (unfold p; lia). done. Qed.

Lemma padd_0_l P : padd pzero P == P.
Proof.
  unfold padd, add_x, add_y, pzero, cross. split; cbn [fst snd].
  - replace (1 + cd * 0 * P.1 * 1 * P.2) with 1 by ring. rewrite inv_1. apply (eqp_diff _ _ 0). ring.
  - replace (1 - cd * 0 * P.1 * 1 * P.2) with 1 by ring. rewrite inv_1. apply (eqp_diff _ _ 0). ring.
Qed.

Lemma padd_neg_l P : curve P -> padd (pneg P) P == pzero.
Proof.
  intros H. pose proof (padd_complete _ _ _ _ (- 1) (curve_pneg P H) H eq_refl) as Hm.
  unfold padd, add_x, add_y, pneg, pzero in *. split; cbn [fst snd] in *.
  - replace (- P.1 * P.2 + P.2 * P.1) with 0 by ring. rewrite Z.mul_0_l. done.
  - symmetry. apply eqp_div.
    { replace (1 - cross (- P.1) P.2 P.1 P.2) with (1 + - 1 * cross (- P.1) P.2 P.1 P.2) by ring. exact Hm. }
    unfold curve, on_curve in H. unfold cross. symmetry.
    apply (eqp_combine2 _ _ _ _ 1 0 0 0 H); [done | ring].
Qed.

Lemma padd_assoc P Q R : curve P -> curve Q -> curve R -> padd (padd P Q) R == padd P (padd Q R).
Proof.
  intros HP HQ HR. rewrite (padd_comm P (padd Q R)).
  assert (F : forall a b c, curve a -> curve b -> curve c ->
    (add_x (padd a b).1 (padd a b).2 c.1 c.2 * den_x (num_x a.1 1 a.2 1 b.1 b.2) (den_x a.1 1 a.2 1 b.1 b.2)
        (num_y a.1 1 a.2 1 b.1 b.2) (den_y a.1 1 a.2 1 b.1 b.2) c.1 c.2
      =p num_x (num_x a.1 1 a.2 1 b.1 b.2) (den_x a.1 1 a.2 1 b.1 b.2)
        (num_y a.1 1 a.2 1 b.1 b.2) (den_y a.1 1 a.2 1 b.1 b.2) c.1 c.2 /\
     ~ den_x (num_x a.1 1 a.2 1 b.1 b.2) (den_x a.1 1 a.2 1 b.1 b.2)
        (num_y a.1 1 a.2 1 b.1 b.2) (den_y a.1 1 a.2 1 b.1 b.2) c.1 c.2 =p 0) /\
    (add_y (padd a b).1 (padd a b).2 c.1 c.2 * den_y (num_x a.1 1 a.2 1 b.1 b.2) (den_x a.1 1 a.2 1 b.1 b.2)
        (num_y a.1 1 a.2 1 b.1 b.2) (den_y a.1 1 a.2 1 b.1 b.2) c.1 c.2
      =p num_y (num_x a.1 1 a.2 1 b.1 b.2) (den_x a.1 1 a.2 1 b.1 b.2)
        (num_y a.1 1 a.2 1 b.1 b.2) (den_y a.1 1 a.2 1 b.1 b.2) c.1 c.2 /\
     ~ den_y (num_x a.1 1 a.2 1 b.1 b.2) (den_x a.1 1 a.2 1 b.1 b.2)
        (num_y a.1 1 a.2 1 b.1 b.2) (den_y a.1 1 a.2 1 b.1 b.2) c.1 c.2 =p 0)).
  { intros a b c Ha Hb Hc.
    destruct (add_frac a.1 a.2 a.1 1 a.2 1 b.1 b.2 Ha Hb eqp_0_1 eqp_0_1) as [[Ex Nx] [Ey Ny]];
      [rewrite Z.mul_1_r; done .. |].
    apply add_frac; auto. by apply curve_padd. }
  destruct (F P Q R HP HQ HR) as [[Ex Nx] [Ey Ny]], (F Q R P HQ HR HP) as [[Ex' Nx'] [Ey' Ny']]. clear F.
  pose proof (assoc_x P.1 P.2 Q.1 Q.2 R.1 R.2 HP HQ HR) as Ax.
  pose proof (assoc_y P.1 P.2 Q.1 Q.2 R.1 R.2 HP HQ HR) as Ay.
  assert (Cancel : forall x n m x' n' m', ~ m =p 0 -> ~ m' =p 0 -> x * m =p n -> x' * m' =p n' ->
    n * m' =p n' * m -> x =p x').
  { clear. intros x n m x' n' m' Hm Hm' E E' C. apply (eqp_cancel (m * m')); [by apply eqp_nonzero_mul|].
    replace (m * m' * x) with (x * m * m') by ring. replace (m * m' * x') with (x' * m' * m) by ring.
    rewrite E, E'. done. }
  split; [apply (Cancel _ _ _ _ _ _ Nx Nx' Ex Ex' Ax) | apply (Cancel _ _ _ _ _ _ Ny Ny' Ey Ey' Ay)].
Qed.

Lemma padd_0_r P : padd P pzero == P.
Proof. rewrite padd_comm. apply padd_0_l. Qed.
Lemma padd_neg_r P : curve P -> padd P (pneg P) == pzero.
Proof. intros H. rewrite padd_comm. by apply padd_neg_l. Qed.

Lemma pneg_padd P Q : pneg (padd P Q) == padd (pneg P) (pneg Q).
Proof.
  unfold padd, pneg, add_x, add_y. split; cbn [fst snd];
    replace (cross (- P.1) P.2 (- Q.1) Q.2) with (cross P.1 P.2 Q.1 Q.2) by (unfold cross; ring);
    apply (eqp_diff _ _ 0); ring.
Qed.

Lemma padd_cancel P Q R : curve P -> curve Q -> curve R -> padd P Q == padd P R -> Q == R.
Proof.
  intros HP HQ HR H. rewrite <- (padd_0_l Q), <- (padd_0_l R), <- (padd_neg_l P HP).
  rewrite !padd_assoc by auto with curve. rewrite H. done.
Qed.

(** ** Multiples *)

Fixpoint nmul (n : nat) (P : point) : point :=
  match n with O => pzero | S n => padd P (nmul n P) end.
Definition zmul (k : Z) (P : point) : point :=
  if k <? 0 then pneg (nmul (Z.to_nat (- k)) P) else nmul (Z.to_nat k) P.

Lemma curve_nmul n P : curve P -> curve (nmul n P).
Proof. intros H. induction n; simpl; auto with curve. Qed.
Lemma curve_zmul k P : curve P -> curve (zmul k P).
Proof. intros H. unfold zmul. case_match; [apply curve_pneg|]; by apply curve_nmul. Qed.
#[export] Hint Resolve curve_nmul curve_zmul : curve.
#[export] Instance nmul_proper n : Proper (peq ==> peq) (nmul n).
Proof. intros P Q H. induction n as [|n IH]; simpl; [done|]. rewrite H at 1. rewrite IH. done. Qed.
#[export] Instance zmul_proper k : Proper (peq ==> peq) (zmul k).
Proof. intros P Q H. unfold zmul. case_match; rewrite H; done. Qed.

Lemma zmul_0 P : zmul 0 P = pzero.
Proof. done. Qed.

Lemma zmul_succ k P : curve P -> zmul (Z.succ k) P == padd P (zmul k P).
Proof.
  intros H. destruct (Z.lt_ge_cases k 0) as [Hk|Hk].
  - unfold zmul at 2. rewrite (proj2 (Z.ltb_lt k 0)) by done.
    replace (Z.to_nat (- k)) with (S (Z.to_nat (- Z.succ k))) by lia. cbn [nmul].
    rewrite pneg_padd, <- padd_assoc, padd_neg_r, padd_0_l by auto with curve.
    unfold zmul. destruct (Z.ltb_spec (Z.succ k) 0) as [Hs|Hs]; [done|].
    replace (Z.succ k) with 0 by lia. unfold pneg, pzero. split; cbn; done.
  - unfold zmul. rewrite (proj2 (Z.ltb_ge (Z.succ k) 0)), (proj2 (Z.ltb_ge k 0)) by lia.
    rewrite Z2Nat.inj_succ by done. done.
Qed.

Lemma zmul_pred k P : curve P -> zmul (Z.pred k) P == padd (pneg P) (zmul k P).
Proof.
  intros H. rewrite <- (Z.succ_pred k) at 2. rewrite zmul_succ by done.
  rewrite <- padd_assoc, padd_neg_l, padd_0_l by auto with curve. done.
Qed.

Lemma zmul_add a b P : curve P -> zmul (a + b) P == padd (zmul a P) (zmul b P).
Proof.
  intros H. pattern a. apply Z.peano_ind; clear a.
  - rewrite zmul_0, padd_0_l. done.
  - intros a IH. rewrite Z.add_succ_l, !zmul_succ, IH, padd_assoc by auto with curve. done.
  - intros a IH. rewrite Z.add_pred_l, !zmul_pred, IH, padd_assoc by auto with curve. done.
Qed.

Lemma zmul_1 P : zmul 1 P == P.
Proof. unfold zmul. simpl. apply padd_0_r. Qed.
Lemma zmul_opp k P : curve P -> zmul (- k) P == pneg (zmul k P).
Proof.
  intros H. apply (padd_cancel (zmul k P)); auto with curve.
  rewrite <- zmul_add, padd_neg_r by auto with curve. rewrite Z.add_opp_diag_r, zmul_0. done.
Qed.
Lemma zmul_mul a b P : curve P -> zmul (a * b) P == zmul a (zmul b P).
Proof.
  intros H. pattern a. apply Z.peano_ind; clear a.
  - done.
  - intros a IH. rewrite Z.mul_succ_l, Z.add_comm, zmul_add, zmul_succ, IH by auto with curve. done.
  - intros a IH. rewrite Z.mul_pred_l, zmul_pred by auto with curve.
    rewrite <- Z.add_opp_r, Z.add_comm, zmul_add, zmul_opp, IH by auto with curve. done.
Qed.
Lemma zmul_double k P : curve P -> zmul (2 * k) P == padd (zmul k P) (zmul k P).
Proof. intros H. rewrite <- zmul_add by done. f_equiv. replace (2 * k) with (k + k) by ring. done. Qed.
