(* ===== verification/Group.v ===== *)
(** * Group elements of edwards25519

    [src/crypto/ed25519/internal/edwards25519/group.go]: the four representations of a point,
    the additions and doublings that lead from one to another, and the encoding of a point in
    32 bytes, over any representation of the field elements and its constants ([ConstantLaws]).
    An element represents an affine point ([projective], [extended], [completed], [precomputed],
    [cached]) with limbs of a known size, so that the operations can be chained without a
    reduction; each operation is the addition law of [Curve.v]. *)

From Stdlib Require Import Setoid Morphisms.
From S2P Require Import Prelude Prime Word Modp Fe Const FieldRep Field Curve.
#[local] Open Scope Z_scope.

Section Operations.
Context {F : FieldElements} {C : Constants F}.

Record ProjectiveGroupElement := mkProj { pX : FieldElement; pY : FieldElement; pZ : FieldElement }.
Record ExtendedGroupElement := mkExt { eX : FieldElement; eY : FieldElement; eZ : FieldElement; eT : FieldElement }.
Record CompletedGroupElement := mkComp { cX : FieldElement; cY : FieldElement; cZ : FieldElement; cT : FieldElement }.
Record CachedGroupElement := mkCached { cyPlusX : FieldElement; cyMinusX : FieldElement; caZ : FieldElement; T2d : FieldElement }.

Definition Projective_Zero : ProjectiveGroupElement := mkProj FeZero FeOne FeOne.
Definition Extended_Zero : ExtendedGroupElement := mkExt FeZero FeOne FeOne FeZero.
Definition PreComputed_Zero : PreComputedGroupElement := mkPre FeOne FeOne FeZero.

Definition Projective_Double (p : ProjectiveGroupElement) : CompletedGroupElement :=
  let '(mkProj X Y Z) := p in
  let rX := FeSquare X in
  let rZ := FeSquare Y in
  let rT := FeSquare2 Z in
  let rY := FeAdd X Y in
  let t0 := FeSquare rY in
  let rY := FeAdd rZ rX in
  let rZ := FeSub rZ rX in
  let rX := FeSub t0 rY in
  let rT := FeSub rT rZ in
  mkComp rX rY rZ rT.

(** [s[31] ^= FeIsNegative(&x) << 7]; [x] and [y], which [FeToBytes] may normalise, are locals. *)
Definition set_sign (s : bytes) (b : Z) : bytes :=
  <[31%nat := z2b (Z.lxor (ith s 31) (u8 (Z.shiftl b 7)))]> s.

Definition Projective_ToBytes (p : ProjectiveGroupElement) : bytes :=
  let '(mkProj X Y Z) := p in
  let recip := FeInvert Z in
  let x := FeMul X recip in
  let y := FeMul Y recip in
  set_sign (FeToBytes y).1 (FeIsNegative x).1.

Definition Extended_ToProjective (p : ExtendedGroupElement) : ProjectiveGroupElement :=
  mkProj (FeCopy (eX p)) (FeCopy (eY p)) (FeCopy (eZ p)).

Definition Extended_Double (p : ExtendedGroupElement) : CompletedGroupElement :=
  Projective_Double (Extended_ToProjective p).

Definition Extended_ToCached (p : ExtendedGroupElement) : CachedGroupElement :=
  let '(mkExt X Y Z T) := p in
  let yPlusX := FeAdd Y X in
  let yMinusX := FeSub Y X in
  let rZ := FeCopy Z in
  let rT2d := FeMul T d2 in
  mkCached yPlusX yMinusX rZ rT2d.

Definition Extended_ToBytes (p : ExtendedGroupElement) : bytes :=
  let '(mkExt X Y Z T) := p in
  let recip := FeInvert Z in
  let x := FeMul X recip in
  let y := FeMul Y recip in
  set_sign (FeToBytes y).1 (FeIsNegative x).1.

Definition Completed_ToProjective (p : CompletedGroupElement) : ProjectiveGroupElement :=
  let '(mkComp X Y Z T) := p in
  let rX := FeMul X T in
  let rY := FeMul Y Z in
  let rZ := FeMul Z T in
  mkProj rX rY rZ.

Definition Completed_ToExtended (p : CompletedGroupElement) : ExtendedGroupElement :=
  let '(mkComp X Y Z T) := p in
  let rX := FeMul X T in
  let rY := FeMul Y Z in
  let rZ := FeMul Z T in
  let rT := FeMul X Y in
  mkExt rX rY rZ rT.

Definition geAdd (p : ExtendedGroupElement) (q : CachedGroupElement) : CompletedGroupElement :=
  let '(mkExt X Y Z T) := p in
  let '(mkCached qP qM qZ qT) := q in
  let rX := FeAdd Y X in
  let rY := FeSub Y X in
  let rZ := FeMul rX qP in
  let rY := FeMul rY qM in
  let rT := FeMul qT T in
  let rX := FeMul Z qZ in
  let t0 := FeAdd rX rX in
  let rX := FeSub rZ rY in
  let rY := FeAdd rZ rY in
  let rZ := FeAdd t0 rT in
  let rT := FeSub t0 rT in
  mkComp rX rY rZ rT.

Definition geSub (p : ExtendedGroupElement) (q : CachedGroupElement) : CompletedGroupElement :=
  let '(mkExt X Y Z T) := p in
  let '(mkCached qP qM qZ qT) := q in
  let rX := FeAdd Y X in
  let rY := FeSub Y X in
  let rZ := FeMul rX qM in
  let rY := FeMul rY qP in
  let rT := FeMul qT T in
  let rX := FeMul Z qZ in
  let t0 := FeAdd rX rX in
  let rX := FeSub rZ rY in
  let rY := FeAdd rZ rY in
  let rZ := FeSub t0 rT in
  let rT := FeAdd t0 rT in
  mkComp rX rY rZ rT.

Definition geMixedAdd (p : ExtendedGroupElement) (q : PreComputedGroupElement) : CompletedGroupElement :=
  let '(mkExt X Y Z T) := p in
  let '(mkPre qP qM qT) := q in
  let rX := FeAdd Y X in
  let rY := FeSub Y X in
  let rZ := FeMul rX qP in
  let rY := FeMul rY qM in
  let rT := FeMul qT T in
  let t0 := FeAdd Z Z in
  let rX := FeSub rZ rY in
  let rY := FeAdd rZ rY in
  let rZ := FeAdd t0 rT in
  let rT := FeSub t0 rT in
  mkComp rX rY rZ rT.

Definition geMixedSub (p : ExtendedGroupElement) (q : PreComputedGroupElement) : CompletedGroupElement :=
  let '(mkExt X Y Z T) := p in
  let '(mkPre qP qM qT) := q in
  let rX := FeAdd Y X in
  let rY := FeSub Y X in
  let rZ := FeMul rX qM in
  let rY := FeMul rY qP in
  let rT := FeMul qT T in
  let t0 := FeAdd Z Z in
  let rX := FeSub rZ rY in
  let rY := FeAdd rZ rY in
  let rZ := FeSub t0 rT in
  let rT := FeAdd t0 rT in
  mkComp rX rY rZ rT.

End Operations.
Arguments mkProj {F} _ _ _.
Arguments mkExt {F} _ _ _ _.
Arguments mkComp {F} _ _ _ _.
Arguments mkCached {F} _ _ _ _.

(** The constants of a representation are those of the curve. *)
Class ConstantLaws {F : FieldElements} (L : FieldLaws F) (C : Constants F) := {
  d_law : tight d /\ val d =p cd;
  d2_law : tight d2 /\ val d2 =p 2 * cd;
  SqrtM1_law : tight SqrtM1 /\ val SqrtM1 =p ci;
}.

(** ** What an element represents *)

Section Elements.
Context {F : FieldElements} {L : FieldLaws F}.

(** Limbs are tight, except the x of a decoded point, which [FeToBytes] has normalised
    ([size 2]). *)
Definition projective_within (k : Z) (r : ProjectiveGroupElement) (P : point) : Prop :=
  let '(mkProj X Y Z) := r in
  (size k X /\ tight Y /\ tight Z) /\
  ~ val Z =p 0 /\ val X =p P.1 * val Z /\ val Y =p P.2 * val Z.
Definition extended_within (k : Z) (r : ExtendedGroupElement) (P : point) : Prop :=
  let '(mkExt X Y Z T) := r in
  (size k X /\ tight Y /\ tight Z /\ tight T) /\
  ~ val Z =p 0 /\ val X =p P.1 * val Z /\ val Y =p P.2 * val Z /\ val T =p P.1 * P.2 * val Z.
Definition projective : ProjectiveGroupElement -> point -> Prop := projective_within 1.
Definition extended : ExtendedGroupElement -> point -> Prop := extended_within 1.
Definition completed (r : CompletedGroupElement) (P : point) : Prop :=
  let '(mkComp X Y Z T) := r in
  (loose X /\ loose Y /\ loose Z /\ loose T) /\
  (~ val Z =p 0 /\ ~ val T =p 0) /\ val X =p P.1 * val Z /\ val Y =p P.2 * val T.
Definition precomputed (r : PreComputedGroupElement) (P : point) : Prop :=
  let '(mkPre yP yM xy) := r in
  (tight yP /\ tight yM /\ tight xy) /\
  val yP =p P.2 + P.1 /\ val yM =p P.2 - P.1 /\ val xy =p 2 * cd * P.1 * P.2.
Definition cached (r : CachedGroupElement) (P : point) : Prop :=
  let '(mkCached yP yM Z T) := r in
  (loose yP /\ loose yM /\ tight Z /\ tight T) /\
  ~ val Z =p 0 /\ val yP =p (P.2 + P.1) * val Z /\ val yM =p (P.2 - P.1) * val Z /\
  val T =p 2 * cd * P.1 * P.2 * val Z.

#[export] Instance extended_within_proper k r : Proper (peq ==> iff) (extended_within k r).
Proof. destruct r. intros P Q [Hx Hy]. unfold extended_within. rewrite Hx, Hy. done. Qed.
#[export] Instance projective_within_proper k r : Proper (peq ==> iff) (projective_within k r).
Proof. destruct r. intros P Q [Hx Hy]. unfold projective_within. rewrite Hx, Hy. done. Qed.
#[export] Instance extended_proper r : Proper (peq ==> iff) (extended r).
Proof. apply extended_within_proper. Qed.
#[export] Instance projective_proper r : Proper (peq ==> iff) (projective r).
Proof. apply projective_within_proper. Qed.
#[export] Instance completed_proper r : Proper (peq ==> iff) (completed r).
Proof. destruct r. intros P Q [Hx Hy]. unfold completed. rewrite Hx, Hy. done. Qed.
#[export] Instance precomputed_proper r : Proper (peq ==> iff) (precomputed r).
Proof. destruct r. intros P Q [Hx Hy]. unfold precomputed. rewrite Hx, Hy. done. Qed.
#[export] Instance cached_proper r : Proper (peq ==> iff) (cached r).
Proof. destruct r. intros P Q [Hx Hy]. unfold cached. rewrite Hx, Hy. done. Qed.

Lemma extended_within_mono j k r P : j <= k -> extended_within j r P -> extended_within k r P.
Proof.
  destruct r as [X Y Z T]. intros Hjk ((HX & Ht) & Hv). split; [|exact Hv]. split; [|exact Ht].
  by apply (size_mono j).
Qed.
Lemma extended_2 r P : extended r P -> extended_within 2 r P.
Proof. by apply extended_within_mono. Qed.
Lemma projective_2 r P : projective r P -> projective_within 2 r P.
Proof.
  destruct r as [X Y Z]. intros ((HX & Ht) & Hv). split; [|exact Hv]. split; [|exact Ht].
  by apply (size_mono 1).
Qed.

End Elements.

(** Close [val t =p expression] from the recorded values of the operations. *)
Ltac values :=
  repeat match goal with
         | H : val ?t = _ |- context [val ?t] => rewrite H
         | H : val ?t =p _ |- context [val ?t] => rewrite H
         end.
Ltac value := values; unfold cross; cbn [fst snd]; apply (eqp_diff _ _ 0); ring.

Ltac constant := repeat split; try (vm_compute; first [reflexivity | congruence]).

(** ** The additions *)

Section Specifications.
Context {F : FieldElements} {L : FieldLaws F} {C : Constants F} {CL : ConstantLaws L C}.

(** The fractions a sum is left as: numerators over [k (1 + cross)] and [k (1 - cross)]. *)
Lemma sum_fractions X Y Z T k P Q :
  curve P -> curve Q -> ~ k =p 0 ->
  X =p k * (P.1 * Q.2 + P.2 * Q.1) -> Z =p k * (1 + cross P.1 P.2 Q.1 Q.2) ->
  Y =p k * (P.2 * Q.2 + P.1 * Q.1) -> T =p k * (1 - cross P.1 P.2 Q.1 Q.2) ->
  (~ Z =p 0 /\ ~ T =p 0) /\ X =p (padd P Q).1 * Z /\ Y =p (padd P Q).2 * T.
Proof.
  intros HP HQ Hk HX HZ HY HT.
  pose proof (padd_complete _ _ _ _ 1 HP HQ eq_refl) as Hp.
  pose proof (padd_complete _ _ _ _ (- 1) HP HQ eq_refl) as Hm.
  replace (1 + 1 * cross P.1 P.2 Q.1 Q.2) with (1 + cross P.1 P.2 Q.1 Q.2) in Hp by ring.
  replace (1 + - 1 * cross P.1 P.2 Q.1 Q.2) with (1 - cross P.1 P.2 Q.1 Q.2) in Hm by ring.
  assert (E1 : add_x P.1 P.2 Q.1 Q.2 * (1 + cross P.1 P.2 Q.1 Q.2) =p P.1 * Q.2 + P.2 * Q.1)
    by (apply eqp_div; done).
  assert (E2 : add_y P.1 P.2 Q.1 Q.2 * (1 - cross P.1 P.2 Q.1 Q.2) =p P.2 * Q.2 + P.1 * Q.1)
    by (apply eqp_div; done).
  rewrite HX, HZ, HY, HT. unfold padd. cbn [fst snd].
  split; [split; by apply eqp_nonzero_mul|]. split.
  - rewrite <- E1. apply (eqp_diff _ _ 0). ring.
  - rewrite <- E2. apply (eqp_diff _ _ 0). ring.
Qed.

Lemma completed_sum X Y Z T k P Q :
  loose X /\ loose Y /\ loose Z /\ loose T -> curve P -> curve Q -> ~ k =p 0 ->
  val X =p k * (P.1 * Q.2 + P.2 * Q.1) -> val Z =p k * (1 + cross P.1 P.2 Q.1 Q.2) ->
  val Y =p k * (P.2 * Q.2 + P.1 * Q.1) -> val T =p k * (1 - cross P.1 P.2 Q.1 Q.2) ->
  completed (mkComp X Y Z T) (padd P Q).
Proof. intros. split; [done | by eapply sum_fractions]. Qed.

(** On the curve the denominators of a doubling have no product of four coordinates. *)
Lemma double_cross P : curve P -> P.2 * P.2 - P.1 * P.1 =p 1 + cross P.1 P.2 P.1 P.2.
Proof. unfold curve, on_curve. intros HP. rewrite HP. apply (eqp_diff _ _ 0). unfold cross. ring. Qed.

Lemma two_nonzero : ~ 2 =p 0.
Proof. rewrite eqp_iff. vm_compute. congruence. Qed.

Lemma geAdd_spec p q P Q :
  extended p P -> cached q Q -> curve P -> curve Q -> completed (geAdd p q) (padd P Q).
Proof.
  destruct p as [X Y Z T], q as [qP qM qZ qT].
  intros ((HX & HY & HZ & HT) & NZ & EX & EY & ET) ((HqP & HqM & HqZ & HqT) & NqZ & EqP & EqM & EqT) HP HQ.
  unfold tight, loose in *.
  cbv delta [geAdd] beta iota. fe_ops.
  apply (completed_sum _ _ _ _ (2 * (val Z * val qZ))); [sizes | done | done | | value..].
  apply eqp_nonzero_mul; [apply two_nonzero | by apply eqp_nonzero_mul].
Qed.

Lemma geSub_spec p q P Q :
  extended p P -> cached q Q -> curve P -> curve Q -> completed (geSub p q) (padd P (pneg Q)).
Proof.
  destruct p as [X Y Z T], q as [qP qM qZ qT].
  intros ((HX & HY & HZ & HT) & NZ & EX & EY & ET) ((HqP & HqM & HqZ & HqT) & NqZ & EqP & EqM & EqT) HP HQ.
  unfold tight, loose in *.
  cbv delta [geSub] beta iota. fe_ops.
  apply (completed_sum _ _ _ _ (2 * (val Z * val qZ)));
    [sizes | done | by apply curve_pneg | | unfold pneg; value..].
  apply eqp_nonzero_mul; [apply two_nonzero | by apply eqp_nonzero_mul].
Qed.

Lemma geMixedAdd_spec p q P Q :
  extended p P -> precomputed q Q -> curve P -> curve Q -> completed (geMixedAdd p q) (padd P Q).
Proof.
  destruct p as [X Y Z T], q as [qP qM qT].
  intros ((HX & HY & HZ & HT) & NZ & EX & EY & ET) ((HqP & HqM & HqT) & EqP & EqM & EqT) HP HQ.
  unfold tight, loose in *.
  cbv delta [geMixedAdd] beta iota. fe_ops.
  apply (completed_sum _ _ _ _ (2 * val Z)); [sizes | done | done | | value..].
  apply eqp_nonzero_mul; [apply two_nonzero | done].
Qed.

Lemma geMixedSub_spec p q P Q :
  extended p P -> precomputed q Q -> curve P -> curve Q -> completed (geMixedSub p q) (padd P (pneg Q)).
Proof.
  destruct p as [X Y Z T], q as [qP qM qT].
  intros ((HX & HY & HZ & HT) & NZ & EX & EY & ET) ((HqP & HqM & HqT) & EqP & EqM & EqT) HP HQ.
  unfold tight, loose in *.
  cbv delta [geMixedSub] beta iota. fe_ops.
  apply (completed_sum _ _ _ _ (2 * val Z)); [sizes | done | by apply curve_pneg | | unfold pneg; value..].
  apply eqp_nonzero_mul; [apply two_nonzero | done].
Qed.

Lemma Projective_Double_within p P :
  projective_within 2 p P -> curve P -> completed (Projective_Double p) (padd P P).
Proof.
  destruct p as [X Y Z]. intros ((HX & HY & HZ) & NZ & EX & EY) HP.
  unfold tight, loose in *.
  cbv delta [Projective_Double] beta iota. fe_ops.
  pose proof (double_cross P HP) as EE.
  apply (completed_sum _ _ _ _ (val Z * val Z)); [sizes | done | done | by apply eqp_nonzero_mul | ..].
  - value.
  - rewrite <- EE. value.
  - value.
  - replace (1 - cross P.1 P.2 P.1 P.2) with (2 - (1 + cross P.1 P.2 P.1 P.2)) by ring.
    rewrite <- EE. value.
Qed.

Lemma Projective_Double_spec p P :
  projective p P -> curve P -> completed (Projective_Double p) (padd P P).
Proof. intros H. by apply Projective_Double_within, projective_2. Qed.

(** ** The conversions *)

Lemma Extended_ToProjective_within k p P :
  extended_within k p P -> projective_within k (Extended_ToProjective p) P.
Proof. destruct p as [X Y Z T]. intros ((HX & HY & HZ & HT) & NZ & EX & EY & ET). done. Qed.
Lemma Extended_ToProjective_spec p P : extended p P -> projective (Extended_ToProjective p) P.
Proof. apply Extended_ToProjective_within. Qed.

Lemma Extended_Double_within p P :
  extended_within 2 p P -> curve P -> completed (Extended_Double p) (padd P P).
Proof. intros H. apply Projective_Double_within. by apply Extended_ToProjective_within. Qed.
Lemma Extended_Double_spec p P :
  extended p P -> curve P -> completed (Extended_Double p) (padd P P).
Proof. intros H. by apply Extended_Double_within, extended_2. Qed.

Lemma Extended_ToCached_within p P : extended_within 2 p P -> cached (Extended_ToCached p) P.
Proof.
  destruct p as [X Y Z T]. intros ((HX & HY & HZ & HT) & NZ & EX & EY & ET).
  pose proof (FeAdd_law _ _ Y X HY HX ltac:(lia) ltac:(lia) ltac:(lia)) as [H1 E1].
  pose proof (FeSub_law _ _ Y X HY HX ltac:(lia) ltac:(lia) ltac:(lia)) as [H2 E2].
  destruct d2_law as [Hd Ed].
  destruct (FeMul_law T d2 (tight_loose _ HT) (tight_loose _ Hd)) as [H3 E3].
  unfold Extended_ToCached, cached, FeCopy. split; [|split; [done|]].
  - split_and!; try done; by eapply size_loose.
  - split_and!; [value | value | rewrite E3, Ed; value].
Qed.
Lemma Extended_ToCached_spec p P : extended p P -> cached (Extended_ToCached p) P.
Proof. intros H. by apply Extended_ToCached_within, extended_2. Qed.

Lemma Completed_ToProjective_spec p P : completed p P -> projective (Completed_ToProjective p) P.
Proof.
  destruct p as [X Y Z T]. intros ((HX & HY & HZ & HT) & (NZ & NT) & EX & EY).
  unfold loose, tight in *. cbv delta [Completed_ToProjective] beta iota. fe_ops.
  split; [done|]. split; [values; by apply eqp_nonzero_mul|]. split; value.
Qed.

Lemma Completed_ToExtended_spec p P : completed p P -> extended (Completed_ToExtended p) P.
Proof.
  destruct p as [X Y Z T]. intros ((HX & HY & HZ & HT) & (NZ & NT) & EX & EY).
  unfold loose, tight in *. cbv delta [Completed_ToExtended] beta iota. fe_ops.
  split; [done|]. split; [values; by apply eqp_nonzero_mul|]. split_and!; value.
Qed.

Lemma Projective_Zero_spec : projective Projective_Zero pzero.
Proof.
  destruct FeZero_spec as [HZ EZ], FeOne_spec as [H1 E1].
  split; [done|]. rewrite EZ, E1. split; [exact eqp_0_1|]. done.
Qed.
Lemma Extended_Zero_spec : extended Extended_Zero pzero.
Proof.
  destruct FeZero_spec as [HZ EZ], FeOne_spec as [H1 E1].
  split; [done|]. rewrite EZ, E1. split; [exact eqp_0_1|]. done.
Qed.
Lemma PreComputed_Zero_spec : precomputed PreComputed_Zero pzero.
Proof.
  destruct FeZero_spec as [HZ EZ], FeOne_spec as [H1 E1].
  split; [done|]. rewrite EZ, E1. split_and!; cbn [fst snd pzero]; [done | done | by rewrite Z.mul_0_r].
Qed.

End Specifications.

#[export] Hint Resolve geAdd_spec geSub_spec geMixedAdd_spec geMixedSub_spec Projective_Double_spec
  Extended_ToProjective_spec Extended_Double_spec Extended_ToCached_spec Completed_ToProjective_spec
  Completed_ToExtended_spec Projective_Zero_spec Extended_Zero_spec PreComputed_Zero_spec : curve.

(** ** Encoding *)

(** The integer a point is encoded as: y, and the parity of x in the highest bit. *)
Definition encoding (P : point) : Z := P.2 mod p + 2 ^ 255 * ((P.1 mod p) mod 2).

#[export] Instance encoding_proper : Proper (peq ==> eq) encoding.
Proof. intros P Q [Hx Hy]. unfold encoding. rewrite eqp_iff in Hx, Hy. rewrite Hx, Hy. done. Qed.

Lemma sign_bit c b : 0 <= c < 128 -> b = 0 \/ b = 1 -> Z.lxor c (u8 (Z.shiftl b 7)) = c + 128 * b.
Proof.
  intros Hc [-> | ->]; [change (u8 (Z.shiftl 0 7)) with 0; rewrite Z.lxor_0_r; lia|].
  change (u8 (Z.shiftl 1 7)) with (Z.shiftl 1 7). rewrite lxor_add by lia. lia.
Qed.

Lemma set_sign_spec s b :
  length s = 32%nat -> le_value s < 2 ^ 255 -> b = 0 \/ b = 1 ->
  length (set_sign s b) = 32%nat /\ le_value (set_sign s b) = le_value s + 2 ^ 255 * b.
Proof.
  intros Hl Hs Hb. destruct s as [|c l] using rev_ind; [discriminate|]. clear IHl.
  rewrite length_app in Hl. cbn [length] in Hl. assert (Hl' : length l = 31%nat) by lia.
  unfold set_sign. rewrite length_insert, length_app. split; [cbn [length]; lia|].
  rewrite <- Hl' at 1. rewrite insert_app_r_alt, Nat.sub_diag by lia. cbn [list_insert insert].
  unfold ith. rewrite <- Hl', app_nth2, Nat.sub_diag by lia. cbn [nth].
  rewrite le_value_snoc in *. rewrite le_value_snoc. unfold zlen in *. rewrite Hl' in *.
  change (256 ^ Z.of_nat 31) with (2 ^ 248) in *. pose proof (le_value_range l). pose proof (b2z_range c).
  rewrite sign_bit by lia. rewrite b2z_z2b_small by lia. lia.
Qed.

(** Both [ToBytes] divide by Z and encode what is left. *)
Lemma ToBytes_spec {F : FieldElements} {L : FieldLaws F} X Y Z P :
  size 2 X -> tight Y -> tight Z -> ~ val Z =p 0 -> val X =p P.1 * val Z -> val Y =p P.2 * val Z ->
  let recip := FeInvert Z in
  let s := set_sign (FeToBytes (FeMul Y recip)).1 (FeIsNegative (FeMul X recip)).1 in
  length s = 32%nat /\ le_value s = encoding P.
Proof.
  intros HX HY HZ NZ EX EY recip s. subst s.
  destruct (FeInvert_spec Z (tight_loose _ HZ)) as [Hr Er]. fold recip in Hr, Er.
  change (val Z ^ (p - 2)) with (inv (val Z)) in Er.
  destruct (FeMul_law X recip (size_loose 2 _ HX ltac:(lia)) (tight_loose _ Hr)) as [Hx Ex].
  destruct (FeMul_law Y recip (tight_loose _ HY) (tight_loose _ Hr)) as [Hy Ey].
  destruct (FeToBytes_loose _ (tight_loose _ Hy)) as [Hl Hv].
  assert (E : forall a b, a =p b * val Z -> a * val recip =p b).
  { intros a b Ha. rewrite Ha, Er, <- Z.mul_assoc, inv_r, Z.mul_1_r by done. done. }
  rewrite (E _ _ EX) in Ex. rewrite (E _ _ EY) in Ey. rewrite eqp_iff in Ex, Ey.
  rewrite (proj1 (FeIsNegative_spec _ (tight_loose _ Hx))), Ex. rewrite Ey in Hv.
  pose proof (Z.mod_pos_bound (P.2) p p_pos). pose proof (Z.mod_pos_bound (P.1 mod p) 2 ltac:(lia)).
  destruct (set_sign_spec (FeToBytes (FeMul Y recip)).1 ((P.1 mod p) mod 2)) as [Hs Vs];
    [done | rewrite Hv; unfold p in *; lia | lia |].
  split; [exact Hs|]. rewrite Vs, Hv. done.
Qed.

Lemma Projective_ToBytes_spec {F : FieldElements} {L : FieldLaws F} r P :
  projective r P -> length (Projective_ToBytes r) = 32%nat /\ le_value (Projective_ToBytes r) = encoding P.
Proof.
  destruct r as [X Y Z]. intros ((HX & HY & HZ) & NZ & EX & EY)%projective_2. by apply ToBytes_spec.
Qed.

Lemma Extended_ToBytes_within {F : FieldElements} {L : FieldLaws F} r P :
  extended_within 2 r P -> length (Extended_ToBytes r) = 32%nat /\ le_value (Extended_ToBytes r) = encoding P.
Proof. destruct r as [X Y Z T]. intros ((HX & HY & HZ & HT) & NZ & EX & EY & ET). by apply ToBytes_spec. Qed.
Lemma Extended_ToBytes_spec {F : FieldElements} {L : FieldLaws F} r P :
  extended r P -> length (Extended_ToBytes r) = 32%nat /\ le_value (Extended_ToBytes r) = encoding P.
Proof. intros H. by apply Extended_ToBytes_within, extended_2. Qed.

(** ** Theorems *)

(** C33. The group operations are those of the curve.  For an extended element of a point [P], a
    cached and a precomputed element of [Q] and a projective element of [P], the four additions
    and subtractions, the doublings and the conversions give elements of [P + Q], [P - Q],
    [2 P] and [P]: points of the curve, no denominator vanishes (also when [P = Q] or
    [P = -Q]), and the limbs are small enough to go on.  The bytes are 32 and encode the point,
    whatever its representation. *)
Theorem group_operations {F : FieldElements} {L : FieldLaws F} {C : Constants F} {CL : ConstantLaws L C}
    (P Q : point) (p : ExtendedGroupElement) (r : ProjectiveGroupElement)
    (q : CachedGroupElement) (t : PreComputedGroupElement) :
  extended p P -> projective r P -> cached q Q -> precomputed t Q -> curve P -> curve Q ->
  (curve (padd P Q) /\ curve (padd P (pneg Q)) /\ curve (padd P P)) /\
  (completed (geAdd p q) (padd P Q) /\ completed (geMixedAdd p t) (padd P Q) /\
   completed (geSub p q) (padd P (pneg Q)) /\ completed (geMixedSub p t) (padd P (pneg Q)) /\
   completed (Projective_Double r) (padd P P) /\ completed (Extended_Double p) (padd P P)) /\
  (forall c R, completed c R -> extended (Completed_ToExtended c) R /\ projective (Completed_ToProjective c) R) /\
  (cached (Extended_ToCached p) P /\ projective (Extended_ToProjective p) P) /\
  (length (Extended_ToBytes p) = 32%nat /\ le_value (Extended_ToBytes p) = encoding P /\
   Projective_ToBytes r = Extended_ToBytes p).
Proof.
  intros Hp Hr Hq Ht HP HQ. split; [auto 10 with curve|]. split; [auto 10 with curve|].
  split; [auto with curve|]. split; [auto with curve|].
  destruct (Extended_ToBytes_spec p P Hp) as [Lp Vp], (Projective_ToBytes_spec r P Hr) as [Lr Vr].
  split; [done|]. split; [done|]. apply le_value_inj; congruence.
Qed.

(** The witness is on the portable representation. *)
#[local] Existing Instance portable.
#[local] Existing Instance portable_laws.
#[local] Existing Instance portable_constants.

#[refine, export] Instance portable_constant_laws : ConstantLaws portable_laws portable_constants := {}.
Proof.
  all: split; [vm_compute; repeat split; congruence | split; vm_compute; reflexivity].
Defined.

(** The base point, in extended coordinates. *)
Definition a_point : point :=
  (15112221349535400772501151409588531511454012693041857206046113283949847762202,
   46316835694926478169428394003475163141307993866256225615783033603165251855960).
Definition an_extended : ExtendedGroupElement :=
  let X := FeFromBytes (le_bytes 32 a_point.1) in
  let Y := FeFromBytes (le_bytes 32 a_point.2) in
  mkExt X Y FeOne (FeMul X Y).

Lemma group_operations_witness :
  completed (geAdd an_extended (Extended_ToCached an_extended)) (padd a_point a_point) /\
  le_value (Extended_ToBytes an_extended) = encoding a_point.
Proof.
  assert (H : extended an_extended a_point).
  { split; [vm_compute; repeat split; congruence|]. split; [exact eqp_0_1|].
    split_and!; split; vm_compute; reflexivity. }
  assert (HP : curve a_point) by (split; vm_compute; reflexivity).
  destruct (group_operations a_point pzero an_extended (Extended_ToProjective an_extended)
    (Extended_ToCached Extended_Zero) PreComputed_Zero) as (_ & _ & _ & _ & _ & Hb & _).
  - exact H.
  - exact (Extended_ToProjective_spec _ _ H).
  - exact (Extended_ToCached_spec _ _ Extended_Zero_spec).
  - exact PreComputed_Zero_spec.
  - exact HP.
  - exact curve_pzero.
  - split; [|exact Hb]. exact (geAdd_spec _ _ _ _ H (Extended_ToCached_spec _ _ H) HP HP).
Defined.
