(* ===== verification/Decode.v ===== *)
(** * Decoding a point of edwards25519

    [Extended_FromBytes] ([ExtendedGroupElement.FromBytes] of
    [src/crypto/ed25519/internal/edwards25519/group.go]): the y coordinate comes from the 32
    bytes, x from a square root of [(y^2-1)/(dy^2+1)] and the sign bit.  It succeeds exactly on
    the y coordinates of points of the curve, and takes an encoding back to its point.  Like
    group.go, this is for any representation of the field elements. *)

From Stdlib Require Import Setoid Morphisms.
From S2P Require Import Prelude Prime Word Modp Fe Const FieldRep Field Curve Group.
#[local] Open Scope Z_scope.

(** [p.FromBytes(s)]: the element [p] is left as, and the result.  On failure X, Y and Z are
    overwritten all the same.  ([tmp2], the reversed bytes of X, is written and never read.) *)
Definition Extended_FromBytes {F : FieldElements} {C : Constants F} (p : ExtendedGroupElement) (s : bytes) : ExtendedGroupElement * bool :=
  let Y := FeFromBytes s in
  let Z := FeOne in
  let u := FeSquare Y in
  let v := FeMul u d in
  let u := FeSub u Z in
  let v := FeAdd v Z in
  let v3 := FeSquare v in
  let v3 := FeMul v3 v in
  let X := FeSquare v3 in
  let X := FeMul X v in
  let X := FeMul X u in
  let X := fePow22523 X in
  let X := FeMul X v3 in
  let X := FeMul X u in
  let vxx := FeSquare X in
  let vxx := FeMul vxx v in
  let root :=
    if (FeIsNonZero (FeSub vxx u)).1 =? 1 then
      if (FeIsNonZero (FeAdd vxx u)).1 =? 1 then None else
        let X := FeMul X SqrtM1 in
        let '(tmpX, X) := FeToBytes X in
        Some X
    else Some X in
  match root with
  | None => (mkExt X Y Z (eT p), false)
  | Some X =>
      let '(negative, X) := FeIsNegative X in
      let X := if negative =? Z.shiftr (ith s 31) 7 then X else FeNeg X in
      (mkExt X Y Z (FeMul X Y), true)
  end.

(** ** Square roots *)

(** [y] is the second coordinate of a point exactly when [u/v] is a square. *)
Lemma curve_ratio x y : curve (x, y) <-> (cd * (y * y) + 1) * (x * x) =p y * y - 1.
Proof.
  unfold curve, on_curve. cbn [fst snd]. split; intros H.
  - apply (eqp_combine2 _ _ _ _ (- 1) 0 0 0 H); [done | ring].
  - apply (eqp_combine2 _ _ _ _ (- 1) 0 0 0 H); [done | ring].
Qed.

Lemma v_nonzero y : ~ cd * (y * y) + 1 =p 0.
Proof.
  intros H. apply (cd_nonsquare (ci * cd * y)).
  replace (ci * cd * y * (ci * cd * y)) with (ci * ci * (cd * (cd * (y * y)))) by ring.
  rewrite ci_squared. apply (eqp_combine2 _ _ _ _ (- cd) 0 0 0 H); [done | ring].
Qed.

(** The candidate root [x = u v^3 (u v^7)^((p-5)/8)]: [v x^2 = u q] for a fourth root of unity
    [q] (or zero). *)
Definition candidate (u v : Z) : Z := (u * (v * v * v * (v * v * v) * v)) ^ ((p - 5) / 8) * (v * v * v) * u.
Definition ratio (u v : Z) : Z := (u * (v * v * v * (v * v * v) * v)) ^ ((p - 1) / 4).

#[export] Instance ratio_proper : Proper (eqp ==> eqp ==> eqp) ratio.
Proof. intros a b H c e H'. unfold ratio. rewrite H, H'. done. Qed.

Lemma candidate_square u v : v * (candidate u v * candidate u v) =p u * ratio u v.
Proof.
  unfold candidate, ratio. set (w := u * (v * v * v * (v * v * v) * v)).
  replace (w ^ ((p - 1) / 4)) with (w * (w ^ ((p - 5) / 8) * w ^ ((p - 5) / 8))).
  - generalize (w ^ ((p - 5) / 8)). intros W. subst w. apply (eqp_diff _ _ 0). ring.
  - rewrite <- Z.pow_add_r, <- Z.pow_succ_r by (vm_compute; congruence). f_equal.
Qed.

(** When [u/v] is a square the candidate or its product with [ci] is a root. *)
Lemma candidate_complete u v x :
  ~ v =p 0 -> v * (x * x) =p u -> u * ratio u v =p u \/ u * ratio u v =p - u.
Proof.
  intros Hv Hx. destruct (decide (u =p 0)) as [Hu|Hu]; [left; rewrite Hu; done|].
  assert (Hr : ratio u v * ratio u v =p 1).
  { unfold ratio. set (w := u * _). rewrite <- Z.pow_add_r by (vm_compute; congruence).
    assert (Ew : w =p (x * (v * v * v * v)) ^ 2) by (subst w; rewrite <- Hx; apply (eqp_diff _ _ 0); ring).
    rewrite Ew, <- Z.pow_mul_r by (vm_compute; congruence).
    replace (2 * ((p - 1) / 4 + (p - 1) / 4)) with (p - 1) by (vm_compute; reflexivity).
    apply fermat_p. repeat apply eqp_nonzero_mul; try done. intros E. apply Hu. rewrite <- Hx, E. apply (eqp_diff _ _ 0). ring. }
  assert (H : (ratio u v - 1) * (ratio u v + 1) =p 0).
  { transitivity (ratio u v * ratio u v - 1); [apply (eqp_diff _ _ 0); ring | rewrite Hr; done]. }
  destruct (eqp_integral _ _ H) as [E|E]; [left | right].
  - apply eqp_sub_0 in E. rewrite E, Z.mul_1_r. done.
  - transitivity (u * (ratio u v + 1) - u); [apply (eqp_diff _ _ 0); ring|]. rewrite E. apply (eqp_diff _ _ 0). ring.
Qed.

(** ** The sign *)

Definition parity (x : Z) : Z := (x mod p) mod 2.
#[export] Instance parity_proper : Proper (eqp ==> eq) parity.
Proof. intros a b H. unfold parity. rewrite eqp_iff in H. rewrite H. done. Qed.

Lemma parity_range x : parity x = 0 \/ parity x = 1.
Proof. unfold parity. pose proof (Z.mod_pos_bound (x mod p) 2). lia. Qed.

Lemma parity_opp x : ~ x =p 0 -> parity (- x) = 1 - parity x.
Proof.
  rewrite eqp_iff, Z.mod_0_l by done. intros H. unfold parity.
  rewrite Z_mod_nz_opp_full by done. pose proof (Z.mod_pos_bound x p p_pos).
  pose proof (Z.div_mod (x mod p) 2). pose proof (Z.mod_pos_bound (x mod p) 2).
  rewrite (Z.mod_unique (p - x mod p) 2 (2 ^ 254 - 10 - x mod p / 2) (1 - (x mod p) mod 2)); unfold p in *; lia.
Qed.

(** ** The specification *)

(** Substitute a variable of a body. *)
Ltac given x :=
  lazymatch goal with |- ?R (let t := x in @?B t) ?P => change (R (B x) P); cbv beta end.

Section Specification.
Context {F : FieldElements} {L : FieldLaws F} {C : Constants F} {CL : ConstantLaws L C}.

(** What a call leaves: a point of the curve with that y and, unless x is 0, that sign; or
    there is no such point. *)
Definition decoded (r : ExtendedGroupElement * bool) (t : Z * Z) : Prop :=
  let '(y, sign) := t in
  if r.2 then exists x, extended_within 2 r.1 (x, y) /\ curve (x, y) /\ (~ x =p 0 -> parity x = sign)
  else forall x, ~ curve (x, y).

Lemma decoded_sign X Y y sign :
  size 2 X -> tight Y -> val Y =p y -> curve (val X, y) -> sign = 0 \/ sign = 1 ->
  decoded (let '(negative, X) := FeIsNegative X in
           let X := if negative =? sign then X else FeNeg X in (mkExt X Y FeOne (FeMul X Y), true)) (y, sign).
Proof.
  intros HX HY EY HC Hs.
  destruct (FeIsNegative_spec X (size_loose 2 X HX ltac:(lia))) as [Hn HX1].
  destruct (FeToBytes_law 2 X HX ltac:(lia)) as (_ & HX2 & EX2). rewrite <- HX1 in HX2, EX2.
  change (Z.max 2 2) with 2 in HX2. destruct (FeIsNegative X) as [negative X']. cbn [fst snd] in *.
  cbv zeta. rewrite Hn. change ((val X mod p) mod 2) with (parity (val X)). rewrite <- EX2.
  assert (HC' : curve (val X', y)) by (unfold curve, on_curve in *; cbn [fst snd] in *; rewrite EX2; exact HC).
  assert (E : forall X, size 2 X -> curve (val X, y) -> (~ val X =p 0 -> parity (val X) = sign) ->
    decoded (mkExt X Y FeOne (FeMul X Y), true) (y, sign)).
  { intros X0 H HC0 S. exists (val X0). split; [|done].
    destruct (FeMul_law X0 Y (size_loose 2 X0 H ltac:(lia)) (tight_loose _ HY)) as [Ht Et].
    split; [|split; [rewrite (proj2 FeOne_spec); exact eqp_0_1|]].
    - split_and!; done || apply FeOne_spec.
    - cbn [fst snd]. rewrite (proj2 FeOne_spec), !Z.mul_1_r. split_and!; [done | exact EY |].
      rewrite Et, EY. done. }
  destruct (Z.eqb_spec (parity (val X')) sign) as [Es|Es]; [by apply E|].
  destruct (FeNeg_law 2 X' HX2 ltac:(lia)) as [Hm En]. apply E; [exact Hm | |].
  - unfold curve, on_curve in *. cbn [fst snd] in *. rewrite En. apply (curve_pneg (val X', y) HC').
  - rewrite En. intros Hx. rewrite parity_opp.
    + destruct (parity_range (val X')); lia.
    + intros Hx'. apply Hx. rewrite Hx'. done.
Qed.

(** The end of the body: from the candidate root [X], with [vxx = v x^2]. *)
Lemma decoded_root X Y T u v vxx y sign :
  tight X -> tight Y -> val Y =p y -> size 2 u -> tight vxx ->
  val u =p y * y - 1 -> v =p cd * (y * y) + 1 ->
  val X =p candidate (val u) v -> val vxx =p v * (val X * val X) -> sign = 0 \/ sign = 1 ->
  decoded
    (let root :=
       if (FeIsNonZero (FeSub vxx u)).1 =? 1 then
         if (FeIsNonZero (FeAdd vxx u)).1 =? 1 then None else
           let X := FeMul X SqrtM1 in
           let '(tmpX, X) := FeToBytes X in
           Some X
       else Some X in
     match root with
     | None => (mkExt X Y FeOne T, false)
     | Some X =>
         let '(negative, X) := FeIsNegative X in
         let X := if negative =? sign then X else FeNeg X in
         (mkExt X Y FeOne (FeMul X Y), true)
     end) (y, sign).
Proof.
  intros HX HY EY Hu Hvxx Eu Ev EX Evxx Hsign. unfold tight in Hvxx.
  assert (NV : ~ v =p 0) by (rewrite Ev; apply v_nonzero).
  pose proof (candidate_square (val u) v) as Eq. rewrite <- EX, <- Evxx in Eq.
  destruct (FeSub_law _ _ vxx u Hvxx Hu ltac:(lia) ltac:(lia) ltac:(lia)) as [Hs Es].
  destruct (FeAdd_law _ _ vxx u Hvxx Hu ltac:(lia) ltac:(lia) ltac:(lia)) as [Ha Ea].
  rewrite !FeIsNonZero_spec by done.
  assert (HC : forall x, v * (x * x) =p val u -> curve (x, y)).
  { intros x Hx. apply curve_ratio. rewrite <- Ev, Hx. done. }
  destruct (decide (val (FeSub vxx u) =p 0)) as [E1|E1]; rewrite Es in E1; cbn [Z.eqb Pos.eqb].
  - apply decoded_sign; try done; [by apply (size_mono 1)|]. apply HC. rewrite <- Evxx. by apply eqp_sub_0.
  - destruct (decide (val (FeAdd vxx u) =p 0)) as [E2|E2]; rewrite Ea in E2; cbn [Z.eqb Pos.eqb].
    + destruct SqrtM1_law as [HM EM].
      destruct (FeMul_law X SqrtM1 (tight_loose _ HX) (tight_loose _ HM)) as [Ht Et].
      destruct (FeToBytes_tight _ Ht) as (_ & Hb & Eb). cbv zeta.
      destruct (FeToBytes (FeMul X SqrtM1)) as [tmpX X']. cbn [fst snd] in *.
      apply decoded_sign; try done. apply HC. rewrite Eb, Et, EM.
      transitivity (ci * ci * (v * (val X * val X))); [apply (eqp_diff _ _ 0); ring|].
      rewrite ci_squared, <- Evxx. apply (eqp_combine2 _ _ _ _ (- 1) 0 0 0 E2); [done | ring].
    + intros x Hx. apply curve_ratio in Hx. rewrite <- Ev, <- Eu in Hx.
      destruct (candidate_complete _ _ _ NV Hx) as [R|R]; rewrite R in Eq.
      * apply E1. rewrite Eq, Z.sub_diag. done.
      * apply E2. rewrite Eq, Z.add_opp_diag_l. done.
Qed.

Lemma Extended_FromBytes_spec q s :
  length s = 32%nat ->
  decoded (Extended_FromBytes q s) (le_value s mod 2 ^ 255, Z.shiftr (ith s 31) 7).
Proof.
  intros Hl. destruct (FeFromBytes_law s Hl) as [HY EY].
  assert (Hsign : Z.shiftr (ith s 31) 7 = 0 \/ Z.shiftr (ith s 31) 7 = 1).
  { pose proof (ith_range s 31). rewrite Z.shiftr_div_pow2 by done. change (2 ^ 7) with 128.
    pose proof (Z.div_mod (ith s 31) 128). pose proof (Z.mod_pos_bound (ith s 31) 128). lia. }
  destruct FeOne_spec as [H1 E1], d_law as [Hd Ed]. unfold tight in *.
  cbv delta [Extended_FromBytes] beta. given (FeFromBytes s). given FeOne. do 9 fe_op.
  lazymatch goal with
  | H : size _ ?w |- context [fePow22523 ?w] =>
      destruct (fePow22523_spec w (tight_loose w H)) as [HP EP]
  end.
  unfold tight in HP. given (fePow22523 t7). fe_ops.
  eapply (decoded_root _ _ _ _ (val t2)); [eassumption | eassumption | exact EY | eassumption | eassumption | ..].
  - rewrite E2, E, EY, E1. done.
  - rewrite E3, E0, E, EY, Ed, E1. apply (eqp_diff _ _ 0). ring.
  - rewrite E10, E9, EP, E8, E7, E6, E5, E4. unfold candidate.
    rewrite (Z.mul_comm (val t1)). done.
  - rewrite E12, E11. apply (eqp_diff _ _ 0). ring.
  - exact Hsign.
Qed.

End Specification.

(** The two parts of 32 bytes: the low 255 bits and the sign bit. *)
Lemma le_value_sign s :
  length s = 32%nat -> le_value s = le_value s mod 2 ^ 255 + 2 ^ 255 * Z.shiftr (ith s 31) 7.
Proof.
  intros Hl. destruct s as [|b l] using rev_ind; [discriminate|]. clear IHl.
  rewrite length_app in Hl. cbn [length] in Hl. assert (Hl' : length l = 31%nat) by lia.
  rewrite le_value_low, le_value_snoc by done. unfold ith. rewrite <- Hl', app_nth2, Nat.sub_diag by lia.
  cbn [nth]. unfold zlen. rewrite Hl', Z.shiftr_div_pow2 by done.
  pose proof (Z.div_mod (b2z b) (2 ^ 7)). lia.
Qed.

Lemma encoding_parts P s :
  length s = 32%nat -> le_value s = encoding P ->
  le_value s mod 2 ^ 255 = P.2 mod p /\ Z.shiftr (ith s 31) 7 = parity P.1.
Proof.
  intros Hl H. pose proof (le_value_sign s Hl) as E. pose proof (Z.mod_pos_bound (P.2) p p_pos).
  assert (Em : le_value s mod 2 ^ 255 = P.2 mod p).
  { rewrite H. unfold encoding. rewrite Z.mul_comm, Z_mod_plus_full, Z.mod_small; unfold p in *; lia. }
  split; [done|]. rewrite Em, H in E. unfold encoding in E. fold (parity P.1) in E. lia.
Qed.

Lemma point_by_parity x x' y :
  curve (x, y) -> curve (x', y) -> (~ x =p 0 -> parity x = parity x') -> x =p x'.
Proof.
  rewrite !curve_ratio. intros H H' Hs. rewrite <- H' in H. apply eqp_cancel in H; [|apply v_nonzero].
  assert (E : (x - x') * (x + x') =p 0).
  { transitivity (x * x - x' * x'); [apply (eqp_diff _ _ 0); ring|]. rewrite H, Z.sub_diag. done. }
  destruct (eqp_integral _ _ E) as [E'|E']; [by apply eqp_sub_0|].
  assert (Ex : x' =p - x) by (apply eqp_sub_0; rewrite <- E'; apply (eqp_diff _ _ 0); ring).
  destruct (decide (x =p 0)) as [Z|N]; [rewrite Ex, Z; done|].
  specialize (Hs N). rewrite Ex, parity_opp in Hs by done. destruct (parity_range x); lia.
Qed.

(** An encoding is taken back to its point. *)
Lemma FromBytes_encoding {F : FieldElements} {L : FieldLaws F} {C : Constants F} {CL : ConstantLaws L C} q s P :
  length s = 32%nat -> le_value s = encoding P -> curve P ->
  (Extended_FromBytes q s).2 = true /\ extended_within 2 (Extended_FromBytes q s).1 P.
Proof.
  intros Hl He HP. pose proof (Extended_FromBytes_spec q s Hl) as H.
  destruct (encoding_parts P s Hl He) as [Ey Es]. rewrite Ey, Es in H.
  assert (Em : P.2 mod p =p P.2) by (apply eqp_iff, Zmod_mod).
  assert (HP' : curve (P.1, P.2 mod p)) by (unfold curve in *; cbn [fst snd]; rewrite Em; done).
  destruct (Extended_FromBytes q s) as [r [|]]; cbn [decoded fst snd] in *; [|destruct (H P.1 HP')].
  split; [done|]. destruct H as (x & Hx & Hc & Hs).
  assert (Ex : x =p P.1) by (eapply point_by_parity; eauto).
  eapply extended_within_proper; [|exact Hx]. split; cbn [fst snd]; [done | by symmetry].
Qed.

Lemma encoding_inj P Q : curve P -> curve Q -> encoding P = encoding Q -> P == Q.
Proof.
  intros HP HQ E. unfold encoding in E. fold (parity P.1) (parity Q.1) in E.
  pose proof (Z.mod_pos_bound P.2 p p_pos). pose proof (Z.mod_pos_bound Q.2 p p_pos).
  destruct (parity_range P.1) as [EP|EP], (parity_range Q.1) as [EQ|EQ]; rewrite EP, EQ in E; try (unfold p in *; lia).
  all: assert (Ey : P.2 =p Q.2) by (apply eqp_iff; lia).
  all: assert (HP' : curve (P.1, Q.2)) by (unfold curve in *; cbn [fst snd]; rewrite <- Ey; exact HP).
  all: split; [|exact Ey]; apply (point_by_parity P.1 Q.1 Q.2); [exact HP' | destruct Q; exact HQ | congruence].
Qed.

(** ** Theorems *)

(** C34. Decoding.  [FromBytes] on any 32 bytes ends with true exactly when some point of the curve
    has the y of the low 255 bits, and then with such a point, of the sign of the highest bit
    (unless x is 0).  It takes the encoding of a point back to the point, and the bytes of an
    encoding survive the way to a point and back; two points have the same encoding only when
    they are equal.  The portable [FeToBytes] and [FeIsNegative] normalise the x they are given in
    place, so the x of the result has the limbs of a sum of two products, not of one
    ([extended_within 2]); the operations that take a decoded point allow that. *)
Theorem FromBytes_correct {F : FieldElements} {L : FieldLaws F} {C : Constants F} {CL : ConstantLaws L C}
    (q r : ExtendedGroupElement) (s : bytes) (P Q : point) :
  length s = 32%nat -> extended r P -> curve P -> curve Q ->
  decoded (Extended_FromBytes q s) (le_value s mod 2 ^ 255, Z.shiftr (ith s 31) 7) /\
  ((Extended_FromBytes q (Extended_ToBytes r)).2 = true /\
   extended_within 2 (Extended_FromBytes q (Extended_ToBytes r)).1 P) /\
  (le_value s = encoding P -> Extended_ToBytes (Extended_FromBytes q s).1 = s) /\
  (encoding P = encoding Q <-> P == Q).
Proof.
  intros Hl Hr HP HQ. destruct (Extended_ToBytes_spec r P Hr) as [Lr Vr].
  split; [by apply Extended_FromBytes_spec|]. split; [by apply FromBytes_encoding|]. split.
  - intros Hs. destruct (FromBytes_encoding q s P Hl Hs HP) as [_ He].
    destruct (Extended_ToBytes_within _ P He) as [Ls Vs].
    apply le_value_inj; [rewrite Ls, Hl | rewrite Vs, Hs]; reflexivity.
  - split; [by apply encoding_inj | by intros ->].
Qed.

(** The witness is on the portable representation. *)
#[local] Existing Instance portable.
#[local] Existing Instance portable_laws.
#[local] Existing Instance portable_constants.

Lemma FromBytes_correct_witness :
  extended_within 2 (Extended_FromBytes Extended_Zero (Extended_ToBytes an_extended)).1 a_point.
Proof.
  destruct (FromBytes_correct Extended_Zero an_extended (replicate 32 x00) a_point pzero) as (_ & (_ & H) & _).
  - reflexivity.
  - split; [vm_compute; repeat split; congruence|]. split; [exact eqp_0_1|].
    split_and!; split; vm_compute; reflexivity.
  - split; vm_compute; reflexivity.
  - exact curve_pzero.
  - exact H.
Defined.
