(* ===== verification/Table.v ===== *)
(** * The tables of multiples of the base point

    [base] and [bi] of [const.go] ([Const.v]) hold what group.go takes them for: [base[i][j]] is
    [(j+1) 256^i B] and [bi[j]] is [(2j+1) B], each as [(y+x, y-x, 2dxy)] with limbs of the size
    the additions take.  The tables are checked by computation: each entry is a point of the
    curve, consecutive entries of a row differ by its first one, and the first entry of a row is
    32 times the last one of the row before; each step is an instance of the addition law,
    cross-multiplied so that the check needs no inverse, on multi-word integers of 63-bit words
    ([BigZ]). *)

From Stdlib Require Import Setoid Morphisms.
From Bignums Require Import BigZ.BigZ.
From S2P Require Import Prelude Prime Word Modp Fe Const FieldRep Field Scalar Curve Group.
#[local] Open Scope Z_scope.

(** The base point: y is 4/5 and x is even. *)
Definition B : point :=
  (15112221349535400772501151409588531511454012693041857206046113283949847762202,
   46316835694926478169428394003475163141307993866256225615783033603165251855960).

(** What the scalar multiplications ask of the tables of a representation. *)
Class TableLaws {F : FieldElements} (L : FieldLaws F) (C : Constants F) := {
  base_length : length base = 32%nat;
  base_row_length i row : base !! i = Some row -> length row = 8%nat;
  base_entry i j row e : base !! i = Some row -> row !! j = Some e ->
    precomputed e (zmul ((Z.of_nat j + 1) * 256 ^ Z.of_nat i) B);
  bi_length : length bi = 8%nat;
  bi_entry j e : bi !! j = Some e -> precomputed e (zmul (2 * Z.of_nat j + 1) B);
}.

(** The rest is about the tables of [Const.v]. *)
#[local] Existing Instance portable.
#[local] Existing Instance portable_laws.
#[local] Existing Instance portable_constants.

(** ** Tests modulo p *)

Notation "[ a ]" := (BigZ.to_Z a) : Z_scope.
Definition big (a : Z) : bigZ := BigZ.of_Z a.
Definition red (a : bigZ) : bigZ := BigZ.modulo a (big p).
Definition mulm (a b : bigZ) : bigZ := red (BigZ.mul a b).
Definition zero (a : bigZ) : bool := BigZ.eqb (red a) (big 0).
Definition same (a b : bigZ) : bool := zero (BigZ.sub a b).

Lemma big_value a : [big a] = a.
Proof. apply BigZ.spec_of_Z. Qed.
Lemma red_eqp a : [red a] =p [a].
Proof. unfold red. rewrite BigZ.spec_modulo, big_value. apply eqp_iff, Zmod_mod. Qed.
Lemma mulm_eqp a b : [mulm a b] =p [a] * [b].
Proof. unfold mulm. rewrite red_eqp, BigZ.spec_mul. done. Qed.
Lemma zero_sound a : zero a = true -> [a] =p 0.
Proof.
  unfold zero. rewrite BigZ.spec_eqb, big_value. intros H%Z.eqb_eq. rewrite <- (red_eqp a), H. done.
Qed.
Lemma same_sound a b : same a b = true -> [a] =p [b].
Proof. intros H%zero_sound. rewrite BigZ.spec_sub in H. by apply eqp_sub_0. Qed.
#[local] Opaque red mulm zero same big.

(** The value of an expression. *)
Ltac big := repeat first [rewrite red_eqp | rewrite mulm_eqp | rewrite BigZ.spec_mul | rewrite BigZ.spec_add
                         | rewrite BigZ.spec_sub | rewrite big_value].

(** ** Entries *)

Definition bounded (e : Z) (o : Z) (f : Fe.FieldElement) : bool :=
  let 'fe f0 f1 f2 f3 f4 f5 f6 f7 f8 f9 := f in
  forallb (fun x => Z.abs x <=? e) [f0; f2; f4; f6; f8] && forallb (fun x => Z.abs x <=? o) [f1; f3; f5; f7; f9].
Lemma bounded_within e o f : bounded e o f = true -> within e o f.
Proof. destruct f. simpl. rewrite !andb_true_iff, !Z.leb_le. tauto. Qed.

Definition half : Z := (p + 1) / 2.
Lemma half_eqp a : 2 * (a * half) =p a.
Proof.
  apply (eqp_diff _ _ a). replace (2 * (a * half)) with (a * (2 * half)) by ring.
  replace (2 * half) with (p + 1) by reflexivity. ring.
Qed.

(** The point an entry stands for. *)
Definition coordinates : Type := bigZ * bigZ.
Definition affine (e : PreComputedGroupElement) : coordinates :=
  let a := big (val (yPlusX e)) in let b := big (val (yMinusX e)) in
  (mulm (BigZ.sub a b) (big half), mulm (BigZ.add a b) (big half)).
Definition pt (P : coordinates) : point := ([P.1], [P.2]).
Definition entry_ok (e : PreComputedGroupElement) : bool :=
  let P := affine e in
  bounded 33554432 16944987 (yPlusX e) && bounded 33554432 16944987 (yMinusX e) &&
  bounded 33554432 16944987 (xy2d e) &&
  same (big (val (xy2d e))) (mulm (mulm (big (2 * cd)) P.1) P.2).

Lemma two_cancel a b : 2 * a =p 2 * b -> a =p b.
Proof. apply eqp_cancel, two_nonzero. Qed.

Lemma entry_sound e : entry_ok e = true -> precomputed e (pt (affine e)).
Proof.
  destruct e as [a b c]. unfold entry_ok, precomputed, affine, pt. cbn [yPlusX yMinusX xy2d fst snd].
  rewrite !andb_true_iff. intros (((Ha & Hb) & Hc) & H). apply bounded_within in Ha, Hb, Hc.
  split; [done|]. split_and!.
  - apply two_cancel. rewrite Z.mul_add_distr_l. big. rewrite !half_eqp. apply (eqp_diff _ _ 0). ring.
  - apply two_cancel. rewrite Z.mul_sub_distr_l. big. rewrite !half_eqp. apply (eqp_diff _ _ 0). ring.
  - apply same_sound in H. rewrite big_value in H. rewrite H. big. done.
Qed.

(** ** Sums *)

(** [R] is [P + Q], by the addition law. *)
Definition sum_ok (P Q R : coordinates) : bool :=
  let a := mulm P.1 Q.1 in let b := mulm P.2 Q.2 in
  let c := mulm (big cd) (mulm a b) in
  same (mulm R.1 (BigZ.add (big 1) c)) (BigZ.add (mulm P.1 Q.2) (mulm P.2 Q.1)) &&
  same (mulm R.2 (BigZ.sub (big 1) c)) (BigZ.add b a).

Lemma sum_sound P Q R : curve (pt P) -> curve (pt Q) -> sum_ok P Q R = true -> pt R == padd (pt P) (pt Q).
Proof.
  intros HP HQ. unfold sum_ok. cbv zeta. rewrite andb_true_iff. intros [Hx%same_sound Hy%same_sound].
  revert Hx Hy. big.
  destruct P as [x y], Q as [x' y'], R as [x'' y'']. unfold pt in *. cbn [fst snd] in *.
  replace (cd * ([x] * [x'] * ([y] * [y']))) with (cross [x] [y] [x'] [y']) by (unfold cross; ring).
  pose proof (padd_complete _ _ _ _ 1 HP HQ eq_refl) as Np.
  pose proof (padd_complete _ _ _ _ (- 1) HP HQ eq_refl) as Nm.
  cbn [fst snd] in Np, Nm.
  replace (1 + 1 * cross [x] [y] [x'] [y']) with (1 + cross [x] [y] [x'] [y']) in Np by ring.
  replace (1 + - 1 * cross [x] [y] [x'] [y']) with (1 - cross [x] [y] [x'] [y']) in Nm by ring.
  intros Hx Hy. unfold padd, add_x, add_y. split; cbn [fst snd]; apply eqp_div; done.
Qed.

(** ** Doublings, in projective coordinates *)

Definition proj_double (r : bigZ * bigZ * bigZ) : bigZ * bigZ * bigZ :=
  let '(X, Y, Z) := r in
  let a := mulm X X in let b := mulm Y Y in let c := mulm Z Z in
  let g := BigZ.sub b a in
  let f := BigZ.sub (BigZ.add c c) g in
  let m := mulm X Y in
  (mulm (BigZ.add m m) f, mulm (BigZ.add a b) g, mulm g f).
Definition values (r : bigZ * bigZ * bigZ) : Z * Z * Z := let '(X, Y, Z) := r in ([X], [Y], [Z]).
Definition represents (r : Z * Z * Z) (P : point) : Prop :=
  let '(X, Y, Z) := r in ~ Z =p 0 /\ X =p P.1 * Z /\ Y =p P.2 * Z.

#[export] Instance represents_proper r : Proper (peq ==> iff) (represents r).
Proof. destruct r as [[X Y] Z]. intros P Q [Hx Hy]. unfold represents. rewrite Hx, Hy. done. Qed.

Lemma double_represents X Y Z g f X3 Y3 Z3 P :
  represents (X, Y, Z) P -> curve P -> g =p Y * Y - X * X -> f =p 2 * (Z * Z) - g ->
  X3 =p 2 * X * Y * f -> Y3 =p (X * X + Y * Y) * g -> Z3 =p g * f -> represents (X3, Y3, Z3) (padd P P).
Proof.
  intros (NZ & EX & EY) HP Hg Hf H1 H2 H3. pose proof (double_cross P HP) as EE.
  assert (Eg : g =p Z * Z * (1 + cross P.1 P.2 P.1 P.2)).
  { rewrite Hg, EX, EY, <- EE. apply (eqp_diff _ _ 0). ring. }
  assert (Ef : f =p Z * Z * (1 - cross P.1 P.2 P.1 P.2)).
  { rewrite Hf, Eg. apply (eqp_diff _ _ 0). ring. }
  destruct (sum_fractions (2 * X * Y) (Y * Y + X * X) g f (Z * Z) P P) as ((Ng & Nf) & E1 & E2); try done.
  - by apply eqp_nonzero_mul.
  - rewrite EX, EY. apply (eqp_diff _ _ 0). ring.
  - rewrite EX, EY. apply (eqp_diff _ _ 0). ring.
  - revert E1 E2. destruct (padd P P) as [x y]. cbn [fst snd]. intros E1 E2.
    unfold represents. rewrite H1, H2, H3. split; [by apply eqp_nonzero_mul|]. split; cbn [fst snd].
    + rewrite E1. apply (eqp_diff _ _ 0). ring.
    + rewrite (Z.add_comm (X * X)), E2. apply (eqp_diff _ _ 0). ring.
Qed.

Lemma proj_double_sound r P :
  represents (values r) P -> curve P -> represents (values (proj_double r)) (padd P P).
Proof.
  destruct r as [[X Y] Z]. intros Hr HP. unfold values, proj_double in *. cbv zeta.
  apply (double_represents [X] [Y] [Z] ([Y] * [Y] - [X] * [X]) (2 * ([Z] * [Z]) - ([Y] * [Y] - [X] * [X])));
    [exact Hr | exact HP | done | done | ..]; big; apply (eqp_diff _ _ 0); ring.
Qed.

Fixpoint doubles (n : nat) (r : bigZ * bigZ * bigZ) : bigZ * bigZ * bigZ :=
  match n with O => r | S n => doubles n (proj_double r) end.

(** [Q] is [2^n P]. *)
Definition doubled_ok (n : nat) (P Q : coordinates) : bool :=
  let '(X, Y, Z) := doubles n (P.1, P.2, big 1) in same X (mulm Q.1 Z) && same Y (mulm Q.2 Z).

Lemma doubles_sound n r k P :
  curve P -> represents (values r) (zmul k P) ->
  represents (values (doubles n r)) (zmul (2 ^ Z.of_nat n * k) P).
Proof.
  intros HP. revert r k. induction n as [|n IH]; intros r k Hr; cbn [doubles]; [by rewrite Z.mul_1_l|].
  rewrite Nat2Z.inj_succ, Z.pow_succ_r, (Z.mul_comm 2), <- Z.mul_assoc by lia. apply IH.
  eapply represents_proper; [apply zmul_double; done|]. apply proj_double_sound; auto with curve.
Qed.

Lemma represents_unique r P Q : represents r P -> represents r Q -> P == Q.
Proof.
  destruct r as [[X Y] Z]. intros (NZ & EX & EY) (_ & EX' & EY').
  split; apply (eqp_cancel Z); try done; rewrite !(Z.mul_comm Z).
  - by rewrite <- EX, <- EX'.
  - by rewrite <- EY, <- EY'.
Qed.

(** ** The rows *)

(** The point of an entry is [k B]. *)
Definition multiple (k : Z) (P : coordinates) : Prop := pt P == zmul k B.

Lemma curve_B : curve B.
Proof. split. vm_compute. reflexivity. Qed.
#[export] Hint Resolve curve_B : curve.

Lemma multiple_curve k P : multiple k P -> curve (pt P).
Proof. unfold multiple. intros H. rewrite H. auto with curve. Qed.

Lemma multiple_sum j k P Q R :
  multiple j P -> multiple k Q -> sum_ok P Q R = true -> multiple (j + k) R.
Proof.
  intros HP HQ H. pose proof (multiple_curve _ _ HP). pose proof (multiple_curve _ _ HQ).
  unfold multiple in *. rewrite (sum_sound P Q R), HP, HQ by done.
  rewrite zmul_add by auto with curve. done.
Qed.

Lemma multiple_doubled n k P Q :
  multiple k P -> doubled_ok n P Q = true -> multiple (2 ^ Z.of_nat n * k) Q.
Proof.
  intros HP H. unfold doubled_ok in H.
  assert (Hr : represents (values (P.1, P.2, big 1)) (zmul k B)).
  { unfold multiple in HP. rewrite <- HP. unfold values, represents. rewrite big_value, !Z.mul_1_r.
    split; [exact eqp_0_1 | done]. }
  pose proof (doubles_sound n _ _ _ curve_B Hr) as Hd.
  destruct (doubles n (P.1, P.2, big 1)) as [[X Y] Z].
  apply andb_true_iff in H as [Hx%same_sound Hy%same_sound]. rewrite mulm_eqp in Hx, Hy.
  eapply represents_unique; [|exact Hd]. split; [apply Hd | done].
Qed.

(** Each point of a row is the one before it plus [P]. *)
Fixpoint steps_ok (P Q : coordinates) (row : list coordinates) : bool :=
  match row with
  | [] => true
  | R :: row => sum_ok P Q R && steps_ok P R row
  end.

Lemma steps_sound j k P Q row :
  multiple j P -> multiple k Q -> steps_ok P Q row = true ->
  forall i R, row !! i = Some R -> multiple (k + j * (Z.of_nat i + 1)) R.
Proof.
  intros HP. revert k Q. induction row as [|R row IH]; intros k Q HQ H i R'; [done|].
  cbn [steps_ok] in H. apply andb_true_iff in H as [Hs Hr].
  pose proof (multiple_sum _ _ _ _ _ HP HQ Hs) as HR.
  destruct i as [|i]; cbn [lookup list_lookup].
  - intros [= <-]. replace (k + j * (Z.of_nat 0 + 1)) with (j + k) by lia. done.
  - intros Hi. pose proof (IH _ _ HR Hr i R' Hi) as H.
    replace (k + j * (Z.of_nat (S i) + 1)) with (j + k + j * (Z.of_nat i + 1)) by lia. done.
Qed.

(** A row from its first point on: eight entries, each the next multiple. *)
Definition row_ok (row : list coordinates) : bool :=
  match row with P :: rest => (length rest =? 7)%nat && steps_ok P P rest | [] => false end.

Lemma row_sound k row :
  row_ok row = true -> (forall P, row !! 0%nat = Some P -> multiple k P) ->
  length row = 8%nat /\ forall i P, row !! i = Some P -> multiple ((Z.of_nat i + 1) * k) P.
Proof.
  destruct row as [|P rest]; [done|]. cbn [row_ok]. rewrite andb_true_iff, Nat.eqb_eq. intros [Hl Hs] H0.
  assert (HP : multiple k P) by (by apply H0). split; [cbn [length]; lia|].
  intros [|i] Q; cbn [lookup list_lookup].
  - intros [= <-]. rewrite Z.mul_1_l. done.
  - intros HQ. pose proof (steps_sound _ _ _ _ _ HP HP Hs i Q HQ) as H.
    replace ((Z.of_nat (S i) + 1) * k) with (k + k * (Z.of_nat i + 1)) by lia. done.
Qed.

(** The first point of a row is 32 times the last of the row before, that is 256 times its first. *)
Fixpoint rows_ok (rows : list (list coordinates)) : bool :=
  match rows with
  | [] => true
  | row :: rest =>
      row_ok row &&
      match rest with
      | [] => true
      | next :: _ =>
          match row !! 7%nat, next !! 0%nat with
          | Some P, Some Q => doubled_ok 5 P Q
          | _, _ => false
          end
      end && rows_ok rest
  end.

Lemma rows_sound k rows :
  rows_ok rows = true ->
  (forall row P, rows !! 0%nat = Some row -> row !! 0%nat = Some P -> multiple k P) ->
  forall n row, rows !! n = Some row ->
    length row = 8%nat /\
    forall i P, row !! i = Some P -> multiple ((Z.of_nat i + 1) * 256 ^ Z.of_nat n * k) P.
Proof.
  revert k. induction rows as [|row rest IH]; intros k H H0 n r Hn; [done|].
  cbn [rows_ok] in H. rewrite !andb_true_iff in H. destruct H as [[Hr Hx] Hrest].
  destruct (row_sound k row Hr) as [Hl Hm]; [intros P; apply (H0 row P eq_refl)|].
  destruct n as [|n]; cbn [lookup list_lookup] in Hn.
  - injection Hn as <-. split; [done|]. intros i P HP. rewrite Z.mul_1_r. by apply Hm.
  - destruct (IH (256 * k)%Z Hrest) with (n := n) (row := r) as [Hlr Hmr]; [|done|].
    + intros row' Q Hrow HQ. destruct rest as [|next rest]; [done|]. injection Hrow as ->.
      rewrite HQ in Hx. destruct (row !! 7%nat) as [P|] eqn:HP; [|done].
      pose proof (multiple_doubled 5 _ _ _ (Hm _ _ HP) Hx) as Hd.
      replace (256 * k)%Z with (2 ^ Z.of_nat 5 * ((Z.of_nat 7 + 1) * k)) by lia. done.
    + split; [done|]. intros i P HP. pose proof (Hmr i P HP) as H.
      rewrite Nat2Z.inj_succ, Z.pow_succ_r by lia.
      replace ((Z.of_nat i + 1) * (256 * 256 ^ Z.of_nat n) * k)
        with ((Z.of_nat i + 1) * 256 ^ Z.of_nat n * (256 * k)) by ring. done.
Qed.

(** ** The check of the tables *)

Lemma entries_sound rows : forallb (forallb entry_ok) rows = true ->
  forall i row, rows !! i = Some row -> forall j e, row !! j = Some e -> precomputed e (pt (affine e)).
Proof.
  rewrite forallb_forall. intros H i row Hi j e Hj. apply entry_sound.
  specialize (H row ltac:(apply list_elem_of_In, list_elem_of_lookup; eauto)).
  rewrite forallb_forall in H. apply H, list_elem_of_In, list_elem_of_lookup. eauto.
Qed.

Lemma entries_checked : forallb (forallb entry_ok) (bi :: base) = true.
Proof. vm_compute. reflexivity. Qed.
Lemma rows_checked : rows_ok (map (map affine) base) = true.
Proof. vm_compute. reflexivity. Qed.
(** The odd multiples: each is the one before it plus [2 B], the second entry of [base[0]]. *)
Definition odd_row_ok (row doubles : list coordinates) : bool :=
  match row, doubles with
  | P :: rest, _ :: D :: _ => (length rest =? 7)%nat && steps_ok D P rest
  | _, _ => false
  end.
Lemma bi_checked : odd_row_ok (map affine bi) (map affine base_0) = true.
Proof. vm_compute. reflexivity. Qed.

Lemma odd_row_sound row doubles :
  odd_row_ok row doubles = true -> (forall P, row !! 0%nat = Some P -> multiple 1 P) ->
  (forall D, doubles !! 1%nat = Some D -> multiple 2 D) ->
  forall j P, row !! j = Some P -> multiple (2 * Z.of_nat j + 1) P.
Proof.
  destruct row as [|P rest]; [discriminate|]. destruct doubles as [|P0 [|D r]]; [discriminate..|].
  cbn [odd_row_ok]. intros [_ H]%andb_true_iff H1 H2 [|j] Q; cbn [lookup list_lookup].
  - intros [= <-]. by apply H1.
  - intros HQ. pose proof (steps_sound _ _ _ _ _ (H2 D eq_refl) (H1 P eq_refl) H j Q HQ) as Hm.
    replace (2 * Z.of_nat (S j) + 1) with (1 + 2 * (Z.of_nat j + 1)) by lia. done.
Qed.

(** Both tables start with the base point. *)
Definition starts_with_B (row : list PreComputedGroupElement) : bool :=
  match row with
  | e :: _ => same (affine e).1 (big B.1) && same (affine e).2 (big B.2)
  | [] => false
  end.
Lemma starts_checked : forallb starts_with_B [bi; base_0] = true.
Proof. vm_compute. reflexivity. Qed.

Lemma starts_sound row P : starts_with_B row = true -> map affine row !! 0%nat = Some P -> multiple 1 P.
Proof.
  destruct row as [|e row]; [done|]. cbn [starts_with_B map lookup list_lookup].
  intros [Hx%same_sound Hy%same_sound]%andb_true_iff [= <-]. unfold multiple. rewrite zmul_1.
  rewrite big_value in Hx, Hy. done.
Qed.

Lemma portable_base_length : length base = 32%nat.
Proof. done. Qed.

Lemma base_multiple i j row P :
  base !! i = Some row -> map affine row !! j = Some P -> multiple ((Z.of_nat j + 1) * 256 ^ Z.of_nat i) P.
Proof.
  intros Hi Hj. destruct (rows_sound 1 _ rows_checked) with (n := i) (row := map affine row) as [_ Hm].
  - intros r Q Hr HQ. pose proof starts_checked as Hs. cbn [forallb] in Hs.
    rewrite !andb_true_iff in Hs. apply (starts_sound base_0); [tauto|].
    injection Hr as <-. exact HQ.
  - change (map (map affine) base) with (map affine <$> base). rewrite list_lookup_fmap, Hi. done.
  - rewrite <- (Z.mul_1_r (_ * _)). by apply Hm.
Qed.

Lemma affine_lookup row j e : row !! j = Some e -> map affine row !! j = Some (affine e).
Proof. intros Hj. change (map affine row) with (affine <$> row). rewrite list_lookup_fmap, Hj. done. Qed.

Lemma portable_base_entry i j row e :
  base !! i = Some row -> row !! j = Some e ->
  precomputed e (zmul ((Z.of_nat j + 1) * 256 ^ Z.of_nat i) B).
Proof.
  intros Hi Hj. pose proof (base_multiple i j row _ Hi (affine_lookup _ _ _ Hj)) as Hm.
  unfold multiple in Hm. rewrite <- Hm. by eapply (entries_sound _ entries_checked (S i)).
Qed.

Lemma portable_base_row_length i row : base !! i = Some row -> length row = 8%nat.
Proof.
  intros Hi. assert (H : forallb (fun r => (length r =? 8)%nat) base = true) by reflexivity.
  rewrite forallb_forall in H. apply Nat.eqb_eq, H, list_elem_of_In, list_elem_of_lookup. eauto.
Qed.

Lemma portable_bi_entry j e : bi !! j = Some e -> precomputed e (zmul (2 * Z.of_nat j + 1) B).
Proof.
  intros Hj. pose proof starts_checked as Hs. cbn [forallb] in Hs. rewrite !andb_true_iff in Hs.
  assert (Hm : multiple (2 * Z.of_nat j + 1) (affine e)).
  { apply (odd_row_sound _ _ bi_checked); [| |exact (affine_lookup bi j e Hj)].
    - intros P. apply (starts_sound bi). tauto.
    - intros D. exact (base_multiple 0 1 base_0 D eq_refl). }
  unfold multiple in Hm. rewrite <- Hm. by eapply (entries_sound _ entries_checked 0).
Qed.

#[export] Instance portable_tables : TableLaws portable_laws portable_constants := {|
  base_length := portable_base_length; base_row_length := portable_base_row_length;
  base_entry := portable_base_entry; bi_length := eq_refl; bi_entry := portable_bi_entry;
|}.

(** ** The order of the base point *)

(** The order of the group the base point generates, the modulus of scalar.go. *)
Definition order : Z := Scalar.l.

Definition proj_add (r : bigZ * bigZ * bigZ) (Q : coordinates) : bigZ * bigZ * bigZ :=
  let '(X, Y, Z) := r in
  let a := mulm X Q.1 in let b := mulm Y Q.2 in let c := mulm Z Z in
  let e := mulm (big cd) (mulm a b) in
  let g := BigZ.add c e in
  let f := BigZ.sub c e in
  (mulm (mulm Z (BigZ.add (mulm X Q.2) (mulm Y Q.1))) f, mulm (mulm Z (BigZ.add b a)) g, mulm g f).

Lemma proj_add_sound r Q P :
  represents (values r) P -> curve P -> curve (pt Q) -> represents (values (proj_add r Q)) (padd P (pt Q)).
Proof.
  destruct r as [[X Y] Z], Q as [x y]. intros (NZ & EX & EY) HP HQ. unfold values, proj_add. cbv zeta.
  unfold pt in *. cbn [fst snd] in *.
  destruct (sum_fractions ([Z] * ([X] * [y] + [Y] * [x])) ([Z] * ([Y] * [y] + [X] * [x]))
    ([Z] * [Z] + cd * ([X] * [x] * ([Y] * [y]))) ([Z] * [Z] - cd * ([X] * [x] * ([Y] * [y]))) ([Z] * [Z]) P ([x], [y]))
    as ((Ng & Nf) & E1 & E2); try done.
  - by apply eqp_nonzero_mul.
  - rewrite EX, EY. cbn [fst snd]. apply (eqp_diff _ _ 0). ring.
  - rewrite EX, EY. unfold cross. cbn [fst snd]. apply (eqp_diff _ _ 0). ring.
  - rewrite EX, EY. cbn [fst snd]. apply (eqp_diff _ _ 0). ring.
  - rewrite EX, EY. unfold cross. cbn [fst snd]. apply (eqp_diff _ _ 0). ring.
  - revert E1 E2. destruct (padd P ([x], [y])) as [x' y']. cbn [fst snd]. intros E1 E2.
    unfold represents. big. split; [by apply eqp_nonzero_mul|]. split; cbn [fst snd].
    + rewrite E1. apply (eqp_diff _ _ 0). ring.
    + rewrite E2. apply (eqp_diff _ _ 0). ring.
Qed.

(** Double and add, over the bits of a scalar. *)
Fixpoint pos_multiple (k : positive) (Q : coordinates) : bigZ * bigZ * bigZ :=
  match k with
  | xH => (Q.1, Q.2, big 1)
  | xO k => proj_double (pos_multiple k Q)
  | xI k => proj_add (proj_double (pos_multiple k Q)) Q
  end.

Lemma pos_multiple_sound k Q :
  curve (pt Q) -> represents (values (pos_multiple k Q)) (zmul (Zpos k) (pt Q)).
Proof.
  intros HQ. induction k as [k IH | k IH |]; cbn [pos_multiple].
  - replace (Zpos k~1) with (2 * Zpos k + 1) by lia.
    rewrite zmul_add, zmul_1, zmul_double by done.
    apply proj_add_sound; [apply proj_double_sound | |]; auto with curve.
  - replace (Zpos k~0) with (2 * Zpos k) by lia. rewrite zmul_double by done.
    apply proj_double_sound; auto with curve.
  - rewrite zmul_1. unfold values, represents, pt. cbn [fst snd]. rewrite big_value, !Z.mul_1_r.
    split; [exact eqp_0_1 | done].
Qed.

Lemma order_checked :
  (let '(X, Y, Z) := pos_multiple (Z.to_pos order) (big B.1, big B.2) in zero X && same Y Z) = true.
Proof. vm_compute. reflexivity. Qed.

Lemma represents_zero X Y Z P : represents (X, Y, Z) P -> X =p 0 -> Y =p Z -> P == pzero.
Proof.
  intros (NZ & EX & EY) Hx Hy. rewrite Hx in EX. rewrite Hy in EY.
  split; cbn [fst snd pzero]; apply (eqp_cancel Z); try done; rewrite !(Z.mul_comm Z).
  - rewrite <- EX, Z.mul_0_l. done.
  - rewrite <- EY, Z.mul_1_l. done.
Qed.

Lemma order_B : zmul order B == pzero.
Proof.
  assert (EB : pt (big B.1, big B.2) = B) by (unfold pt; cbn [fst snd]; by rewrite !big_value).
  pose proof (pos_multiple_sound (Z.to_pos order) (big B.1, big B.2)) as H. rewrite EB in H.
  specialize (H curve_B). change (Zpos (Z.to_pos order)) with order in H.
  pose proof order_checked as Hc. revert H Hc.
  generalize (pos_multiple (Z.to_pos order) (big B.1, big B.2)) (zmul order B). intros [[X Y] Z] P H Hc.
  apply andb_true_iff in Hc as [Hx%zero_sound Hy%same_sound]. exact (represents_zero _ _ _ _ H Hx Hy).
Qed.

(** ** Theorems *)

(** C35. The tables hold the multiples of the base point: [base[i][j]] is [(j+1) 256^i B] for the 32
    rows of 8, and [bi[j]] is [(2 j + 1) B], all as [(y+x, y-x, 2dxy)] of points of the curve
    with limbs of the size the additions take; B has y = 4/5, and l times B is zero. *)
Theorem tables_correct (i j : nat) (row : list PreComputedGroupElement) (e o : PreComputedGroupElement) :
  base !! i = Some row -> row !! j = Some e -> bi !! j = Some o ->
  (length base = 32%nat /\ length row = 8%nat /\ length bi = 8%nat) /\
  precomputed e (zmul ((Z.of_nat j + 1) * 256 ^ Z.of_nat i) B) /\
  precomputed o (zmul (2 * Z.of_nat j + 1) B) /\
  curve B /\ 5 * B.2 =p 4 /\ zmul Scalar.l B == pzero.
Proof.
  intros Hi Hj Ho. split; [split; [reflexivity | split; [by eapply portable_base_row_length | reflexivity]]|].
  split; [by eapply portable_base_entry|]. split; [by apply portable_bi_entry|]. split; [exact curve_B|].
  split; [split; vm_compute; reflexivity | exact order_B].
Qed.

Lemma tables_correct_witness :
  exists e, base_31 !! 7%nat = Some e /\ precomputed e (zmul ((Z.of_nat 7 + 1) * 256 ^ Z.of_nat 31) B).
Proof.
  assert (Hb : (7 < length base_31)%nat) by (apply Nat.ltb_lt; reflexivity).
  assert (Ho : (7 < length bi)%nat) by (apply Nat.ltb_lt; reflexivity).
  apply lookup_lt_is_Some in Hb as [e He], Ho as [o Ho].
  destruct (tables_correct 31 7 base_31 e o eq_refl He Ho) as (_ & H & _).
  exists e. split; [exact He | exact H].
Defined.
