(* ===== verification/TableAmd64.v ===== *)
(** * The tables of amd64

    The constants and tables of [const_amd64.go] ([ConstAmd64.v]) are those of [const.go]
    ([Const.v]) in the other representation: entry by entry the same values modulo p, with limbs
    of the right size.  What [Table.v] shows of the one follows for the other. *)

From Stdlib Require Import Setoid Morphisms.
From S2P Require Import Prelude Prime Word Modp Fe FeAmd64 Const ConstAmd64 FieldRep Field Scalar Curve Group Table.
#[local] Open Scope Z_scope.

#[export] Instance amd64_constant_laws : ConstantLaws amd64_laws amd64_constants.
Proof.
  split; (split; [vm_compute; repeat split; congruence | split; vm_compute; reflexivity]).
Defined.

(** ** The comparison *)

(** The limbs of a result, in the portable representation and on amd64. *)
Definition small_limbs (f : FeAmd64.FieldElement) : bool :=
  forallb (fun x => (0 <=? x) && (x <? 2 ^ 52)) [FeAmd64.fe0 f; FeAmd64.fe1 f; FeAmd64.fe2 f; FeAmd64.fe3 f; FeAmd64.fe4 f].

Definition same_element (f : Fe.FieldElement) (g : FeAmd64.FieldElement) : bool :=
  small_limbs g && ((Fe.val f - FeAmd64.val g) mod p =? 0).
Definition same_entry (e : PreComputedGroupElement (F := portable)) (e' : PreComputedGroupElement (F := amd64)) : bool :=
  same_element (yPlusX e) (yPlusX e') && same_element (yMinusX e) (yMinusX e') && same_element (xy2d e) (xy2d e').

Fixpoint same_list {A B} (same : A -> B -> bool) (l : list A) (k : list B) : bool :=
  match l, k with
  | [], [] => true
  | a :: l, b :: k => same a b && same_list same l k
  | _, _ => false
  end.

Lemma same_list_lookup {A B} (same : A -> B -> bool) l k :
  same_list same l k = true ->
  length k = length l /\ forall i b, k !! i = Some b -> exists a, l !! i = Some a /\ same a b = true.
Proof.
  revert k. induction l as [|a l IH]; intros [|b k] H; try discriminate; [done|].
  apply andb_true_iff in H as [Hab Hl]. destruct (IH k Hl) as [El Hk]. split; [cbn [length]; lia|].
  intros [|i] c; cbn [lookup list_lookup]; [|by apply Hk]. intros [= <-]. by exists a.
Qed.

Lemma same_element_sound f g :
  same_element f g = true -> tight (L := amd64_laws) g /\ val (FieldLaws := amd64_laws) g =p val (FieldLaws := portable_laws) f.
Proof.
  unfold same_element. rewrite andb_true_iff. intros [Hs Hv%Z.eqb_eq]. split.
  - unfold small_limbs in Hs. cbn [forallb] in Hs. rewrite !andb_true_iff, !Z.leb_le, !Z.ltb_lt in Hs.
    cbn. unfold FeAmd64.size, FeAmd64.within. lia.
  - symmetry. apply eqp_sub_0, eqp_iff. rewrite Z.mod_0_l by done. exact Hv.
Qed.

Lemma same_entry_sound e e' P :
  same_entry e e' = true -> precomputed (L := portable_laws) e P -> precomputed (L := amd64_laws) e' P.
Proof.
  destruct e as [a b c], e' as [a' b' c']. unfold same_entry. cbn [yPlusX yMinusX xy2d].
  rewrite !andb_true_iff. intros [[Ha Hb] Hc]. apply same_element_sound in Ha as [Ta Ea], Hb as [Tb Eb], Hc as [Tc Ec].
  intros (_ & H1 & H2 & H3). split; [done|]. by rewrite Ea, Eb, Ec.
Qed.

Lemma base_same : same_list (same_list same_entry) Const.base ConstAmd64.base = true.
Proof. vm_compute. reflexivity. Qed.
Lemma bi_same : same_list same_entry Const.bi ConstAmd64.bi = true.
Proof. vm_compute. reflexivity. Qed.

Lemma base_row i row :
  base (Constants := amd64_constants) !! i = Some row ->
  exists row', base (Constants := portable_constants) !! i = Some row' /\ same_list same_entry row' row = true.
Proof. apply (same_list_lookup _ _ _ base_same). Qed.

#[export] Instance amd64_tables : TableLaws amd64_laws amd64_constants.
Proof.
  split.
  - reflexivity.
  - intros i row (row' & Hi & Hs)%base_row. destruct (same_list_lookup _ _ _ Hs) as [-> _].
    by apply (base_row_length (TableLaws := portable_tables) i).
  - intros i j row e (row' & Hi & Hs)%base_row Hj.
    destruct (same_list_lookup _ _ _ Hs) as [_ H]. destruct (H j e Hj) as (e' & He & Hse).
    eapply same_entry_sound; [exact Hse | by eapply (base_entry (TableLaws := portable_tables))].
  - reflexivity.
  - intros j e Hj. destruct (same_list_lookup _ _ _ bi_same) as [_ H]. destruct (H j e Hj) as (e' & He & Hse).
    eapply same_entry_sound; [exact Hse | by apply (bi_entry (TableLaws := portable_tables))].
Qed.
