(* ===== verification/Recode.v ===== *)
(** * Recoding of scalars

    The digit expansions the scalar multiplications of
    [src/crypto/ed25519/internal/edwards25519/group.go] work on: [slide], the sliding-window
    form of the variable-time multiplication (256 digits in base 2, each zero or odd and at
    most 15 in absolute value), and the signed radix-16 form of the fixed-base one (64 digits
    between -8 and 8).  Both have the value of the scalar, and no [int8] overflows. *)

From S2P Require Import Prelude Word.
#[local] Open Scope Z_scope.

Definition i8 (z : Z) : Z := sint 8 z.

(** The entry [r[i]] of an array; every index the code uses is in range. *)
Definition at_ (r : list Z) (i : nat) : Z := nth i r 0.

(** ** slide *)

(** [r[i] = int8(1 & (a[i>>3] >> uint(i&7)))] *)
Definition slide_bits (a : bytes) : list Z :=
  map (fun i => i8 (Z.land 1 (Z.shiftr (ith a (i / 8)) (Z.of_nat (i mod 8))))) (seq 0 256).

(** [for k := i + b; k < 256; k++ { if r[k] == 0 { r[k] = 1; break }; r[k] = 0 }], on the
    entries from [k] on *)
Fixpoint slide_carry (r : list Z) : list Z :=
  match r with
  | [] => []
  | x :: r => if x =? 0 then 1 :: r else 0 :: slide_carry r
  end.

(** The loop on [b], with the number of turns left. *)
Fixpoint slide_inner (n : nat) (i b : nat) (r : list Z) : list Z :=
  match n with
  | O => r
  | S n =>
      if (256 <=? i + b)%nat then r
      else if at_ r (i + b) =? 0 then slide_inner n i (S b) r
      else
        let s := i8 (Z.shiftl (at_ r (i + b)) (Z.of_nat b)) in
        if i8 (at_ r i + s) <=? 15 then
          slide_inner n i (S b) (<[(i + b)%nat := 0]> (<[i := i8 (at_ r i + s)]> r))
        else if -15 <=? i8 (at_ r i - s) then
          let r := <[i := i8 (at_ r i - s)]> r in
          slide_inner n i (S b) (take (i + b) r ++ slide_carry (drop (i + b) r))
        else r
  end.

Definition slide (a : bytes) : list Z :=
  fold_left (fun r i => if at_ r i =? 0 then r else slide_inner 6 i 1 r) (seq 0 256) (slide_bits a).

(** ** The radix-16 form *)

(** [e[2*i] = int8(v & 15); e[2*i+1] = int8((v >> 4) & 15)] *)
Definition nibbles (a : bytes) : list Z :=
  flat_map (fun v => [i8 (Z.land (b2z v) 15); i8 (Z.land (Z.shiftr (b2z v) 4) 15)]) a.

(** The carry loop: all entries but the last pass a carry on; the last one takes it. *)
Fixpoint recode (carry : Z) (e : list Z) : list Z :=
  match e with
  | [] => []
  | [x] => [i8 (x + carry)]
  | x :: e =>
      let x := i8 (x + carry) in
      let carry := Z.shiftr (i8 (x + 8)) 4 in
      i8 (x - i8 (Z.shiftl carry 4)) :: recode carry e
  end.

Definition radix16 (a : bytes) : list Z := recode 0 (nibbles a).

(** Linear arithmetic with quotients and remainders by constants. *)
Ltac divlia := Z.div_mod_to_equations; lia.

(** ** Values *)

(** The integer of a list of digits, the least significant one first. *)
Fixpoint horner (b : Z) (l : list Z) : Z := match l with [] => 0 | x :: l => x + b * horner b l end.

Lemma horner_app b l l' : horner b (l ++ l') = horner b l + b ^ zlen l * horner b l'.
Proof.
  unfold zlen. induction l as [|x l IH]; cbn [app horner length]; [lia|].
  rewrite IH, Nat2Z.inj_succ, Z.pow_succ_r by lia. ring.
Qed.

Lemma i8_small z : - 128 <= z < 128 -> i8 z = z.
Proof. intros. apply sint_small; lia. Qed.

(** ** Bits *)

Fixpoint bits (w : nat) (n : Z) : list Z :=
  match w with O => [] | S w => n mod 2 :: bits w (n / 2) end.

Lemma bits_length w n : length (bits w n) = w.
Proof. revert n. induction w; intros; cbn [bits length]; auto. Qed.

Lemma bits_value w n : 0 <= n < 2 ^ Z.of_nat w -> horner 2 (bits w n) = n.
Proof.
  revert n. induction w as [|w IH]; intros n Hn; cbn [bits horner]; [simpl in Hn; lia|].
  rewrite Nat2Z.inj_succ, Z.pow_succ_r in Hn by lia. rewrite IH by divlia. divlia.
Qed.

Lemma bits_seq w n k : map (fun i => Z.b2z (Z.testbit n (Z.of_nat i))) (seq k w) = bits w (n / 2 ^ Z.of_nat k).
Proof.
  revert k. induction w as [|w IH]; intros k; cbn [seq map bits]; [done|]. f_equal.
  - rewrite Z.testbit_spec' by lia. done.
  - rewrite IH, Nat2Z.inj_succ, Z.pow_succ_r, (Z.mul_comm 2), Z.div_div by lia. done.
Qed.

Lemma byte_testbit a j k :
  0 <= k < 8 -> Z.testbit (le_value a) (8 * Z.of_nat j + k) = Z.testbit (ith a j) k.
Proof.
  intros Hk. revert j. induction a as [|b a IH]; intros j; cbn [le_value].
  - unfold ith. destruct j; cbn [nth]; rewrite Z.bits_0; symmetry; apply Z.bits_0.
  - change 256 with (2 ^ 8). pose proof (b2z_range b). destruct j as [|j].
    + unfold ith. cbn [nth]. replace (8 * Z.of_nat 0 + k) with k by lia.
      rewrite <- (Z.mod_pow2_bits_low _ 8) by lia. rewrite (Z.mul_comm (2 ^ 8)), Z_mod_plus_full.
      rewrite Z.mod_small by lia. done.
    + replace (8 * Z.of_nat (S j) + k) with ((8 * Z.of_nat j + k) + 8) by lia.
      rewrite <- Z.div_pow2_bits by lia.
      rewrite (Z.mul_comm (2 ^ 8)), Z.div_add, (Z.div_small (b2z b)), Z.add_0_l by lia. apply IH.
Qed.

Lemma slide_bits_spec a : slide_bits a = bits 256 (le_value a).
Proof.
  rewrite <- (Z.div_1_r (le_value a)). change 1 with (2 ^ Z.of_nat 0) at 1. rewrite <- bits_seq.
  apply map_ext. intros i.
  pose proof (Nat.div_mod_eq i 8). pose proof (Nat.mod_upper_bound i 8 ltac:(lia)).
  replace (Z.of_nat i) with (8 * Z.of_nat (i / 8) + Z.of_nat (i mod 8)) by lia.
  rewrite byte_testbit by lia. change 1 with (2 ^ 1 - 1). rewrite land_ones_mod by lia.
  rewrite Z.shiftr_div_pow2, Z.testbit_spec' by lia. apply i8_small.
  change (2 ^ 1) with 2. pose proof (Z.mod_pos_bound (ith a (i / 8) / 2 ^ Z.of_nat (i mod 8)) 2). lia.
Qed.

(** ** The window loop

    After the turns for [1 .. b-1] at index [i], the digits are those before [i], the digit
    under construction, [b-1] zeros and the bits of what is left. *)

Definition window (pre : list Z) (r : Z) (b : nat) (n : Z) : list Z :=
  pre ++ r :: repeat 0 (b - 1) ++ bits (256 - length pre - b) n.

Lemma repeat_middle (x : Z) k l : repeat x k ++ x :: l = x :: repeat x k ++ l.
Proof. induction k as [|k IH]; cbn [repeat app]; [done|]. by rewrite IH. Qed.

Lemma slide_carry_spec w n : 0 <= n -> n + 1 < 2 ^ Z.of_nat w -> slide_carry (bits w n) = bits w (n + 1).
Proof.
  revert n. induction w as [|w IH]; intros n Hn Hw; cbn [bits slide_carry]; [done|].
  rewrite Nat2Z.inj_succ, Z.pow_succ_r in Hw by lia.
  destruct (Z.eqb_spec (n mod 2) 0) as [E|E].
  - f_equal; [divlia|]. f_equal. divlia.
  - rewrite IH by divlia. f_equal; [divlia|]. f_equal. divlia.
Qed.

Lemma window_prefix pre b (r : Z) :
  (1 <= b)%nat -> length (pre ++ r :: repeat 0 (b - 1)) = (length pre + b)%nat.
Proof. intros. rewrite length_app. cbn [length]. rewrite repeat_length. lia. Qed.

Section Window.
Context (pre : list Z) (r : Z) (b : nat) (n : Z).
Context (Hb : (1 <= b)%nat) (Hw : (length pre + b < 256)%nat).

Lemma window_digit : at_ (window pre r b n) (length pre) = r.
Proof. unfold at_, window. rewrite app_nth2, Nat.sub_diag by lia. done. Qed.

Lemma window_split :
  window pre r b n = (pre ++ r :: repeat 0 (b - 1)) ++ (n mod 2) :: bits (256 - length pre - S b) (n / 2).
Proof.
  unfold window. replace (256 - length pre - b)%nat with (S (256 - length pre - S b)) by lia.
  cbn [bits]. by rewrite <- app_assoc.
Qed.

Lemma window_bit : at_ (window pre r b n) (length pre + b) = n mod 2.
Proof.
  unfold at_. rewrite window_split, app_nth2, window_prefix, Nat.sub_diag by (rewrite ?window_prefix; lia). done.
Qed.

Lemma window_next x : (pre ++ x :: repeat 0 (b - 1)) ++ 0 :: bits (256 - length pre - S b) (n / 2) = window pre x (S b) (n / 2).
Proof.
  unfold window. rewrite <- app_assoc. cbn [app]. do 2 f_equal.
  replace (S b - 1)%nat with (S (b - 1)) by lia. cbn [repeat app]. apply repeat_middle.
Qed.

Lemma window_insert x : <[length pre := x]> (window pre r b n) = window pre x b n.
Proof. unfold window. rewrite insert_app_r_alt, Nat.sub_diag by lia. done. Qed.
End Window.

(** The bit joins the digit. *)
Lemma window_absorb pre r b n x :
  (1 <= b)%nat -> (length pre + b < 256)%nat ->
  <[(length pre + b)%nat := 0]> (<[length pre := x]> (window pre r b n)) = window pre x (S b) (n / 2).
Proof.
  intros Hb Hw. rewrite window_insert, window_split, <- window_next by done.
  rewrite <- (window_prefix pre b x Hb) at 1. rewrite insert_app_r_alt, Nat.sub_diag by lia. done.
Qed.

(** The digit turns negative, and a carry goes up. *)
Lemma window_borrow pre r b n x :
  (1 <= b)%nat -> (length pre + b < 256)%nat -> n mod 2 = 1 -> 0 <= n ->
  n + 1 < 2 ^ Z.of_nat (256 - length pre - b) ->
  (let r := <[length pre := x]> (window pre r b n) in
   take (length pre + b) r ++ slide_carry (drop (length pre + b) r)) = window pre x (S b) ((n + 1) / 2).
Proof.
  intros Hb Hw Hn H0 H1. cbv zeta. rewrite window_insert by done. rewrite <- window_next by done.
  rewrite window_split, <- (window_prefix pre b x Hb), take_app_length, drop_app_length by done.
  f_equal. cbn [slide_carry]. rewrite Hn. cbn [Z.eqb]. f_equal.
  replace (256 - length pre - b)%nat with (S (256 - length pre - S b)) in H1 by lia.
  rewrite Nat2Z.inj_succ, Z.pow_succ_r in H1 by lia.
  rewrite slide_carry_spec by divlia. f_equal. divlia.
Qed.

(** A digit that has taken [b] bits: odd, and of at most four bits until a borrow. *)
Definition digit (b : nat) (r : Z) : Prop :=
  r mod 2 = 1 /\ -15 <= r <= 15 /\ ((b <= 4)%nat -> 0 < r < 2 ^ Z.of_nat b).

Lemma window_even pre r b n :
  (1 <= b)%nat -> (length pre + b < 256)%nat -> n mod 2 = 0 -> window pre r b n = window pre r (S b) (n / 2).
Proof. intros Hb Hw Hn. rewrite window_split, Hn by done. by apply window_next. Qed.

(** One turn, at a bit that is set. *)
Lemma slide_turn k pre r b n :
  (1 <= b <= 6)%nat -> (length pre + b < 256)%nat -> n mod 2 = 1 -> 0 <= n -> digit b r ->
  ((b <= 4)%nat -> n + 1 < 2 ^ Z.of_nat (256 - length pre - b) \/ (b < 4)%nat) ->
  slide_inner (S k) (length pre) b (window pre r b n) = window pre r b n /\ (5 <= b)%nat \/
  exists r' n', slide_inner (S k) (length pre) b (window pre r b n) =
                slide_inner k (length pre) (S b) (window pre r' (S b) n') /\
    r' + 2 ^ Z.of_nat (S b) * n' = r + 2 ^ Z.of_nat b * n /\ (n' = n / 2 \/ b = 4%nat /\ n' = (n + 1) / 2) /\
    digit (S b) r'.
Proof.
  intros Hb Hw Hn H0 (Hodd & Hr & Hd) Hroom. cbn [slide_inner].
  rewrite (proj2 (Nat.leb_gt _ _)), window_bit, window_digit, Hn by lia. cbn [Z.eqb].
  assert (Es : i8 (Z.shiftl 1 (Z.of_nat b)) = 2 ^ Z.of_nat b /\ 2 <= 2 ^ Z.of_nat b <= 64).
  { destruct b as [|[|[|[|[|[|[|b]]]]]]]; try lia; (split; [reflexivity | lia]). }
  destruct Es as [-> Hs]. rewrite (i8_small (r + _)), (i8_small (r - _)) by lia.
  assert (Ep : 2 ^ Z.of_nat (S b) = 2 * 2 ^ Z.of_nat b) by (rewrite Nat2Z.inj_succ, Z.pow_succ_r by lia; lia).
  assert (Hp : 2 ^ Z.of_nat b mod 2 = 0 /\ ((b <= 3)%nat -> 2 ^ Z.of_nat b <= 8) /\
               ((4 <= b)%nat -> 16 <= 2 ^ Z.of_nat b) /\ (b = 4%nat -> 2 ^ Z.of_nat b = 16) /\ ((5 <= b)%nat -> 32 <= 2 ^ Z.of_nat b)).
  { destruct b as [|[|[|[|[|[|[|b]]]]]]]; try lia; (split_and!; try lia; reflexivity). }
  destruct Hp as (Hp2 & Hp3 & Hp4 & Hp4' & Hp5).
  set (s := 2 ^ Z.of_nat b) in *. clearbody s. rewrite Ep.
  pose proof (Z.div_mod n 2) as Dn. rewrite Hn in Dn.
  destruct (Z.leb_spec (r + s) 15) as [Hl|Hl].
  - right. exists (r + s), (n / 2). rewrite window_absorb by lia.
    split; [done|]. split; [nia|]. split; [by left|].
    assert (b < 4)%nat by lia. split; [divlia|]. split; [lia|]. intros _. rewrite Ep. lia.
  - destruct (Z.leb_spec (-15) (r - s)) as [Hg|Hg]; [|left; split; [done | lia]].
    assert (b = 4%nat) by lia. right. exists (r - s), ((n + 1) / 2).
    rewrite window_borrow by (done || lia). split; [done|].
    assert (2 * ((n + 1) / 2) = n + 1) by divlia. split; [nia|]. split; [by right|].
    split; [divlia|]. lia.
Qed.

Lemma pow2_S k : 2 ^ Z.of_nat (S k) = 2 * 2 ^ Z.of_nat k.
Proof. rewrite Nat2Z.inj_succ, Z.pow_succ_r by lia. done. Qed.

Lemma slide_inner_spec k pre r b n :
  (1 <= b)%nat -> (b + k = 7)%nat -> (length pre + b <= 256)%nat ->
  0 <= n < 2 ^ Z.of_nat (256 - length pre - b) -> digit b r ->
  ((b <= 4)%nat -> (length pre <= 251)%nat -> r + 2 ^ Z.of_nat b * n + 16 <= 2 ^ Z.of_nat (256 - length pre)) ->
  exists r' b' n', slide_inner k (length pre) b (window pre r b n) = window pre r' b' n' /\
    (1 <= b')%nat /\ (length pre + b' <= 256)%nat /\ 0 <= n' < 2 ^ Z.of_nat (256 - length pre - b') /\
    (r' mod 2 = 1 /\ -15 <= r' <= 15) /\ r' + 2 ^ Z.of_nat b' * n' = r + 2 ^ Z.of_nat b * n /\
    ((5 <= b')%nat \/ (251 < length pre)%nat).
Proof.
  revert r b n. induction k as [|k IH]; intros r b n Hb Hk Hw Hn Hd Hroom.
  { exists r, b, n. destruct Hd as (? & ? & _). split_and!; try done; try lia. }
  assert (Hc : (length pre + b = 256 \/ length pre + b < 256)%nat) by lia. destruct Hc as [Hc|Hc].
  { exists r, b, n. destruct Hd as (? & ? & _). cbn [slide_inner].
    rewrite (proj2 (Nat.leb_le _ _)) by lia. split_and!; try done; lia. }
  assert (Ew : 2 ^ Z.of_nat (256 - length pre - b) = 2 * 2 ^ Z.of_nat (256 - length pre - S b)).
  { rewrite <- pow2_S. do 2 f_equal. lia. }
  pose proof (pow2_S b) as Eb.
  destruct (Z.eq_dec (n mod 2) 0) as [E|E].
  - assert (Hs : slide_inner (S k) (length pre) b (window pre r b n) = slide_inner k (length pre) (S b) (window pre r (S b) (n / 2))).
    { cbn [slide_inner]. rewrite (proj2 (Nat.leb_gt _ _)), window_bit, E, (window_even pre r b n) by lia. done. }
    rewrite Hs. destruct Hd as (Ho & Hr & Hd4).
    assert (Ev : r + 2 ^ Z.of_nat (S b) * (n / 2) = r + 2 ^ Z.of_nat b * n).
    { rewrite Eb. assert (n = 2 * (n / 2)) by divlia. nia. }
    destruct (IH r (S b) (n / 2)) as (r' & b' & n' & H); [lia | lia | lia | divlia | | |].
    + split; [done|]. split; [done|]. intros. rewrite Eb. assert (0 < r < 2 ^ Z.of_nat b) by (apply Hd4; lia). lia.
    + intros. rewrite Ev. apply Hroom; lia.
    + exists r', b', n'. rewrite <- Ev. exact H.
  - assert (Hr4 : b = 4%nat -> n + 1 < 2 ^ Z.of_nat (256 - length pre - b)).
    { intros ->. assert (E4 : 2 ^ Z.of_nat (256 - length pre) = 16 * 2 ^ Z.of_nat (256 - length pre - 4)).
      { change 16 with (2 ^ 4). rewrite <- Z.pow_add_r by lia. f_equal. lia. }
      rewrite E4 in Hroom. change (2 ^ Z.of_nat 4) with 16 in Hroom. destruct Hd as (_ & _ & Hd). lia. }
    destruct (slide_turn k pre r b n) as [[Hs H5]|(x & m & Hs & Ev & Hm & Hdx)]; try done; try lia; try divlia.
    + rewrite Hs. exists r, b, n. destruct Hd as (? & ? & _). split_and!; try done; lia.
    + rewrite Hs. destruct (IH x (S b) m) as (r' & b' & n' & H); [lia | lia | lia | | done | |].
      * destruct Hm as [-> | [E4 ->]]; [divlia|]. specialize (Hr4 E4). divlia.
      * intros. rewrite Ev. apply Hroom; lia.
      * exists r', b', n'. rewrite <- Ev. exact H.
Qed.

(** ** The whole of slide *)

Lemma zeros_bits k w n : repeat 0 k ++ bits w n = bits (k + w) (2 ^ Z.of_nat k * n).
Proof.
  induction k as [|k IH]; cbn [repeat app Nat.add bits]; [by rewrite Z.mul_1_l|].
  rewrite IH, pow2_S. f_equal; [|f_equal].
  - replace (2 * 2 ^ Z.of_nat k * n) with (2 ^ Z.of_nat k * n * 2) by ring. by rewrite Z_mod_mult.
  - replace (2 * 2 ^ Z.of_nat k * n) with (2 ^ Z.of_nat k * n * 2) by ring. by rewrite Z_div_mult by lia.
Qed.

Lemma window_bits pre r b n :
  (1 <= b)%nat -> (length pre + b <= 256)%nat ->
  window pre r b n = (pre ++ [r]) ++ bits (256 - S (length pre)) (2 ^ Z.of_nat (b - 1) * n).
Proof.
  intros Hb Hw. unfold window. rewrite zeros_bits, <- app_assoc. cbn [app]. do 3 f_equal. lia.
Qed.

(** The digits a slide leaves. *)
Definition slide_digit (r : Z) : Prop := r = 0 \/ r mod 2 = 1 /\ -15 <= r <= 15.

(** Before index [i]: the digits of the low part, and the bits of what is left of the scalar,
    which a borrow has raised by less than the zeros that follow it allow. *)
Definition slide_state (v : Z) (i : nat) (l : list Z) : Prop :=
  exists pre n, l = pre ++ bits (256 - i) n /\ length pre = i /\
    0 <= n < 2 ^ Z.of_nat (256 - i) /\ horner 2 pre + 2 ^ Z.of_nat i * n = v /\ Forall slide_digit pre /\
    ((i <= 251)%nat -> exists (t : nat) m, n = 2 ^ Z.of_nat t * m /\ 2 ^ Z.of_nat i * n <= v + 2 ^ Z.of_nat (i + t)).

Lemma slide_step v i l :
  0 <= v < 2 ^ 253 -> (i < 256)%nat -> slide_state v i l ->
  slide_state v (S i) (if at_ l i =? 0 then l else slide_inner 6 i 1 l).
Proof.
  intros Hv Hi (pre & n & -> & <- & Hn & Hsum & Hdig & Hroom).
  assert (Ew : (256 - length pre)%nat = S (256 - S (length pre))) by lia.
  assert (Ha : at_ (pre ++ bits (256 - length pre) n) (length pre) = n mod 2).
  { unfold at_. rewrite app_nth2, Nat.sub_diag, Ew by lia. done. }
  rewrite Ha. assert (En : pre ++ bits (256 - length pre) n = pre ++ (n mod 2) :: bits (256 - S (length pre)) (n / 2)) by (by rewrite Ew).
  rewrite Ew, pow2_S in Hn.
  destruct (Z.eqb_spec (n mod 2) 0) as [E|E].
  - exists (pre ++ [0]), (n / 2). assert (E2 : n = 2 * (n / 2)) by divlia.
    rewrite En, E, length_app, horner_app, pow2_S. cbn [length horner].
    unfold zlen. rewrite <- app_assoc. split_and!; [done | lia | divlia | divlia | | | ].
    + rewrite E2 in Hsum. rewrite <- Hsum. ring.
    + apply Forall_app. split; [done|]. constructor; [by left | constructor].
    + intros Hi'. destruct Hroom as (t & m & Ht & Hb); [lia|]. destruct t as [|t].
      * exists 0%nat, (n / 2). split; [by rewrite Z.mul_1_l|]. rewrite Nat.add_0_r in *.
        rewrite pow2_S. pose proof (Z.pow_pos_nonneg 2 (Z.of_nat (length pre))). nia.
      * exists t, m. replace (S (length pre) + t)%nat with (length pre + S t)%nat by lia. rewrite pow2_S in Ht.
        split; [divlia | lia].
  - assert (E1 : n mod 2 = 1) by divlia.
    assert (Hwin : pre ++ bits (256 - length pre) n = window pre 1 1 (n / 2)).
    { rewrite En, E1. unfold window. cbn [Nat.sub repeat app]. do 3 f_equal. lia. }
    pose proof (Z.pow_pos_nonneg 2 (Z.of_nat (length pre)) ltac:(lia) ltac:(lia)) as Hpos.
    assert (Hodd : (length pre <= 251)%nat -> 2 ^ Z.of_nat (length pre) * n <= v + 2 ^ Z.of_nat (length pre)).
    { intros Hi'. destruct Hroom as (t & m & Ht & Hb); [lia|]. destruct t as [|t].
      - rewrite Nat.add_0_r in Hb. done.
      - rewrite pow2_S in Ht. rewrite Ht, <- Z.mul_assoc, Z.mul_comm, Z_mod_mult in E1. done. }
    assert (E2 : n = 1 + 2 * (n / 2)) by divlia.
    rewrite Hwin.
    destruct (slide_inner_spec 6 pre 1 1 (n / 2)) as (r' & b' & n' & Hs & Hb1 & Hb2 & Hn' & Hd & Ev & H5);
      [lia | lia | lia | | | | ].
    + replace (256 - length pre - 1)%nat with (256 - S (length pre))%nat by lia. divlia.
    + split; [done|]. split; [lia|]. intros _. done.
    + intros _ Hi'. specialize (Hodd Hi'). change (2 ^ Z.of_nat 1) with 2.
      assert (2 ^ Z.of_nat (length pre) * 2 ^ Z.of_nat (256 - length pre) = 2 ^ 256)
        by (rewrite <- Z.pow_add_r by lia; f_equal; lia).
      assert (2 ^ Z.of_nat (length pre) <= 2 ^ 251) by (apply Z.pow_le_mono_r; lia). nia.
    + change (2 ^ Z.of_nat 1) with 2 in Ev. rewrite Hs, window_bits by lia.
      assert (Eb : 2 ^ Z.of_nat b' = 2 * 2 ^ Z.of_nat (b' - 1)) by (rewrite <- pow2_S; do 2 f_equal; lia).
      assert (Ep : 2 ^ Z.of_nat (256 - S (length pre)) = 2 ^ Z.of_nat (b' - 1) * 2 ^ Z.of_nat (256 - length pre - b'))
        by (rewrite <- Z.pow_add_r by lia; f_equal; lia).
      pose proof (Z.pow_pos_nonneg 2 (Z.of_nat (b' - 1)) ltac:(lia) ltac:(lia)) as Hbpos.
      exists (pre ++ [r']), (2 ^ Z.of_nat (b' - 1) * n'). rewrite length_app, horner_app, pow2_S. cbn [length horner].
      split_and!; [done | lia | nia | nia | | |].
      * unfold zlen. rewrite <- Hsum, E2, <- Ev, Eb. ring.
      * apply Forall_app. split; [done|]. constructor; [by right | constructor].
      * intros Hi'. exists 4%nat, (2 ^ Z.of_nat (b' - 5) * n'). split.
        { rewrite Z.mul_assoc, <- Z.pow_add_r by lia. do 3 f_equal. lia. }
        specialize (Hodd ltac:(lia)). rewrite Nat2Z.inj_add, Z.pow_add_r by lia.
        change (2 ^ Z.of_nat 4) with 16. rewrite Nat2Z.inj_succ, Z.pow_succ_r by lia.
        assert (2 * (2 ^ Z.of_nat (b' - 1) * n') = n - r') by lia. nia.
Qed.

(** A scalar below 2^253 keeps its value: no borrow is lost above the last digit. *)
Lemma slide_spec a :
  le_value a < 2 ^ 253 ->
  length (slide a) = 256%nat /\ Forall slide_digit (slide a) /\ horner 2 (slide a) = le_value a.
Proof.
  intros Hv. pose proof (le_value_range a) as Hr.
  assert (H : forall k, (k <= 256)%nat -> slide_state (le_value a) k
    (fold_left (fun r i => if at_ r i =? 0 then r else slide_inner 6 i 1 r) (seq 0 k) (slide_bits a))).
  { induction k as [|k IH]; intros Hk.
    - exists [], (le_value a). rewrite slide_bits_spec. cbn [app horner seq fold_left length].
      assert (2 ^ 253 <= 2 ^ Z.of_nat (256 - 0)) by (apply Z.pow_le_mono_r; lia).
      split_and!; [done | done | lia | lia | lia | constructor |].
      intros _. exists 0%nat, (le_value a). change (2 ^ Z.of_nat 0) with 1. change (2 ^ Z.of_nat (0 + 0)) with 1. lia.
    - rewrite seq_S, fold_left_app. cbn [fold_left]. apply slide_step; [lia | lia | apply IH; lia]. }
  destruct (H 256%nat) as (pre & n & E & Hl & Hn & Hs & Hd & _); [lia|].
  unfold slide. rewrite E. change (256 - 256)%nat with 0%nat in *. cbn [bits]. rewrite app_nil_r.
  change (2 ^ Z.of_nat 0) with 1 in Hn. split; [done|]. split; [done|]. lia.
Qed.

(** ** The radix-16 form *)

Lemma recode_spec c e :
  c = 0 \/ c = 1 -> Forall (fun x => 0 <= x <= 15) e -> (forall x, last e = Some x -> x <= 7) ->
  length (recode c e) = length e /\ Forall (fun x => -8 <= x <= 8) (recode c e) /\
  (e <> [] -> horner 16 (recode c e) = horner 16 e + c).
Proof.
  revert c. induction e as [|x e IH]; intros c Hc He Hl; [done|].
  apply Forall_cons in He as [Hx He].
  destruct e as [|y e].
  - specialize (Hl x eq_refl). cbn [recode length horner]. rewrite i8_small by lia.
    split; [done|]. split; [constructor; [lia | constructor]|]. lia.
  - change (recode c (x :: y :: e)) with
      (let x := i8 (x + c) in let c := Z.shiftr (i8 (x + 8)) 4 in
       i8 (x - i8 (Z.shiftl c 4)) :: recode c (y :: e)).
    cbv zeta. rewrite !(i8_small (x + c)), (i8_small (x + c + 8)) by lia.
    rewrite Z.shiftr_div_pow2, Z.shiftl_mul_pow2 by lia. change (2 ^ 4) with 16.
    set (q := (x + c + 8) / 16). assert (Hq : q = 0 \/ q = 1) by (subst q; divlia).
    assert (Hd : -8 <= x + c - q * 16 <= 8) by (subst q; divlia).
    destruct (IH q Hq He Hl) as (L & F & V).
    rewrite (i8_small (q * 16)), i8_small by lia. cbn [length horner]. rewrite V by done.
    split; [by rewrite L|]. split; [constructor; done|]. intros _. cbn [horner]. lia.
Qed.

Lemma nibble_values v : 0 <= v < 256 ->
  i8 (Z.land v 15) = v mod 16 /\ i8 (Z.land (Z.shiftr v 4) 15) = v / 16.
Proof.
  intros Hv. change 15 with (2 ^ 4 - 1). rewrite !(Z.land_comm _ (2 ^ 4 - 1)), !land_ones_mod by lia.
  rewrite Z.shiftr_div_pow2 by lia. change (2 ^ 4) with 16. split; rewrite i8_small; divlia.
Qed.

Lemma nibbles_spec a :
  length (nibbles a) = (2 * length a)%nat /\ Forall (fun x => 0 <= x <= 15) (nibbles a) /\
  horner 16 (nibbles a) = le_value a.
Proof.
  induction a as [|b a (L & F & V)]; [done|].
  destruct (nibble_values (b2z b) (b2z_range b)) as [E1 E2]. pose proof (b2z_range b).
  change (nibbles (b :: a)) with (i8 (Z.land (b2z b) 15) :: i8 (Z.land (Z.shiftr (b2z b) 4) 15) :: nibbles a).
  rewrite E1, E2. cbn [length horner le_value]. rewrite L, V. split; [lia|].
  split; [|divlia]. constructor; [divlia|]. constructor; [divlia|]. done.
Qed.

Lemma horner_last (l : list Z) x :
  Forall (fun x => 0 <= x <= 15) l -> last l = Some x -> 16 ^ (zlen l - 1) * x <= horner 16 l.
Proof.
  unfold zlen. induction l as [|y l IH]; intros Hf Hl; [done|].
  apply Forall_cons in Hf as [Hy Hf]. destruct l as [|z l].
  - injection Hl as <-. cbn [length horner]. change (16 ^ (Z.of_nat 1 - 1)) with 1. lia.
  - specialize (IH Hf Hl). cbn [horner] in *. cbn [length] in *.
    replace (Z.of_nat (S (S (length l))) - 1) with (Z.succ (Z.of_nat (S (length l)) - 1)) by lia.
    rewrite Z.pow_succ_r by lia. lia.
Qed.

(** With [a[31] <= 127] the last digit takes its carry. *)
Lemma radix16_spec a :
  length a = 32%nat -> le_value a < 2 ^ 255 ->
  length (radix16 a) = 64%nat /\ Forall (fun x => -8 <= x <= 8) (radix16 a) /\
  horner 16 (radix16 a) = le_value a.
Proof.
  intros Ha Hv. destruct (nibbles_spec a) as (L & F & V). rewrite Ha in L.
  destruct (recode_spec 0 (nibbles a)) as (L' & F' & V'); [by left | done | |].
  - intros x Hx. pose proof (horner_last _ _ F Hx) as H. rewrite V in H. unfold zlen in H. rewrite L in H.
    change (16 ^ (Z.of_nat (2 * 32) - 1)) with (2 ^ 252) in H. lia.
  - unfold radix16. rewrite L', L. split; [done|]. split; [done|]. rewrite V', V, Z.add_0_r; [done|].
    intros E. rewrite E in L. discriminate.
Qed.
