(* ===== verification/ScalarMult.v ===== *)
(** * Scalar multiplication

    The two multiplications of [src/crypto/ed25519/internal/edwards25519/group.go]:
    [GeScalarMultBase] (a fixed base, by [selectPoint] from the table [base]) and
    [GeDoubleScalarMultVartime] (a variable point and the base, by sliding windows and the table
    [bi]).  The first computes [a B] and the second [a A + b B], over the recodings of [Recode.v],
    the group operations of [Group.v] and any tables with the laws of [Table.v]. *)

From Stdlib Require Import Setoid Morphisms.
From S2P Require Import Prelude Prime Word Modp Fe Const FieldRep Field Curve Group Table Recode.
#[local] Open Scope Z_scope.

Section Operations.
Context {F : FieldElements} {C : Constants F}.

(** ** Selecting a multiple in constant time *)

Definition equal (b c : Z) : Z :=
  let x := u32 (Z.lxor b c) in
  let x := u32 (x - 1) in
  i32 (Z.shiftr x 31).

Definition negative (b : Z) : Z := Z.land (Z.shiftr b 31) 1.

Definition PreComputedGroupElementCMove (t u : PreComputedGroupElement) (b : Z) : PreComputedGroupElement :=
  mkPre (FeCMove (yPlusX t) (yPlusX u) b) (FeCMove (yMinusX t) (yMinusX u) b) (FeCMove (xy2d t) (xy2d u) b).

(** [base[pos][i]]; the code's indices are in range. *)
Definition base_at (pos i : Z) : PreComputedGroupElement :=
  nth (Z.to_nat i) (nth (Z.to_nat pos) base []) PreComputed_Zero.

Definition selectPoint (pos b : Z) : PreComputedGroupElement :=
  let bNegative := negative b in
  let bAbs := (b - (Z.land (- bNegative) b << 1))%int32 in
  let t := fold_left (fun t i => PreComputedGroupElementCMove t (base_at pos i) (equal bAbs (i + 1)%int32))
             [0; 1; 2; 3; 4; 5; 6; 7] PreComputed_Zero in
  let minusT := mkPre (FeCopy (yMinusX t)) (FeCopy (yPlusX t)) (FeNeg (xy2d t)) in
  PreComputedGroupElementCMove t minusT bNegative.

(** ** The fixed base *)

(** [selectPoint(&t, i/2, int32(e[i])); geMixedAdd(&r, h, &t); r.ToExtended(h)] *)
Definition add_digit (e : list Z) (h : ExtendedGroupElement) (i : nat) : ExtendedGroupElement :=
  let t := selectPoint (Z.quot (Z.of_nat i) 2) (at_ e i) in
  let r := geMixedAdd h t in
  Completed_ToExtended r.

Definition odds : list nat := map (fun k => 2 * k + 1)%nat (seq 0 32).
Definition evens : list nat := map (fun k => 2 * k)%nat (seq 0 32).

Definition GeScalarMultBase (a : bytes) : ExtendedGroupElement :=
  let e := radix16 a in
  let h := fold_left (add_digit e) odds Extended_Zero in
  let r := Extended_Double h in
  let s := Completed_ToProjective r in
  let r := Projective_Double s in
  let s := Completed_ToProjective r in
  let r := Projective_Double s in
  let s := Completed_ToProjective r in
  let r := Projective_Double s in
  let h := Completed_ToExtended r in
  fold_left (add_digit e) evens h.

(** ** Two scalars, in variable time *)

(** [Ai]: A, 3A, ..., 15A *)
Fixpoint odd_multiples (n : nat) (A2 : ExtendedGroupElement) (Ai : CachedGroupElement) : list CachedGroupElement :=
  Ai :: match n with
        | O => []
        | S n =>
            let t := geAdd A2 Ai in
            let u := Completed_ToExtended t in
            odd_multiples n A2 (Extended_ToCached u)
        end.

Definition cached_zero : CachedGroupElement := mkCached FeZero FeZero FeZero FeZero.

(** One turn of the main loop, on the digits [aSlide[i]] and [bSlide[i]]. *)
Definition vartime_step (Ai : list CachedGroupElement) (r : ProjectiveGroupElement) (d : Z * Z) : ProjectiveGroupElement :=
  let '(x, y) := d in
  let t := Projective_Double r in
  let t :=
    if 0 <? x then geAdd (Completed_ToExtended t) (nth (Z.to_nat (Z.quot x 2)) Ai cached_zero)
    else if x <? 0 then geSub (Completed_ToExtended t) (nth (Z.to_nat (Z.quot (i8 (- x)) 2)) Ai cached_zero)
    else t in
  let t :=
    if 0 <? y then geMixedAdd (Completed_ToExtended t) (nth (Z.to_nat (Z.quot y 2)) bi PreComputed_Zero)
    else if y <? 0 then geMixedSub (Completed_ToExtended t) (nth (Z.to_nat (Z.quot (i8 (- y)) 2)) bi PreComputed_Zero)
    else t in
  Completed_ToProjective t.

(** [for i = 255; i >= 0; i-- { if aSlide[i] != 0 || bSlide[i] != 0 { break } }] *)
Fixpoint skip_zeros (l : list (Z * Z)) : list (Z * Z) :=
  match l with
  | [] => []
  | (x, y) :: l' => if negb (x =? 0) || negb (y =? 0) then l else skip_zeros l'
  end.

Definition GeDoubleScalarMultVartime (a : bytes) (A : ExtendedGroupElement) (b : bytes) : ProjectiveGroupElement :=
  let aSlide := slide a in
  let bSlide := slide b in
  let A2 := Completed_ToExtended (Extended_Double A) in
  let Ai := odd_multiples 7 A2 (Extended_ToCached A) in
  fold_left (vartime_step Ai) (skip_zeros (rev (combine aSlide bSlide))) Projective_Zero.

End Operations.

(** ** selectPoint *)

Section Select.
Context {F : FieldElements} {L : FieldLaws F} {C : Constants F} {CL : ConstantLaws L C} {TL : TableLaws L C}.

(** The limbs of an entry are those of results. *)
Definition entry (t : PreComputedGroupElement) : Prop :=
  tight (yPlusX t) /\ tight (yMinusX t) /\ tight (xy2d t).

Lemma precomputed_entry t P : precomputed t P -> entry t.
Proof. destruct t. intros [H _]. exact H. Qed.

Lemma CMove_spec t u c : entry t -> entry u -> PreComputedGroupElementCMove t u (Z.b2z c) = if c then u else t.
Proof.
  intros (H1 & H2 & H3) (H1' & H2' & H3'). unfold PreComputedGroupElementCMove.
  rewrite !FeCMove_law by done. destruct t, u, c; done.
Qed.

Lemma precomputed_neg t P :
  precomputed t P -> precomputed (mkPre (FeCopy (yMinusX t)) (FeCopy (yPlusX t)) (FeNeg (xy2d t))) (pneg P).
Proof.
  destruct t as [a b c]. intros ((Ha & Hb & Hc) & Ea & Eb & Ec). unfold FeCopy. cbn [yPlusX yMinusX xy2d].
  destruct (FeNeg_law 1 c Hc ltac:(lia)) as [Hn En].
  split; [done|]. unfold pneg. cbn [fst snd]. split_and!.
  - rewrite Eb. apply (eqp_diff _ _ 0). ring.
  - rewrite Ea. apply (eqp_diff _ _ 0). ring.
  - rewrite En, Ec. apply (eqp_diff _ _ 0). ring.
Qed.

Lemma base_at_spec pos j :
  0 <= pos < 32 -> 0 <= j < 8 -> precomputed (base_at pos j) (zmul ((j + 1) * 256 ^ pos) B).
Proof.
  intros Hp Hj. unfold base_at.
  destruct (base !! Z.to_nat pos) as [row|] eqn:E.
  2: { apply lookup_ge_None in E. rewrite base_length in E. lia. }
  rewrite (nth_lookup_Some base _ [] row E). pose proof (base_row_length _ _ E) as Hl.
  destruct (row !! Z.to_nat j) as [e|] eqn:E'.
  2: { apply lookup_ge_None in E'. lia. }
  rewrite (nth_lookup_Some row _ PreComputed_Zero e E').
  pose proof (base_entry _ _ _ _ E E') as H. rewrite !Z2Nat.id in H by lia. exact H.
Qed.

Lemma base_at_entry pos j : 0 <= pos < 32 -> 0 <= j < 8 -> entry (base_at pos j).
Proof. intros Hp Hj. by eapply precomputed_entry, base_at_spec. Qed.
Lemma zero_entry : entry PreComputed_Zero.
Proof. eapply precomputed_entry, PreComputed_Zero_spec. Qed.

Lemma equal_digit m i : 0 <= m <= 8 -> 0 <= i <= 7 -> equal m (i + 1)%int32 = Z.b2z (m =? i + 1).
Proof.
  intros Hm Hi. assert (Hc : forallb (fun m => forallb (fun i => equal m (i + 1)%int32 =? Z.b2z (m =? i + 1))
    [0; 1; 2; 3; 4; 5; 6; 7]) [0; 1; 2; 3; 4; 5; 6; 7; 8] = true) by (vm_compute; reflexivity).
  rewrite forallb_forall in Hc. specialize (Hc m). rewrite forallb_forall in Hc.
  apply Z.eqb_eq, Hc; cbn [In]; lia.
Qed.

(** The chain of moves is a chain of choices. *)
Lemma moves pos m l t :
  0 <= pos < 32 -> 0 <= m <= 8 -> entry t -> Forall (fun i => 0 <= i <= 7) l ->
  fold_left (fun t i => PreComputedGroupElementCMove t (base_at pos i) (equal m (i + 1)%int32)) l t =
  fold_left (fun t i => if m =? i + 1 then base_at pos i else t) l t.
Proof.
  intros Hp Hm Ht Hl. revert t Ht. induction Hl as [|i l Hi Hl IH]; intros t Ht; cbn [fold_left]; [done|].
  assert (Hb : entry (base_at pos i)) by (apply base_at_entry; lia).
  rewrite equal_digit, CMove_spec by done. apply IH. by destruct (m =? i + 1).
Qed.

(** It ends with the multiple of the absolute value. *)
Lemma selected pos m :
  0 <= pos < 32 -> 0 <= m <= 8 ->
  fold_left (fun t i => PreComputedGroupElementCMove t (base_at pos i) (equal m (i + 1)%int32))
    [0; 1; 2; 3; 4; 5; 6; 7] PreComputed_Zero = if m =? 0 then PreComputed_Zero else base_at pos (m - 1).
Proof.
  intros Hp Hm. rewrite moves by (done || apply zero_entry || (repeat constructor; lia)). cbn [fold_left].
  assert (m = 0 \/ m = 1 \/ m = 2 \/ m = 3 \/ m = 4 \/ m = 5 \/ m = 6 \/ m = 7 \/ m = 8) as HH by lia.
  repeat destruct HH as [-> | HH]; [reflexivity .. | rewrite HH; reflexivity].
Qed.

Lemma digit_sign b : -8 <= b <= 8 ->
  negative b = Z.b2z (b <? 0) /\ (b - (Z.land (- negative b) b << 1))%int32 = Z.abs b.
Proof.
  intros Hb. assert (Hc : forallb (fun b => (negative b =? Z.b2z (b <? 0)) &&
      ((b - (Z.land (- negative b) b << 1))%int32 =? Z.abs b))
      [-8; -7; -6; -5; -4; -3; -2; -1; 0; 1; 2; 3; 4; 5; 6; 7; 8] = true) by (vm_compute; reflexivity).
  rewrite forallb_forall in Hc. rewrite <- !Z.eqb_eq, <- andb_true_iff. apply Hc.
  simpl. lia.
Qed.

Lemma selectPoint_spec pos b :
  0 <= pos < 32 -> -8 <= b <= 8 -> precomputed (selectPoint pos b) (zmul (b * 256 ^ pos) B).
Proof.
  intros Hp Hb. unfold selectPoint. cbv zeta. destruct (digit_sign b Hb) as [-> E].
  rewrite E, selected by lia.
  destruct (Z.eqb_spec (Z.abs b) 0) as [E0|E0].
  { assert (b = 0) as -> by lia. cbn [Z.ltb Z.compare]. rewrite Z.mul_0_l.
    rewrite (CMove_spec _ _ false); [apply PreComputed_Zero_spec | apply zero_entry|].
    eapply precomputed_entry, precomputed_neg, PreComputed_Zero_spec. }
  pose proof (base_at_spec pos (Z.abs b - 1) Hp ltac:(lia)) as Hq. rewrite Z.sub_add in Hq.
  rewrite CMove_spec by first [exact (precomputed_entry _ _ Hq) | exact (precomputed_entry _ _ (precomputed_neg _ _ Hq))].
  destruct (Z.ltb_spec b 0) as [Hn|Hn].
  - rewrite Z.abs_neq in * by lia. apply precomputed_neg in Hq.
    rewrite <- zmul_opp in Hq by auto with curve.
    replace (- (- b * 256 ^ pos)) with (b * 256 ^ pos) in Hq by ring. exact Hq.
  - rewrite Z.abs_eq in * by lia. exact Hq.
Qed.

(** ** GeScalarMultBase *)

Lemma add_digit_spec e h i k :
  extended h (zmul k B) -> (i < 64)%nat -> -8 <= at_ e i <= 8 ->
  extended (add_digit e h i) (zmul (k + at_ e i * 256 ^ Z.of_nat (i / 2)) B).
Proof.
  intros Hh Hi He. unfold add_digit. cbv zeta. apply Completed_ToExtended_spec.
  rewrite zmul_add by auto with curve. apply geMixedAdd_spec; auto with curve.
  rewrite Z.quot_div_nonneg by lia. change 2 with (Z.of_nat 2). rewrite <- Nat2Z.inj_div.
  apply selectPoint_spec; [|done]. split; [lia|].
  apply (Nat2Z.inj_lt _ 32). apply Nat.Div0.div_lt_upper_bound. lia.
Qed.

Lemma add_digits_spec e l h k :
  (forall i, In i l -> (i < 64)%nat /\ -8 <= at_ e i <= 8) -> extended h (zmul k B) ->
  extended (fold_left (add_digit e) l h)
    (zmul (k + fold_right (fun i s => at_ e i * 256 ^ Z.of_nat (i / 2) + s) 0 l) B).
Proof.
  revert h k. induction l as [|i l IH]; intros h k Hl Hh; cbn [fold_left fold_right]; [by rewrite Z.add_0_r|].
  rewrite Z.add_assoc. apply IH; [intros; apply Hl; by right|].
  destruct (Hl i (or_introl eq_refl)). by apply add_digit_spec.
Qed.

Lemma double_spec p k : projective p (zmul k B) -> completed (Projective_Double p) (zmul (2 * k) B).
Proof. intros H. rewrite zmul_double by auto with curve. apply Projective_Double_spec; auto with curve. Qed.

(** The digits at positions [2 k + c], for the [k] of a list. *)
Definition weighted (e : list Z) (c : nat) (l : list nat) : Z :=
  fold_right (fun k s => at_ e (2 * k + c) * 256 ^ Z.of_nat k + s) 0 l.

Lemma weighted_positions e c l :
  (c < 2)%nat ->
  fold_right (fun i s => at_ e i * 256 ^ Z.of_nat (i / 2) + s) 0 (map (fun k => 2 * k + c)%nat l) = weighted e c l.
Proof.
  intros Hc. induction l as [|k l IH]; cbn [map fold_right weighted]; [done|]. rewrite IH.
  replace ((2 * k + c) / 2)%nat with k; [done|]. apply (Nat.div_unique _ _ _ c); lia.
Qed.

Lemma weighted_shift x y e c l : weighted (x :: y :: e) c (map S l) = 256 * weighted e c l.
Proof.
  unfold weighted. induction l as [|k l IH]; cbn [map fold_right]; [done|]. rewrite IH.
  replace (2 * S k + c)%nat with (S (S (2 * k + c))) by lia. unfold at_. cbn [nth].
  rewrite Nat2Z.inj_succ, Z.pow_succ_r by lia. ring.
Qed.

Lemma weighted_horner n e :
  length e = (2 * n)%nat -> 16 * weighted e 1 (seq 0 n) + weighted e 0 (seq 0 n) = horner 16 e.
Proof.
  revert e. induction n as [|n IH]; intros e Hl; [destruct e; done|].
  destruct e as [|x [|y e]]; cbn [length] in Hl; [lia | lia|].
  cbn [seq]. rewrite <- seq_shift. cbn [horner]. rewrite <- (IH e) by lia.
  change (weighted (x :: y :: e) ?c (0%nat :: ?l)) with
    (at_ (x :: y :: e) c * 256 ^ Z.of_nat 0 + weighted (x :: y :: e) c l).
  rewrite !weighted_shift. unfold at_. cbn [nth]. change (256 ^ Z.of_nat 0) with 1. ring.
Qed.

Lemma GeScalarMultBase_spec a :
  length a = 32%nat -> le_value a < 2 ^ 255 -> extended (GeScalarMultBase a) (zmul (le_value a) B).
Proof.
  intros Ha Hv. destruct (radix16_spec a Ha Hv) as (Hl & Hd & Hh). unfold GeScalarMultBase. cbv zeta.
  set (e := radix16 a) in *. clearbody e.
  assert (Hr : forall i, (i < 64)%nat -> (i < 64)%nat /\ -8 <= at_ e i <= 8).
  { intros i Hi. split; [done|]. rewrite Forall_forall in Hd. apply Hd. unfold at_.
    apply list_elem_of_In, nth_In. lia. }
  assert (Ho : forall i c, (c < 2)%nat -> In i (map (fun k => 2 * k + c)%nat (seq 0 32)) -> (i < 64)%nat /\ -8 <= at_ e i <= 8).
  { intros i c Hc (k & <- & Hk%in_seq)%in_map_iff. apply Hr. lia. }
  assert (Eo : odds = map (fun k => 2 * k + 1)%nat (seq 0 32)) by done.
  assert (Ee : evens = map (fun k => 2 * k + 0)%nat (seq 0 32)) by done.
  rewrite Eo, Ee.
  pose proof (add_digits_spec e _ _ 0 (fun i => Ho i 1%nat ltac:(lia)) Extended_Zero_spec) as H1.
  rewrite weighted_positions, Z.add_0_l in H1 by lia.
  set (k := weighted e 1 (seq 0 32)) in *. set (h := fold_left _ _ Extended_Zero) in *. clearbody h.
  assert (H16 : extended (Completed_ToExtended (Projective_Double (Completed_ToProjective (Projective_Double
    (Completed_ToProjective (Projective_Double (Completed_ToProjective (Extended_Double h)))))))) (zmul (2 * (2 * (2 * (2 * k)))) B)).
  { apply Completed_ToExtended_spec. do 3 (apply double_spec, Completed_ToProjective_spec).
    apply double_spec, Extended_ToProjective_spec, H1. }
  pose proof (add_digits_spec e _ _ _ (fun i => Ho i 0%nat ltac:(lia)) H16) as H2.
  rewrite weighted_positions in H2 by lia.
  replace (2 * (2 * (2 * (2 * k)))) with (16 * k) in H2 by ring.
  subst k. rewrite weighted_horner, Hh in H2 by done. exact H2.
Qed.

End Select.

(** ** GeDoubleScalarMultVartime *)

Lemma padd_swap P Q R S :
  curve P -> curve Q -> curve R -> curve S -> padd (padd P Q) (padd R S) == padd (padd P R) (padd Q S).
Proof.
  intros HP HQ HR HS. rewrite !padd_assoc by auto with curve. f_equiv.
  rewrite <- !padd_assoc by auto with curve. f_equiv. apply padd_comm.
Qed.

(** The sum [x P + y B]. *)
Definition combination (P : point) (s : Z * Z) : point := padd (zmul s.1 P) (zmul s.2 B).

Lemma curve_combination P s : curve P -> curve (combination P s).
Proof. unfold combination. auto with curve. Qed.
#[local] Hint Resolve curve_combination : curve.

Section Vartime.
Context {F : FieldElements} {L : FieldLaws F} {C : Constants F} {CL : ConstantLaws L C} {TL : TableLaws L C}.
Context (P : point) (HP : curve P).

Lemma combination_double x y : padd (combination P (x, y)) (combination P (x, y)) == combination P (2 * x, 2 * y).
Proof.
  unfold combination. cbn [fst snd]. rewrite padd_swap, !zmul_double by auto with curve. done.
Qed.

Lemma combination_l x y k : padd (combination P (x, y)) (zmul k P) == combination P (x + k, y).
Proof.
  unfold combination. cbn [fst snd]. rewrite padd_assoc, (padd_comm (zmul y B)), <- padd_assoc, zmul_add by auto with curve.
  done.
Qed.

Lemma combination_r x y k : padd (combination P (x, y)) (zmul k B) == combination P (x, y + k).
Proof.
  unfold combination. cbn [fst snd]. rewrite padd_assoc, zmul_add by auto with curve. done.
Qed.

Lemma odd_multiples_spec n A2 Ai m j :
  extended A2 (zmul 2 P) -> cached Ai (zmul m P) -> (j <= n)%nat ->
  cached (nth j (odd_multiples n A2 Ai) cached_zero) (zmul (m + 2 * Z.of_nat j) P).
Proof.
  intros H2. revert Ai m j. induction n as [|n IH]; intros Ai m j Hm Hj; cbn [odd_multiples].
  - assert (j = 0%nat) as -> by lia. cbn [nth]. rewrite Z.add_0_r. done.
  - destruct j as [|j]; cbn [nth]; [rewrite Z.add_0_r; done|].
    replace (m + 2 * Z.of_nat (S j)) with (2 + m + 2 * Z.of_nat j) by lia.
    apply IH; [|lia]. apply Extended_ToCached_spec, Completed_ToExtended_spec.
    rewrite zmul_add by done. apply geAdd_spec; auto with curve.
Qed.

(** An odd digit selects the entry of its absolute value. *)
Lemma digit_index d : d mod 2 = 1 -> 0 < d <= 15 ->
  (Z.to_nat (Z.quot d 2) <= 7)%nat /\ 2 * Z.of_nat (Z.to_nat (Z.quot d 2)) + 1 = d.
Proof. intros H1 H2. rewrite Z.quot_div_nonneg by lia. split; divlia. Qed.

Definition step_value (s d : Z * Z) : Z * Z := (2 * s.1 + d.1, 2 * s.2 + d.2).

Lemma add_multiple Ai t x y d :
  (forall j, (j <= 7)%nat -> cached (nth j Ai cached_zero) (zmul (2 * Z.of_nat j + 1) P)) ->
  completed t (combination P (x, y)) -> slide_digit d ->
  completed
    (if 0 <? d then geAdd (Completed_ToExtended t) (nth (Z.to_nat (Z.quot d 2)) Ai cached_zero)
     else if d <? 0 then geSub (Completed_ToExtended t) (nth (Z.to_nat (Z.quot (i8 (- d)) 2)) Ai cached_zero)
     else t) (combination P (x + d, y)).
Proof.
  intros HAi Ht Hd. destruct (Z.ltb_spec 0 d) as [Hp|Hp]; [|destruct (Z.ltb_spec d 0) as [Hn|Hn]].
  - destruct Hd as [?|[Ho Hd]]; [lia|]. destruct (digit_index d Ho) as [Hj Ej]; [lia|].
    rewrite <- combination_l. pose proof (HAi _ Hj) as Ha. rewrite Ej in Ha.
    apply geAdd_spec; auto with curve.
  - destruct Hd as [?|[Ho Hd]]; [lia|]. rewrite i8_small by lia.
    destruct (digit_index (- d)) as [Hj Ej]; [divlia | lia|].
    rewrite <- (Z.opp_involutive d) at 2. rewrite <- combination_l, zmul_opp by done.
    pose proof (HAi _ Hj) as Ha. rewrite Ej in Ha. apply geSub_spec; auto with curve.
  - assert (d = 0) as -> by lia. rewrite Z.add_0_r. done.
Qed.

Lemma bi_at j : (j <= 7)%nat -> precomputed (nth j bi PreComputed_Zero) (zmul (2 * Z.of_nat j + 1) B).
Proof.
  intros Hj. destruct (bi !! j) as [e|] eqn:E.
  - rewrite (nth_lookup_Some bi _ PreComputed_Zero e E). by apply bi_entry.
  - apply lookup_ge_None in E. rewrite bi_length in E. lia.
Qed.

Lemma add_multiple_base t x y d :
  completed t (combination P (x, y)) -> slide_digit d ->
  completed
    (if 0 <? d then geMixedAdd (Completed_ToExtended t) (nth (Z.to_nat (Z.quot d 2)) bi PreComputed_Zero)
     else if d <? 0 then geMixedSub (Completed_ToExtended t) (nth (Z.to_nat (Z.quot (i8 (- d)) 2)) bi PreComputed_Zero)
     else t) (combination P (x, y + d)).
Proof.
  intros Ht Hd. destruct (Z.ltb_spec 0 d) as [Hp|Hp]; [|destruct (Z.ltb_spec d 0) as [Hn|Hn]].
  - destruct Hd as [?|[Ho Hd]]; [lia|]. destruct (digit_index d Ho) as [Hj Ej]; [lia|].
    rewrite <- combination_r. pose proof (bi_at _ Hj) as Ha. rewrite Ej in Ha.
    apply geMixedAdd_spec; auto with curve.
  - destruct Hd as [?|[Ho Hd]]; [lia|]. rewrite i8_small by lia.
    destruct (digit_index (- d)) as [Hj Ej]; [divlia | lia|].
    rewrite <- (Z.opp_involutive d) at 2. rewrite <- combination_r, zmul_opp by auto with curve.
    pose proof (bi_at _ Hj) as Ha. rewrite Ej in Ha. apply geMixedSub_spec; auto with curve.
  - assert (d = 0) as -> by lia. rewrite Z.add_0_r. done.
Qed.

Lemma vartime_step_spec Ai r s d :
  (forall j, (j <= 7)%nat -> cached (nth j Ai cached_zero) (zmul (2 * Z.of_nat j + 1) P)) ->
  projective r (combination P s) -> slide_digit d.1 -> slide_digit d.2 ->
  projective (vartime_step Ai r d) (combination P (step_value s d)).
Proof.
  intros HAi Hr Hx Hy. destruct s as [x y], d as [dx dy]. unfold vartime_step, step_value. cbn [fst snd] in *.
  apply Completed_ToProjective_spec, add_multiple_base; [|done]. apply add_multiple; [done | | done].
  rewrite <- combination_double. apply Projective_Double_spec; auto with curve.
Qed.

Lemma vartime_loop Ai l r s :
  (forall j, (j <= 7)%nat -> cached (nth j Ai cached_zero) (zmul (2 * Z.of_nat j + 1) P)) ->
  Forall (fun d => slide_digit d.1 /\ slide_digit d.2) l -> projective r (combination P s) ->
  projective (fold_left (vartime_step Ai) l r) (combination P (fold_left step_value l s)).
Proof.
  intros HAi Hl. revert r s. induction Hl as [|d l [Hx Hy] Hl IH]; intros r s Hr; cbn [fold_left]; [done|].
  apply IH. by apply vartime_step_spec.
Qed.
End Vartime.

(** Leading zeros do not count. *)
Lemma skip_zeros_value l : fold_left step_value (skip_zeros l) (0, 0) = fold_left step_value l (0, 0).
Proof.
  induction l as [|[x y] l IH]; cbn [skip_zeros]; [done|].
  destruct (Z.eqb_spec x 0) as [->|Hx], (Z.eqb_spec y 0) as [->|Hy]; cbn [negb orb]; try done.
Qed.

Lemma skip_zeros_Forall Q l : Forall Q l -> Forall Q (skip_zeros l).
Proof.
  induction 1 as [|[x y] l Hd Hl IH]; cbn [skip_zeros]; [constructor|].
  destruct (negb (x =? 0) || negb (y =? 0)); [by constructor | done].
Qed.

Lemma slides_value a b :
  length a = length b -> fold_left step_value (rev (combine a b)) (0, 0) = (horner 2 a, horner 2 b).
Proof.
  intros Hl. rewrite <- (rev_involutive (combine a b)) at 1. rewrite rev_involutive.
  rewrite <- fold_left_rev_right, rev_involutive. revert b Hl.
  induction a as [|x a IH]; intros [|y b] Hl; try done. cbn [combine fold_right horner].
  rewrite IH by (cbn [length] in Hl; lia). unfold step_value. cbn [fst snd]. f_equal; lia.
Qed.

Lemma GeDoubleScalarMultVartime_spec {F : FieldElements} {L : FieldLaws F} {C : Constants F} {CL : ConstantLaws L C}
    {TL : TableLaws L C} a A b P :
  le_value a < 2 ^ 253 -> le_value b < 2 ^ 253 -> extended_within 2 A P -> curve P ->
  projective (GeDoubleScalarMultVartime a A b) (padd (zmul (le_value a) P) (zmul (le_value b) B)).
Proof.
  intros Ha Hb HA HP. destruct (slide_spec a Ha) as (La & Da & Va), (slide_spec b Hb) as (Lb & Db & Vb).
  unfold GeDoubleScalarMultVartime. cbv zeta.
  assert (HAi : forall j, (j <= 7)%nat -> cached (nth j (odd_multiples 7 (Completed_ToExtended (Extended_Double A))
    (Extended_ToCached A)) cached_zero) (zmul (2 * Z.of_nat j + 1) P)).
  { intros j Hj. rewrite (Z.add_comm _ 1). apply odd_multiples_spec; [done | | | done].
    - change 2 with (2 * 1). rewrite zmul_double, zmul_1 by done.
      apply Completed_ToExtended_spec, Extended_Double_within; done.
    - rewrite zmul_1. by apply Extended_ToCached_within. }
  change (padd (zmul (le_value a) P) (zmul (le_value b) B)) with (combination P (le_value a, le_value b)).
  rewrite <- Va, <- Vb, <- slides_value, <- skip_zeros_value by lia.
  apply vartime_loop; [done | done | |].
  - apply skip_zeros_Forall, List.Forall_rev. apply List.Forall_forall. intros [x y] Hd.
    rewrite Forall_forall in Da, Db. split; [apply Da | apply Db]; apply list_elem_of_In.
    + by eapply in_combine_l.
    + by eapply in_combine_r.
  - unfold combination. cbn [fst snd]. change (zmul 0 P) with pzero. change (zmul 0 B) with pzero.
    rewrite padd_0_l. apply Projective_Zero_spec.
Qed.

(** ** Theorems *)

(** C12. Scalar multiplication.  [GeScalarMultBase] of a scalar below 2^255 (the precondition
    [a[31] <= 127]) is that multiple of the base point, from 64 signed digits between -8 and 8;
    [GeDoubleScalarMultVartime] of two scalars below 2^253 is [a P + b B], from 256 digits that
    are zero or odd and at most 15 in absolute value and have the value of the scalar.  [A] may be
    a decoded point, whose x [FeToBytes] has normalised. *)
Theorem scalar_multiplication {F : FieldElements} {L : FieldLaws F} {C : Constants F} {CL : ConstantLaws L C}
    {TL : TableLaws L C} (k a b : bytes) (A : ExtendedGroupElement) (P : point) :
  length k = 32%nat -> le_value k < 2 ^ 255 -> le_value a < 2 ^ 253 -> le_value b < 2 ^ 253 ->
  extended_within 2 A P -> curve P ->
  (extended (GeScalarMultBase k) (zmul (le_value k) B) /\
   length (radix16 k) = 64%nat /\ Forall (fun d => -8 <= d <= 8) (radix16 k) /\ horner 16 (radix16 k) = le_value k) /\
  (projective (GeDoubleScalarMultVartime a A b) (padd (zmul (le_value a) P) (zmul (le_value b) B)) /\
   length (slide a) = 256%nat /\ Forall slide_digit (slide a) /\ horner 2 (slide a) = le_value a).
Proof.
  intros Hl Hk Ha Hb HA HP. split; (split; [|by first [apply radix16_spec | apply slide_spec]]).
  - by apply GeScalarMultBase_spec.
  - by apply GeDoubleScalarMultVartime_spec.
Qed.

(** The witness is on the portable representation. *)
#[local] Existing Instance portable.
#[local] Existing Instance portable_laws.
#[local] Existing Instance portable_constants.

Lemma scalar_multiplication_witness :
  horner 2 (slide (le_bytes 32 (2 ^ 253 - 1))) = 2 ^ 253 - 1 /\
  horner 16 (radix16 (le_bytes 32 (2 ^ 255 - 1))) = 2 ^ 255 - 1.
Proof.
  destruct (scalar_multiplication (le_bytes 32 (2 ^ 255 - 1)) (le_bytes 32 (2 ^ 253 - 1)) (le_bytes 32 5)
    Extended_Zero pzero) as ((_ & _ & _ & H1) & (_ & _ & _ & H2)).
  - reflexivity.
  - reflexivity.
  - reflexivity.
  - reflexivity.
  - exact (extended_2 _ _ Extended_Zero_spec).
  - exact curve_pzero.
  - split; [exact H2 | exact H1].
Defined.
