(* ===== verification/Ed25519.v ===== *)
(** * The ed25519 signature scheme

    [src/crypto/ed25519/base.go] (key generation, signing, verification) and
    [src/crypto/ed25519/ed25519.go] (the scheme as the [SignaturePolicy] of the network), over
    the point and scalar arithmetic of the other files, with either representation of the field
    elements.  SHA-512 is a parameter: any function
    to 64 bytes.  A genuine key signs what its public key verifies; [Verify] decides an equation
    on the curve; the policy has the laws [Crypto.v] asks of a signature scheme. *)

From Stdlib Require Import Setoid Morphisms.
From S2P Require Import Prelude Prime Word Modp Fe Const FieldRep Field Scalar Curve Group Decode Table Recode.
From S2P Require Import ScalarMult.
From S2P Require Import Messages Peer Crypto.
#[local] Open Scope Z_scope.

Definition PublicKeySize_ed : Z := 32.
Definition PrivateKeySize_ed : Z := 64.
Definition SignatureSize : Z := 64.

(** [s[i] = f(s[i])] *)
Definition update (s : bytes) (i : nat) (f : Z -> Z) : bytes := <[i := z2b (f (ith s i))]> s.

(** [PrivateKey.Public]: [copy(publicKey, priv[32:])] into 32 zero bytes. *)
Definition Public (priv : bytes) : res bytes :=
  if zlen priv <? 32 then Panic PSlice
  else
    let src := take 32 (drop 32 priv) in
    Ok (src ++ replicate (32 - length src) x00).

Section Ed25519.
Context {F : FieldElements} {C : Constants F} (sha512 : bytes -> bytes).

(** [GenerateKey(rand)]; [seed] is what reading 32 bytes from the source gives.  The result is
    the pair of the public and the private key. *)
Definition GenerateKey (seed : res bytes) : res (bytes * bytes) :=
  match seed with
  | Err e => Err e
  | Panic q => Panic q
  | Ok seed =>
      let digest := sha512 seed in
      let digest := update digest 0 (fun b => Z.land b 248) in
      let digest := update digest 31 (fun b => Z.land b 127) in
      let digest := update digest 31 (fun b => Z.lor b 64) in
      let hBytes := take 32 digest in
      let A := GeScalarMultBase hBytes in
      let publicKeyBytes := Extended_ToBytes A in
      Ok (publicKeyBytes, seed ++ publicKeyBytes)
  end.

Definition Sign (privateKey message : bytes) : res bytes :=
  if negb (zlen privateKey =? PrivateKeySize_ed) then Panic (PExplicit "ed25519: bad private key length")
  else
    let digest1 := sha512 (take 32 privateKey) in
    let expandedSecretKey := take 32 digest1 in
    let expandedSecretKey := update expandedSecretKey 0 (fun b => Z.land b 248) in
    let expandedSecretKey := update expandedSecretKey 31 (fun b => Z.land b 63) in
    let expandedSecretKey := update expandedSecretKey 31 (fun b => Z.lor b 64) in
    let messageDigest := sha512 (drop 32 digest1 ++ message) in
    let messageDigestReduced := ScReduce messageDigest in
    let R := GeScalarMultBase messageDigestReduced in
    let encodedR := Extended_ToBytes R in
    let hramDigest := sha512 (encodedR ++ drop 32 privateKey ++ message) in
    let hramDigestReduced := ScReduce hramDigest in
    let s := ScMulAdd hramDigestReduced expandedSecretKey messageDigestReduced in
    Ok (encodedR ++ s).

(** The zero value of an [ExtendedGroupElement]. *)
Definition Extended_var : ExtendedGroupElement := mkExt FeZero FeZero FeZero FeZero.

Definition Verify (publicKey message sig : bytes) : res bool :=
  if negb (zlen publicKey =? PublicKeySize_ed) then Panic (PExplicit "ed25519: bad public key length")
  else if negb (zlen sig =? SignatureSize) || negb (Z.land (ith sig 63) 224 =? 0) then Ok false
  else
    let '(A, ok) := Extended_FromBytes Extended_var publicKey in
    if negb ok then Ok false
    else
      let A := mkExt (FeNeg (eX A)) (eY A) (eZ A) (FeNeg (eT A)) in
      let digest := sha512 (take 32 sig ++ publicKey ++ message) in
      let hReduced := ScReduce digest in
      let b := drop 32 sig in
      let R := GeDoubleScalarMultVartime hReduced A b in
      let checkR := Projective_ToBytes R in
      Ok (bytes_Equal (Some (take 32 sig)) (Some checkR)).

(** [PrivateKey.Sign]: the hash function of the options must be none (0). *)
Definition PrivateKey_Sign (priv message : bytes) (HashFunc : Z) : res bytes :=
  if negb (HashFunc =? 0) then Err "ed25519: cannot sign hashed message"
  else Sign priv message.

(** ** The policy *)

Definition GenerateKeys (seed : res bytes) : res (bytes * bytes) :=
  match GenerateKey seed with
  | Ok (publicKey, privateKey) => Ok (privateKey, publicKey)
  | Err e => Err e
  | Panic q => Panic q
  end.

Definition RandomKeyPair (seed : res bytes) : res KeyPair :=
  match GenerateKey seed with
  | Ok (publicKey, privateKey) => Ok (mkKeyPair privateKey publicKey)
  | Err e => Panic (PExplicit e)
  | Panic q => Panic q
  end.

Definition Ed25519_PrivateToPublic (privateKey : bytes) : res bytes := Public privateKey.

Definition Ed25519_Sign (privateKey message : bytes) : res bytes :=
  if negb (zlen privateKey =? PrivateKeySize_ed) then Ok []
  else Sign privateKey message.

Definition Ed25519_Verify (publicKey message signature : bytes) : res bool :=
  if negb (zlen publicKey =? PublicKeySize_ed) then Ok false
  else Verify publicKey message signature.

Definition Ed25519 : SignaturePolicy := {|
  PrivateKeySize := PrivateKeySize_ed;
  PublicKeySize := PublicKeySize_ed;
  PrivateToPublic := Ed25519_PrivateToPublic;
  sp_Sign := Ed25519_Sign;
  sp_Verify := Ed25519_Verify;
|}.
End Ed25519.

(** ** Scalars *)

Lemma top_byte s :
  length s = 32%nat -> exists v, 0 <= v < 2 ^ 248 /\ le_value s = v + 2 ^ 248 * ith s 31.
Proof.
  intros Hl. destruct s as [|b s] using rev_ind; [discriminate|]. clear IHs.
  rewrite length_app in Hl. cbn [length] in Hl. assert (Hl' : length s = 31%nat) by lia.
  exists (le_value s). rewrite le_value_snoc. pose proof (le_value_range s) as Hr.
  unfold zlen in *. rewrite Hl' in *. change (256 ^ Z.of_nat 31) with (2 ^ 248) in *.
  unfold ith. rewrite app_nth2, Hl', Nat.sub_diag by lia. done.
Qed.

Lemma byte_masks b : 0 <= b < 256 ->
  Z.lor (Z.land b 127) 64 = Z.lor (Z.land b 63) 64 /\ 0 <= Z.lor (Z.land b 63) 64 < 128 /\
  (Z.land b 224 = 0 <-> b < 32).
Proof.
  intros Hb. assert (Hc : forallb (fun n => let b := Z.of_nat n in
    (Z.lor (Z.land b 127) 64 =? Z.lor (Z.land b 63) 64) && (0 <=? Z.lor (Z.land b 63) 64) &&
    (Z.lor (Z.land b 63) 64 <? 128) && eqb (Z.land b 224 =? 0) (b <? 32)) (seq 0 256) = true)
    by (vm_compute; reflexivity).
  rewrite forallb_forall in Hc. specialize (Hc (Z.to_nat b)). cbv zeta in Hc. rewrite Z2Nat.id in Hc by lia.
  rewrite !andb_true_iff in Hc. destruct Hc as (((H1 & H2) & H3) & H4); [apply in_seq; lia|].
  apply Z.eqb_eq in H1. apply Z.leb_le in H2. apply Z.ltb_lt in H3. apply eqb_prop in H4.
  split; [done|]. split; [done|]. rewrite <- Z.eqb_eq, <- Z.ltb_lt, H4. done.
Qed.

Lemma update_length s i f : length (update s i f) = length s.
Proof. apply length_insert. Qed.

Lemma update_ith s i f :
  (i < length s)%nat -> 0 <= f (ith s i) < 256 -> ith (update s i f) i = f (ith s i).
Proof.
  intros Hi Hf. unfold update. unfold ith at 1.
  rewrite (nth_lookup_Some _ _ _ _ (list_lookup_insert_eq s i _ Hi)). apply b2z_z2b_small, Hf.
Qed.

(** The secret scalar of a digest: both clampings of the code give it. *)
Definition clamp (digest : bytes) : bytes :=
  let s := update (take 32 digest) 0 (fun b => Z.land b 248) in
  update (update s 31 (fun b => Z.land b 63)) 31 (fun b => Z.lor b 64).

Lemma land_byte b m : 0 <= b < 256 -> 0 <= m -> 0 <= Z.land b m < 256.
Proof. intros Hb Hm. rewrite Z.land_comm. change 256 with (2 ^ 8).
  split; [apply Z.land_nonneg; lia|].
  rewrite <- (Z.mod_small b (2 ^ 8)), <- Z.land_ones, Z.land_assoc, Z.land_ones by lia.
  apply Z.mod_pos_bound. lia.
Qed.

Lemma update_twice s f g :
  length s = 32%nat -> 0 <= f (ith s 31) < 256 -> update (update s 31 f) 31 g = update s 31 (fun b => g (f b)).
Proof.
  intros Hl Hf. unfold update at 1. rewrite update_ith by (done || lia). unfold update. apply list_insert_insert_eq.
Qed.

Lemma update_ext s i f g : f (ith s i) = g (ith s i) -> update s i f = update s i g.
Proof. unfold update. intros ->. done. Qed.

Lemma take_update s i f : (i < 32)%nat -> take 32 (update s i f) = update (take 32 s) i f.
Proof.
  intros Hi. unfold update. rewrite take_insert_lt by done. do 2 f_equal. f_equal.
  unfold ith. f_equal. symmetry. rewrite nth_firstn. by rewrite (proj2 (Nat.ltb_lt i 32)).
Qed.

Lemma clamp_length d : length d = 64%nat -> length (clamp d) = 32%nat.
Proof. intros Hd. unfold clamp. rewrite !update_length, length_take. lia. Qed.

(** [GenerateKey] clamps the 64 bytes and [Sign] the first 32, with another mask: the scalar is
    the same. *)
Lemma GenerateKey_clamp d :
  length d = 64%nat ->
  take 32 (update (update (update d 0 (fun b => Z.land b 248)) 31 (fun b => Z.land b 127)) 31 (fun b => Z.lor b 64)) = clamp d.
Proof.
  intros Hd. rewrite !take_update by lia. unfold clamp. set (s := update (take 32 d) 0 _).
  assert (Hs : length s = 32%nat) by (unfold s; rewrite update_length, length_take; lia).
  pose proof (ith_range s 31) as Hr. rewrite !update_twice by (done || (apply land_byte; lia)).
  apply update_ext. by apply byte_masks.
Qed.

Lemma clamp_range d : length d = 64%nat -> le_value (clamp d) < 2 ^ 255.
Proof.
  intros Hd. destruct (top_byte (clamp d) (clamp_length d Hd)) as (v & Hv & ->).
  assert (H : ith (clamp d) 31 < 128); [|lia].
  unfold clamp. set (s := update (take 32 d) 0 _).
  assert (Hs : length s = 32%nat) by (unfold s; rewrite update_length, length_take; lia).
  pose proof (ith_range s 31) as Hr. destruct (byte_masks _ Hr) as (_ & Hm & _).
  rewrite update_twice by (done || (apply land_byte; lia)). rewrite update_ith; lia.
Qed.

(** ** Multiples of the base point *)

Lemma zmul_pzero k : zmul k pzero == pzero.
Proof.
  assert (H : forall n, nmul n pzero == pzero).
  { induction n as [|n IH]; cbn [nmul]; [done|]. rewrite IH. apply padd_0_l. }
  unfold zmul. destruct (k <? 0); rewrite H; [|done]. split; cbn [fst snd pneg pzero]; done.
Qed.

Lemma zmul_mod k : zmul (k mod Scalar.l) B == zmul k B.
Proof.
  rewrite (Z.div_mod k Scalar.l) at 2 by done.
  rewrite (Z.mul_comm Scalar.l), zmul_add, zmul_mul by auto with curve.
  change Scalar.l with order. rewrite order_B, zmul_pzero, padd_0_l. done.
Qed.

Lemma zmul_pneg k P : curve P -> zmul k (pneg P) == zmul (- k) P.
Proof.
  intros HP. rewrite <- (zmul_1 P) at 1. rewrite <- zmul_opp, <- zmul_mul by done. f_equiv.
  replace (k * - (1)) with (- k) by ring. done.
Qed.

Lemma l_range k : 0 <= k mod Scalar.l < 2 ^ 253.
Proof. pose proof (Z.mod_pos_bound k Scalar.l ltac:(done)). unfold Scalar.l in *. lia. Qed.

(** ** Specifications *)

(** What 32 bytes stand for: the point of the curve with that y and sign. *)
Definition decodes (s : bytes) (P : point) : Prop :=
  curve P /\ P.2 =p le_value s mod 2 ^ 255 /\ (~ P.1 =p 0 -> parity P.1 = Z.shiftr (ith s 31) 7).

Lemma decodes_unique s P Q : decodes s P -> decodes s Q -> P == Q.
Proof.
  intros (HP & EP & SP) (HQ & EQ & SQ).
  assert (Ey : P.2 =p Q.2) by (rewrite EP, EQ; done).
  assert (HP' : curve (P.1, Q.2)) by (unfold curve in *; cbn [fst snd] in *; rewrite <- Ey; done).
  split; [|done]. destruct (decide (Q.1 =p 0)) as [E0|N0].
  - symmetry. eapply (point_by_parity Q.1 P.1 Q.2); [destruct Q; exact HQ | exact HP' | done].
  - apply (point_by_parity P.1 Q.1 Q.2); [exact HP' | destruct Q; exact HQ|].
    intros N. rewrite SP, SQ by done. done.
Qed.

Lemma decodes_encoding s P :
  length s = 32%nat -> le_value s = encoding P -> curve P -> decodes s P.
Proof.
  intros Hl He HP. destruct (encoding_parts P s Hl He) as [Ey Es]. split; [done|]. rewrite Ey, Es.
  split; [|done]. apply eqp_iff. rewrite Zmod_mod. done.
Qed.

Lemma FromBytes_decodes {F : FieldElements} {L : FieldLaws F} {C : Constants F} {CL : ConstantLaws L C} q s :
  length s = 32%nat ->
  if (Extended_FromBytes q s).2 then exists P, extended_within 2 (Extended_FromBytes q s).1 P /\ decodes s P
  else forall P, ~ decodes s P.
Proof.
  intros Hl. pose proof (Extended_FromBytes_spec q s Hl) as H. revert H. unfold decoded.
  destruct (Extended_FromBytes q s) as [r [|]]; cbn [fst snd].
  - intros (x & Hx & Hc & Hs). exists (x, le_value s mod 2 ^ 255). split; [done|].
    split; [done|]. split; done.
  - intros H P (HP & Ey & _). apply (H P.1). unfold curve in *. cbn [fst snd]. rewrite <- Ey. done.
Qed.

Lemma extended_neg {F : FieldElements} {L : FieldLaws F} A P :
  extended_within 2 A P -> extended_within 2 (mkExt (FeNeg (eX A)) (eY A) (eZ A) (FeNeg (eT A))) (pneg P).
Proof.
  destruct A as [X Y Z T]. intros ((HX & HY & HZ & HT) & NZ & EX & EY & ET). cbn [eX eY eZ eT].
  destruct (FeNeg_law 2 X HX ltac:(lia)) as [HX' EX'].
  destruct (FeNeg_law 1 T HT ltac:(lia)) as [HT' ET'].
  split; [done|]. split; [done|]. unfold pneg. cbn [fst snd]. rewrite EX', ET', EX, ET.
  split_and!; [apply (eqp_diff _ _ 0); ring | done | apply (eqp_diff _ _ 0); ring].
Qed.

(** The three high bits of the second half. *)
Lemma high_bits sig :
  length sig = 64%nat -> (Z.land (ith sig 63) 224 = 0 <-> le_value (drop 32 sig) < 2 ^ 253).
Proof.
  intros Hl. destruct (top_byte (drop 32 sig)) as (v & Hv & ->); [rewrite length_drop; lia|].
  assert (E : ith (drop 32 sig) 31 = ith sig 63) by (unfold ith; rewrite nth_skipn; done).
  rewrite E. pose proof (ith_range sig 63) as Hr. destruct (byte_masks _ Hr) as (_ & _ & ->). lia.
Qed.

(** From here on the arithmetic is what its specifications say. *)
#[local] Opaque GeScalarMultBase GeDoubleScalarMultVartime ScReduce ScMulAdd Extended_ToBytes
  Projective_ToBytes Extended_FromBytes zmul padd encoding clamp Scalar.l B.

Section Scheme.
Context {F : FieldElements} {L : FieldLaws F} {C : Constants F} {CL : ConstantLaws L C} {TL : TableLaws L C}.
Context (sha512 : bytes -> bytes) (Hsha : forall m, length (sha512 m) = 64%nat).

(** The secret scalar, the public key and the private key of a seed. *)
Definition secret (seed : bytes) : Z := le_value (clamp (sha512 seed)).
Definition public_key (seed : bytes) : bytes := Extended_ToBytes (GeScalarMultBase (clamp (sha512 seed))).
Definition private_key (seed : bytes) : bytes := seed ++ public_key seed.

Lemma GenerateKey_ok seed : GenerateKey sha512 (Ok seed) = Ok (public_key seed, private_key seed).
Proof. unfold GenerateKey, private_key, public_key. cbv zeta. rewrite GenerateKey_clamp by apply Hsha. reflexivity. Qed.

Lemma public_key_spec seed :
  length (public_key seed) = 32%nat /\ le_value (public_key seed) = encoding (zmul (secret seed) B).
Proof.
  apply Extended_ToBytes_spec, GeScalarMultBase_spec; [apply clamp_length | apply clamp_range]; apply Hsha.
Qed.

(** The scalar a digest is reduced to. *)
Definition challenge (m : bytes) : Z := le_value (sha512 m) mod Scalar.l.

Lemma ScReduce_challenge m : length (ScReduce (sha512 m)) = 32%nat /\ le_value (ScReduce (sha512 m)) = challenge m.
Proof. apply ScReduce_spec, Hsha. Qed.

(** The signature of a message: the encoding of [r B], and [h a + r]. *)
Lemma Sign_ok seed message :
  length seed = 32%nat ->
  exists R s,
    Sign sha512 (private_key seed) message = Ok (R ++ s) /\ length R = 32%nat /\ length s = 32%nat /\
    let r := challenge (drop 32 (sha512 seed) ++ message) in
    le_value R = encoding (zmul r B) /\
    le_value s = (challenge (R ++ public_key seed ++ message) * secret seed + r) mod Scalar.l.
Proof.
  intros Hl. destruct (public_key_spec seed) as [Lp _].
  assert (Hk : zlen (private_key seed) = 64) by (unfold zlen, private_key; rewrite length_app; lia).
  set (rb := ScReduce (sha512 (drop 32 (sha512 seed) ++ message))).
  destruct (ScReduce_challenge (drop 32 (sha512 seed) ++ message)) as [Lr Vr]. fold rb in Lr, Vr.
  assert (Hr : le_value rb < 2 ^ 255).
  { rewrite Vr. unfold challenge. pose proof (l_range (le_value (sha512 (drop 32 (sha512 seed) ++ message)))). lia. }
  destruct (Extended_ToBytes_spec _ _ (GeScalarMultBase_spec rb Lr Hr)) as [LR VR].
  set (R := Extended_ToBytes (GeScalarMultBase rb)) in *.
  destruct (ScReduce_challenge (R ++ public_key seed ++ message)) as [Lh Vh].
  destruct (ScMulAdd_spec (ScReduce (sha512 (R ++ public_key seed ++ message))) (clamp (sha512 seed)) rb)
    as [Ls Vs]; [done | apply clamp_length, Hsha | done|].
  exists R, (ScMulAdd (ScReduce (sha512 (R ++ public_key seed ++ message))) (clamp (sha512 seed)) rb).
  split; [|split; [done|split; [done|]]].
  - unfold Sign. rewrite Hk. cbn [Z.eqb Pos.eqb negb PrivateKeySize_ed]. cbv zeta.
    unfold private_key. rewrite <- Hl, take_app_length, drop_app_length. rewrite Hl. reflexivity.
  - cbv zeta. unfold secret. rewrite VR, Vs, Vh, Vr. split; reflexivity.
Qed.

(** [Verify] on a public key of the right size. *)
Lemma Verify_spec pk message sig :
  length pk = 32%nat ->
  exists b, Verify sha512 pk message sig = Ok b /\
    (b = true <-> length sig = 64%nat /\ le_value (drop 32 sig) < 2 ^ 253 /\
       exists P, decodes pk P /\
         le_value (take 32 sig) =
         encoding (padd (zmul (le_value (drop 32 sig)) B) (pneg (zmul (challenge (take 32 sig ++ pk ++ message)) P)))).
Proof.
  intros Hl. unfold Verify. assert (Hz : zlen pk =? PublicKeySize_ed = true) by (unfold zlen; rewrite Hl; done).
  rewrite Hz. cbn [negb]. destruct (Nat.eq_dec (length sig) 64%nat) as [Hs|Hs].
  2: { exists false. assert (E : zlen sig =? SignatureSize = false) by (apply Z.eqb_neq; unfold zlen, SignatureSize; lia).
       rewrite E. cbn [negb orb]. split; [done|]. split; [discriminate | intros [? _]; contradiction]. }
  assert (E : zlen sig =? SignatureSize = true) by (unfold zlen; rewrite Hs; done).
  rewrite E. cbn [negb orb]. clear E. pose proof (high_bits sig Hs) as Hh.
  destruct (Z.eqb_spec (Z.land (ith sig 63) 224) 0) as [Hb|Hb]; cbn [negb].
  2: { exists false. split; [done|]. split; [discriminate | intros (_ & ? & _); tauto]. }
  apply Hh in Hb. pose proof (FromBytes_decodes Extended_var pk Hl) as Hd.
  destruct (Extended_FromBytes Extended_var pk) as [A [|]]; cbn [fst snd negb] in *.
  2: { exists false. split; [done|]. split; [discriminate | intros (_ & _ & P & HP & _); by destruct (Hd P)]. }
  destruct Hd as (P & HA & HP). eexists. split; [reflexivity|].
  destruct (ScReduce_challenge (take 32 sig ++ pk ++ message)) as [Lh Vh].
  pose proof (l_range (le_value (sha512 (take 32 sig ++ pk ++ message)))) as Hc. fold (challenge (take 32 sig ++ pk ++ message)) in Hc.
  pose proof (GeDoubleScalarMultVartime_spec (ScReduce (sha512 (take 32 sig ++ pk ++ message))) _ (drop 32 sig)
    (pneg P) ltac:(rewrite Vh; lia) Hb (extended_neg A P HA) ltac:(apply curve_pneg, HP)) as HR.
  apply Projective_ToBytes_spec in HR as [LR VR]. rewrite Vh in VR.
  unfold bytes_Equal. rewrite bool_decide_eq_true. unfold sbytes. cbn [default from_option]. unfold id.
  assert (Eq : forall Q, decodes pk Q ->
    encoding (padd (zmul (le_value (drop 32 sig)) B) (pneg (zmul (challenge (take 32 sig ++ pk ++ message)) Q))) =
    encoding (padd (zmul (challenge (take 32 sig ++ pk ++ message)) (pneg P)) (zmul (le_value (drop 32 sig)) B))).
  { intros Q HQ. rewrite (decodes_unique _ _ _ HQ HP), zmul_pneg, zmul_opp, padd_comm by apply HP. done. }
  split.
  - intros E. split; [done|]. split; [done|]. exists P. split; [done|]. rewrite (Eq P HP), <- VR. f_equal. exact E.
  - intros (_ & _ & Q & HQ & E). apply le_value_inj; [rewrite LR, length_take; lia|]. rewrite VR, E. by apply Eq.
Qed.

(** The equation of the scheme: [s = h a + r] modulo l makes [s B - h (a B)] the point [r B]. *)
Lemma response r h a : padd (zmul ((h * a + r) mod Scalar.l) B) (pneg (zmul h (zmul a B))) == zmul r B.
Proof.
  pose proof curve_B as HB.
  rewrite zmul_mod, <- zmul_mul, <- zmul_opp, <- zmul_add by done. f_equiv. ring.
Qed.

Lemma Sign_verifies seed message :
  length seed = 32%nat ->
  exists sig, Sign sha512 (private_key seed) message = Ok sig /\ zlen sig = 64 /\
    Verify sha512 (public_key seed) message sig = Ok true.
Proof.
  intros Hl. destruct (public_key_spec seed) as [Lp Vp].
  destruct (Sign_ok seed message Hl) as (R & s & HS & LR & Ls & VR & Vs).
  exists (R ++ s). split; [exact HS|]. split; [unfold zlen; rewrite length_app, LR, Ls; done|].
  destruct (Verify_spec (public_key seed) message (R ++ s) Lp) as (b & -> & Hb). f_equal. apply Hb.
  rewrite <- LR, take_app_length, drop_app_length, length_app, Ls, LR.
  split; [done|]. split; [rewrite Vs; apply l_range|].
  exists (zmul (secret seed) B). split; [apply decodes_encoding; auto with curve|].
  rewrite VR, Vs, response. done.
Qed.

(** Adding l to the second half changes nothing, when it stays below 2^253. *)
Lemma Verify_shift pk message sig :
  length pk = 32%nat -> Verify sha512 pk message sig = Ok true ->
  le_value (drop 32 sig) + Scalar.l < 2 ^ 253 ->
  Verify sha512 pk message (take 32 sig ++ le_bytes 32 (le_value (drop 32 sig) + Scalar.l)) = Ok true.
Proof.
  intros Hl HV Hs. destruct (Verify_spec pk message sig Hl) as (b & E & Hb). rewrite HV in E. injection E as <-.
  destruct Hb as [Hb _]. destruct (Hb eq_refl) as (HL & _ & P & HP & EP). clear Hb.
  set (sig' := take 32 sig ++ _). destruct (Verify_spec pk message sig' Hl) as (b' & -> & Hb'). f_equal. apply Hb'.
  assert (LT : length (take 32 sig) = 32%nat) by (rewrite length_take; lia).
  assert (ET : take 32 sig' = take 32 sig) by (unfold sig'; rewrite <- LT at 1; apply take_app_length).
  assert (ED : drop 32 sig' = le_bytes 32 (le_value (drop 32 sig) + Scalar.l))
    by (unfold sig'; rewrite <- LT at 1; apply drop_app_length).
  assert (Hpos : 0 < Scalar.l) by reflexivity.
  pose proof (le_value_range (drop 32 sig)) as Hr.
  assert (EV : le_value (drop 32 sig') = le_value (drop 32 sig) + Scalar.l).
  { rewrite ED, le_value_bytes. apply Z.mod_small. change (256 ^ Z.of_nat 32) with (2 ^ 256). lia. }
  rewrite ET, EV. split; [unfold sig'; rewrite length_app, LT, length_le_bytes; done|]. split; [done|].
  exists P. split; [done|]. rewrite EP. apply encoding_proper. f_equiv.
  rewrite <- (zmul_mod (_ + Scalar.l)), <- (zmul_mod (le_value (drop 32 sig))).
  f_equiv. rewrite <- (Z.mul_1_l Scalar.l) at 2. symmetry. apply Z_mod_plus_full.
Qed.

(** ** The policy is a signature scheme *)

#[local] Opaque public_key private_key secret.

Lemma Ok_inj {T} (a b : T) : Ok a = Ok b -> a = b.
Proof. congruence. Qed.

Lemma Public_private_key seed : length seed = 32%nat -> Public (private_key seed) = Ok (public_key seed).
Proof.
  intros Hl. destruct (public_key_spec seed) as [Lp _]. change (private_key seed) with (seed ++ public_key seed). unfold Public.
  assert (E : zlen (seed ++ public_key seed) <? 32 = false) by (apply Z.ltb_ge; unfold zlen; rewrite length_app; lia).
  rewrite E. cbv zeta.
  assert (Ed : drop 32 (seed ++ public_key seed) = public_key seed) by (rewrite <- Hl; apply drop_app_length).
  rewrite Ed, take_ge, Lp by lia. cbn [Nat.sub replicate]. by rewrite app_nil_r.
Qed.

Lemma private_key_length seed : length seed = 32%nat -> zlen (private_key seed) = 64.
Proof. intros Hl. destruct (public_key_spec seed) as [Lp _]. change (private_key seed) with (seed ++ public_key seed). unfold zlen. rewrite length_app; lia. Qed.

Lemma Ed25519_Sign_ok k m : zlen k = 64 -> Ed25519_Sign sha512 k m = Sign sha512 k m.
Proof. intros Hk. unfold Ed25519_Sign. rewrite Hk. reflexivity. Qed.
Lemma Ed25519_Verify_ok k m s : length k = 32%nat -> Ed25519_Verify sha512 k m s = Verify sha512 k m s.
Proof. intros Hk. unfold Ed25519_Verify, zlen. rewrite Hk. reflexivity. Qed.

Definition ed25519_laws : SignatureLaws (H := Ed25519 sha512).
Proof.
  refine {| sl_genuine k := exists seed, length seed = 32%nat /\ k = private_key seed |}.
  - intros k (seed & Hl & ->). by apply private_key_length.
  - intros k (seed & Hl & ->). exists (public_key seed). split; [by apply Public_private_key|].
    unfold zlen. rewrite (proj1 (public_key_spec seed)). done.
  - intros k q m (seed & Hl & ->) Hp. cbn in Hp. unfold Ed25519_PrivateToPublic in Hp.
    rewrite Public_private_key in Hp by done. apply Ok_inj in Hp. subst q.
    destruct (Sign_verifies seed m Hl) as (sig & HS & _ & HV). exists sig.
    change (@sp_Sign (Ed25519 sha512)) with (Ed25519_Sign sha512).
    change (@sp_Verify (Ed25519 sha512)) with (Ed25519_Verify sha512).
    rewrite Ed25519_Sign_ok, Ed25519_Verify_ok by (apply private_key_length || apply public_key_spec; exact Hl).
    exact (conj HS HV).
Defined.
End Scheme.

(** ** Theorems *)

(** C10. What a generated key signs, its public key verifies.  From any 32 bytes of randomness
    [GenerateKey] makes a 32-byte public and a 64-byte private key, [Public] of the latter is the
    former, every message gets a 64-byte signature, and [Verify] accepts it; through the policy,
    a [RandomKeyPair] signs what [crypto.Verify] accepts, whatever the hash policy. *)
Theorem signature_verifies {F : FieldElements} {L : FieldLaws F} {C : Constants F} {CL : ConstantLaws L C}
    {TL : TableLaws L C} (sha512 : bytes -> bytes) (hp : HashPolicy) (seed message : bytes) :
  (forall m, length (sha512 m) = 64%nat) -> length seed = 32%nat ->
  exists pk sk,
    GenerateKey sha512 (Ok seed) = Ok (pk, sk) /\ zlen pk = 32 /\ zlen sk = 64 /\ Public sk = Ok pk /\
    (exists sig, Sign sha512 sk message = Ok sig /\ zlen sig = 64 /\ Verify sha512 pk message sig = Ok true) /\
    RandomKeyPair sha512 (Ok seed) = Ok (mkKeyPair sk pk) /\
    exists sig, KeyPair_Sign (sp := Ed25519 sha512) (mkKeyPair sk pk) message = Ok sig /\
      Crypto.Verify (sp := Ed25519 sha512) pk message sig = Ok true.
Proof.
  intros Hsha Hl. exists (public_key sha512 seed), (private_key sha512 seed).
  pose proof (GenerateKey_ok sha512 Hsha seed) as HG. destruct (public_key_spec sha512 Hsha seed) as [Lp _].
  split; [exact HG|]. split; [unfold zlen; rewrite Lp; reflexivity|].
  split; [by apply private_key_length|]. split; [by apply Public_private_key|].
  split; [by apply Sign_verifies|]. split; [unfold RandomKeyPair; rewrite HG; reflexivity|].
  set (k := private_key sha512 seed). set (q := public_key sha512 seed) in *.
  assert (Hg : sl_genuine (SignatureLaws := ed25519_laws sha512 Hsha) k) by (exists seed; split; [exact Hl | reflexivity]).
  destruct (sl_verify (SignatureLaws := ed25519_laws sha512 Hsha) k q (HashBytes message) Hg
    (Public_private_key sha512 Hsha seed Hl)) as (sig & HS & HV).
  pose proof (sl_size (SignatureLaws := ed25519_laws sha512 Hsha) k Hg) as Hk.
  assert (Hq : zlen q = PublicKeySize_ed) by (unfold zlen; rewrite Lp; reflexivity).
  exists sig. unfold KeyPair_Sign, Crypto.Verify. cbn [PrivateKey]. rewrite Hk, Z.eqb_refl. cbn [negb].
  change (@PublicKeySize (Ed25519 sha512)) with PublicKeySize_ed. rewrite Hq, Z.eqb_refl. cbn [negb].
  exact (conj HS HV).
Qed.

(** A function to 64 bytes and the portable representation, for the witnesses. *)
#[local] Existing Instance portable.
#[local] Existing Instance portable_laws.
#[local] Existing Instance portable_constants.

Definition toy_sha512 (m : bytes) : bytes := take 64 (m ++ replicate 64 x00).
Lemma toy_sha512_length m : length (toy_sha512 m) = 64%nat.
Proof. unfold toy_sha512. rewrite length_take, length_app, length_replicate. lia. Qed.

Lemma signature_verifies_witness :
  exists pk sk sig, GenerateKey toy_sha512 (Ok (replicate 32 x2a)) = Ok (pk, sk) /\
    Sign toy_sha512 sk [x01; x02] = Ok sig /\ Verify toy_sha512 pk [x01; x02] sig = Ok true.
Proof.
  destruct (signature_verifies toy_sha512 Noop (replicate 32 x2a) [x01; x02] toy_sha512_length eq_refl)
    as (pk & sk & HG & _ & _ & _ & (sig & HS & _ & HV) & _).
  exists pk, sk, sig. exact (conj HG (conj HS HV)).
Defined.

(** C11. What [Verify] decides.  On a 32-byte key it returns a boolean whatever the message and the
    signature: true exactly when the signature has 64 bytes, its second half S is below 2^253,
    the key decodes to a point P and the first half is the encoding of [S B - h P], where h is
    the hash of the first half, key and message modulo l.  On a key of another size it panics,
    and the policy answers false. *)
Theorem Verify_correct {F : FieldElements} {L : FieldLaws F} {C : Constants F} {CL : ConstantLaws L C}
    {TL : TableLaws L C} (sha512 : bytes -> bytes) (pk message sig : bytes) :
  (forall m, length (sha512 m) = 64%nat) ->
  (length pk = 32%nat ->
   exists b, Verify sha512 pk message sig = Ok b /\ Ed25519_Verify sha512 pk message sig = Ok b /\
    (b = true <-> length sig = 64%nat /\ le_value (drop 32 sig) < 2 ^ 253 /\
       exists P, decodes pk P /\
         le_value (take 32 sig) =
         encoding (padd (zmul (le_value (drop 32 sig)) B)
           (pneg (zmul (le_value (sha512 (take 32 sig ++ pk ++ message)) mod Scalar.l) P))))) /\
  (length pk <> 32%nat ->
   is_panic (Verify sha512 pk message sig) = true /\ Ed25519_Verify sha512 pk message sig = Ok false).
Proof.
  intros Hsha. split; intros Hl.
  - destruct (Verify_spec sha512 Hsha pk message sig Hl) as (b & HV & Hb).
    exists b. split; [exact HV|]. split; [rewrite Ed25519_Verify_ok by exact Hl; exact HV | exact Hb].
  - assert (E : zlen pk =? PublicKeySize_ed = false) by (apply Z.eqb_neq; unfold zlen, PublicKeySize_ed; lia).
    unfold Ed25519_Verify, Verify. rewrite E. split; reflexivity.
Qed.

Lemma Verify_correct_witness :
  exists b, Verify toy_sha512 (replicate 32 x01) [x05] [x00] = Ok b /\ b <> true.
Proof.
  destruct (Verify_correct toy_sha512 (replicate 32 x01) [x05] [x00] toy_sha512_length) as [H _].
  destruct (H eq_refl) as (b & HV & _ & Hb). exists b. split; [exact HV|].
  intros E. apply Hb in E as [E _]. discriminate.
Defined.

(** C40. Signatures can be changed by anybody: [Verify] bounds the second half by 2^253 and not by l,
    so that an accepted signature stays accepted with l added to it. *)
Theorem signature_malleable {F : FieldElements} {L : FieldLaws F} {C : Constants F} {CL : ConstantLaws L C}
    {TL : TableLaws L C} (sha512 : bytes -> bytes) (pk message sig : bytes) :
  (forall m, length (sha512 m) = 64%nat) -> length pk = 32%nat ->
  Verify sha512 pk message sig = Ok true -> le_value (drop 32 sig) + Scalar.l < 2 ^ 253 ->
  let sig' := take 32 sig ++ le_bytes 32 (le_value (drop 32 sig) + Scalar.l) in
  sig' <> sig /\ Verify sha512 pk message sig' = Ok true.
Proof.
  intros Hsha Hl HV Hs sig'. split; [|by apply Verify_shift].
  intros E. destruct (Verify_spec sha512 Hsha pk message sig Hl) as (b & E' & Hb).
  rewrite HV in E'. apply Ok_inj in E'. subst b. destruct (proj1 Hb eq_refl) as (HL & _ & _).
  apply (f_equal (fun s => le_value (drop 32 s))) in E. unfold sig' in E. revert E.
  assert (LT : length (take 32 sig) = 32%nat) by (rewrite length_take; lia).
  rewrite <- LT at 1. rewrite drop_app_length, le_value_bytes.
  pose proof (le_value_range (drop 32 sig)) as Hr. assert (0 < Scalar.l) by reflexivity.
  rewrite Z.mod_small by (change (256 ^ Z.of_nat 32) with (2 ^ 256); lia). lia.
Qed.

(** The neutral point is a public key too: it accepts the signature (0, 0) of every message. *)
Lemma neutral_key {F : FieldElements} {L : FieldLaws F} {C : Constants F} {CL : ConstantLaws L C}
    {TL : TableLaws L C} (sha512 : bytes -> bytes) (message : bytes) :
  (forall m, length (sha512 m) = 64%nat) ->
  Verify sha512 (le_bytes 32 1) message (le_bytes 32 1 ++ replicate 32 x00) = Ok true.
Proof.
  intros Hsha. destruct (Verify_spec sha512 Hsha (le_bytes 32 1) message (le_bytes 32 1 ++ replicate 32 x00) eq_refl)
    as (b & -> & Hb). f_equal. apply Hb. clear Hb.
  change (take 32 (le_bytes 32 1 ++ replicate 32 x00)) with (le_bytes 32 1).
  change (drop 32 (le_bytes 32 1 ++ replicate 32 x00)) with (replicate 32 x00).
  change (le_value (replicate 32 x00)) with 0. change (le_value (le_bytes 32 1)) with 1.
  assert (E : encoding pzero = 1) by (vm_compute; reflexivity).
  split; [reflexivity|]. split; [reflexivity|]. exists pzero.
  split; [apply decodes_encoding; [reflexivity | rewrite E; reflexivity | exact curve_pzero]|].
  rewrite zmul_pzero, zmul_0, padd_neg_r by exact curve_pzero. rewrite E. reflexivity.
Qed.

Lemma signature_malleable_witness :
  Verify toy_sha512 (le_bytes 32 1) [x07] (le_bytes 32 1 ++ le_bytes 32 Scalar.l) = Ok true.
Proof.
  destruct (signature_malleable toy_sha512 (le_bytes 32 1) [x07] (le_bytes 32 1 ++ replicate 32 x00)
    toy_sha512_length eq_refl (neutral_key _ _ toy_sha512_length) eq_refl) as [_ H].
  exact H.
Defined.
