(* ===== verification/Arch.v ===== *)
(** * The two architectures agree

    Signatures do not depend on the machine: [src/crypto/ed25519/] compiled with the 32-bit
    limbs of [Fe.v] and with the 51-bit limbs and assembly of [FeAmd64.v] gives the same bytes
    and the same answers.  Everything between the two is group.go, which is proved against the
    class of [FieldRep.v] and holds for both. *)

From S2P Require Import Prelude Modp Fe FeAmd64 Const ConstAmd64 Word FieldRep Field Scalar Curve Group Decode Table.
From S2P Require Import TableAmd64 Recode ScalarMult Messages Crypto Ed25519.
#[local] Open Scope Z_scope.

(** ** The package *)

(** What a build of [crypto/ed25519/] exports: the functions of base.go and the policy. *)
Record package := mkPackage {
  pkg_GenerateKey : res bytes -> res (bytes * bytes);
  pkg_Sign : bytes -> bytes -> res bytes;
  pkg_Verify : bytes -> bytes -> bytes -> res bool;
  pkg_policy : SignaturePolicy;
}.
Definition build {F : FieldElements} (C : Constants F) (sha512 : bytes -> bytes) : package :=
  mkPackage (GenerateKey (C := C) sha512) (Sign (C := C) sha512) (Verify (C := C) sha512)
    (Ed25519 (C := C) sha512).

(** The builds with the tag [amd64] and without it. *)
Definition amd64_build : (bytes -> bytes) -> package := build amd64_constants.
Definition portable_build : (bytes -> bytes) -> package := build portable_constants.

(** ** Any two representations *)

Section Agree.
Context {F : FieldElements} {L : FieldLaws F} {C : Constants F} {CL : ConstantLaws L C} {TL : TableLaws L C}.
Context {F' : FieldElements} {L' : FieldLaws F'} {C' : Constants F'} {CL' : ConstantLaws L' C'} {TL' : TableLaws L' C'}.
Context (sha512 : bytes -> bytes) (Hsha : forall m, length (sha512 m) = 64%nat).

(** From here on the arithmetic is what its specifications say. *)
#[local] Opaque GeScalarMultBase GeDoubleScalarMultVartime ScReduce ScMulAdd Extended_ToBytes
  Projective_ToBytes Extended_FromBytes zmul padd encoding clamp Scalar.l B.

(** The encoding of a multiple of the base point. *)
Lemma base_bytes_agree k :
  length k = 32%nat -> le_value k < 2 ^ 255 ->
  Extended_ToBytes (GeScalarMultBase (C := C) k) = Extended_ToBytes (GeScalarMultBase (C := C') k).
Proof.
  intros Hl Hk.
  destruct (Extended_ToBytes_spec _ _ (GeScalarMultBase_spec (L := L) k Hl Hk)) as [Ls Vs].
  destruct (Extended_ToBytes_spec _ _ (GeScalarMultBase_spec (L := L') k Hl Hk)) as [Ls' Vs'].
  apply le_value_inj; [rewrite Ls, Ls'; reflexivity | rewrite Vs, Vs'; reflexivity].
Qed.

Lemma GenerateKey_agree seed : GenerateKey (C := C) sha512 seed = GenerateKey (C := C') sha512 seed.
Proof.
  destruct seed as [seed | |]; [|reflexivity..].
  rewrite (GenerateKey_ok (C := C) sha512 Hsha), (GenerateKey_ok (C := C') sha512 Hsha).
  assert (E : public_key (C := C) sha512 seed = public_key (C := C') sha512 seed).
  { apply base_bytes_agree; [apply clamp_length | apply clamp_range]; apply Hsha. }
  unfold private_key. rewrite E. reflexivity.
Qed.

Lemma Sign_agree privateKey message : Sign (C := C) sha512 privateKey message = Sign (C := C') sha512 privateKey message.
Proof.
  unfold Sign. destruct (negb _); [reflexivity|]. cbv zeta.
  set (r := ScReduce (sha512 (drop 32 (sha512 (take 32 privateKey)) ++ message))).
  destruct (ScReduce_challenge sha512 Hsha (drop 32 (sha512 (take 32 privateKey)) ++ message)) as [Lr Vr].
  pose proof (l_range (le_value (sha512 (drop 32 (sha512 (take 32 privateKey)) ++ message)))) as Hr.
  fold r in Lr, Vr. assert (Hk : le_value r < 2 ^ 255) by (rewrite Vr; unfold challenge; lia). clearbody r.
  rewrite (base_bytes_agree r Lr Hk). reflexivity.
Qed.

Lemma Verify_agree publicKey message sig :
  Verify (C := C) sha512 publicKey message sig = Verify (C := C') sha512 publicKey message sig.
Proof.
  destruct (decide (length publicKey = 32%nat)) as [Hl|Hl].
  - destruct (Verify_spec (L := L) sha512 Hsha publicKey message sig Hl) as (b & -> & Hb).
    destruct (Verify_spec (L := L') sha512 Hsha publicKey message sig Hl) as (b' & -> & Hb').
    f_equal. apply eq_true_iff_eq. rewrite Hb, Hb'. reflexivity.
  - assert (E : zlen publicKey =? PublicKeySize_ed = false) by (apply Z.eqb_neq; unfold zlen, PublicKeySize_ed; lia).
    unfold Verify. rewrite E. reflexivity.
Qed.
End Agree.

(** ** Theorems *)

(** C13. The code compiled for amd64 and for the other architectures generates the same keys from the
    same randomness, signs with any private key (also of a wrong size or not generated by it) to
    the same bytes, and accepts the same signatures, panics included; the policies of the network
    are the same too. *)
Theorem architectures_agree (sha512 : bytes -> bytes) (seed : res bytes) (key message sig : bytes) :
  (forall m, length (sha512 m) = 64%nat) ->
  let a := amd64_build sha512 in
  let b := portable_build sha512 in
  pkg_GenerateKey a seed = pkg_GenerateKey b seed /\
  pkg_Sign a key message = pkg_Sign b key message /\
  pkg_Verify a key message sig = pkg_Verify b key message sig /\
  @sp_Sign (pkg_policy a) key message = @sp_Sign (pkg_policy b) key message /\
  @sp_Verify (pkg_policy a) key message sig = @sp_Verify (pkg_policy b) key message sig.
Proof.
  intros Hsha. cbv zeta. unfold amd64_build, portable_build, build.
  cbn [pkg_GenerateKey pkg_Sign pkg_Verify pkg_policy].
  pose proof (Sign_agree (TL := amd64_tables) (TL' := portable_tables) sha512 Hsha key message) as ES.
  pose proof (Verify_agree (TL := amd64_tables) (TL' := portable_tables) sha512 Hsha key message sig) as EV.
  split; [exact (GenerateKey_agree (TL := amd64_tables) (TL' := portable_tables) sha512 Hsha seed)|].
  split; [exact ES|]. split; [exact EV|]. cbn [sp_Sign sp_Verify Ed25519].
  unfold Ed25519_Sign, Ed25519_Verify. rewrite ES, EV. split; reflexivity.
Qed.

Lemma architectures_agree_witness :
  pkg_Verify (amd64_build toy_sha512) (le_bytes 32 1) [x07] (le_bytes 32 1 ++ replicate 32 x00) = Ok true.
Proof.
  destruct (architectures_agree toy_sha512 (Err EmptyString) (le_bytes 32 1) [x07]
    (le_bytes 32 1 ++ replicate 32 x00) toy_sha512_length) as (_ & _ & E & _).
  etransitivity; [exact E|]. unfold portable_build, build. cbn [pkg_Verify].
  exact (neutral_key (TL := portable_tables) toy_sha512 [x07] toy_sha512_length).
Defined.
